(* ===== verification/_CoqProject ===== *)
-Q . S2P
Prelude.v
GoStrings.v
GoSlice.v
GoPath.v
GoFS.v
GoTree.v
Images.v
PodConfig.v
FlagOpts.v
PodSpec.v
PodTemplate.v
ManifestFile.v
ApiServerArgs.v
StaticPod.v
ExecutorSteps.v
KubeletView.v
Cri.v
Sandbox.v
Cleanup.v
Kube.v
NetPolicy.v
CisHooks.v
GoNet.v
GoWin.v
WinNet.v
CisController.v
CisLifecycle.v
InitExecutor.v
NodeStart.v
Cmds.v
Entry.v
Rke2.v
ClusterRoles.v
Hooks.v
Bootstrap.v
Charts.v
Shell.v
Startup.v
WinCni.v
PEBinary.v
WinInit.v
WinService.v
