(* ===== verification/Prelude.v ===== *)
(** * A verification of RKE2's node core

    RKE2 is a Kubernetes distribution: one Go binary that turns a machine into a
    server or an agent.  It resolves the images to run, generates one static pod
    per control-plane component, writes the pods' manifests where the kubelet
    picks them up, waits until the container runtime runs what the manifests
    say, removes what must not run any more, and applies the security defaults of
    a cluster.  Before that it checks the command line and the host, and stages the
    binaries and charts of its release.  On a Windows node the components are
    processes, and the network plugin is set up and started by the program itself.
    This library models that core as executable definitions,
    translated from the Go sources under src/pkg, and proves the properties that
    make it correct; some theorems show where the code does not do what it means
    to.

    ** The parts, and the files that model them

    - Foundations.  [Prelude]: Go errors, results, generic lemmas.  [GoStrings]:
      package strings, strconv.  [GoSlice]: slices over shared arrays, for the
      loops that delete from the slice they range over.  [GoPath]: filepath.
      [GoFS]: the file system with every call able to fail, every intermediate
      tree recorded, [os.Stat] through links, and a small program logic
      ([triple]).  [GoTree]: directories,
      links and walks, and the frame logic ([spares]: what a program leaves
      alone at every moment, whatever fails).  [GoNet]: CIDR and address texts.  [GoWin]: filepath on
      Windows, and where a Windows path stands in the tree of [GoFS].
    - main.go, pkg/auth: [Entry] (the application, its commands, how the process
      ends; the chain of authenticators of bootstrap tokens).
    - pkg/cli/cmds: [FlagOpts] (the option tables and flags of every command and
      how the commands of k3s are wrapped), [Cmds] (the checks of CNI, cloud
      provider and security profile, certificate rotation), [Rke2] (the run
      functions), [Shell] (completion scripts).  pkg/logging: [Shell].
    - pkg/bootstrap: [Bootstrap] (bootstrap.go, spegel.go: staging the runtime
      image under its completion marker, cleaning old releases, the embedded
      registry), [Charts] (bootstrap.go, charts.go: rewriting HelmCharts and
      deploying the manifests).
    - pkg/images/images.go: [Images], the resolver (overrides, default registry,
      references, preloaded images).  The name library of go-containerregistry
      is the class [NameApi] with laws [NameLaws].
    - pkg/podtemplate: [PodConfig] (config.go, types.go: resources, probes,
      environment and mounts from the command line), [PodSpec] (spec.go: the
      specification of each component), [PodTemplate] (podtemplate.go, utils.go:
      the pod itself, its volumes, probes, file digest, audit policy).
    - pkg/executor/staticpod/staticpod.go: [ManifestFile] ([writeFile],
      [removeTemplate]), [ApiServerArgs] (the flag loop of [APIServer], on shared
      slices), [StaticPod] (the handlers), [ExecutorSteps] (a step relation in
      which handler calls, closing channels and waiting writers interleave),
      [KubeletView] (the machine with three atomic rules that the kubelet may
      rely on, and the refinement), [Startup] ([Bootstrap], [Kubelet], the
      runtime handlers; a step relation of staging, runtime and charts).
    - pkg/executor/staticpod/spw.go and [stopEtcd]: [Cri] (the runtime as an
      unknown state machine), [Sandbox] (the check of sandboxes against
      manifests, and its poll).
    - pkg/executor/staticpod/cleanup.go: [Cleanup] (removal of disabled pods, the
      termination poll on its shared slice, the temporary containerd's command).
    - pkg/rke2: [InitExecutor] (rke2_linux.go, rke2.go, pkg/cli/defaults: how a
      start decides what runs), [NodeStart] (its effect on the manifests of
      everything k3s asks for later), [Rke2] (rke2.go and the run functions: the
      host name from the metadata service, [setup], [Server], [Agent]), [Kube]
      (the Kubernetes API with optimistic concurrency), [NetPolicy] (np.go),
      [CisHooks] (serviceaccount.go, psa.go, spc.go, kp.go), [ClusterRoles]
      (clusterrole.go, clusterrole_bootstrap.go), [Hooks] (the startup hooks that
      [Rke2] installs, run together).
    - pkg/controllers/cisnetworkpolicy: [CisController] (the policy and its
      reconciliation), [CisLifecycle] (a step relation of the controller, its
      queue and the clients that change nodes).
    - pkg/windows: [WinNet] (utils.go: interfaces, the platform, the networks of the
      host network service), [WinCni] (types.go, calico.go, flannel.go: the
      configuration files of the plugins, their start, the address reserved for
      kube-proxy).  pkg/executor/pebinary and none.go: [PEBinary], the executor,
      proved against the interface [CNIPlugin] whose laws the three plugins
      discharge.  rke2_windows.go, defaults_windows.go: [WinInit].
      service_windows.go, agent_service_windows.go: [WinService].

    ** How code becomes definitions

    A function keeps its name; its helpers are the loop bodies and branches of
    the same function.  Pure code is a function; code that can fail returns
    [result]; code on the file system is [io], which takes a fault schedule and
    the state; code that also talks to the container runtime is [act]; code that
    also changes the host network service or starts processes is [win]; calls of
    the Kubernetes API thread a [cluster].  Pointers that the code updates are
    threaded as values, and slices that alias live in a store.  Map iteration
    order, random numbers, environment variables, what other processes do
    between two polls, and which goroutine is heard first are arguments, so the
    theorems hold for all of them.  Code outside the repository (YAML, JSON,
    SHA-256, the image name parser, the CRI, the kubelet's sandbox rule, the
    Kubernetes API, kine, the etcd configuration writer, HNS) is a class of
    operations; where a theorem needs documented behaviour of it, that is a
    named law of a second class, and each file ends with a concrete instance on
    which the theorems are applied.

    ** What the theorems show

    - Refinement: the executor, with its temporary files, faults and interleaved
      writers, implements a machine in which a channel closes, the kube-apiserver
      manifest is withdrawn, or the complete manifest of a component that is due
      appears ([KubeletView.executor_refines_view]).
    - Manifests: at every moment of every interleaving and under every fault
      schedule each manifest is absent, the old one, or the complete YAML of a
      pod ([ExecutorSteps.manifests_always_complete]); they appear only after
      the channel their component waits for ([manifests_in_order],
      [no_apiserver_before_etcd]); etcd's initial options survive the trip
      through its manifest ([etcd_options_roundtrip]).
    - Reconciliation: what the runtime has answered when a check succeeds, exactly
      which sandboxes it removes, what the last poll has seen, and that for a pod
      on the host's network the checks converge ([Sandbox]).  The kubelet's
      [PodSandboxChanged] is used with its documented cases only, the one in
      which it names no sandbox (another network namespace) included.
    - Start and cleanup: a component that must not run has no manifest after a
      start in which no call failed and which was no clean install
      ([InitExecutor]), and the kubelet then never sees one of an earlier run
      whatever happens later ([NodeStart.removed_until_called]); cleanup touches
      nothing else, removes nothing when the bin directory, to which a link
      points, or the manifests directory is missing, and waits for every
      component ([Cleanup]).
    - Servers: with the CIS profile k3s runs only on a hardened node
      ([Rke2.cis_server_hardened]); which charts a server does not deploy
      ([server_disable_list]), which controller it runs
      ([cis_controller_follows_cni]), how its node is named
      ([node_named_by_metadata]).
    - Pods: volumes match mounts, names are distinct, probes are valid, the
      digest covers the mounted files, and every user setting ends where it
      should ([PodTemplate], [PodSpec], [PodConfig], [Images]).
    - Staging: where the completion marker is absent at the start it never stands
      next to an incomplete release ([Bootstrap.Stage_marker_complete]; a stale
      one does, [Stage_stale_marker]); where it is absent or honest no runtime is
      ready before the release is complete, and chart deployment leaves it alone
      ([Startup.cri_ready_after_staging], [Charts.updateManifests_spares_stage]);
      a staged node starts offline, old releases in use are kept.
    - Charts: values reach exactly the charts with injection enabled, whatever the
      map order, as long as all of them can be set, and the rest stays up to what
      the export of the YAML library drops; unselected ingress controllers are
      disabled ([Charts]).
    - Command line: a command of k3s is wrapped exactly when every flag has options
      and a supported type and every option that is not ignored a flag, and then
      with the names, texts, default and visibility the table asks for
      ([FlagOpts.mustCmdFromK3S_spec]); which
      CNI and cloud provider selections are accepted and which charts they
      disable, what the cis profile demands, and that a certificate rotation
      forces a restart ([Cmds]); log flags of one process do not leak into the
      next, and -v is left to it ([Shell]); only holders of bootstrap tokens are
      let in ([Entry.bootstrap_token_needed]).
    - Windows: kube-proxy only runs after the CNI's start has succeeded, with the
      address the plugin has reserved ([PEBinary.kube_proxy_after_cni]); a restart
      keeps the networks while its clocks give the same second for the boot
      ([WinCni.networks_survive_restart]), and what is deleted otherwise
      ([WinNet.deleteAllNetworks_spec]); Felix and confd wait for the networks and
      the node ([WinCni.Calico_Start_processes]); the interface of a network is
      found ([WinNet.findInterfaceCIDR_spec]); paths survive the templates
      ([WinCni.replace_roundtrip]); the uninstall lock stops the kubelet
      ([PEBinary.kubelet_stops]) and a stop request the service
      ([WinService.Execute_stops]); what is added to the service manager can be
      taken away ([WinService.service_add_delete]).
    - Cluster defaults: policies, service accounts and host rules are applied
      ([NetPolicy], [CisHooks], [CisController]), the bindings of the node's
      components are what is declared and give no more than their purpose
      ([ClusterRoles]); the hooks of a CIS server succeed in any order and
      together harden the cluster ([Hooks.cis_hooks_applied]); whenever the
      controller is at rest the policies admit exactly the known hosts, or every
      source when these have no host network
      ([CisLifecycle.policy_follows_nodes]).
    - Flaws: [ApiServerArgs.filter_args_skips], [PodTemplate.ReadFiles_exclude_leak],
      [Cleanup.terminate_removes_unlabelled], [NetPolicy.setPolicies_forgets_last],
      [Bootstrap.Stage_stale_marker], [Charts.inject_order_matters],
      [Charts.legacy_nginx_is_not_default], [Shell.rc_entry_joins_line],
      [WinNet.findInterface_wrong], [WinNet.findInterfaceRegEx_panics],
      [WinNet.metadata_address_is_nil], [WinCni.Setup_cut_short],
      [WinCni.search_domain_fixed], [WinCni.boot_second_differs], [WinInit.hostnameFQDN_fails],
      [WinService.failed_add_stays], [Rke2.canal_in_a_list_is_cleaned_up],
      [CisLifecycle.removed_node_stays_admitted], and the empty rule of
      [CisController.host_rule_spec].

    ** Bounds

    Loops of the code are structural recursions on the list they range over; the
    two loops over shrinking slices recurse on the length of the slice header
    evaluated on entry, which is how Go bounds them.  Polls take the number of
    evaluations before their context ends; the theorems hold for every number,
    and where success is claimed the number is given.  [os.MkdirTemp] takes the
    number of names it tries (10000 in Go; success needs one).  Retries use the
    step counts of client-go.  Integers that are parsed keep their width: probe
    thresholds are int32, user and group ids int64.

    ** What is not modelled

    Log output; ownership of files beyond the failure of chown; the contents of
    processes started by the code, and the restarts of a process other than the
    kubelet (each is kept running by the same loop); what k3s runs once it is
    started; the parser of the command line; the stop signal that a child gets
    with its parent (command_linux.go).  Startup hooks run in any order but one
    after the other: their goroutines share no object. *)

From Stdlib Require Export Ascii.
From stdpp Require Export base gmap strings list sorting pretty.
From stdpp Require Import options.

Declare Scope rke2_scope.
Delimit Scope rke2_scope with rke2.

(** ** Go errors

    A Go [error] value, as far as the program inspects it: sentinel errors of
    package [os], the reasons the Kubernetes API machinery distinguishes, and
    messages built by [errors.New]/[fmt.Errorf] or wrapped by
    [errors.WithMessage]. *)
Inductive error :=
  | ErrMsg (msg : string)
  | ErrWithMessage (msg : string) (cause : error)
  | ErrNotExist
  | ErrExist
  | ErrIO (msg : string)
  | ErrApiNotFound
  | ErrApiAlreadyExists
  | ErrApiConflict
  | ErrApiOther (msg : string)
  (** a run-time panic; nothing in the program recovers one, so it ends the call
      like an error that no caller handles *)
  | ErrPanic (msg : string).

#[export] Instance error_eq_dec : EqDecision error.
Proof. solve_decision. Defined.

(** [err.Error()] *)
Fixpoint error_text (e : error) : string :=
  match e with
  | ErrMsg m | ErrIO m | ErrApiOther m | ErrPanic m => m
  | ErrWithMessage m c => m +:+ ": " +:+ error_text c
  | ErrNotExist => "file does not exist"
  | ErrExist => "file already exists"
  | ErrApiNotFound => "not found"
  | ErrApiAlreadyExists => "already exists"
  | ErrApiConflict => "conflict"
  end.

(** [fmt.Errorf] with the text of an error (%v), which is not wrapped. *)
Definition ErrText (msg : string) (e : error) : error := ErrMsg (msg +:+ ": " +:+ error_text e).

(** [os.IsNotExist] looks at the error itself, not at what it wraps. *)
Definition os_IsNotExist (e : error) : bool :=
  match e with ErrNotExist => true | _ => false end.

Definition os_IsExist (e : error) : bool :=
  match e with ErrExist => true | _ => false end.

(** [errors.Is(err, os.ErrNotExist)] follows the chain of wrapped causes. *)
Fixpoint errors_Is_ErrNotExist (e : error) : bool :=
  match e with
  | ErrNotExist => true
  | ErrWithMessage _ c => errors_Is_ErrNotExist c
  | _ => false
  end.

Definition apierrors_IsNotFound (e : error) : bool :=
  match e with ErrApiNotFound => true | _ => false end.
Definition apierrors_IsAlreadyExists (e : error) : bool :=
  match e with ErrApiAlreadyExists => true | _ => false end.
Definition apierrors_IsConflict (e : error) : bool :=
  match e with ErrApiConflict => true | _ => false end.

(** ** Results: a value or an error *)
Inductive result (A : Type) :=
  | Ok (a : A)
  | Err (e : error).
Arguments Ok {A} a.
Arguments Err {A} e.

#[export] Instance result_ret : MRet result := fun A a => Ok a.
#[export] Instance result_bind : MBind result := fun A B f m =>
  match m with Ok a => f a | Err e => Err e end.
#[export] Instance result_fmap : FMap result := fun A B f m =>
  match m with Ok a => Ok (f a) | Err e => Err e end.

#[export] Instance result_eq_dec `{EqDecision A} : EqDecision (result A).
Proof. solve_decision. Defined.

Definition is_Ok {A} (r : result A) : bool :=
  match r with Ok _ => true | Err _ => false end.

(** [errors.WithMessage(err, msg)] applied to a failed result. *)
Definition with_message {A} (msg : string) (r : result A) : result A :=
  match r with Ok a => Ok a | Err e => Err (ErrWithMessage msg e) end.

Lemma bind_Ok {A B} (m : result A) (f : A → result B) b :
  m ≫= f = Ok b ↔ ∃ a, m = Ok a ∧ f a = Ok b.
Proof. destruct m; [naive_solver|]. split; [done|]. by intros (? & ? & ?). Qed.

Lemma with_message_Ok {A} msg (r : result A) a :
  with_message msg r = Ok a ↔ r = Ok a.
Proof. by destruct r. Qed.

(** ** Lists *)

Lemma filter_all {A} (P : A → Prop) `{!∀ x, Decision (P x)} (l : list A) :
  Forall P l → filter P l = l.
Proof.
  induction 1 as [|x l Hx _ IH]; [done|]. by rewrite filter_cons, decide_True, IH.
Qed.

Lemma filter_none {A} (P : A → Prop) `{!∀ x, Decision (P x)} (l : list A) :
  Forall (λ x, ¬ P x) l → filter P l = [].
Proof.
  induction 1 as [|x l Hx _ IH]; [done|]. by rewrite filter_cons, decide_False, IH.
Qed.

Lemma NoDup_fmap_filter {A B} (f : A → B) (P : A → Prop) `{!∀ x, Decision (P x)} (l : list A) :
  NoDup (f <$> l) → NoDup (f <$> filter P l).
Proof.
  induction l as [|x l IH]; [done|]. rewrite fmap_cons, NoDup_cons, filter_cons.
  intros [Hx Hl]. case_decide; [|auto]. rewrite fmap_cons, NoDup_cons. split; [|auto].
  rewrite list_elem_of_fmap in Hx |- *. intros (y & Hy & [_ ?]%list_elem_of_filter). eauto.
Qed.

Lemma Forall_filter {A} (Q P : A → Prop) `{!∀ x, Decision (P x)} (l : list A) :
  Forall Q l → Forall Q (filter P l).
Proof.
  rewrite !Forall_forall. intros Hl x [_ Hx]%list_elem_of_filter. by apply Hl.
Qed.

(** ** Maps *)

Lemma map_union_absorb {A} (m1 m2 : gmap string A) : m2 ⊆ m1 → m1 ∪ m2 = m1.
Proof.
  rewrite map_subseteq_spec. intros Hsub. apply map_eq. intros k. rewrite lookup_union.
  destruct (m1 !! k) as [x|] eqn:E1, (m2 !! k) as [y|] eqn:E2; try done.
  apply Hsub in E2. congruence.
Qed.
