(* ===== verification/GoStrings.v ===== *)
(** * GoStrings: the parts of Go's [strings], [strconv] and [sort] the program uses

    Go strings are byte strings; here they are [string], a list of 8-bit
    characters.  [ToLower] and [TrimSpace] are the restrictions of the Go
    functions to ASCII bytes (a multi-byte rune is left alone).  No rune outside
    ASCII lower-cases to a letter of the words the program looks for after
    [ToLower] ("proxy", "ro", "rw"), so the restriction does not change the
    outcome of those tests. *)

From S2P Require Import Prelude.
From stdpp Require Import options.

(** ** Characters and concatenation *)

Definition comma : ascii := ","%char.
Definition equals : ascii := "="%char.
Definition dquote : string := String "034" "".

Fixpoint has_char (c : ascii) (s : string) : bool :=
  match s with
  | "" => false
  | String d s' => bool_decide (d = c) || has_char c s'
  end.

Fixpoint Len (s : string) : nat :=
  match s with "" => 0 | String _ s' => S (Len s') end.

Lemma app_cons c s t : String c s +:+ t = String c (s +:+ t).
Proof. done. Qed.
Lemma app_nil_l' t : "" +:+ t = t.
Proof. done. Qed.
Lemma app_nil_r' t : t +:+ "" = t.
Proof. induction t as [|c t IH]; [done|]. by rewrite app_cons, IH. Qed.
Lemma app_assoc' s t u : s +:+ (t +:+ u) = (s +:+ t) +:+ u.
Proof. induction s as [|c s IH]; [done|]. by rewrite !app_cons, IH. Qed.
Lemma Len_app s t : Len (s +:+ t) = Len s + Len t.
Proof. induction s as [|c s IH]; [done|]. rewrite app_cons; simpl. by rewrite IH. Qed.
Lemma app_inj_r' s t u : s +:+ u = t +:+ u → s = t.
Proof.
  revert t. induction s as [|c s IH]; intros [|d t]; rewrite ?app_cons, ?app_nil_l'; intros H.
  - done.
  - apply (f_equal Len) in H. simpl in H. rewrite Len_app in H. lia.
  - apply (f_equal Len) in H. simpl in H. rewrite Len_app in H. lia.
  - injection H as -> H. by rewrite (IH t).
Qed.
Lemma has_char_app c s t : has_char c (s +:+ t) = has_char c s || has_char c t.
Proof.
  induction s as [|d s IH]; [done|]. rewrite app_cons; simpl. by rewrite IH, orb_assoc.
Qed.

Create Rewrite HintDb gostr.
#[export] Hint Rewrite app_cons app_nil_l' app_nil_r' Len_app has_char_app : gostr.

(** ** [strings.Cut], [strings.Split] and [strings.SplitN(_, _, 2)] with a
    one-byte separator *)

(** [Cut sep s] is [None] when [sep] does not occur, else the text around its
    first occurrence. *)
Fixpoint Cut (sep : ascii) (s : string) : option (string * string) :=
  match s with
  | "" => None
  | String c s' =>
      if decide (c = sep) then Some ("", s')
      else match Cut sep s' with
           | Some (b, a) => Some (String c b, a)
           | None => None
           end
  end.

(** [name, value, _ := strings.Cut(s, sep)]: the name is all of [s] and the
    value empty when the separator is absent. *)
Definition cut_name (sep : ascii) (s : string) : string :=
  match Cut sep s with Some (b, _) => b | None => s end.
Definition cut_value (sep : ascii) (s : string) : string :=
  match Cut sep s with Some (_, a) => a | None => "" end.

Definition SplitN2 (sep : ascii) (s : string) : list string :=
  match Cut sep s with Some (b, a) => [b; a] | None => [s] end.

Fixpoint Split (sep : ascii) (s : string) : list string :=
  match s with
  | "" => [""]
  | String c s' =>
      if decide (c = sep) then "" :: Split sep s'
      else match Split sep s' with
           | w :: ws => String c w :: ws
           | [] => [String c ""]
           end
  end.

(** [strings.Join] *)
Fixpoint Join (sep : string) (l : list string) : string :=
  match l with
  | [] => ""
  | [s] => s
  | s :: l' => s +:+ sep +:+ Join sep l'
  end.

(** ** Prefixes, suffixes, containment *)

Fixpoint HasPrefix (p s : string) : bool :=
  match p, s with
  | "", _ => true
  | String c p', String d s' => bool_decide (c = d) && HasPrefix p' s'
  | _, _ => false
  end.

Definition HasSuffix (suf s : string) : bool :=
  HasPrefix (String.rev suf) (String.rev s).

Fixpoint drop_str (n : nat) (s : string) : string :=
  match n, s with
  | S n', String _ s' => drop_str n' s'
  | _, _ => s
  end.

Fixpoint take_str (n : nat) (s : string) : string :=
  match n, s with
  | S n', String c s' => String c (take_str n' s')
  | _, _ => ""
  end.

Definition TrimPrefix (p s : string) : string :=
  if HasPrefix p s then drop_str (Len p) s else s.

Definition TrimSuffix (suf s : string) : string :=
  if HasSuffix suf s then take_str (Len s - Len suf) s else s.

(** [strings.Contains(s, sub)] *)
Fixpoint Contains (s sub : string) : bool :=
  HasPrefix sub s || match s with "" => false | String _ s' => Contains s' sub end.

(** ** Case and white space, on ASCII bytes *)

Definition lower_char (c : ascii) : ascii :=
  let n := N_of_ascii c in
  if bool_decide (65 ≤ n ∧ n ≤ 90)%N then ascii_of_N (n + 32) else c.

Fixpoint ToLower (s : string) : string :=
  match s with "" => "" | String c s' => String (lower_char c) (ToLower s') end.

Fixpoint TrimLeftSpace (s : string) : string :=
  match s with
  | String c s' => if Ascii.is_space c then TrimLeftSpace s' else s
  | "" => ""
  end.

Definition TrimSpace (s : string) : string :=
  String.rev (TrimLeftSpace (String.rev (TrimLeftSpace s))).

(** [strings.ReplaceAll(s, c, t)] for a one-byte [c]. *)
Fixpoint ReplaceAll (s : string) (c : ascii) (t : string) : string :=
  match s with
  | "" => ""
  | String d s' =>
      if decide (d = c) then t +:+ ReplaceAll s' c t else String d (ReplaceAll s' c t)
  end.

(** ** [strconv] *)

(** The value of a run of decimal digits after [acc]. *)
Fixpoint digits_value (acc : Z) (s : string) : option Z :=
  match s with
  | "" => Some acc
  | String c s' =>
      match Ascii.is_nat c with
      | Some d => digits_value (10 * acc + Z.of_nat d) s'
      | None => None
      end
  end%Z.

Definition parse_uint (s : string) : option Z :=
  match s with "" => None | _ => digits_value 0 s end.

(** [strconv.ParseInt(s, 10, bits)]; [None] stands for a non-nil error, a
    syntax error or a value that does not fit in [bits] bits. *)
Definition ParseInt (bits : Z) (s : string) : option Z :=
  let signed := match s with
                | String "-" s' => Z.opp <$> parse_uint s'
                | String "+" s' => parse_uint s'
                | _ => parse_uint s
                end in
  match signed with
  | Some v => if decide (- 2 ^ (bits - 1) ≤ v < 2 ^ (bits - 1))%Z then Some v else None
  | None => None
  end.

(** [strconv.ParseBool] *)
Definition ParseBool (s : string) : option bool :=
  if decide (s ∈ ["1"; "t"; "T"; "TRUE"; "true"; "True"]) then Some true
  else if decide (s ∈ ["0"; "f"; "F"; "FALSE"; "false"; "False"]) then Some false
  else None.

(** [strconv.FormatBool] *)
Definition FormatBool (b : bool) : string := if b then "true" else "false".

(** ** [sort.Strings] *)
Definition sort_Strings (l : list string) : list string := merge_sort String.le l.

(** ** Lemmas *)

Lemma Cut_Some sep s b a :
  Cut sep s = Some (b, a) ↔ s = b +:+ String sep a ∧ has_char sep b = false.
Proof.
  revert b. induction s as [|c s IH]; intros b; simpl.
  - split; [done|]. intros [H _]. by destruct b.
  - case_decide as Hc; [subst c|].
    + split; [naive_solver|]. intros [H Hb].
      destruct b as [|d b]; rewrite ?app_cons, ?app_nil_l' in H; simplify_eq/=; [done|].
      by rewrite bool_decide_eq_true_2 in Hb.
    + destruct (Cut sep s) as [[b' a']|] eqn:E.
      * split.
        -- intros; simplify_eq. destruct (proj1 (IH b') eq_refl) as [-> ?].
           split; [done|]. simpl. by rewrite bool_decide_eq_false_2.
        -- intros [H Hb]. destruct b as [|d b]; rewrite ?app_cons, ?app_nil_l' in H; simplify_eq/=.
           apply orb_false_iff in Hb as [_ Hb].
           specialize (proj2 (IH b) (conj eq_refl Hb)). naive_solver.
      * split; [done|]. intros [H Hb].
        destruct b as [|d b]; rewrite ?app_cons, ?app_nil_l' in H; simplify_eq/=.
        apply orb_false_iff in Hb as [_ Hb].
        specialize (proj2 (IH b) (conj eq_refl Hb)). done.
Qed.

Lemma Cut_None sep s : Cut sep s = None ↔ has_char sep s = false.
Proof.
  induction s as [|c s IH]; simpl; [done|].
  case_decide; subst; [by rewrite bool_decide_eq_true_2|].
  rewrite bool_decide_eq_false_2 by done. simpl.
  rewrite <-IH. by destruct (Cut sep s) as [[]|].
Qed.

Lemma Cut_app sep b a : has_char sep b = false → Cut sep (b +:+ String sep a) = Some (b, a).
Proof. intros. by apply Cut_Some. Qed.

Lemma SplitN2_length sep s : length (SplitN2 sep s) = 1 ∨ length (SplitN2 sep s) = 2.
Proof. unfold SplitN2. destruct (Cut sep s) as [[]|]; auto. Qed.

Lemma Split_ne_nil sep s : Split sep s ≠ [].
Proof. destruct s; simpl; [done|]. case_decide; [done|]. by destruct (Split sep s). Qed.

(** Splitting loses nothing: joining the pieces gives the text back. *)
Lemma Join_Split sep s : Join (String sep "") (Split sep s) = s.
Proof.
  induction s as [|c s IH]; [done|]. simpl.
  pose proof (Split_ne_nil sep s). case_decide; subst.
  - destruct (Split sep s) eqn:E; [done|].
    change (Join (String sep "") ("" :: s0 :: l))
      with ("" +:+ String sep "" +:+ Join (String sep "") (s0 :: l)).
    rewrite IH. done.
  - destruct (Split sep s) as [|w [|w' ws]] eqn:E; [done| |]; simpl in *.
    + by subst.
    + rewrite <-IH. by rewrite app_cons.
Qed.

Lemma Split_no_sep sep s w : w ∈ Split sep s → has_char sep w = false.
Proof.
  revert w. induction s as [|c s IH]; intros w; simpl.
  - by intros ->%list_elem_of_singleton.
  - case_decide as Hc.
    + intros [->|Hw]%elem_of_cons; auto.
    + destruct (Split sep s) as [|w0 ws] eqn:E; [by destruct (Split_ne_nil sep s)|].
      intros [->|Hw]%elem_of_cons.
      * simpl. rewrite bool_decide_eq_false_2 by done. apply IH. by left.
      * apply IH. by right.
Qed.

(** Pieces without the separator are recovered by splitting their join. *)
Lemma Split_no_char sep s : has_char sep s = false → Split sep s = [s].
Proof.
  induction s as [|c s IH]; simpl; [done|].
  intros [Hc Hs]%orb_false_iff. apply bool_decide_eq_false in Hc.
  rewrite decide_False by done. by rewrite IH.
Qed.

Lemma Split_app sep w s :
  has_char sep w = false → Split sep (w +:+ String sep s) = w :: Split sep s.
Proof.
  induction w as [|c w IH]; simpl.
  - intros _. by rewrite decide_True.
  - intros [Hc Hs]%orb_false_iff. apply bool_decide_eq_false in Hc.
    rewrite decide_False by done. by rewrite IH.
Qed.

Lemma Split_app_sep sep a b : Split sep (a +:+ String sep b) = Split sep a ++ Split sep b.
Proof.
  induction a as [|c a IH].
  - rewrite app_nil_l'. cbn [Split]. by rewrite decide_True.
  - rewrite app_cons. cbn [Split]. rewrite IH.
    case_decide; [done|]. by destruct (Split sep a) eqn:E; [apply Split_ne_nil in E|].
Qed.

Lemma Split_Join sep l :
  l ≠ [] → Forall (λ w, has_char sep w = false) l → Split sep (Join (String sep "") l) = l.
Proof.
  intros Hne Hl. induction l as [|w l IH]; [done|].
  apply Forall_cons in Hl as [Hw Hl].
  destruct l as [|w' l]; [by apply Split_no_char|].
  change (Join (String sep "") (w :: w' :: l))
    with (w +:+ String sep (Join (String sep "") (w' :: l))).
  rewrite Split_app by done. by rewrite IH.
Qed.

(** *** Prefixes *)
Lemma HasPrefix_app p s : HasPrefix p s = true ↔ ∃ t, s = p +:+ t.
Proof.
  revert s. induction p as [|c p IH]; intros s; simpl.
  - split; [by eexists|done].
  - destruct s as [|d s].
    + split; [done|]. by intros [t ?].
    + rewrite andb_true_iff, bool_decide_eq_true, IH. split.
      * intros (-> & t & ->). by exists t.
      * intros [t H]. rewrite app_cons in H. simplify_eq. naive_solver.
Qed.

Lemma drop_str_app p t : drop_str (Len p) (p +:+ t) = t.
Proof. induction p; [done|]. by rewrite app_cons. Qed.

Lemma TrimPrefix_app p t : TrimPrefix p (p +:+ t) = t.
Proof.
  unfold TrimPrefix. rewrite (proj2 (HasPrefix_app p _)) by eauto. apply drop_str_app.
Qed.

Lemma Contains_app s sub : Contains s sub = true ↔ ∃ a b, s = a +:+ sub +:+ b.
Proof.
  induction s as [|c s IH]; cbn [Contains]; rewrite orb_true_iff, HasPrefix_app.
  - split.
    + intros [[t Ht]|?]; [|done]. by exists "", t.
    + intros (a & b & H). left. exists b. by destruct a.
  - rewrite IH. split.
    + intros [[t Ht]|(a & b & ->)]; [by exists "", t|]. by exists (String c a), b.
    + intros ([|d a] & b & H); rewrite ?app_nil_l', ?app_cons in H; simplify_eq; eauto.
Qed.

(** *** [strconv.ParseInt] *)
Lemma ParseInt_bounds bits s v :
  ParseInt bits s = Some v → (- 2 ^ (bits - 1) ≤ v < 2 ^ (bits - 1))%Z.
Proof. unfold ParseInt. intros. by repeat case_match; simplify_eq. Qed.

Lemma is_nat_pretty_char (d : N) :
  (d < 10)%N → Ascii.is_nat (pretty_N_char d) = Some (N.to_nat d).
Proof.
  intros Hd. assert (d ∈ [0;1;2;3;4;5;6;7;8;9]%N) as H by set_solver by lia.
  repeat (apply elem_of_cons in H as [->|H]; [done|]). by apply not_elem_of_nil in H.
Qed.

Lemma digits_value_pretty_go x s :
  digits_value 0 (pretty_N_go x s) = digits_value (Z.of_N x) s.
Proof.
  revert s. induction (N.lt_wf_0 x) as [x _ IH]; intros s.
  destruct (decide (x = 0)%N) as [->|Hx]; [by rewrite pretty_N_go_0|].
  rewrite pretty_N_go_step by lia.
  rewrite IH by (apply N.div_lt; lia). cbn [digits_value].
  rewrite is_nat_pretty_char by (apply N.mod_lt; lia). f_equal.
  rewrite N_nat_Z. rewrite (N.div_mod x 10) at 3 by done. lia.
Qed.

(** Every character of a printed natural is a digit. *)
Fixpoint all_digits (s : string) : bool :=
  match s with
  | "" => true
  | String c s' => match Ascii.is_nat c with Some _ => all_digits s' | None => false end
  end.

Lemma pretty_go_digits x s : all_digits s = true → all_digits (pretty_N_go x s) = true.
Proof.
  revert s. induction (N.lt_wf_0 x) as [x _ IH]; intros s Hs.
  destruct (decide (x = 0)%N) as [->|Hx]; [by rewrite pretty_N_go_0|].
  rewrite pretty_N_go_step by lia.
  apply IH; [apply N.div_lt; lia|]. cbn [all_digits].
  by rewrite is_nat_pretty_char by (apply N.mod_lt; lia).
Qed.

Lemma pretty_N_digits (x : N) : all_digits (pretty x) = true.
Proof.
  unfold pretty, pretty_N. case_decide; [done|]. by apply pretty_go_digits.
Qed.

Lemma pretty_N_value (x : N) : digits_value 0 (pretty x) = Some (Z.of_N x).
Proof.
  unfold pretty, pretty_N. case_decide; [by subst|]. by rewrite digits_value_pretty_go.
Qed.

Lemma pretty_N_ne_empty (x : N) : pretty x ≠ "".
Proof.
  intros H. pose proof (pretty_N_value x) as Hv. rewrite H in Hv. simpl in Hv.
  assert (x = 0%N) as -> by (injection Hv; lia). done.
Qed.

(** Printing a number with %d and parsing it back is the identity within range. *)
Lemma ParseInt_pretty bits (x : N) :
  (Z.of_N x < 2 ^ (bits - 1))%Z → ParseInt bits (pretty x) = Some (Z.of_N x).
Proof.
  intros Hx. unfold ParseInt.
  assert (match pretty x with
          | String "-" s' => Z.opp <$> parse_uint s'
          | String "+" s' => parse_uint s'
          | _ => parse_uint (pretty x)
          end = Some (Z.of_N x)) as ->.
  { pose proof (pretty_N_digits x) as Hd. pose proof (pretty_N_value x) as Hv.
    pose proof (pretty_N_ne_empty x) as Hne.
    assert (parse_uint (pretty x) = Some (Z.of_N x)) as Hp.
    { unfold parse_uint. by destruct (pretty x). }
    destruct (pretty x) as [|c s]; [done|].
    destruct c as [[] [] [] [] [] [] [] []]; try exact Hp; cbn in Hd; done. }
  rewrite decide_True by lia. done.
Qed.

(** *** [sort.Strings] *)
Lemma sort_Strings_perm l : sort_Strings l ≡ₚ l.
Proof. apply merge_sort_Permutation. Qed.

Lemma sort_Strings_sorted l : StronglySorted String.le (sort_Strings l).
Proof. apply StronglySorted_merge_sort; apply _. Qed.

(** The result of sorting does not depend on the order of the input. *)
Lemma sort_Strings_proper l1 l2 : l1 ≡ₚ l2 → sort_Strings l1 = sort_Strings l2.
Proof.
  intros H. apply (StronglySorted_unique String.le); try apply sort_Strings_sorted.
  by rewrite !sort_Strings_perm.
Qed.

Lemma elem_of_sort_Strings x l : x ∈ sort_Strings l ↔ x ∈ l.
Proof. by rewrite sort_Strings_perm. Qed.

(** *** Reversal and suffixes *)
Lemma rev_app_app s t : String.rev_app s t = String.rev s +:+ t.
Proof.
  unfold String.rev. revert t. induction s as [|c s IH]; intros t; simpl; [done|].
  rewrite IH, (IH (String c "")). by rewrite <-app_assoc'.
Qed.

Lemma rev_app_distr' s t : String.rev (s +:+ t) = String.rev t +:+ String.rev s.
Proof.
  induction s as [|c s IH].
  - by rewrite app_nil_l', app_nil_r'.
  - rewrite app_cons.
    change (String.rev (String c (s +:+ t))) with (String.rev_app (s +:+ t) (String c "")).
    change (String.rev (String c s)) with (String.rev_app s (String c "")).
    rewrite !rev_app_app, IH. by rewrite app_assoc'.
Qed.

Lemma HasSuffix_app t s : HasSuffix t s = true ↔ ∃ u, s = u +:+ t.
Proof.
  assert (∀ x, String.rev (String.rev x) = x) as Hinv.
  { intros x. induction x as [|c x IH]; [done|].
    change (String c x) with (String c "" +:+ x).
    by rewrite !rev_app_distr', IH. }
  unfold HasSuffix. rewrite HasPrefix_app. split.
  - intros [u Hu]. exists (String.rev u). apply (f_equal String.rev) in Hu.
    by rewrite Hinv, rev_app_distr', Hinv in Hu.
  - intros [u ->]. exists (String.rev u). by rewrite rev_app_distr'.
Qed.
