(* ===== verification/GoSlice.v ===== *)
(** * GoSlice: Go slices with shared backing arrays

    A Go slice is a window (array, offset, length, capacity) on an array that
    other slices may share.  [append(s[:i], s[i+1:]...)] and
    [slices.DeleteFunc] overwrite that array in place, and a [for range] loop
    keeps reading the array through the slice header it evaluated on entry.
    The three loops of the program that delete from the slice they range over
    (the flag filter of [StaticPodConfig.APIServer], the poll body of
    [terminateRunningContainers] and [removeFinalizer]) are modelled on this
    store so that the aliasing is the code's. *)

From S2P Require Import Prelude.
From stdpp Require Import options.

Record slice := Slice { s_arr : nat; s_off : nat; s_len : nat; s_cap : nat }.

(** The store: array number [k] is the [k]-th list. *)
Abbreviation store A := (list (list A)).

Section ops.
Context {A : Type}.
Implicit Types (h : store A) (s : slice).

(** The array a slice points into. *)
Definition backing h s : list A := h !!! s_arr s.

(** The elements of a slice, [s[0:len(s)]]. *)
Definition contents h s : list A := take (s_len s) (drop (s_off s) (backing h s)).

(** [s[i]]; [None] is the index-out-of-range panic. *)
Definition index h s (i : nat) : option A :=
  if decide (i < s_len s) then backing h s !! (s_off s + i) else None.

(** [s[lo:hi]]; [None] is the slice-bounds panic. *)
Definition reslice s (lo hi : nat) : option slice :=
  if decide (lo ≤ hi ∧ hi ≤ s_cap s)
  then Some (Slice (s_arr s) (s_off s + lo) (hi - lo) (s_cap s - lo))
  else None.

(** [append(s, vs...)]: in place when the capacity allows it, else into a
    fresh array (whose capacity is the least the language allows). *)
Definition append h s (vs : list A) : store A * slice :=
  if decide (s_len s + length vs ≤ s_cap s) then
    (<[s_arr s := list_inserts (s_off s + s_len s) vs (backing h s)]> h,
     Slice (s_arr s) (s_off s) (s_len s + length vs) (s_cap s))
  else
    (h ++ [contents h s ++ vs],
     Slice (length h) 0 (s_len s + length vs) (s_len s + length vs)).

(** A slice literal, or the result of a call: a fresh array. *)
Definition literal h (vs : list A) : store A * slice :=
  (h ++ [vs], Slice (length h) 0 (length vs) (length vs)).

(** [append(s[:i], s[i+1:]...)] *)
Definition delete_at h s (i : nat) : option (store A * slice) :=
  s1 ← reslice s 0 i;
  s2 ← reslice s (S i) (s_len s);
  Some (append h s1 (contents h s2)).

(** [slices.DeleteFunc(s, del)]: the kept elements move to the front and the
    tail is cleared to the zero value. *)
Definition DeleteFunc h s (del : A → bool) (zero : A) : store A * slice :=
  let kept := filter (λ x, del x = false) (contents h s) in
  (<[s_arr s := list_inserts (s_off s)
                  (kept ++ replicate (s_len s - length kept) zero) (backing h s)]> h,
   Slice (s_arr s) (s_off s) (length kept) (s_cap s)).

(** A slice that covers the front of its array, the shape every loop here
    starts from and keeps. *)
Definition front h (k m : nat) (arr : list A) : Prop :=
  h !! k = Some arr ∧ m ≤ length arr.

Abbreviation front_slice k m n := (Slice k 0 m n).

Lemma contents_front h k m n arr :
  front h k m arr → contents h (front_slice k m n) = take m arr.
Proof.
  intros [Hk _]. unfold contents, backing. simpl.
  by rewrite (list_lookup_total_correct _ _ _ Hk).
Qed.

Lemma index_front h k m n arr i :
  front h k m arr → i < m → index h (front_slice k m n) i = arr !! i.
Proof.
  intros [Hk _] Hi. unfold index, backing. simpl. rewrite decide_True by done.
  by rewrite (list_lookup_total_correct _ _ _ Hk).
Qed.

Lemma list_inserts_mid (pre old vs post : list A) :
  length old = length vs →
  list_inserts (length pre) vs (pre ++ old ++ post) = pre ++ vs ++ post.
Proof.
  intros Hl. rewrite <-(Nat.add_0_r (length pre)), list_inserts_app_r.
  by rewrite list_inserts_0_r.
Qed.

(** Deleting position [length pre]: the tail moves left by one and the last
    element of the slice stays behind as a stale copy. *)
Lemma delete_at_front h k n pre x rest l z stale :
  h !! k = Some (pre ++ (x :: rest) ++ stale) →
  x :: rest = l ++ [z] →
  n = length pre + S (length rest) + length stale →
  delete_at h (front_slice k (length pre + S (length rest)) n) (length pre)
  = Some (<[k := pre ++ rest ++ z :: stale]> h,
          front_slice k (length pre + length rest) n).
Proof.
  intros Hk Hz ->. unfold delete_at, reslice. simpl.
  rewrite decide_True by lia. simpl. rewrite decide_True by lia. simpl.
  set (arr := pre ++ (x :: rest) ++ stale) in *.
  assert (contents h (Slice k (S (length pre)) (length pre + S (length rest) - S (length pre))
            (length pre + S (length rest) + length stale - S (length pre))) = rest) as ->.
  { unfold contents, backing. simpl. rewrite (list_lookup_total_correct _ _ _ Hk).
    replace (length pre + S (length rest) - S (length pre)) with (length rest) by lia.
    unfold arr. replace (S (length pre)) with (length pre + 1) by lia.
    rewrite drop_app_add. simpl. rewrite drop_0. by rewrite take_app_length. }
  unfold append, backing. simpl. rewrite (list_lookup_total_correct _ _ _ Hk).
  rewrite decide_True by lia. rewrite !Nat.sub_0_r. do 3 f_equal.
  unfold arr. rewrite Hz, <-(assoc_L (++)).
  assert (length l = length rest).
  { apply (f_equal length) in Hz. rewrite length_app in Hz. simpl in Hz. lia. }
  by rewrite list_inserts_mid.
Qed.

Lemma delete_at_panic h k m n i :
  m ≤ i → delete_at h (front_slice k m n) i = None.
Proof.
  intros. unfold delete_at, reslice. simpl.
  by repeat (case_decide; simpl; try lia).
Qed.

Lemma DeleteFunc_front h k n cur stale del zero :
  h !! k = Some (cur ++ stale) →
  DeleteFunc h (front_slice k (length cur) n) del zero
  = (<[k := filter (λ x, del x = false) cur ++
            replicate (length cur - length (filter (λ x, del x = false) cur)) zero ++ stale]> h,
     front_slice k (length (filter (λ x, del x = false) cur)) n).
Proof.
  intros Hk. unfold DeleteFunc.
  rewrite (contents_front _ _ _ _ (cur ++ stale)) by (split; [done|]; rewrite length_app; lia).
  rewrite take_app_length. unfold backing. simpl.
  rewrite (list_lookup_total_correct _ _ _ Hk). do 2 f_equal.
  rewrite list_inserts_0_r.
  - by rewrite <-(assoc_L (++)).
  - rewrite length_app, length_replicate.
    pose proof (length_filter (λ x, del x = false) cur). lia.
Qed.
End ops.
