(* ===== verification/GoPath.v ===== *)
(** * GoPath: [path/filepath] on Unix

    [Clean], [Join], [Dir] and [Base] as the Go standard library defines them
    for a system whose separator is the slash, with the lemmas for absolute
    clean paths that the file-system theorems use. *)

From S2P Require Import Prelude GoStrings.
From stdpp Require Import options.

Definition slash : ascii := "/"%char.

(** The components that survive cleaning; [stack] holds them in reverse. *)
Fixpoint norm (rooted : bool) (stack comps : list string) : list string :=
  match comps with
  | [] => reverse stack
  | c :: cs =>
      if decide (c = "" ∨ c = ".") then norm rooted stack cs
      else if decide (c = "..") then
        match stack with
        | t :: st => if decide (t = "..") then norm rooted (".." :: stack) cs else norm rooted st cs
        | [] => if rooted then norm rooted [] cs else norm rooted [".."] cs
        end
      else norm rooted (c :: stack) cs
  end.

Definition Clean (p : string) : string :=
  let rooted := HasPrefix "/" p in
  let body := Join "/" (norm rooted [] (Split slash p)) in
  if rooted then "/" +:+ body else if decide (body = "") then "." else body.

(** [filepath.Join]: leading empty elements are dropped. *)
Fixpoint filepath_Join (elems : list string) : string :=
  match elems with
  | [] => ""
  | "" :: es => filepath_Join es
  | es => Clean (Join "/" es)
  end.

(** The text up to and including the last slash, and the text after it. *)
Fixpoint split_last_slash (p : string) : string * string :=
  match p with
  | "" => ("", "")
  | String c p' =>
      let '(d, b) := split_last_slash p' in
      if has_char slash p' then (String c d, b)
      else if decide (c = slash) then (String c "", p')
      else ("", p)
  end.

Definition filepath_Dir (p : string) : string := Clean (fst (split_last_slash p)).

(** [filepath.Base] of a path with no trailing slash. *)
Definition filepath_Base (p : string) : string :=
  match p with
  | "" => "."
  | _ => match snd (split_last_slash p) with "" => "/" | b => b end
  end.

(** ** Absolute clean paths *)

Definition simple (c : string) : bool :=
  negb (has_char slash c) && bool_decide (c ≠ "" ∧ c ≠ "." ∧ c ≠ "..").

Definition mkpath (cs : list string) : string := "/" +:+ Join "/" cs.

Lemma simple_spec c :
  simple c = true ↔ has_char slash c = false ∧ c ≠ "" ∧ c ≠ "." ∧ c ≠ "..".
Proof. unfold simple. by rewrite andb_true_iff, negb_true_iff, bool_decide_eq_true. Qed.

Lemma norm_simple rooted stack cs :
  Forall (λ c, simple c = true) cs → norm rooted stack cs = reverse stack ++ cs.
Proof.
  intros Hcs. revert stack. induction Hcs as [|c cs Hc _ IH]; intros stack; simpl.
  - by rewrite app_nil_r.
  - apply simple_spec in Hc as (_ & ? & ? & ?).
    rewrite decide_False by naive_solver. rewrite decide_False by done.
    rewrite IH, reverse_cons. by rewrite <-(assoc_L (++)).
Qed.

Lemma norm_skip_empty rooted stack cs : norm rooted stack ("" :: cs) = norm rooted stack cs.
Proof. done. Qed.

Lemma Forall_simple_no_slash cs :
  Forall (λ c, simple c = true) cs → Forall (λ c, has_char slash c = false) cs.
Proof.
  intros Hcs. eapply Forall_impl; [done|]. intros c Hc. by apply simple_spec in Hc as [].
Qed.

Lemma Split_mkpath cs :
  cs ≠ [] → Forall (λ c, simple c = true) cs → Split slash (mkpath cs) = "" :: cs.
Proof.
  intros Hne Hcs. unfold mkpath.
  change (Split slash ("/" +:+ Join "/" cs)) with ("" :: Split slash (Join "/" cs)).
  by rewrite (Split_Join slash) by auto using Forall_simple_no_slash.
Qed.

Lemma Clean_mkpath cs : Forall (λ c, simple c = true) cs → Clean (mkpath cs) = mkpath cs.
Proof.
  intros Hcs. destruct (decide (cs = [])) as [->|Hne]; [done|].
  unfold Clean. rewrite Split_mkpath by done. rewrite norm_skip_empty, norm_simple by done.
  done.
Qed.

Lemma Join_snoc sep cs c : cs ≠ [] → Join sep (cs ++ [c]) = Join sep cs +:+ sep +:+ c.
Proof.
  intros Hne. induction cs as [|d cs IH]; [done|].
  destruct cs as [|e cs]; [done|]. change ((d :: e :: cs) ++ [c]) with (d :: ((e :: cs) ++ [c])).
  change (Join sep (d :: e :: cs)) with (d +:+ sep +:+ Join sep (e :: cs)).
  change (Join sep (d :: ((e :: cs) ++ [c]))) with (d +:+ sep +:+ Join sep ((e :: cs) ++ [c])).
  rewrite IH by done. by rewrite !app_assoc'.
Qed.

Lemma mkpath_snoc cs c : cs ≠ [] → mkpath (cs ++ [c]) = mkpath cs +:+ "/" +:+ c.
Proof. intros. unfold mkpath. by rewrite Join_snoc, !app_assoc'. Qed.

(** [filepath.Join(dir, name)] on an absolute clean directory and a plain name. *)
Lemma filepath_Join_mkpath cs c :
  Forall (λ c, simple c = true) cs → simple c = true →
  filepath_Join [mkpath cs; c] = mkpath (cs ++ [c]).
Proof.
  intros Hcs Hc. change (filepath_Join [mkpath cs; c]) with (Clean (mkpath cs +:+ "/" +:+ c)).
  assert (Forall (λ c, simple c = true) (cs ++ [c])) as Hcc by (apply Forall_app; auto).
  destruct (decide (cs = [])) as [->|Hne].
  - unfold Clean. change (mkpath [] +:+ "/" +:+ c) with (String slash (String slash c)).
    change (Split slash (String slash (String slash c))) with ("" :: "" :: Split slash c).
    rewrite Split_no_char by (by apply simple_spec in Hc as []).
    rewrite !norm_skip_empty, norm_simple by auto. done.
  - rewrite <-mkpath_snoc by done. by apply Clean_mkpath.
Qed.

Lemma split_last_slash_app d c :
  has_char slash c = false → split_last_slash (d +:+ String slash c) = (d +:+ "/", c).
Proof.
  intros Hc. induction d as [|x d IH].
  - rewrite !app_nil_l'. cbn [split_last_slash]. rewrite Hc.
    rewrite decide_True by done. by destruct (split_last_slash c).
  - rewrite !app_cons. cbn [split_last_slash]. rewrite IH.
    rewrite has_char_app. simpl. by rewrite orb_true_r.
Qed.

Lemma mkpath_snoc_slash cs c : ∃ d, mkpath (cs ++ [c]) = d +:+ String slash c ∧
  d +:+ "/" = (if decide (cs = []) then "/" else mkpath cs +:+ "/").
Proof.
  destruct (decide (cs = [])) as [->|Hne].
  - by exists "".
  - exists (mkpath cs). by rewrite mkpath_snoc.
Qed.

Lemma Clean_mkpath_slash cs :
  cs ≠ [] → Forall (λ c, simple c = true) cs → Clean (mkpath cs +:+ "/") = mkpath cs.
Proof.
  intros Hne Hcs. unfold Clean.
  change (HasPrefix "/" (mkpath cs +:+ "/")) with true. cbv iota.
  change (Split slash (mkpath cs +:+ "/"))
    with ("" :: Split slash (Join "/" cs +:+ String slash "")).
  assert (Split slash (Join "/" cs +:+ String slash "") = cs ++ [""]) as ->.
  { pose proof (Join_snoc "/" cs "" Hne) as HJ.
    change ("/" +:+ "") with (String slash "") in HJ. rewrite <-HJ, (Split_Join slash).
    - done.
    - by destruct cs.
    - apply Forall_app; split; [by apply Forall_simple_no_slash|]. by repeat constructor. }
  rewrite norm_skip_empty. unfold mkpath. do 2 f_equal.
  assert (∀ st, norm true st (cs ++ [""]) = reverse st ++ cs) as ->; [|done].
  clear Hne. induction Hcs as [|c cs Hc _ IH]; intros st; simpl; [by rewrite app_nil_r|].
  apply simple_spec in Hc as (_ & ? & ? & ?).
  rewrite decide_False by naive_solver. rewrite decide_False by done.
  rewrite IH, reverse_cons. by rewrite <-(assoc_L (++)).
Qed.

(** The directory and the base name of an absolute clean path. *)
Lemma filepath_Dir_mkpath cs c :
  Forall (λ c, simple c = true) cs → simple c = true →
  filepath_Dir (mkpath (cs ++ [c])) = mkpath cs.
Proof.
  intros Hcs Hc. destruct (mkpath_snoc_slash cs c) as (d & -> & Hd).
  unfold filepath_Dir. rewrite split_last_slash_app by (by apply simple_spec in Hc as []).
  simpl. rewrite Hd. case_decide as Hn; [by subst|]. by apply Clean_mkpath_slash.
Qed.

Lemma filepath_Base_mkpath cs c :
  simple c = true → filepath_Base (mkpath (cs ++ [c])) = c.
Proof.
  intros Hc. destruct (mkpath_snoc_slash cs c) as (d & -> & _).
  unfold filepath_Base. rewrite split_last_slash_app by (by apply simple_spec in Hc as []).
  apply simple_spec in Hc as (_ & ? & _). simpl. by destruct d, c.
Qed.

Lemma mkpath_inj cs ds :
  Forall (λ c, simple c = true) cs → Forall (λ c, simple c = true) ds →
  mkpath cs = mkpath ds → cs = ds.
Proof.
  intros Hcs Hds H.
  destruct (decide (cs = [])) as [->|Hc], (decide (ds = [])) as [->|Hd]; [done| | |].
  - apply (f_equal (Split slash)) in H. rewrite (Split_mkpath ds) in H by done.
    cbn in H. injection H as <-. by apply Forall_cons in Hds as [? _].
  - apply (f_equal (Split slash)) in H. rewrite (Split_mkpath cs) in H by done.
    cbn in H. injection H as ->. by apply Forall_cons in Hcs as [? _].
  - apply (f_equal (Split slash)) in H. rewrite !Split_mkpath in H by done. by simplify_eq.
Qed.
