(* ===== verification/GoFS.v ===== *)
(** * GoFS: the file system as the program sees it through package [os]

    The state is a map from clean paths to nodes, a counter of system calls and
    the history of every tree the system has been in.  Every call may fail: a
    fault schedule, quantified over in the theorems, says for each call number
    whether it fails and, if so, whether it fails before any effect or after a
    partial one (a short write, a half-done [MkdirAll] or [RemoveAll]).  The
    history makes statements about intermediate states possible, which is what
    a concurrent reader such as the kubelet observes. *)

From S2P Require Import Prelude GoStrings GoPath.
From stdpp Require Import options.

Inductive node :=
  | NDir
  | NFile (content : string) (perm : Z)
  | NSocket
  (** a symbolic link; [os_Stat] follows it, the other calls are only made on names
      that the program or its installer do not link *)
  | NLink (target : string)
  | NOther.

#[export] Instance node_eq_dec : EqDecision node.
Proof. solve_decision. Defined.

Abbreviation tree := (gmap string node).

Record fs := MkFS { nodes : tree; clock : nat; hist : list tree }.

(** [Some (e, None)]: fails at once with [e]; [Some (e, Some k)]: fails with [e]
    after [k] units of its effect. *)
Definition faults := nat → option (error * option nat).

Definition io (A : Type) := faults → fs → result A * fs.

#[export] Instance io_ret : MRet io := λ A a _ s, (Ok a, s).
#[export] Instance io_bind : MBind io := λ A B f m flt s,
  let '(r, s') := m flt s in
  match r with Ok a => f a flt s' | Err e => (Err e, s') end.

Definition io_fail {A} (e : error) : io A := λ _ s, (Err e, s).

(** The schedule in which no call fails. *)
Definition no_faults : faults := λ _, None.

Lemma io_bind_Ok {A B} (m : io A) (f : A → io B) flt s b s' :
  (m ≫= f) flt s = (Ok b, s') ↔ ∃ a s1, m flt s = (Ok a, s1) ∧ f a flt s1 = (Ok b, s').
Proof.
  unfold mbind, io_bind. destruct (m flt s) as [[a|e] s1]; split; [naive_solver..|done|].
  by intros (? & ? & ? & ?).
Qed.

(** Run [m] and look at its error instead of propagating it. *)
Definition attempt {A} (m : io A) : io (result A) := λ flt s,
  let '(r, s') := m flt s in (Ok r, s').

Definition io_with_message {A} (msg : string) (m : io A) : io A := λ flt s,
  let '(r, s') := m flt s in (with_message msg r, s').

(** The system passes through the trees [ts], oldest first. *)
Fixpoint push (ts : list tree) (s : fs) : fs :=
  match ts with
  | [] => s
  | t :: ts' => push ts' (MkFS t (clock s) (t :: hist s))
  end.

Definition syscall {A} (effect : tree → result A * list tree)
    (partial : tree → nat → list tree) : io A := λ flt s,
  let s1 := MkFS (nodes s) (S (clock s)) (hist s) in
  match flt (clock s) with
  | Some (e, None) => (Err e, s1)
  | Some (e, Some k) => (Err e, push (partial (nodes s) k) s1)
  | None => let '(r, ts) := effect (nodes s) in (r, push ts s1)
  end.

Definition no_partial (_ : tree) (_ : nat) : list tree := [].

(** ** Queries *)

(** Where a link at [p] points: a relative target starts at its directory. *)
Definition link_target (p target : string) : string :=
  if HasPrefix "/" target then Clean target else filepath_Join [filepath_Dir p; target].

(** The node a name stands for, through at most [links] links; a dangling link
    does not exist. *)
Fixpoint follow (links : nat) (t : tree) (p : string) : result node :=
  match t !! p with
  | None => Err ErrNotExist
  | Some (NLink target) =>
      match links with
      | 0 => Err (ErrIO "too many levels of symbolic links")
      | S links' => follow links' t (link_target p target)
      end
  | Some n => Ok n
  end.

(** Forty links, as in Linux. *)
Definition stat_at (t : tree) (p : string) : result node := follow 40 t (Clean p).

(** The other calls do not look through links: the program links one
    directory, and reads, writes and lists nothing under the name of the link. *)
Definition os_Stat (p : string) : io node := syscall (λ t, (stat_at t p, [])) no_partial.

Definition os_ReadFile (p : string) : io string :=
  syscall (λ t, (match t !! Clean p with
                 | Some (NFile c _) => Ok c
                 | Some _ => Err (ErrIO "not a regular file")
                 | None => Err ErrNotExist
                 end, [])) no_partial.

(** The entries of a directory, by name; [os.ReadDir] sorts them. *)
Definition children (t : tree) (p : string) : list (string * node) :=
  let m := filter (λ kv, filepath_Dir kv.1 = p ∧ kv.1 ≠ p) t in
  let names := sort_Strings (filepath_Base ∘ fst <$> map_to_list m) in
  omap (λ n, pair n <$> t !! filepath_Join [p; n]) names.

Definition os_ReadDir (p : string) : io (list (string * node)) :=
  syscall (λ t, (match t !! Clean p with
                 | Some NDir => Ok (children t (Clean p))
                 | Some _ => Err (ErrIO "not a directory")
                 | None => Err ErrNotExist
                 end, [])) no_partial.

Definition file_content (t : tree) (p : string) : option string :=
  match t !! Clean p with Some (NFile c _) => Some c | _ => None end.

(** A query leaves the tree and its history alone, and a result it reports is
    true of the tree. *)
Lemma syscall_query {A} (eff : tree → result A) flt s :
  let rs := syscall (λ t, (eff t, [])) no_partial flt s in
  nodes rs.2 = nodes s ∧ hist rs.2 = hist s ∧
  (rs.1 = eff (nodes s) ∨ ∃ e, rs.1 = Err e) ∧
  (flt (clock s) = None → rs.1 = eff (nodes s)).
Proof. unfold syscall. destruct (flt (clock s)) as [[e [k|]]|]; simpl; naive_solver. Qed.

Lemma os_ReadFile_Ok p flt s c s' :
  os_ReadFile p flt s = (Ok c, s') → file_content (nodes s) p = Some c ∧ nodes s' = nodes s.
Proof.
  intros E. pose proof (syscall_query (λ t, match t !! Clean p with
    | Some (NFile c _) => Ok c | Some _ => Err (ErrIO "not a regular file")
    | None => Err ErrNotExist end) flt s) as Hq. simpl in Hq.
  fold (os_ReadFile p) in Hq. rewrite E in Hq. simpl in Hq.
  destruct Hq as (Hn & _ & [Hr|[? Hr]] & _); [|done]. split; [|done].
  unfold file_content. repeat case_match; by simplify_eq.
Qed.

Lemma os_ReadFile_nodes p flt s : nodes (os_ReadFile p flt s).2 = nodes s.
Proof. apply (syscall_query (λ t, _)). Qed.

Lemma follow_plain k t p n :
  t !! p = Some n → (∀ target, n ≠ NLink target) → follow k t p = Ok n.
Proof.
  intros Hp Hn. destruct k; cbn [follow]; rewrite Hp; destruct n as [| | |target|]; try reflexivity;
    by destruct (Hn target).
Qed.

Lemma follow_missing k t p : t !! p = None → follow k t p = Err ErrNotExist.
Proof. intros Hp. by destruct k; cbn [follow]; rewrite Hp. Qed.

Lemma follow_Ok k t p n : follow k t p = Ok n → t !! p ≠ None ∧ ∀ target, n ≠ NLink target.
Proof.
  revert p. induction k as [|k IH]; intros p; cbn [follow]; destruct (t !! p) as [[]|];
    try (intros [= <-]; done); try done.
  intros Hf. split; [done|]. by destruct (IH _ Hf).
Qed.

(** What is not a link is found under its name. *)
Lemma stat_at_plain t p n :
  t !! Clean p = Some n → (∀ target, n ≠ NLink target) → stat_at t p = Ok n.
Proof. apply follow_plain. Qed.

Lemma stat_at_missing t p : t !! Clean p = None → stat_at t p = Err ErrNotExist.
Proof. apply follow_missing. Qed.

Lemma stat_at_Ok t p n : stat_at t p = Ok n → t !! Clean p ≠ None.
Proof. intros Hs. by destruct (follow_Ok _ _ _ _ Hs). Qed.

Lemma stat_at_file_content t p c :
  file_content t p = Some c → ∃ n, stat_at t p = Ok n ∧ n ≠ NDir.
Proof.
  unfold file_content. intros Hc. destruct (t !! Clean p) as [[]|] eqn:E; try done.
  eexists. split; [by apply (stat_at_plain _ _ _ E)|done].
Qed.

(** Something other than a link. *)
Definition plain_at (t : tree) (p : string) : Prop :=
  ∃ n, t !! Clean p = Some n ∧ ∀ target, n ≠ NLink target.

(** Taking things away makes nothing appear. *)
Lemma stat_at_subseteq t t' p n : t' ⊆ t → stat_at t' p = Ok n → stat_at t p = Ok n.
Proof.
  intros Hsub. unfold stat_at. generalize (Clean p) as q. generalize 40 as k.
  induction k as [|k IH]; intros q; cbn [follow]; destruct (t' !! q) as [m|] eqn:E; try done;
    rewrite (lookup_weaken _ _ _ _ E Hsub); destruct m; try done. apply IH.
Qed.

(** [os.IsNotExist] of a query of [p]. *)
Definition missing_at (t : tree) (p : string) : bool :=
  match stat_at t p with Err e => os_IsNotExist e | Ok _ => false end.

Lemma os_Stat_spec p flt s :
  nodes (os_Stat p flt s).2 = nodes s ∧
  match (os_Stat p flt s).1 with
  | Ok n => stat_at (nodes s) p = Ok n
  | Err e => flt (clock s) = None → stat_at (nodes s) p = Err e
  end.
Proof.
  pose proof (syscall_query (λ t, stat_at t p) flt s) as Hq. cbn zeta in Hq.
  unfold os_Stat. destruct (syscall _ _ flt s) as [r s']. cbn [fst snd] in *.
  destruct Hq as (Hn & _ & Hr & Hf). split; [done|].
  destruct r as [n|e]; [|intros Hflt; symmetry; by apply Hf].
  destruct Hr as [Hr|[? Hr]]; [by symmetry|done].
Qed.

(** ** Updates *)

(** The path and its ancestors, outermost first. *)
Fixpoint prefixes {A} (l : list A) : list (list A) :=
  match l with [] => [] | x :: l' => [x] :: (cons x <$> prefixes l') end.

Definition ancestors (p : string) : list string :=
  mkpath <$> prefixes (norm true [] (Split slash p)).

Fixpoint mkdirs (ps : list string) (t : tree) : result unit * list tree :=
  match ps with
  | [] => (Ok (), [])
  | p :: ps' =>
      match t !! p with
      | Some NDir => mkdirs ps' t
      | Some _ => (Err (ErrIO "not a directory"), [])
      | None => let t' := <[p := NDir]> t in
                let '(r, ts) := mkdirs ps' t' in (r, t' :: ts)
      end
  end.

Definition os_MkdirAll (p : string) : io unit :=
  syscall (mkdirs (ancestors p)) (λ t k, snd (mkdirs (take k (ancestors p)) t)).

(** The trees a writer of [content] to [p] passes through: the kernel may take
    the bytes in any number of pieces, so every prefix is seen, then all of it. *)
Definition writes (p before content : string) (perm : Z) (t : tree) : list tree :=
  ((λ k, <[p := NFile (before +:+ take_str k content) perm]> t) <$> seq 0 (Len content)) ++
  [<[p := NFile (before +:+ content) perm]> t].

(** [os.WriteFile]: create or truncate, then write; a short write leaves a
    prefix of the content. *)
Definition write_trees (p content : string) (perm : Z) (t : tree) : result unit * list tree :=
  match t !! filepath_Dir p with
  | Some NDir =>
      match t !! p with
      | None => (Ok (), writes p "" content perm t)
      | Some (NFile _ q) => (Ok (), writes p "" content q t)
      | Some _ => (Err (ErrIO "not a regular file"), [])
      end
  | _ => (Err ErrNotExist, [])
  end.

Definition os_WriteFile (p content : string) (perm : Z) : io unit :=
  syscall (write_trees (Clean p) content perm)
          (λ t k, snd (write_trees (Clean p) (take_str k content) perm t)).

(** [os.OpenFile(p, O_WRONLY|O_CREATE|O_EXCL, perm)] *)
Definition os_CreateExcl (p : string) (perm : Z) : io unit :=
  syscall (λ t, match t !! Clean p, t !! filepath_Dir (Clean p) with
                | Some _, _ => (Err ErrExist, [])
                | None, Some NDir => (Ok (), [<[Clean p := NFile "" perm]> t])
                | None, _ => (Err ErrNotExist, [])
                end) no_partial.

(** [file.Write] on a file this process has just created. *)
Definition os_WriteOpen (p content : string) : io unit :=
  let put (c : string) (t : tree) : list tree :=
    match t !! Clean p with
    | Some (NFile c0 q) => writes (Clean p) c0 c q t
    | _ => []
    end in
  syscall (λ t, (Ok (), put content t)) (λ t k, put (take_str k content) t).

(** [os.Rename] of a file: one atomic step. The program renames files only. *)
Definition os_Rename (a b : string) : io unit :=
  syscall (λ t, match t !! Clean a, t !! Clean b with
                | None, _ => (Err ErrNotExist, [])
                | Some NDir, _ | _, Some NDir => (Err (ErrIO "is a directory"), [])
                | Some n, _ => (Ok (), [<[Clean b := n]> (delete (Clean a) t)])
                end) no_partial.

Definition under (p q : string) : bool :=
  bool_decide (q = p) || HasPrefix (p +:+ "/") q.

Definition os_Remove (p : string) : io unit :=
  syscall (λ t, match t !! Clean p with
                | None => (Err ErrNotExist, [])
                | Some _ =>
                    if decide (filter (λ kv, under (Clean p) kv.1 = true ∧ kv.1 ≠ Clean p) t = ∅)
                    then (Ok (), [delete (Clean p) t])
                    else (Err (ErrIO "directory not empty"), [])
                end) no_partial.

Definition remove_keys (ks : list string) (t : tree) : tree := foldr delete t ks.

(** [os.RemoveAll] removes the nodes below [p] one at a time, in some order. *)
Definition os_RemoveAll (p : string) : io unit :=
  let keys t := (map_to_list (filter (λ kv, under (Clean p) kv.1 = true) t)).*1 in
  let trees n t := (λ k, remove_keys (take k (keys t)) t) <$> seq 0 n in
  syscall (λ t, (Ok (), trees (length (keys t)) t ++
                        [filter (λ kv, under (Clean p) kv.1 = false) t]))
          (λ t k, trees (S k) t).

(** [os.MkdirTemp(dir, pattern)]: the first of the random names that is free.
    [rnd] is the sequence of random suffixes the runtime draws, [tries] the
    bound on attempts (10000 in the Go library). *)
Fixpoint temp_name (rnd : nat → string) (dir pattern : string) (t : tree) (tries k : nat)
    : option string :=
  match tries with
  | 0 => None
  | S tries' =>
      let p := filepath_Join [dir; pattern +:+ rnd k] in
      match t !! p with None => Some p | Some _ => temp_name rnd dir pattern t tries' (S k) end
  end.

Definition os_MkdirTemp (rnd : nat → string) (tries : nat) (dir pattern : string) : io string :=
  syscall (λ t, match t !! Clean dir, temp_name rnd dir pattern t tries 0 with
                | Some NDir, Some p => (Ok p, [<[p := NDir]> t])
                | Some NDir, None => (Err ErrExist, [])
                | _, _ => (Err ErrNotExist, [])
                end) no_partial.

(** ** A small program logic

    [triple P m Q I]: from any tree satisfying [P], under every fault schedule,
    [m] ends in a result and tree satisfying [Q], and every tree the system
    passes through on the way satisfies [I]. *)

Definition triple {A} (P : tree → Prop) (m : io A) (Q : result A → tree → Prop)
    (I : tree → Prop) : Prop :=
  ∀ flt s, P (nodes s) →
    Q (m flt s).1 (nodes (m flt s).2) ∧
    ∃ ts, hist (m flt s).2 = ts ++ hist s ∧ Forall I ts.

(** The tree after passing through [ts]. *)
Definition final (ts : list tree) (t : tree) : tree := default t (last ts).

Lemma nodes_push ts s : nodes (push ts s) = final ts (nodes s).
Proof.
  revert s. induction ts as [|t ts IH]; intros s; [done|]. simpl. rewrite IH. simpl.
  unfold final. rewrite last_cons. by destruct (last ts).
Qed.

Lemma hist_push ts s : hist (push ts s) = reverse ts ++ hist s.
Proof.
  revert s. induction ts as [|t ts IH]; intros s; [done|]. simpl. rewrite IH. simpl.
  by rewrite reverse_cons, <-(assoc_L (++)).
Qed.

Section logic.
Implicit Types (P I : tree → Prop).

Lemma triple_ret {A} (a : A) P Q I : (∀ t, P t → Q (Ok a) t) → triple P (mret a) Q I.
Proof. intros H flt s HP. split; [by apply H|]. by exists []. Qed.

Lemma triple_fail {A} e P (Q : result A → tree → Prop) I :
  (∀ t, P t → Q (Err e) t) → triple P (io_fail e) Q I.
Proof. intros H flt s HP. split; [by apply H|]. by exists []. Qed.

Lemma triple_bind {A B} (m : io A) (f : A → io B) P R Q I :
  triple P m (λ r t, match r with Ok a => R a t | Err e => Q (Err e) t end) I →
  (∀ a, triple (R a) (f a) Q I) →
  triple P (m ≫= f) Q I.
Proof.
  intros Hm Hf flt s HP. destruct (Hm flt s HP) as (HR & ts & Hh & Hts).
  unfold mbind, io_bind. destruct (m flt s) as [[a|e] s'] eqn:E; simpl in *.
  - destruct (Hf a flt s' HR) as (HQ & ts' & Hh' & Hts'). split; [done|].
    exists (ts' ++ ts). rewrite Hh', Hh. split; [by rewrite (assoc_L (++))|].
    by apply Forall_app.
  - split; [done|]. by exists ts.
Qed.

Lemma triple_attempt {A} (m : io A) P Q I :
  triple P m (λ r t, Q (Ok r) t) I → triple P (attempt m) Q I.
Proof.
  intros Hm flt s HP. destruct (Hm flt s HP) as (HR & ts & Hh & Hts).
  unfold attempt. destruct (m flt s) as [r s']. simpl in *. split; [done|]. by exists ts.
Qed.

Lemma triple_with_message {A} msg (m : io A) P Q I :
  triple P m (λ r t, Q (with_message msg r) t) I → triple P (io_with_message msg m) Q I.
Proof.
  intros Hm flt s HP. destruct (Hm flt s HP) as (HR & ts & Hh & Hts).
  unfold io_with_message. destruct (m flt s) as [r s']. simpl in *. split; [done|]. by exists ts.
Qed.

Lemma triple_weaken {A} (m : io A) P P' (Q Q' : result A → tree → Prop) I I' :
  triple P' m Q' I' → (∀ t, P t → P' t) → (∀ r t, Q' r t → Q r t) → (∀ t, I' t → I t) →
  triple P m Q I.
Proof.
  intros Hm HP HQ HI flt s Hs. destruct (Hm flt s (HP _ Hs)) as (HR & ts & Hh & Hts).
  split; [by apply HQ|]. exists ts. split; [done|]. by eapply Forall_impl.
Qed.

Lemma triple_pre {A} P' P (m : io A) Q I :
  triple P' m Q I → (∀ t, P t → P' t) → triple P m Q I.
Proof. intros Hm HP flt s Hs. by apply Hm, HP. Qed.

Lemma triple_post {A} (Q' Q : result A → tree → Prop) P (m : io A) I :
  triple P m Q' I → (∀ r t, Q' r t → Q r t) → triple P m Q I.
Proof. intros Hm HQ flt s Hs. destruct (Hm flt s Hs). auto. Qed.

Lemma triple_syscall {A} (eff : tree → result A * list tree) par P Q I :
  (∀ t, P t → Q (eff t).1 (final (eff t).2 t) ∧ Forall I (eff t).2) →
  (∀ t e, P t → Q (Err e) t) →
  (∀ t e k, P t → Q (Err e) (final (par t k) t) ∧ Forall I (par t k)) →
  triple P (syscall eff par) Q I.
Proof.
  intros Heff Hf Hpar flt s HP. unfold syscall.
  destruct (flt (clock s)) as [[e [k|]]|].
  - destruct (Hpar _ e k HP). simpl. rewrite nodes_push, hist_push. simpl. split; [done|].
    eexists; split; [done|]. by apply Forall_reverse.
  - split; [by apply Hf|]. by exists [].
  - destruct (Heff _ HP) as [HQ HI]. destruct (eff (nodes s)) as [r ts]. simpl in *.
    rewrite nodes_push, hist_push. split; [done|].
    eexists; split; [done|]. by apply Forall_reverse.
Qed.

(** A call with no effect on the tree. *)
Lemma triple_query {A} (eff : tree → result A) P (Q : result A → tree → Prop) I :
  (∀ t, P t → Q (eff t) t) → (∀ t e, P t → Q (Err e) t) →
  triple P (syscall (λ t, (eff t, [])) no_partial) Q I.
Proof.
  intros H1 H2. apply triple_syscall; simpl; eauto.
Qed.
End logic.

(** *** Which paths a call can touch *)

Lemma mkdirs_spec ps t :
  let '(r, ts) := mkdirs ps t in
  Forall (λ t', ∀ q, t' !! q = t !! q ∨ (t !! q = None ∧ t' !! q = Some NDir ∧ q ∈ ps)) ts ∧
  (r = Ok () → Forall (λ p, final ts t !! p = Some NDir) ps).
Proof.
  revert t. induction ps as [|p ps IH]; intros t; simpl; [done|].
  destruct (t !! p) as [[]|] eqn:Hp; try done.
  - specialize (IH t). destruct (mkdirs ps t) as [r ts]. destruct IH as [IH1 IH2]. split.
    + eapply Forall_impl; [exact IH1|]. intros t' Ht q. destruct (Ht q) as [|(?&?&?)]; [by left|].
      right. set_solver.
    + intros Hr. constructor; [|by apply IH2].
      unfold final. destruct (last ts) as [t'|] eqn:El; [|done]. simpl.
      apply last_Some in El as [ts' ->].
      apply Forall_app in IH1 as [_ IH1]. rewrite Forall_singleton in IH1.
      destruct (IH1 p) as [->|(? & ? & ?)]; congruence.
  - specialize (IH (<[p := NDir]> t)). destruct (mkdirs ps (<[p := NDir]> t)) as [r ts].
    destruct IH as [IH1 IH2]. split.
    + constructor.
      * intros q. destruct (decide (q = p)) as [->|]; simplify_map_eq; [right; set_solver|by left].
      * eapply Forall_impl; [exact IH1|]. intros t' Ht q. specialize (Ht q).
        destruct (decide (q = p)) as [->|]; simplify_map_eq.
        -- right. destruct Ht as [->|(?&?&?)]; set_solver.
        -- destruct Ht as [|(?&?&?)]; [by left|right; set_solver].
    + intros Hr. specialize (IH2 Hr).
      assert (final (<[p:=NDir]> t :: ts) t = final ts (<[p:=NDir]> t)) as Hfin.
      { unfold final. rewrite last_cons. by destruct (last ts). }
      rewrite Hfin. constructor; [|done].
      unfold final. destruct (last ts) as [t'|] eqn:El; simpl; [|by simplify_map_eq].
      apply last_Some in El as [ts' ->].
      apply Forall_app in IH1 as [_ IH1]. rewrite Forall_singleton in IH1.
      destruct (IH1 p) as [->|(? & ? & ?)]; by simplify_map_eq.
Qed.

Lemma os_MkdirAll_triple p t0 (I : tree → Prop) :
  let reached t := ∀ q, t !! q = t0 !! q ∨
    (t0 !! q = None ∧ t !! q = Some NDir ∧ q ∈ ancestors p) in
  (∀ t, reached t → I t) →
  triple (λ t, t = t0) (os_MkdirAll p)
    (λ r t, reached t ∧ (r = Ok () → Forall (λ a, t !! a = Some NDir) (ancestors p))) I.
Proof.
  intros reached HI.
  assert (∀ k, let ts := snd (mkdirs (take k (ancestors p)) t0) in
               Forall reached ts ∧ reached (final ts t0)) as Htake.
  { intros k ts. pose proof (mkdirs_spec (take k (ancestors p)) t0) as Hm. unfold ts.
    destruct (mkdirs (take k (ancestors p)) t0) as [r ts']. destruct Hm as [Hm _]. simpl.
    assert (Forall reached ts') as Hr.
    { eapply Forall_impl; [exact Hm|]. intros t Ht q. destruct (Ht q) as [|(?&?&Hq)]; [by left|].
      right. split_and!; [done..|]. revert Hq. apply elem_of_subseteq. clear.
      intros x Hx. apply list_elem_of_lookup in Hx as [i Hi].
      apply lookup_take_Some in Hi as [Hi _]. by apply list_elem_of_lookup_2 in Hi. }
    split; [done|]. unfold final. destruct (last ts') as [t|] eqn:El; simpl; [|by intros q; left].
    apply last_Some in El as [ts'' ->]. apply Forall_app in Hr as [_ Hr].
    by rewrite Forall_singleton in Hr. }
  apply triple_syscall.
  - intros ? ->. destruct (Htake (length (ancestors p))) as [H1 H2]. rewrite take_ge in H1, H2 by done.
    pose proof (mkdirs_spec (ancestors p) t0) as Hm.
    destruct (mkdirs (ancestors p) t0) as [r ts]. simpl in *. destruct Hm as [_ Hm].
    split; [by split|]. eapply Forall_impl; eauto.
  - intros ? e ->. split; [by intros q; left|done].
  - intros ? e k ->. destruct (Htake k) as [H1 H2]. split; [by split|].
    eapply Forall_impl; eauto.
Qed.

Lemma final_snoc ts t t0 : final (ts ++ [t]) t0 = t.
Proof. unfold final. by rewrite last_snoc. Qed.

Lemma writes_Forall (I : tree → Prop) p before content perm t :
  (∀ c, I (<[p := NFile (before +:+ c) perm]> t)) → Forall I (writes p before content perm t).
Proof.
  intros HI. unfold writes. apply Forall_app. split; [|by constructor].
  apply Forall_fmap, Forall_forall. intros k _. apply HI.
Qed.

(** What a successful or failed [os.WriteFile] leaves behind. *)
Lemma os_WriteFile_triple p content perm t0 (I : tree → Prop) :
  (∀ c q, I (<[Clean p := NFile c q]> t0)) →
  triple (λ t, t = t0) (os_WriteFile p content perm)
    (λ r t, (r = Ok () → ∃ q, t !! Clean p = Some (NFile content q)) ∧
            ∀ k, k ≠ Clean p → t !! k = t0 !! k) I.
Proof.
  intros HI.
  assert (∀ c q k, k ≠ Clean p → final (writes (Clean p) "" c q t0) t0 !! k = t0 !! k) as Hne.
  { intros c q k Hk. unfold writes. by rewrite final_snoc, lookup_insert_ne. }
  assert (∀ c q, Forall I (writes (Clean p) "" c q t0)) as HF
    by (intros; apply writes_Forall; auto).
  apply triple_syscall.
  - intros ? ->. unfold write_trees.
    repeat case_match; (split; [split|]); simpl; try done; try by apply Hne.
    all: intros _; unfold writes; rewrite final_snoc, lookup_insert_eq; by eexists.
  - by intros ? ? ->.
  - intros ? e k ->. unfold write_trees.
    repeat case_match; (split; [split|]); simpl; try done; by apply Hne.
Qed.

Lemma lookup_remove_keys ks t q : q ∉ ks → remove_keys ks t !! q = t !! q.
Proof.
  induction ks as [|k ks IH]; [done|]. simpl. rewrite not_elem_of_cons. intros [? ?].
  rewrite lookup_delete_ne by done. by apply IH.
Qed.

(** [os.RemoveAll] leaves everything that is not below its argument. *)
Lemma os_RemoveAll_triple p t0 (I : tree → Prop) :
  let spared t := ∀ q, under (Clean p) q = false → t !! q = t0 !! q in
  (∀ t, spared t → I t) →
  triple (λ t, t = t0) (os_RemoveAll p) (λ _ t, spared t) I.
Proof.
  intros spared HI. unfold os_RemoveAll.
  set (keys (t : tree) := (map_to_list (filter (λ kv : string * node, under (Clean p) kv.1 = true) t)).*1).
  assert (∀ k, spared (remove_keys (take k (keys t0)) t0)) as Hpart.
  { intros k q Hq. apply lookup_remove_keys. intros Hin.
    assert (q ∈ keys t0) as Hin'.
    { apply list_elem_of_lookup in Hin as [i Hi]. apply lookup_take_Some in Hi as [Hi _].
      by apply list_elem_of_lookup_2 in Hi. }
    unfold keys in Hin'. apply list_elem_of_fmap in Hin' as ([q' n] & -> & Hn).
    apply elem_of_map_to_list, map_lookup_filter_Some in Hn as [_ Hn]. simpl in *. congruence. }
  assert (spared (filter (λ kv : string * node, under (Clean p) kv.1 = false) t0)) as Hall.
  { intros q Hq. destruct (t0 !! q) as [n|] eqn:E.
    - by apply map_lookup_filter_Some.
    - apply map_lookup_filter_None. by left. }
  assert (∀ n, Forall I ((λ k, remove_keys (take k (keys t0)) t0) <$> seq 0 n)) as HF.
  { intros n. apply Forall_fmap, Forall_forall. intros k _. apply HI, Hpart. }
  apply triple_syscall.
  - intros ? ->. simpl. rewrite final_snoc. split; [done|]. apply Forall_app. split; [apply HF|].
    constructor; [by apply HI|done].
  - by intros ? e ->.
  - intros ? e k ->. split; [|apply HF]. rewrite seq_S, fmap_app. simpl. rewrite final_snoc.
    apply Hpart.
Qed.

(** *** Ancestors of an absolute clean path *)

Lemma elem_of_prefixes {A} (l k : list A) : k ∈ prefixes l ↔ k `prefix_of` l ∧ k ≠ [].
Proof.
  revert k. induction l as [|x l IH]; intros k; simpl.
  - rewrite elem_of_nil. split; [done|]. intros [?%prefix_nil_inv ?]. done.
  - rewrite elem_of_cons, list_elem_of_fmap. split.
    + intros [->|(k' & -> & [? ?]%IH)]; (split; [|done]); apply prefix_cons; [apply prefix_nil|done].
    + intros [Hp Hk]. destruct k as [|y k]; [done|].
      destruct (decide (k = [])) as [->|]; [left|right]; apply prefix_cons_inv_1 in Hp as Hx;
        subst; [done|]. apply prefix_cons_inv_2 in Hp. exists k. split; [done|]. by apply IH.
Qed.

Lemma ancestors_mkpath cs :
  Forall (λ c, simple c = true) cs → ancestors (mkpath cs) = mkpath <$> prefixes cs.
Proof.
  intros Hcs. unfold ancestors. destruct (decide (cs = [])) as [->|]; [done|].
  by rewrite Split_mkpath, norm_skip_empty, norm_simple by done.
Qed.

Lemma elem_of_ancestors q cs :
  Forall (λ c, simple c = true) cs →
  q ∈ ancestors (mkpath cs) ↔ ∃ ds, ds `prefix_of` cs ∧ ds ≠ [] ∧ q = mkpath ds.
Proof.
  intros Hcs. rewrite ancestors_mkpath, list_elem_of_fmap by done.
  setoid_rewrite elem_of_prefixes. naive_solver.
Qed.

(** A path is no ancestor of its directory. *)
Lemma not_ancestor cs ds :
  Forall (λ c, simple c = true) cs → Forall (λ c, simple c = true) ds → length cs < length ds →
  mkpath ds ∉ ancestors (mkpath cs).
Proof.
  intros Hcs Hds Hlen. rewrite elem_of_ancestors by done. intros (es & Hes & _ & Heq).
  apply mkpath_inj in Heq as ->; [|done|].
  - apply prefix_length in Hes. lia.
  - destruct Hes as [k ->]. by apply Forall_app in Hcs as [].
Qed.

Lemma mkdirs_Ok ps t :
  Forall (λ p, t !! p = None ∨ t !! p = Some NDir) ps → (mkdirs ps t).1 = Ok ().
Proof.
  revert t. induction ps as [|p ps IH]; intros t; [done|]. simpl.
  intros [Hp Hps]%Forall_cons.
  destruct (t !! p) as [[]|] eqn:E; try (destruct Hp; congruence); [by apply IH|].
  specialize (IH (<[p := NDir]> t)). destruct (mkdirs ps (<[p := NDir]> t)). apply IH.
  eapply Forall_impl; [done|]. intros q. simpl.
  destruct (decide (q = p)) as [->|]; simplify_map_eq; naive_solver.
Qed.

(** *** Runs in which nothing fails *)

Lemma syscall_no_faults {A} (eff : tree → result A * list tree) par s :
  (syscall eff par no_faults s).1 = (eff (nodes s)).1 ∧
  nodes (syscall eff par no_faults s).2 = final (eff (nodes s)).2 (nodes s).
Proof.
  unfold syscall, no_faults. destruct (eff (nodes s)) as [r ts]. simpl. by rewrite nodes_push.
Qed.

Lemma os_MkdirAll_no_faults p s :
  Forall (λ a, nodes s !! a = None ∨ nodes s !! a = Some NDir) (ancestors p) →
  ∃ s', os_MkdirAll p no_faults s = (Ok (), s') ∧
    (∀ q, q ∈ ancestors p → nodes s' !! q = Some NDir) ∧
    (∀ q, q ∉ ancestors p → nodes s' !! q = nodes s !! q).
Proof.
  intros Ha. destruct (syscall_no_faults (mkdirs (ancestors p))
    (λ t k, snd (mkdirs (take k (ancestors p)) t)) s) as [Hr _].
  fold (os_MkdirAll p) in Hr. rewrite mkdirs_Ok in Hr by done.
  destruct (os_MkdirAll_triple p (nodes s) (λ _, True) ltac:(done) no_faults s eq_refl)
    as [[Hreach Hdirs] _].
  destruct (os_MkdirAll p no_faults s) as [r s']. simpl in *. subst r.
  exists s'. split; [done|]. split.
  - intros q Hq. specialize (Hdirs eq_refl). rewrite Forall_forall in Hdirs. by apply Hdirs.
  - intros q Hq. destruct (Hreach q) as [|(_ & _ & ?)]; done.
Qed.

Lemma syscall_run {A} (eff : tree → result A * list tree) par s :
  ∃ s', syscall eff par no_faults s = ((eff (nodes s)).1, s') ∧
        nodes s' = final (eff (nodes s)).2 (nodes s).
Proof.
  destruct (syscall_no_faults eff par s) as [H1 H2].
  destruct (syscall eff par no_faults s) as [r s'] eqn:E. simpl in *. subst r. by exists s'.
Qed.

Lemma os_WriteFile_new p content perm s :
  Clean p = p → nodes s !! filepath_Dir p = Some NDir → nodes s !! p = None →
  ∃ s', os_WriteFile p content perm no_faults s = (Ok (), s') ∧
        nodes s' = <[p := NFile content perm]> (nodes s).
Proof.
  intros Hc Hd Hp. edestruct @syscall_run as (s' & E & N). exists s'.
  unfold os_WriteFile. rewrite E, N. unfold write_trees. rewrite Hc, Hd, Hp. cbn. split; [done|].
  unfold writes. by rewrite final_snoc, app_nil_l'.
Qed.

Lemma os_Rename_run a b n s :
  Clean a = a → Clean b = b → nodes s !! a = Some n → n ≠ NDir → nodes s !! b ≠ Some NDir →
  ∃ s', os_Rename a b no_faults s = (Ok (), s') ∧
        nodes s' = <[b := n]> (delete a (nodes s)).
Proof.
  intros Ha Hb Hn Hnd Hbd. edestruct @syscall_run as (s' & E & N). exists s'.
  unfold os_Rename. rewrite E, N. rewrite Ha, Hb, Hn.
  by destruct n, (nodes s !! b) as [[]|].
Qed.

Lemma os_RemoveAll_run p s :
  ∃ s', os_RemoveAll p no_faults s = (Ok (), s') ∧
        ∀ q, nodes s' !! q = if under (Clean p) q then None else nodes s !! q.
Proof.
  edestruct @syscall_run as (s' & E & N). exists s'. unfold os_RemoveAll. rewrite E, N.
  split; [done|]. intros q. cbn. rewrite final_snoc.
  destruct (under (Clean p) q) eqn:Hu.
  - apply map_lookup_filter_None. right. intros n _. simpl. by rewrite Hu.
  - destruct (nodes s !! q) as [n|] eqn:Hq.
    + by apply map_lookup_filter_Some.
    + apply map_lookup_filter_None. by left.
Qed.

Lemma os_MkdirTemp_run rnd tries dir pattern s :
  0 < tries → nodes s !! Clean dir = Some NDir →
  nodes s !! filepath_Join [dir; pattern +:+ rnd 0] = None →
  ∃ s', os_MkdirTemp rnd tries dir pattern no_faults s
        = (Ok (filepath_Join [dir; pattern +:+ rnd 0]), s') ∧
        nodes s' = <[filepath_Join [dir; pattern +:+ rnd 0] := NDir]> (nodes s).
Proof.
  intros Ht Hd Hn. edestruct @syscall_run as (s' & E & N). exists s'.
  unfold os_MkdirTemp. rewrite E, N, Hd. destruct tries as [|tries]; [lia|].
  cbn [temp_name]. by rewrite Hn.
Qed.

Lemma os_ReadFile_run p s :
  ∃ s', os_ReadFile p no_faults s =
          (match nodes s !! Clean p with
           | Some (NFile c _) => Ok c
           | Some _ => Err (ErrIO "not a regular file")
           | None => Err ErrNotExist
           end, s') ∧ nodes s' = nodes s.
Proof. edestruct @syscall_run as (s' & E & N). exists s'. unfold os_ReadFile. by rewrite E, N. Qed.

(** ** Programs that only read *)

Definition readonly {A} (m : io A) : Prop :=
  ∀ flt s, nodes (m flt s).2 = nodes s ∧ hist (m flt s).2 = hist s.

Create HintDb readonly.

Section readonly.
Context {A B : Type}.
Implicit Types m : io A.

Lemma readonly_ret (a : A) : readonly (mret a).
Proof. by intros flt s. Qed.
Lemma readonly_fail e : readonly (io_fail (A := A) e).
Proof. by intros flt s. Qed.
Lemma readonly_bind m (f : A → io B) : readonly m → (∀ a, readonly (f a)) → readonly (m ≫= f).
Proof.
  intros Hm Hf flt s. unfold mbind, io_bind. destruct (Hm flt s) as [H1 H2].
  destruct (m flt s) as [[a|e] s1]; simpl in *; [|done].
  destruct (Hf a flt s1) as [-> ->]. done.
Qed.
Lemma readonly_attempt m : readonly m → readonly (attempt m).
Proof. intros Hm flt s. unfold attempt. specialize (Hm flt s). by destruct (m flt s). Qed.
Lemma readonly_with_message msg m : readonly m → readonly (io_with_message msg m).
Proof. intros Hm flt s. unfold io_with_message. specialize (Hm flt s). by destruct (m flt s). Qed.
Lemma readonly_query (eff : tree → result A) : readonly (syscall (λ t, (eff t, [])) no_partial).
Proof. intros flt s. destruct (syscall_query eff flt s) as (? & ? & _). done. Qed.

(** A reading program keeps every assertion about the tree; [R] is what its
    result tells. *)
Lemma triple_readonly m (P : tree → Prop) (Q : result A → tree → Prop) I :
  readonly m → (∀ flt s, P (nodes s) → Q (m flt s).1 (nodes s)) → triple P m Q I.
Proof.
  intros Hm HQ flt s HP. destruct (Hm flt s) as [Hn Hh]. rewrite Hn.
  split; [by apply HQ|]. exists []. by rewrite Hh.
Qed.
End readonly.

Lemma readonly_Stat p : readonly (os_Stat p).
Proof. apply readonly_query. Qed.
Lemma readonly_ReadFile p : readonly (os_ReadFile p).
Proof. apply readonly_query. Qed.
Lemma readonly_ReadDir p : readonly (os_ReadDir p).
Proof. apply readonly_query. Qed.

#[export] Hint Resolve readonly_ret readonly_fail readonly_bind readonly_attempt
  readonly_with_message readonly_query readonly_Stat readonly_ReadFile readonly_ReadDir : readonly.
