(* ===== verification/GoTree.v ===== *)
(** * GoTree: frames, and the calls of package [os] on links, permissions and open files

    [spares K m] says that no run of [m], under any fault schedule, ever changes
    a path in [K], not even for a moment.  The second half extends [GoFS] with
    the calls only the staging of the runtime image makes. *)

From S2P Require Import Prelude GoStrings GoPath GoFS.

(** ** Paths *)

Lemma Join_app sep cs ds :
  cs ≠ [] → ds ≠ [] → Join sep (cs ++ ds) = Join sep cs +:+ sep +:+ Join sep ds.
Proof.
  intros Hcs Hds. induction cs as [|c cs IH]; [done|].
  destruct cs as [|e cs]; [by destruct ds|].
  change (Join sep ((c :: e :: cs) ++ ds)) with (c +:+ sep +:+ Join sep ((e :: cs) ++ ds)).
  rewrite IH by done.
  change (Join sep (c :: e :: cs)) with (c +:+ sep +:+ Join sep (e :: cs)). by rewrite !app_assoc'.
Qed.

(** [filepath.Join] of an absolute clean directory and plain names. *)
Lemma filepath_Join_list cs ds :
  cs ≠ [] → Forall (λ c, simple c = true) (cs ++ ds) →
  filepath_Join (mkpath cs :: ds) = mkpath (cs ++ ds).
Proof.
  intros Hne Hcs. change (filepath_Join (mkpath cs :: ds)) with (Clean (Join "/" (mkpath cs :: ds))).
  assert (Join "/" (mkpath cs :: ds) = mkpath (cs ++ ds)) as ->; [|by apply Clean_mkpath].
  destruct (decide (ds = [])) as [->|Hds]; [by rewrite app_nil_r|].
  change (mkpath cs :: ds) with ([mkpath cs] ++ ds). rewrite Join_app by done.
  change (Join "/" [mkpath cs]) with ("/" +:+ Join "/" cs).
  unfold mkpath. by rewrite (Join_app "/" cs ds).
Qed.

(** A path below [mkpath cs] starts with the components [cs]. *)
Lemma under_Split cs q :
  cs ≠ [] → Forall (λ c, simple c = true) cs → under (mkpath cs) q = true →
  ∃ l, Split slash q = "" :: cs ++ l.
Proof.
  intros Hne Hcs. unfold under. rewrite orb_true_iff, bool_decide_eq_true.
  intros [->|[rest ->]%HasPrefix_app].
  - exists []. by rewrite app_nil_r, Split_mkpath.
  - rewrite <-app_assoc'. change ("/" +:+ rest) with (String slash rest).
    rewrite Split_app_sep, Split_mkpath by done. by eexists.
Qed.

Lemma under_mkpath cs ds :
  cs ≠ [] → Forall (λ c, simple c = true) cs → Forall (λ c, simple c = true) ds →
  under (mkpath cs) (mkpath ds) = true → cs `prefix_of` ds.
Proof.
  intros Hne Hcs Hds (l & Hl)%under_Split; [|done..].
  destruct (decide (ds = [])) as [->|].
  - exfalso. cbn in Hl. destruct cs as [|c cs]; [done|]. injection Hl as <- _.
    apply Forall_cons in Hcs as [Hc _]. discriminate Hc.
  - rewrite Split_mkpath in Hl by done. simplify_eq. by eexists.
Qed.

Lemma under_prefix cs ds : cs ≠ [] → under (mkpath cs) (mkpath (cs ++ ds)) = true.
Proof.
  intros Hne. unfold under. apply orb_true_iff.
  destruct (decide (ds = [])) as [->|Hds]; [left|right].
  - rewrite app_nil_r. by apply bool_decide_eq_true.
  - apply HasPrefix_app. exists (Join "/" ds). unfold mkpath.
    by rewrite (Join_app "/" cs ds), !app_assoc'.
Qed.

Lemma under_refl p : under p p = true.
Proof. unfold under. by rewrite bool_decide_true. Qed.

(** Two plain paths neither of which is a prefix of the other have nothing in
    common below them. *)
Lemma under_disjoint cs ds q :
  cs ≠ [] → ds ≠ [] → Forall (λ c, simple c = true) cs → Forall (λ c, simple c = true) ds →
  ¬ cs `prefix_of` ds → ¬ ds `prefix_of` cs →
  under (mkpath cs) q = true → under (mkpath ds) q = false.
Proof.
  intros Hc Hd Hcs Hds Hn1 Hn2 (l1 & H1)%under_Split; [|done..].
  apply not_true_iff_false. intros (l2 & H2)%under_Split; [|done..].
  rewrite H1 in H2. injection H2 as H2.
  destruct (prefix_weak_total cs ds (cs ++ l1)); [by eexists| |done..].
  rewrite H2. by eexists.
Qed.

(** ** More rules of the program logic *)

Lemma triple_pure {A} (φ : Prop) (P : tree → Prop) (m : io A) Q I :
  (φ → triple P m Q I) → triple (λ t, φ ∧ P t) m Q I.
Proof. intros H flt s [Hφ HP]. by apply H. Qed.

Lemma triple_ext {A} (P : tree → Prop) (m m' : io A) Q I :
  (∀ flt s, m flt s = m' flt s) → triple P m' Q I → triple P m Q I.
Proof. intros E H flt s HP. rewrite !E. by apply H. Qed.

(** ** Frames *)

Section spares.
Context (K : string → Prop).

Definition same_on (t0 t : tree) : Prop := ∀ q, K q → t !! q = t0 !! q.

#[export] Instance same_on_equiv : Equivalence same_on.
Proof.
  split; [by intros t q|intros t1 t2 H q Hq; by rewrite H|].
  intros t1 t2 t3 H1 H2 q Hq. by rewrite H2, H1.
Qed.

Definition spares {A} (m : io A) : Prop :=
  ∀ t0, triple (same_on t0) m (λ _, same_on t0) (same_on t0).

Lemma spares_readonly {A} (m : io A) : readonly m → spares m.
Proof. intros Hm t0. by apply triple_readonly. Qed.

Lemma spares_ret {A} (a : A) : spares (mret a).
Proof. apply spares_readonly, readonly_ret. Qed.

Lemma spares_fail {A} e : spares (io_fail (A := A) e).
Proof. apply spares_readonly, readonly_fail. Qed.

Lemma spares_bind {A B} (m : io A) (f : A → io B) :
  spares m → (∀ a, spares (f a)) → spares (m ≫= f).
Proof.
  intros Hm Hf t0. apply (triple_bind _ _ _ (λ _, same_on t0)); [|by intros a; apply Hf].
  eapply triple_post; [apply Hm|]. by intros [a|e] t.
Qed.

(** The continuation may rely on what [m] can return. *)
Lemma spares_bind_with {A B} (R : A → Prop) (m : io A) (f : A → io B) :
  (∀ flt s a s', m flt s = (Ok a, s') → R a) →
  spares m → (∀ a, R a → spares (f a)) → spares (m ≫= f).
Proof.
  intros HR Hm Hf t0. apply (triple_bind _ _ _ (λ a t, R a ∧ same_on t0 t)).
  - intros flt s Hs. destruct (Hm t0 flt s Hs) as [HQ HI]. split; [|done].
    destruct (m flt s) as [[a|e] s'] eqn:E; simpl in *; eauto.
  - intros a flt s [Ha Hs]. by apply Hf.
Qed.

Lemma spares_attempt {A} (m : io A) : spares m → spares (attempt m).
Proof. intros Hm t0. apply triple_attempt, Hm. Qed.

Lemma spares_with_message {A} msg (m : io A) : spares m → spares (io_with_message msg m).
Proof. intros Hm t0. apply triple_with_message, Hm. Qed.

Lemma spares_syscall {A} (eff : tree → result A * list tree) par :
  (∀ t, Forall (same_on t) (eff t).2) → (∀ t k, Forall (same_on t) (par t k)) →
  spares (syscall eff par).
Proof.
  intros He Hp t0.
  assert (∀ ts t, same_on t0 t → Forall (same_on t) ts →
    same_on t0 (final ts t) ∧ Forall (same_on t0) ts) as Hfin.
  { intros ts t Ht Hts. assert (Forall (same_on t0) ts) as Hts'.
    { eapply Forall_impl; [exact Hts|]. intros t' H'. by trans t. }
    split; [|done]. unfold final. destruct (last ts) as [t'|] eqn:E; [|done].
    apply last_Some_elem_of in E. rewrite Forall_forall in Hts'. by apply Hts'. }
  apply triple_syscall; [intros t Ht|done|intros t e k Ht]; by apply Hfin.
Qed.

Lemma same_on_insert t p n : ¬ K p → same_on t (<[p := n]> t).
Proof. intros Hp q Hq. apply lookup_insert_ne. congruence. Qed.

Lemma same_on_delete t p : ¬ K p → same_on t (delete p t).
Proof. intros Hp q Hq. apply lookup_delete_ne. congruence. Qed.

Lemma spares_MkdirAll p : (∀ q, q ∈ ancestors p → ¬ K q) → spares (os_MkdirAll p).
Proof.
  intros Hp.
  assert (∀ ps t, Forall (λ q, q ∈ ancestors p) ps → Forall (same_on t) (mkdirs ps t).2) as Hm.
  { intros ps t Hps. pose proof (mkdirs_spec ps t) as Hs. destruct (mkdirs ps t) as [r ts].
    destruct Hs as [Hs _]. eapply Forall_impl; [exact Hs|]. intros t' Ht q Hq.
    destruct (Ht q) as [|(_ & _ & Hin)]; [done|]. exfalso.
    rewrite Forall_forall in Hps. by eapply Hp; [apply Hps|]. }
  apply spares_syscall.
  - intros t. apply Hm, Forall_forall. done.
  - intros t k. apply Hm, Forall_forall. intros q Hq.
    apply list_elem_of_lookup in Hq as [i Hi]. apply lookup_take_Some in Hi as [Hi _].
    by apply list_elem_of_lookup_2 in Hi.
Qed.

Lemma spares_writes t p before content perm :
  ¬ K p → Forall (same_on t) (writes p before content perm t).
Proof. intros Hp. apply writes_Forall. intros c. by apply same_on_insert. Qed.

Lemma spares_WriteFile p content perm : ¬ K (Clean p) → spares (os_WriteFile p content perm).
Proof.
  intros Hp. apply spares_syscall; intros; unfold write_trees; repeat case_match; simpl; try done;
    by apply spares_writes.
Qed.

Lemma spares_CreateExcl p perm : ¬ K (Clean p) → spares (os_CreateExcl p perm).
Proof.
  intros Hp. apply spares_syscall; [|by intros]. intros t. repeat case_match; simpl; try done.
  constructor; [|done]. by apply same_on_insert.
Qed.

Lemma spares_WriteOpen p content : ¬ K (Clean p) → spares (os_WriteOpen p content).
Proof.
  intros Hp. apply spares_syscall; intros; simpl; repeat case_match; simpl; try done;
    by apply spares_writes.
Qed.

Lemma spares_RemoveAll p : (∀ q, K q → under (Clean p) q = false) → spares (os_RemoveAll p).
Proof.
  intros Hp t0 flt s Hs.
  edestruct (os_RemoveAll_triple p (nodes s) (same_on t0)) with flt s as [HQ HI]; [|done|].
  - intros t Ht q Hq. rewrite Ht by auto. by apply Hs.
  - split; [|done]. intros q Hq. rewrite HQ by auto. by apply Hs.
Qed.

(** The frame as a statement about one run. *)
Lemma spares_run {A} (m : io A) flt s r s' :
  spares m → m flt s = (r, s') → same_on (nodes s) (nodes s').
Proof. intros Hm E. destruct (Hm (nodes s) flt s) as [H _]; [done|]. by rewrite E in H. Qed.
End spares.

Lemma spares_weaken (K K' : string → Prop) {A} (m : io A) :
  (∀ q, K' q → K q) → spares K m → spares K' m.
Proof.
  intros HK Hm t0 flt s Hs.
  destruct (Hm (nodes s) flt s) as (HQ & ts & Hh & Hts); [done|]. split.
  - intros q Hq. rewrite HQ by auto. by apply Hs.
  - exists ts. split; [done|]. eapply Forall_impl; [exact Hts|].
    intros t Ht q Hq. rewrite Ht by auto. by apply Hs.
Qed.

(** Frames of all of [K] at once: an assertion that depends on [K] alone is an
    invariant of the run. *)
Lemma spares_triple (K : string → Prop) {A} (m : io A) (P : tree → Prop) :
  (∀ t t', same_on K t t' → P t → P t') → spares K m → triple P m (λ _, P) P.
Proof.
  intros HP Hm flt s Hs. destruct (Hm (nodes s) flt s) as (HQ & ts & Hh & Hts); [done|].
  split; [by eapply HP|]. exists ts. split; [done|].
  eapply Forall_impl; [exact Hts|]. intros t Ht. by eapply HP.
Qed.

Create HintDb spares.
#[export] Hint Resolve spares_ret spares_fail spares_bind spares_attempt spares_with_message : spares.
#[export] Hint Extern 2 (spares _ _) => (apply spares_readonly; solve [auto with readonly]) : spares.

(** ** Links, permissions and open files *)

(** [os.Symlink(target, p)] *)
Definition os_Symlink (target p : string) : io unit :=
  syscall (λ t, match t !! Clean p, t !! filepath_Dir (Clean p) with
                | Some _, _ => (Err ErrExist, [])
                | None, Some NDir => (Ok (), [<[Clean p := NLink target]> t])
                | None, _ => (Err ErrNotExist, [])
                end) no_partial.

(** [os.Chmod]; the tree records the permissions of files only. *)
Definition os_Chmod (p : string) (perm : Z) : io unit :=
  syscall (λ t, match t !! Clean p with
                | None => (Err ErrNotExist, [])
                | Some (NFile c _) => (Ok (), [<[Clean p := NFile c perm]> t])
                | Some _ => (Ok (), [])
                end) no_partial.

(** Opening an existing file for writing. *)
Definition os_OpenRW (p : string) : io unit :=
  syscall (λ t, (match t !! Clean p with
                 | Some (NFile _ _) => Ok ()
                 | Some _ => Err (ErrIO "is a directory")
                 | None => Err ErrNotExist
                 end, [])) no_partial.

(** Truncation to length zero: opening with [O_TRUNC], or [file.Truncate(0)]. *)
Definition os_Truncate (p : string) : io unit :=
  syscall (λ t, match t !! Clean p with
                | Some (NFile _ q) => (Ok (), [<[Clean p := NFile "" q]> t])
                | Some _ => (Err (ErrIO "is a directory"), [])
                | None => (Err ErrNotExist, [])
                end) no_partial.

(** [file.Seek(0, 0)] and [file.Sync()] change nothing the tree records. *)
Definition os_Seek (p : string) : io unit := syscall (λ _, (Ok (), [])) no_partial.
Definition os_Sync (p : string) : io unit := syscall (λ _, (Ok (), [])) no_partial.

Lemma spares_Symlink K target p : ¬ K (Clean p) → spares K (os_Symlink target p).
Proof.
  intros Hp. apply spares_syscall; [|by intros]. intros t. repeat case_match; simpl; try done.
  constructor; [|done]. by apply same_on_insert.
Qed.

Lemma spares_Chmod K p perm : ¬ K (Clean p) → spares K (os_Chmod p perm).
Proof.
  intros Hp. apply spares_syscall; [|by intros]. intros t. repeat case_match; simpl; try done.
  constructor; [|done]. by apply same_on_insert.
Qed.

Lemma spares_Truncate K p : ¬ K (Clean p) → spares K (os_Truncate p).
Proof.
  intros Hp. apply spares_syscall; [|by intros]. intros t. repeat case_match; simpl; try done.
  constructor; [|done]. by apply same_on_insert.
Qed.

Lemma readonly_OpenRW p : readonly (os_OpenRW p).
Proof. apply readonly_query. Qed.
Lemma readonly_Seek p : readonly (os_Seek p).
Proof. apply (readonly_query (λ _, Ok ())). Qed.
Lemma readonly_Sync p : readonly (os_Sync p).
Proof. apply (readonly_query (λ _, Ok ())). Qed.
#[export] Hint Resolve readonly_OpenRW readonly_Seek readonly_Sync : readonly.

Lemma os_Stat_run p s :
  ∃ s', os_Stat p no_faults s = (stat_at (nodes s) p, s') ∧ nodes s' = nodes s.
Proof. edestruct @syscall_run as (s' & E & N). exists s'. unfold os_Stat. by rewrite E, N. Qed.

Lemma os_ReadDir_run p s :
  ∃ s', os_ReadDir p no_faults s =
          (match nodes s !! Clean p with
           | Some NDir => Ok (children (nodes s) (Clean p))
           | Some _ => Err (ErrIO "not a directory")
           | None => Err ErrNotExist
           end, s') ∧ nodes s' = nodes s.
Proof. edestruct @syscall_run as (s' & E & N). exists s'. unfold os_ReadDir. by rewrite E, N. Qed.

(** [filepath.Walk] over [root], as the program uses it: any error on the way
    ends the walk, and what it visits is every node at or below the root. *)
Definition filepath_Walk (root : string) : io (list (string * node)) :=
  syscall (λ t, (match t !! Clean root with
                 | Some _ => Ok (map_to_list (filter (λ kv, under (Clean root) (Clean kv.1) = true) t))
                 | None => Err ErrNotExist
                 end, [])) no_partial.

Lemma filepath_Walk_under root flt s l s' :
  filepath_Walk root flt s = (Ok l, s') →
  Forall (λ e, under (Clean root) (Clean e.1) = true ∧ nodes s !! e.1 = Some e.2) l.
Proof.
  unfold filepath_Walk, syscall. destruct (flt (clock s)) as [[e [k|]]|]; [done..|].
  destruct (nodes s !! Clean root); [|done]. intros [= <- _].
  apply Forall_forall. intros [p n'] Hin%elem_of_map_to_list.
  by apply map_lookup_filter_Some in Hin as [? ?].
Qed.

Lemma readonly_Walk p : readonly (filepath_Walk p).
Proof. apply readonly_query. Qed.
#[export] Hint Resolve readonly_Walk : readonly.

Lemma split_last_slash_base p : has_char slash (snd (split_last_slash p)) = false.
Proof.
  induction p as [|c p IH]; [done|]. cbn [split_last_slash].
  destruct (split_last_slash p) as [d b]. destruct (has_char slash p) eqn:Hp; [done|].
  case_decide as Hc; cbn [snd]; [done|]. cbn [has_char]. rewrite Hp, orb_false_r.
  by apply bool_decide_eq_false.
Qed.

(** The name of an entry has no slash, unless it is the root. *)
Lemma children_no_slash t p name n :
  (name, n) ∈ children t p → has_char slash name = false ∨ name = "/".
Proof.
  unfold children. rewrite list_elem_of_omap. intros (c & Hc & Hl).
  assert (c = name) as -> by (by destruct (t !! _); simplify_eq/=).
  apply elem_of_sort_Strings, list_elem_of_fmap in Hc as ([q n'] & -> & _). cbn [compose fst].
  unfold filepath_Base. destruct q as [|a q]; [by left|].
  pose proof (split_last_slash_base (String a q)) as Hs.
  destruct (snd (split_last_slash (String a q))); [by right|by left].
Qed.

(** Every path is absolute and clean, and its components are plain names. *)
Definition tidy (t : tree) : Prop :=
  ∀ q n, t !! q = Some n → ∃ cs, cs ≠ [] ∧ Forall (λ c, simple c = true) cs ∧ q = mkpath cs.

Lemma elem_of_children t cs c n :
  tidy t → cs ≠ [] → Forall (λ c, simple c = true) cs →
  (c, n) ∈ children t (mkpath cs) ↔ simple c = true ∧ t !! mkpath (cs ++ [c]) = Some n.
Proof.
  intros Ht Hne Hcs. unfold children. rewrite list_elem_of_omap.
  setoid_rewrite elem_of_sort_Strings. setoid_rewrite list_elem_of_fmap. split.
  - intros (c' & ([q n'] & Hq & Hin) & Hl).
    apply elem_of_map_to_list, map_lookup_filter_Some in Hin as [Hn [Hd Hneq]]. cbn [fst snd compose] in *.
    destruct (Ht _ _ Hn) as (ds & Hds & Hsimp & ->).
    destruct (exists_last Hds) as (ds' & d & ->).
    apply Forall_app in Hsimp as [Hsimp Hd']. rewrite Forall_singleton in Hd'.
    rewrite filepath_Dir_mkpath in Hd by done. apply mkpath_inj in Hd as ->; [|done..].
    rewrite filepath_Base_mkpath in Hq by done. subst c'.
    rewrite filepath_Join_mkpath in Hl by done.
    destruct (t !! mkpath (cs ++ [d])) eqn:E; simpl in Hl; [|done]. by simplify_eq.
  - intros [Hc Hn]. exists c. split.
    + exists (mkpath (cs ++ [c]), n). cbn [fst compose]. rewrite filepath_Base_mkpath by done. split; [done|].
      apply elem_of_map_to_list, map_lookup_filter_Some. split; [done|]. cbn [fst].
      rewrite filepath_Dir_mkpath by done. split; [done|]. intros Heq.
      apply mkpath_inj in Heq; [|by apply Forall_app; auto|done].
      apply (f_equal length) in Heq. rewrite length_app in Heq. simpl in Heq. lia.
    + by rewrite filepath_Join_mkpath, Hn.
Qed.
