(* ===== verification/Images.v ===== *)
(** * Images: pkg/images, resolution of RKE2 image names to references

    Registries and image references belong to the library
    github.com/google/go-containerregistry/pkg/name, which is not part of the
    repository: the class [NameApi] lists the operations the program calls and
    [NameLaws] the documented facts it relies on.  [SimpleName], at the end of
    the file, is a concrete instance. *)

From S2P Require Import Prelude GoStrings GoPath GoFS GoTree.

(** ** The registry-name library *)

Inductive ref_kind :=
  | KTag (tag : string)
  | KDigest (digest : string)
  | KOther.

Class NameApi := {
  Registry : Type;
  Reference : Type;
  NewRegistry : string → result Registry;
  Registry_Name : Registry → string;
  (** [name.ParseReference(s, name.WeakValidation)] *)
  ParseReference : string → result Reference;
  Ref_Name : Reference → string;
  (** [ref.String()], the text the reference was parsed from *)
  Ref_String : Reference → string;
  (** [ref.Context().RegistryStr()] *)
  Ref_RegistryStr : Reference → string;
  (** the dynamic type: [name.Tag], [name.Digest] or another implementation *)
  Ref_kind : Reference → ref_kind;
  (** [t.Registry = registry] on a copy of a [name.Tag] or [name.Digest] *)
  set_Registry_field : Registry → Reference → Reference
}.

Class NameLaws `{NameApi} := {
  (** a registry name is a host with an optional port *)
  registry_no_slash r : has_char slash (Registry_Name r) = false;
  registry_not_empty r : Registry_Name r ≠ "";
  (** the name of a registry parses to that registry *)
  registry_roundtrip r : NewRegistry (Registry_Name r) = Ok r;
  (** the full name of a reference is its registry, a slash and the rest *)
  ref_name_split ref : ∃ rest, Ref_Name ref = Ref_RegistryStr ref +:+ "/" +:+ rest;
  set_registry_str r ref : Ref_kind ref ≠ KOther →
    Ref_RegistryStr (set_Registry_field r ref) = Registry_Name r;
  set_registry_name r ref rest : Ref_kind ref ≠ KOther →
    Ref_Name ref = Ref_RegistryStr ref +:+ "/" +:+ rest →
    Ref_Name (set_Registry_field r ref) = Registry_Name r +:+ "/" +:+ rest;
  (** parsing yields a tag or a digest *)
  parse_kind s ref : ParseReference s = Ok ref → Ref_kind ref ≠ KOther
}.

(** ** Constants *)

Definition Runtime := "runtime-image".
Definition KubeAPIServer := "kube-apiserver-image".
Definition KubeControllerManager := "kube-controller-manager-image".
Definition KubeProxy := "kube-proxy-image".
Definition KubeScheduler := "kube-scheduler-image".
Definition ETCD := "etcd-image".
Definition Pause := "pause-image".
Definition CloudControllerManager := "cloud-controller-manager-image".

(** The compile-time defaults; the build may override them, so the resolver
    takes them as a record. [build_defaults] are the values in the source. *)
Record Defaults := {
  DefaultRegistry : string;
  PrimeRegistry : string;
  DefaultEtcdImage : string;
  DefaultKubernetesImage : string;
  DefaultPauseImage : string;
  DefaultRuntimeImage : string;
  DefaultCloudControllerManagerImage : string
}.

Definition build_defaults : Defaults := {|
  DefaultRegistry := "index.docker.io";
  PrimeRegistry := "";
  DefaultEtcdImage := "rancher/hardened-etcd";
  DefaultKubernetesImage := "rancher/hardened-kubernetes";
  DefaultPauseImage := "rancher/mirrored-pause";
  DefaultRuntimeImage := "rancher/rke2-runtime";
  DefaultCloudControllerManagerImage := "rancher/rke2-cloud-provider"
|}.

Record ImageOverrideConfig := {
  oc_SystemDefaultRegistry : string;
  oc_KubeAPIServer : string;
  oc_KubeControllerManager : string;
  oc_KubeProxy : string;
  oc_KubeScheduler : string;
  oc_Pause : string;
  oc_Runtime : string;
  oc_ETCD : string;
  oc_CloudControllerManager : string
}.

(** [splitRegistryAndPath]: split at the first slash, dropping one trailing
    slash of the path. *)
Definition splitRegistryAndPath (s : string) : string * string :=
  match Cut slash s with
  | Some (host, rest) => (host, TrimSuffix "/" rest)
  | None => (TrimSuffix "/" s, "")
  end.

Section resolver.
Context `{NameApi} (defaults : Defaults).

Record Resolver := {
  registry : Registry;
  repoPath : string;
  overrides : gmap string Reference
}.

Definition ParseAndSetDefaultRegistry (r : Resolver) (s : string) : result Resolver :=
  let '(host, path) := splitRegistryAndPath s in
  reg ← NewRegistry host;
  Ok {| registry := reg; repoPath := path; overrides := overrides r |}.

Definition ParseAndSetOverride (r : Resolver) (i n : string) : result Resolver :=
  let n := TrimSpace n in
  if decide (n = "") then Ok r
  else ref ← ParseReference n;
       Ok {| registry := registry r; repoPath := repoPath r;
             overrides := <[i := ref]> (overrides r) |}.

Definition SetOverride (r : Resolver) (i : string) (n : option Reference) : Resolver :=
  {| registry := registry r; repoPath := repoPath r;
     overrides := match n with
                  | None => delete i (overrides r)
                  | Some ref => <[i := ref]> (overrides r)
                  end |}.

(** The override list of [NewResolver], in source order. *)
Definition override_config (c : ImageOverrideConfig) : list (string * string) :=
  [(ETCD, oc_ETCD c); (KubeAPIServer, oc_KubeAPIServer c);
   (KubeControllerManager, oc_KubeControllerManager c); (KubeProxy, oc_KubeProxy c);
   (KubeScheduler, oc_KubeScheduler c); (Pause, oc_Pause c); (Runtime, oc_Runtime c);
   (CloudControllerManager, oc_CloudControllerManager c)].

Fixpoint set_overrides (r : Resolver) (cfg : list (string * string)) : result Resolver :=
  match cfg with
  | [] => Ok r
  | (i, n) :: cfg' =>
      r' ← with_message ("failed to parse " +:+ i) (ParseAndSetOverride r i n);
      set_overrides r' cfg'
  end.

Definition NewResolver (c : ImageOverrideConfig) : result Resolver :=
  reg ← NewRegistry (DefaultRegistry defaults);
  r ← set_overrides {| registry := reg; repoPath := ""; overrides := ∅ |} (override_config c);
  if decide (oc_SystemDefaultRegistry c ≠ "") then
    with_message "failed to parse system-default-registry"
      (ParseAndSetDefaultRegistry r (oc_SystemDefaultRegistry c))
  else Ok r.

(** [getDefaultImage] *)
Definition getDefaultImage (i : string) : result Reference :=
  s ← (if decide (i = ETCD) then Ok (DefaultEtcdImage defaults)
       else if decide (i = Runtime) then Ok (DefaultRuntimeImage defaults)
       else if decide (i = Pause) then Ok (DefaultPauseImage defaults)
       else if decide (i = CloudControllerManager)
            then Ok (DefaultCloudControllerManagerImage defaults)
       else if decide (i ∈ [KubeAPIServer; KubeControllerManager; KubeProxy; KubeScheduler])
            then Ok (DefaultKubernetesImage defaults)
       else Err (ErrMsg ("unknown image " +:+ i)));
  ParseReference s.

(** [setRegistry] *)
Definition setRegistry (ref : Reference) (reg : string) : result Reference :=
  let '(host, path) := splitRegistryAndPath reg in
  match NewRegistry host with
  | Err _ => Err (ErrMsg ("unable to parse registry from `" +:+ reg +:+ "`"))
  | Ok r =>
      if decide (path ≠ "") then
        let refMinusRegistry := TrimPrefix "/" (TrimPrefix (Ref_RegistryStr ref) (Ref_Name ref)) in
        ParseReference (Registry_Name r +:+ "/" +:+ path +:+ "/" +:+ refMinusRegistry)
      else
        match Ref_kind ref with
        | KTag _ | KDigest _ => Ok (set_Registry_field r ref)
        | KOther => Err (ErrMsg "unhandled Reference type")
        end
  end.

Abbreviation ResolverOpt := (Reference → result Reference).

Definition WithRegistry (reg : string) : ResolverOpt := λ r, setRegistry r reg.

Fixpoint apply_opts (opts : list ResolverOpt) (ref : Reference) : result Reference :=
  match opts with [] => Ok ref | o :: os => ref' ← o ref; apply_opts os ref' end.

(** [Resolver.GetReference] *)
Definition GetReference (r : Resolver) (i : string) (opts : list ResolverOpt)
    : result Reference :=
  ref ← match overrides r !! i with
        | Some o => Ok o
        | None =>
            d ← getDefaultImage i;
            let reg := Registry_Name (registry r) in
            let reg := if decide (repoPath r ≠ "") then reg +:+ "/" +:+ repoPath r else reg in
            setRegistry d reg
        end;
  apply_opts opts ref.

(** [Resolver.MustGetReference]: an error ends the process. *)
Definition MustGetReference (r : Resolver) (i : string) (opts : list ResolverOpt) : result Reference :=
  match GetReference r i opts with
  | Err err => Err (ErrText ("Failed to get image reference for " +:+ i) err)
  | Ok ref => Ok ref
  end.
End resolver.

(** ** Preloaded images *)

(** Some file of the listing is neither a directory nor a .txt or .json file. *)
Definition has_tarball (infos : list (string * node)) : bool :=
  existsb (λ '(name, n),
    match n with NDir => false | _ => negb (HasSuffix ".txt" name) && negb (HasSuffix ".json" name) end)
    infos.

Definition checkPreloadedImages (dir : string) : io bool :=
  st ← attempt (os_Stat dir);
  match st with
  | Err e => if os_IsNotExist e then mret false else io_fail e
  | Ok _ =>
      rd ← attempt (os_ReadDir dir);
      match rd with
      | Err _ => mret false
      | Ok fileInfos => mret (has_tarball fileInfos)
      end
  end.

Definition newline : string := String "010" "".

(** [Pull]; [image] is [image.Name()]. *)
Definition Pull (dir name image : string) : io unit :=
  if decide (dir = "") then mret ()
  else imagesExist ← checkPreloadedImages dir;
       if (imagesExist : bool) then mret ()
       else os_MkdirAll dir;;
            os_WriteFile (filepath_Join [dir; name +:+ ".txt"]) (image +:+ newline) 420.

(** ** Lemmas and theorems about the resolver *)

Lemma splitRegistryAndPath_host s :
  has_char slash s = false → s ≠ "" → HasSuffix "/" s = false → splitRegistryAndPath s = (s, "").
Proof.
  intros Hs _ Hsuf. unfold splitRegistryAndPath.
  rewrite (proj2 (Cut_None slash s) Hs). unfold TrimSuffix. by rewrite Hsuf.
Qed.

Lemma splitRegistryAndPath_join h p :
  has_char slash h = false → HasSuffix "/" p = false →
  splitRegistryAndPath (h +:+ "/" +:+ p) = (h, p).
Proof.
  intros Hh Hp. unfold splitRegistryAndPath.
  change (h +:+ "/" +:+ p) with (h +:+ String slash p). rewrite Cut_app by done.
  unfold TrimSuffix. by rewrite Hp.
Qed.

Lemma has_char_rev_app c s t :
  has_char c (String.rev_app s t) = has_char c s || has_char c t.
Proof.
  revert t. induction s as [|d s IH]; intros t; simpl; [done|].
  rewrite IH. simpl. by destruct (bool_decide (d = c)), (has_char c s), (has_char c t).
Qed.

Lemma no_slash_no_suffix s : has_char slash s = false → HasSuffix "/" s = false.
Proof.
  intros Hs. unfold HasSuffix. change (String.rev "/") with "/".
  assert (has_char slash (String.rev s) = false) as Hr
    by (unfold String.rev; by rewrite has_char_rev_app, Hs).
  destruct (String.rev s) as [|c t]; [done|]. simpl in *.
  apply orb_false_iff in Hr as [Hc _]. apply bool_decide_eq_false in Hc.
  rewrite andb_false_iff. left. apply bool_decide_eq_false. unfold slash in Hc. congruence.
Qed.

Lemma override_config_NoDup c : NoDup (override_config c).*1.
Proof. apply (bool_decide_eq_true_1 _). by vm_compute. Qed.

Section theorems.
Context `{NameLaws} (defaults : Defaults).
Implicit Types (r : Resolver) (ref d : Reference).

Abbreviation GetReference := (GetReference defaults).
Abbreviation getDefaultImage := (getDefaultImage defaults).

(** Retargeting to a plain registry keeps everything after the registry. *)
Lemma setRegistry_plain reg d rest :
  Ref_kind d ≠ KOther → Ref_Name d = Ref_RegistryStr d +:+ "/" +:+ rest →
  setRegistry d (Registry_Name reg) = Ok (set_Registry_field reg d) ∧
  Ref_Name (set_Registry_field reg d) = Registry_Name reg +:+ "/" +:+ rest.
Proof.
  intros Hk Hd. split; [|by apply set_registry_name].
  unfold setRegistry. pose proof (registry_no_slash reg).
  rewrite splitRegistryAndPath_host
    by (auto using registry_no_slash, registry_not_empty, no_slash_no_suffix).
  rewrite registry_roundtrip. rewrite decide_False by (intros X; by apply X).
  by destruct (Ref_kind d).
Qed.

(** Retargeting to a registry with a path parses the prefixed name. *)
Lemma setRegistry_path reg p d rest :
  p ≠ "" → HasSuffix "/" p = false →
  Ref_Name d = Ref_RegistryStr d +:+ "/" +:+ rest →
  setRegistry d (Registry_Name reg +:+ "/" +:+ p)
  = ParseReference (Registry_Name reg +:+ "/" +:+ p +:+ "/" +:+ rest).
Proof.
  intros Hp Hsuf Hd. unfold setRegistry.
  rewrite splitRegistryAndPath_join by auto using registry_no_slash.
  rewrite registry_roundtrip. rewrite decide_True by done.
  by rewrite Hd, TrimPrefix_app, TrimPrefix_app.
Qed.

(** An override, once set, decides the reference; other images keep theirs. *)
Lemma ParseAndSetOverride_lookup r r' i n :
  ParseAndSetOverride r i n = Ok r' →
  (TrimSpace n = "" ∧ r' = r) ∨
  (∃ ref, ParseReference (TrimSpace n) = Ok ref ∧ overrides r' = <[i := ref]> (overrides r)).
Proof.
  unfold ParseAndSetOverride. case_decide; [intros; simplify_eq; by left|].
  intros (ref & Hp & ?)%bind_Ok. simplify_eq. right. by exists ref.
Qed.

Lemma set_overrides_lookup r r' cfg :
  NoDup cfg.*1 → set_overrides r cfg = Ok r' →
  (∀ i n, (i, n) ∈ cfg →
     if decide (TrimSpace n = "") then overrides r' !! i = overrides r !! i
     else ∃ ref, ParseReference (TrimSpace n) = Ok ref ∧ overrides r' !! i = Some ref) ∧
  (∀ i, i ∉ cfg.*1 → overrides r' !! i = overrides r !! i).
Proof.
  revert r. induction cfg as [|[i n] cfg IH]; intros r Hnd; simpl.
  { intros; simplify_eq. split; [set_solver|done]. }
  intros (r1 & Hset%with_message_Ok & Hrest)%bind_Ok.
  apply NoDup_cons in Hnd as [Hi Hnd].
  destruct (IH r1 Hnd Hrest) as [IH1 IH2].
  destruct (ParseAndSetOverride_lookup _ _ _ _ Hset) as [[Hn ->]|(ref & Hp & Hr1)].
  - split.
    + intros i' n' [[= -> ->]|Hin]%elem_of_cons; [|by apply IH1].
      rewrite decide_True by done. by apply IH2.
    + intros i' Hi'. apply IH2. set_solver.
  - split.
    + intros i' n' [[= -> ->]|Hin]%elem_of_cons.
      * case_decide as Hn; [|].
        { unfold ParseAndSetOverride in Hset. rewrite decide_True in Hset by done.
          simplify_eq. by apply IH2. }
        exists ref. split; [done|]. rewrite IH2 by done. by rewrite Hr1, lookup_insert_eq.
      * specialize (IH1 i' n' Hin). case_decide; [|done].
        rewrite IH1, Hr1. apply lookup_insert_ne.
        intros ->. apply Hi. apply list_elem_of_fmap. by exists (i', n').
    + intros i' Hi'. rewrite IH2 by set_solver. rewrite Hr1. apply lookup_insert_ne. set_solver.
Qed.

(** With no override for the image, the resolved reference is the
    compile-time default moved to the configured registry: its full name is the
    registry's name, then the configured path prefix if there is one, then
    everything that followed the registry in the default.  This is what the
    table in images_registry_test.go samples. *)
Theorem GetReference_default_name r i d rest :
  overrides r !! i = None →
  getDefaultImage i = Ok d →
  Ref_Name d = Ref_RegistryStr d +:+ "/" +:+ rest →
  HasSuffix "/" (repoPath r) = false →
  if decide (repoPath r = "") then
    ∃ ref, GetReference r i [] = Ok ref ∧
           Ref_Name ref = Registry_Name (registry r) +:+ "/" +:+ rest
  else GetReference r i []
       = ParseReference (Registry_Name (registry r) +:+ "/" +:+ repoPath r +:+ "/" +:+ rest).
Proof.
  intros Ho Hd Hn Hs. unfold Images.GetReference. rewrite Ho, Hd. simpl.
  assert (Ref_kind d ≠ KOther) as Hk.
  { unfold Images.getDefaultImage in Hd. apply bind_Ok in Hd as (s & _ & Hd).
    by eapply parse_kind. }
  case_decide as Hp.
  - rewrite decide_False by (intros X; by apply X).
    destruct (setRegistry_plain (registry r) d rest Hk Hn) as [-> Hname].
    eexists. split; [done|]. exact Hname.
  - rewrite decide_True by done. rewrite (setRegistry_path _ _ d rest) by done.
    by destruct (ParseReference _).
Qed.

(** A resolver built from the configuration uses exactly the overrides the
    user gave: an image with a non-blank override resolves to the parsed
    override whatever the default registry is, and an image with a blank one
    has no override. *)
Theorem NewResolver_overrides c r i n :
  NewResolver defaults c = Ok r → (i, n) ∈ override_config c →
  if decide (TrimSpace n = "") then overrides r !! i = None
  else ∃ ref, ParseReference (TrimSpace n) = Ok ref ∧
              ∀ opts, GetReference r i opts = apply_opts opts ref.
Proof.
  unfold NewResolver. intros (reg & _ & (r1 & Hset & Hreg)%bind_Ok)%bind_Ok Hin.
  destruct (set_overrides_lookup _ r1 (override_config c)
              (override_config_NoDup c) Hset) as [Hover _].
  specialize (Hover i n Hin).
  assert (overrides r = overrides r1) as Heq.
  { destruct (decide (oc_SystemDefaultRegistry c ≠ "")); [|by simplify_eq].
    rewrite with_message_Ok in Hreg.
    unfold ParseAndSetDefaultRegistry in Hreg. destruct (splitRegistryAndPath _).
    apply bind_Ok in Hreg as (? & _ & ?). by simplify_eq. }
  case_decide.
  - by rewrite Heq, Hover.
  - destruct Hover as (ref & Hp & Hl). exists ref. split; [done|]. intros opts.
    unfold Images.GetReference. by rewrite Heq, Hl.
Qed.
End theorems.

(** ** Pull *)

Lemma readonly_checkPreloadedImages dir : readonly (checkPreloadedImages dir).
Proof.
  unfold checkPreloadedImages. apply readonly_bind; [auto with readonly|].
  intros [n|e]; [|case_match; auto with readonly].
  apply readonly_bind; [auto with readonly|]. intros [l|e]; auto with readonly.
Qed.

(** [Pull] touches the image list and missing parents of its directory only. *)
Lemma spares_Pull (K : string → Prop) dir name image :
  (∀ q, q ∈ ancestors dir → ¬ K q) → ¬ K (Clean (filepath_Join [dir; name +:+ ".txt"])) →
  spares K (Pull dir name image).
Proof.
  intros Hd Hf. unfold Pull. case_decide; [auto with spares|].
  apply spares_bind; [apply spares_readonly, readonly_checkPreloadedImages|].
  intros []; [auto with spares|]. apply spares_bind; [by apply spares_MkdirAll|].
  intros _. by apply spares_WriteFile.
Qed.

Lemma checkPreloadedImages_triple dir t0 I :
  triple (λ t, t = t0) (checkPreloadedImages dir)
    (λ r t, t = t0 ∧ (r = Ok true →
       t0 !! Clean dir = Some NDir ∧ has_tarball (children t0 (Clean dir)) = true)) I.
Proof.
  unfold checkPreloadedImages.
  eapply triple_bind with (R := λ st t, t = t0).
  { apply triple_attempt, triple_query; [by intros ? ->|by intros ? ? ->]. }
  intros [n|e].
  - eapply triple_bind with (R := λ rd t, t = t0 ∧ ∀ infos, rd = Ok infos →
      t0 !! Clean dir = Some NDir ∧ infos = children t0 (Clean dir)).
    { apply triple_attempt, triple_query; [|by intros ? ? ->].
      intros ? ->. split; [done|]. intros infos. by destruct (t0 !! Clean dir) as [[]|]; intros [= <-]. }
    intros [infos|e].
    + apply triple_ret. intros t [-> Hi]. split; [done|].
      destruct (Hi _ eq_refl) as [? ->]. naive_solver.
    + apply triple_ret. by intros t [-> _].
  - destruct (os_IsNotExist e); [apply triple_ret|apply triple_fail]; by intros ? ->.
Qed.

(** Under every fault schedule, a successful [Pull] into an absolute
    directory either found an airgap tarball and changed nothing, or left a file
    <image>.txt holding the reference and a newline; and at no moment has any
    path other than that file, or a missing ancestor directory, been touched. *)
Theorem Pull_triple cs name image t0 :
  cs ≠ [] → Forall (λ c, simple c = true) cs → simple (name +:+ ".txt") = true →
  let dir := mkpath cs in
  let dest := mkpath (cs ++ [name +:+ ".txt"]) in
  triple (λ t, t = t0) (Pull dir name image)
    (λ r t, r = Ok () →
       (t = t0 ∧ t0 !! dir = Some NDir ∧ has_tarball (children t0 dir) = true) ∨
       (∃ q, t !! dest = Some (NFile (image +:+ newline) q)))
    (λ t, ∀ q, q ≠ dest → q ∉ ancestors dir → t !! q = t0 !! q).
Proof.
  intros Hne Hcs Hname dir dest. unfold Pull.
  rewrite decide_False by (by destruct cs).
  eapply triple_bind with (R := λ b t, t = t0 ∧ (b = true →
      t0 !! Clean dir = Some NDir ∧ has_tarball (children t0 (Clean dir)) = true)).
  { eapply triple_weaken; [apply (checkPreloadedImages_triple dir t0 (λ _, False))|done| |done].
    intros [b|e] t [-> HR]; [|by intros]. split; [done|]. intros ->. by apply HR. }
  assert (Clean dir = dir) as Hclean by by apply Clean_mkpath.
  intros [].
  { apply triple_ret. intros t [-> HR] _. left. rewrite Hclean in HR. by destruct (HR eq_refl). }
  unfold dest. rewrite <-(filepath_Join_mkpath cs) by done. fold dir.
  set (dst := filepath_Join [dir; name +:+ ".txt"]).
  assert (Clean dst = dst) as Hdst.
  { unfold dst, dir. rewrite filepath_Join_mkpath by done. apply Clean_mkpath, Forall_app; auto. }
  apply (triple_pre (λ t, t = t0)); [|by intros t [-> _]].
  eapply triple_bind with (R := λ _ t, ∀ q, q ∉ ancestors dir → t !! q = t0 !! q).
  - eapply triple_weaken; [apply (os_MkdirAll_triple dir t0 (λ t, ∀ q, q ∉ ancestors dir → t !! q = t0 !! q))
      |done| |].
    + intros t Ht q Hq. destruct (Ht q) as [|(?&?&?)]; naive_solver.
    + intros [a|e] t [HR _]; [|by intros].
      intros q Hq. destruct (HR q) as [|(?&?&?)]; naive_solver.
    + intros t Ht q _. by apply Ht.
  - intros _ flt' s' Hs'.
    destruct (os_WriteFile_triple dst (image +:+ newline) 420 (nodes s')
      (λ t, ∀ q, q ≠ dst → q ∉ ancestors dir → t !! q = t0 !! q)) with flt' s' as [HQ HI]; [|done|].
    + intros c q k Hk Hanc. rewrite Hdst, lookup_insert_ne by done. by apply Hs'.
    + split; [|done]. intros Hr. right. rewrite Hdst in HQ. by apply HQ.
Qed.

(** ** A concrete registry-name library

    Enough of the naming rules to run the resolver: a host needs no slash, the
    empty host and "docker.io" mean Docker Hub, the first component of a
    reference is its registry when it holds a dot or a colon, and the tag
    defaults to "latest". *)
Module SimpleName.
Definition valid_host (s : string) : bool :=
  negb (has_char slash s) && bool_decide (s ≠ "" ∧ s ≠ "docker.io").

Definition host := {s : string | valid_host s = true}.

Definition mk_host (s : string) : result host :=
  let s := if decide (s = "" ∨ s = "docker.io") then "index.docker.io" else s in
  match decide (valid_host s = true) with
  | left p => Ok (exist _ s p)
  | right _ => Err (ErrMsg "registries must be valid RFC 3986 URI authorities")
  end.

Record sref := { sr_reg : host; sr_rest : string; sr_text : string }.

Definition identifier (rest : string) : string :=
  if has_char "@" rest || has_char ":" rest then rest else rest +:+ ":latest".

Definition parse (s : string) : result sref :=
  if decide (s = "") then Err (ErrMsg "a repository name must be specified")
  else match Cut slash s with
       | Some (h, rest) =>
           if has_char "." h || has_char ":" h
           then r ← mk_host h; Ok {| sr_reg := r; sr_rest := identifier rest; sr_text := s |}
           else r ← mk_host ""; Ok {| sr_reg := r; sr_rest := identifier s; sr_text := s |}
       | None => r ← mk_host ""; Ok {| sr_reg := r; sr_rest := identifier s; sr_text := s |}
       end.

#[export] Instance api : NameApi := {|
  Registry := host;
  Reference := sref;
  NewRegistry := mk_host;
  Registry_Name := proj1_sig;
  ParseReference := parse;
  Ref_Name r := proj1_sig (sr_reg r) +:+ "/" +:+ sr_rest r;
  Ref_String := sr_text;
  Ref_RegistryStr r := proj1_sig (sr_reg r);
  Ref_kind r := match Cut "@" (sr_rest r) with
                | Some (_, dg) => KDigest dg
                | None => KTag (cut_value ":" (sr_rest r))
                end;
  set_Registry_field h r := {| sr_reg := h; sr_rest := sr_rest r; sr_text := sr_text r |}
|}.

#[export] Instance laws : NameLaws.
Proof.
  split; simpl.
  - intros [s Hs]. simpl. unfold valid_host in Hs. apply andb_true_iff in Hs as [Hs _].
    by apply negb_true_iff.
  - intros [s Hs]. simpl. unfold valid_host in Hs.
    apply andb_true_iff in Hs as [_ Hs]. by apply bool_decide_eq_true in Hs as [].
  - intros [s Hs]. simpl. unfold mk_host.
    assert (¬ (s = "" ∨ s = "docker.io")) as Hne.
    { unfold valid_host in Hs. apply andb_true_iff in Hs as [_ Hs].
      apply bool_decide_eq_true in Hs. naive_solver. }
    rewrite (decide_False _ _ Hne).
    destruct (decide (valid_host s = true)) as [p|]; [|done]. f_equal.
    by apply (sig_eq_pi _).
  - intros ref. by eexists.
  - done.
  - intros r ref rest _ H. apply (inj _) in H.
    change ("/" +:+ sr_rest ref) with (String slash (sr_rest ref)) in H.
    change ("/" +:+ rest) with (String slash rest) in H. by simplify_eq.
  - intros s ref _. by destruct (Cut "@" (sr_rest ref)) as [[]|].
Qed.

Definition example_host : host := exist _ "example.com" eq_refl.
Definition hub : host := exist _ "index.docker.io" eq_refl.
Definition runtime_default : sref :=
  {| sr_reg := hub; sr_rest := "rancher/rke2-runtime:latest"; sr_text := "rancher/rke2-runtime" |}.
End SimpleName.

#[local] Existing Instance SimpleName.api.
#[local] Existing Instance SimpleName.laws.

Lemma GetReference_default_name_witness :
  ∃ ref, GetReference build_defaults
           {| registry := SimpleName.example_host; repoPath := ""; overrides := ∅ |} Runtime []
         = Ok ref ∧
         Ref_Name ref = "example.com/rancher/rke2-runtime:latest".
Proof.
  exact (GetReference_default_name build_defaults
    {| registry := SimpleName.example_host; repoPath := ""; overrides := ∅ |} Runtime
    SimpleName.runtime_default "rancher/rke2-runtime:latest" eq_refl eq_refl eq_refl eq_refl).
Defined.

Definition etcd_override_config : ImageOverrideConfig := {|
  oc_SystemDefaultRegistry := "example.com/mirror";
  oc_KubeAPIServer := ""; oc_KubeControllerManager := ""; oc_KubeProxy := "";
  oc_KubeScheduler := ""; oc_Pause := "  "; oc_Runtime := "";
  oc_ETCD := " quay.io/coreos/etcd:v3 "; oc_CloudControllerManager := ""
|}.

Lemma NewResolver_overrides_witness :
  ∃ r ref, NewResolver build_defaults etcd_override_config = Ok r ∧
    ParseReference "quay.io/coreos/etcd:v3" = Ok ref ∧
    ∀ opts, GetReference build_defaults r ETCD opts = apply_opts opts ref.
Proof.
  assert (is_Ok (NewResolver build_defaults etcd_override_config) = true) as Hok by by vm_compute.
  destruct (NewResolver build_defaults etcd_override_config) as [r|e] eqn:E; [|discriminate Hok].
  destruct (NewResolver_overrides build_defaults etcd_override_config r
              ETCD " quay.io/coreos/etcd:v3 " E ltac:(left)) as (ref & Hp & Hg).
  exists r, ref. split; [reflexivity|]. split; [exact Hp|exact Hg].
Defined.

Lemma Pull_triple_witness :
  let t0 : tree := ∅ in
  (Pull "/var/images" "etcd-image" "docker.io/etcd:v3" (λ _, None) (MkFS t0 0 [])).1 = Ok () ∧
  ∃ q, nodes (Pull "/var/images" "etcd-image" "docker.io/etcd:v3" (λ _, None) (MkFS t0 0 [])).2
         !! "/var/images/etcd-image.txt" = Some (NFile ("docker.io/etcd:v3" +:+ newline) q).
Proof.
  intros t0. split; [vm_compute; reflexivity|].
  destruct (Pull_triple ["var"; "images"] "etcd-image" "docker.io/etcd:v3" t0
    ltac:(done) ltac:(by repeat constructor) ltac:(done) (λ _, None) (MkFS t0 0 []) eq_refl)
    as [HQ _].
  destruct HQ as [(_ & H & _)|H]; [vm_compute; reflexivity|discriminate H|exact H].
Defined.
