(* ===== verification/PodConfig.v ===== *)
(** * PodConfig: pkg/podtemplate/types.go and config.go

    The control-plane configuration parsed from command-line flags: resource
    requests and limits, probe thresholds, extra environment and mounts.  The
    source keeps maps from component and setting names to pointers into the
    result struct and ranges over them in Go's unspecified map order; here the
    pointer table is a pair of mutually inverse functions between the struct
    and its fields ([get_resource]/[mk_resources], [get_probe]/[mk_probes]) and
    the iteration order is an argument, any permutation of the table. *)

From S2P Require Import Prelude GoStrings GoPath Images.

(** ** Names *)

Inductive Component :=
  | CKubeAPIServer | CKubeScheduler | CKubeControllerManager
  | CKubeProxy | CEtcd | CCloudControllerManager.

Inductive ResourceKind := CPURequest | CPULimit | MemoryRequest | MemoryLimit.

Inductive ProbeType := Liveness | Readiness | Startup.

Inductive Threshold :=
  | TInitialDelaySeconds | TTimeoutSeconds | TFailureThreshold | TPeriodSeconds.

#[export] Instance Component_eq_dec : EqDecision Component.
Proof. solve_decision. Defined.
#[export] Instance ResourceKind_eq_dec : EqDecision ResourceKind.
Proof. solve_decision. Defined.
#[export] Instance ProbeType_eq_dec : EqDecision ProbeType.
Proof. solve_decision. Defined.
#[export] Instance Threshold_eq_dec : EqDecision Threshold.
Proof. solve_decision. Defined.

Definition component_name (c : Component) : string :=
  match c with
  | CKubeAPIServer => "kube-apiserver"
  | CKubeScheduler => "kube-scheduler"
  | CKubeControllerManager => "kube-controller-manager"
  | CKubeProxy => "kube-proxy"
  | CEtcd => "etcd"
  | CCloudControllerManager => "cloud-controller-manager"
  end.

Definition resource_name (k : ResourceKind) : string :=
  match k with
  | CPURequest => "cpu-request"
  | CPULimit => "cpu-limit"
  | MemoryRequest => "memory-request"
  | MemoryLimit => "memory-limit"
  end.

Definition probe_name (p : ProbeType) : string :=
  match p with Readiness => "readiness" | Liveness => "liveness" | Startup => "startup" end.

Definition threshold_name (t : Threshold) : string :=
  match t with
  | TInitialDelaySeconds => "initial-delay-seconds"
  | TTimeoutSeconds => "timeout-seconds"
  | TFailureThreshold => "failure-threshold"
  | TPeriodSeconds => "period-seconds"
  end.

Definition all_components : list Component :=
  [CKubeAPIServer; CKubeScheduler; CKubeControllerManager; CKubeProxy; CEtcd;
   CCloudControllerManager].
Definition all_resources : list ResourceKind := [CPURequest; CPULimit; MemoryRequest; MemoryLimit].
Definition all_probes : list ProbeType := [Liveness; Readiness; Startup].
Definition all_thresholds : list Threshold :=
  [TInitialDelaySeconds; TTimeoutSeconds; TFailureThreshold; TPeriodSeconds].

(** ** Structs *)

Record ControlPlaneResources := {
  KubeAPIServerCPURequest : string;
  KubeAPIServerCPULimit : string;
  KubeAPIServerMemoryRequest : string;
  KubeAPIServerMemoryLimit : string;
  KubeSchedulerCPURequest : string;
  KubeSchedulerCPULimit : string;
  KubeSchedulerMemoryRequest : string;
  KubeSchedulerMemoryLimit : string;
  KubeControllerManagerCPURequest : string;
  KubeControllerManagerCPULimit : string;
  KubeControllerManagerMemoryRequest : string;
  KubeControllerManagerMemoryLimit : string;
  KubeProxyCPURequest : string;
  KubeProxyCPULimit : string;
  KubeProxyMemoryRequest : string;
  KubeProxyMemoryLimit : string;
  EtcdCPURequest : string;
  EtcdCPULimit : string;
  EtcdMemoryRequest : string;
  EtcdMemoryLimit : string;
  CloudControllerManagerCPURequest : string;
  CloudControllerManagerCPULimit : string;
  CloudControllerManagerMemoryRequest : string;
  CloudControllerManagerMemoryLimit : string
}.

Record ProbeConf := {
  InitialDelaySeconds : Z;
  TimeoutSeconds : Z;
  FailureThreshold : Z;
  PeriodSeconds : Z
}.

Record ProbeConfs := {
  pc_Liveness : ProbeConf;
  pc_Readiness : ProbeConf;
  pc_Startup : ProbeConf
}.

(** The three structs with one field per component. *)
Record PerComponent (A : Type) := {
  for_KubeAPIServer : A;
  for_KubeScheduler : A;
  for_KubeControllerManager : A;
  for_KubeProxy : A;
  for_Etcd : A;
  for_CloudControllerManager : A
}.
Arguments for_KubeAPIServer {A} _.
Arguments for_KubeScheduler {A} _.
Arguments for_KubeControllerManager {A} _.
Arguments for_KubeProxy {A} _.
Arguments for_Etcd {A} _.
Arguments for_CloudControllerManager {A} _.

Definition ControlPlaneEnv := PerComponent (list string).
Definition ControlPlaneMounts := PerComponent (list string).
Definition ControlPlaneProbeConfs := PerComponent ProbeConfs.

(** ** The pointer tables *)

(** [*resources[component][resource]] *)
Definition get_resource (r : ControlPlaneResources) (c : Component) (k : ResourceKind) : string :=
  match c, k with
  | CKubeAPIServer, CPURequest => KubeAPIServerCPURequest r
  | CKubeAPIServer, CPULimit => KubeAPIServerCPULimit r
  | CKubeAPIServer, MemoryRequest => KubeAPIServerMemoryRequest r
  | CKubeAPIServer, MemoryLimit => KubeAPIServerMemoryLimit r
  | CKubeScheduler, CPURequest => KubeSchedulerCPURequest r
  | CKubeScheduler, CPULimit => KubeSchedulerCPULimit r
  | CKubeScheduler, MemoryRequest => KubeSchedulerMemoryRequest r
  | CKubeScheduler, MemoryLimit => KubeSchedulerMemoryLimit r
  | CKubeControllerManager, CPURequest => KubeControllerManagerCPURequest r
  | CKubeControllerManager, CPULimit => KubeControllerManagerCPULimit r
  | CKubeControllerManager, MemoryRequest => KubeControllerManagerMemoryRequest r
  | CKubeControllerManager, MemoryLimit => KubeControllerManagerMemoryLimit r
  | CKubeProxy, CPURequest => KubeProxyCPURequest r
  | CKubeProxy, CPULimit => KubeProxyCPULimit r
  | CKubeProxy, MemoryRequest => KubeProxyMemoryRequest r
  | CKubeProxy, MemoryLimit => KubeProxyMemoryLimit r
  | CEtcd, CPURequest => EtcdCPURequest r
  | CEtcd, CPULimit => EtcdCPULimit r
  | CEtcd, MemoryRequest => EtcdMemoryRequest r
  | CEtcd, MemoryLimit => EtcdMemoryLimit r
  | CCloudControllerManager, CPURequest => CloudControllerManagerCPURequest r
  | CCloudControllerManager, CPULimit => CloudControllerManagerCPULimit r
  | CCloudControllerManager, MemoryRequest => CloudControllerManagerMemoryRequest r
  | CCloudControllerManager, MemoryLimit => CloudControllerManagerMemoryLimit r
  end.

Definition mk_resources (f : Component → ResourceKind → string) : ControlPlaneResources := {|
  KubeAPIServerCPURequest := f CKubeAPIServer CPURequest;
  KubeAPIServerCPULimit := f CKubeAPIServer CPULimit;
  KubeAPIServerMemoryRequest := f CKubeAPIServer MemoryRequest;
  KubeAPIServerMemoryLimit := f CKubeAPIServer MemoryLimit;
  KubeSchedulerCPURequest := f CKubeScheduler CPURequest;
  KubeSchedulerCPULimit := f CKubeScheduler CPULimit;
  KubeSchedulerMemoryRequest := f CKubeScheduler MemoryRequest;
  KubeSchedulerMemoryLimit := f CKubeScheduler MemoryLimit;
  KubeControllerManagerCPURequest := f CKubeControllerManager CPURequest;
  KubeControllerManagerCPULimit := f CKubeControllerManager CPULimit;
  KubeControllerManagerMemoryRequest := f CKubeControllerManager MemoryRequest;
  KubeControllerManagerMemoryLimit := f CKubeControllerManager MemoryLimit;
  KubeProxyCPURequest := f CKubeProxy CPURequest;
  KubeProxyCPULimit := f CKubeProxy CPULimit;
  KubeProxyMemoryRequest := f CKubeProxy MemoryRequest;
  KubeProxyMemoryLimit := f CKubeProxy MemoryLimit;
  EtcdCPURequest := f CEtcd CPURequest;
  EtcdCPULimit := f CEtcd CPULimit;
  EtcdMemoryRequest := f CEtcd MemoryRequest;
  EtcdMemoryLimit := f CEtcd MemoryLimit;
  CloudControllerManagerCPURequest := f CCloudControllerManager CPURequest;
  CloudControllerManagerCPULimit := f CCloudControllerManager CPULimit;
  CloudControllerManagerMemoryRequest := f CCloudControllerManager MemoryRequest;
  CloudControllerManagerMemoryLimit := f CCloudControllerManager MemoryLimit
|}.

(** [*target = val] for the pointer of component [c] and resource [k]. *)
Definition set_resource (c : Component) (k : ResourceKind) (v : string)
    (r : ControlPlaneResources) : ControlPlaneResources :=
  mk_resources (λ c' k', if decide (c' = c ∧ k' = k) then v else get_resource r c' k').

Definition zero_resources : ControlPlaneResources := mk_resources (λ _ _, "").

Definition select {A} (r : PerComponent A) (c : Component) : A :=
  match c with
  | CKubeAPIServer => for_KubeAPIServer r
  | CKubeScheduler => for_KubeScheduler r
  | CKubeControllerManager => for_KubeControllerManager r
  | CKubeProxy => for_KubeProxy r
  | CEtcd => for_Etcd r
  | CCloudControllerManager => for_CloudControllerManager r
  end.

Definition per_component {A} (f : Component → A) : PerComponent A := {|
  for_KubeAPIServer := f CKubeAPIServer;
  for_KubeScheduler := f CKubeScheduler;
  for_KubeControllerManager := f CKubeControllerManager;
  for_KubeProxy := f CKubeProxy;
  for_Etcd := f CEtcd;
  for_CloudControllerManager := f CCloudControllerManager
|}.

(** [*probes[component][probeName][threshold]] *)
Definition get_probe (r : ControlPlaneProbeConfs) (c : Component) (p : ProbeType) (t : Threshold) : Z :=
  let confs := select r c in
  let conf := match p with
              | Liveness => pc_Liveness confs
              | Readiness => pc_Readiness confs
              | Startup => pc_Startup confs
              end in
  match t with
  | TInitialDelaySeconds => InitialDelaySeconds conf
  | TTimeoutSeconds => TimeoutSeconds conf
  | TFailureThreshold => FailureThreshold conf
  | TPeriodSeconds => PeriodSeconds conf
  end.

Definition mk_probes (f : Component → ProbeType → Threshold → Z) : ControlPlaneProbeConfs :=
  let conf c p := {| InitialDelaySeconds := f c p TInitialDelaySeconds;
                     TimeoutSeconds := f c p TTimeoutSeconds;
                     FailureThreshold := f c p TFailureThreshold;
                     PeriodSeconds := f c p TPeriodSeconds |} in
  per_component (λ c, {| pc_Liveness := conf c Liveness;
                         pc_Readiness := conf c Readiness;
                         pc_Startup := conf c Startup |}).

Definition set_probe (c : Component) (p : ProbeType) (t : Threshold) (v : Z)
    (r : ControlPlaneProbeConfs) : ControlPlaneProbeConfs :=
  mk_probes (λ c' p' t', if decide (c' = c ∧ p' = p ∧ t' = t) then v else get_probe r c' p' t').

Definition zero_probes : ControlPlaneProbeConfs := mk_probes (λ _ _ _, 0%Z).

(** [defaultResources[component][resource]] *)
Definition defaultResources (c : Component) (k : ResourceKind) : option string :=
  match k with
  | CPURequest => Some match c with
      | CKubeAPIServer => "250m" | CKubeScheduler => "100m" | CKubeControllerManager => "200m"
      | CKubeProxy => "250m" | CEtcd => "200m" | CCloudControllerManager => "100m" end
  | MemoryRequest => Some match c with
      | CKubeAPIServer => "1024Mi" | CKubeScheduler => "128Mi" | CKubeControllerManager => "256Mi"
      | CKubeProxy => "128Mi" | CEtcd => "512Mi" | CCloudControllerManager => "128Mi" end
  | CPULimit | MemoryLimit => None
  end.

(** [defaultProbeConf[probeName][threshold]] *)
Definition defaultProbeConf (p : ProbeType) (t : Threshold) : Z :=
  match p, t with
  | Liveness, TInitialDelaySeconds => 10
  | Liveness, TTimeoutSeconds => 15
  | Liveness, TFailureThreshold => 8
  | Liveness, TPeriodSeconds => 10
  | Readiness, TInitialDelaySeconds => 0
  | Readiness, TTimeoutSeconds => 15
  | Readiness, TFailureThreshold => 3
  | Readiness, TPeriodSeconds => 1
  | Startup, TInitialDelaySeconds => 10
  | Startup, TTimeoutSeconds => 15
  | Startup, TFailureThreshold => 24
  | Startup, TPeriodSeconds => 10
  end.

(** ** Parsing *)

(** [for _, flag := range flags { for _, raw := range strings.Split(flag, ",") ...] *)
Definition raw_entries (flags : list string) : list string := flags ≫= Split comma.

Fixpoint parse_entries (suffix msg : string) (raws : list string) (m : gmap string string)
    : result (gmap string string) :=
  match raws with
  | [] => Ok m
  | raw :: raws' =>
      match SplitN2 equals raw with
      | [k; v] => parse_entries suffix msg raws' (<[k +:+ suffix := v]> m)
      | _ => Err (ErrMsg (msg +:+ raw))
      end
  end.

Definition resource_key (c : Component) (k : ResourceKind) : string :=
  component_name c +:+ "-" +:+ resource_name k.

(** One iteration of the assignment loop over [resources]. *)
Definition assign_resource (parsed : gmap string string) (r : ControlPlaneResources)
    (ck : Component * ResourceKind) : ControlPlaneResources :=
  let '(c, k) := ck in
  match parsed !! resource_key c k with
  | Some v => set_resource c k v r
  | None => match defaultResources c k with Some v => set_resource c k v r | None => r end
  end.

Definition request_error := "incorrectly formatted control plane resource request specified: ".
Definition limit_error := "incorrectly formatted control plane resource limit specified: ".

Definition parseControlPlaneResources (order : list (Component * ResourceKind))
    (requests limits : list string) : result ControlPlaneResources :=
  m ← parse_entries "-request" request_error (raw_entries requests) ∅;
  m ← parse_entries "-limit" limit_error (raw_entries limits) m;
  Ok (foldl (assign_resource m) zero_resources order).

Fixpoint parse_probes (raws : list string) (m : gmap string Z) : result (gmap string Z) :=
  match raws with
  | [] => Ok m
  | raw :: raws' =>
      match SplitN2 equals raw with
      | [k; v] =>
          match ParseInt 32 v with
          | Some val =>
              if decide (val < 0)%Z
              then Err (ErrMsg ("invalid control plane probe config value specified: " +:+ raw))
              else parse_probes raws' (<[k := val]> m)
          | None => Err (ErrMsg ("invalid control plane probe config value specified: " +:+ raw))
          end
      | _ => Err (ErrMsg ("incorrectly formatted control probe config specified: " +:+ raw))
      end
  end.

Definition probe_key (c : Component) (p : ProbeType) (t : Threshold) : string :=
  component_name c +:+ "-" +:+ probe_name p +:+ "-" +:+ threshold_name t.

Definition assign_probe (parsed : gmap string Z) (r : ControlPlaneProbeConfs)
    (cpt : Component * ProbeType * Threshold) : ControlPlaneProbeConfs :=
  let '(c, p, t) := cpt in
  match parsed !! probe_key c p t with
  | Some v => set_probe c p t v r
  | None => set_probe c p t (defaultProbeConf p t) r
  end.

Definition parseControlPlaneProbeConfs (order : list (Component * ProbeType * Threshold))
    (probeConfs : list string) : result ControlPlaneProbeConfs :=
  m ← parse_probes (raw_entries probeConfs) ∅;
  Ok (foldl (assign_probe m) zero_probes order).

(** The value of each [cli.StringSlice] of the configuration. *)
Definition parseControlPlaneEnv (extraEnv : PerComponent (list string)) : result ControlPlaneEnv :=
  Ok (per_component (select extraEnv)).
Definition parseControlPlaneMounts (extraMounts : PerComponent (list string))
    : result ControlPlaneMounts :=
  Ok (per_component (select extraMounts)).

(** The fields of [rke2cli.Config] the pod templates use. *)
Record CLIConfig := {
  cli_Images : ImageOverrideConfig;
  cli_Requests : list string;
  cli_Limits : list string;
  cli_ProbeConf : list string;
  cli_ExtraEnv : PerComponent (list string);
  cli_ExtraMounts : PerComponent (list string)
}.

Section config.
Context `{NameApi} (defaults : Defaults).

Record Config := {
  cfg_ImagesDir : string;
  cfg_DataDir : string;
  cfg_Resolver : Resolver;
  cfg_Env : ControlPlaneEnv;
  cfg_Mounts : ControlPlaneMounts;
  cfg_Probes : ControlPlaneProbeConfs;
  cfg_Resources : ControlPlaneResources
}.

Definition NewConfigFromCLI (rorder : list (Component * ResourceKind))
    (porder : list (Component * ProbeType * Threshold))
    (dataDir : string) (cfg : CLIConfig) : result Config :=
  resolver ← NewResolver defaults (cli_Images cfg);
  resources ← parseControlPlaneResources rorder (cli_Requests cfg) (cli_Limits cfg);
  probes ← parseControlPlaneProbeConfs porder (cli_ProbeConf cfg);
  env ← parseControlPlaneEnv (cli_ExtraEnv cfg);
  mounts ← parseControlPlaneMounts (cli_ExtraMounts cfg);
  Ok {| cfg_ImagesDir := filepath_Join [dataDir; "agent"; "images"];
        cfg_DataDir := dataDir;
        cfg_Resolver := resolver;
        cfg_Env := env; cfg_Mounts := mounts; cfg_Probes := probes;
        cfg_Resources := resources |}.
End config.

(** ** Correctness *)

(** The last value the user gave for [key] among the raw entries. *)
Definition last_value (key : string) (raws : list string) : option string :=
  last (omap (λ raw, match Cut equals raw with
                     | Some (k, v) => if decide (k = key) then Some v else None
                     | None => None
                     end) raws).

Lemma last_value_cons key raw raws :
  last_value key (raw :: raws) =
  match last_value key raws with
  | Some v => Some v
  | None => match Cut equals raw with
            | Some (k, v) => if decide (k = key) then Some v else None
            | None => None
            end
  end.
Proof.
  unfold last_value. simpl. destruct (Cut equals raw) as [[k v]|]; simpl.
  - case_decide; [rewrite last_cons|]; by destruct (last _).
  - by destruct (last _).
Qed.

Lemma parse_entries_lookup suffix msg raws m m' :
  parse_entries suffix msg raws m = Ok m' →
  (∀ key, m' !! (key +:+ suffix) =
          match last_value key raws with Some v => Some v | None => m !! (key +:+ suffix) end) ∧
  (∀ key, (∀ x, key ≠ x +:+ suffix) → m' !! key = m !! key).
Proof.
  revert m. induction raws as [|raw raws IH]; intros m; simpl.
  { intros [= ->]. done. }
  unfold SplitN2. destruct (Cut equals raw) as [[k v]|] eqn:Hcut; [|done].
  intros Hp. destruct (IH _ Hp) as [IH1 IH2]. split.
  - intros key. rewrite last_value_cons, Hcut, IH1.
    destruct (last_value key raws); [done|]. case_decide as Hk.
    + subst. by rewrite lookup_insert_eq.
    + rewrite lookup_insert_ne; [done|]. intros Hk'. by apply app_inj_r' in Hk'.
  - intros key Hkey. rewrite IH2 by done. apply lookup_insert_ne. intros Hk. by eapply Hkey.
Qed.

Lemma parse_entries_Ok suffix msg raws m :
  (∃ m', parse_entries suffix msg raws m = Ok m') ↔ Forall (λ raw, has_char equals raw = true) raws.
Proof.
  revert m. induction raws as [|raw raws IH]; intros m; simpl; [naive_solver|].
  rewrite Forall_cons. unfold SplitN2.
  destruct (Cut equals raw) as [[k v]|] eqn:Hcut.
  - rewrite IH. assert (has_char equals raw = true); [|naive_solver].
    destruct (has_char equals raw) eqn:E; [done|]. by rewrite (proj2 (Cut_None _ _) E) in Hcut.
  - apply Cut_None in Hcut. split; [by intros [? ?]|]. intros [? _]. congruence.
Qed.

Lemma limit_ne_request x y : x +:+ "-limit" ≠ y +:+ "-request".
Proof.
  intros H. apply (f_equal String.rev) in H. rewrite !rev_app_distr' in H. by vm_compute in H.
Qed.

(** Reading back a struct built from a field function. *)
Lemma get_mk_resources f c k : get_resource (mk_resources f) c k = f c k.
Proof. by destruct c, k. Qed.
Lemma get_mk_probes f c p t : get_probe (mk_probes f) c p t = f c p t.
Proof. by destruct c, p, t. Qed.
Lemma mk_get_resources r : mk_resources (get_resource r) = r.
Proof. by destruct r. Qed.

Lemma all_pairs_complete ck : ck ∈ (c ← all_components; pair c <$> all_resources).
Proof. destruct ck as [[] []]; apply (bool_decide_unpack _); vm_compute; exact I. Qed.
Lemma all_triples_complete cpt :
  cpt ∈ (c ← all_components; p ← all_probes; pair (c, p) <$> all_thresholds).
Proof. destruct cpt as [[[] []] []]; apply (bool_decide_unpack _); vm_compute; exact I. Qed.

Lemma get_assign_resource m r ck c k :
  get_resource (assign_resource m r ck) c k =
  if decide ((c, k) = ck)
  then default (default (get_resource r c k) (defaultResources c k)) (m !! resource_key c k)
  else get_resource r c k.
Proof.
  destruct ck as [c' k']. unfold assign_resource, set_resource.
  destruct (decide ((c, k) = (c', k'))) as [[= -> ->]|Hne].
  - destruct (m !! resource_key c' k') as [v|]; [|destruct (defaultResources c' k') as [v|]];
      simpl; rewrite ?get_mk_resources, ?decide_True by done; done.
  - assert (¬ (c = c' ∧ k = k')) by naive_solver.
    destruct (m !! resource_key c' k') as [v|]; [|destruct (defaultResources c' k') as [v|]];
      rewrite ?get_mk_resources, ?decide_False by done; done.
Qed.

Lemma get_foldl_resource m order r c k :
  get_resource (foldl (assign_resource m) r order) c k =
  if decide ((c, k) ∈ order)
  then default (default (get_resource r c k) (defaultResources c k)) (m !! resource_key c k)
  else get_resource r c k.
Proof.
  revert r. induction order as [|ck order IH]; intros r; [done|]. cbn [foldl].
  rewrite IH, get_assign_resource.
  destruct (decide ((c, k) = ck)) as [<-|Hne].
  - destruct (decide ((c, k) ∈ (c, k) :: order)) as [_|Hn]; [|destruct Hn; by left].
    destruct (decide ((c, k) ∈ order)); [|done].
    by destruct (m !! resource_key c k), (defaultResources c k).
  - destruct (decide ((c, k) ∈ order)) as [Hin|Hn],
      (decide ((c, k) ∈ ck :: order)) as [Hin'|Hn']; try done.
    + destruct Hn'. by right.
    + by apply elem_of_cons in Hin' as [?|?].
Qed.

(** The flag name a user writes for a resource, without "-request"/"-limit". *)
Definition resource_flag (c : Component) (k : ResourceKind) : string :=
  component_name c +:+ match k with
                       | CPURequest | CPULimit => "-cpu"
                       | MemoryRequest | MemoryLimit => "-memory"
                       end.

(** Whatever order Go iterates its maps in, every resource field of the
    parsed configuration is the last value the user gave for it (in the requests
    flags for a request, in the limits flags for a limit, comma-separated or
    repeated), else the built-in default, else empty. *)
Theorem parseControlPlaneResources_spec order requests limits r c k :
  order ≡ₚ (c ← all_components; pair c <$> all_resources) →
  parseControlPlaneResources order requests limits = Ok r →
  get_resource r c k =
  default (default "" (defaultResources c k))
    (last_value (resource_flag c k)
       (raw_entries match k with CPURequest | MemoryRequest => requests
                               | CPULimit | MemoryLimit => limits end)).
Proof.
  intros Horder. unfold parseControlPlaneResources.
  intros (m1 & H1 & (m2 & H2 & [= <-])%bind_Ok)%bind_Ok.
  rewrite get_foldl_resource, decide_True by (rewrite Horder; apply all_pairs_complete).
  unfold zero_resources. rewrite get_mk_resources. f_equal.
  apply parse_entries_lookup in H1 as [H1 H1n], H2 as [H2 H2'].
  assert (∀ x, m1 !! (x +:+ "-limit") = None) as H1'.
  { intros x. rewrite H1n; [apply lookup_empty|]. intros y Hy. by eapply limit_ne_request. }
  destruct k; unfold resource_key, resource_flag.
  - change (resource_name CPURequest) with ("cpu" +:+ "-request").
    rewrite (app_assoc' "-"), app_assoc', H2' by (intros x Hx; by eapply limit_ne_request).
    rewrite H1. by destruct (last_value _ _).
  - change (resource_name CPULimit) with ("cpu" +:+ "-limit").
    rewrite (app_assoc' "-"), app_assoc', H2, H1'. by destruct (last_value _ _).
  - change (resource_name MemoryRequest) with ("memory" +:+ "-request").
    rewrite (app_assoc' "-"), app_assoc', H2' by (intros x Hx; by eapply limit_ne_request).
    rewrite H1. by destruct (last_value _ _).
  - change (resource_name MemoryLimit) with ("memory" +:+ "-limit").
    rewrite (app_assoc' "-"), app_assoc', H2, H1'. by destruct (last_value _ _).
Qed.

Definition sample_resource_order : list (Component * ResourceKind) :=
  c ← all_components; pair c <$> all_resources.

Lemma parseControlPlaneResources_spec_witness :
  ∃ r, parseControlPlaneResources sample_resource_order
         ["kube-apiserver-cpu=1,etcd-memory=2Gi"; "kube-apiserver-cpu=500m"] ["etcd-cpu=4"] = Ok r ∧
       get_resource r CKubeAPIServer CPURequest = "500m" ∧
       get_resource r CEtcd CPULimit = "4" ∧ get_resource r CKubeProxy MemoryLimit = "".
Proof.
  destruct (parseControlPlaneResources sample_resource_order
    ["kube-apiserver-cpu=1,etcd-memory=2Gi"; "kube-apiserver-cpu=500m"] ["etcd-cpu=4"])
    as [r|e] eqn:E; [|discriminate E].
  exists r. split; [reflexivity|].
  assert (Hs := λ c k, parseControlPlaneResources_spec sample_resource_order _ _ r c k
                         (reflexivity _) E).
  split; [|split]; rewrite Hs; vm_compute; reflexivity.
Defined.

(** Parsing the resource flags succeeds exactly when every comma-separated
    entry of both flags contains an equals sign; otherwise the error names an
    entry that does not. *)
Theorem parseControlPlaneResources_total order requests limits :
  match parseControlPlaneResources order requests limits with
  | Ok _ => Forall (λ raw, has_char equals raw = true) (raw_entries requests ++ raw_entries limits)
  | Err e => ∃ raw, has_char equals raw = false ∧
      ((raw ∈ raw_entries requests ∧ e = ErrMsg (request_error +:+ raw)) ∨
       (raw ∈ raw_entries limits ∧ e = ErrMsg (limit_error +:+ raw)))
  end.
Proof.
  assert (∀ suffix msg raws m e, parse_entries suffix msg raws m = Err e →
    ∃ raw, raw ∈ raws ∧ has_char equals raw = false ∧ e = ErrMsg (msg +:+ raw)) as Herr.
  { intros suffix msg raws. induction raws as [|raw raws IH]; intros m e; simpl; [done|].
    unfold SplitN2. destruct (Cut equals raw) as [[k v]|] eqn:Hc.
    - intros (raw' & ? & ?)%IH. exists raw'. set_solver.
    - intros [= <-]. exists raw. apply Cut_None in Hc. set_solver. }
  unfold parseControlPlaneResources.
  destruct (parse_entries "-request" _ _ _) as [m1|e] eqn:H1; simpl.
  - destruct (parse_entries "-limit" _ _ _) as [m2|e] eqn:H2; simpl.
    + apply Forall_app; split; eapply parse_entries_Ok; eauto.
    + apply Herr in H2 as (raw & ? & ? & ->). exists raw. auto.
  - apply Herr in H1 as (raw & ? & ? & ->). exists raw. auto.
Qed.

(** *** Probes *)

Lemma get_assign_probe m r cpt c p t :
  get_probe (assign_probe m r cpt) c p t =
  if decide ((c, p, t) = cpt) then default (defaultProbeConf p t) (m !! probe_key c p t)
  else get_probe r c p t.
Proof.
  destruct cpt as [[c' p'] t']. unfold assign_probe, set_probe.
  destruct (decide ((c, p, t) = (c', p', t'))) as [[= -> -> ->]|Hne].
  - destruct (m !! probe_key c' p' t'); simpl; rewrite get_mk_probes, decide_True by done; done.
  - assert (¬ (c = c' ∧ p = p' ∧ t = t')) by naive_solver.
    destruct (m !! probe_key c' p' t'); rewrite get_mk_probes, decide_False by done; done.
Qed.

Lemma get_foldl_probe m order r c p t :
  get_probe (foldl (assign_probe m) r order) c p t =
  if decide ((c, p, t) ∈ order) then default (defaultProbeConf p t) (m !! probe_key c p t)
  else get_probe r c p t.
Proof.
  revert r. induction order as [|x order IH]; intros r; [done|]. cbn [foldl].
  rewrite IH, get_assign_probe.
  destruct (decide ((c, p, t) ∈ order)) as [Hin|Hn],
    (decide ((c, p, t) ∈ x :: order)) as [Hin'|Hn'], (decide ((c, p, t) = x)) as [<-|];
    try done; try (destruct Hn'; by (left || right)).
  by apply elem_of_cons in Hin' as [?|?].
Qed.

Lemma parse_probes_lookup raws m m' :
  parse_probes raws m = Ok m' →
  ∀ key, match last_value key raws with
         | Some v => ∃ z, ParseInt 32 v = Some z ∧ (0 ≤ z)%Z ∧ m' !! key = Some z
         | None => m' !! key = m !! key
         end.
Proof.
  revert m. induction raws as [|raw raws IH]; intros m; simpl; [by intros [= ->]|].
  unfold SplitN2. destruct (Cut equals raw) as [[k v]|] eqn:Hcut; [|done].
  destruct (ParseInt 32 v) as [z|] eqn:Hz; [|done]. case_decide; [done|].
  intros Hp key. specialize (IH _ Hp key). rewrite last_value_cons, Hcut.
  destruct (last_value key raws); [done|]. case_decide as Hk.
  - subst. exists z. rewrite IH, lookup_insert_eq. split_and!; [done|lia|done].
  - by rewrite IH, lookup_insert_ne.
Qed.

Lemma parse_probes_value order confs r c p t :
  order ≡ₚ (c ← all_components; p ← all_probes; pair (c, p) <$> all_thresholds) →
  parseControlPlaneProbeConfs order confs = Ok r →
  ∃ m, parse_probes (raw_entries confs) ∅ = Ok m ∧
       get_probe r c p t = default (defaultProbeConf p t) (m !! probe_key c p t).
Proof.
  intros Horder. unfold parseControlPlaneProbeConfs. intros (m & Hm & [= <-])%bind_Ok.
  exists m. split; [done|].
  by rewrite get_foldl_probe, decide_True by (rewrite Horder; apply all_triples_complete).
Qed.

(** Every parsed threshold fits a non-negative int32. *)
Lemma parse_probes_range order confs r c p t :
  order ≡ₚ (c ← all_components; p ← all_probes; pair (c, p) <$> all_thresholds) →
  parseControlPlaneProbeConfs order confs = Ok r →
  (0 ≤ get_probe r c p t < 2 ^ 31)%Z.
Proof.
  intros Horder Hr. destruct (parse_probes_value _ _ _ c p t Horder Hr) as (m & Hm & ->).
  apply (parse_probes_lookup _ _ _) with (key := probe_key c p t) in Hm.
  destruct (last_value _ _) as [v|].
  - destruct Hm as (z & Hz & Hpos & ->). simpl. apply ParseInt_bounds in Hz. lia.
  - rewrite Hm, lookup_empty. by destruct p, t.
Qed.

(** C40: Whatever the map iteration order, every probe threshold of the parsed
    configuration is the decimal number the user last gave for it, else the
    built-in default, and it always lies in [0, 2^31): the conversion to int32
    never wraps. *)
Theorem parseControlPlaneProbeConfs_spec order confs r c p t :
  order ≡ₚ (c ← all_components; p ← all_probes; pair (c, p) <$> all_thresholds) →
  parseControlPlaneProbeConfs order confs = Ok r →
  match last_value (probe_key c p t) (raw_entries confs) with
  | Some v => ParseInt 32 v = Some (get_probe r c p t)
  | None => get_probe r c p t = defaultProbeConf p t
  end ∧ (0 ≤ get_probe r c p t < 2 ^ 31)%Z.
Proof.
  intros Horder Hr. split; [|by eapply parse_probes_range].
  destruct (parse_probes_value _ _ _ c p t Horder Hr) as (m & Hm & ->).
  apply (parse_probes_lookup _ _ _) with (key := probe_key c p t) in Hm.
  destruct (last_value _ _) as [v|].
  - by destruct Hm as (z & Hz & _ & ->).
  - by rewrite Hm, lookup_empty.
Qed.

Definition sample_probe_order : list (Component * ProbeType * Threshold) :=
  c ← all_components; p ← all_probes; pair (c, p) <$> all_thresholds.

Lemma parseControlPlaneProbeConfs_spec_witness :
  ∃ r, parseControlPlaneProbeConfs sample_probe_order
         ["kube-proxy-startup-initial-delay-seconds=42"] = Ok r ∧
       ParseInt 32 "42" = Some (get_probe r CKubeProxy Startup TInitialDelaySeconds) ∧
       get_probe r CEtcd Liveness TFailureThreshold = 8%Z.
Proof.
  destruct (parseControlPlaneProbeConfs sample_probe_order
    ["kube-proxy-startup-initial-delay-seconds=42"]) as [r|e] eqn:E; [|discriminate E].
  exists r. split; [reflexivity|].
  assert (Hs := λ c p t, proj1 (parseControlPlaneProbeConfs_spec sample_probe_order _ r c p t
                                  (reflexivity _) E)).
  split; [exact (Hs CKubeProxy Startup TInitialDelaySeconds)
         |exact (Hs CEtcd Liveness TFailureThreshold)].
Defined.
