(* ===== verification/FlagOpts.v ===== *)
(** * FlagOpts: how the commands of k3s become commands of RKE2 (pkg/cli/cmds)

    RKE2 wraps the commands of k3s: a table per command says for every flag of
    k3s whether it is kept, hidden, dropped or given another usage or default;
    [commandFromK3S] applies the table and refuses a flag without an entry and an
    entry without a flag, so that a new flag of k3s stops the build of RKE2 until
    somebody decides about it.  The tables are those of server.go, agent.go,
    cert.go, etcd_snapshot.go, secrets_encrypt.go and token.go; the flags RKE2
    adds are those of root.go, server.go and agent.go.  The flags of k3s itself
    are an argument. *)

From S2P Require Import Prelude GoStrings GoPath GoFS Images PodConfig.

(** ** Flags of the command line library *)

Inductive flag_value :=
  | StringFlag (value : string)
  | StringSliceFlag (value : list string)
  | IntFlag
  | BoolFlag
  | DurationFlag
  | OtherFlag.

(** [Names()] is the name and its aliases, so it is never empty. *)
Record Flag := {
  f_Name : string;
  f_Aliases : list string;
  f_Usage : string;
  f_EnvVars : list string;
  f_Hidden : bool;
  f_Value : flag_value
}.

(** ** Options *)

Record K3SFlagOption := { Hide : bool; Drop : bool; Ignore : bool; Usage : string; Default : string }.

Definition K3SFlagSet := gmap string K3SFlagOption.

Definition copyFlag : K3SFlagOption := {| Hide := false; Drop := false; Ignore := false; Usage := ""; Default := "" |}.
Definition dropFlag : K3SFlagOption := {| Hide := false; Drop := true; Ignore := false; Usage := ""; Default := "" |}.
Definition hideFlag : K3SFlagOption := {| Hide := true; Drop := false; Ignore := false; Usage := ""; Default := "" |}.
Definition ignoreFlag : K3SFlagOption := {| Hide := false; Drop := false; Ignore := true; Usage := ""; Default := "" |}.

(** An option that only sets usage and default. *)
Definition usageFlag (u d : string) : K3SFlagOption :=
  {| Hide := false; Drop := false; Ignore := false; Usage := u; Default := d |}.

(** [k.CopyInto(d)]: the entries of [k] replace those of [d]. *)
Definition CopyInto (k d : K3SFlagSet) : K3SFlagSet := k ∪ d.

(** [parseName]: the first name of more than one letter, else the first name. *)
Definition parseName (f : Flag) : string :=
  let names := f_Name f :: f_Aliases f in
  match filter (λ n, 1 < Len n) (TrimSpace <$> names) with
  | n :: _ => n
  | [] => TrimSpace (f_Name f)
  end.

(** The branches over the type of the flag. *)
Definition set_flag (u : string) (hide : bool) (v : flag_value) (f : Flag) : Flag := {|
  f_Name := f_Name f; f_Aliases := f_Aliases f;
  f_Usage := if decide (u ≠ "") then u else f_Usage f;
  f_EnvVars := f_EnvVars f;
  f_Hidden := hide || f_Hidden f;
  f_Value := v
|}.

Definition wrap_flag (opt : K3SFlagOption) (f : Flag) : Flag :=
  match f_Value f with
  | StringFlag v =>
      set_flag (Usage opt) (Hide opt)
        (StringFlag (if decide (Default opt ≠ "") then Default opt else v)) f
  | StringSliceFlag v =>
      set_flag (Usage opt) (Hide opt)
        (StringSliceFlag (if decide (Default opt ≠ "") then Split comma (Default opt) else v)) f
  | OtherFlag => f
  | v => set_flag (Usage opt) (Hide opt) v f
  end.

Definition missing_options (name : string) : error :=
  ErrMsg ("missing flag options for k3s flag " +:+ name).
Definition unsupported_type (name : string) : error :=
  ErrMsg ("unsupported type for flag " +:+ name).
Definition unknown_flag (name : string) : error :=
  ErrMsg ("got flag options for unknown k3s flag " +:+ name).

(** The loop over the flags: the new flags, the names seen, the errors. *)
Fixpoint wrap_flags (opts : K3SFlagSet) (flags : list Flag)
    : list Flag * list string * list error :=
  match flags with
  | [] => ([], [], [])
  | f :: fs =>
      let name := parseName f in
      let '(newFlags, seen, errs) := wrap_flags opts fs in
      match opts !! name with
      | None => (newFlags, seen, missing_options name :: errs)
      | Some opt =>
          if Drop opt then (newFlags, name :: seen, errs)
          else (wrap_flag opt f :: newFlags, name :: seen,
                match f_Value f with
                | OtherFlag => unsupported_type name :: errs
                | _ => errs
                end)
      end
  end.

(** The loop over the options; [order] is how the map is iterated. *)
Definition unused_options (order : K3SFlagSet → list (string * K3SFlagOption))
    (opts : K3SFlagSet) (seen : list string) : list error :=
  (λ kv, unknown_flag kv.1) <$> filter (λ kv, (kv.1 ∉ seen) ∧ (Ignore kv.2 = false)) (order opts).

(** [commandFromK3S], on the flags of the command. *)
Definition commandFromK3S (order : K3SFlagSet → list (string * K3SFlagOption))
    (flags : list Flag) (opts : K3SFlagSet) : list Flag * list error :=
  let '(newFlags, seen, errs) := wrap_flags opts flags in
  (newFlags, errs ++ unused_options order opts seen).

(** [mustCmdFromK3S] panics on an error. *)
Definition mustCmdFromK3S (order : K3SFlagSet → list (string * K3SFlagOption))
    (name : string) (flags : list Flag) (opts : K3SFlagSet) : result (list Flag) :=
  match commandFromK3S order flags opts with
  | (newFlags, []) => Ok newFlags
  | (_, _) => Err (ErrPanic ("failed to wrap command " +:+ name))
  end.

(** The loop over the subcommands in cert.go, etcd_snapshot.go,
    secrets_encrypt.go and token.go. *)
Fixpoint wrap_subcommands (order : K3SFlagSet → list (string * K3SFlagOption))
    (k3sOpts : K3SFlagSet) (subCommandOpts : gmap string K3SFlagSet)
    (subcommands : list (string * list Flag)) : result (list (string * list Flag)) :=
  match subcommands with
  | [] => Ok []
  | (name, flags) :: rest =>
      let opts := match subCommandOpts !! name with
                  | Some s => CopyInto k3sOpts s
                  | None => k3sOpts
                  end in
      flags' ← mustCmdFromK3S order name flags opts;
      rest' ← wrap_subcommands order k3sOpts subCommandOpts rest;
      Ok ((name, flags') :: rest')
  end.

(** ** The tables *)

(** cli/types.go *)
Definition DisableItems : list string :=
  ["rke2-coredns"; "rke2-metrics-server"; "rke2-snapshot-controller";
   "rke2-snapshot-controller-crd"; "rke2-snapshot-validation-webhook"; "rke2-security-responder"].
Definition CNIItems : list string := ["calico"; "canal"; "cilium"; "flannel"].

Definition rke2Path : string := "/var/lib/rancher/rke2".

Definition server_options : K3SFlagSet := list_to_map [
  ("config", copyFlag);
  ("debug", copyFlag);
  ("v", hideFlag);
  ("vmodule", hideFlag);
  ("log", hideFlag);
  ("alsologtostderr", hideFlag);
  ("bind-address", copyFlag);
  ("https-listen-port", dropFlag);
  ("supervisor-port", dropFlag);
  ("apiserver-port", dropFlag);
  ("apiserver-bind-address", dropFlag);
  ("advertise-address", copyFlag);
  ("advertise-port", dropFlag);
  ("tls-san", copyFlag);
  ("tls-san-security", copyFlag);
  ("data-dir", usageFlag "(data) Folder to hold state" rke2Path);
  ("disable-agent", hideFlag);
  ("cluster-cidr", copyFlag);
  ("service-cidr", copyFlag);
  ("cluster-init", dropFlag);
  ("cluster-reset", copyFlag);
  ("cluster-reset-restore-path", copyFlag);
  ("cluster-dns", copyFlag);
  ("cluster-domain", copyFlag);
  ("flannel-backend", dropFlag);
  ("vpn-auth", dropFlag);
  ("vpn-auth-file", dropFlag);
  ("token", copyFlag);
  ("token-file", copyFlag);
  ("write-kubeconfig", copyFlag);
  ("write-kubeconfig-mode", copyFlag);
  ("write-kubeconfig-group", copyFlag);
  ("write-kubeconfig-name", copyFlag);
  ("kube-apiserver-arg", copyFlag);
  ("etcd-arg", copyFlag);
  ("kube-scheduler-arg", copyFlag);
  ("kube-controller-arg", dropFlag);
  ("kube-controller-manager-arg", copyFlag);
  ("kube-cloud-controller-manager-arg", copyFlag);
  ("kube-cloud-controller-arg", dropFlag);
  ("datastore-endpoint", copyFlag);
  ("datastore-cafile", copyFlag);
  ("datastore-certfile", copyFlag);
  ("datastore-keyfile", copyFlag);
  ("kine-tls", dropFlag);
  ("default-local-storage-path", dropFlag);
  ("disable", usageFlag ("(components) Do not deploy packaged components and delete any deployed components (valid items: " +:+ Join ", " DisableItems +:+ ")") "");
  ("disable-scheduler", copyFlag);
  ("disable-cloud-controller", copyFlag);
  ("disable-network-policy", dropFlag);
  ("disable-kube-proxy", copyFlag);
  ("disable-apiserver", copyFlag);
  ("disable-controller-manager", copyFlag);
  ("disable-etcd", copyFlag);
  ("etcd-disable-snapshots", copyFlag);
  ("etcd-snapshot-schedule-cron", copyFlag);
  ("etcd-snapshot-reconcile-interval", copyFlag);
  ("etcd-snapshot-retention", copyFlag);
  ("etcd-snapshot-dir", copyFlag);
  ("etcd-snapshot-name", copyFlag);
  ("etcd-snapshot-compress", copyFlag);
  ("node-name", copyFlag);
  ("with-node-id", copyFlag);
  ("node-label", copyFlag);
  ("node-taint", copyFlag);
  ("image-credential-provider-bin-dir", copyFlag);
  ("image-credential-provider-config", copyFlag);
  ("docker", dropFlag);
  ("container-runtime-endpoint", usageFlag "(agent/runtime) Disable embedded containerd and use the CRI socket at the given path" "");
  ("disable-default-registry-endpoint", copyFlag);
  ("nonroot-devices", copyFlag);
  ("embedded-registry", copyFlag);
  ("supervisor-metrics", copyFlag);
  ("image-service-endpoint", dropFlag);
  ("pause-image", dropFlag);
  ("default-runtime", copyFlag);
  ("private-registry", copyFlag);
  ("system-default-registry", copyFlag);
  ("node-ip", copyFlag);
  ("node-external-ip", copyFlag);
  ("node-internal-dns", copyFlag);
  ("node-external-dns", copyFlag);
  ("resolv-conf", copyFlag);
  ("flannel-iface", dropFlag);
  ("flannel-conf", dropFlag);
  ("flannel-cni-conf", dropFlag);
  ("flannel-ipv6-masq", dropFlag);
  ("flannel-external-ip", dropFlag);
  ("egress-selector-mode", copyFlag);
  ("kubelet-arg", copyFlag);
  ("kube-proxy-arg", copyFlag);
  ("rootless", dropFlag);
  ("prefer-bundled-bin", dropFlag);
  ("agent-token", copyFlag);
  ("agent-token-file", copyFlag);
  ("server", copyFlag);
  ("secrets-encryption", hideFlag);
  ("secrets-encryption-provider", copyFlag);
  ("protect-kernel-defaults", copyFlag);
  ("snapshotter", copyFlag);
  ("selinux", copyFlag);
  ("lb-server-port", copyFlag);
  ("service-node-port-range", copyFlag);
  ("etcd-expose-metrics", copyFlag);
  ("airgap-extra-registry", copyFlag);
  ("etcd-s3", copyFlag);
  ("etcd-s3-access-key", copyFlag);
  ("etcd-s3-bucket", copyFlag);
  ("etcd-s3-bucket-lookup-type", copyFlag);
  ("etcd-s3-config-secret", copyFlag);
  ("etcd-s3-endpoint", copyFlag);
  ("etcd-s3-endpoint-ca", copyFlag);
  ("etcd-s3-folder", copyFlag);
  ("etcd-s3-insecure", copyFlag);
  ("etcd-s3-proxy", copyFlag);
  ("etcd-s3-region", copyFlag);
  ("etcd-s3-secret-key", copyFlag);
  ("etcd-s3-session-token", copyFlag);
  ("etcd-s3-skip-ssl-verify", copyFlag);
  ("etcd-s3-timeout", copyFlag);
  ("etcd-s3-retention", copyFlag);
  ("disable-helm-controller", dropFlag);
  ("helm-job-image", copyFlag);
  ("helm-controller-arg", copyFlag);
  ("enable-pprof", copyFlag);
  ("servicelb-namespace", copyFlag)].

Definition agent_options : K3SFlagSet := list_to_map [
  ("config", copyFlag);
  ("debug", copyFlag);
  ("v", hideFlag);
  ("vmodule", hideFlag);
  ("log", hideFlag);
  ("alsologtostderr", hideFlag);
  ("data-dir", usageFlag "(data) Folder to hold state" rke2Path);
  ("token", copyFlag);
  ("token-file", copyFlag);
  ("node-name", copyFlag);
  ("with-node-id", copyFlag);
  ("node-label", copyFlag);
  ("node-taint", copyFlag);
  ("image-credential-provider-bin-dir", copyFlag);
  ("image-credential-provider-config", copyFlag);
  ("docker", dropFlag);
  ("container-runtime-endpoint", usageFlag "(agent/runtime) Disable embedded containerd and use the CRI socket at the given path" "");
  ("disable-default-registry-endpoint", copyFlag);
  ("nonroot-devices", copyFlag);
  ("image-service-endpoint", dropFlag);
  ("pause-image", dropFlag);
  ("default-runtime", copyFlag);
  ("disable-apiserver-lb", dropFlag);
  ("private-registry", copyFlag);
  ("node-ip", copyFlag);
  ("node-external-ip", copyFlag);
  ("node-internal-dns", copyFlag);
  ("node-external-dns", copyFlag);
  ("resolv-conf", copyFlag);
  ("flannel-iface", dropFlag);
  ("flannel-conf", dropFlag);
  ("flannel-cni-conf", dropFlag);
  ("vpn-auth", dropFlag);
  ("vpn-auth-file", dropFlag);
  ("kubelet-arg", copyFlag);
  ("kube-proxy-arg", copyFlag);
  ("rootless", dropFlag);
  ("prefer-bundled-bin", dropFlag);
  ("server", copyFlag);
  ("protect-kernel-defaults", copyFlag);
  ("snapshotter", copyFlag);
  ("selinux", copyFlag);
  ("lb-server-port", copyFlag);
  ("airgap-extra-registry", copyFlag);
  ("bind-address", copyFlag);
  ("enable-pprof", copyFlag)].

Definition etcd_options : K3SFlagSet := list_to_map [
  ("config", copyFlag);
  ("debug", copyFlag);
  ("log", copyFlag);
  ("alsologtostderr", copyFlag);
  ("node-name", copyFlag);
  ("data-dir", usageFlag "(data) Folder to hold state" rke2Path);
  ("etcd-server", usageFlag "" "https://127.0.0.1:9345");
  ("etcd-token", copyFlag);
  ("name", copyFlag);
  ("dir", copyFlag);
  ("snapshot-compress", copyFlag);
  ("snapshot-retention", copyFlag);
  ("s3", copyFlag);
  ("s3-access-key", copyFlag);
  ("s3-bucket", copyFlag);
  ("s3-bucket-lookup-type", copyFlag);
  ("s3-config-secret", copyFlag);
  ("s3-endpoint", copyFlag);
  ("s3-endpoint-ca", copyFlag);
  ("s3-folder", copyFlag);
  ("s3-insecure", copyFlag);
  ("s3-proxy", copyFlag);
  ("s3-region", copyFlag);
  ("s3-secret-key", copyFlag);
  ("s3-session-token", copyFlag);
  ("s3-skip-ssl-verify", copyFlag);
  ("s3-timeout", copyFlag);
  ("s3-retention", copyFlag)].

Definition etcd_sub_options : gmap string K3SFlagSet :=
  {["ls" := {["output" := copyFlag]}]}.

Definition secrets_options : K3SFlagSet := list_to_map [
  ("data-dir", copyFlag);
  ("token", copyFlag);
  ("server", usageFlag "" "https://127.0.0.1:9345")].

Definition secrets_sub_options : gmap string K3SFlagSet :=
  {["status" := {["output" := copyFlag]};
    "prepare" := {["force" := copyFlag]};
    "rotate" := {["force" := copyFlag]};
    "reencrypt" := {["force" := copyFlag; "skip" := copyFlag]}]}.

Definition token_options : K3SFlagSet := list_to_map [
  ("kubeconfig", copyFlag);
  ("data-dir", usageFlag "(data) Folder to hold state" rke2Path)].

Definition token_sub_options : gmap string K3SFlagSet :=
  {["create" := {["description" := copyFlag; "groups" := copyFlag; "ttl" := copyFlag;
                  "usages" := copyFlag]};
    "list" := {["output" := copyFlag]};
    "rotate" := {["token" := copyFlag; "new-token" := copyFlag;
                  "server" := usageFlag "" "https://127.0.0.1:9345"]}]}.

Definition data_dir_option : K3SFlagOption := usageFlag "(data) Folder to hold state" rke2Path.

Definition cert_sub_options : gmap string K3SFlagSet :=
  {["rotate" := {["alsologtostderr" := copyFlag; "config" := copyFlag; "debug" := copyFlag;
                  "log" := copyFlag; "service" := copyFlag; "data-dir" := data_dir_option]};
    "rotate-ca" := {["server" := usageFlag "" "https://127.0.0.1:9345"; "path" := copyFlag;
                     "force" := copyFlag; "data-dir" := data_dir_option]};
    "check" := {["alsologtostderr" := copyFlag; "config" := copyFlag; "debug" := copyFlag;
                 "log" := copyFlag; "service" := copyFlag; "output" := copyFlag;
                 "data-dir" := data_dir_option]}]}.

(** Flags and subcommands of a command, wrapped: the four constructors differ in
    their tables and in whether the command's own flags have any. *)
Definition wrap_command (order : K3SFlagSet → list (string * K3SFlagOption)) (name : string)
    (own base : K3SFlagSet) (sub : gmap string K3SFlagSet) (flags : list Flag)
    (subcommands : list (string * list Flag)) : result (list Flag * list (string * list Flag)) :=
  subs ← wrap_subcommands order base sub subcommands;
  flags' ← mustCmdFromK3S order name flags own;
  Ok (flags', subs).

Definition NewCertCommand order := wrap_command order "certificate" ∅ ∅ cert_sub_options.
Definition NewEtcdSnapshotCommand order :=
  wrap_command order "etcd-snapshot" etcd_options etcd_options etcd_sub_options.
Definition NewSecretsEncryptCommand order :=
  wrap_command order "secrets-encrypt" ∅ secrets_options secrets_sub_options.
Definition NewTokenCommand order := wrap_command order "token" ∅ token_options token_sub_options.

(** ** The flags RKE2 adds *)

(** Where the value of a flag is stored: the fields of [cli.Config]. *)
Inductive destination :=
  | ToImage (image : string)
  | ToKubeletPath
  | ToCloudProviderName
  | ToCloudProviderConfig
  | ToCloudProviderMetadataHostname
  | ToAuditPolicyFile
  | ToPodSecurityAdmissionConfigFile
  | ToControlPlaneResourceRequests
  | ToControlPlaneResourceLimits
  | ToControlPlaneProbeConf
  | ToExtraMounts (c : Component)
  | ToExtraEnv (c : Component)
  | ToCNI
  | ToIngressController.

Record RKE2Flag := { rf_Flag : Flag; rf_Destination : option destination }.

Definition new_flag (v : flag_value) (name usage : string) (envs : list string)
    (d : option destination) : RKE2Flag := {|
  rf_Flag := {| f_Name := name; f_Aliases := []; f_Usage := usage; f_EnvVars := envs;
                f_Hidden := false; f_Value := v |};
  rf_Destination := d
|}.

Definition string_flag := new_flag (StringFlag "").
Definition bool_flag := new_flag BoolFlag.
Definition slice_flag := new_flag (StringSliceFlag []).

Definition hidden (f : RKE2Flag) : RKE2Flag := {|
  rf_Flag := {| f_Name := f_Name (rf_Flag f); f_Aliases := f_Aliases (rf_Flag f);
                f_Usage := f_Usage (rf_Flag f); f_EnvVars := f_EnvVars (rf_Flag f);
                f_Hidden := true; f_Value := f_Value (rf_Flag f) |};
  rf_Destination := rf_Destination f
|}.

Definition upper_char (c : ascii) : ascii :=
  let n := N_of_ascii c in
  if bool_decide (97 ≤ n ∧ n ≤ 122)%N then ascii_of_N (n - 32) else c.

Fixpoint ToUpper (s : string) : string :=
  match s with "" => "" | String c s' => String (upper_char c) (ToUpper s') end.

(** [strings.ToUpper(strings.ReplaceAll(s, "-", "_"))] *)
Definition env_name (s : string) : string := ToUpper (ReplaceAll s "-" "_").

(** The extra mounts and environment of component [c], stored for [d]. *)
Definition extra_mount (c d : Component) : RKE2Flag :=
  slice_flag (component_name c +:+ "-extra-mount")
    ("(components) " +:+ component_name c +:+ " extra volume mounts")
    ["RKE2_" +:+ env_name (component_name c) +:+ "_EXTRA_MOUNT"] (Some (ToExtraMounts d)).

Definition extra_env (c d : Component) : RKE2Flag :=
  slice_flag (component_name c +:+ "-extra-env")
    ("(components) " +:+ component_name c +:+ " extra environment variables")
    ["RKE2_" +:+ env_name (component_name c) +:+ "_EXTRA_ENV"] (Some (ToExtraEnv d)).

Definition commonFlag : list RKE2Flag := [
  string_flag Images.KubeAPIServer "(image) Override image to use for kube-apiserver"
    ["RKE2_KUBE_APISERVER_IMAGE"] (Some (ToImage Images.KubeAPIServer));
  string_flag Images.KubeControllerManager "(image) Override image to use for kube-controller-manager"
    ["RKE2_KUBE_CONTROLLER_MANAGER_IMAGE"] (Some (ToImage Images.KubeControllerManager));
  string_flag Images.CloudControllerManager "(image) Override image to use for cloud-controller-manager"
    ["RKE2_CLOUD_CONTROLLER_MANAGER_IMAGE"] (Some (ToImage Images.CloudControllerManager));
  string_flag Images.KubeProxy "(image) Override image to use for kube-proxy"
    ["RKE2_KUBE_PROXY_IMAGE"] (Some (ToImage Images.KubeProxy));
  string_flag Images.KubeScheduler "(image) Override image to use for kube-scheduler"
    ["RKE2_KUBE_SCHEDULER_IMAGE"] (Some (ToImage Images.KubeScheduler));
  string_flag Images.Pause "(image) Override image to use for pause"
    ["RKE2_PAUSE_IMAGE"] (Some (ToImage Images.Pause));
  string_flag Images.Runtime "(image) Override image to use for runtime binaries (containerd, kubectl, crictl, etc)"
    ["RKE2_RUNTIME_IMAGE"] (Some (ToImage Images.Runtime));
  string_flag Images.ETCD "(image) Override image to use for etcd"
    ["RKE2_ETCD_IMAGE"] (Some (ToImage Images.ETCD));
  string_flag "kubelet-path" "(experimental/agent) Override kubelet binary path"
    ["RKE2_KUBELET_PATH"] (Some ToKubeletPath);
  string_flag "cloud-provider-name" "(cloud provider) Cloud provider name"
    ["RKE2_CLOUD_PROVIDER_NAME"] (Some ToCloudProviderName);
  string_flag "cloud-provider-config" "(cloud provider) Cloud provider configuration file path"
    ["RKE2_CLOUD_PROVIDER_CONFIG"] (Some ToCloudProviderConfig);
  bool_flag "node-name-from-cloud-provider-metadata" "(cloud provider) Set node name from instance metadata service hostname"
    ["RKE2_NODE_NAME_FROM_CLOUD_PROVIDER_METADATA"] (Some ToCloudProviderMetadataHostname);
  string_flag "profile" "(security) Validate system configuration against the selected benchmark (valid items: cis, etcd)"
    ["RKE2_CIS_PROFILE"] None;
  string_flag "audit-policy-file" "(security) Path to the file that defines the audit policy configuration"
    ["RKE2_AUDIT_POLICY_FILE"] (Some ToAuditPolicyFile);
  string_flag "pod-security-admission-config-file" "(security) Path to the file that defines Pod Security Admission configuration"
    ["RKE2_POD_SECURITY_ADMISSION_CONFIG_FILE"] (Some ToPodSecurityAdmissionConfigFile);
  slice_flag "control-plane-resource-requests" "(components) Control Plane resource requests"
    ["RKE2_CONTROL_PLANE_RESOURCE_REQUESTS"] (Some ToControlPlaneResourceRequests);
  slice_flag "control-plane-resource-limits" "(components) Control Plane resource limits"
    ["RKE2_CONTROL_PLANE_RESOURCE_LIMITS"] (Some ToControlPlaneResourceLimits);
  slice_flag "control-plane-probe-configuration" "(components) Control Plane Probe configuration"
    ["RKE2_CONTROL_PLANE_PROBE_CONFIGURATION"] (Some ToControlPlaneProbeConf);
  extra_mount CKubeAPIServer CKubeAPIServer;
  extra_mount CKubeScheduler CKubeScheduler;
  extra_mount CKubeControllerManager CKubeControllerManager;
  extra_mount CKubeProxy CKubeProxy;
  extra_mount CEtcd CEtcd;
  extra_mount CCloudControllerManager CCloudControllerManager;
  extra_env CKubeAPIServer CKubeAPIServer;
  extra_env CKubeScheduler CKubeScheduler;
  extra_env CKubeControllerManager CKubeControllerManager;
  extra_env CKubeProxy CKubeProxy;
  extra_env CEtcd CEtcd;
  extra_env CCloudControllerManager CCloudControllerManager].

Definition IngressItems : list string := ["traefik"; "ingress-nginx"].

Definition CNIFlag : RKE2Flag :=
  new_flag (StringSliceFlag ["canal"]) "cni"
    ("(networking) CNI Plugins to deploy, one of none, " +:+ Join ", " CNIItems +:+
     "; optionally with multus as the first value to enable the multus meta-plugin")
    ["RKE2_CNI"] (Some ToCNI).

Definition IngressControllerFlag : RKE2Flag :=
  slice_flag "ingress-controller"
    ("(networking) Ingress Controllers to deploy, one of none, " +:+ Join ", " IngressItems +:+
     "; the first value will be set as the default ingress class")
    ["RKE2_INGRESS_CONTROLLER"; "RKE_INGRESS_CONTROLLER"] (Some ToIngressController).

Definition ServiceLBFlag : RKE2Flag :=
  bool_flag "enable-servicelb"
    "(components) Enable rke2 default cloud controller manager's service controller"
    ["RKE2_ENABLE_SERVICELB"] None.

Definition PrimeFlag : RKE2Flag :=
  hidden (bool_flag "prime"
    "Configures RKE2 to utilize the Rancher Prime Registry and features" ["RKE2_PRIME"] None).

Definition serverFlag : list RKE2Flag := [CNIFlag; IngressControllerFlag; ServiceLBFlag; PrimeFlag].

Definition deprecatedFlags : list RKE2Flag :=
  [hidden (string_flag "system-default-registry"
     "(deprecated) This flag is no longer supported on agents" ["RKE2_SYSTEM_DEFAULT_REGISTRY"] None)].

(** [NewServerCommand] and [NewAgentCommand]: the flags of the command, given
    those of k3s. *)
Definition NewServerCommand (order : K3SFlagSet → list (string * K3SFlagOption))
    (k3s : list Flag) : result (list Flag) :=
  base ← mustCmdFromK3S order "server" k3s server_options;
  Ok (base ++ (rf_Flag <$> serverFlag) ++ (rf_Flag <$> commonFlag)).

Definition NewAgentCommand (order : K3SFlagSet → list (string * K3SFlagOption))
    (k3s : list Flag) : result (list Flag) :=
  base ← mustCmdFromK3S order "agent" k3s agent_options;
  Ok (base ++ (rf_Flag <$> commonFlag) ++ (rf_Flag <$> deprecatedFlags)).

(** [NewCompletionCommand]: the command itself has no options; the flags are
    appended to every subcommand. *)
Definition completionFlags : list RKE2Flag := [
  bool_flag "kubectl" "(kubectl) export kubeconfig" [] None;
  bool_flag "crictl" "(crictl) export crictl config file" [] None;
  bool_flag "ctr" "(ctr) export containerd sock file and set namespace" [] None].

Definition NewCompletionCommand (order : K3SFlagSet → list (string * K3SFlagOption))
    (k3s : list Flag) (subcommands : list (string * list Flag))
    : result (list Flag * list (string * list Flag)) :=
  base ← mustCmdFromK3S order "completion" k3s ∅;
  Ok (base, (λ c, (c.1, c.2 ++ (rf_Flag <$> completionFlags))) <$> subcommands).

(** ** Wrapping: theorems *)

Section wrapping.
Context (order : K3SFlagSet → list (string * K3SFlagOption)).
Context (Horder : ∀ m, order m ≡ₚ map_to_list m).

(** The flags that stay, as the table says. *)
Definition keep_flag (opts : K3SFlagSet) (f : Flag) : option Flag :=
  opts !! parseName f ≫= λ o, if Drop o then None else Some (wrap_flag o f).

(** The table and the flags fit together. *)
Definition complete (opts : K3SFlagSet) (flags : list Flag) : Prop :=
  Forall (λ f, ∃ o, opts !! parseName f = Some o ∧ (Drop o = false → f_Value f ≠ OtherFlag)) flags ∧
  ∀ k o, opts !! k = Some o → Ignore o = false → k ∈ parseName <$> flags.

Lemma wrap_flags_spec opts flags newFlags seen errs :
  wrap_flags opts flags = (newFlags, seen, errs) →
  newFlags = omap (keep_flag opts) flags ∧
  (errs = [] ↔ Forall (λ f, ∃ o, opts !! parseName f = Some o ∧
                                 (Drop o = false → f_Value f ≠ OtherFlag)) flags) ∧
  (errs = [] → seen = parseName <$> flags).
Proof.
  revert newFlags seen errs. induction flags as [|f fs IH]; intros newFlags seen errs; cbn [wrap_flags].
  { intros [= <- <- <-]. split_and!; [done| |done]. by split. }
  destruct (wrap_flags opts fs) as [[nf sn] er]. destruct (IH _ _ _ eq_refl) as (-> & IHe & IHs).
  change (omap (keep_flag opts) (f :: fs)) with
    (match keep_flag opts f with
     | Some x => x :: omap (keep_flag opts) fs
     | None => omap (keep_flag opts) fs
     end).
  change (keep_flag opts f) with
    (opts !! parseName f ≫= λ o, if Drop o then None else Some (wrap_flag o f)).
  destruct (opts !! parseName f) as [o|] eqn:Ho; cbn [mbind option_bind].
  2: { intros [= <- <- <-]. split_and!; [done| |done]. rewrite Forall_cons, Ho. naive_solver. }
  destruct (Drop o) eqn:Hd.
  { intros [= <- <- <-]. split_and!; [done| |intros He; by rewrite fmap_cons, IHs].
    rewrite Forall_cons, Ho, IHe. naive_solver congruence. }
  assert ((f_Value f ≠ OtherFlag) ↔ ∃ o', Some o = Some o' ∧ (Drop o' = false → f_Value f ≠ OtherFlag))
    as Hv by naive_solver.
  intros [= <- <- <-]. split_and!; [done| |].
  - rewrite Forall_cons, Ho, <-Hv, <-IHe. destruct (f_Value f); naive_solver.
  - destruct (f_Value f); try done; intros He; by rewrite fmap_cons, IHs.
Qed.

(** A command is wrapped exactly when the table and its flags fit together. *)
Lemma mustCmdFromK3S_complete name flags opts newFlags :
  mustCmdFromK3S order name flags opts = Ok newFlags ↔
  complete opts flags ∧ newFlags = omap (keep_flag opts) flags.
Proof.
  unfold mustCmdFromK3S, commandFromK3S, complete.
  destruct (wrap_flags opts flags) as [[nf seen] errs] eqn:E.
  apply wrap_flags_spec in E as (-> & He & Hs). rewrite <-He.
  assert (errs = [] → (unused_options order opts seen = [] ↔
    ∀ k o, opts !! k = Some o → Ignore o = false → k ∈ parseName <$> flags)) as Hun.
  { intros Hnil. rewrite <-(Hs Hnil). unfold unused_options. split.
    - intros Hf%fmap_nil_inv k o Hk Hi. destruct (decide (k ∈ seen)) as [|Hn]; [done|]. exfalso.
      apply (not_elem_of_nil (k, o)). rewrite <-Hf. apply list_elem_of_filter. split; [done|].
      rewrite Horder. by apply elem_of_map_to_list.
    - intros Hall. rewrite filter_none; [done|]. apply Forall_forall. intros [k o] Hin [Hn Hi].
      rewrite Horder in Hin. apply elem_of_map_to_list in Hin. by apply Hn, (Hall k o). }
  destruct errs as [|e errs]; cbn [app].
  - destruct (unused_options order opts seen) as [|u us].
    + split; [|naive_solver]. intros [= <-]. split; [|done]. split; [done|]. by apply Hun.
    + split; [done|]. intros [[_ Hall] _]. by apply Hun in Hall.
  - split; [done|]. naive_solver.
Qed.

(** What becomes of the value of a flag when the table has the default [d]. *)
Inductive default_set (d : string) : flag_value → flag_value → Prop :=
  | default_none v : d = "" → default_set d v v
  | default_text v : d ≠ "" → default_set d (StringFlag v) (StringFlag d)
  | default_slice v l :
      d ≠ "" → Forall (λ w, has_char comma w = false) l → Join "," l = d →
      default_set d (StringSliceFlag v) (StringSliceFlag l)
  | default_ignored v : d ≠ "" → v ∈ [IntFlag; BoolFlag; DurationFlag] → default_set d v v.

(** [g] is [f] as the options ask: another usage or default if they give one,
    hidden if they say so or it was, and the rest as it was. *)
Record wrapped (o : K3SFlagOption) (f g : Flag) : Prop := {
  wrapped_Name : f_Name g = f_Name f;
  wrapped_Aliases : f_Aliases g = f_Aliases f;
  wrapped_EnvVars : f_EnvVars g = f_EnvVars f;
  wrapped_Usage : Usage o = "" ∧ f_Usage g = f_Usage f ∨ Usage o ≠ "" ∧ f_Usage g = Usage o;
  wrapped_Hidden : f_Hidden g = true ↔ Hide o = true ∨ f_Hidden f = true;
  wrapped_Value : default_set (Default o) (f_Value f) (f_Value g)
}.

(** The flags as the table asks: every flag has options, and is dropped, or has a
    supported type and is wrapped. *)
Inductive wraps (opts : K3SFlagSet) : list Flag → list Flag → Prop :=
  | wraps_nil : wraps opts [] []
  | wraps_drop f fs l o :
      opts !! parseName f = Some o → Drop o = true → wraps opts fs l → wraps opts (f :: fs) l
  | wraps_keep f fs g l o :
      opts !! parseName f = Some o → Drop o = false → f_Value f ≠ OtherFlag → wrapped o f g →
      wraps opts fs l → wraps opts (f :: fs) (g :: l).

Lemma wrap_flag_wrapped o f g :
  f_Value f ≠ OtherFlag → wrapped o f g ↔ g = wrap_flag o f.
Proof.
  intros Hv. split.
  - intros [Hn Ha He Hu Hh Hd].
    assert (f_Usage g = if decide (Usage o ≠ "") then Usage o else f_Usage f) as Hu'
      by (case_decide; naive_solver).
    assert (f_Hidden g = Hide o || f_Hidden f) as Hh' by (apply eq_true_iff_eq; by rewrite Hh, orb_true_iff).
    assert (f_Value g = f_Value (wrap_flag o f)) as Hd'.
    { unfold wrap_flag. destruct Hd as [v Hd|v Hd|v l Hd Hl Hj|v Hd Hin]; cbn [set_flag f_Value].
      - rewrite Hd. by destruct v.
      - by rewrite decide_True.
      - rewrite decide_True by done. rewrite <-Hj, Split_Join; [done| |done].
        intros ->. by rewrite <-Hj in Hd.
      - rewrite !elem_of_cons, elem_of_nil in Hin. by destruct Hin as [->|[->|[->|[]]]]. }
    unfold wrap_flag in *. destruct f as [? ? ? ? ? v], g. cbn in *. subst. by destruct v.
  - intros ->. unfold wrap_flag. destruct (f_Value f) as [v|v| | | |] eqn:Ev; try done;
      (split; cbn [set_flag f_Name f_Aliases f_EnvVars f_Usage f_Hidden f_Value]; try done;
       [case_decide as Hu; [by right|by left]|apply orb_true_iff|rewrite Ev]);
      try (destruct (decide (Default o = "")); [by apply default_none|apply default_ignored; set_solver]).
    + case_decide as Hd; [by constructor|by apply default_none].
    + case_decide as Hd; [|by apply default_none].
      constructor; [done|apply Forall_forall; apply Split_no_sep|apply Join_Split].
Qed.

Lemma wraps_keep_flag opts flags newFlags :
  wraps opts flags newFlags ↔
  Forall (λ f, ∃ o, opts !! parseName f = Some o ∧ (Drop o = false → f_Value f ≠ OtherFlag)) flags ∧
  newFlags = omap (keep_flag opts) flags.
Proof.
  split.
  - induction 1 as [|f fs l o Ho Hd _ [IHf ->]|f fs g l o Ho Hd Hv Hw _ [IHf ->]]; [done|..];
      (split; [apply Forall_cons; split; [exists o; split; [done|congruence]|done]|]);
      cbn [omap list_omap]; unfold keep_flag at 2; rewrite Ho; cbn [mbind option_bind]; rewrite Hd;
      [done|]. f_equal. by apply wrap_flag_wrapped.
  - intros [Hf ->]. induction Hf as [|f fs (o & Ho & Hv) _ IH]; [constructor|].
    cbn [omap list_omap]. unfold keep_flag at 1. rewrite Ho. cbn [mbind option_bind].
    destruct (Drop o) eqn:Hd; [by eapply wraps_drop|].
    eapply wraps_keep; [done|done|auto| |done]. apply wrap_flag_wrapped; auto.
Qed.

(** C32: Wrapping a command of k3s gives exactly what its table says, or panics.
    It gives [newFlags] if and only if every flag of the command has options,
    every flag that is not dropped has one of the five supported types, every
    option that is not marked to be ignored belongs to a flag, and [newFlags]
    are, in order, the flags that are not dropped, each with its names and
    environment variables, the usage and (for texts and lists) the default of
    the table where it gives one, and hidden if the table says so or k3s hid it;
    whatever the order in which the table is iterated. *)
Theorem mustCmdFromK3S_spec name flags opts newFlags :
  mustCmdFromK3S order name flags opts = Ok newFlags ↔
  wraps opts flags newFlags ∧
  ∀ k o, opts !! k = Some o → Ignore o = false → k ∈ parseName <$> flags.
Proof. rewrite mustCmdFromK3S_complete, wraps_keep_flag. unfold complete. naive_solver. Qed.
End wrapping.

(** ** The tables: theorems *)

#[export] Instance Component_eq_dec : EqDecision Component.
Proof. solve_decision. Defined.
#[export] Instance destination_eq_dec : EqDecision destination.
Proof. solve_decision. Defined.
#[export] Instance K3SFlagOption_eq_dec : EqDecision K3SFlagOption.
Proof. solve_decision. Defined.

Lemma parseName_wrap o f : parseName (wrap_flag o f) = parseName f.
Proof. unfold wrap_flag. by destruct (f_Value f). Qed.

Lemma parseName_keep opts f f' :
  keep_flag opts f = Some f' →
  parseName f' = parseName f ∧ ∃ o, opts !! parseName f = Some o ∧ Drop o = false.
Proof.
  unfold keep_flag. destruct (opts !! parseName f) as [o|]; [|done]. cbn [mbind option_bind].
  destruct (Drop o) eqn:Hd; [done|]. intros [= <-]. rewrite parseName_wrap. eauto.
Qed.

(** Kept flags have distinct names, all of them kept by the table. *)
Lemma kept_names opts flags :
  NoDup (parseName <$> flags) →
  NoDup (parseName <$> omap (keep_flag opts) flags) ∧
  ∀ n, n ∈ parseName <$> omap (keep_flag opts) flags →
       n ∈ parseName <$> flags ∧ ∃ o, opts !! n = Some o ∧ Drop o = false.
Proof.
  induction flags as [|f fs IH]; [by split; [constructor|intros n ?%elem_of_nil]|].
  rewrite fmap_cons, NoDup_cons. intros [Hn Hnd]. destruct (IH Hnd) as [IH1 IH2].
  change (omap (keep_flag opts) (f :: fs)) with
    (match keep_flag opts f with
     | Some x => x :: omap (keep_flag opts) fs
     | None => omap (keep_flag opts) fs
     end).
  destruct (keep_flag opts f) as [f'|] eqn:E.
  - apply parseName_keep in E as [Hname Ho]. rewrite fmap_cons, NoDup_cons, Hname. split.
    + split; [|done]. intros Hin%IH2. naive_solver.
    + intros n [->|Hin]%elem_of_cons; [split; [left|done]|].
      destruct (IH2 n Hin). split; [by right|done].
  - split; [done|]. intros n Hin. destruct (IH2 n Hin). split; [by right|done].
Qed.

(** The name is not among the flags of k3s that the table keeps. *)
Definition not_kept (opts : K3SFlagSet) (n : string) : bool :=
  match opts !! n with Some o => Drop o | None => true end.

Lemma distinct_app opts flags (own : list Flag) :
  NoDup (parseName <$> flags) → NoDup (parseName <$> own) →
  forallb (not_kept opts) (parseName <$> own) = true →
  NoDup (parseName <$> (omap (keep_flag opts) flags ++ own)).
Proof.
  intros Hf Ho Hk. destruct (kept_names opts flags Hf) as [H1 H2].
  rewrite fmap_app, NoDup_app. split_and!; [done| |done].
  intros n Hin Hown. destruct (H2 n Hin) as (_ & o & Hl & Hd).
  rewrite forallb_forall in Hk. apply list_elem_of_In in Hown. specialize (Hk n Hown).
  unfold not_kept in Hk. rewrite Hl in Hk. congruence.
Qed.

(** No flag of the server or agent command is defined twice, which the
    command line library would refuse at start: if the flags of the k3s command
    have distinct names and the command can be wrapped, the flags that remain
    together with those RKE2 adds have distinct names. *)
Theorem commands_have_distinct_flags order k3s flags :
  (∀ m, order m ≡ₚ map_to_list m) → NoDup (parseName <$> k3s) →
  NewServerCommand order k3s = Ok flags ∨ NewAgentCommand order k3s = Ok flags →
  NoDup (parseName <$> flags).
Proof.
  intros Ho Hnd [H|H]; apply bind_Ok in H as (base & Hb & [= <-]).
  - apply (mustCmdFromK3S_complete order Ho) in Hb as [_ ->].
    apply distinct_app; [done|apply (bool_decide_eq_true_1 _)|]; vm_compute; done.
  - apply (mustCmdFromK3S_complete order Ho) in Hb as [_ ->].
    apply distinct_app; [done|apply (bool_decide_eq_true_1 _)|]; vm_compute; done.
Qed.

(** Every flag RKE2 adds has its own environment variables and its own field of
    the configuration; the extra mounts and environment of each component are
    stored for that component; and, the profile apart, a flag's variable is its
    name in capitals. *)
Theorem own_flags_wellformed :
  NoDup (concat (f_EnvVars ∘ rf_Flag <$> serverFlag ++ commonFlag ++ deprecatedFlags)) ∧
  NoDup (omap rf_Destination (serverFlag ++ commonFlag)) ∧
  Forall (λ f, match rf_Destination f with
               | Some (ToExtraMounts c) => f = extra_mount c c
               | Some (ToExtraEnv c) => f = extra_env c c
               | _ => True
               end) commonFlag ∧
  Forall (λ f, f_Name f = "profile" ∨ head (f_EnvVars f) = Some ("RKE2_" +:+ env_name (f_Name f)))
    (rf_Flag <$> serverFlag ++ commonFlag ++ deprecatedFlags).
Proof.
  split_and!.
  - apply (bool_decide_eq_true_1 _). vm_compute. done.
  - apply (bool_decide_eq_true_1 _). vm_compute. done.
  - by repeat constructor.
  - apply (bool_decide_eq_true_1 _). vm_compute. done.
Qed.

(** The tables of server and agent agree on every flag both commands have. *)
Lemma agent_options_agree n o o' :
  agent_options !! n = Some o → server_options !! n = Some o' → o = o'.
Proof.
  intros Ha Hs.
  assert (bool_decide (map_Forall (λ n o, default o (server_options !! n) = o) agent_options) = true)
    as H by (vm_compute; done).
  apply bool_decide_eq_true in H. specialize (H n o Ha). cbn beta in H. rewrite Hs in H. done.
Qed.

(** ** A sample command *)

(** A k3s command with one text flag per entry of the agent's table. *)
Definition sample_k3s : list Flag :=
  (λ kv, {| f_Name := kv.1; f_Aliases := []; f_Usage := "usage"; f_EnvVars := [];
            f_Hidden := false; f_Value := StringFlag "" |}) <$> map_to_list agent_options.

Definition table_order (m : K3SFlagSet) : list (string * K3SFlagOption) := map_to_list m.

Lemma mustCmdFromK3S_spec_witness :
  ∃ flags, mustCmdFromK3S table_order "agent" sample_k3s agent_options = Ok flags ∧
           wraps agent_options sample_k3s flags ∧ length flags = 35.
Proof.
  assert (is_Ok (mustCmdFromK3S table_order "agent" sample_k3s agent_options) = true) as Hok
    by (vm_compute; reflexivity).
  destruct (mustCmdFromK3S table_order "agent" sample_k3s agent_options) as [flags|e] eqn:E;
    [|discriminate Hok].
  destruct (proj1 (mustCmdFromK3S_spec table_order (λ m, Permutation_refl _) "agent" sample_k3s
    agent_options flags) E) as [Hw _].
  exists flags. split; [reflexivity|]. split; [exact Hw|].
  assert (length <$> mustCmdFromK3S table_order "agent" sample_k3s agent_options = Ok 35) as Hl
    by (vm_compute; reflexivity).
  rewrite E in Hl. by injection Hl.
Defined.

Lemma commands_have_distinct_flags_witness :
  ∃ flags, NewAgentCommand table_order sample_k3s = Ok flags ∧ NoDup (parseName <$> flags).
Proof.
  assert (is_Ok (NewAgentCommand table_order sample_k3s) = true) as Hok by (vm_compute; reflexivity).
  destruct (NewAgentCommand table_order sample_k3s) as [flags|e] eqn:E; [|discriminate Hok].
  exists flags. split; [reflexivity|].
  exact (commands_have_distinct_flags table_order sample_k3s flags (λ m, Permutation_refl _)
    ltac:(apply (bool_decide_eq_true_1 _); vm_compute; reflexivity) (or_intror E)).
Defined.
