(* ===== verification/PodSpec.v ===== *)
(** * PodSpec: pkg/podtemplate/spec.go and the [Spec] type of types.go

    For each of the six control-plane components, the pod specification the
    executor starts from: image resolved (and recorded in the images directory
    when nothing is preloaded), resources, environment, mounts and probes taken
    from the configuration, and the component's own ports and health endpoints.
    [cmds.ServerConfig.APIServerPort] is an argument. *)

From S2P Require Import Prelude GoStrings GoPath GoFS Images PodConfig.

(** Conversion [int32(x)] of a machine integer. *)
Definition int32 (x : Z) : Z := ((x + 2 ^ 31) mod 2 ^ 32 - 2 ^ 31)%Z.

Record ContainerPort := {
  port_Name : string;
  port_Protocol : string;
  port_ContainerPort : Z
}.

Definition tcp (name : string) (port : Z) : ContainerPort :=
  {| port_Name := name; port_Protocol := "TCP"; port_ContainerPort := port |}.

(** [v1.PodSecurityContext], the fields the program sets; SELinux options by
    their type. *)
Record PodSecurityContext := {
  RunAsUser : option Z;
  RunAsGroup : option Z;
  SELinuxOptions : option string
}.

Definition empty_context : PodSecurityContext :=
  {| RunAsUser := None; RunAsGroup := None; SELinuxOptions := None |}.

Section spec.
Context `{NameApi} (defaults : Defaults).

Record Spec := {
  Command : string;
  Args : list string;
  Image : Reference;
  Dirs : list string;
  Files : list string;
  Sockets : list string;
  ExcludeFiles : list string;
  StartupExec : list string;
  StartupPort : Z;
  StartupScheme : string;
  StartupPath : string;
  HealthExec : list string;
  HealthPort : Z;
  HealthScheme : string;
  HealthPath : string;
  ReadyExec : list string;
  ReadyPort : Z;
  ReadyScheme : string;
  ReadyPath : string;
  s_CPURequest : string;
  s_CPULimit : string;
  s_MemoryRequest : string;
  s_MemoryLimit : string;
  ExtraMounts : list string;
  ExtraEnv : list string;
  s_ProbeConfs : ProbeConfs;
  SecurityContext : option PodSecurityContext;
  Ports : list ContainerPort;
  Annotations : gmap string string;
  Privileged : bool;
  HostNetwork : bool
}.

(** Assignment to the fields the executor fills in later. *)
Definition with_runtime (s : Spec) (annotations : gmap string string)
    (dirs files excludes : list string) (ctx : option PodSecurityContext)
    (privileged hostNetwork : bool) : Spec := {|
  Command := Command s; Args := Args s; Image := Image s;
  Dirs := dirs; Files := files; Sockets := Sockets s; ExcludeFiles := excludes;
  StartupExec := StartupExec s; StartupPort := StartupPort s;
  StartupScheme := StartupScheme s; StartupPath := StartupPath s;
  HealthExec := HealthExec s; HealthPort := HealthPort s;
  HealthScheme := HealthScheme s; HealthPath := HealthPath s;
  ReadyExec := ReadyExec s; ReadyPort := ReadyPort s;
  ReadyScheme := ReadyScheme s; ReadyPath := ReadyPath s;
  s_CPURequest := s_CPURequest s; s_CPULimit := s_CPULimit s;
  s_MemoryRequest := s_MemoryRequest s; s_MemoryLimit := s_MemoryLimit s;
  ExtraMounts := ExtraMounts s; ExtraEnv := ExtraEnv s; s_ProbeConfs := s_ProbeConfs s;
  SecurityContext := ctx; Ports := Ports s; Annotations := annotations;
  Privileged := privileged; HostNetwork := hostNetwork
|}.

Definition set_Annotations v s := with_runtime s v (Dirs s) (Files s) (ExcludeFiles s)
  (SecurityContext s) (Privileged s) (HostNetwork s).
Definition set_Dirs v s := with_runtime s (Annotations s) v (Files s) (ExcludeFiles s)
  (SecurityContext s) (Privileged s) (HostNetwork s).
Definition set_Files v s := with_runtime s (Annotations s) (Dirs s) v (ExcludeFiles s)
  (SecurityContext s) (Privileged s) (HostNetwork s).
Definition set_ExcludeFiles v s := with_runtime s (Annotations s) (Dirs s) (Files s) v
  (SecurityContext s) (Privileged s) (HostNetwork s).
Definition set_SecurityContext v s := with_runtime s (Annotations s) (Dirs s) (Files s)
  (ExcludeFiles s) v (Privileged s) (HostNetwork s).
Definition set_Privileged v s := with_runtime s (Annotations s) (Dirs s) (Files s)
  (ExcludeFiles s) (SecurityContext s) v (HostNetwork s).
Definition set_HostNetwork v s := with_runtime s (Annotations s) (Dirs s) (Files s)
  (ExcludeFiles s) (SecurityContext s) (Privileged s) v.

Definition resolveAndPull (c : Config) (imageName : string) : io Reference :=
  match GetReference defaults (cfg_Resolver c) imageName [] with
  | Err e => io_fail e
  | Ok image =>
      if decide (cfg_ImagesDir c ≠ "") then
        Pull (cfg_ImagesDir c) imageName (Ref_Name image);;
        mret image
      else mret image
  end.

(** The [kubectl get --raw] command line of the apiserver's exec probes. *)
Definition kubectl_get (c : Config) (server raw : string) : list string :=
  ["kubectl"; "get"; "--server=" +:+ server;
   "--client-certificate=" +:+ cfg_DataDir c +:+ "/server/tls/client-kube-apiserver.crt";
   "--client-key=" +:+ cfg_DataDir c +:+ "/server/tls/client-kube-apiserver.key";
   "--certificate-authority=" +:+ cfg_DataDir c +:+ "/server/tls/server-ca.crt";
   "--raw=" +:+ raw].

Definition spec_APIServer (c : Config) (apiServerPort : Z) (args : list string) : io Spec :=
  image ← resolveAndPull c KubeAPIServer;
  let server := "https://localhost:" +:+ pretty apiServerPort +:+ "/" in
  mret {|
    Command := "kube-apiserver"; Args := args; Image := image;
    s_CPURequest := KubeAPIServerCPURequest (cfg_Resources c);
    s_CPULimit := KubeAPIServerCPULimit (cfg_Resources c);
    s_MemoryRequest := KubeAPIServerMemoryRequest (cfg_Resources c);
    s_MemoryLimit := KubeAPIServerMemoryLimit (cfg_Resources c);
    ExtraEnv := for_KubeAPIServer (cfg_Env c);
    ExtraMounts := for_KubeAPIServer (cfg_Mounts c);
    s_ProbeConfs := for_KubeAPIServer (cfg_Probes c);
    StartupExec := kubectl_get c server "/livez";
    HealthExec := kubectl_get c server "/livez";
    ReadyExec := kubectl_get c server "/readyz";
    Ports := [tcp "apiserver" (int32 apiServerPort)];
    StartupPort := 0; StartupScheme := ""; StartupPath := "";
    HealthPort := 0; HealthScheme := ""; HealthPath := "";
    ReadyPort := 0; ReadyScheme := ""; ReadyPath := "";
    Dirs := []; Files := []; Sockets := []; ExcludeFiles := [];
    SecurityContext := None; Annotations := ∅; Privileged := false; HostNetwork := false
  |}.

Definition spec_ETCD (c : Config) (args : list string) : io Spec :=
  image ← resolveAndPull c ETCD;
  mret {|
    Command := "etcd"; Args := args; Image := image;
    HealthPort := 2381; HealthPath := "/health?serializable=true"; HealthScheme := "HTTP";
    StartupPort := 2381; StartupPath := "/health?serializable=true"; StartupScheme := "HTTP";
    s_CPURequest := EtcdCPURequest (cfg_Resources c);
    s_CPULimit := EtcdCPULimit (cfg_Resources c);
    s_MemoryRequest := EtcdMemoryRequest (cfg_Resources c);
    s_MemoryLimit := EtcdMemoryLimit (cfg_Resources c);
    ExtraEnv := for_Etcd (cfg_Env c); ExtraMounts := for_Etcd (cfg_Mounts c);
    s_ProbeConfs := for_Etcd (cfg_Probes c);
    Ports := [tcp "client" 2379; tcp "peer" 2380; tcp "metrics" 2381];
    StartupExec := []; HealthExec := []; ReadyExec := [];
    ReadyPort := 0; ReadyScheme := ""; ReadyPath := "";
    Dirs := []; Files := []; Sockets := []; ExcludeFiles := [];
    SecurityContext := None; Annotations := ∅; Privileged := false; HostNetwork := false
  |}.

Definition spec_Scheduler (c : Config) (args : list string) : io Spec :=
  image ← resolveAndPull c KubeScheduler;
  mret {|
    Command := "kube-scheduler"; Args := args; Image := image;
    HealthPort := 10259; HealthScheme := "HTTPS"; HealthPath := "";
    ReadyPort := 10259; ReadyScheme := "HTTPS"; ReadyPath := "/readyz";
    StartupPort := 10259; StartupScheme := "HTTPS"; StartupPath := "";
    s_CPURequest := KubeSchedulerCPURequest (cfg_Resources c);
    s_CPULimit := KubeSchedulerCPULimit (cfg_Resources c);
    s_MemoryRequest := KubeSchedulerMemoryRequest (cfg_Resources c);
    s_MemoryLimit := KubeSchedulerMemoryLimit (cfg_Resources c);
    ExtraEnv := for_KubeScheduler (cfg_Env c); ExtraMounts := for_KubeScheduler (cfg_Mounts c);
    s_ProbeConfs := for_KubeScheduler (cfg_Probes c);
    Ports := [tcp "metrics" 10259];
    StartupExec := []; HealthExec := []; ReadyExec := [];
    Dirs := []; Files := []; Sockets := []; ExcludeFiles := [];
    SecurityContext := None; Annotations := ∅; Privileged := false; HostNetwork := false
  |}.

Definition spec_ControllerManager (c : Config) (args : list string) : io Spec :=
  image ← resolveAndPull c KubeControllerManager;
  mret {|
    Command := "kube-controller-manager"; Args := args; Image := image;
    HealthPort := 10257; HealthScheme := "HTTPS"; HealthPath := "/healthz";
    StartupPort := 10257; StartupScheme := "HTTPS"; StartupPath := "/healthz";
    s_CPURequest := KubeControllerManagerCPURequest (cfg_Resources c);
    s_CPULimit := KubeControllerManagerCPULimit (cfg_Resources c);
    s_MemoryRequest := KubeControllerManagerMemoryRequest (cfg_Resources c);
    s_MemoryLimit := KubeControllerManagerMemoryLimit (cfg_Resources c);
    ExtraEnv := for_KubeControllerManager (cfg_Env c);
    ExtraMounts := for_KubeControllerManager (cfg_Mounts c);
    s_ProbeConfs := for_KubeControllerManager (cfg_Probes c);
    Ports := [tcp "metrics" 10257];
    StartupExec := []; HealthExec := []; ReadyExec := [];
    ReadyPort := 0; ReadyScheme := ""; ReadyPath := "";
    Dirs := []; Files := []; Sockets := []; ExcludeFiles := [];
    SecurityContext := None; Annotations := ∅; Privileged := false; HostNetwork := false
  |}.

Definition spec_CloudControllerManager (c : Config) (args : list string) : io Spec :=
  image ← resolveAndPull c CloudControllerManager;
  mret {|
    Command := "cloud-controller-manager"; Args := args; Image := image;
    HealthPort := 10258; HealthScheme := "HTTPS"; HealthPath := "/healthz";
    StartupPort := 10258; StartupScheme := "HTTPS"; StartupPath := "/healthz";
    s_CPURequest := CloudControllerManagerCPURequest (cfg_Resources c);
    s_CPULimit := CloudControllerManagerCPULimit (cfg_Resources c);
    s_MemoryRequest := CloudControllerManagerMemoryRequest (cfg_Resources c);
    s_MemoryLimit := CloudControllerManagerMemoryLimit (cfg_Resources c);
    ExtraEnv := for_CloudControllerManager (cfg_Env c);
    ExtraMounts := for_CloudControllerManager (cfg_Mounts c);
    s_ProbeConfs := for_CloudControllerManager (cfg_Probes c);
    Ports := [tcp "metrics" 10258];
    StartupExec := []; HealthExec := []; ReadyExec := [];
    ReadyPort := 0; ReadyScheme := ""; ReadyPath := "";
    Dirs := []; Files := []; Sockets := []; ExcludeFiles := [];
    SecurityContext := None; Annotations := ∅; Privileged := false; HostNetwork := false
  |}.

Definition spec_KubeProxy (c : Config) (args : list string) : io Spec :=
  image ← resolveAndPull c KubeProxy;
  mret {|
    Command := "kube-proxy"; Args := args; Image := image;
    HealthPort := 10256; HealthScheme := "HTTP"; HealthPath := "";
    s_CPURequest := KubeProxyCPURequest (cfg_Resources c);
    s_CPULimit := KubeProxyCPULimit (cfg_Resources c);
    s_MemoryRequest := KubeProxyMemoryRequest (cfg_Resources c);
    s_MemoryLimit := KubeProxyMemoryLimit (cfg_Resources c);
    ExtraEnv := for_KubeProxy (cfg_Env c); ExtraMounts := for_KubeProxy (cfg_Mounts c);
    s_ProbeConfs := for_KubeProxy (cfg_Probes c);
    Privileged := true;
    Ports := [tcp "metrics" 10256];
    StartupPort := 0; StartupScheme := ""; StartupPath := "";
    StartupExec := []; HealthExec := []; ReadyExec := [];
    ReadyPort := 0; ReadyScheme := ""; ReadyPath := "";
    Dirs := []; Files := []; Sockets := []; ExcludeFiles := [];
    SecurityContext := None; Annotations := ∅; HostNetwork := false
  |}.

(** The six constructors, by component. *)
Definition spec_of (comp : Component) (c : Config) (port : Z) (args : list string) : io Spec :=
  match comp with
  | CKubeAPIServer => spec_APIServer c port args
  | CKubeScheduler => spec_Scheduler c args
  | CKubeControllerManager => spec_ControllerManager c args
  | CKubeProxy => spec_KubeProxy c args
  | CEtcd => spec_ETCD c args
  | CCloudControllerManager => spec_CloudControllerManager c args
  end.
End spec.

(** ** Correctness *)

Definition spec_resource `{NameApi} (s : Spec) (k : ResourceKind) : string :=
  match k with
  | CPURequest => s_CPURequest s
  | CPULimit => s_CPULimit s
  | MemoryRequest => s_MemoryRequest s
  | MemoryLimit => s_MemoryLimit s
  end.

(** The images package's name for a component's image. *)
Definition component_image (comp : Component) : string :=
  match comp with
  | CKubeAPIServer => KubeAPIServer
  | CKubeScheduler => KubeScheduler
  | CKubeControllerManager => KubeControllerManager
  | CKubeProxy => KubeProxy
  | CEtcd => ETCD
  | CCloudControllerManager => CloudControllerManager
  end.

Section theorems.
Context `{NameApi} (defaults : Defaults).

Lemma resolveAndPull_Ok c i flt s image s' :
  resolveAndPull defaults c i flt s = (Ok image, s') →
  GetReference defaults (cfg_Resolver c) i [] = Ok image.
Proof.
  unfold resolveAndPull. destruct (GetReference _ _ _ _) as [ref|e]; [|done].
  destruct (decide _); [|by intros [= ->]].
  by intros (u & s1 & _ & [= ->])%io_bind_Ok.
Qed.

(** The specification of every control-plane component carries that
    component's own command name, resolved image, resources, environment,
    mounts and probe thresholds, and the arguments it was given: none of the
    six constructors takes a field of another component. *)
Theorem spec_of_config comp c port args flt s spec s' :
  spec_of defaults comp c port args flt s = (Ok spec, s') →
  Command spec = component_name comp ∧
  Args spec = args ∧
  GetReference defaults (cfg_Resolver c) (component_image comp) [] = Ok (Image spec) ∧
  (∀ k, spec_resource spec k = get_resource (cfg_Resources c) comp k) ∧
  ExtraEnv spec = select (cfg_Env c) comp ∧
  ExtraMounts spec = select (cfg_Mounts c) comp ∧
  s_ProbeConfs spec = select (cfg_Probes c) comp ∧
  Privileged spec = bool_decide (comp = CKubeProxy).
Proof.
  destruct comp; intros (image & s1 & Hi%resolveAndPull_Ok & [= <- <-])%io_bind_Ok;
    split_and!; try done; by intros [].
Qed.
End theorems.

(** ** A concrete configuration *)

#[local] Existing Instance SimpleName.api.

Definition sample_cli : CLIConfig := {|
  cli_Images := {| oc_SystemDefaultRegistry := "registry.example.com"; oc_KubeAPIServer := "";
                   oc_KubeControllerManager := ""; oc_KubeProxy := ""; oc_KubeScheduler := "";
                   oc_Pause := ""; oc_Runtime := ""; oc_ETCD := "";
                   oc_CloudControllerManager := "" |};
  cli_Requests := ["kube-scheduler-cpu=300m"]; cli_Limits := [];
  cli_ProbeConf := ["etcd-liveness-period-seconds=20"];
  cli_ExtraEnv := per_component (λ _, []);
  cli_ExtraMounts := per_component (λ _, ["/opt/extra:/opt/extra:ro"])
|}.

Definition sample_resolver : Resolver :=
  {| registry := SimpleName.hub; repoPath := ""; overrides := ∅ |}.

Definition sample_config : Config :=
  match NewConfigFromCLI build_defaults sample_resource_order sample_probe_order
          "/var/lib/rancher/rke2" sample_cli with
  | Ok c => c
  | Err _ => {| cfg_ImagesDir := ""; cfg_DataDir := ""; cfg_Resolver := sample_resolver;
                cfg_Env := per_component (λ _, []); cfg_Mounts := per_component (λ _, []);
                cfg_Probes := zero_probes; cfg_Resources := zero_resources |}
  end.

Lemma spec_of_config_witness :
  ∃ spec s', spec_of build_defaults CKubeScheduler sample_config 6443 ["--v=2"]
               no_faults (MkFS ∅ 0 []) = (Ok spec, s') ∧
    Command spec = "kube-scheduler" ∧ s_CPURequest spec = "300m" ∧
    Ref_Name (Image spec) = "registry.example.com/rancher/hardened-kubernetes:latest".
Proof.
  destruct (spec_of build_defaults CKubeScheduler sample_config 6443 ["--v=2"]
               no_faults (MkFS ∅ 0 [])) as [r s'] eqn:E.
  assert (is_Ok r = true) as Hok
    by (change r with (r, s').1; rewrite <-E; vm_compute; reflexivity).
  destruct r as [spec|e]; [|discriminate Hok].
  exists spec, s'. split; [reflexivity|].
  destruct (spec_of_config build_defaults _ _ _ _ _ _ _ _ E) as (Hc & _ & Hi & Hr & _).
  split; [exact Hc|]. split; [exact (Hr CPURequest)|].
  assert (Ref_Name <$> GetReference build_defaults (cfg_Resolver sample_config) KubeScheduler []
          = Ok "registry.example.com/rancher/hardened-kubernetes:latest") as Hn
    by (vm_compute; reflexivity).
  change (component_image CKubeScheduler) with KubeScheduler in Hi. rewrite Hi in Hn.
  injection Hn. intros HH. exact HH.
Defined.
