(* ===== verification/PodTemplate.v ===== *)
(** * PodTemplate: pkg/podtemplate/podtemplate.go and utils.go

    The static pod built from a specification: container, resources, probes,
    environment, host-path volumes and their mounts; the list of files named in
    a component's arguments; and the default audit policy file.  SHA-256, the
    parser of Kubernetes quantities and the parser of kubeconfig files are
    library code, the operations of [PodLib].  Log output is not modelled. *)

From S2P Require Import Prelude GoStrings GoPath GoFS Images PodConfig PodSpec.

(** The fields of a parsed kubeconfig the program reads: the certificate
    authority of each cluster, the key and certificate of each user, in the
    order Go happens to iterate the maps. *)
Record Kubeconfig := {
  Clusters : list string;
  AuthInfos : list (string * string)
}.

Class PodLib := {
  Quantity : Type;
  ParseQuantity : string → result Quantity;
  (** [hex.EncodeToString(sha256(bytes))] *)
  sha256_hex : string → string;
  (** the parser behind [clientcmd.LoadFromFile] *)
  Kubeconfig_Load : string → result Kubeconfig
}.

Inductive typeVolume := socket | dir | file.

Definition typeVolume_string (v : typeVolume) : string :=
  match v with socket => "socket" | dir => "dir" | file => "file" end.

Definition extraMountPrefix : string := "extra-mount".

Definition HostPathUnset : string := "".
Definition HostPathDirectoryOrCreate : string := "DirectoryOrCreate".
Definition HostPathDirectory : string := "Directory".
Definition HostPathFile : string := "File".
Definition HostPathSocket : string := "Socket".

Record EnvVar := { env_Name : string; env_Value : string }.
Record Volume := { vol_Name : string; vol_Path : string; vol_Type : string }.
Record VolumeMount := { vm_Name : string; vm_ReadOnly : bool; vm_MountPath : string }.

Inductive ProbeHandler :=
  | Exec (command : list string)
  | HTTPGet (path host scheme : string) (port : Z).

Record Probe := {
  p_InitialDelaySeconds : Z;
  p_TimeoutSeconds : Z;
  p_FailureThreshold : Z;
  p_PeriodSeconds : Z;
  p_Handler : ProbeHandler
}.

(** [createProbe]; [None] is the nil probe. *)
Definition createProbe (command : list string) (scheme host path : string) (port : Z)
    (conf : ProbeConf) : option Probe :=
  match command with
  | _ :: _ =>
      Some {| p_InitialDelaySeconds := InitialDelaySeconds conf;
              p_TimeoutSeconds := TimeoutSeconds conf;
              p_FailureThreshold := FailureThreshold conf;
              p_PeriodSeconds := if decide (PeriodSeconds conf < 5)%Z then 5 else PeriodSeconds conf;
              p_Handler := Exec command |}
  | [] =>
      if decide (port ≠ 0%Z) then
        Some {| p_InitialDelaySeconds := InitialDelaySeconds conf;
                p_TimeoutSeconds := TimeoutSeconds conf;
                p_FailureThreshold := FailureThreshold conf;
                p_PeriodSeconds := PeriodSeconds conf;
                p_Handler := HTTPGet (if decide (path = "") then "/livez" else path) host
                               (if decide (scheme = "") then "HTTPS" else scheme) port |}
      else None
  end.

(** [fmt.Sprintf("%d", i)] for an index. *)
Definition index_string (i : nat) : string := pretty i.

Section template.
Context `{NameApi} `{PodLib}.

Definition probe_host (s : Spec) : string := if HostNetwork s then "localhost" else "".

Definition livenessProbe (s : Spec) : option Probe :=
  createProbe (HealthExec s) (HealthScheme s) (probe_host s) (HealthPath s) (HealthPort s)
    (pc_Liveness (s_ProbeConfs s)).
Definition readinessProbe (s : Spec) : option Probe :=
  createProbe (ReadyExec s) (ReadyScheme s) (probe_host s) (ReadyPath s) (ReadyPort s)
    (pc_Readiness (s_ProbeConfs s)).
Definition startupProbe (s : Spec) : option Probe :=
  createProbe (StartupExec s) (StartupScheme s) (probe_host s) (StartupPath s) (StartupPort s)
    (pc_Startup (s_ProbeConfs s)).

(** The pod, with its only container inlined. *)
Record pod := {
  pod_Name : string;
  pod_Namespace : string;
  pod_UID : string;
  pod_Labels : gmap string string;
  pod_Annotations : gmap string string;
  c_Name : string;
  c_Image : string;
  c_Command : list string;
  c_Args : list string;
  c_Ports : list ContainerPort;
  c_Env : list EnvVar;
  c_Requests : gmap string Quantity;
  c_Limits : gmap string Quantity;
  c_LivenessProbe : option Probe;
  c_ReadinessProbe : option Probe;
  c_StartupProbe : option Probe;
  c_ImagePullPolicy : string;
  c_Privileged : bool;
  c_VolumeMounts : list VolumeMount;
  pod_HostNetwork : bool;
  pod_PriorityClassName : string;
  pod_SecurityContext : option PodSecurityContext;
  pod_Volumes : list Volume
}.

Definition update_pod (p : pod) (uid : string) (env : list EnvVar)
    (requests limits : gmap string Quantity) (mounts : list VolumeMount)
    (volumes : list Volume) : pod := {|
  pod_Name := pod_Name p; pod_Namespace := pod_Namespace p; pod_UID := uid;
  pod_Labels := pod_Labels p; pod_Annotations := pod_Annotations p;
  c_Name := c_Name p; c_Image := c_Image p; c_Command := c_Command p; c_Args := c_Args p;
  c_Ports := c_Ports p; c_Env := env; c_Requests := requests; c_Limits := limits;
  c_LivenessProbe := c_LivenessProbe p; c_ReadinessProbe := c_ReadinessProbe p;
  c_StartupProbe := c_StartupProbe p; c_ImagePullPolicy := c_ImagePullPolicy p;
  c_Privileged := c_Privileged p; c_VolumeMounts := mounts;
  pod_HostNetwork := pod_HostNetwork p; pod_PriorityClassName := pod_PriorityClassName p;
  pod_SecurityContext := pod_SecurityContext p; pod_Volumes := volumes
|}.

Definition set_UID uid p := update_pod p uid (c_Env p) (c_Requests p) (c_Limits p)
  (c_VolumeMounts p) (pod_Volumes p).
Definition append_Env v p := update_pod p (pod_UID p) (c_Env p ++ [v]) (c_Requests p)
  (c_Limits p) (c_VolumeMounts p) (pod_Volumes p).
Definition set_Request k q p := update_pod p (pod_UID p) (c_Env p) (<[k := q]> (c_Requests p))
  (c_Limits p) (c_VolumeMounts p) (pod_Volumes p).
Definition set_Limit k q p := update_pod p (pod_UID p) (c_Env p) (c_Requests p)
  (<[k := q]> (c_Limits p)) (c_VolumeMounts p) (pod_Volumes p).
Definition append_Volume v m p := update_pod p (pod_UID p) (c_Env p) (c_Requests p)
  (c_Limits p) (c_VolumeMounts p ++ [m]) (pod_Volumes p ++ [v]).

(** [if text != "" { if q, err := ParseQuantity(text); err != nil { log } else { assign } }] *)
Definition assign_quantity (set : Quantity → pod → pod) (text : string) (p : pod) : pod :=
  if decide (text ≠ "") then
    match ParseQuantity text with Ok q => set q p | Err _ => p end
  else p.

Fixpoint hash_input (files : list string) : io string :=
  match files with
  | [] => mret ""
  | f :: files' =>
      content ← os_ReadFile f;
      rest ← hash_input files';
      mret (content +:+ rest)
  end.

Definition hashFiles (files : list string) : io string :=
  input ← hash_input files;
  mret (sha256_hex input).

Definition volume_mode (volume : typeVolume) : string * bool :=
  match volume with
  | dir => (HostPathDirectoryOrCreate, false)
  | socket => (HostPathSocket, false)
  | file => (HostPathFile, true)
  end.

Fixpoint addVolumes_from (i : nat) (p : pod) (src : list string) (volume : typeVolume) : pod :=
  match src with
  | [] => p
  | s :: src' =>
      let '(sourceType, readOnly) := volume_mode volume in
      let name := typeVolume_string volume +:+ index_string i in
      addVolumes_from (S i)
        (append_Volume {| vol_Name := name; vol_Path := s; vol_Type := sourceType |}
                       {| vm_Name := name; vm_ReadOnly := readOnly; vm_MountPath := s |} p)
        src' volume
  end.

Definition addVolumes := addVolumes_from 0.

(** The type of an auto-detected host path. *)
Definition detect_type (path : string) : io string :=
  st ← attempt (os_Stat path);
  mret match st with
       | Err _ => HostPathDirectoryOrCreate
       | Ok NSocket => HostPathSocket
       | Ok NDir => HostPathDirectory
       | Ok _ => HostPathFile
       end.

Definition source_type (path type : string) : io string :=
  if decide (type = HostPathUnset) then detect_type path else mret type.

(** The switch on the parts of one extra mount: the source, the destination,
    the read-only flag and the source type; [None] is [continue]. *)
Definition parse_mount (rawMount : string) : option (string * string * bool * string) :=
  match Split ":" rawMount with
  | [source; dest] => Some (source, dest, false, HostPathUnset)
  | [source; dest; option] =>
      if decide (ToLower option = "ro") then Some (source, dest, true, HostPathUnset)
      else if decide (ToLower option = "rw") then Some (source, dest, false, HostPathUnset)
      else None
  | [source; dest; _; type] => Some (source, dest, false, type)
  | _ => None
  end.

Fixpoint addExtraMounts_from (i : nat) (p : pod) (extraMounts : list string) : io pod :=
  match extraMounts with
  | [] => mret p
  | rawMount :: rest =>
      match parse_mount rawMount with
      | None => addExtraMounts_from (S i) p rest
      | Some (source, dest, ro, type) =>
          sourceType ← source_type source type;
          let name := extraMountPrefix +:+ "-" +:+ index_string i in
          addExtraMounts_from (S i)
            (append_Volume {| vol_Name := name; vol_Path := source; vol_Type := sourceType |}
                           {| vm_Name := name; vm_ReadOnly := ro; vm_MountPath := dest |} p)
            rest
      end
  end.

Definition addExtraMounts := addExtraMounts_from 0.

Fixpoint addExtraEnv (p : pod) (extraEnv : list string) : pod :=
  match extraEnv with
  | [] => p
  | rawEnv :: rest =>
      match SplitN2 equals rawEnv with
      | [n; v] => addExtraEnv (append_Env {| env_Name := n; env_Value := v |} p) rest
      | _ => addExtraEnv p rest
      end
  end.

(** The loop of [Pod] over [os.Environ()]. *)
Fixpoint addProxyEnv (p : pod) (environ : list string) : pod :=
  match environ with
  | [] => p
  | env :: rest =>
      match SplitN2 equals env with
      | [n] => if Contains (ToLower n) "proxy"
               then addProxyEnv (append_Env {| env_Name := n; env_Value := "" |} p) rest
               else addProxyEnv p rest
      | n :: v :: _ => if Contains (ToLower n) "proxy"
                       then addProxyEnv (append_Env {| env_Name := n; env_Value := v |} p) rest
                       else addProxyEnv p rest
      | [] => addProxyEnv p rest
      end
  end.

Definition base_pod (spec : Spec) (filehash : string) : pod := {|
  pod_Name := Command spec; pod_Namespace := "kube-system"; pod_UID := "";
  pod_Labels := <["component" := Command spec]> (<["tier" := "control-plane"]> ∅);
  pod_Annotations := Annotations spec;
  c_Name := Command spec; c_Image := Ref_Name (Image spec); c_Command := [Command spec];
  c_Args := Args spec; c_Ports := Ports spec;
  c_Env := [{| env_Name := "FILE_HASH"; env_Value := filehash |}];
  c_Requests := ∅; c_Limits := ∅;
  c_LivenessProbe := livenessProbe spec;
  c_ReadinessProbe := readinessProbe spec;
  c_StartupProbe := startupProbe spec;
  c_ImagePullPolicy := "IfNotPresent"; c_Privileged := Privileged spec; c_VolumeMounts := [];
  pod_HostNetwork := HostNetwork spec; pod_PriorityClassName := "system-cluster-critical";
  pod_SecurityContext := SecurityContext spec; pod_Volumes := []
|}.

(** The four [if]s of [Pod] on the resource texts. *)
Definition set_quantities (spec : Spec) (p : pod) : pod :=
  let p := assign_quantity (set_Request "cpu") (s_CPURequest spec) p in
  let p := assign_quantity (set_Limit "cpu") (s_CPULimit spec) p in
  let p := assign_quantity (set_Request "memory") (s_MemoryRequest spec) p in
  assign_quantity (set_Limit "memory") (s_MemoryLimit spec) p.

(** The three calls of [addVolumes] in [Pod]. *)
Definition addAllVolumes (spec : Spec) (p : pod) : pod :=
  let p := addVolumes p (Sockets spec) socket in
  let p := addVolumes p (Dirs spec) dir in
  addVolumes p (Files spec) file.

(** [Pod]; [None] is a nil specification, and a nil pod. *)
Definition Pod (environ : list string) (spec : option Spec) : io (option pod) :=
  match spec with
  | None => mret None
  | Some spec =>
      filehash ← io_with_message ("failed to hash files for pod " +:+ Command spec)
                   (hashFiles (Files spec));
      let p := set_quantities spec (base_pod spec filehash) in
      let p := addProxyEnv p environ in
      let p := addAllVolumes spec p in
      p ← addExtraMounts p (ExtraMounts spec);
      mret (Some (addExtraEnv p (ExtraEnv spec)))
  end.

(** ** Files named in arguments *)

Definition nonempty (s : string) : list string := if decide (s = "") then [] else [s].

Definition kubeconfigFiles (kubeconfig : string) : io (list string) :=
  content ← os_ReadFile kubeconfig;
  match Kubeconfig_Load content with
  | Err e => io_fail e
  | Ok kc => mret ((Clusters kc ≫= nonempty) ++
                   (AuthInfos kc ≫= λ '(key, cert), nonempty key ++ nonempty cert))
  end.

(** One iteration of the loop of [ReadFiles]: the keys it sets in [files]. *)
Definition arg_files (excludes : gset string) (arg : string) : io (gset string) :=
  match SplitN2 equals arg with
  | [n; path] =>
      if HasPrefix "/" path then
        st ← attempt (os_Stat path);
        match st with
        | Ok NDir | Err _ => mret ∅
        | Ok _ =>
            if decide (path ∈ excludes) then mret ∅
            else if decide (n = "--kubeconfig") then
              certs ← kubeconfigFiles path;
              mret ({[path]} ∪ list_to_set certs)
            else mret {[path]}
        end
      else mret ∅
  | _ => mret ∅
  end.

Fixpoint readFiles_loop (excludes files : gset string) (args : list string) : io (gset string) :=
  match args with
  | [] => mret files
  | arg :: args' =>
      added ← arg_files excludes arg;
      readFiles_loop excludes (files ∪ added) args'
  end.

(** [ReadFiles]; sorting makes the iteration order of the map irrelevant. *)
Definition ReadFiles (args excludeFiles : list string) : io (list string) :=
  files ← readFiles_loop (list_to_set excludeFiles) ∅ args;
  mret (sort_Strings (elements files)).
End template.

(** ** utils.go *)

Fixpoint OnlyExisting (paths : list string) : io (list string) :=
  match paths with
  | [] => mret []
  | path :: paths' =>
      st ← attempt (os_Stat path);
      rest ← OnlyExisting paths';
      mret (if is_Ok st then path :: rest else rest)
  end.

Definition writeIfNotExists (path content : string) : io unit :=
  os_MkdirAll (filepath_Dir path);;
  file ← attempt (os_CreateExcl path 384);
  match file with
  | Err e => if os_IsExist e then mret () else io_fail e
  | Ok _ => os_WriteOpen path content
  end.

(** [WriteDefaultPolicyFile]; [policy] is the YAML text of the default policy
    (one rule, level None). *)
Definition WriteDefaultPolicyFile (policy : result string) (policyFilePath : string) : io unit :=
  match policy with
  | Err e => io_fail e
  | Ok bytes => writeIfNotExists policyFilePath bytes
  end.

(** ** Nothing here writes, except [writeIfNotExists] *)

Ltac solve_readonly :=
  repeat first
    [ progress auto with readonly
    | apply readonly_bind; [|intros ?]
    | match goal with |- readonly (match ?x with _ => _ end) => destruct x end ].

Lemma readonly_OnlyExisting paths : readonly (OnlyExisting paths).
Proof. induction paths; cbn [OnlyExisting]; solve_readonly. Qed.

Section readonly.
Context `{NameApi} `{PodLib}.

Lemma readonly_hash_input files : readonly (hash_input files).
Proof. induction files; cbn [hash_input]; solve_readonly. Qed.

Lemma readonly_addExtraMounts p raws : readonly (addExtraMounts p raws).
Proof.
  unfold addExtraMounts. generalize 0 as i. revert p.
  induction raws as [|raw raws IH]; intros p i; cbn [addExtraMounts_from]; [solve_readonly|].
  destruct (parse_mount raw) as [[[[source dest] ro] ty]|]; [|apply IH].
  apply readonly_bind; [|intros; apply IH]. unfold source_type, detect_type. solve_readonly.
Qed.

Lemma readonly_Pod environ spec : readonly (Pod environ spec).
Proof.
  destruct spec as [spec|]; cbn [Pod]; [|solve_readonly].
  apply readonly_bind; [|intros h; apply readonly_bind; [apply readonly_addExtraMounts|solve_readonly]].
  apply readonly_with_message. unfold hashFiles.
  apply readonly_bind; [apply readonly_hash_input|solve_readonly].
Qed.

Lemma readonly_ReadFiles args excludes : readonly (ReadFiles args excludes).
Proof.
  unfold ReadFiles. apply readonly_bind; [|solve_readonly].
  generalize (∅ : gset string) as files. induction args as [|arg args IH]; intros files;
    cbn [readFiles_loop]; [solve_readonly|]. apply readonly_bind; [|intros; apply IH].
  unfold arg_files, kubeconfigFiles. solve_readonly.
Qed.
End readonly.

#[export] Hint Resolve readonly_OnlyExisting readonly_Pod readonly_ReadFiles : readonly.

(** ** Correctness of [Pod] *)

(** The host-path type a tree gives to an unspecified source. *)
Definition node_type (n : result node) : string :=
  match n with
  | Err _ => HostPathDirectoryOrCreate
  | Ok NSocket => HostPathSocket
  | Ok NDir => HostPathDirectory
  | Ok _ => HostPathFile
  end.

(** The volumes, with their mounts, that a list of sources asks for. *)
Definition volumes_for (volume : typeVolume) (src : list string) : list (Volume * VolumeMount) :=
  imap (λ i s,
    let name := typeVolume_string volume +:+ index_string i in
    ({| vol_Name := name; vol_Path := s; vol_Type := (volume_mode volume).1 |},
     {| vm_Name := name; vm_ReadOnly := (volume_mode volume).2; vm_MountPath := s |})) src.

(** The same for the extra mounts; [types] gives the type of each source whose
    type is not spelled out.  Malformed mounts ask for nothing, and every mount
    keeps the number of its position. *)
Fixpoint extra_volumes (types : nat → string) (i : nat) (raws : list string)
    : list (Volume * VolumeMount) :=
  match raws with
  | [] => []
  | raw :: raws' =>
      match parse_mount raw with
      | None => extra_volumes types (S i) raws'
      | Some (source, dest, ro, type) =>
          let name := extraMountPrefix +:+ "-" +:+ index_string i in
          ({| vol_Name := name; vol_Path := source;
              vol_Type := if decide (type = HostPathUnset) then types i else type |},
           {| vm_Name := name; vm_ReadOnly := ro; vm_MountPath := dest |})
          :: extra_volumes types (S i) raws'
      end
  end.

Definition no_colon (parts : list string) : Prop := Forall (λ w, has_char ":" w = false) parts.

(** What a text asks for as an extra mount: a source and a destination; these and
    "ro" or "rw" in any case; or these, a part that is ignored, and a type. *)
Inductive mount_form : string → string → string → bool → string → Prop :=
  | form_plain source dest :
      no_colon [source; dest] → mount_form (Join ":" [source; dest]) source dest false ""
  | form_ro source dest option :
      no_colon [source; dest; option] → ToLower option = "ro" →
      mount_form (Join ":" [source; dest; option]) source dest true ""
  | form_rw source dest option :
      no_colon [source; dest; option] → ToLower option = "rw" →
      mount_form (Join ":" [source; dest; option]) source dest false ""
  | form_typed source dest ignored type :
      no_colon [source; dest; ignored; type] →
      mount_form (Join ":" [source; dest; ignored; type]) source dest false type.

(** The type the host shows for a source. *)
Definition host_type (t : tree) (source : string) : string :=
  match stat_at t source with
  | Err _ => "DirectoryOrCreate"
  | Ok NSocket => "Socket"
  | Ok NDir => "Directory"
  | Ok _ => "File"
  end.

(** The type of the volume of an extra mount: the declared one, or else what the
    host shows; a query that fails counts as a missing path. *)
Definition mount_type (t : tree) (flt : faults) (source declared type : string) : Prop :=
  if decide (declared = "") then
    (type = host_type t source ∨ type = "DirectoryOrCreate") ∧
    (flt = no_faults → type = host_type t source)
  else type = declared.

(** A host path, of a type, as a volume and its mount. *)
Definition mounted (name source dest : string) (ro : bool) (type : string) : Volume * VolumeMount :=
  ({| vol_Name := name; vol_Path := source; vol_Type := type |},
   {| vm_Name := name; vm_ReadOnly := ro; vm_MountPath := dest |}).

(** The extra volumes that the texts ask for, those from the [i]th on: what is no
    mount is skipped, and every mount is named after its position. *)
Inductive asked (t : tree) (flt : faults) : nat → list string → list (Volume * VolumeMount) → Prop :=
  | asked_nil i : asked t flt i [] []
  | asked_skip i raw raws l :
      (∀ source dest ro type, ¬ mount_form raw source dest ro type) →
      asked t flt (S i) raws l → asked t flt i (raw :: raws) l
  | asked_mount i raw raws l source dest ro declared type :
      mount_form raw source dest ro declared → mount_type t flt source declared type →
      asked t flt (S i) raws l →
      asked t flt i (raw :: raws) (mounted ("extra-mount-" +:+ pretty i) source dest ro type :: l).

Definition proxy_env (environ : list string) : list EnvVar :=
  (λ env, {| env_Name := cut_name equals env; env_Value := cut_value equals env |}) <$>
    filter (λ env, Contains (ToLower (cut_name equals env)) "proxy" = true) environ.

Definition extra_env (raws : list string) : list EnvVar :=
  omap (λ raw, match Cut equals raw with
               | Some (n, v) => Some {| env_Name := n; env_Value := v |}
               | None => None
               end) raws.

Section correct.
Context `{NameApi} `{PodLib}.
Implicit Types (p : pod) (spec : Spec).

(** The fields the construction sets once, in [base_pod]. *)
Definition fixed p :=
  ((c_LivenessProbe p, c_ReadinessProbe p, c_StartupProbe p),
   (pod_Name p, pod_Namespace p, pod_UID p, pod_Labels p, pod_Annotations p),
   (c_Image p, c_Command p, c_Args p, c_Ports p, c_Privileged p),
   (pod_HostNetwork p, pod_SecurityContext p)).

(** What a step of the construction adds to the container. *)
Definition extends p p' (env : list EnvVar) (vols : list (Volume * VolumeMount)) : Prop :=
  c_Env p' = c_Env p ++ env ∧
  pod_Volumes p' = pod_Volumes p ++ vols.*1 ∧
  c_VolumeMounts p' = c_VolumeMounts p ++ vols.*2 ∧
  fixed p' = fixed p.

Lemma extends_refl p : extends p p [] [].
Proof. unfold extends. simpl. by rewrite !app_nil_r. Qed.

Lemma extends_trans p1 p2 p3 e1 e2 v1 v2 :
  extends p1 p2 e1 v1 → extends p2 p3 e2 v2 → extends p1 p3 (e1 ++ e2) (v1 ++ v2).
Proof.
  unfold extends. intros (-> & -> & -> & <-) (-> & -> & -> & ->).
  by rewrite !fmap_app, !(assoc_L (++)).
Qed.

Lemma extends_Env p v : extends p (append_Env v p) [v] [].
Proof. unfold extends. simpl. by rewrite !app_nil_r. Qed.
Lemma extends_Volume p v m : extends p (append_Volume v m p) [] [(v, m)].
Proof. unfold extends. simpl. by rewrite !app_nil_r. Qed.

Lemma extends_quantity set text p :
  (∀ q p', extends p' (set q p') [] []) → extends p (assign_quantity set text p) [] [].
Proof.
  intros Hset. unfold assign_quantity. case_decide; [|apply extends_refl].
  destruct (ParseQuantity text); [apply Hset|apply extends_refl].
Qed.
Lemma extends_Request k q p : extends p (set_Request k q p) [] [].
Proof. unfold extends. simpl. by rewrite !app_nil_r. Qed.
Lemma extends_Limit k q p : extends p (set_Limit k q p) [] [].
Proof. unfold extends. simpl. by rewrite !app_nil_r. Qed.

Lemma addVolumes_extends p src volume :
  extends p (addVolumes p src volume) [] (volumes_for volume src).
Proof.
  unfold addVolumes, volumes_for.
  enough (∀ i p, extends p (addVolumes_from i p src volume) []
    (imap (λ j s,
       let name := typeVolume_string volume +:+ index_string (i + j) in
       ({| vol_Name := name; vol_Path := s; vol_Type := (volume_mode volume).1 |},
        {| vm_Name := name; vm_ReadOnly := (volume_mode volume).2; vm_MountPath := s |})) src))
    as Hi by apply Hi.
  clear p. induction src as [|s src IH]; intros i p; [apply extends_refl|].
  cbn [addVolumes_from]. destruct (volume_mode volume) as [ty ro] eqn:Hm. simpl.
  rewrite Nat.add_0_r. eapply (extends_trans _ _ _ [] [] [_]); [apply extends_Volume|].
  specialize (IH (S i) (append_Volume
    {| vol_Name := typeVolume_string volume +:+ index_string i; vol_Path := s; vol_Type := ty |}
    {| vm_Name := typeVolume_string volume +:+ index_string i; vm_ReadOnly := ro;
       vm_MountPath := s |} p)).
  erewrite imap_ext; [exact IH|]. intros j x _. simpl. by rewrite Nat.add_succ_r.
Qed.

Lemma addExtraEnv_extends p raws : extends p (addExtraEnv p raws) (extra_env raws) [].
Proof.
  revert p. induction raws as [|raw raws IH]; intros p; [apply extends_refl|].
  cbn [addExtraEnv]. unfold SplitN2, extra_env. simpl.
  destruct (Cut equals raw) as [[n v]|]; simpl; [|apply IH].
  eapply (extends_trans _ _ _ [_] _ [] []); [apply extends_Env|apply IH].
Qed.

Lemma addProxyEnv_extends p environ : extends p (addProxyEnv p environ) (proxy_env environ) [].
Proof.
  revert p. induction environ as [|env environ IH]; intros p; [apply extends_refl|].
  cbn [addProxyEnv]. unfold SplitN2, proxy_env. rewrite filter_cons.
  assert (∀ n v, Cut equals env = Some (n, v) → cut_name equals env = n ∧ cut_value equals env = v)
    as Hcut by (unfold cut_name, cut_value; by intros n v ->).
  assert (Cut equals env = None → cut_name equals env = env ∧ cut_value equals env = "")
    as Hnocut by (unfold cut_name, cut_value; by intros ->).
  destruct (Cut equals env) as [[n v]|].
  - destruct (Hcut n v eq_refl) as [Hn Hv]. rewrite Hn.
    destruct (Contains (ToLower n) "proxy"); [|apply IH].
    rewrite decide_True by done. rewrite fmap_cons, Hn, Hv.
    eapply (extends_trans _ _ _ [_] _ [] []); [apply extends_Env|apply IH].
  - destruct (Hnocut eq_refl) as [Hn Hv]. rewrite Hn.
    destruct (Contains (ToLower env) "proxy"); [|apply IH].
    rewrite decide_True by done. rewrite fmap_cons, Hn, Hv.
    eapply (extends_trans _ _ _ [_] _ [] []); [apply extends_Env|apply IH].
Qed.

(** The switch on the parts reads exactly the texts that ask for a mount. *)
Lemma parse_mount_form raw source dest ro type :
  parse_mount raw = Some (source, dest, ro, type) ↔ mount_form raw source dest ro type.
Proof.
  unfold parse_mount. split.
  - assert (no_colon (Split ":" raw)) as Hn by (apply Forall_forall; apply Split_no_sep).
    rewrite <-(Join_Split ":" raw) at 2. revert Hn.
    destruct (Split ":" raw) as [|a [|b [|c [|e [|]]]]]; intros Hn Hp; simplify_eq;
      [by constructor| |by constructor].
    repeat case_decide; simplify_eq; by constructor.
  - destruct 1 as [|??? Hn Ho|??? Hn Ho|]; rewrite Split_Join by done; try done;
      rewrite Ho; by repeat case_decide.
Qed.

Lemma no_mount_form raw :
  parse_mount raw = None → ∀ source dest ro type, ¬ mount_form raw source dest ro type.
Proof. intros Hn source dest ro type Hf%parse_mount_form. by rewrite Hn in Hf. Qed.

(** Detection reads the tree; a failed call counts as a missing path. *)
Lemma detect_type_spec path flt s :
  ∃ ty s', detect_type path flt s = (Ok ty, s') ∧ nodes s' = nodes s ∧
    (ty = node_type (stat_at (nodes s) path) ∨ ty = HostPathDirectoryOrCreate) ∧
    (flt = no_faults → ty = node_type (stat_at (nodes s) path)).
Proof.
  unfold detect_type, mbind, io_bind, attempt.
  destruct (os_Stat_spec path flt s) as [Hn Hr]. destruct (os_Stat path flt s) as [[n|e] s'];
    simpl in *; eexists _, s'; (split; [done|]); (split; [done|]).
  - rewrite Hr. by destruct n; simpl; eauto.
  - split; [by right|]. intros ->. by rewrite Hr.
Qed.

(** [types] reports what the tree holds at each undeclared source, or (when the
    call fails) that nothing is there. *)
Definition types_ok (t : tree) (flt : faults) (types : nat → string) (i : nat)
    (raws : list string) : Prop :=
  ∀ j raw source dest ro,
    raws !! j = Some raw → parse_mount raw = Some (source, dest, ro, HostPathUnset) →
    (types (i + j) = node_type (stat_at t source) ∨ types (i + j) = HostPathDirectoryOrCreate) ∧
    (flt = no_faults → types (i + j) = node_type (stat_at t source)).

Lemma types_ok_cons t flt types i raw raws ty :
  types_ok t flt types (S i) raws →
  (∀ source dest ro, parse_mount raw = Some (source, dest, ro, HostPathUnset) →
     (ty = node_type (stat_at t source) ∨ ty = HostPathDirectoryOrCreate) ∧
     (flt = no_faults → ty = node_type (stat_at t source))) →
  types_ok t flt (λ k, if decide (k = i) then ty else types k) i (raw :: raws).
Proof.
  intros Ht Hty [|j] raw' source dest ro Hl Hp; simpl in Hl.
  - simplify_eq. rewrite Nat.add_0_r, decide_True by done. eauto.
  - rewrite decide_False by lia. rewrite <-Nat.add_succ_comm. eauto.
Qed.

Lemma extra_volumes_ext types types' i raws :
  (∀ k, i ≤ k → types k = types' k) → extra_volumes types i raws = extra_volumes types' i raws.
Proof.
  revert i. induction raws as [|raw raws IH]; intros i Hk; [done|]. simpl.
  rewrite (IH (S i)) by (intros; apply Hk; lia). rewrite Hk by done.
  by destruct (parse_mount raw) as [[[[] ?] ?]|].
Qed.

Lemma source_type_spec path type flt s :
  ∃ ty s', source_type path type flt s = (Ok ty, s') ∧ nodes s' = nodes s ∧
    (type ≠ HostPathUnset → ty = type) ∧
    (type = HostPathUnset →
     (ty = node_type (stat_at (nodes s) path) ∨ ty = HostPathDirectoryOrCreate) ∧
     (flt = no_faults → ty = node_type (stat_at (nodes s) path))).
Proof.
  unfold source_type. case_decide; [|by exists type, s].
  destruct (detect_type_spec path flt s) as (ty & s' & ? & ? & ? & ?). by exists ty, s'.
Qed.

(** One iteration, given the rest of the loop. *)
Lemma addExtraMounts_step i p p1 vs raw raws flt s s1 ty :
  (∀ p s, ∃ p' s' types, addExtraMounts_from (S i) p raws flt s = (Ok p', s') ∧
    nodes s' = nodes s ∧ extends p p' [] (extra_volumes types (S i) raws) ∧
    types_ok (nodes s) flt types (S i) raws) →
  nodes s1 = nodes s → extends p p1 [] vs →
  (∀ source dest ro, parse_mount raw = Some (source, dest, ro, HostPathUnset) →
    (ty = node_type (stat_at (nodes s) source) ∨ ty = HostPathDirectoryOrCreate) ∧
    (flt = no_faults → ty = node_type (stat_at (nodes s) source))) →
  ∃ p' s' types, addExtraMounts_from (S i) p1 raws flt s1 = (Ok p', s') ∧ nodes s' = nodes s ∧
    extends p p' [] (vs ++ extra_volumes types (S i) raws) ∧ types i = ty ∧
    types_ok (nodes s) flt types i (raw :: raws).
Proof.
  intros IH Hs1 Hp1 Hty. destruct (IH p1 s1) as (p' & s' & types & E & Hn & Hx & Ht).
  exists p', s', (λ k, if decide (k = i) then ty else types k). split; [done|].
  rewrite Hs1 in Hn, Ht. split; [done|]. split_and!.
  - eapply (extends_trans _ _ _ [] []); [done|].
    erewrite extra_volumes_ext; [done|]. intros k Hk. simpl. by rewrite decide_False by lia.
  - by rewrite decide_True.
  - by apply types_ok_cons.
Qed.

Lemma addExtraMounts_extends p raws flt s :
  ∃ p' s' types, addExtraMounts p raws flt s = (Ok p', s') ∧ nodes s' = nodes s ∧
    extends p p' [] (extra_volumes types 0 raws) ∧ types_ok (nodes s) flt types 0 raws.
Proof.
  unfold addExtraMounts. generalize 0 as i. revert p s.
  induction raws as [|raw raws IH]; intros p s i.
  { eexists p, s, (λ _, ""). split_and!; [done..|apply extends_refl|by intros []]. }
  cbn [addExtraMounts_from extra_volumes].
  destruct (parse_mount raw) as [[[[source dest] ro] ty]|] eqn:Hp.
  - destruct (source_type_spec source ty flt s) as (ty' & s1 & E1 & Hs1 & Hty & Hdet).
    unfold mbind, io_bind. rewrite E1.
    destruct (addExtraMounts_step i p _ _ raw raws flt s s1 ty' (λ p s, IH p s (S i)) Hs1
      (extends_Volume p
        {| vol_Name := extraMountPrefix +:+ "-" +:+ index_string i; vol_Path := source;
           vol_Type := ty' |}
        {| vm_Name := extraMountPrefix +:+ "-" +:+ index_string i; vm_ReadOnly := ro;
           vm_MountPath := dest |})) as (p' & s' & types & E & Hn & Hx & Hi & Ht).
    { intros source' dest' ro' ?. simplify_eq. by apply Hdet. }
    exists p', s', types. split_and!; [exact E|done| |done].
    rewrite Hi. simpl in Hx. case_decide; [done|]. by rewrite <-Hty.
  - destruct (addExtraMounts_step i p p [] raw raws flt s s "" (λ p s, IH p s (S i)) eq_refl
      (extends_refl p)) as (p' & s' & types & E & Hn & Hx & Hi & Ht); [congruence|].
    by exists p', s', types.
Qed.

Lemma extra_volumes_asked t flt types i raws :
  types_ok t flt types i raws → asked t flt i raws (extra_volumes types i raws).
Proof.
  revert i. induction raws as [|raw raws IH]; intros i Ht; cbn [extra_volumes]; [constructor|].
  assert (asked t flt (S i) raws (extra_volumes types (S i) raws)) as Hrest.
  { apply IH. intros j raw' source dest ro Hl. rewrite Nat.add_succ_comm. by apply Ht. }
  destruct (parse_mount raw) as [[[[source dest] ro] ty]|] eqn:Hp.
  - eapply asked_mount; [by apply parse_mount_form| |done]. unfold mount_type. case_decide as Hty.
    + rewrite decide_True by done. subst ty. specialize (Ht 0 raw source dest ro eq_refl Hp).
      by rewrite Nat.add_0_r in Ht.
    + by rewrite decide_False.
  - apply asked_skip; [by apply no_mount_form|done].
Qed.

Lemma set_quantities_extends spec p : extends p (set_quantities spec p) [] [].
Proof.
  unfold set_quantities.
  do 3 (eapply (extends_trans _ _ _ [] [] [] []);
    [|apply extends_quantity; intros; apply extends_Request || apply extends_Limit]).
  apply extends_quantity; intros; apply extends_Request.
Qed.

Lemma addAllVolumes_extends spec p :
  extends p (addAllVolumes spec p) []
    (volumes_for socket (Sockets spec) ++ volumes_for dir (Dirs spec) ++
     volumes_for file (Files spec)).
Proof.
  unfold addAllVolumes. rewrite (assoc_L (++)).
  do 2 (eapply (extends_trans _ _ _ [] []); [|apply addVolumes_extends]).
  apply addVolumes_extends.
Qed.

Lemma hash_input_Ok files flt s c s' :
  hash_input files flt s = (Ok c, s') →
  ∃ cs, mapM (file_content (nodes s)) files = Some cs ∧ c = String.concat "" cs.
Proof.
  revert s c s'. induction files as [|f files IH]; intros s c s'.
  { intros [= <- <-]. by exists []. }
  cbn [hash_input]. intros (c1 & s1 & [H1 Hs1]%os_ReadFile_Ok & (c2 & s2 & H2 & [= <- <-])%io_bind_Ok)
    %io_bind_Ok.
  apply IH in H2 as (cs & Hcs & ->). rewrite Hs1 in Hcs.
  exists (c1 :: cs). simpl. rewrite H1, Hcs. simpl. split; [done|].
  destruct cs; simpl; [by rewrite app_nil_r'|done].
Qed.

Lemma hash_input_nodes files flt s : nodes (hash_input files flt s).2 = nodes s.
Proof.
  revert s. induction files as [|f files IH]; intros s; [done|].
  cbn [hash_input]. unfold mbind, io_bind. pose proof (os_ReadFile_nodes f flt s) as Hf.
  destruct (os_ReadFile f flt s) as [[c|e] s1]; simpl in *; [|done].
  specialize (IH s1). destruct (hash_input files flt s1) as [[] s2]; simpl in *; congruence.
Qed.

Lemma hashFiles_spec files flt s :
  nodes (hashFiles files flt s).2 = nodes s ∧
  ∀ h, (hashFiles files flt s).1 = Ok h →
    ∃ cs, mapM (file_content (nodes s)) files = Some cs ∧ h = sha256_hex (String.concat "" cs).
Proof.
  pose proof (hash_input_nodes files flt s) as Hn. unfold hashFiles, mbind, io_bind.
  destruct (hash_input files flt s) as [[c|e] s1] eqn:E; simpl in *; [|done].
  apply hash_input_Ok in E as (cs & Hcs & ->). split; [done|]. intros h [= <-]. eauto.
Qed.

(** Everything [Pod] returns. *)
Lemma Pod_extends environ spec flt s :
  let '(r, s') := Pod environ (Some spec) flt s in
  nodes s' = nodes s ∧
  match r with
  | Ok None => False
  | Ok (Some p) =>
      ∃ cs types, mapM (file_content (nodes s)) (Files spec) = Some cs ∧
        types_ok (nodes s) flt types 0 (ExtraMounts spec) ∧
        extends (base_pod spec (sha256_hex (String.concat "" cs))) p
          (proxy_env environ ++ extra_env (ExtraEnv spec))
          ((volumes_for socket (Sockets spec) ++ volumes_for dir (Dirs spec) ++
            volumes_for file (Files spec)) ++ extra_volumes types 0 (ExtraMounts spec))
  | Err e => ∃ e', (hashFiles (Files spec) flt s).1 = Err e' ∧
                   e = ErrWithMessage ("failed to hash files for pod " +:+ Command spec) e'
  end.
Proof.
  cbn [Pod]. unfold mbind, io_bind, io_with_message.
  destruct (hashFiles_spec (Files spec) flt s) as [Hn Hh].
  destruct (hashFiles (Files spec) flt s) as [[h|e] s1]; simpl in *; [|by eauto].
  destruct (Hh h eq_refl) as (cs & Hcs & ->).
  set (p0 := base_pod spec (sha256_hex (String.concat "" cs))).
  destruct (addExtraMounts_extends (addAllVolumes spec (addProxyEnv (set_quantities spec p0)
    environ)) (ExtraMounts spec) flt s1) as (p' & s' & types & E & Hn' & Hx & Ht).
  rewrite E. simpl. rewrite Hn in *. split; [done|]. exists cs, types. split_and!; [done..|].
  rewrite <-(app_nil_r (_ ++ extra_volumes _ _ _)).
  eapply extends_trans; [|apply addExtraEnv_extends].
  rewrite <-(app_nil_r (proxy_env environ)). eapply extends_trans; [|done].
  rewrite <-(app_nil_r (proxy_env environ)), <-(app_nil_l (volumes_for socket _ ++ _)).
  eapply extends_trans; [|apply addAllVolumes_extends].
  eapply (extends_trans _ _ _ [] _ [] []);
    [apply set_quantities_extends|apply addProxyEnv_extends].
Qed.

(** *** Names of volumes *)

Definition names (vols : list (Volume * VolumeMount)) : list string := vol_Name <$> vols.*1.

Lemma names_app vs ws : names (vs ++ ws) = names vs ++ names ws.
Proof. unfold names. by rewrite !fmap_app. Qed.

Lemma names_volumes_for v src :
  names (volumes_for v src) = imap (λ i _, typeVolume_string v +:+ index_string i) src.
Proof.
  unfold names, volumes_for. rewrite !fmap_imap. by apply imap_ext.
Qed.

Lemma elem_of_names_for v src n :
  n ∈ names (volumes_for v src) → ∃ i, n = typeVolume_string v +:+ index_string i.
Proof.
  rewrite names_volumes_for. intros (i & x & -> & _)%elem_of_lookup_imap. by exists i.
Qed.

Lemma NoDup_names_for v src : NoDup (names (volumes_for v src)).
Proof.
  rewrite names_volumes_for. apply NoDup_alt. intros i j x.
  rewrite !list_lookup_imap, !fmap_Some.
  intros (? & _ & ->) (? & _ & Heq). apply (inj _) in Heq. by apply (inj pretty) in Heq.
Qed.

Lemma elem_of_names_extra types i raws n :
  n ∈ names (extra_volumes types i raws) → ∃ j, i ≤ j ∧ n = "extra-mount-" +:+ index_string j.
Proof.
  revert i. induction raws as [|raw raws IH]; intros i; cbn [extra_volumes]; [by intros ?%elem_of_nil|].
  assert (n ∈ names (extra_volumes types (S i) raws) →
          ∃ j, i ≤ j ∧ n = "extra-mount-" +:+ index_string j).
  { intros (j & ? & ?)%IH. exists j. split; [lia|done]. }
  destruct (parse_mount raw) as [[[[source dest] ro] ty]|]; [|done].
  intros [->|]%elem_of_cons; [|by auto]. by exists i.
Qed.

Lemma NoDup_names_extra types i raws : NoDup (names (extra_volumes types i raws)).
Proof.
  revert i. induction raws as [|raw raws IH]; intros i; cbn [extra_volumes]; [constructor|].
  destruct (parse_mount raw) as [[[[source dest] ro] ty]|]; [|done].
  apply NoDup_cons. split; [|apply IH].
  intros (j & Hj & Heq)%elem_of_names_extra.
  apply (inj (String.append "extra-mount-")), (inj pretty) in Heq. lia.
Qed.

Lemma NoDup_all_names types so di fi raws :
  NoDup (names ((volumes_for socket so ++ volumes_for dir di ++ volumes_for file fi) ++
                extra_volumes types 0 raws)).
Proof.
  rewrite !names_app. repeat (apply NoDup_app; split_and!); try apply NoDup_names_for.
  - intros x (i & ->)%elem_of_names_for [(j & Hj)%elem_of_names_for|(j & Hj)%elem_of_names_for]
      %elem_of_app; discriminate.
  - by intros x (i & ->)%elem_of_names_for (j & Hj)%elem_of_names_for.
  - intros x Hx (j & _ & ->)%elem_of_names_extra.
    rewrite !elem_of_app in Hx.
    destruct Hx as [(i & Hi)%elem_of_names_for|[(i & Hi)%elem_of_names_for|
      (i & Hi)%elem_of_names_for]]; discriminate.
  - apply NoDup_names_extra.
Qed.

Lemma mount_names vols :
  Forall (λ vm, vm_Name vm.2 = vol_Name vm.1) vols → vm_Name <$> vols.*2 = vol_Name <$> vols.*1.
Proof. induction 1 as [|[v m] vols Hvm _ IH]; [done|]. rewrite !fmap_cons. by f_equal. Qed.

Lemma all_mounts_named types so di fi raws :
  Forall (λ vm, vm_Name vm.2 = vol_Name vm.1)
    ((volumes_for socket so ++ volumes_for dir di ++ volumes_for file fi) ++
     extra_volumes types 0 raws).
Proof.
  assert (∀ v src, Forall (λ vm, vm_Name vm.2 = vol_Name vm.1) (volumes_for v src)) as Hv.
  { intros v src. apply Forall_forall.
    by intros x (i & y & -> & _)%elem_of_lookup_imap. }
  rewrite !Forall_app. split_and!; [apply Hv..|]. generalize 0 as i.
  induction raws as [|raw raws IH]; intros i; simpl; [constructor|].
  destruct (parse_mount raw) as [[[[source dest] ro] ty]|]; [|done]. by constructor.
Qed.

(** C38: The volumes of a generated pod have pairwise distinct names, the mounts
    of its container name them one for one and in order, and together they are
    exactly what the specification asks for: each socket (of type Socket,
    writable), each directory (DirectoryOrCreate, writable) and each file (File,
    read-only) at its own host path, then the extra mounts: source:dest and
    source:dest:rw writable, source:dest:ro read-only, and
    source:dest:anything:type writable with the declared type; everything else
    is skipped.  An extra mount without a type gets that of what the host has at
    the source (DirectoryOrCreate when it has nothing, or when the query fails).
    Generation fails only when hashing the files fails. *)
Theorem Pod_volumes environ spec flt s :
  match (Pod environ (Some spec) flt s).1 with
  | Ok None => False
  | Err e => ∃ e', (hashFiles (Files spec) flt s).1 = Err e' ∧
      e = ErrWithMessage ("failed to hash files for pod " +:+ Command spec) e'
  | Ok (Some p) =>
      NoDup (vol_Name <$> pod_Volumes p) ∧
      vm_Name <$> c_VolumeMounts p = vol_Name <$> pod_Volumes p ∧
      ∃ extra, asked (nodes s) flt 0 (ExtraMounts spec) extra ∧
        let vols :=
          imap (λ i path, mounted ("socket" +:+ pretty i) path path false "Socket") (Sockets spec) ++
          imap (λ i path, mounted ("dir" +:+ pretty i) path path false "DirectoryOrCreate") (Dirs spec) ++
          imap (λ i path, mounted ("file" +:+ pretty i) path path true "File") (Files spec) ++ extra in
        pod_Volumes p = vols.*1 ∧ c_VolumeMounts p = vols.*2
  end.
Proof.
  pose proof (Pod_extends environ spec flt s) as Hp.
  destruct (Pod environ (Some spec) flt s) as [[[p|]|e] s']; simpl in *;
    destruct Hp as [_ Hp]; try done.
  destruct Hp as (cs & types & _ & Ht & _ & Hv & Hm & _). simpl in Hv, Hm.
  rewrite Hv, Hm. split_and!; [apply NoDup_all_names|apply mount_names, all_mounts_named|].
  exists (extra_volumes types 0 (ExtraMounts spec)). split; [by apply extra_volumes_asked|].
  by rewrite <-!(assoc_L (++)).
Qed.

(** The environment of a generated pod starts with FILE_HASH, the SHA-256
    of the contents of all its files at generation time (so a changed file is
    a changed manifest), followed by the host's proxy variables (any variable
    whose name contains "proxy" in any case) and the user's well-formed extra
    variables, in order. *)
Theorem Pod_environment environ spec flt s p :
  (Pod environ (Some spec) flt s).1 = Ok (Some p) →
  ∃ cs, mapM (file_content (nodes s)) (Files spec) = Some cs ∧
    c_Env p = {| env_Name := "FILE_HASH"; env_Value := sha256_hex (String.concat "" cs) |}
              :: proxy_env environ ++ extra_env (ExtraEnv spec).
Proof.
  pose proof (Pod_extends environ spec flt s) as Hp. intros E.
  destruct (Pod environ (Some spec) flt s) as [r s']; simpl in E; subst.
  destruct Hp as (_ & cs & types & Hcs & _ & He & _). by exists cs.
Qed.

(** *** Probes *)

Definition int32_nonneg (z : Z) : Prop := (0 ≤ z < 2 ^ 31)%Z.

Definition conf_ok (conf : ProbeConf) : Prop :=
  int32_nonneg (InitialDelaySeconds conf) ∧ int32_nonneg (TimeoutSeconds conf) ∧
  int32_nonneg (FailureThreshold conf) ∧ int32_nonneg (PeriodSeconds conf).

(** What the API server requires of a probe. *)
Definition valid_probe (pr : Probe) : Prop :=
  int32_nonneg (p_InitialDelaySeconds pr) ∧ int32_nonneg (p_TimeoutSeconds pr) ∧
  int32_nonneg (p_FailureThreshold pr) ∧ int32_nonneg (p_PeriodSeconds pr) ∧
  match p_Handler pr with
  | Exec command => command ≠ [] ∧ (5 ≤ p_PeriodSeconds pr)%Z
  | HTTPGet path _ scheme port =>
      HasPrefix "/" path = true ∧ scheme ∈ ["HTTP"; "HTTPS"] ∧ (1 ≤ port ≤ 65535)%Z
  end.

(** An endpoint a component may be probed at. *)
Definition endpoint_ok (command : list string) (scheme path : string) (port : Z) : bool :=
  match command with
  | _ :: _ => true
  | [] => bool_decide (port = 0%Z) ||
          (bool_decide (1 ≤ port ≤ 65535)%Z && bool_decide (scheme ∈ [""; "HTTP"; "HTTPS"]) &&
           (bool_decide (path = "") || HasPrefix "/" path))
  end.

Lemma createProbe_valid command scheme host path port conf pr :
  conf_ok conf → endpoint_ok command scheme path port = true →
  createProbe command scheme host path port conf = Some pr → valid_probe pr.
Proof.
  intros (Hi & Ht & Hf & Hp) He. unfold createProbe.
  destruct command as [|a command]; simpl in He.
  - destruct (decide (port ≠ 0%Z)) as [Hport|]; [|done]. intros [= <-]. split_and!; simpl; try done.
    rewrite bool_decide_false in He by done. simpl in He.
    apply andb_true_iff in He as [[Hr%bool_decide_eq_true Hs%bool_decide_eq_true]%andb_true_iff Hpath].
    split_and!; [|..|lia|lia].
    + destruct (decide (path = "")); [done|]. by rewrite bool_decide_false in Hpath.
    + destruct (decide (scheme = "")); set_solver.
  - intros [= <-]. unfold valid_probe. simpl. unfold int32_nonneg in *.
    split_and!; try done; destruct (decide (PeriodSeconds conf < 5)%Z); lia.
Qed.

Lemma parsed_conf_ok porder confs probes comp :
  porder ≡ₚ (c ← all_components; p ← all_probes; pair (c, p) <$> all_thresholds) →
  parseControlPlaneProbeConfs porder confs = Ok probes →
  conf_ok (pc_Liveness (select probes comp)) ∧ conf_ok (pc_Readiness (select probes comp)) ∧
  conf_ok (pc_Startup (select probes comp)).
Proof.
  intros Hord Hp. pose proof (λ pt t, parse_probes_range _ _ _ comp pt t Hord Hp) as Hr.
  unfold conf_ok. split_and!.
  - exact (Hr Liveness TInitialDelaySeconds).
  - exact (Hr Liveness TTimeoutSeconds).
  - exact (Hr Liveness TFailureThreshold).
  - exact (Hr Liveness TPeriodSeconds).
  - exact (Hr Readiness TInitialDelaySeconds).
  - exact (Hr Readiness TTimeoutSeconds).
  - exact (Hr Readiness TFailureThreshold).
  - exact (Hr Readiness TPeriodSeconds).
  - exact (Hr Startup TInitialDelaySeconds).
  - exact (Hr Startup TTimeoutSeconds).
  - exact (Hr Startup TFailureThreshold).
  - exact (Hr Startup TPeriodSeconds).
Qed.

Lemma spec_endpoints_ok defaults comp c port args flt s spec s' :
  spec_of defaults comp c port args flt s = (Ok spec, s') →
  endpoint_ok (HealthExec spec) (HealthScheme spec) (HealthPath spec) (HealthPort spec) = true ∧
  endpoint_ok (ReadyExec spec) (ReadyScheme spec) (ReadyPath spec) (ReadyPort spec) = true ∧
  endpoint_ok (StartupExec spec) (StartupScheme spec) (StartupPath spec) (StartupPort spec) = true ∧
  s_ProbeConfs spec = select (cfg_Probes c) comp ∧
  (HealthExec spec ≠ [] ∨ HealthPort spec ≠ 0%Z) ∧
  ((ReadyExec spec ≠ [] ∨ ReadyPort spec ≠ 0%Z) ↔ comp ∈ [CKubeAPIServer; CKubeScheduler]) ∧
  ((StartupExec spec ≠ [] ∨ StartupPort spec ≠ 0%Z) ↔ comp ≠ CKubeProxy).
Proof.
  destruct comp; intros (image & s1 & _ & [= <- <-])%io_bind_Ok; simpl;
    (split_and!; [done..| | | ]); try (by left); try (by right);
    (split; [try (by set_solver)|]); first [by (intros; left)|by (intros; right)|set_solver|naive_solver].
Qed.

Lemma createProbe_is_Some command scheme host path port conf :
  is_Some (createProbe command scheme host path port conf) ↔ command ≠ [] ∨ port ≠ 0%Z.
Proof.
  unfold createProbe. destruct command as [|a l].
  - destruct (decide (port ≠ 0%Z)); split; intros Hx; eauto; [by destruct Hx|].
    by destruct Hx.
  - split; intros; [by left|eauto].
Qed.

(** C39: Whatever thresholds the user configures, each probe of each control-plane
    pod is one the API accepts (non-negative 32-bit thresholds, a command run at
    least five seconds apart or an HTTP path, scheme and port in range); every
    pod has a liveness probe, every pod but kube-proxy a startup probe, and
    exactly kube-apiserver and kube-scheduler a readiness probe. *)
Theorem control_plane_probes_valid defaults porder confs comp c port args flt s spec s'
    annotations dirs files excludes ctx privileged hostNetwork environ flt2 s2 p :
  porder ≡ₚ (c ← all_components; p ← all_probes; pair (c, p) <$> all_thresholds) →
  parseControlPlaneProbeConfs porder confs = Ok (cfg_Probes c) →
  spec_of defaults comp c port args flt s = (Ok spec, s') →
  (Pod environ (Some (with_runtime spec annotations dirs files excludes ctx privileged
                        hostNetwork)) flt2 s2).1 = Ok (Some p) →
  (∀ pr, Some pr ∈ [c_LivenessProbe p; c_ReadinessProbe p; c_StartupProbe p] → valid_probe pr) ∧
  is_Some (c_LivenessProbe p) ∧
  (is_Some (c_ReadinessProbe p) ↔ comp ∈ [CKubeAPIServer; CKubeScheduler]) ∧
  (is_Some (c_StartupProbe p) ↔ comp ≠ CKubeProxy).
Proof.
  intros Hord Hconf Hspec Hpod.
  destruct (spec_endpoints_ok _ _ _ _ _ _ _ _ _ Hspec) as (Hh & Hr & Hs & Hc & Hh' & Hr' & Hs').
  destruct (parsed_conf_ok _ _ _ comp Hord Hconf) as (Cl & Cr & Cs). rewrite <-Hc in Cl, Cr, Cs.
  pose proof (Pod_extends environ (with_runtime spec annotations dirs files excludes ctx
    privileged hostNetwork) flt2 s2) as Hx.
  destruct (Pod environ _ flt2 s2) as [r s3]. simpl in Hpod. subst r.
  destruct Hx as (_ & cs & types & _ & _ & _ & _ & _ & Hfix).
  injection Hfix as Pl Pr Ps. simpl in Pl, Pr, Ps.
  rewrite Pl, Pr, Ps. unfold livenessProbe, readinessProbe, startupProbe. simpl.
  rewrite !createProbe_is_Some. split_and!; [|done..].
  intros pr [E|[E|[E|[]%elem_of_nil]%elem_of_cons]%elem_of_cons]%elem_of_cons; symmetry in E;
    by eapply createProbe_valid in E.
Qed.

(** *** Files named in arguments *)

(** Argument [arg] has the form [n=path] for an absolute path of something that
    is not a directory and is not excluded. *)
Definition names_file (t : tree) (excludes : list string) (n path arg : string) : Prop :=
  SplitN2 equals arg = [n; path] ∧ HasPrefix "/" path = true ∧ (path ∉ excludes) ∧
  ∃ nd, stat_at t path = Ok nd ∧ nd ≠ NDir.

Definition kubeconfig_certs (kc : Kubeconfig) : list string :=
  (Clusters kc ≫= nonempty) ++ (AuthInfos kc ≫= λ '(key, cert), nonempty key ++ nonempty cert).

(** The files argument [arg] contributes. *)
Definition contributes (t : tree) (excludes : list string) (arg f : string) : Prop :=
  ∃ n path, names_file t excludes n path arg ∧
    (f = path ∨ (n = "--kubeconfig" ∧ ∃ c kc, file_content t path = Some c ∧
                 Kubeconfig_Load c = Ok kc ∧ f ∈ kubeconfig_certs kc)).

Lemma kubeconfigFiles_Ok path flt s certs s' :
  kubeconfigFiles path flt s = (Ok certs, s') →
  nodes s' = nodes s ∧ ∃ c kc, file_content (nodes s) path = Some c ∧
    Kubeconfig_Load c = Ok kc ∧ certs = kubeconfig_certs kc.
Proof.
  unfold kubeconfigFiles. intros (c & s1 & [Hc Hs]%os_ReadFile_Ok & Hk)%io_bind_Ok.
  destruct (Kubeconfig_Load c) as [kc|e] eqn:El; [|done]. injection Hk as <- <-.
  split; [done|]. by exists c, kc.
Qed.

Ltac adds_nothing := intros [= <- <-]; split; [done|]; split; [by intros f ?%elem_of_empty|];
  intros Hflt f (n' & path' & (Hs & ? & ? & nd' & ? & ?) & _); simplify_eq; try congruence.

Lemma arg_files_Ok excludes arg flt s added s' :
  arg_files (list_to_set excludes) arg flt s = (Ok added, s') →
  nodes s' = nodes s ∧
  (∀ f, f ∈ added → contributes (nodes s) excludes arg f) ∧
  (flt = no_faults → ∀ f, contributes (nodes s) excludes arg f → f ∈ added).
Proof.
  unfold arg_files, contributes, names_file.
  destruct (SplitN2 equals arg) as [|n [|path [|]]] eqn:Hsp;
    try (adds_nothing; fail).
  destruct (HasPrefix "/" path) eqn:Hpre; [|adds_nothing].
  unfold mbind at 1, io_bind at 1, attempt. destruct (os_Stat_spec path flt s) as [Hs1 Hr].
  destruct (os_Stat path flt s) as [st s1]. simpl in Hs1, Hr.
  assert (st = Ok NDir ∨ (∃ e, st = Err e) ∨ ∃ nd, st = Ok nd ∧ nd ≠ NDir)
    as [->|[[e ->]|(nd & -> & Hnd)]] by (destruct st as [[]|]; eauto 6).
  { adds_nothing. }
  { adds_nothing. by rewrite Hr in *. }
  assert (match nd with
          | NDir => mret ∅
          | _ => if decide (path ∈ (list_to_set excludes : gset string)) then mret ∅
                 else if decide (n = "--kubeconfig") then
                   certs ← kubeconfigFiles path; mret ({[path]} ∪ list_to_set certs)
                 else mret {[path]}
          end = (if decide (path ∈ (list_to_set excludes : gset string)) then mret ∅
                 else if decide (n = "--kubeconfig") then
                   certs ← kubeconfigFiles path; mret ({[path]} ∪ list_to_set certs)
                 else mret {[path]} : io (gset string))) as -> by by destruct nd.
  destruct (decide _) as [Hex|Hex]; rewrite elem_of_list_to_set in Hex.
  { adds_nothing. }
  destruct (decide (n = "--kubeconfig")) as [->|Hk].
  - intros (certs & s2 & (Hs2 & c & kc & Hc & Hl & ->)%kubeconfigFiles_Ok & [= <- <-])%io_bind_Ok.
    rewrite Hs1 in Hc, Hs2. split; [done|]. split.
    + intros f [->%elem_of_singleton|Hf%elem_of_list_to_set]%elem_of_union;
        exists "--kubeconfig", path; (split; [by eauto 6|]); [by left|right; eauto 6].
    + intros _ f (n' & path' & ([= <- <-] & _) & [->|(_ & c' & kc' & ? & ? & ?)]);
        apply elem_of_union; [left|right; simplify_eq].
      * by apply elem_of_singleton.
      * assert (kc' = kc) as -> by congruence. by apply elem_of_list_to_set.
  - intros [= <- <-]. split; [done|]. split.
    + intros f ->%elem_of_singleton. exists n, path. split; [by eauto 6|by left].
    + intros _ f (n' & path' & ([= <- <-] & _) & [->|(? & _)]); [by apply elem_of_singleton|done].
Qed.

Lemma readFiles_loop_Ok excludes files args flt s r s' :
  readFiles_loop (list_to_set excludes) files args flt s = (Ok r, s') →
  (∀ f, f ∈ r → f ∈ files ∨ ∃ arg, arg ∈ args ∧ contributes (nodes s) excludes arg f) ∧
  (∀ f, f ∈ files → f ∈ r) ∧
  (flt = no_faults → ∀ arg f, arg ∈ args → contributes (nodes s) excludes arg f → f ∈ r).
Proof.
  revert files s. induction args as [|arg args IH]; intros files s; cbn [readFiles_loop].
  { intros [= <- <-]. split_and!; [by left|done|]. by intros _ arg f ?%elem_of_nil. }
  intros (added & s1 & (Hs1 & Ha1 & Ha2)%arg_files_Ok & (IH1 & IH2 & IH3)%IH)%io_bind_Ok.
  rewrite Hs1 in *. split_and!.
  - intros f [[?|?]%elem_of_union|(a & ? & ?)]%IH1; [by left|right..].
    + exists arg. split; [by left|auto].
    + exists a. split; [by right|done].
  - set_solver.
  - intros Hf a f [->|?]%elem_of_cons Hc; [|by eapply IH3].
    apply IH2, elem_of_union. right. by apply Ha2.
Qed.

(** [ReadFiles] returns, sorted and without duplicates, files named by the
    arguments: an absolute path after an equals sign that exists, is not a
    directory and is not excluded, and the certificates and keys embedded in a
    kubeconfig so named.  When no system call fails it returns all of them. *)
Theorem ReadFiles_spec args excludeFiles flt s l :
  (ReadFiles args excludeFiles flt s).1 = Ok l →
  StronglySorted String.le l ∧ NoDup l ∧
  (∀ f, f ∈ l → ∃ arg, arg ∈ args ∧ contributes (nodes s) excludeFiles arg f) ∧
  (flt = no_faults → ∀ f arg, arg ∈ args → contributes (nodes s) excludeFiles arg f → f ∈ l).
Proof.
  destruct (ReadFiles args excludeFiles flt s) as [r s'] eqn:E. simpl. intros ->.
  unfold ReadFiles in E. apply io_bind_Ok in E as (files & s1 & Hl & [= <- <-]).
  apply readFiles_loop_Ok in Hl as (H1 & _ & H3). split_and!.
  - apply sort_Strings_sorted.
  - rewrite sort_Strings_perm. apply NoDup_elements.
  - intros f Hf. rewrite elem_of_sort_Strings, elem_of_elements in Hf.
    destruct (H1 f Hf) as [?|?]; [set_solver|done].
  - intros Hflt f arg Ha Hc. rewrite elem_of_sort_Strings, elem_of_elements. eauto.
Qed.

(** The documented exclusion does not cover certificates embedded in a
    kubeconfig: a file that the caller excludes is still returned when a
    kubeconfig argument refers to it. *)
Theorem ReadFiles_exclude_leak args excludeFiles s l path c kc f :
  (ReadFiles args excludeFiles no_faults s).1 = Ok l →
  ("--kubeconfig=" +:+ path) ∈ args → HasPrefix "/" path = true → path ∉ excludeFiles →
  file_content (nodes s) path = Some c → Kubeconfig_Load c = Ok kc →
  f ∈ kubeconfig_certs kc → f ∈ excludeFiles → f ∈ l.
Proof.
  destruct (ReadFiles args excludeFiles no_faults s) as [r s'] eqn:E. simpl.
  intros -> Hin Hpre Hex Hc Hl Hf _.
  unfold ReadFiles in E. apply io_bind_Ok in E as (files & s1 & Hloop & [= <- <-]).
  apply readFiles_loop_Ok in Hloop as (_ & _ & H3).
  rewrite elem_of_sort_Strings, elem_of_elements. apply (H3 eq_refl _ _ Hin).
  exists "--kubeconfig", path. split.
  - split_and!; [by unfold SplitN2; simpl|done..|].
    by eapply stat_at_file_content.
  - right. eauto 6.
Qed.
End correct.

(** ** Correctness of utils.go *)

(** Every node of [t0] is still in [t], unchanged. *)
Definition keeps (t0 t : tree) : Prop := ∀ k n, t0 !! k = Some n → t !! k = Some n.

Lemma os_MkdirAll_keeps p t0 t :
  (∀ q, t !! q = t0 !! q ∨ (t0 !! q = None ∧ t !! q = Some NDir ∧ q ∈ ancestors p)) → keeps t0 t.
Proof. intros Hr k n Hk. destruct (Hr k) as [->|(? & _)]; congruence. Qed.

Lemma writeIfNotExists_keeps path content t0 :
  triple (λ t, t = t0) (writeIfNotExists path content) (λ _ t, keeps t0 t) (keeps t0).
Proof.
  unfold writeIfNotExists.
  apply (triple_bind _ _ _ (λ _, keeps t0)).
  { eapply triple_post; [apply os_MkdirAll_triple; intros t; apply os_MkdirAll_keeps|].
    intros [[]|e] t [Hr _]; by eapply os_MkdirAll_keeps. }
  intros _. apply (triple_bind _ _ _ (λ f t, keeps t0 t ∧ (is_Ok f = true → t0 !! Clean path = None))).
  { apply triple_attempt. unfold os_CreateExcl. apply triple_syscall; [|done|done].
    intros t Ht. destruct (t !! Clean path) as [n|] eqn:E; [done|].
    assert (t0 !! Clean path = None) as Hn.
    { destruct (t0 !! Clean path) as [n|] eqn:E0; [|done]. apply Ht in E0. congruence. }
    assert (keeps t0 (<[Clean path := NFile "" 384]> t)) as Hk.
    { intros k n Hk. rewrite lookup_insert_ne by congruence. by apply Ht. }
    destruct (t !! filepath_Dir (Clean path)) as [[]|]; simpl; by auto. }
  intros [u|e].
  - assert (∀ t c0 c q, keeps t0 t ∧ (true = true → t0 !! Clean path = None) →
      keeps t0 (<[Clean path := NFile (c0 +:+ c) q]> t)) as Hput.
    { intros t c0 c q [Ht Hn] k n Hk. rewrite lookup_insert_ne; [by apply Ht|].
      intros <-. rewrite Hn in Hk; done. }
    assert (∀ t c0 c q, keeps t0 t ∧ (true = true → t0 !! Clean path = None) →
      keeps t0 (final (writes (Clean path) c0 c q t) t) ∧
      Forall (keeps t0) (writes (Clean path) c0 c q t)) as Hw.
    { intros t c0 c q Ht. split; [|by apply writes_Forall; auto].
      unfold writes. rewrite final_snoc. by apply Hput. }
    apply triple_syscall; simpl.
    + intros t Ht. destruct (t !! Clean path) as [[]|]; simpl; try (split; [apply Ht|done]).
      by apply Hw.
    + by intros t ? [].
    + intros t e k Ht. destruct (t !! Clean path) as [[]|]; simpl; try (split; [apply Ht|done]).
      by apply Hw.
  - destruct (os_IsExist e); [apply triple_ret|apply triple_fail]; by intros t [].
Qed.

(** [writeIfNotExists] never changes anything that existed before the call, at
    any moment and whichever system call fails: an existing file, such as the
    administrator's audit policy, is left alone.  When no call fails and no
    ancestor is a file, it succeeds, and the path holds what it held before or
    else exactly the content, with permissions 0600. *)
Theorem writeIfNotExists_spec cs name content t0 :
  cs ≠ [] → Forall (λ c, simple c = true) (cs ++ [name]) →
  let path := mkpath (cs ++ [name]) in
  triple (λ t, t = t0) (writeIfNotExists path content) (λ _ t, keeps t0 t) (keeps t0) ∧
  (Forall (λ a, t0 !! a = None ∨ t0 !! a = Some NDir) (ancestors (mkpath cs)) →
   ∀ s, nodes s = t0 →
   ∃ s', writeIfNotExists path content no_faults s = (Ok (), s') ∧
     nodes s' !! path = match t0 !! path with Some n => Some n | None => Some (NFile content 384) end).
Proof.
  intros Hne Hcs path. split; [apply writeIfNotExists_keeps|].
  assert (Clean path = path) as Hclean by by apply Clean_mkpath.
  pose proof Hcs as [Hcs' Hname]%Forall_app. rewrite Forall_singleton in Hname.
  intros Ha s <-. unfold writeIfNotExists, mbind, io_bind, attempt.
  assert (filepath_Dir path = mkpath cs) as Hd by by apply filepath_Dir_mkpath.
  rewrite Hd. destruct (os_MkdirAll_no_faults (mkpath cs) s Ha) as (s1 & -> & Hin & Hout).
  assert (nodes s1 !! mkpath cs = Some NDir) as Hdir.
  { apply Hin, elem_of_ancestors; [done|]. by exists cs. }
  assert (nodes s1 !! path = nodes s !! path) as Hp.
  { apply Hout, not_ancestor; [done..|]. rewrite length_app. simpl. lia. }
  unfold os_CreateExcl. unfold syscall at 1. simpl. rewrite Hclean, Hp.
  destruct (nodes s !! path) as [n|] eqn:E; simpl.
  { eexists. split; [done|]. simpl. by rewrite Hp. }
  rewrite Hd, Hdir.
  simpl. unfold os_WriteOpen, syscall. simpl. rewrite Hclean, lookup_insert_eq. simpl.
  eexists. split; [done|]. rewrite nodes_push. unfold writes.
  by rewrite final_snoc, lookup_insert_eq.
Qed.

(** [OnlyExisting] keeps, in order, a subsequence of the paths, each of them
    present; when no call fails it keeps every path that is present. *)
Theorem OnlyExisting_spec paths flt s :
  ∃ l s', OnlyExisting paths flt s = (Ok l, s') ∧ nodes s' = nodes s ∧ l `sublist_of` paths ∧
    Forall (λ p, is_Ok (stat_at (nodes s) p) = true) l ∧
    (flt = no_faults → l = filter (λ p, is_Ok (stat_at (nodes s) p) = true) paths).
Proof.
  revert s. induction paths as [|p paths IH]; intros s; cbn [OnlyExisting].
  { by exists [], s. }
  unfold mbind, io_bind, attempt. destruct (os_Stat_spec p flt s) as [Hn Hr].
  destruct (os_Stat p flt s) as [st s1]. simpl in Hn, Hr.
  destruct (IH s1) as (l & s' & -> & Hs' & Hsub & Hex & Hall). rewrite Hn in *.
  eexists _, s'. split; [done|]. split; [done|]. rewrite filter_cons. destruct st as [n|e]; simpl.
  - split_and!; [by apply sublist_skip|by constructor; [rewrite Hr|]|].
    intros Hf. rewrite decide_True by by rewrite Hr. by rewrite <-Hall.
  - split_and!; [by apply sublist_cons|done|].
    intros Hf. rewrite decide_False; [by apply Hall|]. subst flt. by rewrite Hr.
Qed.

(** ** A concrete instance of the libraries

    Quantities are kept as text, the digest is the text itself, and a kubeconfig
    is one line: the certificate authority of its only cluster. *)
Module SimpleLib.
#[export] Instance lib : PodLib := {|
  Quantity := string;
  ParseQuantity s := if decide (s = "") then Err (ErrMsg "empty quantity") else Ok s;
  sha256_hex s := s;
  Kubeconfig_Load s := Ok {| Clusters := [s]; AuthInfos := [] |}
|}.
End SimpleLib.

#[local] Existing Instance SimpleName.api.
#[local] Existing Instance SimpleLib.lib.

Definition sample_tree : tree :=
  <["/etc/a.conf" := NFile "alpha" 420]> (<["/etc/kc" := NFile "/etc/ca.crt" 384]>
  (<["/etc/ca.crt" := NFile "pem" 384]> (<["/etc" := NDir]> ∅))).
Definition sample_fs : fs := MkFS sample_tree 0 [].

Definition sample_spec : Spec :=
  match spec_of build_defaults CEtcd sample_config 6443 ["--config-file=/etc/a.conf"]
          no_faults sample_fs with
  | (Ok s, _) => set_Files ["/etc/a.conf"] s
  | _ => {| Command := ""; Args := []; Image := SimpleName.runtime_default; Dirs := []; Files := [];
            Sockets := []; ExcludeFiles := []; StartupExec := []; StartupPort := 0;
            StartupScheme := ""; StartupPath := ""; HealthExec := []; HealthPort := 0;
            HealthScheme := ""; HealthPath := ""; ReadyExec := []; ReadyPort := 0;
            ReadyScheme := ""; ReadyPath := ""; s_CPURequest := ""; s_CPULimit := "";
            s_MemoryRequest := ""; s_MemoryLimit := ""; ExtraMounts := []; ExtraEnv := [];
            s_ProbeConfs := for_Etcd zero_probes; SecurityContext := None; Ports := [];
            Annotations := ∅; Privileged := false; HostNetwork := false |}
  end.

Definition is_Some_Ok {A} (r : result (option A)) : bool :=
  match r with Ok (Some _) => true | _ => false end.

Lemma Pod_environment_witness :
  ∃ p, (Pod ["HTTP_PROXY=http://p"; "HOME=/root"] (Some sample_spec) no_faults sample_fs).1
         = Ok (Some p) ∧
       c_Env p = [{| env_Name := "FILE_HASH"; env_Value := "alpha" |};
                  {| env_Name := "HTTP_PROXY"; env_Value := "http://p" |}].
Proof.
  destruct (Pod ["HTTP_PROXY=http://p"; "HOME=/root"] (Some sample_spec) no_faults sample_fs).1
    as [[p|]|e] eqn:E.
  - exists p. split; [reflexivity|].
    destruct (Pod_environment _ _ _ _ _ E) as (cs & Hcs & Henv). rewrite Henv.
    assert (mapM (file_content (nodes sample_fs)) (Files sample_spec) = Some ["alpha"]) as Hcs'
      by (vm_compute; reflexivity).
    rewrite Hcs' in Hcs. injection Hcs as <-. vm_compute. reflexivity.
  - apply (f_equal is_Some_Ok) in E. vm_compute in E. discriminate E.
  - apply (f_equal is_Some_Ok) in E. vm_compute in E. discriminate E.
Defined.

Lemma control_plane_probes_valid_witness :
  ∃ spec s' p,
    spec_of build_defaults CEtcd sample_config 6443 [] no_faults sample_fs = (Ok spec, s') ∧
    (Pod [] (Some (with_runtime spec ∅ [] [] [] None false true)) no_faults sample_fs).1
      = Ok (Some p) ∧ is_Some (c_LivenessProbe p) ∧ ¬ is_Some (c_ReadinessProbe p).
Proof.
  destruct (spec_of build_defaults CEtcd sample_config 6443 [] no_faults sample_fs) as [r s'] eqn:E.
  assert (is_Ok r = true) as Hok
    by (change r with (r, s').1; rewrite <-E; vm_compute; reflexivity).
  destruct r as [spec|e]; [|discriminate Hok].
  assert (is_Some_Ok (Pod [] (Some (with_runtime spec ∅ [] [] [] None false true))
            no_faults sample_fs).1 = true) as Hp.
  { replace spec with (match (spec_of build_defaults CEtcd sample_config 6443 [] no_faults sample_fs)
      with (Ok s, _) => s | _ => spec end) by (rewrite E; reflexivity). vm_compute. reflexivity. }
  destruct (Pod [] (Some (with_runtime spec ∅ [] [] [] None false true)) no_faults sample_fs).1
    as [[p|]|e] eqn:E2; [|discriminate Hp|discriminate Hp].
  exists spec, s', p. split; [reflexivity|]. split; [exact E2|].
  assert (parseControlPlaneProbeConfs sample_probe_order ["etcd-liveness-period-seconds=20"]
          = Ok (cfg_Probes sample_config)) as Hc by (vm_compute; reflexivity).
  destruct (control_plane_probes_valid build_defaults sample_probe_order
    ["etcd-liveness-period-seconds=20"] CEtcd sample_config 6443 [] no_faults sample_fs spec s'
    ∅ [] [] [] None false true [] no_faults sample_fs p (reflexivity _) Hc E E2)
    as (_ & Hl & Hr & _).
  split; [exact Hl|]. intros Hs. apply Hr in Hs.
  apply (bool_decide_eq_true_2 (CEtcd ∈ _)) in Hs. vm_compute in Hs. discriminate Hs.
Defined.

Lemma ReadFiles_spec_witness :
  ∃ l, (ReadFiles ["--config=/etc/a.conf"; "--dir=/etc"; "--kubeconfig=/etc/kc"] ["/etc/kc"]
          no_faults sample_fs).1 = Ok l ∧ NoDup l ∧ "/etc/a.conf" ∈ l.
Proof.
  exists ["/etc/a.conf"].
  assert ((ReadFiles ["--config=/etc/a.conf"; "--dir=/etc"; "--kubeconfig=/etc/kc"] ["/etc/kc"]
          no_faults sample_fs).1 = Ok ["/etc/a.conf"]) as E by (vm_compute; reflexivity).
  split; [exact E|].
  destruct (ReadFiles_spec _ _ _ _ _ E) as (_ & Hnd & _ & Hall). split; [exact Hnd|].
  apply (Hall eq_refl "/etc/a.conf" "--config=/etc/a.conf"); [left|].
  exists "--config", "/etc/a.conf". split; [|left; reflexivity].
  split; [reflexivity|]. split; [reflexivity|].
  split; [apply (bool_decide_eq_true_1 _); vm_compute; reflexivity|].
  exists (NFile "alpha" 420). split; [vm_compute; reflexivity|discriminate].
Defined.

Lemma ReadFiles_exclude_leak_witness :
  ∃ l, (ReadFiles ["--kubeconfig=/etc/kc"] ["/etc/ca.crt"] no_faults sample_fs).1 = Ok l ∧
       "/etc/ca.crt" ∈ l.
Proof.
  exists ["/etc/ca.crt"; "/etc/kc"].
  assert ((ReadFiles ["--kubeconfig=/etc/kc"] ["/etc/ca.crt"] no_faults sample_fs).1
          = Ok ["/etc/ca.crt"; "/etc/kc"]) as E by (vm_compute; reflexivity).
  split; [exact E|].
  apply (ReadFiles_exclude_leak _ _ _ _ "/etc/kc" "/etc/ca.crt"
           {| Clusters := ["/etc/ca.crt"]; AuthInfos := [] |} "/etc/ca.crt" E).
  - left.
  - reflexivity.
  - apply (bool_decide_eq_true_1 _); vm_compute; reflexivity.
  - vm_compute; reflexivity.
  - reflexivity.
  - apply (bool_decide_eq_true_1 _); vm_compute; reflexivity.
  - left.
Defined.

Lemma writeIfNotExists_spec_witness :
  ∃ s', writeIfNotExists "/etc/rancher/audit-policy.yaml" "rules" no_faults sample_fs = (Ok (), s') ∧
        nodes s' !! "/etc/rancher/audit-policy.yaml" = Some (NFile "rules" 384).
Proof.
  destruct (writeIfNotExists_spec ["etc"; "rancher"] "audit-policy.yaml" "rules" sample_tree
    ltac:(discriminate) ltac:(repeat constructor)) as [_ H].
  refine (H _ sample_fs eq_refl).
  constructor; [right; vm_compute; reflexivity|constructor; [left; vm_compute; reflexivity|constructor]].
Defined.
