(* ===== verification/ManifestFile.v ===== *)
(** * ManifestFile: writeFile and removeTemplate of pkg/executor/staticpod/staticpod.go

    The kubelet watches the manifests directory and reads whatever it finds
    there, so a manifest must never be visible half-written.  [writeFile] is
    modelled call by call over [GoFS], and the theorem about it speaks of every
    intermediate tree under every fault schedule. *)

From S2P Require Import Prelude GoStrings GoPath GoFS GoTree.

(** [writeFile]; [rnd] are the random numbers [os.MkdirTemp] draws. *)
Definition writeFile (rnd : nat → N) (tries : nat) (dest content : string) (perm : Z) : io unit :=
  let name := filepath_Base dest in
  let dir := filepath_Dir dest in
  os_MkdirAll dir;;
  existing ← attempt (os_ReadFile dest);
  if decide (existing = Ok content) then mret ()
  else
    tmpdir ← os_MkdirTemp (λ k, pretty (rnd k)) tries (filepath_Dir dir) name;
    let tmp := filepath_Join [tmpdir; name] in
    r ← attempt (os_WriteFile tmp content perm;; os_Rename tmp dest);
    attempt (os_RemoveAll tmpdir);;
    match r with Ok u => mret u | Err e => io_fail e end.

(** [removeTemplate]: a manifest that is not there is not an error. *)
Definition removeTemplate (manifestsDir command : string) : io unit :=
  let manifestPath := filepath_Join [manifestsDir; command +:+ ".yaml"] in
  r ← attempt (os_Remove manifestPath);
  match r with
  | Ok _ => mret ()
  | Err e =>
      if errors_Is_ErrNotExist e then mret ()
      else io_fail (ErrWithMessage ("failed to remove " +:+ command +:+ " static pod manifest") e)
  end.

(** ** Paths *)

Lemma all_digits_no_char c s :
  Ascii.is_nat c = None → all_digits s = true → has_char c s = false.
Proof.
  intros Hc. induction s as [|d s IH]; [done|]. cbn [all_digits has_char].
  destruct (Ascii.is_nat d) eqn:Hd; [|done]. intros Hs. rewrite IH by done.
  rewrite orb_false_r. apply bool_decide_eq_false. congruence.
Qed.

(** The name of a temporary directory is a plain name. *)
Lemma simple_temp name (n : N) : simple name = true → simple (name +:+ pretty n) = true.
Proof.
  rewrite !simple_spec, has_char_app. intros (Hs & Hne & _ & _).
  pose proof (pretty_N_digits n) as Hd. pose proof (pretty_N_ne_empty n) as Hn.
  rewrite Hs, (all_digits_no_char slash _ eq_refl Hd).
  pose proof (all_digits_no_char "." _ eq_refl Hd) as Hdot.
  destruct name as [|a name]; [done|]. rewrite app_cons.
  split_and!; [done..| |].
  - intros [= -> Hx]. by destruct name; [rewrite app_nil_l' in Hx|].
  - intros [= -> Hx]. destruct name as [|b name].
    + rewrite app_nil_l' in Hx. by rewrite Hx in Hdot.
    + rewrite app_cons in Hx. injection Hx as -> Hx. by destruct name; [rewrite app_nil_l' in Hx|].
Qed.

(** ** Triples of the calls used here *)

Lemma os_ReadFile_triple p t0 (I : tree → Prop) :
  triple (λ t, t = t0) (os_ReadFile p)
    (λ r t, t = t0 ∧ ∀ c, r = Ok c → file_content t0 p = Some c) I.
Proof.
  apply triple_query; [|by intros ? e ->]. intros ? ->. split; [done|]. unfold file_content.
  intros c. by repeat case_match; intros [= ->].
Qed.

Lemma temp_name_Some rnd dir pattern t tries k p :
  temp_name rnd dir pattern t tries k = Some p →
  t !! p = None ∧ ∃ j, p = filepath_Join [dir; pattern +:+ rnd j].
Proof.
  revert k. induction tries as [|tries IH]; intros k; cbn [temp_name]; [done|].
  destruct (t !! filepath_Join [dir; pattern +:+ rnd k]) eqn:E; [apply IH|].
  intros [= <-]. split; [done|by eexists].
Qed.

Lemma os_MkdirTemp_triple rnd tries dir pattern t0 (I : tree → Prop) :
  (∀ j, t0 !! filepath_Join [dir; pattern +:+ rnd j] = None →
        I (<[filepath_Join [dir; pattern +:+ rnd j] := NDir]> t0)) →
  triple (λ t, t = t0) (os_MkdirTemp rnd tries dir pattern)
    (λ r t, match r with
            | Ok p => t0 !! p = None ∧ t = <[p := NDir]> t0 ∧
                      ∃ j, p = filepath_Join [dir; pattern +:+ rnd j]
            | Err _ => t = t0
            end) I.
Proof.
  intros HI. apply triple_syscall; [|by intros ? e ->|by intros ? e k ->].
  intros ? ->. destruct (t0 !! Clean dir) as [[]|]; try done.
  destruct (temp_name _ _ _ _ _ _) as [p|] eqn:E; [|done].
  apply temp_name_Some in E as [? [j ->]]. split; [simpl; by eauto|]. constructor; [by apply HI|done].
Qed.

Lemma os_Rename_triple a b t0 n (I : tree → Prop) :
  t0 !! Clean a = Some n →
  I (<[Clean b := n]> (delete (Clean a) t0)) →
  triple (λ t, t = t0) (os_Rename a b)
    (λ r t, match r with
            | Ok _ => t = <[Clean b := n]> (delete (Clean a) t0)
            | Err _ => t = t0
            end) I.
Proof.
  intros Ha HI. apply triple_syscall; [|by intros ? e ->|by intros ? e k ->].
  intros ? ->. rewrite Ha.
  by destruct n, (t0 !! Clean b) as [[]|]; simpl; (split; [done|]); repeat constructor.
Qed.

(** ** Atomic replacement *)

Lemma snoc_ne {A} (l : list A) x : l ++ [x] ≠ [].
Proof. by destruct l. Qed.

Section atomic.
Context (rnd : nat → N) (tries : nat) (cs : list string) (d name content : string) (perm : Z).
Context (Hcs : Forall (λ c, simple c = true) cs).
Context (Hd : simple d = true) (Hname : simple name = true).

Let dirp := mkpath (cs ++ [d]).
Let dest := mkpath ((cs ++ [d]) ++ [name]).
Let tmpdir (k : nat) := mkpath (cs ++ [name +:+ pretty (rnd k)]).
Let tmp (k : nat) := mkpath ((cs ++ [name +:+ pretty (rnd k)]) ++ [name]).

(** What a reader of the manifests directory can see: the file is the old one
    or the complete new one, and nothing else in the directory has moved. *)
Definition old_or_new (t0 t : tree) : Prop :=
  (t !! dest = t0 !! dest ∨ ∃ q, t !! dest = Some (NFile content q)) ∧
  ∀ q, under dirp q = true → q ≠ dirp → q ≠ dest → t !! q = t0 !! q.

Lemma simple_dir : Forall (λ c, simple c = true) (cs ++ [d]).
Proof. apply Forall_app; auto. Qed.
Lemma simple_dest : Forall (λ c, simple c = true) ((cs ++ [d]) ++ [name]).
Proof. apply Forall_app; auto using simple_dir. Qed.
Lemma simple_tmpdir k : Forall (λ c, simple c = true) (cs ++ [name +:+ pretty (rnd k)]).
Proof. apply Forall_app; auto using simple_temp. Qed.
Lemma simple_tmp k : Forall (λ c, simple c = true) ((cs ++ [name +:+ pretty (rnd k)]) ++ [name]).
Proof. apply Forall_app; auto using simple_tmpdir. Qed.

(** Below the manifests directory, a path has its components as a prefix. *)
Lemma not_under_dir ds :
  Forall (λ c, simple c = true) ds → ¬ (cs ++ [d]) `prefix_of` ds → under dirp (mkpath ds) = false.
Proof.
  intros Hds Hn. apply not_true_is_false. intros Hu. apply Hn.
  apply under_mkpath; [apply snoc_ne|apply simple_dir|done|done].
Qed.

Lemma tmp_not_under k : tmpdir k ≠ dirp →
  under dirp (tmpdir k) = false ∧ under dirp (tmp k) = false.
Proof.
  intros Hne. assert (name +:+ pretty (rnd k) ≠ d) as Hne'.
  { intros Heq. apply Hne. unfold tmpdir, dirp. by rewrite Heq. }
  split; apply not_under_dir; auto using simple_tmpdir, simple_tmp.
  - intros Hp%prefix_app_inv. by apply prefix_cons_inv_1 in Hp.
  - rewrite <-(assoc_L (++)). intros Hp%prefix_app_inv. by apply prefix_cons_inv_1 in Hp.
Qed.

(** Nothing is below both the temporary and the manifests directory. *)
Lemma dir_not_under_tmp k q : tmpdir k ≠ dirp → under dirp q = true → under (tmpdir k) q = false.
Proof.
  intros Hne Hq. apply not_true_is_false. intros Hq'. apply Hne. unfold tmpdir, dirp. f_equal.
  apply under_Split in Hq as [l1 Hq]; [|apply snoc_ne|apply simple_dir].
  apply under_Split in Hq' as [l2 Hq']; [|apply snoc_ne|apply simple_tmpdir].
  rewrite Hq in Hq'. rewrite <-!(assoc_L (++)) in Hq'. by simplify_eq/=.
Qed.

Lemma dest_under : under dirp dest = true.
Proof.
  unfold under, dirp, dest. rewrite orb_true_iff. right. apply HasPrefix_app.
  exists name. rewrite mkpath_snoc by apply snoc_ne. by rewrite <-app_assoc'.
Qed.

Lemma old_or_new_ext t0 t t' :
  (∀ q, under dirp q = true → q ≠ dirp → t' !! q = t !! q) →
  old_or_new t0 t → old_or_new t0 t'.
Proof.
  intros Hext [Hdest Hother]. split.
  - rewrite Hext; [done|apply dest_under|].
    intros Heq. apply mkpath_inj in Heq; [|apply simple_dest|apply simple_dir].
    apply (f_equal length) in Heq. rewrite !length_app in Heq. simpl in Heq. lia.
  - intros q Hq Hq1 Hq2. rewrite Hext by done. by apply Hother.
Qed.

Lemma old_or_new_insert t0 t p n :
  under dirp p = false → old_or_new t0 t → old_or_new t0 (<[p := n]> t).
Proof.
  intros Hp. apply old_or_new_ext. intros q Hq _. apply lookup_insert_ne. congruence.
Qed.

Lemma old_or_new_publish t0 t p q :
  under dirp p = false → old_or_new t0 t →
  old_or_new t0 (<[dest := NFile content q]> (delete p t)).
Proof.
  intros Hp [_ Hother]. split.
  - right. exists q. apply lookup_insert_eq.
  - intros r Hr Hr1 Hr2. rewrite lookup_insert_ne, lookup_delete_ne by congruence. by apply Hother.
Qed.

Lemma publish_triple k t0 t1 :
  old_or_new t0 t1 → tmpdir k ≠ dirp →
  triple (λ t, t = t1) (os_WriteFile (tmp k) content perm;; os_Rename (tmp k) dest)
    (λ r t, old_or_new t0 t ∧ (r = Ok () → ∃ q, t !! dest = Some (NFile content q)))
    (old_or_new t0).
Proof.
  intros Hold Hne. destruct (tmp_not_under k Hne) as [_ Htmp].
  assert (Clean (tmp k) = tmp k) as Hct by apply Clean_mkpath, simple_tmp.
  assert (Clean dest = dest) as Hcd by apply Clean_mkpath, simple_dest.
  apply (triple_bind _ _ _ (λ _ t, old_or_new t0 t ∧ ∃ q, t !! tmp k = Some (NFile content q))).
  - eapply triple_post.
    + apply (os_WriteFile_triple _ _ _ _ (old_or_new t0)). intros c q. rewrite Hct.
      by apply old_or_new_insert.
    + rewrite Hct. intros r t [Hok Hother].
      assert (old_or_new t0 t) as Ht.
      { eapply old_or_new_ext, Hold. intros q Hq _. apply Hother. congruence. }
      destruct r as [[]|e]; [|done]. by split; [|apply Hok].
  - intros _ flt s [Hs [q Hq]].
    assert (old_or_new t0 (<[dest := NFile content q]> (delete (tmp k) (nodes s)))) as Hnew
      by by apply old_or_new_publish.
    edestruct (os_Rename_triple (tmp k) dest (nodes s) (NFile content q) (old_or_new t0))
      as [HQ HI]; [by rewrite Hct|by rewrite Hct, Hcd|reflexivity|]. split; [|exact HI].
    rewrite Hct, Hcd in HQ. destruct (os_Rename _ _ _ _) as [[[]|e] s'].
    + simpl in *. rewrite HQ. split; [done|]. intros _. exists q. apply lookup_insert_eq.
    + simpl in *. by rewrite HQ.
Qed.

(** Creating the directory and its ancestors changes nothing inside it. *)
Lemma mkdir_old_or_new t0 t :
  (∀ q, t !! q = t0 !! q ∨ (t0 !! q = None ∧ t !! q = Some NDir ∧ q ∈ ancestors dirp)) →
  old_or_new t0 t.
Proof.
  intros Hr. eapply (old_or_new_ext t0 t0); [|by split; [left|]].
  intros q Hq Hne. destruct (Hr q) as [|(_ & _ & Hin)]; [done|]. exfalso.
  apply elem_of_ancestors in Hin as (ds & Hpre & Hds & ->); [|apply simple_dir].
  assert (Forall (λ c, simple c = true) ds) as Hs.
  { destruct Hpre as [l Hl]. pose proof simple_dir as Hsd. rewrite Hl in Hsd.
    by apply Forall_app in Hsd as []. }
  apply under_mkpath in Hq; [|apply snoc_ne|apply simple_dir|done].
  apply Hne. unfold dirp. f_equal. apply (anti_symm prefix); done.
Qed.

Lemma cleanup_old_or_new k t0 t t' :
  tmpdir k ≠ dirp → (∀ q, under (Clean (tmpdir k)) q = false → t' !! q = t !! q) →
  old_or_new t0 t → old_or_new t0 t' ∧ t' !! dest = t !! dest.
Proof.
  intros Hne Hsp Ht. assert (Clean (tmpdir k) = tmpdir k) as Hc by apply Clean_mkpath, simple_tmpdir.
  rewrite Hc in Hsp. split.
  - eapply old_or_new_ext, Ht. intros q Hq _. by apply Hsp, dir_not_under_tmp.
  - apply Hsp, dir_not_under_tmp; [done|apply dest_under].
Qed.

Lemma mktemp_triple t0 :
  triple (λ t, old_or_new t0 t ∧ t !! dirp = Some NDir)
    (os_MkdirTemp (λ k, pretty (rnd k)) tries (mkpath cs) name)
    (λ r t, match r with
            | Ok p => ∃ k, p = tmpdir k ∧ tmpdir k ≠ dirp ∧ old_or_new t0 t
            | Err _ => old_or_new t0 t
            end) (old_or_new t0).
Proof.
  intros flt s [Hs Hdir].
  assert (∀ j, filepath_Join [mkpath cs; name +:+ pretty (rnd j)] = tmpdir j) as Hj
    by (intros; apply filepath_Join_mkpath; auto using simple_temp).
  assert (∀ j, nodes s !! tmpdir j = None → tmpdir j ≠ dirp ∧
    old_or_new t0 (<[tmpdir j := NDir]> (nodes s))) as Hins.
  { intros j Hn. assert (tmpdir j ≠ dirp) as Hne by congruence. split; [done|].
    apply old_or_new_insert; [by apply tmp_not_under|done]. }
  destruct (os_MkdirTemp_triple (λ k, pretty (rnd k)) tries (mkpath cs) name (nodes s)
    (old_or_new t0)) with flt s as [HQ HI]; [|done|].
  { intros j. rewrite Hj. by intros []%Hins. }
  split; [|exact HI]. destruct (os_MkdirTemp _ _ _ _ _ _) as [[p|e] s']; simpl in *.
  - destruct HQ as (Hn & -> & j & ->). rewrite Hj in *. exists j. by apply Hins in Hn as [].
  - by rewrite HQ.
Qed.

(** From the creation of the temporary directory to its removal. *)
Lemma replace_triple t0 p :
  triple (λ t, ∃ k, p = tmpdir k ∧ tmpdir k ≠ dirp ∧ old_or_new t0 t)
    (r ← attempt (os_WriteFile (filepath_Join [p; name]) content perm;;
                  os_Rename (filepath_Join [p; name]) dest);
     attempt (os_RemoveAll p);;
     match r with Ok u => mret u | Err e => io_fail e end)
    (λ r t, old_or_new t0 t ∧ (r = Ok () → ∃ q, t !! dest = Some (NFile content q)))
    (old_or_new t0).
Proof.
  apply (triple_bind _ _ _ (λ r t, ∃ k, p = tmpdir k ∧ tmpdir k ≠ dirp ∧
    old_or_new t0 t ∧ (r = Ok () → ∃ q, t !! dest = Some (NFile content q)))).
  { apply triple_attempt. intros flt s (k & -> & Hne & Hs).
    assert (filepath_Join [tmpdir k; name] = tmp k) as ->
      by (apply filepath_Join_mkpath; auto using simple_tmpdir).
    destruct (publish_triple k t0 (nodes s) Hs Hne flt s eq_refl) as [HQ HI].
    split; [|exact HI]. by exists k. }
  intros r. apply (triple_bind _ _ _ (λ _ t, old_or_new t0 t ∧
    (r = Ok () → ∃ q, t !! dest = Some (NFile content q)))).
  { apply triple_attempt. intros flt s (k & -> & Hne & Hs & Hr).
    destruct (os_RemoveAll_triple (tmpdir k) (nodes s) (old_or_new t0)) with flt s as [HQ HI];
      [by intros t Ht; eapply cleanup_old_or_new|done|].
    split; [|exact HI]. eapply cleanup_old_or_new in HQ as [? ->]; done. }
  intros _. destruct r as [[]|e]; [apply triple_ret|apply triple_fail]; by intros t [].
Qed.

Lemma Clean_dest : Clean dest = dest.
Proof. apply Clean_mkpath, simple_dest. Qed.

(** Under every fault schedule and at every moment, the destination is what it
    was or the complete new content, and nothing else in its directory moves. *)
Lemma writeFile_triple t0 :
  triple (λ t, t = t0) (writeFile rnd tries dest content perm)
    (λ r t, old_or_new t0 t ∧ (r = Ok () → ∃ q, t !! dest = Some (NFile content q)))
    (old_or_new t0).
Proof.
  unfold writeFile.
  assert (filepath_Base dest = name) as -> by by apply filepath_Base_mkpath.
  assert (filepath_Dir dest = dirp) as -> by (apply filepath_Dir_mkpath; auto using simple_dir).
  assert (filepath_Dir dirp = mkpath cs) as -> by by apply filepath_Dir_mkpath.
  apply (triple_bind _ _ _ (λ _ t, old_or_new t0 t ∧ t !! dirp = Some NDir)).
  { eapply triple_post; [apply os_MkdirAll_triple; intros t; apply mkdir_old_or_new|].
    intros [[]|e] t [Hr Hdirs]; (split; [by apply mkdir_old_or_new|]); [|done].
    specialize (Hdirs eq_refl). rewrite Forall_forall in Hdirs. apply Hdirs.
    apply elem_of_ancestors; [apply simple_dir|]. exists (cs ++ [d]).
    split_and!; [done|apply snoc_ne|done]. }
  intros _. apply (triple_bind _ _ _ (λ ex t, (old_or_new t0 t ∧ t !! dirp = Some NDir) ∧
    ∀ c, ex = Ok c → file_content t dest = Some c)).
  { apply triple_attempt. intros flt s Hs.
    destruct (os_ReadFile_triple dest (nodes s) (old_or_new t0) flt s eq_refl) as [[-> Hc] HI].
    split; [|exact HI]. by split. }
  intros ex. destruct (decide (ex = Ok content)) as [->|_].
  { apply triple_ret. intros t [[Ht _] Hc]. split; [done|]. intros _.
    specialize (Hc content eq_refl). unfold file_content in Hc. rewrite Clean_dest in Hc.
    repeat case_match; simplify_eq. by eexists. }
  eapply triple_bind; [|intros p; apply replace_triple].
  eapply triple_weaken; [apply mktemp_triple|by intros t []| |done].
  by intros [p|e] t Ht.
Qed.

(** *** Without faults *)

(** The state from which a write goes through: no ancestor of the directory is a
    file, the manifest is not a directory, and the first random name is free. *)
Definition ready (t : tree) : Prop :=
  cs ≠ [] ∧ 0 < tries ∧
  Forall (λ a, t !! a = None ∨ t !! a = Some NDir) (ancestors dirp) ∧
  match t !! dest with None | Some (NFile _ _) => True | _ => False end ∧
  tmpdir 0 ≠ dirp ∧ ∀ q, under (tmpdir 0) q = true → t !! q = None.

Lemma under_tmp k : under (tmpdir k) (tmp k) = true.
Proof.
  unfold under, tmp. apply orb_true_iff. right. apply HasPrefix_app. exists name.
  rewrite mkpath_snoc by apply snoc_ne. by rewrite <-app_assoc'.
Qed.

Lemma tmpdir_ne_dest k : tmpdir k ≠ dest.
Proof.
  intros Heq. apply mkpath_inj in Heq; [|apply simple_tmpdir|apply simple_dest].
  apply (f_equal length) in Heq. rewrite !length_app in Heq. simpl in Heq. lia.
Qed.

Lemma tmp_not_ancestor k q : tmpdir k ≠ dirp → under (tmpdir k) q = true → q ∉ ancestors dirp.
Proof.
  intros Hne Hu (ds & Hp & Hds & ->)%elem_of_ancestors; [|apply simple_dir].
  assert (Forall (λ c, simple c = true) ds) as Hs.
  { destruct Hp as [l Hl]. pose proof simple_dir as Hsd. rewrite Hl in Hsd.
    by apply Forall_app in Hsd as []. }
  apply under_mkpath in Hu; [|apply snoc_ne|apply simple_tmpdir|done].
  assert (cs ++ [name +:+ pretty (rnd k)] `prefix_of` cs ++ [d]) as Hpre by by etransitivity.
  apply prefix_app_inv in Hpre. apply prefix_cons_inv_1 in Hpre.
  apply Hne. unfold tmpdir, dirp. by rewrite Hpre.
Qed.

(** Write the temporary file, rename it, remove the directory. *)
Lemma replace_no_faults s :
  nodes s !! tmpdir 0 = Some NDir → tmpdir 0 ≠ dirp →
  (∀ q, under (tmpdir 0) q = true → q ≠ tmpdir 0 → nodes s !! q = None) →
  match nodes s !! dest with None | Some (NFile _ _) => True | _ => False end →
  ∃ s1 s2 s3,
    os_WriteFile (tmp 0) content perm no_faults s = (Ok (), s1) ∧
    os_Rename (tmp 0) dest no_faults s1 = (Ok (), s2) ∧
    os_RemoveAll (tmpdir 0) no_faults s2 = (Ok (), s3) ∧
    nodes s3 !! dest = Some (NFile content perm) ∧
    (∀ q, q ≠ dest → q ≠ tmpdir 0 → nodes s3 !! q = nodes s !! q) ∧
    nodes s3 !! tmpdir 0 = None.
Proof.
  intros Htd Hne Hfree Hdest.
  assert (under (tmpdir 0) dest = false) as Hud by (apply dir_not_under_tmp, dest_under; done).
  assert (Clean (tmp 0) = tmp 0) as Hct by apply Clean_mkpath, simple_tmp.
  assert (tmp 0 ≠ tmpdir 0) as Htt.
  { intros Heq. apply mkpath_inj in Heq; [|apply simple_tmp|apply simple_tmpdir].
    apply (f_equal length) in Heq. rewrite !length_app in Heq. simpl in Heq. lia. }
  assert (tmp 0 ≠ dest) as Htd' by (intros Heq; rewrite <-Heq, under_tmp in Hud; done).
  destruct (os_WriteFile_new (tmp 0) content perm s) as (s1 & E1 & N1); [done| | |].
  { rewrite <-Htd. f_equal. apply filepath_Dir_mkpath; auto using simple_tmpdir. }
  { by apply Hfree; [apply under_tmp|]. }
  destruct (os_Rename_run (tmp 0) dest (NFile content perm) s1) as (s2 & E2 & N2);
    [done|apply Clean_dest|by rewrite N1, lookup_insert_eq|done| |].
  { rewrite N1, lookup_insert_ne by done. by destruct (nodes s !! dest) as [[]|]. }
  destruct (os_RemoveAll_run (tmpdir 0) s2) as (s3 & E3 & N3).
  assert (Clean (tmpdir 0) = tmpdir 0) as Hctd by apply Clean_mkpath, simple_tmpdir.
  rewrite Hctd in N3.
  exists s1, s2, s3. split_and!; [done..| | |].
  - by rewrite N3, Hud, N2, lookup_insert_eq.
  - intros q Hq Hq'. rewrite N3. destruct (under (tmpdir 0) q) eqn:Hu.
    + symmetry. by apply Hfree.
    + assert (q ≠ tmp 0) by (intros ->; rewrite under_tmp in Hu; done).
      by rewrite N2, lookup_insert_ne, lookup_delete_ne, N1, lookup_insert_ne by congruence.
  - by rewrite N3, under_refl.
Qed.

(** C37: When no system call fails, no ancestor of the manifests directory is a
    file, the manifest is not a directory and the first temporary name is free,
    [writeFile] succeeds: the manifest holds the content, the temporary
    directory is gone, and nothing else has changed but missing ancestors that
    were created. *)
Theorem writeFile_succeeds s :
  ready (nodes s) →
  ∃ s' q, writeFile rnd tries dest content perm no_faults s = (Ok (), s') ∧
    nodes s' !! dest = Some (NFile content q) ∧
    ∀ p, p ≠ dest → p ∉ ancestors dirp → nodes s' !! p = nodes s !! p.
Proof.
  intros (Hne & Htries & Hanc & Hdest & Htmp & Hfree).
  unfold writeFile.
  assert (filepath_Base dest = name) as -> by by apply filepath_Base_mkpath.
  assert (filepath_Dir dest = dirp) as -> by (apply filepath_Dir_mkpath; auto using simple_dir).
  assert (filepath_Dir dirp = mkpath cs) as -> by by apply filepath_Dir_mkpath.
  unfold mbind, io_bind, attempt.
  destruct (os_MkdirAll_no_faults dirp s Hanc) as (s1 & -> & Hin & Hout).
  assert (dest ∉ ancestors dirp) as Hda.
  { apply not_ancestor; [apply simple_dir|apply simple_dest|]. rewrite !length_app. simpl. lia. }
  destruct (os_ReadFile_run dest s1) as (s2 & -> & N2). rewrite Clean_dest, Hout by done.
  destruct (decide _) as [Heq|_].
  { destruct (nodes s !! dest) as [[|c q| | |]|] eqn:Hd'; simplify_eq.
    exists s2, q. split; [done|]. rewrite N2, Hout by done. split; [done|].
    intros p _ Hp. by apply Hout. }
  assert (filepath_Join [mkpath cs; name +:+ pretty (rnd 0)] = tmpdir 0) as Hj
    by (apply filepath_Join_mkpath; auto using simple_temp).
  assert (∀ q, under (tmpdir 0) q = true → nodes s2 !! q = None) as Hfree2.
  { intros q Hq. rewrite N2, Hout; [by apply Hfree|]. by apply (tmp_not_ancestor 0). }
  destruct (os_MkdirTemp_run (λ k, pretty (rnd k)) tries (mkpath cs) name s2) as (s3 & -> & N3);
    [done| |by rewrite Hj; apply Hfree2, under_refl|].
  { rewrite Clean_mkpath, N2 by done. apply Hin, elem_of_ancestors; [apply simple_dir|].
    exists cs. split_and!; [by exists [d]|done|done]. }
  rewrite Hj in *. assert (filepath_Join [tmpdir 0; name] = tmp 0) as ->
    by (apply filepath_Join_mkpath; auto using simple_tmpdir).
  destruct (replace_no_faults s3) as (s4 & s5 & s6 & E4 & E5 & E6 & Nd & No & Nt);
    [by rewrite N3, lookup_insert_eq|done|..].
  { intros q Hq Hq'. rewrite N3, lookup_insert_ne by done. by apply Hfree2. }
  { rewrite N3, lookup_insert_ne, N2, Hout; [done..|]. apply tmpdir_ne_dest. }
  rewrite E4, E5, E6. exists s6, perm. split; [done|]. split; [done|].
  intros p Hp Hpa. destruct (decide (p = tmpdir 0)) as [->|Hpt].
  - rewrite Nt. symmetry. apply Hfree, under_refl.
  - rewrite No, N3, lookup_insert_ne, N2 by done. by apply Hout.
Qed.
End atomic.

(** ** Concrete runs *)

Definition empty_var : tree := <["/var" := NDir]> ∅.

Lemma writeFile_succeeds_witness :
  ∃ s' q, writeFile (λ _, 7%N) 10 "/var/pod-manifests/etcd.yaml" "new" 420 no_faults
            (MkFS empty_var 0 []) = (Ok (), s') ∧
    nodes s' !! "/var/pod-manifests/etcd.yaml" = Some (NFile "new" q).
Proof.
  destruct (writeFile_succeeds (λ _, 7%N) 10 ["var"] "pod-manifests" "etcd.yaml" "new" 420
    ltac:(repeat constructor) eq_refl eq_refl (MkFS empty_var 0 [])) as (s' & q & E & H & _).
  - split; [discriminate|]. split; [apply Nat.lt_0_succ|]. split.
    { constructor; [right; vm_compute; reflexivity|].
      constructor; [left; vm_compute; reflexivity|constructor]. }
    split; [vm_compute; exact I|]. split; [discriminate|].
    intros q Hq. destruct (nodes (MkFS empty_var 0 []) !! q) as [n|] eqn:E; [|reflexivity].
    apply elem_of_map_to_list in E. vm_compute in E. apply list_elem_of_singleton in E.
    injection E as -> _. discriminate Hq.
  - exists s', q. split; [exact E|exact H].
Defined.
