(* ===== verification/ApiServerArgs.v ===== *)
(** * ApiServerArgs: the argument list of kube-apiserver

    The flag loop at the start of [StaticPodConfig.APIServer]
    (pkg/executor/staticpod/staticpod.go).  It ranges over [args] while
    reassigning [args] to [append(args[:i], args[i+1:]...)]: the range reads the
    backing array through the header evaluated on entry, the deletions shift
    that array in place, so the element after a deleted one is not looked at and
    the last element is looked at again.  The model runs on [GoSlice]; [None] is
    the slice-bounds panic. *)

From S2P Require Import Prelude GoStrings GoSlice GoPath.

Definition deletable (name : string) : bool :=
  bool_decide (name = "--advertise-port") || bool_decide (name = "--basic-auth-file").

Definition etcd_servers := "--etcd-servers".
Definition audit_log_path := "--audit-log-path".
Definition preferred_types := "--kubelet-preferred-address-types".

(** The variables of the loop. *)
Record loop_state := {
  l_store : store string;
  l_args : slice;
  l_auditLogFile : string;
  l_found : bool
}.

Definition with_args (st : loop_state) (hs : store string * slice) : loop_state :=
  {| l_store := hs.1; l_args := hs.2; l_auditLogFile := l_auditLogFile st; l_found := l_found st |}.

(** [args = append([]string{x}, args...)] *)
Definition prepend (st : loop_state) (xs : list string) : loop_state :=
  let '(h, lit) := literal (l_store st) xs in
  with_args st (append h lit (contents h (l_args st))).

(** One iteration, at index [i], on the element [arg]. *)
Definition loop_body (external : bool) (kineSock : string) (i : nat) (arg : string)
    (st : loop_state) : option loop_state :=
  let name := cut_name equals arg in
  let value := cut_value equals arg in
  if deletable name then with_args st <$> delete_at (l_store st) (l_args st) i
  else if decide (name = etcd_servers) then
    if external then
      st ← with_args st <$> delete_at (l_store st) (l_args st) i;
      Some (prepend st ["--etcd-servers=" +:+ "unixs://" +:+ kineSock])
    else Some st
  else if decide (name = audit_log_path) then
    Some {| l_store := l_store st; l_args := l_args st; l_auditLogFile := value;
            l_found := l_found st |}
  else if decide (name = preferred_types) then
    Some {| l_store := l_store st; l_args := l_args st; l_auditLogFile := l_auditLogFile st;
            l_found := true |}
  else Some st.

(** [for i, arg := range args]: [range] is the header evaluated on entry, [n] the
    number of iterations left. *)
Fixpoint args_loop (external : bool) (kineSock : string) (range : slice) (n i : nat)
    (st : loop_state) : option loop_state :=
  match n with
  | 0 => Some st
  | S n' =>
      arg ← index (l_store st) range i;
      st ← loop_body external kineSock i arg st;
      args_loop external kineSock range n' (S i) st
  end.

(** The whole loop on a caller's slice holding [args], with [spare] beyond its
    length up to its capacity: the resulting arguments, the audit log path and
    whether the preferred address types were given. *)
Definition filter_args (external : bool) (kineSock : string) (args spare : list string)
    : option (list string * string * bool) :=
  let s := Slice 0 0 (length args) (length args + length spare) in
  st ← args_loop external kineSock s (length args) 0
         {| l_store := [args ++ spare]; l_args := s; l_auditLogFile := ""; l_found := false |};
  Some (contents (l_store st) (l_args st), l_auditLogFile st, l_found st).

(** ** What the loop is for *)

Definition flag_name (arg : string) : string := cut_name equals arg.

(** The value of the last [--audit-log-path] of the list. *)
Definition audit_value (start : string) (args : list string) : string :=
  default start (last (cut_value equals <$> filter (λ a, flag_name a = audit_log_path) args)).

Definition has_preferred (args : list string) : bool :=
  existsb (λ a, bool_decide (flag_name a = preferred_types)) args.

(** The flags the loop looks at. *)
Definition special (external : bool) (arg : string) : bool :=
  deletable (flag_name arg) || (external && bool_decide (flag_name arg = etcd_servers)) ||
  bool_decide (flag_name arg = audit_log_path) || bool_decide (flag_name arg = preferred_types).

Definition removed (external : bool) (arg : string) : bool :=
  deletable (flag_name arg) || (external && bool_decide (flag_name arg = etcd_servers)).

(** Every removed flag is followed by a flag the loop has no interest in. *)
Fixpoint spaced (external : bool) (args : list string) : bool :=
  match args with
  | [] => true
  | a :: rest =>
      if removed external a then
        match rest with [] => false | b :: _ => negb (special external b) && spaced external rest end
      else spaced external rest
  end.

(** With an external database, nothing is removed after [--etcd-servers]. *)
Fixpoint etcd_last (external : bool) (args : list string) : bool :=
  match args with
  | [] => true
  | a :: rest =>
      if external && bool_decide (flag_name a = etcd_servers)
      then forallb (λ b, negb (removed external b)) rest
      else etcd_last external rest
  end.

Definition expected_args (external : bool) (kineSock : string) (args : list string) : list string :=
  (if external && existsb (λ a, bool_decide (flag_name a = etcd_servers)) args
   then ["--etcd-servers=" +:+ "unixs://" +:+ kineSock] else []) ++
  filter (λ a, removed external a = false) args.

(** ** Lemmas *)

Lemma audit_value_cons start a args :
  audit_value start (a :: args) =
  audit_value (if decide (flag_name a = audit_log_path) then cut_value equals a else start) args.
Proof.
  unfold audit_value. rewrite filter_cons. destruct (decide (flag_name a = audit_log_path)); [|done].
  rewrite fmap_cons, last_cons. by destruct (last _).
Qed.

Lemma audit_value_app start l k : audit_value start (l ++ k) = audit_value (audit_value start l) k.
Proof.
  revert start. induction l as [|a l IH]; intros start; [done|].
  by rewrite <-app_comm_cons, !audit_value_cons, IH.
Qed.

(** Looking again at copies of the last element changes nothing. *)
Lemma audit_value_stale start l z k :
  last l = Some z → Forall (eq z) k → audit_value start (l ++ k) = audit_value start l.
Proof.
  intros [l' ->]%last_Some Hk. rewrite audit_value_app. induction Hk as [|x k <- _ IH]; [done|].
  rewrite audit_value_cons. case_decide as Hz; [|exact IH].
  rewrite audit_value_app, audit_value_cons, decide_True in IH by done.
  rewrite audit_value_app, audit_value_cons, decide_True by done. exact IH.
Qed.

Lemma has_preferred_stale l z k :
  last l = Some z → Forall (eq z) k → has_preferred (l ++ k) = has_preferred l.
Proof.
  intros [l' ->]%last_Some Hk. unfold has_preferred. rewrite !existsb_app. simpl.
  induction Hk as [|x k <- _ IH]; simpl; [by rewrite orb_false_r|].
  rewrite <-IH. simpl. by repeat match goal with |- context [existsb ?f ?l] => destruct (existsb f l) end;
    destruct (bool_decide _).
Qed.

(** An element that is not removed only sets the two variables. *)
Lemma loop_body_keep external kine i arg st :
  removed external arg = false →
  loop_body external kine i arg st =
  Some {| l_store := l_store st; l_args := l_args st;
          l_auditLogFile := if decide (flag_name arg = audit_log_path) then cut_value equals arg
                            else l_auditLogFile st;
          l_found := l_found st || bool_decide (flag_name arg = preferred_types) |}.
Proof.
  unfold removed, loop_body. fold (flag_name arg). intros [Hd He]%orb_false_iff. rewrite Hd.
  destruct (decide (flag_name arg = etcd_servers)) as [Heq|].
  { rewrite Heq in *. rewrite bool_decide_true, andb_true_r in He by done. rewrite He.
    destruct st. rewrite orb_false_r. done. }
  destruct (decide (flag_name arg = audit_log_path)) as [Heq|].
  { rewrite Heq. by rewrite orb_false_r. }
  destruct (decide (flag_name arg = preferred_types)) as [Heq|].
  { by rewrite Heq, orb_true_r. }
  rewrite bool_decide_false, orb_false_r by done. by destruct st.
Qed.

(** Reading a stretch with nothing to remove. *)
Lemma args_loop_read external kine range pre xs post st :
  l_store st !! s_arr range = Some (pre ++ xs ++ post) →
  s_off range = 0 → length pre + length xs ≤ s_len range →
  Forall (λ x, removed external x = false) xs →
  args_loop external kine range (length xs) (length pre) st =
  Some {| l_store := l_store st; l_args := l_args st;
          l_auditLogFile := audit_value (l_auditLogFile st) xs;
          l_found := l_found st || has_preferred xs |}.
Proof.
  revert pre st. induction xs as [|x xs IH]; intros pre st Hst Hoff Hlen Hxs.
  { destruct st. unfold has_preferred. simpl. by rewrite orb_false_r. }
  apply Forall_cons in Hxs as [Hx Hxs]. simpl in Hlen. cbn [length args_loop].
  assert (index (l_store st) range (length pre) = Some x) as ->.
  { unfold index, backing. rewrite decide_True by lia. rewrite Hoff.
    rewrite (list_lookup_total_correct _ _ _ Hst). simpl. by apply list_lookup_middle. }
  cbn [mbind option_bind]. rewrite loop_body_keep by done. cbn [mbind option_bind].
  replace (S (length pre)) with (length (pre ++ [x])) by (rewrite length_app; simpl; lia).
  rewrite IH; simpl.
  - rewrite audit_value_cons. f_equal. f_equal. unfold has_preferred. simpl. by rewrite orb_assoc.
  - by rewrite <-(assoc_L (++)).
  - done.
  - rewrite length_app. simpl. lia.
  - done.
Qed.

(** Prepending copies the arguments into a new array. *)
Lemma prepend_spec st xs arr :
  xs ≠ [] → s_arr (l_args st) < length (l_store st) → l_store st !! 0 = Some arr →
  let st' := prepend st xs in
  contents (l_store st') (l_args st') = xs ++ contents (l_store st) (l_args st) ∧
  l_store st' !! 0 = Some arr ∧
  l_auditLogFile st' = l_auditLogFile st ∧ l_found st' = l_found st.
Proof.
  intros Hxs Hlt Harr. unfold prepend, literal. cbn [with_args l_store l_args l_auditLogFile l_found].
  set (h := l_store st ++ [xs]).
  assert (contents h (l_args st) = contents (l_store st) (l_args st)) as ->.
  { unfold contents, backing, h. by rewrite lookup_total_app_l. }
  set (vs := contents (l_store st) (l_args st)).
  assert (h !!! length (l_store st) = xs) as Hlit.
  { unfold h. rewrite lookup_total_app_r, Nat.sub_diag by done. done. }
  assert (contents h (Slice (length (l_store st)) 0 (length xs) (length xs)) = xs) as Hc.
  { unfold contents, backing. simpl. rewrite Hlit, drop_0. by rewrite firstn_all. }
  unfold append. cbn [s_len s_cap s_arr s_off]. case_decide as Hfit; simpl.
  - assert (vs = []) as -> by (apply length_zero_iff_nil; lia). simpl. rewrite Nat.add_0_r, app_nil_r.
    split_and!; [|..|done|done].
    + unfold contents, backing in *. simpl in *. rewrite Hlit. unfold h.
      rewrite list_lookup_total_insert_eq by (rewrite length_app; simpl; lia).
      by rewrite drop_0, firstn_all.
    + rewrite list_lookup_insert_ne; [|apply lookup_lt_Some in Harr; lia].
      unfold h. by apply lookup_app_l_Some.
  - rewrite Hc. split_and!; [|..|done|done].
    + unfold contents, backing. simpl. rewrite lookup_total_app_r, Nat.sub_diag by done. simpl.
      rewrite drop_0, <-length_app. by rewrite firstn_all.
    + unfold h. apply lookup_app_l_Some. by apply lookup_app_l_Some.
Qed.

(** *** The loop invariant

    In the array [done ++ todo ++ stale ++ spare], the next index to read is
    [length done], [args] is the part before [stale], and [stale] holds one copy
    of the last argument per deletion so far. *)
Definition at_index (cap : nat) (done todo stale spare : list string) (st : loop_state) : Prop :=
  l_store st = [done ++ todo ++ stale ++ spare] ∧
  l_args st = Slice 0 0 (length done + length todo) cap ∧
  cap = length done + length todo + length stale + length spare.

(** The copies are of the last argument, or of one without effect. *)
Definition stale_ok (external : bool) (todo stale : list string) (st : loop_state) : Prop :=
  match last todo with
  | Some z => Forall (eq z) stale
  | None => Forall (λ x, removed external x = false) stale ∧
            audit_value (l_auditLogFile st) stale = l_auditLogFile st ∧
            (l_found st || has_preferred stale) = l_found st
  end.

Definition finished (external : bool) (kine : string) (done todo : list string)
    (st st' : loop_state) : Prop :=
  contents (l_store st') (l_args st') =
    (if external && existsb (λ a, bool_decide (flag_name a = etcd_servers)) todo
     then ["--etcd-servers=" +:+ "unixs://" +:+ kine] else []) ++
    done ++ filter (λ a, removed external a = false) todo ∧
  l_auditLogFile st' = audit_value (l_auditLogFile st) todo ∧
  l_found st' = l_found st || has_preferred todo.

Lemma at_index_contents cap done todo stale spare st :
  at_index cap done todo stale spare st →
  contents (l_store st) (l_args st) = done ++ todo.
Proof.
  intros (-> & -> & _). unfold contents, backing. simpl. rewrite drop_0, <-length_app.
  rewrite (assoc_L (++)). by rewrite take_app_length.
Qed.

Lemma at_index_read cap done a todo stale spare st n :
  at_index cap done (a :: todo) stale spare st →
  length done + length (a :: todo) + length stale = n →
  index (l_store st) (Slice 0 0 n cap) (length done) = Some a.
Proof.
  intros (-> & _ & _) Hn. unfold index, backing. simpl in *. rewrite decide_True by lia.
  by apply list_lookup_middle.
Qed.

(** Deleting the element just read. *)
Lemma at_index_delete cap done a b todo stale spare st z :
  at_index cap done (a :: b :: todo) stale spare st → last (b :: todo) = Some z →
  ∃ hs, delete_at (l_store st) (l_args st) (length done) = Some hs ∧
    at_index cap (done ++ [b]) todo (z :: stale) spare (with_args st hs).
Proof.
  intros (Hs & Ha & Hcap) Hz. apply last_Some in Hz as [l Hl].
  rewrite Hs, Ha. eexists. split.
  - apply (delete_at_front _ _ _ done a (b :: todo) (a :: l) z (stale ++ spare)).
    + done.
    + by rewrite Hl.
    + rewrite length_app. simpl in *. lia.
  - unfold at_index, with_args. cbn [l_store l_args fst snd].
    rewrite length_app. simpl in *. split_and!.
    + by rewrite <-!(assoc_L (++)).
    + f_equal. lia.
    + lia.
Qed.

Lemma last_cons_Some {A} (b : A) l : ∃ z, last (b :: l) = Some z.
Proof. destruct (last (b :: l)) eqn:E; [eauto|]. by apply last_None in E. Qed.

Lemma not_special_props external b :
  special external b = false →
  removed external b = false ∧ flag_name b ≠ audit_log_path ∧ flag_name b ≠ preferred_types.
Proof.
  unfold special, removed. intros [[H1 H2]%orb_false_iff H3]%orb_false_iff.
  apply bool_decide_eq_false in H2, H3. done.
Qed.

(** After a deletion the element that moved up is skipped; it has no effect. *)
Lemma stale_ok_delete external a b todo stale st hs z :
  stale_ok external (a :: b :: todo) stale st → special external b = false →
  last (b :: todo) = Some z → stale_ok external todo (z :: stale) (with_args st hs).
Proof.
  intros Hst (Hb & Hba & Hbp)%not_special_props Hz. unfold stale_ok in *.
  change (last (a :: b :: todo)) with (last (b :: todo)) in Hst. rewrite Hz in Hst.
  destruct todo as [|c todo].
  - simpl in Hz. simplify_eq. cbn [last with_args l_auditLogFile l_found].
    assert (Forall (eq z) (z :: stale)) as Hall by by constructor.
    split_and!.
    + eapply Forall_impl; [exact Hall|]. by intros x <-.
    + clear Hst. induction Hall as [|x l <- _ IH]; [done|]. by rewrite audit_value_cons, decide_False.
    + assert (has_preferred (z :: stale) = false) as ->; [|by rewrite orb_false_r].
      clear Hst. unfold has_preferred. induction Hall as [|x l <- _ IH]; simpl; [done|].
      by rewrite bool_decide_false.
  - change (last (b :: c :: todo)) with (last (c :: todo)) in Hz. rewrite Hz. by constructor.
Qed.

Lemma forallb_not_removed external l :
  forallb (λ b, negb (removed external b)) l = true → Forall (λ x, removed external x = false) l.
Proof. induction l; simpl; [done|]. intros [H ?]%andb_true_iff. constructor; [by apply negb_true_iff|auto]. Qed.

Lemma filter_all_kept external l :
  Forall (λ x, removed external x = false) l → filter (λ a, removed external a = false) l = l.
Proof. induction 1; [done|]. rewrite filter_cons, decide_True by done. by f_equal. Qed.

(** What remains of the loop once [args] lives in a new array. *)
Lemma loop_after_prepend external kine cap n done todo stale spare st z :
  l_store st !! 0 = Some (done ++ todo ++ stale ++ spare) →
  length done + length todo + length stale = n →
  Forall (λ x, removed external x = false) (todo ++ stale) →
  (last todo = Some z ∧ Forall (eq z) stale ∨
   todo = [] ∧ audit_value (l_auditLogFile st) stale = l_auditLogFile st ∧
   (l_found st || has_preferred stale) = l_found st) →
  ∃ st', args_loop external kine (Slice 0 0 n cap) (length todo + length stale) (length done) st
         = Some st' ∧
    l_store st' = l_store st ∧ l_args st' = l_args st ∧
    l_auditLogFile st' = audit_value (l_auditLogFile st) todo ∧
    l_found st' = l_found st || has_preferred todo.
Proof.
  intros Hst Hn Hkeep Hz. rewrite <-length_app.
  rewrite (args_loop_read external kine (Slice 0 0 n cap) done (todo ++ stale) spare st).
  - eexists. split; [done|]. simpl. split_and!; [done..| |].
    + destruct Hz as [[Hl Hf]|(-> & Ha & _)]; [by eapply audit_value_stale|]. done.
    + destruct Hz as [[Hl Hf]|(-> & _ & Hf)].
      * f_equal. by eapply has_preferred_stale.
      * simpl. rewrite Hf. by rewrite orb_false_r.
  - by rewrite <-(assoc_L (++)).
  - done.
  - rewrite length_app. simpl. lia.
  - done.
Qed.

Lemma removed_cases external a :
  removed external a = true →
  deletable (flag_name a) = true ∨
  (deletable (flag_name a) = false ∧ external = true ∧ flag_name a = etcd_servers).
Proof.
  unfold removed. destruct (deletable (flag_name a)); [by left|]. simpl.
  intros [-> Hb%bool_decide_eq_true]%andb_true_iff. by right.
Qed.

(** The case of [--etcd-servers] with an external database. *)
Lemma loop_etcd kine cap n done a b todo stale spare st :
  flag_name a = etcd_servers →
  at_index cap done (a :: b :: todo) stale spare st →
  length done + length (a :: b :: todo) + length stale = n →
  stale_ok true (a :: b :: todo) stale st → special true b = false →
  forallb (λ x, negb (removed true x)) (b :: todo) = true →
  ∃ hs st', delete_at (l_store st) (l_args st) (length done) = Some hs ∧
    args_loop true kine (Slice 0 0 n cap) (length (b :: todo) + length stale) (S (length done))
      (prepend (with_args st hs) ["--etcd-servers=" +:+ "unixs://" +:+ kine]) = Some st' ∧
    finished true kine done (a :: b :: todo) st st'.
Proof.
  intros Ha Hat Hn Hstale Hb Hrest. destruct (last_cons_Some b todo) as [z Hz].
  destruct (at_index_delete _ _ _ _ _ _ _ _ _ Hat Hz) as (hs & Hdel & Hat').
  pose proof (stale_ok_delete _ _ _ _ _ _ hs z Hstale Hb Hz) as Hstale'.
  apply forallb_not_removed in Hrest. destruct (not_special_props _ _ Hb) as (_ & Hba & Hbp).
  pose proof Hat' as (Hstore & Hargs & _).
  destruct (prepend_spec (with_args st hs) ["--etcd-servers=" +:+ "unixs://" +:+ kine]
    ((done ++ [b]) ++ todo ++ (z :: stale) ++ spare)) as (Hc & H0 & Haudit & Hfound);
    [done|by rewrite Hstore, Hargs; simpl; lia|by rewrite Hstore|].
  set (st1 := prepend (with_args st hs) _) in *.
  destruct (loop_after_prepend true kine cap n (done ++ [b]) todo (z :: stale) spare st1 z)
    as (st' & E & Hs' & Ha' & Hau' & Hf').
  - done.
  - rewrite length_app. simpl in *. lia.
  - apply Forall_cons in Hrest as [Hrb Hrest]. apply Forall_app. split; [done|].
    assert (removed true z = false) as Hrz.
    { assert (z ∈ b :: todo) as Hin by (by apply last_Some_elem_of).
      apply elem_of_cons in Hin as [->|Hin]; [done|]. rewrite Forall_forall in Hrest. auto. }
    assert (Forall (eq z) stale) as Hse.
    { unfold stale_ok in Hstale. change (last (a :: b :: todo)) with (last (b :: todo)) in Hstale.
      by rewrite Hz in Hstale. }
    constructor; [done|]. eapply Forall_impl; [exact Hse|]. by intros x <-.
  - unfold stale_ok in Hstale'. destruct todo as [|c todo].
    + right. split; [done|]. rewrite Haudit, Hfound. apply Hstale'.
    + left. change (last (b :: c :: todo)) with (last (c :: todo)) in Hz. rewrite Hz in Hstale'. done.
  - exists hs, st'. split; [done|]. split.
    { rewrite <-E. f_equal; rewrite ?length_app; simpl; lia. }
    unfold finished. rewrite Hs', Ha', Hc, (at_index_contents _ _ _ _ _ _ Hat'), Hau', Hf', Haudit, Hfound.
    cbn [andb existsb]. rewrite (bool_decide_true _ Ha). simpl. rewrite filter_cons.
    rewrite decide_False by (unfold removed; rewrite Ha; done).
    rewrite filter_all_kept by done. split_and!.
    + by rewrite <-(assoc_L (++)).
    + rewrite !audit_value_cons, Ha. by rewrite !decide_False.
    + unfold has_preferred. simpl. rewrite Ha. by rewrite (bool_decide_false _ Hbp).
Qed.

Lemma spaced_removed external a rest :
  removed external a = true → spaced external (a :: rest) = true →
  ∃ b todo, rest = b :: todo ∧ special external b = false ∧ spaced external todo = true.
Proof.
  intros Ha. cbn [spaced]. rewrite Ha. destruct rest as [|b todo]; [done|].
  intros [Hb%negb_true_iff Hs]%andb_true_iff. exists b, todo. split_and!; [done..|].
  destruct (not_special_props _ _ Hb) as [Hrb _]. cbn [spaced] in Hs. by rewrite Hrb in Hs.
Qed.

(** A kept element: the loop moves on by one. *)
Lemma step_keep external kine cap n done a rest stale spare st :
  removed external a = false →
  at_index cap done (a :: rest) stale spare st → stale_ok external (a :: rest) stale st →
  length done + length (a :: rest) + length stale = n →
  ∃ st1, args_loop external kine (Slice 0 0 n cap) (length (a :: rest) + length stale) (length done) st
         = args_loop external kine (Slice 0 0 n cap) (length rest + length stale) (S (length done)) st1 ∧
    at_index cap (done ++ [a]) rest stale spare st1 ∧ stale_ok external rest stale st1 ∧
    (∀ st', finished external kine (done ++ [a]) rest st1 st' →
            finished external kine done (a :: rest) st st').
Proof.
  intros Ha Hat Hstale Hn. eexists. split.
  { cbn [length Nat.add args_loop]. rewrite (at_index_read _ _ _ _ _ _ _ _ Hat Hn).
    cbn [mbind option_bind]. by rewrite loop_body_keep. }
  destruct Hat as (Hs & Hargs & Hcap). split; [|split].
  - unfold at_index. simpl. rewrite Hs, Hargs, length_app. simpl in *. rewrite <-(assoc_L (++)).
    split_and!; [done|f_equal; lia|lia].
  - unfold stale_ok in *. destruct rest as [|b rest].
    + simpl in *. split_and!.
      * eapply Forall_impl; [exact Hstale|]. by intros x <-.
      * pose proof (audit_value_stale (l_auditLogFile st) [a] a stale eq_refl Hstale) as Hx.
        cbn [app] in Hx. rewrite !audit_value_cons in Hx. exact Hx.
      * pose proof (has_preferred_stale [a] a stale eq_refl Hstale) as Hx.
        unfold has_preferred in *. simpl in Hx. rewrite orb_false_r in Hx.
        rewrite <-orb_assoc. by rewrite Hx.
    + change (last (a :: b :: rest)) with (last (b :: rest)) in Hstale.
      destruct (last_cons_Some b rest) as [z Hz]. by rewrite Hz in *.
  - intros st' (H1 & H2 & H3). simpl in *. split_and!.
    + rewrite H1, filter_cons, (decide_True (P := removed external a = false)) by done.
      rewrite <-(assoc_L (++)). f_equal. destruct external; [|done]. simpl.
      unfold removed in Ha. apply orb_false_iff in Ha as [_ Ha]. simpl in Ha. by rewrite Ha.
    + by rewrite H2, audit_value_cons.
    + rewrite H3. unfold has_preferred. simpl. by rewrite orb_assoc.
Qed.

(** A deleted element: the loop moves on by two. *)
Lemma step_delete external kine cap n done a b todo stale spare st :
  deletable (flag_name a) = true → special external b = false →
  at_index cap done (a :: b :: todo) stale spare st →
  stale_ok external (a :: b :: todo) stale st →
  length done + length (a :: b :: todo) + length stale = n →
  ∃ z st1, args_loop external kine (Slice 0 0 n cap) (length (a :: b :: todo) + length stale)
             (length done) st
         = args_loop external kine (Slice 0 0 n cap) (length todo + length (z :: stale))
             (length (done ++ [b])) st1 ∧
    at_index cap (done ++ [b]) todo (z :: stale) spare st1 ∧ stale_ok external todo (z :: stale) st1 ∧
    (∀ st', finished external kine (done ++ [b]) todo st1 st' →
            finished external kine done (a :: b :: todo) st st').
Proof.
  intros Hd Hb Hat Hstale Hn. destruct (last_cons_Some b todo) as [z Hz].
  destruct (at_index_delete _ _ _ _ _ _ _ _ _ Hat Hz) as (hs & Hdel & Hat').
  exists z, (with_args st hs). split; [|split; [done|split; [by eapply stale_ok_delete|]]].
  - cbn [length Nat.add args_loop]. rewrite (at_index_read _ _ _ _ _ _ _ _ Hat Hn).
    cbn [mbind option_bind]. unfold loop_body. fold (flag_name a). rewrite Hd, Hdel.
    cbn [fmap option_fmap option_map mbind option_bind].
    rewrite length_app. simpl. rewrite Nat.add_1_r, <-Nat.add_succ_comm. done.
  - destruct (not_special_props _ _ Hb) as (Hrb & Hba & Hbp).
    assert (flag_name a ≠ etcd_servers ∧ flag_name a ≠ audit_log_path ∧ flag_name a ≠ preferred_types)
      as (Ha1 & Ha2 & Ha3) by (split_and!; intros Hx; by rewrite Hx in Hd).
    intros st' (H1 & H2 & H3). cbn [with_args l_auditLogFile l_found] in *. split_and!.
    + rewrite H1, !filter_cons.
      rewrite (decide_False (P := removed external a = false)) by (unfold removed; by rewrite Hd).
      rewrite (decide_True (P := removed external b = false)) by done.
      rewrite <-(assoc_L (++)). f_equal. destruct external; [|done]. simpl.
      rewrite (bool_decide_false _ Ha1). unfold removed in Hrb.
      apply orb_false_iff in Hrb as [_ Hrb]. simpl in Hrb. by rewrite Hrb.
    + by rewrite H2, !audit_value_cons, !decide_False.
    + rewrite H3. unfold has_preferred. simpl. by rewrite !bool_decide_false.
Qed.

Lemma etcd_last_skip external a b todo :
  deletable (flag_name a) = true → special external b = false →
  etcd_last external (a :: b :: todo) = etcd_last external todo.
Proof.
  intros Hd (Hb & _ & _)%not_special_props. cbn [etcd_last].
  unfold removed in Hb. apply orb_false_iff in Hb as [_ ->].
  rewrite bool_decide_false by (intros Hx; by rewrite Hx in Hd). by rewrite andb_false_r.
Qed.

Lemma args_loop_spec external kine cap todo done stale spare n st :
  at_index cap done todo stale spare st → stale_ok external todo stale st →
  length done + length todo + length stale = n →
  spaced external todo = true → etcd_last external todo = true →
  ∃ st', args_loop external kine (Slice 0 0 n cap) (length todo + length stale) (length done) st
         = Some st' ∧ finished external kine done todo st st'.
Proof.
  remember (length todo) as len eqn:Hlen. revert todo done stale st Hlen.
  induction (lt_wf len) as [len _ IH]. intros todo done stale st -> Hat Hstale Hn Hsp He.
  destruct todo as [|a rest].
  { destruct Hstale as (Hk & Ha & Hf). pose proof Hat as (Hs & _ & _).
    destruct (loop_after_prepend external kine cap n done [] stale spare st "")
      as (st' & E & Hs' & Ha' & Hau & Hfo); [by rewrite Hs|done|done|by right|].
    exists st'. split; [done|]. unfold finished. rewrite Hs', Ha', Hau, Hfo.
    rewrite (at_index_contents _ _ _ _ _ _ Hat). simpl. by rewrite andb_false_r. }
  destruct (removed external a) eqn:Hr.
  - destruct (spaced_removed _ _ _ Hr Hsp) as (b & todo & -> & Hb & Hsp').
    destruct (removed_cases _ _ Hr) as [Hd|(Hd & -> & Hae)].
    + destruct (step_delete _ kine _ _ _ _ _ _ _ _ _ Hd Hb Hat Hstale Hn)
        as (z & st1 & -> & Hat' & Hst' & Hfin).
      edestruct (IH (length todo)) as (st' & E & Hf); [simpl; lia|done|exact Hat'|exact Hst'| |
        exact Hsp'|by rewrite <-(etcd_last_skip external a b)|].
      { rewrite length_app. simpl in *. lia. }
      exists st'. split; [exact E|]. by apply Hfin.
    + cbn [etcd_last] in He. rewrite (bool_decide_true _ Hae) in He.
      destruct (loop_etcd kine cap n done a b todo stale spare st) as (hs & st' & Hdel & E & Hfin);
        [done..|]. exists st'. split; [|done].
      cbn [length Nat.add args_loop]. rewrite (at_index_read _ _ _ _ _ _ _ _ Hat) by done.
      cbn [mbind option_bind]. unfold loop_body. fold (flag_name a). rewrite Hd.
      rewrite decide_True by done. rewrite Hdel. exact E.
  - destruct (step_keep _ kine _ _ _ _ _ _ _ _ Hr Hat Hstale Hn) as (st1 & -> & Hat' & Hst' & Hfin).
    edestruct (IH (length rest)) as (st' & E & Hf); [simpl; lia|done|exact Hat'|exact Hst'|..].
    { rewrite length_app. simpl in *. lia. }
    { cbn [spaced] in Hsp. by rewrite Hr in Hsp. }
    { cbn [etcd_last] in He. unfold removed in Hr. apply orb_false_iff in Hr as [_ Hr].
      by rewrite Hr in He. }
    exists st'. split; [|by apply Hfin]. rewrite <-E. f_equal. rewrite length_app. simpl. lia.
Qed.

(** C35: The flag loop does what it is for whenever every flag it removes is
    followed by one it has no interest in and, with an external database, nothing
    is to be removed after --etcd-servers: the two flags unknown upstream are
    gone, --etcd-servers is replaced by the kine socket at the front, all other
    arguments keep their order, and the audit log path and the presence of the
    preferred address types are read off correctly.  It never panics then. *)
Theorem filter_args_correct external kine args spare :
  spaced external args = true → etcd_last external args = true →
  filter_args external kine args spare =
  Some (expected_args external kine args, audit_value "" args, has_preferred args).
Proof.
  intros Hsp He. unfold filter_args.
  edestruct (args_loop_spec external kine (length args + length spare) args [] [] spare (length args)
    {| l_store := [args ++ spare]; l_args := Slice 0 0 (length args) (length args + length spare);
       l_auditLogFile := ""; l_found := false |}) as (st' & E & H1 & H2 & H3); [..|done|done|].
  - unfold at_index. simpl. split_and!; [done..|lia].
  - unfold stale_ok. destruct (last args); [constructor|]. by split_and!; [constructor|..].
  - simpl. lia.
  - rewrite Nat.add_0_r in E. simpl in E. rewrite E. simpl. by rewrite H1, H2, H3.
Qed.

Definition k3s_args : list string :=
  ["--advertise-address=10.0.0.1"; "--advertise-port=6443"; "--allow-privileged=true";
   "--audit-log-path=/var/log/audit.log"; "--etcd-servers=https://127.0.0.1:2379"; "--profiling=false"].

Lemma filter_args_correct_witness :
  filter_args true "/var/kine.sock" k3s_args ["spare"] =
  Some (["--etcd-servers=unixs:///var/kine.sock"; "--advertise-address=10.0.0.1";
         "--allow-privileged=true"; "--audit-log-path=/var/log/audit.log"; "--profiling=false"],
        "/var/log/audit.log", false).
Proof.
  rewrite (filter_args_correct true "/var/kine.sock" k3s_args ["spare"]);
    [reflexivity|vm_compute; reflexivity|vm_compute; reflexivity].
Defined.

(** *** Outside that condition *)



(** The loop on a list, up to the first removed flag [d] that follows [pre]. *)
Definition start (args spare : list string) : loop_state :=
  {| l_store := [args ++ spare]; l_args := Slice 0 0 (length args) (length args + length spare);
     l_auditLogFile := ""; l_found := false |}.













