(* ===== verification/StaticPod.v ===== *)
(** * StaticPod: the handlers of pkg/executor/staticpod/staticpod.go

    [StaticPodConfig] is the receiver of the handlers; its field
    [AuditPolicyFile] is assigned by [APIServer], so that handler returns the
    new receiver.  What Go reads from package globals or the process
    ([cmds.ServerConfig.APIServerPort], [cmds.AgentConfig.EnableSELinux],
    [os.Environ], the random numbers of [os.MkdirTemp]) is the record [Globals].
    YAML, JSON, MD5 and the etcd configuration writer are library code
    ([ExecLib]).  A handler that calls [podtemplate.After] returns the
    specification to be written once the channel closes; ExecutorSteps.v puts
    the handlers together. *)

From S2P Require Import Prelude GoStrings GoSlice GoPath GoFS Images PodConfig PodSpec PodTemplate.
From S2P Require Import ManifestFile ApiServerArgs.

Inductive ProfileMode := ProfileModeNone | ProfileModeCIS | ProfileModeETCD.

#[export] Instance ProfileMode_eq_dec : EqDecision ProfileMode.
Proof. solve_decision. Defined.

Definition isAnyMode (c : ProfileMode) : bool := bool_decide (c ≠ ProfileModeNone).
Definition isCISMode (c : ProfileMode) : bool := bool_decide (c = ProfileModeCIS).

Definition ContainerdSock := "/run/k3s/containerd/containerd.sock".

(** [config.DefaultPodManifestPath] of k3s. *)
Definition DefaultPodManifestPath := "pod-manifests".

Definition PodManifestsDir (dataDir : string) : string :=
  filepath_Join [dataDir; "agent"; DefaultPodManifestPath].

Definition kineSock (dataDir : string) : string := filepath_Join [dataDir; "server"; "kine.sock"].
Definition etcdNameFile (dataDir : string) : string :=
  filepath_Join [dataDir; "server"; "db"; "etcd"; "name"].

Definition SSLDirs : list string :=
  ["/etc/ssl/certs"; "/etc/pki/tls/certs"; "/etc/ca-certificates";
   "/usr/local/share/ca-certificates"; "/usr/share/ca-certificates"].
Definition DefaultAuditPolicyFile := "/etc/rancher/rke2/audit-policy.yaml".

Record CloudProviderConfig := { cp_Name : string; cp_Path : string }.

Record Trust := { CertFile : string; KeyFile : string; TrustedCAFile : string }.
Definition trust_files (t : Trust) : list string := [CertFile t; KeyFile t; TrustedCAFile t].

(** [executor.ETCDConfig] of k3s, the fields used here; the initial options are
    the value given to [json.Marshal]. *)
Record ETCDConfig (Opts : Type) := {
  ec_InitialOptions : Opts;
  ec_DataDir : string;
  ec_ServerTrust : Trust;
  ec_PeerTrust : Trust;
  ec_ForceNewCluster : bool
}.
Arguments ec_InitialOptions {Opts} _.
Arguments ec_DataDir {Opts} _.
Arguments ec_ServerTrust {Opts} _.
Arguments ec_PeerTrust {Opts} _.
Arguments ec_ForceNewCluster {Opts} _.

Class ExecLib `{PodLib} := {
  (** [yaml.Marshal] and [yaml.Unmarshal] of a pod *)
  yaml_Marshal : pod → result string;
  yaml_Unmarshal : string → result pod;
  (** hex MD5 of [DeepHashObject(pod)] followed by the text "file:<path>" *)
  pod_md5 : pod → string → string;
  (** [executor.InitialOptions] and its JSON form *)
  InitialOptions : Type;
  zero_options : InitialOptions;
  json_Marshal : InitialOptions → result string;
  json_Decode : string → result InitialOptions;
  (** [ETCDConfig.ToConfigFile]: writes the etcd configuration, returns its path *)
  ToConfigFile : ETCDConfig InitialOptions → list string → io string;
  (** [user.Lookup("etcd")]: the numeric uid and gid as text *)
  user_Lookup : string → result (string * string)
}.

Record Globals := {
  g_APIServerPort : Z;
  g_EnableSELinux : bool;
  g_Environ : list string;
  g_rnd : nat → N;
  g_tries : nat;
  (** the YAML text of the default audit policy *)
  g_policy : result string
}.

Definition permitPortSharingFlag : list string := ["--permit-port-sharing=true"].

(** Ownership is not part of a [node]: [os.Chown] may fail and changes nothing
    the model shows. *)
Definition os_Chown (p : string) (uid gid : Z) : io unit :=
  syscall (λ t, (match t !! Clean p with Some _ => Ok () | None => Err ErrNotExist end, []))
          no_partial.

(** [chownr]: every node below the path, in lexical order as [filepath.Walk]
    visits them. *)
Definition walk (p : string) : io (list string) :=
  syscall (λ t, (match t !! Clean p with
                 | Some _ => Ok (sort_Strings (map_to_list (filter (λ kv, under (Clean p) kv.1 = true) t)).*1)
                 | None => Err ErrNotExist
                 end, [])) no_partial.

Fixpoint for_each {A} (f : A → io unit) (l : list A) : io unit :=
  match l with [] => mret () | x :: l' => f x;; for_each f l' end.

Definition chownr (path : string) (uid gid : Z) : io unit :=
  names ← walk path;
  for_each (λ name, os_Chown name uid gid) names.

Section executor.
Context `{NameApi} `{ExecLib} (defaults : Defaults).

Record StaticPodConfig := {
  x_Config : Config;
  x_CloudProvider : option CloudProviderConfig;
  x_ManifestsDir : string;
  x_AuditPolicyFile : string;
  x_PSAConfigFile : string;
  x_ProfileMode : ProfileMode;
  x_DisableETCD : bool;
  x_ExternalDatabase : bool
}.

Definition x_DataDir (s : StaticPodConfig) : string := cfg_DataDir (x_Config s).

Definition set_AuditPolicyFile (p : string) (s : StaticPodConfig) : StaticPodConfig := {|
  x_Config := x_Config s; x_CloudProvider := x_CloudProvider s;
  x_ManifestsDir := x_ManifestsDir s; x_AuditPolicyFile := p;
  x_PSAConfigFile := x_PSAConfigFile s; x_ProfileMode := x_ProfileMode s;
  x_DisableETCD := x_DisableETCD s; x_ExternalDatabase := x_ExternalDatabase s |}.

(** [spec.SecurityContext] with SELinux options of the given type unless it has
    some already. *)
Definition with_selinux (enable : bool) (type : string) (spec : Spec) : Spec :=
  if enable then
    let ctx := default empty_context (SecurityContext spec) in
    set_SecurityContext
      (Some {| RunAsUser := RunAsUser ctx; RunAsGroup := RunAsGroup ctx;
               SELinuxOptions := Some (default type (SELinuxOptions ctx)) |}) spec
  else spec.

Definition manifest_path (s : StaticPodConfig) (command : string) : string :=
  filepath_Join [x_ManifestsDir s; command +:+ ".yaml"].

Definition writeTemplate (g : Globals) (s : StaticPodConfig) (spec : option Spec) : io unit :=
  match spec with
  | None => mret ()
  | Some spec =>
      let spec := with_selinux (g_EnableSELinux g) "rke2_service_t" spec in
      files ← io_with_message ("failed to read files for pod " +:+ Command spec)
                (ReadFiles (Args spec) (ExcludeFiles spec));
      let spec := set_Files (Files spec ++ files) spec in
      p ← io_with_message ("failed to generate pod template for " +:+ Command spec)
            (Pod (g_Environ g) (Some spec));
      match p with
      | None => mret ()
      | Some p =>
          let manifestPath := manifest_path s (Command spec) in
          let p := set_UID (pod_md5 p manifestPath) p in
          match yaml_Marshal p with
          | Err e => io_fail e
          | Ok b =>
              if isAnyMode (x_ProfileMode s)
              then writeFile (g_rnd g) (g_tries g) manifestPath b 384
              else writeFile (g_rnd g) (g_tries g) manifestPath b 420
          end
      end
  end.

(** [KubeProxy] *)
Definition KubeProxy (g : Globals) (s : StaticPodConfig) (args : list string) : io unit :=
  podSpec ← spec_KubeProxy defaults (x_Config s) args;
  writeTemplate g s (Some (set_HostNetwork true (set_Privileged true podSpec))).

(** The part of [APIServer] from the audit policy on. *)
Definition audit_args (g : Globals) (s : StaticPodConfig) (args : list string)
    (auditLogFile : string) : io (list string * string) :=
  if decide (x_AuditPolicyFile s ≠ "") then
    WriteDefaultPolicyFile (g_policy g) (x_AuditPolicyFile s);;
    let extraArgs := ["--audit-policy-file=" +:+ x_AuditPolicyFile s; "--audit-log-maxage=30";
                      "--audit-log-maxbackup=10"; "--audit-log-maxsize=100"] in
    if decide (auditLogFile = "") then
      let auditLogFile := filepath_Join [x_DataDir s; "server/logs/audit.log"] in
      mret ((extraArgs ++ ["--audit-log-path=" +:+ auditLogFile]) ++ args, auditLogFile)
    else mret (extraArgs ++ args, auditLogFile)
  else mret (args, auditLogFile).

Definition apiServer_spec (g : Globals) (s : StaticPodConfig) (args : list string)
    (auditLogFile : string) : io Spec :=
  aa ← audit_args g s args auditLogFile;
  let '(args, auditLogFile) := aa in
  let args := ("--admission-control-config-file=" +:+ x_PSAConfigFile s) :: args in
  let files := if x_DisableETCD s then [] else [etcdNameFile (x_DataDir s)] in
  dirs ← OnlyExisting SSLDirs;
  let '(dirs, excludeFiles) :=
    if decide (auditLogFile ≠ "" ∧ auditLogFile ≠ "-")
    then (dirs ++ [filepath_Dir auditLogFile], [auditLogFile])
    else (dirs, []) in
  let dirs := dirs ++ [filepath_Join [x_DataDir s; "server"]] in
  let excludeFiles :=
    excludeFiles ++ [filepath_Join [x_DataDir s; "server/cred/encryption-config.json"]] in
  podSpec ← spec_APIServer defaults (x_Config s) (g_APIServerPort g) args;
  mret (set_HostNetwork true (set_ExcludeFiles excludeFiles (set_Dirs dirs (set_Files files podSpec)))).

(** [APIServer]: the new receiver, and the specification to be written once
    etcd is ready. [spare] is what lies beyond [args] in its array. *)
Definition APIServer (g : Globals) (s : StaticPodConfig) (args spare : list string)
    : io (StaticPodConfig * result Spec) :=
  rm ← attempt (removeTemplate (x_ManifestsDir s) "kube-apiserver");
  match rm with
  | Err e => mret (s, Err e)
  | Ok _ =>
      match filter_args (x_ExternalDatabase s) (kineSock (x_DataDir s)) args spare with
      | None => mret (s, Err (ErrPanic "slice bounds out of range"))
      | Some (args, auditLogFile, kubeletPreferredAddressTypesFound) =>
          let args := if (kubeletPreferredAddressTypesFound : bool) then args
            else "--kubelet-preferred-address-types=InternalIP,ExternalIP,Hostname" :: args in
          let '(s, args) :=
            if isCISMode (x_ProfileMode s) then
              (if decide (x_AuditPolicyFile s = "")
               then set_AuditPolicyFile DefaultAuditPolicyFile s else s,
               "--service-account-extend-token-expiration=false" :: args)
            else (s, args) in
          spec ← attempt (apiServer_spec g s args auditLogFile);
          mret (s, spec)
      end
  end.

(** [Scheduler], [ControllerManager] and [CloudControllerManager]: the
    specification to be written once the channel closes. *)
Definition Scheduler (s : StaticPodConfig) (args : list string) : io Spec :=
  let files := if x_DisableETCD s then [] else [etcdNameFile (x_DataDir s)] in
  podSpec ← spec_Scheduler defaults (x_Config s) (permitPortSharingFlag ++ args);
  mret (set_HostNetwork true (set_Files files podSpec)).

Definition ControllerManager (s : StaticPodConfig) (args : list string) : io Spec :=
  let args := match x_CloudProvider s with
              | Some cp => ["--cloud-provider=" +:+ cp_Name cp; "--cloud-config=" +:+ cp_Path cp] ++ args
              | None => args
              end in
  let extraArgs := ["--flex-volume-plugin-dir=/var/lib/kubelet/volumeplugins";
                    "--terminated-pod-gc-threshold=1000"] in
  let args := permitPortSharingFlag ++ extraArgs ++ args in
  let files := if x_DisableETCD s then [] else [etcdNameFile (x_DataDir s)] in
  podSpec ← spec_ControllerManager defaults (x_Config s) args;
  dirs ← OnlyExisting SSLDirs;
  mret (set_HostNetwork true (set_Dirs dirs (set_Files files podSpec))).

Definition CloudControllerManager (s : StaticPodConfig) (args : list string) : io Spec :=
  podSpec ← spec_CloudControllerManager defaults (x_Config s) args;
  dirs ← OnlyExisting SSLDirs;
  mret (set_HostNetwork true (set_Dirs dirs podSpec)).

Definition lift {A} (r : result A) : io A :=
  match r with Ok a => mret a | Err e => io_fail e end.

Definition parse_id (s : string) : result Z :=
  match ParseInt 64 s with Some z => Ok z | None => Err (ErrMsg ("invalid syntax: " +:+ s)) end.

(** The user and group of [ETCD] in a hardened profile, and the change of
    ownership of what it mounts. *)
Definition etcd_user (s : StaticPodConfig) (podSpec : Spec) : io Spec :=
  if isAnyMode (x_ProfileMode s) then
    etcdUser ← lift (user_Lookup "etcd");
    uid ← lift (parse_id etcdUser.1);
    gid ← lift (parse_id etcdUser.2);
    let ctx := default empty_context (SecurityContext podSpec) in
    for_each (λ p, chownr p uid gid) (Dirs podSpec ++ Files podSpec);;
    mret (set_SecurityContext
            (Some {| RunAsUser := Some uid; RunAsGroup := Some gid;
                     SELinuxOptions := SELinuxOptions ctx |}) podSpec)
  else mret podSpec.

(** [ETCD]; [args = None] is the no-op start. *)
Definition ETCD (g : Globals) (s : StaticPodConfig) (args : option (ETCDConfig InitialOptions))
    (extraArgs : list string) : io unit :=
  match args with
  | None => mret ()
  | Some args =>
      initial ← lift (json_Marshal (ec_InitialOptions args));
      confFile ← ToConfigFile args extraArgs;
      podSpec ← spec_ETCD defaults (x_Config s) ["--config-file=" +:+ confFile];
      let podSpec := set_Annotations {["etcd.k3s.io/initial" := initial]} podSpec in
      let podSpec := set_Dirs [ec_DataDir args] podSpec in
      let podSpec := set_Files (trust_files (ec_ServerTrust args) ++ trust_files (ec_PeerTrust args)) podSpec in
      let podSpec := set_HostNetwork true podSpec in
      podSpec ← etcd_user s podSpec;
      writeTemplate g s (Some (with_selinux (g_EnableSELinux g) "rke2_service_db_t" podSpec))
  end.

(** [CurrentETCDOptions]; a read error other than a missing file leaves no
    bytes to decode, and is not reported. *)
Definition CurrentETCDOptions (s : StaticPodConfig) : io InitialOptions :=
  r ← attempt (os_ReadFile (filepath_Join [x_ManifestsDir s; "etcd.yaml"]));
  match r with
  | Err e => if os_IsNotExist e then mret zero_options
             else pod ← lift (yaml_Unmarshal "");
                  match pod_Annotations pod !! "etcd.k3s.io/initial" with
                  | Some v => lift (json_Decode v)
                  | None => mret zero_options
                  end
  | Ok bytes =>
      pod ← lift (yaml_Unmarshal bytes);
      match pod_Annotations pod !! "etcd.k3s.io/initial" with
      | Some v => lift (json_Decode v)
      | None => mret zero_options
      end
  end.
End executor.

(** ** What [writeTemplate] puts on disk *)

Section write.
Context `{NameApi} `{ExecLib} (defaults : Defaults).
Implicit Types (spec : Spec) (p : pod).

(** [p] is the static pod of [spec], to be stored at [path]: the metadata the
    kubelet, the sandbox check and the cleanup select it by, a UID that is the
    hash of the rest and of the path, and volumes that match their mounts. *)
Definition manifest_of spec (path : string) p : Prop :=
  pod_Name p = Command spec ∧ pod_Namespace p = "kube-system" ∧
  pod_Labels p !! "component" = Some (Command spec) ∧
  pod_Labels p !! "tier" = Some "control-plane" ∧
  pod_Annotations p = Annotations spec ∧ c_Args p = Args spec ∧
  pod_UID p = pod_md5 (set_UID "" p) path ∧
  NoDup (vol_Name <$> pod_Volumes p) ∧
  vm_Name <$> c_VolumeMounts p = vol_Name <$> pod_Volumes p.

Lemma set_UID_twice u v p : set_UID u (set_UID v p) = set_UID u p.
Proof. done. Qed.
Lemma set_UID_id p : set_UID (pod_UID p) p = p.
Proof. by destruct p. Qed.

Lemma Pod_manifest environ spec path flt s p :
  (Pod environ (Some spec) flt s).1 = Ok (Some p) →
  manifest_of spec path (set_UID (pod_md5 p path) p).
Proof.
  pose proof (Pod_extends environ spec flt s) as Hp. intros E.
  destruct (Pod environ (Some spec) flt s) as [r s']; simpl in E; subst.
  destruct Hp as (_ & cs & types & _ & _ & _ & Hv & Hm & Hfix).
  injection Hfix as _ _ _ Hn Hns Hu Hl Ha _ _ Hargs _ _ _ _.
  unfold manifest_of. rewrite set_UID_twice.
  assert (set_UID "" p = p) as -> by (rewrite <-Hu; apply set_UID_id).
  simpl in *. rewrite Hn, Hns, Hl, Ha, Hargs, Hv, Hm. split_and!; try done.
  - apply NoDup_all_names.
  - apply mount_names, all_mounts_named.
Qed.

Section atomic.
Context (g : Globals) (s : StaticPodConfig) (spec : Spec) (cs : list string) (d : string).
Context (Hcs : Forall (λ c, simple c = true) cs) (Hd : simple d = true).
Context (Hdir : x_ManifestsDir s = mkpath (cs ++ [d])).
Context (Hcmd : simple (Command spec +:+ ".yaml") = true).

Let name := Command spec +:+ ".yaml".
Let dest := mkpath ((cs ++ [d]) ++ [name]).

(** The manifest is the old one or a complete manifest of [spec], and no other
    entry of the directory has moved. *)
Definition sees_manifest (t0 t : tree) : Prop :=
  (t !! dest = t0 !! dest ∨
   ∃ p b q, t !! dest = Some (NFile b q) ∧ yaml_Marshal p = Ok b ∧ manifest_of spec dest p) ∧
  ∀ q, under (mkpath (cs ++ [d])) q = true → q ≠ mkpath (cs ++ [d]) → q ≠ dest → t !! q = t0 !! q.

Lemma manifest_path_eq : manifest_path s (Command spec) = dest.
Proof. unfold manifest_path. rewrite Hdir. apply filepath_Join_mkpath; [apply Forall_app; auto|done]. Qed.

Lemma old_or_new_sees content t0 t p :
  yaml_Marshal p = Ok content → manifest_of spec dest p →
  old_or_new cs d name content t0 t → sees_manifest t0 t.
Proof. intros Hy Hm [[Ho|[q Hq]] Hother]; (split; [|exact Hother]); [by left|right]. eauto 10. Qed.

Lemma writeTemplate_write t0 p content perm :
  yaml_Marshal p = Ok content → manifest_of spec dest p →
  triple (λ t, t = t0) (writeFile (g_rnd g) (g_tries g) dest content perm)
    (λ r t, sees_manifest t0 t ∧ (r = Ok () → ∃ p b q,
       t !! dest = Some (NFile b q) ∧ yaml_Marshal p = Ok b ∧ manifest_of spec dest p))
    (sees_manifest t0).
Proof.
  intros Hy Hm.
  eapply triple_weaken; [apply (writeFile_triple (g_rnd g) (g_tries g) cs d name content perm Hcs Hd Hcmd t0)
    |done| |].
  - intros r t [Ho Hr]. split; [by eapply old_or_new_sees|].
    intros Hok. destruct (Hr Hok) as [q Hq]. eauto 10.
  - intros t. by eapply old_or_new_sees.
Qed.

(** Under every schedule of failing system calls, and at every moment, the
    component's manifest is either what it was or the complete YAML of a pod
    of this specification, and no other entry of the directory is touched.
    When [writeTemplate] reports success the new manifest is in place. *)
Lemma writeTemplate_triple t0 :
  triple (λ t, t = t0) (writeTemplate g s (Some spec))
    (λ r t, sees_manifest t0 t ∧ (r = Ok () → ∃ p b q,
       t !! dest = Some (NFile b q) ∧ yaml_Marshal p = Ok b ∧ manifest_of spec dest p))
    (sees_manifest t0).
Proof.
  assert (sees_manifest t0 t0) as Hrefl by (split; [by left|done]).
  unfold writeTemplate.
  set (spec1 := with_selinux (g_EnableSELinux g) "rke2_service_t" spec).
  assert (Command spec1 = Command spec ∧ Args spec1 = Args spec ∧
          Annotations spec1 = Annotations spec) as (Hc1 & Ha1 & Hn1)
    by (unfold spec1, with_selinux; by destruct (g_EnableSELinux g)).
  apply (triple_bind _ _ _ (λ _ t, t = t0)).
  { apply triple_readonly; [auto with readonly|]. intros flt st ->.
    by destruct (io_with_message _ _ _ _).1. }
  intros files. set (spec2 := set_Files (Files spec1 ++ files) spec1).
  apply (triple_bind _ _ _ (λ po t, t = t0 ∧ ∃ p', po = Some p' ∧
    manifest_of spec dest (set_UID (pod_md5 p' dest) p'))).
  { apply triple_readonly; [auto with readonly|]. intros flt st ->. unfold io_with_message.
    pose proof (Pod_extends (g_Environ g) spec2 flt st) as Hx.
    destruct (Pod (g_Environ g) (Some spec2) flt st) as [[[p'|]|e] st'] eqn:E; simpl;
      [|by destruct Hx|done].
    split; [done|]. exists p'. split; [done|].
    assert (manifest_of spec2 dest (set_UID (pod_md5 p' dest) p')) as Hm
      by (eapply Pod_manifest; by rewrite E).
    unfold manifest_of in *. unfold spec2 in Hm. simpl in Hm. by rewrite Hc1, Ha1, Hn1 in Hm. }
  intros po flt st (Hst & p' & -> & Hm).
  assert (manifest_path s (Command spec2) = dest) as ->
    by (change (Command spec2) with (Command spec1); rewrite Hc1; apply manifest_path_eq).
  destruct (yaml_Marshal (set_UID (pod_md5 p' dest) p')) as [b|e] eqn:Hy.
  - destruct (isAnyMode (x_ProfileMode s)); by apply (writeTemplate_write t0 _ _ _ Hy Hm).
  - cbn. rewrite Hst. split; [done|]. by exists [].
Qed.
End atomic.
End write.
