(* ===== verification/ExecutorSteps.v ===== *)
(** * ExecutorSteps: the static pod executor as a transition system

    k3s calls the handlers of [StaticPodConfig] in an order of its own, the
    readiness channels close when their conditions come true, and a goroutine
    started by [podtemplate.After] writes its manifest some time after its
    channel has closed.  The step relation interleaves all of these in every
    possible way, with an arbitrary fault schedule per step; the theorems are
    invariants of the reachable states. *)

From S2P Require Import Prelude GoStrings GoSlice GoPath GoFS GoTree Images PodConfig PodSpec PodTemplate.
From S2P Require Import ManifestFile ApiServerArgs StaticPod.

(** ** Programs that leave a directory alone *)

(** The paths inside the directory [mkpath md]. *)
Definition inside (md : list string) (q : string) : Prop :=
  under (mkpath md) q = true ∧ q ≠ mkpath md.

(** Nothing inside the directory differs. *)
Abbreviation same_dir md := (same_on (inside md)).

Abbreviation outside md := (spares (inside md)).

Section outside.
Context (md : list string) (Hmd : Forall (λ c, simple c = true) md) (Hne : md ≠ []).

Lemma not_inside cs :
  Forall (λ c, simple c = true) cs → ¬ md `prefix_of` cs → ¬ inside md (mkpath cs).
Proof. intros Hcs Hn [Hu _]. by apply under_mkpath in Hu. Qed.

Lemma not_inside_ancestors cs q :
  Forall (λ c, simple c = true) cs → ¬ md `prefix_of` cs → q ∈ ancestors (mkpath cs) →
  ¬ inside md q.
Proof.
  intros Hcs Hn (ds & Hp & _ & ->)%elem_of_ancestors; [|done]. apply not_inside.
  - destruct Hp as [l ->]. by apply Forall_app in Hcs as [Hds _].
  - intros Hx. apply Hn. by trans ds.
Qed.

Lemma outside_MkdirAll cs :
  Forall (λ c, simple c = true) cs → ¬ md `prefix_of` cs → outside md (os_MkdirAll (mkpath cs)).
Proof. intros Hcs Hn. apply spares_MkdirAll. intros q. by apply not_inside_ancestors. Qed.
End outside.

(** ** The transition system *)

Inductive chan := apiServerReady | etcdReady | ccmRBACReady.

#[export] Instance chan_eq_dec : EqDecision chan.
Proof. solve_decision. Defined.

(** The channel whose closing a component's manifest waits for. *)
Definition waits_for (command : string) : option chan :=
  if decide (command = "kube-apiserver") then Some etcdReady
  else if decide (command = "kube-scheduler" ∨ command = "kube-controller-manager")
       then Some apiServerReady
  else if decide (command = "cloud-controller-manager") then Some ccmRBACReady
  else None.

(** A failing call does not claim that a file it could not look at is missing. *)
Definition honest (flt : faults) : Prop :=
  ∀ n e k, flt n = Some (e, k) → errors_Is_ErrNotExist e = false.

Section steps.
Context `{NameApi} `{ExecLib} (defaults : Defaults) (g : Globals).

Record exec := Exec {
  e_cfg : StaticPodConfig;
  e_fs : fs;
  e_closed : list chan;
  e_pending : list (chan * Spec);
  (** every attempt to write a manifest, with the channels closed by then *)
  e_written : list (string * list chan);
  e_dead : bool
}.

Inductive call :=
  | CallAPIServer (args spare : list string)
  | CallScheduler (args : list string)
  | CallControllerManager (args : list string)
  | CallCloudControllerManager (args : list string)
  | CallKubeProxy (args : list string)
  | CallETCD (args : option (ETCDConfig InitialOptions)) (extraArgs : list string).

(** [podtemplate.After(ch, writeTemplate)] once the specification is made. *)
Definition defer (ch : chan) (m : io Spec) (flt : faults) (x : exec) : exec :=
  let '(r, f) := m flt (e_fs x) in
  Exec (e_cfg x) f (e_closed x)
    match r with Ok spec => (ch, spec) :: e_pending x | Err _ => e_pending x end
    (e_written x) (e_dead x).

Definition write_now (command : string) (m : io unit) (flt : faults) (x : exec) : exec :=
  let '(_, f) := m flt (e_fs x) in
  Exec (e_cfg x) f (e_closed x) (e_pending x) ((command, e_closed x) :: e_written x) (e_dead x).

Definition do_call (c : call) (flt : faults) (x : exec) : exec :=
  match c with
  | CallAPIServer args spare =>
      let '(r, f) := APIServer defaults g (e_cfg x) args spare flt (e_fs x) in
      match r with
      | Ok (cfg, Ok spec) =>
          Exec cfg f (e_closed x) ((etcdReady, spec) :: e_pending x) (e_written x) (e_dead x)
      | Ok (cfg, Err (ErrPanic _)) =>
          Exec cfg f (e_closed x) (e_pending x) (e_written x) true
      | Ok (cfg, Err _) => Exec cfg f (e_closed x) (e_pending x) (e_written x) (e_dead x)
      | Err _ => Exec (e_cfg x) f (e_closed x) (e_pending x) (e_written x) (e_dead x)
      end
  | CallScheduler args => defer apiServerReady (Scheduler defaults (e_cfg x) args) flt x
  | CallControllerManager args =>
      defer apiServerReady (ControllerManager defaults (e_cfg x) args) flt x
  | CallCloudControllerManager args =>
      defer ccmRBACReady (CloudControllerManager defaults (e_cfg x) args) flt x
  | CallKubeProxy args => write_now "kube-proxy" (KubeProxy defaults g (e_cfg x) args) flt x
  | CallETCD args extraArgs => write_now "etcd" (ETCD defaults g (e_cfg x) args extraArgs) flt x
  end.

(** One step, when k3s makes only calls that it may make. *)
Inductive step_by (may : call → Prop) : exec → exec → Prop :=
  | step_call c flt x :
      may c → e_dead x = false → honest flt → step_by may x (do_call c flt x)
  | step_close ch x :
      e_dead x = false → ch ∉ e_closed x →
      step_by may x (Exec (e_cfg x) (e_fs x) (ch :: e_closed x) (e_pending x) (e_written x) (e_dead x))
  | step_fire ch spec pre post flt x r f :
      e_dead x = false → honest flt →
      e_pending x = pre ++ (ch, spec) :: post → ch ∈ e_closed x →
      writeTemplate g (e_cfg x) (Some spec) flt (e_fs x) = (r, f) →
      step_by may x (Exec (e_cfg x) f (e_closed x) (pre ++ post)
                ((Command spec, e_closed x) :: e_written x)
                (negb (is_Ok r))).

Definition step : exec → exec → Prop := step_by (λ _, True).

Lemma step_by_step may x x' : step_by may x x' → step x x'.
Proof. destruct 1; [by constructor..|by eapply step_fire]. Qed.

(** A freshly bootstrapped executor. *)
Definition initial (x : exec) : Prop :=
  e_closed x = [] ∧ e_pending x = [] ∧ e_written x = [] ∧ e_dead x = false.

Definition steps := rtc step.

(** *** The order of manifests *)

Lemma Scheduler_Command s args flt st spec st' :
  Scheduler defaults s args flt st = (Ok spec, st') → Command spec = "kube-scheduler".
Proof.
  intros (sp & s1 & (image & s2 & _ & [= <- _])%io_bind_Ok & [= <- _])%io_bind_Ok. done.
Qed.

Lemma ControllerManager_Command s args flt st spec st' :
  ControllerManager defaults s args flt st = (Ok spec, st') →
  Command spec = "kube-controller-manager".
Proof.
  intros (sp & s1 & (image & s2 & _ & [= <- _])%io_bind_Ok & (dirs & s3 & _ & [= <- _])%io_bind_Ok)
    %io_bind_Ok. done.
Qed.

Lemma CloudControllerManager_Command s args flt st spec st' :
  CloudControllerManager defaults s args flt st = (Ok spec, st') →
  Command spec = "cloud-controller-manager".
Proof.
  intros (sp & s1 & (image & s2 & _ & [= <- _])%io_bind_Ok & (dirs & s3 & _ & [= <- _])%io_bind_Ok)
    %io_bind_Ok. done.
Qed.

Lemma apiServer_spec_Command s args audit flt st spec st' :
  apiServer_spec defaults g s args audit flt st = (Ok spec, st') → Command spec = "kube-apiserver".
Proof.
  unfold apiServer_spec. intros ([args' audit'] & s1 & _ & (dirs & s2 & _ & Hrest)%io_bind_Ok)%io_bind_Ok.
  destruct (decide (audit' ≠ "" ∧ audit' ≠ "-"));
    apply io_bind_Ok in Hrest as (sp & s3 & (image & s4 & _ & [= <- _])%io_bind_Ok & [= <- _]); done.
Qed.

Lemma APIServer_Command s args spare flt st cfg spec st' :
  APIServer defaults g s args spare flt st = (Ok (cfg, Ok spec), st') →
  Command spec = "kube-apiserver".
Proof.
  unfold APIServer. intros (rm & s1 & _ & Hrest)%io_bind_Ok. destruct rm; [|done].
  destruct (filter_args _ _ _ _) as [[[args' audit] found]|]; [|done].
  assert (∀ cfg0 l, ((sp ← attempt (apiServer_spec defaults g cfg0 l audit); mret (cfg0, sp)) : io _)
    flt s1 = (Ok (cfg, Ok spec), st') → Command spec = "kube-apiserver") as Hx.
  { intros cfg0 l (sp & s2 & Hsp & [= _ -> _])%io_bind_Ok. unfold attempt in Hsp.
    destruct (apiServer_spec defaults g cfg0 l audit flt s1) as [r s3] eqn:E. simplify_eq.
    by eapply apiServer_spec_Command. }
  destruct (isCISMode (x_ProfileMode s)); apply Hx in Hrest; done.
Qed.

(** What the pending list and the log satisfy in every reachable state. *)
Definition ordered (x : exec) : Prop :=
  Forall (λ cs, waits_for (Command cs.2) = Some cs.1) (e_pending x) ∧
  Forall (λ w, match waits_for w.1 with Some ch => ch ∈ w.2 | None => True end) (e_written x).

Lemma ordered_defer ch m flt x :
  (∀ spec s', m flt (e_fs x) = (Ok spec, s') → waits_for (Command spec) = Some ch) →
  ordered x → ordered (defer ch m flt x).
Proof.
  intros Hm [Hp Hw]. unfold defer. destruct (m flt (e_fs x)) as [[spec|e] f]; [|by split].
  split; [|done]. constructor; [|done]. by eapply Hm.
Qed.

Lemma ordered_write_now command m flt x :
  waits_for command = None → ordered x → ordered (write_now command m flt x).
Proof.
  intros Hc [Hp Hw]. unfold write_now. destruct (m flt (e_fs x)). split; [done|].
  constructor; [|done]. simpl. by rewrite Hc.
Qed.

Lemma ordered_step x x' : step x x' → ordered x → ordered x'.
Proof.
  intros Hs Ho. destruct Hs as [c flt x _ _ _|ch x _ _|ch spec pre post flt x r f _ _ Hpend Hch _].
  - destruct c; cbn [do_call].
    + destruct (APIServer _ _ _ _ _ _ _) as [[[cfg [spec|e]]|e] f] eqn:E; [|destruct e; done|done].
      destruct Ho as [Hp Hw]. split; [|done]. constructor; [|done].
      apply APIServer_Command in E. simpl. by rewrite E.
    + apply ordered_defer; [|done]. intros spec s' E%Scheduler_Command. by rewrite E.
    + apply ordered_defer; [|done]. intros spec s' E%ControllerManager_Command. by rewrite E.
    + apply ordered_defer; [|done]. intros spec s' E%CloudControllerManager_Command. by rewrite E.
    + by apply ordered_write_now.
    + by apply ordered_write_now.
  - exact Ho.
  - destruct Ho as [Hp Hw]. rewrite Hpend in Hp. apply Forall_app in Hp as [Hp1 Hp2].
    apply Forall_cons in Hp2 as [Hc Hp2]. split; [by apply Forall_app|].
    constructor; [|done]. simpl in *. by rewrite Hc.
Qed.

Lemma ordered_steps x x' : steps x x' → ordered x → ordered x'.
Proof. induction 1; [done|]. intros. eauto using ordered_step. Qed.

(** However the calls of k3s, the closing of the readiness channels and the
    waiting goroutines interleave, no manifest is written early: kube-apiserver
    only after etcd is ready, kube-scheduler and kube-controller-manager only
    after the apiserver is, cloud-controller-manager only after its RBAC is in
    place; only etcd and kube-proxy are written without waiting. *)
Theorem manifests_in_order x0 x command closed :
  initial x0 → steps x0 x → (command, closed) ∈ e_written x →
  match waits_for command with
  | Some ch => ch ∈ closed
  | None => command ≠ "kube-apiserver" ∧ command ≠ "kube-scheduler" ∧
            command ≠ "kube-controller-manager" ∧ command ≠ "cloud-controller-manager"
  end.
Proof.
  intros (_ & Hp & Hw & _) Hsteps Hin.
  assert (ordered x) as [_ Ho].
  { eapply ordered_steps; [done|]. unfold ordered. rewrite Hp, Hw. by split. }
  rewrite Forall_forall in Ho. specialize (Ho _ Hin). simpl in Ho.
  destruct (waits_for command) eqn:E; [done|].
  split_and!; intros ->; vm_compute in E; discriminate E.
Qed.
End steps.

(** What is documented of the serialisation libraries: a pod's annotations survive
    YAML, and decoding JSON inverts encoding. *)
Class ExecLaws `{ExecLib} := {
  yaml_roundtrip p b : yaml_Marshal p = Ok b →
    ∃ p', yaml_Unmarshal b = Ok p' ∧ pod_Annotations p' = pod_Annotations p;
  json_roundtrip o j : json_Marshal o = Ok j → json_Decode j = Ok o
}.

(** ** The manifests directory *)

Definition manifests (ds : list string) : list string := (ds ++ ["agent"]) ++ [DefaultPodManifestPath].

Definition manifest_file (ds : list string) (command : string) : string :=
  mkpath (manifests ds ++ [command +:+ ".yaml"]).

Section files.
Context `{NameApi} `{ExecLib} (defaults : Defaults) (g : Globals).
Context (ds : list string).

Abbreviation md := (manifests ds).
Abbreviation dest := (manifest_file ds).

(** Where things are: data, images and manifests under one data directory, as
    [initStaticPodExecutor] sets them up, and an audit policy file that is not
    inside the manifests directory. *)
Definition policy_ok (path : string) : Prop :=
  path = "" ∨ ∃ ps pn, path = mkpath (ps ++ [pn]) ∧ Forall (λ c, simple c = true) (ps ++ [pn]) ∧
                       ¬ md `prefix_of` ps ++ [pn].

Record layout (s : StaticPodConfig) : Prop := {
  lay_ds : Forall (λ c, simple c = true) ds;
  lay_images : cfg_ImagesDir (x_Config s) = mkpath (ds ++ ["agent"; "images"]);
  lay_manifests : x_ManifestsDir s = mkpath md;
  lay_policy : policy_ok (x_AuditPolicyFile s)
}.

Context (Hds : Forall (λ c, simple c = true) ds).
(** The etcd configuration writer of k3s spares out of the manifests directory. *)
Context (Hconf : ∀ args extra, outside md (ToConfigFile args extra)).

Lemma simple_md : Forall (λ c, simple c = true) md.
Proof. unfold manifests. repeat (apply Forall_app; split); auto. Qed.
Lemma md_ne : md ≠ [].
Proof. apply snoc_ne. Qed.

Lemma images_not_prefix : ¬ md `prefix_of` ds ++ ["agent"; "images"].
Proof.
  unfold manifests. rewrite <-(assoc_L (++)). intros Hp%prefix_app_inv.
  apply prefix_cons_inv_2 in Hp. by apply prefix_cons_inv_1 in Hp.
Qed.

Lemma images_file_not_prefix n : ¬ md `prefix_of` (ds ++ ["agent"; "images"]) ++ [n].
Proof.
  unfold manifests. rewrite <-!(assoc_L (++)). intros Hp%prefix_app_inv.
  apply prefix_cons_inv_2 in Hp. by apply prefix_cons_inv_1 in Hp.
Qed.

Lemma outside_resolveAndPull s i :
  layout s → simple (i +:+ ".txt") = true → outside md (resolveAndPull defaults (x_Config s) i).
Proof.
  intros Hl Hi. unfold resolveAndPull. destruct (GetReference _ _ _ _) as [image|e]; [|auto with spares].
  destruct (decide _); [|auto with spares]. apply spares_bind; [|intros; apply spares_ret].
  rewrite (lay_images s) by done.
  assert (Forall (λ c, simple c = true) (ds ++ ["agent"; "images"])) as Hs
    by (apply Forall_app; auto).
  assert (Forall (λ c, simple c = true) ((ds ++ ["agent"; "images"]) ++ [i +:+ ".txt"])) as Hs'
    by (apply Forall_app; auto).
  apply spares_Pull.
  - intros q. apply not_inside_ancestors; auto using simple_md, md_ne, images_not_prefix.
  - rewrite filepath_Join_mkpath, Clean_mkpath by done.
    apply not_inside; auto using simple_md, md_ne, images_file_not_prefix.
Qed.

Lemma outside_spec_of comp s port args :
  layout s → outside md (spec_of defaults comp (x_Config s) port args).
Proof.
  intros Hl. destruct comp; cbn [spec_of];
    (apply spares_bind; [apply outside_resolveAndPull; done|intros; apply spares_ret]).
Qed.

Lemma outside_policy policy path :
  policy_ok path → path ≠ "" → outside md (WriteDefaultPolicyFile policy path).
Proof.
  intros [->|(ps & pn & -> & Hs & Hn)] Hpath; [done|].
  unfold WriteDefaultPolicyFile. destruct policy as [bytes|e]; [|apply spares_fail].
  pose proof Hs as [Hps Hpn]%Forall_app. rewrite Forall_singleton in Hpn.
  assert (¬ (under (mkpath md) (Clean (mkpath (ps ++ [pn]))) = true ∧
             Clean (mkpath (ps ++ [pn])) ≠ mkpath md)) as Hin.
  { rewrite Clean_mkpath by done. apply not_inside; auto using simple_md, md_ne. }
  unfold writeIfNotExists. rewrite filepath_Dir_mkpath by done.
  apply spares_bind; [|intros _; apply spares_bind; [|intros [|e]]].
  - apply outside_MkdirAll; auto using simple_md, md_ne.
    intros Hx. apply Hn. by apply prefix_app_r.
  - by apply spares_attempt, spares_CreateExcl.
  - by apply spares_WriteOpen.
  - destruct (os_IsExist e); auto with spares.
Qed.

Lemma outside_apiServer_spec s args audit :
  layout s → outside md (apiServer_spec defaults g s args audit).
Proof.
  intros Hl. unfold apiServer_spec, audit_args. apply spares_bind.
  - destruct (decide (x_AuditPolicyFile s ≠ "")); [|apply spares_ret].
    apply spares_bind; [apply outside_policy; [apply Hl|done]|].
    intros _. destruct (decide (audit = "")); apply spares_ret.
  - intros [args' audit']. apply spares_bind; [apply spares_readonly; auto with readonly|].
    intros dirs. destruct (decide (audit' ≠ "" ∧ audit' ≠ "-"));
      (apply spares_bind; [by apply (outside_spec_of CKubeAPIServer)|intros; apply spares_ret]).
Qed.

Lemma layout_audit s : layout s → layout (set_AuditPolicyFile DefaultAuditPolicyFile s).
Proof.
  intros [? ? ? ?]. split; try done. right.
  exists ["etc"; "rancher"; "rke2"], "audit-policy.yaml". split; [done|]. split; [by repeat constructor|].
  intros [k Hk]. assert (DefaultPodManifestPath ∈ ["etc"; "rancher"; "rke2"; "audit-policy.yaml"]) as Hin.
  { change (["etc"; "rancher"; "rke2"] ++ ["audit-policy.yaml"])
      with ["etc"; "rancher"; "rke2"; "audit-policy.yaml"] in Hk.
    rewrite Hk. unfold manifests. apply elem_of_app. left. apply elem_of_app. right. by left. }
  apply (bool_decide_eq_true_2 _) in Hin. vm_compute in Hin. discriminate Hin.
Qed.

Lemma dest_inside command : under (mkpath md) (dest command) = true ∧ dest command ≠ mkpath md.
Proof.
  split; [apply dest_under|]. unfold manifest_file. rewrite mkpath_snoc by apply md_ne.
  intros Heq. apply (f_equal Len) in Heq. rewrite !Len_app in Heq. simpl in Heq. lia.
Qed.

(** *** Invariants of the tree *)

(** [P] holds afterwards and of every tree passed through. *)
Definition leads (P : tree → Prop) (st st' : fs) : Prop :=
  P (nodes st') ∧ ∃ ts, hist st' = ts ++ hist st ∧ Forall P ts.

Lemma leads_refl P st : P (nodes st) → leads P st st.
Proof. intros HP. split; [done|]. by exists []. Qed.

Lemma leads_trans P st1 st2 st3 : leads P st1 st2 → leads P st2 st3 → leads P st1 st3.
Proof.
  intros (_ & ts1 & E1 & F1) (HP & ts2 & E2 & F2). split; [done|].
  exists (ts2 ++ ts1). rewrite E2, E1. split; [by rewrite (assoc_L (++))|]. by apply Forall_app.
Qed.

Lemma leads_outside {A} (m : io A) P flt st :
  outside md m → (∀ t t', same_dir md t t' → P t → P t') → P (nodes st) →
  leads P st (m flt st).2.
Proof.
  intros Hm Hstab HP. destruct (Hm (nodes st) flt st) as (Hn & ts & Hh & Hts); [by intros q|].
  split; [by eapply Hstab|]. exists ts. split; [done|].
  eapply Forall_impl; [exact Hts|]. intros t Ht. by eapply Hstab.
Qed.

Lemma leads_write spec cfg P flt st :
  layout cfg → simple (Command spec +:+ ".yaml") = true →
  (∀ t', sees_manifest spec (ds ++ ["agent"]) DefaultPodManifestPath (nodes st) t' → P t') →
  leads P st (writeTemplate g cfg (Some spec) flt st).2.
Proof.
  intros Hl Hs Hstab.
  destruct (writeTemplate_triple g cfg spec (ds ++ ["agent"]) DefaultPodManifestPath) with (nodes st) flt st
    as ((Hn & _) & ts & Hh & Hts); [by apply Forall_app; auto|done|apply Hl|done|done|].
  split; [by apply Hstab|]. exists ts. split; [done|]. by eapply Forall_impl.
Qed.

Lemma Join_dest cfg command :
  layout cfg → simple (command +:+ ".yaml") = true →
  filepath_Join [x_ManifestsDir cfg; command +:+ ".yaml"] = dest command.
Proof.
  intros Hl Hs. rewrite (lay_manifests cfg) by done. by rewrite filepath_Join_mkpath by (done || apply simple_md).
Qed.

Lemma Clean_dest_file command : simple (command +:+ ".yaml") = true → Clean (dest command) = dest command.
Proof. intros. apply Clean_mkpath, Forall_app. split; [apply simple_md|auto]. Qed.

Lemma removeTemplate_leads cfg command P flt st :
  layout cfg → simple (command +:+ ".yaml") = true → honest flt →
  (∀ t, P t → P (delete (dest command) t)) → P (nodes st) →
  let '(r, st') := removeTemplate (x_ManifestsDir cfg) command flt st in
  leads P st st' ∧ (r = Ok () → nodes st' !! dest command = None).
Proof.
  intros Hl Hs Hflt Hdel HP. unfold removeTemplate, mbind, io_bind, attempt.
  rewrite (Join_dest cfg) by done. unfold os_Remove, syscall. rewrite Clean_dest_file by done.
  destruct (flt (clock st)) as [[e k]|] eqn:Ef.
  { apply Hflt in Ef. destruct k; simpl; rewrite Ef; by split; [apply (leads_refl P (MkFS _ _ _))|]. }
  destruct (nodes st !! dest command) as [n|] eqn:E; simpl.
  - destruct (decide _); simpl.
    + split; [|intros _; apply lookup_delete_eq]. split; [by apply Hdel|].
      exists [delete (dest command) (nodes st)]. simpl. split; [done|]. constructor; [by apply Hdel|done].
    + by split; [apply (leads_refl P (MkFS _ _ _))|].
  - split; [apply (leads_refl P (MkFS _ _ _)); done|done].
Qed.

Lemma waits_for_simple command ch :
  waits_for command = Some ch → simple (command +:+ ".yaml") = true.
Proof.
  unfold waits_for. destruct (decide (command = "kube-apiserver")) as [->|]; [done|].
  destruct (decide _) as [[->| ->]|]; [done..|]. destruct (decide _) as [->|]; done.
Qed.

(** An assertion about the manifests that no step breaks, as long as only
    manifests of [allowed] commands are written. *)
Record stable (P : tree → Prop) (allowed : string → Prop) : Prop := {
  st_same : ∀ t t', same_dir md t t' → P t → P t';
  st_delete : ∀ t, P t → P (delete (dest "kube-apiserver") t);
  st_write : ∀ spec t t', allowed (Command spec) → simple (Command spec +:+ ".yaml") = true →
    sees_manifest spec (ds ++ ["agent"]) DefaultPodManifestPath t t' → P t → P t'
}.

Lemma outside_Scheduler cfg args : layout cfg → outside md (Scheduler defaults cfg args).
Proof.
  intros Hl. apply spares_bind; [by apply (outside_spec_of CKubeScheduler _ 0)|].
  intros; apply spares_ret.
Qed.
Lemma outside_ControllerManager cfg args : layout cfg → outside md (ControllerManager defaults cfg args).
Proof.
  intros Hl. apply spares_bind; [by apply (outside_spec_of CKubeControllerManager _ 0)|].
  intros; apply spares_bind; [apply spares_readonly; auto with readonly|intros; apply spares_ret].
Qed.
Lemma outside_CloudControllerManager cfg args :
  layout cfg → outside md (CloudControllerManager defaults cfg args).
Proof.
  intros Hl. apply spares_bind; [by apply (outside_spec_of CCloudControllerManager _ 0)|].
  intros; apply spares_bind; [apply spares_readonly; auto with readonly|intros; apply spares_ret].
Qed.

Lemma readonly_for_each {A} (f : A → io unit) l : (∀ x, readonly (f x)) → readonly (for_each f l).
Proof. intros Hf. induction l; cbn [for_each]; [|apply readonly_bind]; auto with readonly. Qed.

Lemma readonly_chownr path uid gid : readonly (chownr path uid gid).
Proof.
  apply readonly_bind; [apply readonly_query|]. intros names. apply readonly_for_each.
  intros x. apply readonly_query.
Qed.

Lemma readonly_lift {A} (r : result A) : readonly (lift r).
Proof. destruct r; simpl; auto with readonly. Qed.

Lemma readonly_etcd_user cfg spec : readonly (etcd_user cfg spec).
Proof.
  unfold etcd_user. destruct (isAnyMode _); [|auto with readonly].
  repeat (apply readonly_bind; [apply readonly_lift|intros]).
  apply readonly_bind; [|auto with readonly]. apply readonly_for_each. intros. apply readonly_chownr.
Qed.

(** A program followed by the writing of a manifest of a known command. *)
Lemma leads_then_write {A} (m : io A) (f : A → Spec) cfg command P allowed flt st :
  stable P allowed → layout cfg → allowed command → simple (command +:+ ".yaml") = true →
  outside md m → P (nodes st) →
  (∀ flt st a st', m flt st = (Ok a, st') → Command (f a) = command) →
  leads P st ((a ← m; writeTemplate g cfg (Some (f a))) flt st).2.
Proof.
  intros HP Hl Hal Hs Hm Hst Hf. unfold mbind, io_bind.
  pose proof (leads_outside m P flt st Hm (st_same _ _ HP) Hst) as H1'.
  destruct (m flt st) as [[a|e] st1] eqn:E; simpl in *; [|done].
  apply Hf in E. eapply leads_trans; [done|]. apply leads_write; [done|by rewrite E|].
  intros t' Ht'. apply (st_write _ _ HP (f a) (nodes st1) t'); [by rewrite E..|done|apply H1'].
Qed.

Lemma KubeProxy_leads cfg args P allowed flt st :
  stable P allowed → layout cfg → allowed "kube-proxy" → P (nodes st) →
  leads P st (KubeProxy defaults g cfg args flt st).2.
Proof.
  intros HP Hl Hal Hst. unfold KubeProxy.
  apply (leads_then_write (spec_KubeProxy defaults (x_Config cfg) args)
    (λ sp, set_HostNetwork true (set_Privileged true sp)) cfg "kube-proxy" P allowed);
    [done|done|done|done|by apply (outside_spec_of CKubeProxy _ 0)|done|].
  by intros flt' st1 a st' (image & s2 & _ & [= <- _])%io_bind_Ok.
Qed.

(** The specification [ETCD] arrives at. *)
Definition etcd_prepare (cfg : StaticPodConfig) (args : ETCDConfig InitialOptions)
    (extraArgs : list string) : io Spec :=
  initial ← lift (json_Marshal (ec_InitialOptions args));
  confFile ← ToConfigFile args extraArgs;
  podSpec ← spec_ETCD defaults (x_Config cfg) ["--config-file=" +:+ confFile];
  etcd_user cfg (set_HostNetwork true (set_Files
    (trust_files (ec_ServerTrust args) ++ trust_files (ec_PeerTrust args))
    (set_Dirs [ec_DataDir args] (set_Annotations {["etcd.k3s.io/initial" := initial]} podSpec)))).

Lemma io_bind_assoc {A B C} (m : io A) (k1 : A → io B) (k2 : B → io C) flt st :
  ((m ≫= k1) ≫= k2) flt st = (m ≫= (λ a, k1 a ≫= k2)) flt st.
Proof. unfold mbind, io_bind. by destruct (m flt st) as [[] ?]. Qed.

Lemma io_bind_ext {A B} (m : io A) (k1 k2 : A → io B) flt st :
  (∀ a flt st, k1 a flt st = k2 a flt st) → (m ≫= k1) flt st = (m ≫= k2) flt st.
Proof. intros Hk. unfold mbind, io_bind. destruct (m flt st) as [[] ?]; [apply Hk|done]. Qed.

Lemma ETCD_prepare cfg args extraArgs flt st :
  ETCD defaults g cfg (Some args) extraArgs flt st =
  (spec ← etcd_prepare cfg args extraArgs;
   writeTemplate g cfg (Some (with_selinux (g_EnableSELinux g) "rke2_service_db_t" spec))) flt st.
Proof.
  unfold ETCD, etcd_prepare. rewrite io_bind_assoc. apply io_bind_ext. intros initial flt1 st1.
  rewrite io_bind_assoc. apply io_bind_ext. intros conf flt2 st2.
  by rewrite io_bind_assoc.
Qed.

Lemma etcd_user_fields cfg spec flt st spec' st' :
  etcd_user cfg spec flt st = (Ok spec', st') →
  Command spec' = Command spec ∧ Annotations spec' = Annotations spec.
Proof.
  unfold etcd_user. destruct (isAnyMode _); [|by intros [= <- _]].
  intros (? & ? & _ & (? & ? & _ & (? & ? & _ & (? & ? & _ & [= <- _])%io_bind_Ok)%io_bind_Ok)
    %io_bind_Ok)%io_bind_Ok. done.
Qed.

Lemma etcd_prepare_fields cfg args extraArgs flt st spec st' :
  etcd_prepare cfg args extraArgs flt st = (Ok spec, st') →
  Command spec = "etcd" ∧
  ∃ j, json_Marshal (ec_InitialOptions args) = Ok j ∧
       Annotations spec = {["etcd.k3s.io/initial" := j]}.
Proof.
  intros (j & ? & Hj & (? & ? & _ & (? & ? & (image & ? & _ & [= <- _])%io_bind_Ok &
    [Hc Ha]%etcd_user_fields)%io_bind_Ok)%io_bind_Ok)%io_bind_Ok.
  split; [done|]. exists j. split; [|done].
  destruct (json_Marshal (ec_InitialOptions args)); [by injection Hj as -> _|done].
Qed.

Lemma with_selinux_fields enable type spec :
  Command (with_selinux enable type spec) = Command spec ∧
  Annotations (with_selinux enable type spec) = Annotations spec.
Proof. unfold with_selinux. by destruct enable. Qed.

Lemma outside_etcd_prepare cfg args extraArgs :
  layout cfg → outside md (etcd_prepare cfg args extraArgs).
Proof.
  intros Hl. apply spares_bind; [apply spares_readonly, readonly_lift|intros j].
  apply spares_bind; [apply Hconf|intros conf].
  apply spares_bind; [by apply (outside_spec_of CEtcd _ 0)|intros sp].
  apply spares_readonly, readonly_etcd_user.
Qed.

Lemma ETCD_leads cfg args extraArgs P allowed flt st :
  stable P allowed → layout cfg → allowed "etcd" → P (nodes st) →
  leads P st (ETCD defaults g cfg args extraArgs flt st).2.
Proof.
  intros HP Hl Hal Hst. destruct args as [args|]; [|by apply leads_refl].
  rewrite ETCD_prepare.
  apply (leads_then_write _ (with_selinux (g_EnableSELinux g) "rke2_service_db_t") cfg "etcd" P allowed);
    [done|done|done|done|by apply outside_etcd_prepare|done|].
  intros flt' st1 a st' [Hc _]%etcd_prepare_fields.
  by rewrite (proj1 (with_selinux_fields _ _ _)).
Qed.

Lemma APIServer_leads cfg args spare P allowed flt st :
  stable P allowed → layout cfg → honest flt → P (nodes st) →
  let '(r, st') := APIServer defaults g cfg args spare flt st in
  leads P st st' ∧
  ∃ cfg' r', r = Ok (cfg', r') ∧ layout cfg' ∧
    (∀ spec, r' = Ok spec → nodes st' !! dest "kube-apiserver" = None).
Proof.
  intros HP Hl Hflt Hst. unfold APIServer, mbind, io_bind. unfold attempt at 1.
  pose proof (removeTemplate_leads cfg "kube-apiserver" P flt st Hl eq_refl Hflt (st_delete _ _ HP) Hst)
    as Hrm.
  destruct (removeTemplate (x_ManifestsDir cfg) "kube-apiserver" flt st) as [[[]|e] st1];
    destruct Hrm as [Hlead Habs]; simpl; [|by split; [|eexists _, _]].
  specialize (Habs eq_refl).
  destruct (filter_args _ _ _ _) as [[[args' audit] found]|]; [|by split; [|eexists _, _]].
  assert (∀ cfg0 l, layout cfg0 →
    let '(r, st') := ((sp ← attempt (apiServer_spec defaults g cfg0 l audit); mret (cfg0, sp)) : io _) flt st1 in
    leads P st st' ∧ ∃ cfg' r', r = Ok (cfg', r') ∧ layout cfg' ∧
    (∀ spec, r' = Ok spec → nodes st' !! dest "kube-apiserver" = None)) as Hspec.
  { intros cfg0 l Hl0. unfold mbind, io_bind, attempt.
    pose proof (leads_outside (apiServer_spec defaults g cfg0 l audit) P flt st1
      (outside_apiServer_spec _ _ _ Hl0) (st_same _ _ HP) (proj1 Hlead)) as Hlead2.
    pose proof (leads_outside (apiServer_spec defaults g cfg0 l audit)
      (λ t, t !! dest "kube-apiserver" = None) flt st1 (outside_apiServer_spec _ _ _ Hl0)) as Habs2.
    destruct (apiServer_spec defaults g cfg0 l audit flt st1) as [r st']. simpl in *.
    split; [by eapply leads_trans|]. eexists cfg0, r. split_and!; [done..|].
    intros _ _. apply Habs2; [|done]. intros t t' Hsame Ht. rewrite Hsame; [done|]. apply dest_inside. }
  destruct (isCISMode (x_ProfileMode cfg)); apply Hspec; [|done].
  destruct (decide (x_AuditPolicyFile cfg = "")); [by apply layout_audit|done].
Qed.

(** *** Every step *)

Lemma defer_leads ch m flt x P :
  leads P (e_fs x) (m flt (e_fs x)).2 → leads P (e_fs x) (e_fs (defer ch m flt x)).
Proof. unfold defer. by destruct (m flt (e_fs x)). Qed.
Lemma write_now_leads command m flt x P :
  leads P (e_fs x) (m flt (e_fs x)).2 → leads P (e_fs x) (e_fs (write_now command m flt x)).
Proof. unfold write_now. by destruct (m flt (e_fs x)). Qed.
Lemma defer_cfg ch m flt x : e_cfg (defer ch m flt x) = e_cfg x.
Proof. unfold defer. by destruct (m flt (e_fs x)). Qed.
Lemma write_now_cfg command m flt x : e_cfg (write_now command m flt x) = e_cfg x.
Proof. unfold write_now. by destruct (m flt (e_fs x)). Qed.

Lemma defer_written ch m flt x : e_written (defer ch m flt x) = e_written x.
Proof. unfold defer. by destruct (m flt (e_fs x)). Qed.
Lemma write_now_written command m flt x :
  e_written (write_now command m flt x) = (command, e_closed x) :: e_written x.
Proof. unfold write_now. by destruct (m flt (e_fs x)). Qed.

(** What a step writes, it logs. *)
Lemma written_step x x' :
  step defaults g x x' → e_written x' = e_written x ∨ ∃ w, e_written x' = w :: e_written x.
Proof.
  intros Hs. destruct Hs as [c flt x _ _ _|ch x _ _|ch spec pre post flt x r f _ _ _ _ _];
    [|by left|by right; eexists].
  destruct c; cbn [do_call]; rewrite ?defer_written, ?write_now_written; eauto.
  by destruct (APIServer _ _ _ _ _ _ _) as [[[cfg [spec|[]]]|e] f]; left.
Qed.

Lemma step_leads P allowed x x' :
  stable P allowed → step defaults g x x' → layout (e_cfg x) → ordered x → P (nodes (e_fs x)) →
  (∀ w, e_written x' = w :: e_written x → allowed w.1) →
  leads P (e_fs x) (e_fs x') ∧ layout (e_cfg x').
Proof.
  intros HP Hs Hl [Hp _] Hst Hal.
  destruct Hs as [c flt x _ _ Hflt|ch x _ _|ch spec pre post flt x r f _ _ Hpend Hch Hw].
  - destruct c as [args spare|args|args|args|args|args extra]; cbn [do_call];
      rewrite ?defer_cfg, ?write_now_cfg.
    + pose proof (APIServer_leads (e_cfg x) args spare P allowed flt (e_fs x) HP Hl Hflt Hst) as Hx.
      destruct (APIServer _ _ _ _ _ _ _) as [r f]. destruct Hx as (Hlead & cfg' & r' & -> & Hl' & _).
      destruct r' as [spec|[]]; simpl; done.
    + split; [|done]. apply defer_leads, leads_outside; [by apply outside_Scheduler|apply HP|done].
    + split; [|done]. apply defer_leads, leads_outside; [by apply outside_ControllerManager|apply HP|done].
    + split; [|done]. apply defer_leads, leads_outside; [by apply outside_CloudControllerManager|apply HP|done].
    + split; [|done]. apply write_now_leads. eapply KubeProxy_leads; [done|done| |done].
      apply (Hal ("kube-proxy", e_closed x)), write_now_written.
    + split; [|done]. apply write_now_leads. eapply ETCD_leads; [done|done| |done].
      apply (Hal ("etcd", e_closed x)), write_now_written.
  - split; [by apply leads_refl|done].
  - split; [|done]. simpl. change f with (r, f).2. rewrite <-Hw.
    assert ((ch, spec) ∈ e_pending x) as Hin by (rewrite Hpend; set_solver).
    rewrite Forall_forall in Hp. specialize (Hp _ Hin). simpl in Hp.
    apply leads_write; [done|by eapply waits_for_simple|].
    intros t' Ht'. eapply (st_write _ _ HP spec);
      [by apply (Hal (Command spec, e_closed x))|by eapply waits_for_simple|done|done].
Qed.

(** *** Complete manifests *)

(** The manifest of [command] is what it was at the start, or is gone, or is the
    complete YAML of a static pod for that command. *)
Definition complete (t0 : tree) (command : string) (t : tree) : Prop :=
  t !! dest command = t0 !! dest command ∨ t !! dest command = None ∨
  ∃ spec p b q, t !! dest command = Some (NFile b q) ∧ yaml_Marshal p = Ok b ∧
    Command spec = command ∧ manifest_of spec (dest command) p.

Lemma complete_stable t0 command : stable (complete t0 command) (λ _, True).
Proof.
  split.
  - intros t t' Hs. unfold complete. by rewrite (Hs _ (dest_inside command)).
  - intros t Ht. unfold complete. destruct (decide (dest command = dest "kube-apiserver")) as [->|Hne].
    + right. left. apply lookup_delete_eq.
    + by rewrite lookup_delete_ne by done.
  - intros spec t t' _ Hs [Hd Ho] Ht. unfold complete.
    destruct (decide (dest command = dest (Command spec))) as [Heq|Hne].
    + destruct (decide (Command spec = command)) as [Hc|Hc].
      * subst command. destruct Hd as [Hd|(p & b & q & Hd & Hy & Hm)].
        -- change (t' !! dest (Command spec) = t !! dest (Command spec)) in Hd. by rewrite Hd.
        -- right. right. exists spec, p, b, q. done.
      * exfalso. unfold manifest_file in Heq. rewrite !mkpath_snoc in Heq by apply md_ne.
        apply (inj (String.append (mkpath md))), (inj (String.append "/")) in Heq.
        apply app_inj_r' in Heq. done.
    + rewrite Ho; [done|apply dest_inside|apply dest_inside|done].
Qed.

Lemma written_steps x x' : steps defaults g x x' → ∃ ws, e_written x' = ws ++ e_written x.
Proof.
  induction 1 as [|x y z Hxy _ [ws ->]]; [by exists []|].
  destruct (written_step _ _ Hxy) as [->|[w ->]]; [by exists ws|].
  exists (ws ++ [w]). by rewrite <-(assoc_L (++)).
Qed.

(** An assertion that writing [allowed] manifests does not break holds of every
    tree of a run that writes no other. *)
Lemma steps_leads P allowed x x' ws :
  stable P allowed → steps defaults g x x' → e_written x' = ws ++ e_written x →
  Forall (λ w, allowed w.1) ws → layout (e_cfg x) → ordered x → P (nodes (e_fs x)) →
  leads P (e_fs x) (e_fs x').
Proof.
  intros HP Hs. revert ws. induction Hs as [x|x y z Hxy Hyz IH]; intros ws Hws Hal Hl Ho Hst;
    [by apply leads_refl|].
  destruct (written_steps _ _ Hyz) as [ws' Hws'].
  assert (∀ w, e_written y = w :: e_written x → allowed w.1) as Hy.
  { intros w Hw. rewrite Forall_forall in Hal. apply Hal. rewrite Hws', Hw in Hws.
    change (w :: e_written x) with ([w] ++ e_written x) in Hws. rewrite (assoc_L (++)) in Hws.
    apply app_inj_2 in Hws as [<- _]; [|done]. set_solver. }
  assert (Forall (λ w, allowed w.1) ws') as Hal'.
  { destruct (written_step _ _ Hxy) as [Hw|[w Hw]]; rewrite Hws', Hw in Hws.
    - by apply app_inj_2 in Hws as [<- _].
    - change (w :: e_written x) with ([w] ++ e_written x) in Hws. rewrite (assoc_L (++)) in Hws.
      apply app_inj_2 in Hws as [<- _]; [|done]. by apply Forall_app in Hal as [? _]. }
  destruct (step_leads P allowed x y HP Hxy Hl Ho Hst Hy) as [Hlead Hl'].
  eapply leads_trans; [done|]. eapply IH; [done|done|done|by eapply ordered_step|apply Hlead].
Qed.

Lemma complete_leads x0 x command :
  initial x0 → layout (e_cfg x0) → steps defaults g x0 x →
  leads (complete (nodes (e_fs x0)) command) (e_fs x0) (e_fs x).
Proof.
  intros (_ & Hp & Hw & _) Hl Hs.
  destruct (written_steps _ _ Hs) as [ws Hws].
  apply (steps_leads _ _ x0 x ws (complete_stable (nodes (e_fs x0)) command) Hs Hws);
    [by apply Forall_true|done| |by left].
  unfold ordered. by rewrite Hp, Hw.
Qed.

(** C2: The kubelet never sees a half-written manifest.  Whatever k3s calls, in
    whatever order the channels close and the waiting writers run, and
    whichever system calls fail, every tree the file system passes through has,
    for every component, the manifest it started with, or no manifest, or the
    complete YAML of a pod for that component whose UID is the hash of its
    content and path. *)
Theorem manifests_always_complete x0 x command :
  initial x0 → layout (e_cfg x0) → steps defaults g x0 x →
  ∃ ts, hist (e_fs x) = ts ++ hist (e_fs x0) ∧
    Forall (complete (nodes (e_fs x0)) command) (nodes (e_fs x) :: ts).
Proof.
  intros Hi Hl Hs. destruct (complete_leads x0 x command Hi Hl Hs) as (HPx & ts & Hh & HF). exists ts. auto.
Qed.

(** *** No apiserver before etcd *)

Lemma defer_closed ch m flt x : e_closed (defer ch m flt x) = e_closed x.
Proof. unfold defer. by destruct (m flt (e_fs x)). Qed.
Lemma write_now_closed command m flt x : e_closed (write_now command m flt x) = e_closed x.
Proof. unfold write_now. by destruct (m flt (e_fs x)). Qed.

Lemma closed_step x x' : step defaults g x x' → ∀ ch, ch ∈ e_closed x → ch ∈ e_closed x'.
Proof.
  intros Hs ch. destruct Hs as [c flt x _ _ _|c x _ _|c spec pre post flt x r f _ _ _ _ _].
  - destruct c; cbn [do_call]; rewrite ?defer_closed, ?write_now_closed; try done.
    by destruct (APIServer _ _ _ _ _ _ _) as [[[cfg [spec|[]]]|e] f].
  - simpl. set_solver.
  - done.
Qed.

Lemma closed_steps x x' : steps defaults g x x' → ∀ ch, ch ∈ e_closed x → ch ∈ e_closed x'.
Proof. induction 1; [done|]. intros. eauto using closed_step. Qed.

(** The channels of the log are closed. *)
Definition closed_logged (x : exec) : Prop := Forall (λ w, ∀ ch, ch ∈ w.2 → ch ∈ e_closed x) (e_written x).

Lemma closed_logged_step x x' : step defaults g x x' → closed_logged x → closed_logged x'.
Proof.
  intros Hs Hlog. pose proof (closed_step _ _ Hs) as Hmono.
  assert (Forall (λ w, ∀ ch, ch ∈ w.2 → ch ∈ e_closed x') (e_written x)) as Hold.
  { eapply Forall_impl; [exact Hlog|]. eauto. }
  unfold closed_logged.
  destruct Hs as [c flt x _ _ _|ch x _ _|ch spec pre post flt x r f _ _ _ _ _]; [|done|by constructor].
  destruct c; cbn [do_call] in *; rewrite ?defer_written, ?write_now_written; try done;
    [|constructor; [by rewrite ?write_now_closed|done]..].
  by destruct (APIServer _ _ _ _ _ _ _) as [[[cfg [spec|[]]]|e] f].
Qed.

Lemma closed_logged_steps x x' : steps defaults g x x' → closed_logged x → closed_logged x'.
Proof. induction 1; eauto using closed_logged_step. Qed.

Lemma absent_stable command : stable (λ t, t !! dest command = None) (λ c, c ≠ command).
Proof.
  split.
  - intros t t' Hs Ht. by rewrite (Hs _ (dest_inside _)).
  - intros t Ht. apply lookup_delete_None. by right.
  - intros spec t t' Hne Hs [_ Ho] Ht. rewrite Ho; [done|apply dest_inside|apply dest_inside|].
    change (dest command ≠ dest (Command spec)). unfold manifest_file.
    rewrite !mkpath_snoc by apply md_ne. intros Heq.
    apply (inj (String.append (mkpath md))), (inj (String.append "/")), app_inj_r' in Heq. done.
Qed.

(** C5: Once [APIServer] has accepted its arguments, there is no kube-apiserver
    manifest, at any moment, until the etcd readiness channel is closed: a
    manifest left by an earlier run is gone and no other call or writer
    brings one back, however the steps interleave and whatever fails. *)
Theorem no_apiserver_before_etcd x0 x args spare flt x2 :
  initial x0 → layout (e_cfg x0) → steps defaults g x0 x → honest flt → e_dead x = false →
  let x1 := do_call defaults g (CallAPIServer args spare) flt x in
  length (e_pending x1) = S (length (e_pending x)) →
  steps defaults g x1 x2 → etcdReady ∉ e_closed x2 →
  ∃ ts, hist (e_fs x2) = ts ++ hist (e_fs x1) ∧
    Forall (λ t, t !! dest "kube-apiserver" = None) (nodes (e_fs x2) :: ts).
Proof.
  intros (_ & Hp & Hw & _) Hl Hs Hflt Hdead x1 Hlen Hs2 Hno.
  assert (ordered x0) as Ho by (unfold ordered; rewrite Hp, Hw; by split).
  assert (ordered x) as Hox by by eapply ordered_steps.
  assert (layout (e_cfg x)) as Hlx.
  { clear Hlen x1 Hs2 Hno Hdead Hox Hp Hw. induction Hs as [|x y z Hxy _ IH]; [done|].
    apply IH; [|by eapply ordered_step].
    eapply (step_leads (λ _, True) (λ _, True)); [by split|done..]. }
  assert (step defaults g x x1) as Hx1 by by apply step_call.
  assert (ordered x1) as Ho1 by by eapply ordered_step.
  assert (nodes (e_fs x1) !! dest "kube-apiserver" = None ∧ layout (e_cfg x1)) as [Habs Hl1].
  { unfold x1 in *. cbn [do_call] in *.
    assert (stable (λ _, True) (λ _, True)) as HT by by split.
    pose proof (APIServer_leads (e_cfg x) args spare _ _ flt (e_fs x) HT Hlx Hflt I) as Hx.
    destruct (APIServer _ _ _ _ _ _ _) as [r f]. destruct Hx as (_ & cfg' & r' & -> & Hl' & Habs).
    destruct r' as [spec|[]]; simpl in *; try lia. split; [by eapply Habs|done]. }
  destruct (written_steps _ _ Hs2) as [ws Hws].
  destruct (steps_leads _ _ x1 x2 ws (absent_stable "kube-apiserver") Hs2 Hws) as (HPx & ts & Hh & HF);
    [|done|done|done|exists ts; by auto].
  apply Forall_forall. intros [c closed] Hin Hc. simpl in Hc. subst c. apply Hno.
  assert (ordered x2) as [_ Hox2] by by eapply ordered_steps.
  assert (closed_logged x2) as Hlog by (eapply closed_logged_steps; [|eapply closed_logged_step;
    [|eapply closed_logged_steps]]; [exact Hs2|exact Hx1|exact Hs|]; unfold closed_logged; by rewrite Hw).
  unfold closed_logged in Hlog. rewrite Forall_forall in Hox2, Hlog. assert (("kube-apiserver", closed) ∈ e_written x2) as Hin2.
  { rewrite Hws. apply elem_of_app. by left. }
  specialize (Hox2 _ Hin2). specialize (Hlog _ Hin2). simpl in Hox2. by apply Hlog.
Qed.

(** *** The etcd options *)

(** C8: The initial options etcd was started with are read back from its static
    pod manifest: when [ETCD] reports success (whatever failed on the way),
    [CurrentETCDOptions] returns exactly those options for as long as the
    manifest stays. *)
Theorem etcd_options_roundtrip `{!ExecLaws} cfg args extraArgs flt st st' st2 :
  layout cfg →
  ETCD defaults g cfg (Some args) extraArgs flt st = (Ok (), st') →
  nodes st2 !! dest "etcd" = nodes st' !! dest "etcd" →
  (CurrentETCDOptions cfg no_faults st2).1 = Ok (ec_InitialOptions args).
Proof.
  intros Hl HE Hsame. rewrite ETCD_prepare in HE.
  apply io_bind_Ok in HE as (spec & st1 & (Hc & j & Hj & Ha)%etcd_prepare_fields & Hw).
  set (spec' := with_selinux (g_EnableSELinux g) "rke2_service_db_t" spec) in *.
  destruct (with_selinux_fields (g_EnableSELinux g) "rke2_service_db_t" spec) as [Hc' Ha'].
  fold spec' in Hc', Ha'. rewrite Hc in Hc'. rewrite Ha in Ha'.
  destruct (writeTemplate_triple g cfg spec' (ds ++ ["agent"]) DefaultPodManifestPath) with (nodes st1) flt st1
    as ((_ & Hok) & _); [by apply Forall_app; auto|done|apply Hl|by rewrite Hc'|done|].
  rewrite Hw in Hok. destruct (Hok eq_refl) as (p & b & q & Hd & Hy & Hm).
  destruct Hm as (_ & _ & _ & _ & Hann & _). rewrite Hc' in Hd.
  change (nodes st' !! dest "etcd" = Some (NFile b q)) in Hd.
  unfold CurrentETCDOptions. change "etcd.yaml" with ("etcd" +:+ ".yaml").
  rewrite (Join_dest cfg "etcd") by done.
  unfold mbind, io_bind, attempt.
  destruct (os_ReadFile_run (dest "etcd") st2) as (s2 & -> & _).
  rewrite Clean_dest_file, Hsame, Hd by done.
  destruct (yaml_roundtrip _ _ Hy) as (p' & -> & Hp'). simpl.
  rewrite Hp', Hann, Ha', lookup_singleton_eq. by rewrite (json_roundtrip _ _ Hj).
Qed.
End files.

(** ** A concrete executor *)

Module SimpleExec.
#[local] Existing Instance SimpleLib.lib.

(** The name and the annotations, as one number. *)
Definition to_yaml (p : pod) : result string :=
  Ok (pretty (N.pos (encode (pod_Name p, pod_Annotations p)))).

Definition from_yaml (s : string) : result pod :=
  match digits_value 0 s with
  | Some z =>
      match decode (Z.to_pos z) with
      | Some (n, a) =>
          Ok {| pod_Name := n; pod_Namespace := ""; pod_UID := ""; pod_Labels := ∅;
                pod_Annotations := a; c_Name := ""; c_Image := "";
                c_Command := []; c_Args := []; c_Ports := []; c_Env := []; c_Requests := ∅;
                c_Limits := ∅; c_LivenessProbe := None; c_ReadinessProbe := None;
                c_StartupProbe := None; c_ImagePullPolicy := ""; c_Privileged := false;
                c_VolumeMounts := []; pod_HostNetwork := false; pod_PriorityClassName := "";
                pod_SecurityContext := None; pod_Volumes := [] |}
      | None => Err (ErrMsg "bad yaml")
      end
  | None => Err (ErrMsg "bad yaml")
  end.

#[export] Instance lib : ExecLib := {|
  yaml_Marshal := to_yaml;
  yaml_Unmarshal := from_yaml;
  pod_md5 p path := pod_Name p +:+ path;
  InitialOptions := string;
  zero_options := "";
  json_Marshal o := Ok o;
  json_Decode j := Ok j;
  ToConfigFile _ _ := mret "/etc/etcd.conf";
  user_Lookup _ := Ok ("1000", "1000")
|}.

#[export] Instance laws : ExecLaws.
Proof.
  split; [|done]. intros p b [= <-]. unfold yaml_Unmarshal, lib, from_yaml.
  rewrite pretty_N_value. simpl. rewrite decode_encode. by eexists.
Qed.
End SimpleExec.

#[local] Existing Instance SimpleName.api.
#[local] Existing Instance SimpleLib.lib.
#[local] Existing Instance SimpleExec.lib.
#[local] Existing Instance SimpleExec.laws.

Definition sample_ds : list string := ["var"; "lib"; "rancher"; "rke2"].

Definition sample_globals : Globals := {|
  g_APIServerPort := 6443; g_EnableSELinux := false; g_Environ := []; g_rnd := λ _, 7%N;
  g_tries := 10; g_policy := Ok "rules" |}.

Definition sample_executor : StaticPodConfig := {|
  x_Config := sample_config; x_CloudProvider := None;
  x_ManifestsDir := "/var/lib/rancher/rke2/agent/pod-manifests"; x_AuditPolicyFile := "";
  x_PSAConfigFile := "/etc/rancher/rke2/rke2-pss.yaml"; x_ProfileMode := ProfileModeNone;
  x_DisableETCD := true; x_ExternalDatabase := false |}.

(** A node that ran before: an old kube-apiserver manifest is still there. *)
Definition sample_host : tree :=
  <["/var/lib/rancher/rke2/agent/pod-manifests/kube-apiserver.yaml" := NFile "old" 420]>
  (<["/var/lib/rancher/rke2/agent/pod-manifests" := NDir]>
  (<["/var/lib/rancher/rke2/agent" := NDir]> (<["/var/lib/rancher/rke2" := NDir]>
  (<["/var/lib/rancher" := NDir]> (<["/var/lib" := NDir]> (<["/var" := NDir]> ∅)))))).

Definition sample_start : exec := Exec sample_executor (MkFS sample_host 0 []) [] [] [] false.

Definition sample_call : exec :=
  do_call build_defaults sample_globals (CallAPIServer k3s_args []) no_faults sample_start.

Definition is_pending (command : string) (x : exec) : bool :=
  match e_pending x with
  | [(etcdReady, spec)] => bool_decide (Command spec = command)
  | _ => false
  end.

Lemma sample_initial : initial sample_start.
Proof. done. Qed.

Lemma sample_layout : layout sample_ds (e_cfg sample_start).
Proof. split; [by repeat constructor|vm_compute; reflexivity|done|by left]. Qed.

Lemma honest_no_faults : honest no_faults.
Proof. by intros n e k. Qed.

Lemma sample_conf args extra : outside (manifests sample_ds) (ToConfigFile args extra).
Proof. apply spares_readonly, readonly_ret. Qed.

Lemma sample_pending : ∃ spec, e_pending sample_call = [(etcdReady, spec)] ∧ Command spec = "kube-apiserver".
Proof.
  assert (is_pending "kube-apiserver" sample_call = true) as H by (vm_compute; reflexivity).
  unfold is_pending in H. destruct (e_pending sample_call) as [|[[] spec] [|]]; try discriminate H.
  exists spec. split; [done|]. by apply bool_decide_eq_true in H.
Qed.

(** The same executor after etcd has become ready and the writer has run. *)
Definition fired (x : exec) (spec : Spec) : exec :=
  let rf := writeTemplate sample_globals (e_cfg x) (Some spec) no_faults (e_fs x) in
  Exec (e_cfg x) rf.2 [etcdReady] [] ((Command spec, [etcdReady]) :: e_written x) (negb (is_Ok rf.1)).

Lemma close_then_fire x spec :
  e_closed x = [] → e_dead x = false → e_pending x = [(etcdReady, spec)] →
  steps build_defaults sample_globals x (fired x spec).
Proof.
  intros Hc Hd Hp.
  apply (rtc_l _ _ (Exec (e_cfg x) (e_fs x) [etcdReady] (e_pending x) (e_written x) (e_dead x))).
  { pose proof (step_close build_defaults sample_globals (λ _, True) etcdReady x Hd) as H.
    rewrite Hc in H. apply H, not_elem_of_nil. }
  apply rtc_once. unfold fired.
  destruct (writeTemplate sample_globals (e_cfg x) (Some spec) no_faults (e_fs x)) as [r f] eqn:E.
  exact (step_fire build_defaults sample_globals (λ _, True) etcdReady spec [] [] no_faults
    (Exec (e_cfg x) (e_fs x) [etcdReady] (e_pending x) (e_written x) (e_dead x)) r f
    Hd honest_no_faults Hp ltac:(left) E).
Qed.

Definition sample_fired (spec : Spec) : exec := fired sample_call spec.

Lemma sample_steps spec :
  e_pending sample_call = [(etcdReady, spec)] →
  steps build_defaults sample_globals sample_start (sample_fired spec).
Proof.
  intros Hp.
  assert (e_closed sample_call = []) as Hc by (vm_compute; reflexivity).
  assert (e_dead sample_call = false) as Hd by (vm_compute; reflexivity).
  refine (rtc_l _ _ sample_call _ _ (close_then_fire sample_call spec Hc Hd Hp)).
  exact (step_call build_defaults sample_globals (λ _, True) (CallAPIServer k3s_args []) no_faults sample_start
    I eq_refl honest_no_faults).
Qed.

Lemma manifests_in_order_witness :
  ∃ x, steps build_defaults sample_globals sample_start x ∧
       ("kube-apiserver", [etcdReady]) ∈ e_written x ∧ etcdReady ∈ [etcdReady].
Proof.
  destruct sample_pending as (spec & Hp & Hc).
  assert (("kube-apiserver", [etcdReady]) ∈ e_written (sample_fired spec)) as Hin
    by (rewrite <-Hc; left).
  exists (sample_fired spec). split; [exact (sample_steps spec Hp)|]. split; [exact Hin|].
  exact (manifests_in_order build_defaults sample_globals sample_start (sample_fired spec)
    "kube-apiserver" [etcdReady] sample_initial (sample_steps spec Hp) Hin).
Defined.

Lemma manifests_always_complete_witness :
  ∃ x ts, steps build_defaults sample_globals sample_start x ∧
    hist (e_fs x) = ts ++ [] ∧
    Forall (complete sample_ds sample_host "kube-apiserver") (nodes (e_fs x) :: ts).
Proof.
  destruct sample_pending as (spec & Hp & Hc).
  destruct (manifests_always_complete build_defaults sample_globals sample_ds (lay_ds _ _ sample_layout)
    sample_conf sample_start (sample_fired spec) "kube-apiserver" sample_initial sample_layout
    (sample_steps spec Hp)) as (ts & Hh & HF).
  exists (sample_fired spec), ts. split; [exact (sample_steps spec Hp)|]. split; [exact Hh|exact HF].
Defined.

Lemma no_apiserver_before_etcd_witness :
  nodes (e_fs sample_start) !! manifest_file sample_ds "kube-apiserver" = Some (NFile "old" 420) ∧
  nodes (e_fs sample_call) !! manifest_file sample_ds "kube-apiserver" = None.
Proof.
  split; [vm_compute; reflexivity|].
  destruct (no_apiserver_before_etcd build_defaults sample_globals sample_ds (lay_ds _ _ sample_layout)
    sample_conf sample_start sample_start k3s_args [] no_faults sample_call
    sample_initial sample_layout (rtc_refl _ _) honest_no_faults eq_refl) as (ts & _ & HF).
  - vm_compute. reflexivity.
  - apply rtc_refl.
  - apply (bool_decide_eq_true_1 _). vm_compute. reflexivity.
  - apply Forall_cons in HF as [H _]. exact H.
Defined.

Definition sample_etcd : ETCDConfig InitialOptions := {|
  ec_InitialOptions := "initial-cluster"; ec_DataDir := "/var/lib/rancher/rke2/server/db/etcd";
  ec_ServerTrust := {| CertFile := "/var/c"; KeyFile := "/var/k"; TrustedCAFile := "/var/ca" |};
  ec_PeerTrust := {| CertFile := "/var/c"; KeyFile := "/var/k"; TrustedCAFile := "/var/ca" |};
  ec_ForceNewCluster := false |}.

Definition etcd_host : fs :=
  MkFS (<["/var/c" := NFile "c" 384]> (<["/var/k" := NFile "k" 384]>
       (<["/var/ca" := NFile "ca" 384]> sample_host))) 0 [].

Lemma etcd_options_roundtrip_witness :
  ∃ st', ETCD build_defaults sample_globals sample_executor (Some sample_etcd) [] no_faults etcd_host
         = (Ok (), st') ∧
    (CurrentETCDOptions sample_executor no_faults st').1 = Ok ("initial-cluster" : InitialOptions).
Proof.
  destruct (ETCD build_defaults sample_globals sample_executor (Some sample_etcd) [] no_faults etcd_host)
    as [r st'] eqn:E.
  assert (r = Ok ()) as ->.
  { change r with (r, st').1. rewrite <-E. vm_compute. reflexivity. }
  exists st'. split; [reflexivity|].
  exact (etcd_options_roundtrip build_defaults sample_globals sample_ds (lay_ds _ _ sample_layout)
    sample_executor sample_etcd [] no_faults etcd_host st' st'
    sample_layout E eq_refl).
Defined.
