(* ===== verification/KubeletView.v ===== *)
(** * KubeletView: what the executor promises the kubelet, and a refinement of it

    The specification is a machine whose state is the manifests the kubelet finds,
    one optional node per component, and the readiness channels closed so far.
    It has three atomic rules: a channel closes, the kube-apiserver manifest
    disappears, the complete manifest of a component whose turn it is appears.
    The theorem is that the executor of [ExecutorSteps], with its temporary
    files, its failing system calls and its interleaved writers, refines that
    machine, intermediate trees included. *)

From stdpp Require Import functions.
From S2P Require Import Prelude GoStrings GoPath GoFS GoTree Images PodConfig PodSpec PodTemplate.
From S2P Require Import ManifestFile StaticPod ExecutorSteps.

(** ** The specification *)

Section view.
Context `{NameApi} `{ExecLib} (ds : list string).

Record view := View { v_closed : list chan; v_manifest : string → option node }.

(** Whose turn it is: etcd and kube-proxy at once, the others after their channel. *)
Definition due (closed : list chan) (command : string) : Prop :=
  command = "etcd" ∨ command = "kube-proxy" ∨ ∃ ch, waits_for command = Some ch ∧ ch ∈ closed.

(** A complete manifest of [command]: the YAML of a pod for it. *)
Definition whole (command : string) (n : node) : Prop :=
  ∃ spec p b q, n = NFile b q ∧ yaml_Marshal p = Ok b ∧ Command spec = command ∧
    manifest_of spec (manifest_file ds command) p.

Inductive vstep : view → view → Prop :=
  | v_close ch v :
      ch ∉ v_closed v → vstep v (View (ch :: v_closed v) (v_manifest v))
  | v_withdraw v :
      vstep v (View (v_closed v) (<["kube-apiserver" := None]> (v_manifest v)))
  | v_install command n v :
      due (v_closed v) command → whole command n →
      vstep v (View (v_closed v) (<[command := Some n]> (v_manifest v))).

Definition vsteps := rtc vstep.

(** What the kubelet finds in a tree. *)
Definition shows (t : tree) (v : view) : Prop := ∀ command, t !! manifest_file ds command = v_manifest v command.

Definition view_of (closed : list chan) (t : tree) : view := View closed (λ command, t !! manifest_file ds command).
End view.

(** ** The simulation *)

Section refinement.
Context `{NameApi} `{ExecLib} (defaults : Defaults) (g : Globals).
Context (ds : list string) (Hds : Forall (λ c, simple c = true) ds).
Context (Hconf : ∀ args extra, outside (manifests ds) (ToConfigFile args extra)).

Abbreviation dest := (manifest_file ds).

#[export] Instance manifest_file_inj : Inj (=) (=) dest.
Proof.
  intros c1 c2. unfold manifest_file. rewrite !mkpath_snoc by apply md_ne. intros Heq.
  by apply (inj (String.append (mkpath (manifests ds)))), (inj (String.append "/")), app_inj_r' in Heq.
Qed.

(** [t] is what the specification shows at some point after [v], no channel
    having closed meanwhile. *)
Definition follows (v : view) (t : tree) : Prop :=
  ∃ v', vsteps ds v v' ∧ v_closed v' = v_closed v ∧ shows ds t v'.

Lemma follows_step v v' t t' :
  follows v t → (∀ w, shows ds t w → v_closed w = v_closed v → vsteps ds w (v' w)) →
  (∀ w, shows ds t w → v_closed (v' w) = v_closed w ∧ shows ds t' (v' w)) → follows v t'.
Proof.
  intros (w & Hs & Hc & Ht) Hstep Hw. destruct (Hw w Ht) as [Hc' Ht'].
  exists (v' w). split; [by etrans; [|apply Hstep]|]. by rewrite Hc'.
Qed.

Lemma shows_update command n t t' w :
  shows ds t w → t' !! dest command = n →
  (∀ q, inside (manifests ds) q → q ≠ dest command → t' !! q = t !! q) →
  shows ds t' (View (v_closed w) (<[command := n]> (v_manifest w))).
Proof.
  intros Hw Hn Ho c. cbn [v_manifest]. destruct (decide (c = command)) as [->|Hne].
  - by rewrite fn_lookup_insert.
  - rewrite fn_lookup_insert_ne by done. rewrite <-Hw. apply Ho; [by apply dest_inside|].
    by intros ?%(inj _).
Qed.

Lemma follows_stable v : stable ds (follows v) (due (v_closed v)).
Proof.
  split.
  - intros t t' Hs Ht. apply (follows_step v id t); [done|by intros; apply rtc_refl|].
    intros w Hw. split; [done|]. intros c. rewrite <-Hw. by apply Hs, dest_inside.
  - intros t Ht. apply (follows_step v (λ w, View (v_closed w) (<["kube-apiserver" := None]> (v_manifest w))) t);
      [done|intros; apply rtc_once, v_withdraw|].
    intros w Hw. split; [done|]. apply (shows_update _ _ t); [done|apply lookup_delete_eq|].
    intros q _ Hq. by rewrite lookup_delete_ne.
  - intros spec t t' Hdue Hs [[Hd|(p & b & q & Hd & Hy & Hm)] Ho] Ht.
    + apply (follows_step v id t); [done|by intros; apply rtc_refl|].
      intros w Hw. split; [done|]. intros c. rewrite <-Hw.
      destruct (decide (dest c = dest (Command spec))) as [->|]; [exact Hd|].
      by apply Ho; [apply dest_inside..|].
    + apply (follows_step v (λ w, View (v_closed w)
        (<[Command spec := Some (NFile b q)]> (v_manifest w))) t); [done| |].
      * intros w _ Hc. apply rtc_once, v_install; [by rewrite Hc|]. by exists spec, p, b, q.
      * intros w Hw. split; [done|]. apply (shows_update _ _ t); [done|exact Hd|].
        intros q' [Hu Hne] Hq'. by apply Ho.
Qed.

(** A step closes at most one channel. *)
Lemma closed_by_step x x' :
  step defaults g x x' →
  e_closed x' = e_closed x ∨ ∃ ch, ch ∉ e_closed x ∧ e_closed x' = ch :: e_closed x.
Proof.
  intros Hs. destruct Hs as [c flt x _ _ _|ch x _ Hch|ch spec pre post flt x r f _ _ _ _ _].
  - left. destruct c; cbn [do_call]; rewrite ?defer_closed, ?write_now_closed; try done.
    by destruct (APIServer _ _ _ _ _ _ _) as [[[cfg [spec|[]]]|e] f].
  - right. by exists ch.
  - by left.
Qed.

(** What a step writes is due. *)
Lemma written_due x x' w :
  step defaults g x x' → ordered x → e_written x' = w :: e_written x → due (e_closed x) w.1.
Proof.
  intros Hs [Hp _] Hw.
  assert (∀ (w : string * list chan) ws, ws ≠ w :: ws) as Hcons.
  { intros w' ws Heq. apply (f_equal length) in Heq. simpl in Heq. lia. }
  destruct Hs as [c flt x _ _ _|ch x _ _|ch spec pre post flt x r f _ _ Hpend Hch _].
  - destruct c; cbn [do_call] in Hw; rewrite ?defer_written, ?write_now_written in Hw;
      try (by apply Hcons in Hw).
    + by destruct (APIServer _ _ _ _ _ _ _) as [[[cfg [spec|[]]]|e] f]; apply Hcons in Hw.
    + injection Hw as <-. by right; left.
    + injection Hw as <-. by left.
  - by apply Hcons in Hw.
  - injection Hw as <-. right. right. exists ch. split; [|done].
    rewrite Hpend in Hp. apply Forall_app in Hp as [_ Hp]. by apply Forall_cons in Hp as [Hp _].
Qed.

(** One step of the executor is matched by the specification, and so is every
    tree passed through on the way. *)
Lemma step_simulated x x' v :
  step defaults g x x' → layout ds (e_cfg x) → ordered x →
  v_closed v = e_closed x → shows ds (nodes (e_fs x)) v →
  layout ds (e_cfg x') ∧ ∃ v' ts, vsteps ds v v' ∧ v_closed v' = e_closed x' ∧
    shows ds (nodes (e_fs x')) v' ∧ hist (e_fs x') = ts ++ hist (e_fs x) ∧ Forall (follows v) ts.
Proof.
  intros Hs Hl Ho Hc Hv.
  destruct (step_leads defaults g ds Hds Hconf (follows v) (due (v_closed v)) x x') as [Hlead Hl'];
    [apply follows_stable|done|done|done| | |].
  - exists v. split; [apply rtc_refl|done].
  - intros w Hw. rewrite Hc. by apply (written_due x x').
  - split; [done|]. destruct Hlead as ((w & Hvw & Hcw & Hw) & ts & Hh & Hts).
    destruct (closed_by_step x x' Hs) as [Heq|(ch & Hnew & Heq)].
    + exists w, ts. split_and!; [done|congruence|done..].
    + exists (View (ch :: v_closed w) (v_manifest w)), ts. split_and!; [|cbn; congruence|done..].
      eapply rtc_r; [exact Hvw|]. apply v_close. congruence.
Qed.

Lemma runs_simulated x x' v :
  steps defaults g x x' → layout ds (e_cfg x) → ordered x →
  v_closed v = e_closed x → shows ds (nodes (e_fs x)) v →
  (∃ v', vsteps ds v v' ∧ v_closed v' = e_closed x' ∧ shows ds (nodes (e_fs x')) v') ∧
  ∃ ts, hist (e_fs x') = ts ++ hist (e_fs x) ∧
    Forall (λ t, ∃ v', vsteps ds v v' ∧ shows ds t v') ts.
Proof.
  intros Hs. revert v. induction Hs as [x|x y z Hxy Hyz IH]; intros v Hl Ho Hc Hv.
  { split; [|by exists []]. exists v. split_and!; [apply rtc_refl|done..]. }
  destruct (step_simulated x y v Hxy Hl Ho Hc Hv) as (Hl' & v1 & ts & Hv1 & Hc1 & Hsh & Hh & Hts).
  destruct (IH v1 Hl' (ordered_step _ _ _ _ Hxy Ho) Hc1 Hsh) as [(v2 & Hv2 & Hc2 & Hsh2) (ts2 & Hh2 & Hts2)].
  split; [exists v2; split_and!; [by etrans|done..]|].
  exists (ts2 ++ ts). rewrite Hh2, Hh. split; [by rewrite (assoc_L (++))|]. apply Forall_app. split.
  - eapply Forall_impl; [exact Hts2|]. intros t (w & ? & ?). exists w. split; [by etrans|done].
  - eapply Forall_impl; [exact Hts|]. intros t (w & ? & _ & ?). by exists w.
Qed.

(** C1: The executor refines the kubelet's view of it.  Whatever k3s calls, in
    whatever order channels close and waiting writers run and whichever system
    calls fail, the machine with three atomic rules (a channel closes, the
    kube-apiserver manifest is withdrawn, the complete manifest of a component
    that is due is installed) has a run that ends with the manifests and the
    closed channels of the executor, and every tree the file system passes
    through shows manifests that the machine shows in a reachable state. *)
Theorem executor_refines_view x0 x :
  initial x0 → layout ds (e_cfg x0) → steps defaults g x0 x →
  let v0 := view_of ds [] (nodes (e_fs x0)) in
  (∃ v, vsteps ds v0 v ∧ v_closed v = e_closed x ∧ shows ds (nodes (e_fs x)) v) ∧
  ∃ ts, hist (e_fs x) = ts ++ hist (e_fs x0) ∧
    Forall (λ t, ∃ v, vsteps ds v0 v ∧ shows ds t v) ts.
Proof.
  intros (Hcl & Hp & Hw & _) Hl Hs v0.
  assert (ordered x0) as Ho by (unfold ordered; rewrite Hp, Hw; by split).
  apply (runs_simulated x0 x v0 Hs Hl Ho); [by rewrite Hcl|done].
Qed.
End refinement.

#[local] Existing Instance SimpleName.api.
#[local] Existing Instance SimpleLib.lib.
#[local] Existing Instance SimpleExec.lib.

(** A start after which the new kube-apiserver manifest is in place. *)
Lemma executor_refines_view_witness :
  ∃ x v, steps build_defaults sample_globals sample_start x ∧
    vsteps sample_ds (view_of sample_ds [] sample_host) v ∧ v_closed v = [etcdReady] ∧
    shows sample_ds (nodes (e_fs x)) v.
Proof.
  destruct sample_pending as (spec & Hp & Hc).
  destruct (executor_refines_view build_defaults sample_globals sample_ds (lay_ds _ _ sample_layout)
    sample_conf sample_start (sample_fired spec) sample_initial sample_layout (sample_steps spec Hp))
    as [(v & Hv & Hcl & Hsh) _].
  exists (sample_fired spec), v. split; [exact (sample_steps spec Hp)|]. split; [exact Hv|].
  split; [exact Hcl|exact Hsh].
Defined.
