(* ===== verification/Cri.v ===== *)
(** * Cri: the container runtime as the executor sees it

    The static pod check (spw.go), the cleanup of disabled pods (cleanup.go) and
    [stopEtcd] talk to the runtime over the CRI.  Its client is library code:
    [CRI] gives the calls as functions on an unknown runtime state.  A program
    here is a value of [act], which threads the file system, the runtime and the
    list of the sandboxes whose removal was requested. *)

From S2P Require Import Prelude GoStrings GoPath GoFS PodTemplate.
From stdpp Require Import options.

(** [runtimeapi.PodSandbox], as far as the program looks at it. *)
Record PodSandbox := {
  sb_Id : string;
  sb_Name : string;
  sb_Labels : gmap string string;
  sb_Annotations : gmap string string
}.

(** [runtimeapi.PodSandboxNetworkStatus] and [runtimeapi.PodSandboxStatus]. *)
Record SandboxNetwork := { net_Ip : string; net_AdditionalIps : list string }.

(** [runtimeapi.NamespaceMode] *)
Inductive NamespaceMode := ModePod | ModeContainer | ModeNode | ModeTarget.

(** The network namespace is looked at by the kubelet's code only. *)
Record SandboxStatus := {
  st_Id : string;
  st_Ready : bool;
  st_Network : option SandboxNetwork;
  st_NetworkMode : NamespaceMode
}.

(** [kubecontainer.PodStatus], the fields the program sets. *)
Record PodStatus := {
  ps_ID : string;
  ps_Name : string;
  ps_Namespace : string;
  ps_SandboxStatuses : list SandboxStatus;
  ps_IPs : option (list string)
}.

Class CRI `{PodLib} := {
  runtime : Type;
  (** [cri.Connection] and [conn.Close] *)
  Connection : string → runtime → result unit * runtime;
  Close : runtime → runtime;
  (** the calls of [runtimeapi.RuntimeServiceClient] *)
  ListPodSandbox : gmap string string → runtime → result (list PodSandbox) * runtime;
  PodSandboxStatus : string → runtime → result SandboxStatus * runtime;
  RemovePodSandbox : string → runtime → result unit * runtime;
  (** [crierror.IsNotFound] *)
  crierror_IsNotFound : error → bool;
  (** [runtimeutil.PodSandboxChanged] of the kubelet, without the attempt count *)
  PodSandboxChanged : pod → PodStatus → bool * string;
  (** [netutils.ParseIPSloppy] finds an address *)
  ParseIPSloppy : string → bool;
  (** the first document of a YAML stream as a pod *)
  decode_pod : string → result pod
}.

(** A map read with the zero value for a missing key, [m[k]]. *)
Definition at_key (m : gmap string string) (k : string) : string := default "" (m !! k).

Section act.
Context `{CRI}.

Record world := World { w_fs : fs; w_rt : runtime; w_removed : list string }.

Definition act (A : Type) := faults → world → result A * world.

#[export] Instance act_ret : MRet act := λ A a _ w, (Ok a, w).
#[export] Instance act_bind : MBind act := λ A B f m flt w,
  let '(r, w') := m flt w in
  match r with Ok a => f a flt w' | Err e => (Err e, w') end.

Definition act_fail {A} (e : error) : act A := λ _ w, (Err e, w).

Definition act_attempt {A} (m : act A) : act (result A) := λ flt w,
  let '(r, w') := m flt w in (Ok r, w').

Definition act_with_message {A} (msg : string) (m : act A) : act A := λ flt w,
  let '(r, w') := m flt w in (with_message msg r, w').

Definition on_fs {A} (m : io A) : act A := λ flt w,
  let '(r, s) := m flt (w_fs w) in (r, World s (w_rt w) (w_removed w)).

Definition on_rt {A} (f : runtime → result A * runtime) : act A := λ _ w,
  let '(r, c) := f (w_rt w) in (r, World (w_fs w) c (w_removed w)).

(** [RemovePodSandbox], recorded whether or not it succeeds. *)
Definition remove (id : string) : act unit := λ _ w,
  let '(r, c) := RemovePodSandbox id (w_rt w) in
  (r, World (w_fs w) c (w_removed w ++ [id])).

(** [conn, err := cri.Connection(...)] with [defer conn.Close()]. *)
Definition with_connection {A} (endpoint : string) (body : act A) : act A := λ flt w,
  match on_rt (Connection endpoint) flt w with
  | (Err e, w1) => (Err e, w1)
  | (Ok _, w1) =>
      let '(r, w2) := body flt w1 in
      (r, World (w_fs w2) (Close (w_rt w2)) (w_removed w2))
  end.

(** What the rest of the system does while the program sleeps. *)
Definition environment (step : world → world) : act unit := λ _ w, (Ok (), step w).

Lemma removals_on_rt {A} (f : runtime → result A * runtime) flt w :
  w_removed (on_rt f flt w).2 = w_removed w.
Proof. unfold on_rt. by destruct (f (w_rt w)). Qed.

Lemma removals_on_fs {A} (m : io A) flt w : w_removed (on_fs m flt w).2 = w_removed w.
Proof. unfold on_fs. by destruct (m flt (w_fs w)). Qed.

Lemma removals_remove id flt w : w_removed (remove id flt w).2 = w_removed w ++ [id].
Proof. unfold remove. by destruct (RemovePodSandbox id (w_rt w)). Qed.
End act.
Arguments act {_ _} A.
