(* ===== verification/Sandbox.v ===== *)
(** * Sandbox: waiting for the static pods to match their manifests (spw.go)

    [checkManifestDeployed] compares the sandboxes the runtime lists with the
    manifest on disk and requests the removal of every other one;
    [reconcileStaticPods] polls it for etcd and kube-apiserver until both agree.
    Between two polls the kubelet and the runtime move on: [env] is what they
    do, and the number of polls before the context ends is a parameter. *)

From S2P Require Import Prelude GoStrings GoPath GoFS PodTemplate Images PodSpec ManifestFile StaticPod Cri.

Section spw.
Context `{CRI}.

(** [determinePodSandboxIPs]; [None] is the nil slice. *)
Fixpoint additional_ips (ips : list string) (acc : list string) : option (list string) :=
  match ips with
  | [] => Some acc
  | ip :: ips' => if ParseIPSloppy ip then additional_ips ips' (acc ++ [ip]) else None
  end.

Definition determinePodSandboxIPs (st : SandboxStatus) : option (list string) :=
  match st_Network st with
  | None => Some []
  | Some net =>
      if decide (net_Ip net ≠ "") then
        if ParseIPSloppy (net_Ip net) then additional_ips (net_AdditionalIps net) [net_Ip net]
        else None
      else additional_ips (net_AdditionalIps net) []
  end.

Definition pod_uid_label := "io.kubernetes.pod.uid".

Definition selector (p : pod) : gmap string string :=
  {[ "component" := at_key (pod_Labels p) "component";
     "io.kubernetes.pod.namespace" := pod_Namespace p;
     "tier" := at_key (pod_Labels p) "tier" ]}.

Definition add_status (st : SandboxStatus) (ps : PodStatus) : PodStatus :=
  {| ps_ID := ps_ID ps; ps_Name := ps_Name ps; ps_Namespace := ps_Namespace ps;
     ps_SandboxStatuses := ps_SandboxStatuses ps ++ [st]; ps_IPs := ps_IPs ps |}.

Definition set_IPs (ips : option (list string)) (ps : PodStatus) : PodStatus :=
  {| ps_ID := ps_ID ps; ps_Name := ps_Name ps; ps_Namespace := ps_Namespace ps;
     ps_SandboxStatuses := ps_SandboxStatuses ps; ps_IPs := ips |}.

Definition of_pod (p : pod) (sb : PodSandbox) : bool :=
  bool_decide (at_key (sb_Labels sb) pod_uid_label = pod_UID p).

(** The loop that collects the status of every sandbox of the current pod. *)
Fixpoint collect (p : pod) (items : list PodSandbox) (ps : PodStatus) (matchingPodIdx : nat)
    : act PodStatus :=
  match items with
  | [] => mret ps
  | sb :: items' =>
      if of_pod p sb then
        r ← act_attempt (on_rt (PodSandboxStatus (sb_Id sb)));
        match r with
        | Err e => if crierror_IsNotFound e then collect p items' ps matchingPodIdx
                   else act_fail (ErrWithMessage "failed to get pod sandbox status" e)
        | Ok st =>
            let ps := add_status st ps in
            let ps := if decide (matchingPodIdx = 0 ∧ st_Ready st = true)
                      then set_IPs (determinePodSandboxIPs st) ps else ps in
            collect p items' ps (S matchingPodIdx)
        end
      else collect p items' ps matchingPodIdx
  end.

(** A sandbox that is not the latest one of the current pod. *)
Definition outdated (p : pod) (sandboxID : string) (sb : PodSandbox) : bool :=
  negb (of_pod p sb) || bool_decide (sandboxID ≠ "" ∧ sandboxID ≠ sb_Id sb).

(** The loop that removes them; a failed removal is only logged. *)
Fixpoint remove_outdated (p : pod) (sandboxID : string) (items : list PodSandbox)
    (sandboxRemoved : bool) : act bool :=
  match items with
  | [] => mret sandboxRemoved
  | sb :: items' =>
      if outdated p sandboxID sb
      then _ ← act_attempt (remove (sb_Id sb)); remove_outdated p sandboxID items' true
      else remove_outdated p sandboxID items' sandboxRemoved
  end.

Definition new_status (p : pod) : PodStatus :=
  {| ps_ID := pod_UID p; ps_Name := pod_Name p; ps_Namespace := pod_Namespace p;
     ps_SandboxStatuses := []; ps_IPs := None |}.

Definition err_termination := ErrMsg "waiting for termination of old pod sandbox".

(** What follows the listing of the sandboxes. *)
Definition check_sandboxes (p : pod) (items : list PodSandbox) : act unit :=
  podStatus ← collect p items (new_status p) 0;
  let '(newSandboxNeeded, sandboxID) := PodSandboxChanged p podStatus in
  sandboxRemoved ← remove_outdated p sandboxID items false;
  if (sandboxRemoved : bool) then act_fail err_termination
  else if (newSandboxNeeded : bool) then
    if decide (sandboxID ≠ "") then act_fail (ErrMsg "pod sandbox has changed")
    else act_fail (ErrMsg "pod sandbox not found")
  else mret ().

Definition os_Open (p : string) : io unit :=
  syscall (λ t, (match t !! Clean p with Some _ => Ok () | None => Err ErrNotExist end, []))
          no_partial.

Definition lift_act {A} (r : result A) : act A := λ _ w, (r, w).

Definition checkManifestDeployed (manifestFile : string) : act unit :=
  act_with_message "failed to open manifest" (on_fs (os_Open manifestFile));;
  pod ← act_with_message "failed to decode manifest"
          (text ← on_fs (os_ReadFile manifestFile); lift_act (decode_pod text));
  items ← act_with_message "failed to list pod sandboxes" (on_rt (ListPodSandbox (selector pod)));
  check_sandboxes pod items.

(** The loop of the poll body over the two pods; [false] asks for a retry. *)
Fixpoint check_pods (manifestDir : string) (pods : list string) : act bool :=
  match pods with
  | [] => mret true
  | pod :: pods' =>
      r ← act_attempt (checkManifestDeployed (filepath_Join [manifestDir; pod +:+ ".yaml"]));
      match r with
      | Ok _ => check_pods manifestDir pods'
      | Err e => if errors_Is_ErrNotExist e then check_pods manifestDir pods' else mret false
      end
  end.

Definition reconciled_pods : list string := ["etcd"; "kube-apiserver"].

Definition reconcile_body (containerRuntimeEndpoint dataDir : string) : act bool :=
  let endpoint := if decide (containerRuntimeEndpoint = "") then ContainerdSock
                  else containerRuntimeEndpoint in
  r ← act_attempt (with_connection endpoint
                     (check_pods (PodManifestsDir dataDir) reconciled_pods));
  match r with Err _ => mret false | Ok b => mret b end.

(** [wait.PollUntilContextTimeout], immediate: [polls] is how many times the
    condition is evaluated before the context ends, [env k] what the rest of
    the system does after the [k]-th of them. *)
Fixpoint poll (env : nat → world → world) (polls k : nat) (condition : act bool) : act bool :=
  match polls with
  | 0 => mret false
  | S polls' =>
      b ← condition;
      if (b : bool) then mret true
      else environment (env k);; poll env polls' (S k) condition
  end.

Inductive reconciled := Synced | Cancelled | FatalExit.

(** [reconcileStaticPods]; [cancelled] tells how the context ended if it did. *)
Definition reconcileStaticPods (env : nat → world → world) (polls : nat) (cancelled : bool)
    (containerRuntimeEndpoint dataDir : string) : act reconciled :=
  b ← poll env polls 0 (reconcile_body containerRuntimeEndpoint dataDir);
  mret (if (b : bool) then Synced else if cancelled then Cancelled else FatalExit).

(** The goroutine of [apiserverSyncAndReady] in staticpod.go: whether it closes the
    channel before the process ends.  [api_ready] is the receive from
    [util.APIServerReadyChan], false if the process ends instead. *)
Definition apiserverSyncAndReady (env : nat → world → world) (polls : nat) (cancelled : bool)
    (containerRuntimeEndpoint dataDir : string) (api_ready : act bool) : act bool :=
  r ← reconcileStaticPods env polls cancelled containerRuntimeEndpoint dataDir;
  match r with FatalExit => mret false | Synced | Cancelled => api_ready end.

(** [stopEtcd] of staticpod.go *)
Definition etcd_selector : gmap string string :=
  {[ "component" := "etcd"; "io.kubernetes.pod.namespace" := "kube-system";
     "tier" := "control-plane" ]}.

Definition from_file (sb : PodSandbox) : bool :=
  bool_decide (at_key (sb_Annotations sb) "kubernetes.io/config.source" = "file").

Fixpoint stop_items (items : list PodSandbox) : act unit :=
  match items with
  | [] => mret ()
  | sb :: items' =>
      if from_file sb
      then act_with_message "failed to terminate pod" (remove (sb_Id sb));; stop_items items'
      else stop_items items'
  end.

Definition stopEtcd (runtimeEndpoint : string) : act unit := λ flt w,
  match on_rt (Connection runtimeEndpoint) flt w with
  | (Err e, w1) => (Err (ErrWithMessage "failed to connect to cri" e), w1)
  | (Ok _, w1) =>
      let '(r, w2) :=
        (items ← act_with_message "failed to list pods" (on_rt (ListPodSandbox etcd_selector));
         stop_items items) flt w1 in
      (r, World (w_fs w2) (Close (w_rt w2)) (w_removed w2))
  end.
End spw.

(** ** What the executor relies on

    Documented behaviour of the kubelet's [PodSandboxChanged]: without a sandbox
    a new one is needed; it names the first sandbox, or none when a new one is
    needed because the network namespace is another one than the pod asks for;
    no new one is needed only if the first sandbox is ready and no other is, and
    then it names that one; and a single ready sandbox in the host's network
    namespace serves a pod that asks for it.  And of the CRI: a status is that of
    the sandbox asked for, the identifiers in a list are distinct and not empty,
    and a CRI or decoding error is not the missing-file error of package [os]. *)
Definition network_mode `{PodLib} (p : pod) : NamespaceMode := if pod_HostNetwork p then ModeNode else ModePod.

Class CRILaws `{CRI} := {
  changed_empty : ∀ p ps, ps_SandboxStatuses ps = [] → PodSandboxChanged p ps = (true, "");
  changed_names : ∀ p ps st sts, ps_SandboxStatuses ps = st :: sts →
    (PodSandboxChanged p ps).2 = st_Id st ∨
    PodSandboxChanged p ps = (true, "") ∧ st_NetworkMode st ≠ network_mode p;
  changed_unneeded : ∀ p ps st sts, ps_SandboxStatuses ps = st :: sts →
    (PodSandboxChanged p ps).1 = false →
    (PodSandboxChanged p ps).2 = st_Id st ∧ st_Ready st = true ∧ Forall (λ st, st_Ready st = false) sts;
  changed_host : ∀ p ps st, ps_SandboxStatuses ps = [st] → st_Ready st = true →
    pod_HostNetwork p = true → st_NetworkMode st = ModeNode → (PodSandboxChanged p ps).1 = false;
  status_id : ∀ id rt st rt', PodSandboxStatus id rt = (Ok st, rt') → st_Id st = id;
  list_ids : ∀ f rt items rt', ListPodSandbox f rt = (Ok items, rt') →
    NoDup (sb_Id <$> items) ∧ Forall (λ sb, sb_Id sb ≠ "") items;
  list_error : ∀ f rt e rt',
    ListPodSandbox f rt = (Err e, rt') → errors_Is_ErrNotExist e = false;
  status_error : ∀ id rt e rt',
    PodSandboxStatus id rt = (Err e, rt') → errors_Is_ErrNotExist e = false;
  decode_error : ∀ text e, decode_pod text = Err e → errors_Is_ErrNotExist e = false
}.

Lemma act_bind_Ok `{CRI} {A B} (m : act A) (f : A → act B) flt w b w' :
  (m ≫= f) flt w = (Ok b, w') ↔ ∃ a w1, m flt w = (Ok a, w1) ∧ f a flt w1 = (Ok b, w').
Proof.
  unfold mbind, act_bind. destruct (m flt w) as [[a|e] w1]; split; [naive_solver..|done|].
  by intros (? & ? & ? & ?).
Qed.

Lemma act_bind_Err `{CRI} {A B} (m : act A) (f : A → act B) flt w e w' :
  (m ≫= f) flt w = (Err e, w') →
  m flt w = (Err e, w') ∨ ∃ a w1, m flt w = (Ok a, w1) ∧ f a flt w1 = (Err e, w').
Proof. unfold mbind, act_bind. destruct (m flt w) as [[a|e'] w1]; naive_solver. Qed.

Section laws.
Context `{CRI}.
Implicit Types (p : pod) (sb : PodSandbox) (w : world) (ps : PodStatus).

(** [w'] differs from [w] in the state of the runtime only. *)
Definition rt_only w w' : Prop := w_fs w' = w_fs w ∧ w_removed w' = w_removed w.

Lemma on_rt_inv {A} (f : runtime → result A * runtime) flt w r w' :
  on_rt f flt w = (r, w') → f (w_rt w) = (r, w_rt w') ∧ rt_only w w'.
Proof. unfold on_rt. destruct (f (w_rt w)) eqn:E. intros. by simplify_eq. Qed.

(** The status calls for the listed sandboxes of the pod, one after the other from
    runtime [rt] to [rt']: [sts] are the answers, and a sandbox that is not found
    any more is left out. *)
Inductive answered p : list PodSandbox → runtime → list SandboxStatus → runtime → Prop :=
  | answered_nil rt : answered p [] rt [] rt
  | answered_other sb items rt sts rt' :
      of_pod p sb = false → answered p items rt sts rt' → answered p (sb :: items) rt sts rt'
  | answered_gone sb items rt e rt1 sts rt' :
      of_pod p sb = true → PodSandboxStatus (sb_Id sb) rt = (Err e, rt1) → crierror_IsNotFound e = true →
      answered p items rt1 sts rt' → answered p (sb :: items) rt sts rt'
  | answered_status sb items rt st rt1 sts rt' :
      of_pod p sb = true → PodSandboxStatus (sb_Id sb) rt = (Ok st, rt1) →
      answered p items rt1 sts rt' → answered p (sb :: items) rt (st :: sts) rt'.

(** One of those calls fails. *)
Definition status_fails p items (rt : runtime) : Prop :=
  ∃ pre sb post sts rt1 e rt2, items = pre ++ sb :: post ∧ answered p pre rt sts rt1 ∧
    of_pod p sb = true ∧ PodSandboxStatus (sb_Id sb) rt1 = (Err e, rt2) ∧ crierror_IsNotFound e = false.

(** The status the kubelet's code is asked about: the addresses are those of the
    first sandbox, if it is ready. *)
Definition pod_status p (sts : list SandboxStatus) : PodStatus := {|
  ps_ID := pod_UID p; ps_Name := pod_Name p; ps_Namespace := pod_Namespace p;
  ps_SandboxStatuses := sts;
  ps_IPs := match sts with
            | st :: _ => if st_Ready st then determinePodSandboxIPs st else None
            | [] => None
            end
|}.

Lemma status_fails_cons p sb items rt rt1 :
  (∀ pre sts rt', answered p pre rt1 sts rt' → ∃ sts', answered p (sb :: pre) rt sts' rt') →
  status_fails p items rt1 → status_fails p (sb :: items) rt.
Proof.
  intros Hpre (pre & sb' & post & sts & rt2 & e & rt3 & -> & Ha & Hrest).
  apply Hpre in Ha as [sts' Ha]. by exists (sb :: pre), sb', post, sts', rt2, e, rt3.
Qed.

Lemma pod_status_snoc p sts st :
  (if decide (length sts = 0 ∧ st_Ready st = true)
   then set_IPs (determinePodSandboxIPs st) (add_status st (pod_status p sts))
   else add_status st (pod_status p sts)) = pod_status p (sts ++ [st]).
Proof.
  destruct sts as [|st0 sts]; cbn.
  - unfold pod_status, add_status, set_IPs. cbn. by destruct (st_Ready st).
  - by rewrite decide_False by (by intros []).
Qed.

Lemma collect_spec p items pre flt w r w' :
  collect p items (pod_status p pre) (length pre) flt w = (r, w') →
  rt_only w w' ∧
  match r with
  | Ok ps => ∃ sts, answered p items (w_rt w) sts (w_rt w') ∧ ps = pod_status p (pre ++ sts)
  | Err e => status_fails p items (w_rt w) ∧
             ∃ e' id rt rt', e = ErrWithMessage "failed to get pod sandbox status" e' ∧
                             PodSandboxStatus id rt = (Err e', rt')
  end.
Proof.
  revert pre w. induction items as [|sb items IH]; intros pre w; cbn [collect].
  { intros [= <- <-]. split; [done|]. exists []. rewrite app_nil_r. split; [constructor|done]. }
  destruct (of_pod p sb) eqn:Hsb.
  2:{ intros [Hw Hr]%IH. split; [done|]. destruct r as [ps|e].
      - destruct Hr as (sts & Ha & ->). exists sts. by split; [constructor|].
      - destruct Hr as [Hf He]. split; [|done]. eapply status_fails_cons, Hf; eauto using answered. }
  unfold act_attempt, mbind, act_bind.
  destruct (on_rt _ flt w) as [[st|e] w1] eqn:E; apply on_rt_inv in E as [Hst [Hf1 Hr1]].
  - rewrite pod_status_snoc. replace (S (length pre)) with (length (pre ++ [st])) by (rewrite length_app; simpl; lia).
    intros [[Hf Hr] Hres]%IH. split; [split; congruence|]. destruct r as [ps|e].
    + destruct Hres as (sts & Ha & ->). exists (st :: sts). rewrite <-(assoc_L (++)).
      split; [by eapply answered_status|done].
    + destruct Hres as [Hfail He]. split; [|done]. eapply status_fails_cons, Hfail; eauto using answered.
  - destruct (crierror_IsNotFound e) eqn:Hnf.
    + intros [[Hf Hr] Hres]%IH. split; [split; congruence|]. destruct r as [ps|e'].
      * destruct Hres as (sts & Ha & ->). exists sts. split; [by eapply answered_gone|done].
      * destruct Hres as [Hfail He]. split; [|done]. eapply status_fails_cons, Hfail; eauto using answered.
    + intros [= <- <-]. split; [done|]. split; [|by eauto 10].
      exists [], sb, items, [], (w_rt w), e, (w_rt w1). by split_and!; [|constructor|..].
Qed.

(** The removals of [ids], requested one after the other. *)
Definition requested (ids : list string) (rt : runtime) : runtime :=
  foldl (λ rt id, (RemovePodSandbox id rt).2) rt ids.

Lemma remove_outdated_spec p sid items b flt w :
  let ids := sb_Id <$> filter (λ sb, outdated p sid sb = true) items in
  remove_outdated p sid items b flt w
  = (Ok (b || bool_decide (ids ≠ [])), World (w_fs w) (requested ids (w_rt w)) (w_removed w ++ ids)).
Proof.
  revert b w. induction items as [|sb items IH]; intros b w; cbn [remove_outdated].
  { rewrite app_nil_r, orb_false_r. by destruct w. }
  rewrite filter_cons. destruct (outdated p sid sb); [|apply IH].
  unfold mbind, act_bind, act_attempt, remove.
  destruct (RemovePodSandbox (sb_Id sb) (w_rt w)) as [r rt] eqn:E.
  rewrite IH, decide_True, fmap_cons by done. cbn [w_fs w_rt w_removed]. unfold requested. cbn [foldl]. rewrite E, <-(assoc_L (++)).
  by destruct b.
Qed.
End laws.

Section check.
Context `{CRILaws}.
Implicit Types (p : pod) (sb : PodSandbox) (w : world) (items : list PodSandbox).

(** The sandboxes to be removed when [sid] is the latest of the pod. *)
Definition outdated_ids p (sid : string) items : list string :=
  sb_Id <$> filter (λ sb, outdated p sid sb = true) items.

Lemma outdated_ids_nil p sid items :
  outdated_ids p sid items = [] ↔ Forall (λ sb, outdated p sid sb = false) items.
Proof.
  unfold outdated_ids. split; intros Hx.
  - apply fmap_nil_inv in Hx. apply Forall_forall. intros sb Hsb. destruct (outdated p sid sb) eqn:E; [|done].
    assert (sb ∈ filter (λ sb, outdated p sid sb = true) items) as Hin
      by (by apply list_elem_of_filter). rewrite Hx in Hin. by apply elem_of_nil in Hin.
  - induction Hx as [|sb l Hsb ? IH]; [done|]. rewrite filter_cons, Hsb. by rewrite decide_False.
Qed.

Lemma answered_ids p items rt sts rt' st :
  answered p items rt sts rt' → st ∈ sts → ∃ sb, sb ∈ items ∧ of_pod p sb = true ∧ sb_Id sb = st_Id st.
Proof.
  induction 1 as [|sb items rt sts rt' Hof _ IH|sb items rt e rt1 sts rt' Hof He _ _ IH
    |sb items rt st0 rt1 sts rt' Hof Hst _ IH]; intros Hin.
  - by apply elem_of_nil in Hin.
  - destruct (IH Hin) as (sb' & ? & ?). exists sb'. by split; [right|].
  - destruct (IH Hin) as (sb' & ? & ?). exists sb'. by split; [right|].
  - apply elem_of_cons in Hin as [->|Hin]; [|destruct (IH Hin) as (sb' & ? & ?); exists sb'; by split; [right|]].
    exists sb. apply status_id in Hst. by split_and!; [left|..].
Qed.

(** The sandbox the kubelet's code names. *)
Definition named p (sts : list SandboxStatus) (needed : bool) (sid : string) : Prop :=
  match sts with
  | [] => needed = true ∧ sid = ""
  | st :: rest =>
      (sid = st_Id st ∨ sid = "" ∧ needed = true ∧ st_NetworkMode st ≠ network_mode p) ∧
      (needed = false → sid = st_Id st ∧ st_Ready st = true ∧ Forall (λ st, st_Ready st = false) rest)
  end.

Lemma changed_named p sts needed sid : PodSandboxChanged p (pod_status p sts) = (needed, sid) → named p sts needed sid.
Proof.
  intros HP. destruct sts as [|st rest].
  - by rewrite changed_empty in HP by done; simplify_eq.
  - pose proof (changed_names p (pod_status p (st :: rest)) st rest eq_refl) as Hn.
    pose proof (changed_unneeded p (pod_status p (st :: rest)) st rest eq_refl) as Hu.
    rewrite HP in Hn, Hu. split; [|exact Hu]. destruct Hn as [|[[= -> ->] ?]]; [by left|by right].
Qed.

(** What a check does once the sandboxes are listed. *)
Definition checked p items (rt : runtime) (r : result unit) (ids : list string) (rt' : runtime) : Prop :=
  ∃ sts rt1 needed sid, answered p items rt sts rt1 ∧
    PodSandboxChanged p (pod_status p sts) = (needed, sid) ∧ named p sts needed sid ∧
    ids = outdated_ids p sid items ∧ rt' = requested ids rt1 ∧ (r = Ok () ↔ ids = [] ∧ needed = false).

Lemma check_sandboxes_spec p items flt w r w' :
  check_sandboxes p items flt w = (r, w') →
  w_fs w' = w_fs w ∧
  (∀ e, r = Err e → errors_Is_ErrNotExist e = false) ∧
  ((is_Ok r = false ∧ w_removed w' = w_removed w ∧ status_fails p items (w_rt w)) ∨
   ∃ ids, w_removed w' = w_removed w ++ ids ∧ checked p items (w_rt w) r ids (w_rt w')).
Proof.
  unfold check_sandboxes, mbind, act_bind. change (new_status p) with (pod_status p []).
  destruct (collect p items (pod_status p []) 0 flt w) as [[ps|e] w1] eqn:Hc;
    apply (collect_spec p items []) in Hc as [[Hf Hr] Hres].
  2:{ intros [= <- <-]. destruct Hres as (Hfail & e' & id & rt & rt' & -> & He).
      split_and!; [done| |by left]. intros ? [= <-]. simpl. by eapply status_error. }
  destruct Hres as (sts & Ha & ->). cbn [app].
  destruct (PodSandboxChanged p (pod_status p sts)) as [b sid] eqn:HP.
  rewrite remove_outdated_spec. fold (outdated_ids p sid items). cbn [fst snd orb]. intros E.
  set (w2 := World _ _ _) in E.
  assert (w' = w2 ∧ (r = Ok () ↔ outdated_ids p sid items = [] ∧ b = false) ∧
          (∀ e, r = Err e → errors_Is_ErrNotExist e = false)) as (-> & Hok & He).
  { destruct (outdated_ids p sid items) as [|i l]; [destruct b; [case_decide|]|];
      injection E as <- <-; (split; [done|]); split; naive_solver. }
  split_and!; [done|done|]. right. exists (outdated_ids p sid items). split; [cbn; congruence|].
  exists sts, (w_rt w1), b, sid. split_and!; [done|done|by apply changed_named|done|done|done].
Qed.

(** The schedule of failing system calls does not report files as missing. *)
Definition io_faults (flt : faults) : Prop :=
  ∀ k e, flt k = Some e → errors_Is_ErrNotExist e.1 = false.

(** A query of the file system: it changes nothing, and a missing file is
    reported only when there is none. *)
Lemma on_fs_query {A} (eff : tree → result A) flt w r w' :
  io_faults flt → on_fs (syscall (λ t, (eff t, [])) no_partial) flt w = (r, w') →
  nodes (w_fs w') = nodes (w_fs w) ∧ clock (w_fs w') = S (clock (w_fs w)) ∧
  w_rt w' = w_rt w ∧ w_removed w' = w_removed w ∧
  (r = eff (nodes (w_fs w)) ∨
   flt (clock (w_fs w)) ≠ None ∧ ∃ e, r = Err e ∧ errors_Is_ErrNotExist e = false).
Proof.
  intros Hflt. unfold on_fs, syscall. pose proof (Hflt (clock (w_fs w))) as He.
  destruct (flt (clock (w_fs w))) as [[e [k|]]|]; intros [= <- <-]; simpl; split_and!; try done;
    [right; split; [done|]; exists e; split; [done|]; by eapply (He (e, _)); f_equal..|by left].
Qed.

(** The sandboxes for the manifest cannot be listed: it is not there, it is no
    pod, opening or reading it fails, or the runtime does not list. *)
Definition unlisted (path : string) (flt : faults) w : Prop :=
  file_content (nodes (w_fs w)) path = None ∨
  (∃ text e, file_content (nodes (w_fs w)) path = Some text ∧ decode_pod text = Err e) ∨
  flt (clock (w_fs w)) ≠ None ∨ flt (S (clock (w_fs w))) ≠ None ∨
  ∃ text p, file_content (nodes (w_fs w)) path = Some text ∧ decode_pod text = Ok p ∧
            is_Ok (ListPodSandbox (selector p) (w_rt w)).1 = false.

(** How far a call of [checkManifestDeployed] got. *)
Lemma checkManifestDeployed_inv path flt w r w' :
  checkManifestDeployed path flt w = (r, w') → io_faults flt →
  nodes (w_fs w') = nodes (w_fs w) ∧
  ((∃ e, r = Err e ∧ w_removed w' = w_removed w ∧ unlisted path flt w ∧
         (errors_Is_ErrNotExist e = true → nodes (w_fs w) !! Clean path = None ∧ w_rt w' = w_rt w)) ∨
   ∃ text p items w1, file_content (nodes (w_fs w)) path = Some text ∧ decode_pod text = Ok p ∧
     ListPodSandbox (selector p) (w_rt w) = (Ok items, w_rt w1) ∧
     nodes (w_fs w1) = nodes (w_fs w) ∧ w_removed w1 = w_removed w ∧
     check_sandboxes p items flt w1 = (r, w')).
Proof.
  intros E Hflt. unfold checkManifestDeployed, mbind, act_bind, act_with_message in E.
  destruct (on_fs (os_Open path) flt w) as [[u|e] w1] eqn:E1;
    apply (on_fs_query (λ t, _) _ _ _ _ Hflt) in E1 as (Hn1 & Hk1 & Hrt1 & Hrm1 & Hr1); simpl in E.
  2:{ simplify_eq. split; [done|]. left. eexists. split_and!; [done..| |].
      - destruct Hr1 as [Hr1|[? _]]; [left|by right; right; left]. unfold file_content. by case_match.
      - simpl. intros He. split; [|done].
        destruct Hr1 as [Hr1|(_ & ? & [= <-] & ?)]; [|congruence]. by case_match. }
  destruct (on_fs (os_ReadFile path) flt w1) as [[text|e] w2] eqn:E2;
    apply (on_fs_query (λ t, _) _ _ _ _ Hflt) in E2 as (Hn2 & _ & Hrt2 & Hrm2 & Hr2); simpl in E.
  2:{ simplify_eq. split; [congruence|]. left. eexists. split_and!; [done|congruence| |].
      - destruct Hr2 as [Hr2|[Hf _]]; [left|by right; right; right; left; rewrite <-Hk1].
        rewrite Hn1 in Hr2. unfold file_content. by repeat case_match; simplify_eq.
      - simpl. intros He. rewrite <-Hn1. split; [|congruence].
        destruct Hr2 as [Hr2|(_ & ? & [= <-] & ?)]; [|congruence]. repeat case_match; by simplify_eq. }
  assert (file_content (nodes (w_fs w)) path = Some text) as Htext.
  { rewrite <-Hn1. unfold file_content. destruct Hr2 as [Hr2|(_ & ? & ? & ?)]; [|done].
    repeat case_match; by simplify_eq. }
  unfold lift_act in E. destruct (decode_pod text) as [p|e] eqn:Hd; simpl in E.
  2:{ simplify_eq. split; [congruence|]. left. eexists. split_and!; [done|congruence|right; left; eauto|].
      simpl. intros He. apply decode_error in Hd. congruence. }
  destruct (on_rt _ flt w2) as [[items|e] w3] eqn:E3; apply on_rt_inv in E3 as [Hl [Hf3 Hrm3]];
    rewrite Hrt2, Hrt1 in Hl; simpl in E.
  2:{ simplify_eq. split; [congruence|]. left. eexists. split_and!; [done|congruence| |].
      - do 4 right. exists text, p. by rewrite Hl.
      - simpl. intros He. apply list_error in Hl. congruence. }
  pose proof (check_sandboxes_spec _ _ _ _ _ _ E) as (Hf & _).
  split; [congruence|]. right. exists text, p, items, w3. split_and!; congruence.
Qed.

(** From [w] to [w'] the runtime said that the manifest at [path] is deployed: it
    listed a single sandbox for it, which has the UID of its pod, and then
    reported it ready, and the kubelet's code wants no other. *)
Definition in_sync (path : string) w w' : Prop :=
  ∃ text p sb st rt, file_content (nodes (w_fs w)) path = Some text ∧ decode_pod text = Ok p ∧
    ListPodSandbox (selector p) (w_rt w) = (Ok [sb], rt) ∧
    at_key (sb_Labels sb) "io.kubernetes.pod.uid" = pod_UID p ∧
    PodSandboxStatus (sb_Id sb) rt = (Ok st, w_rt w') ∧ st_Id st = sb_Id sb ∧ st_Ready st = true ∧
    PodSandboxChanged p (pod_status p [st]) = (false, sb_Id sb) ∧
    nodes (w_fs w') = nodes (w_fs w) ∧ w_removed w' = w_removed w.

(** Items that are all current, under the name of one sandbox, are that one. *)
Lemma single_item p sid items :
  NoDup (sb_Id <$> items) → Forall (λ sb, sb_Id sb ≠ "") items → sid ∈ sb_Id <$> items →
  outdated_ids p sid items = [] → ∃ sb, items = [sb] ∧ sb_Id sb = sid ∧ of_pod p sb = true.
Proof.
  intros Hnd Hne Hin Hids%outdated_ids_nil.
  assert (Forall (λ sb, of_pod p sb = true ∧ sb_Id sb = sid) items) as Hall.
  { rewrite Forall_forall in *. intros sb Hsb. specialize (Hids sb Hsb).
    apply orb_false_iff in Hids as [Hof%negb_false_iff Hid%bool_decide_eq_false]. split; [done|].
    apply list_elem_of_fmap in Hin as (sb0 & -> & Hin0). specialize (Hne _ Hin0).
    destruct (decide (sb_Id sb0 = sb_Id sb)); [done|]. by destruct Hid. }
  destruct items as [|sb [|sb' items]]; [by apply elem_of_nil in Hin| |].
  - apply Forall_singleton in Hall as [? ?]. by exists sb.
  - rewrite !Forall_cons in Hall. destruct Hall as ([_ Hs1] & [_ Hs2] & _).
    rewrite !fmap_cons, NoDup_cons, Hs1, Hs2 in Hnd. destruct Hnd as [Hnd _]. destruct Hnd. left.
Qed.

Lemma answered_single p sb rt sts rt' :
  answered p [sb] rt sts rt' → sts ≠ [] → ∃ st, sts = [st] ∧ PodSandboxStatus (sb_Id sb) rt = (Ok st, rt').
Proof.
  intros Ha Hne. inversion Ha as [|? ? ? ? ? _ Hr|? ? ? ? ? ? ? _ _ _ Hr|? ? ? st ? ? ? _ Hst Hr]; subst;
    inversion Hr; subst; [done..|by exists st].
Qed.

Lemma checked_in_sync path flt w w' :
  io_faults flt → checkManifestDeployed path flt w = (Ok (), w') → in_sync path w w'.
Proof.
  intros Hflt E. apply checkManifestDeployed_inv in E as [Hn [(e & ? & _)|Hx]]; [done| |done].
  destruct Hx as (text & p & items & w1 & Ht & Hd & Hl & _ & Hr1 & E).
  apply check_sandboxes_spec in E as (_ & _ & [[? _]|(ids & Hrm & Hc)]); [done|].
  destruct Hc as (sts & rt1 & needed & sid & Ha & HP & Hnamed & Hids & Hrt & Hok).
  destruct (proj1 Hok eq_refl) as [-> ->].
  destruct sts as [|st sts]; [by destruct Hnamed|]. destruct Hnamed as [_ Hlatest].
  destruct (Hlatest eq_refl) as (-> & Hready & _).
  destruct (list_ids _ _ _ _ Hl) as [Hnd Hne].
  destruct (single_item p (st_Id st) items Hnd Hne) as (sb & -> & Hid & Hof); [|done|].
  { destruct (answered_ids _ _ _ _ _ st Ha) as (sb & Hin & _ & <-); [left|].
    apply list_elem_of_fmap. by exists sb. }
  apply answered_single in Ha as (st' & [= -> ->] & Hst); [|done]. cbn in Hrt. subst rt1.
  exists text, p, sb, st', (w_rt w1). rewrite Hid. apply bool_decide_eq_true in Hof.
  rewrite app_nil_r in Hrm. rewrite Hid in Hst. split_and!; try done; congruence.
Qed.

(** From [w] to [w'] each of the pods in turn has no manifest or is in sync with
    it. *)
Inductive pods_in_sync (dir : string) : list string → world → world → Prop :=
  | sync_done w : pods_in_sync dir [] w w
  | sync_missing name pods w w1 w' :
      nodes (w_fs w) !! Clean (filepath_Join [dir; name +:+ ".yaml"]) = None →
      nodes (w_fs w1) = nodes (w_fs w) → w_rt w1 = w_rt w → w_removed w1 = w_removed w →
      pods_in_sync dir pods w1 w' → pods_in_sync dir (name :: pods) w w'
  | sync_checked name pods w w1 w' :
      in_sync (filepath_Join [dir; name +:+ ".yaml"]) w w1 →
      pods_in_sync dir pods w1 w' → pods_in_sync dir (name :: pods) w w'.

Lemma check_pods_spec dir pods flt w w' :
  io_faults flt → check_pods dir pods flt w = (Ok true, w') → pods_in_sync dir pods w w'.
Proof.
  intros Hflt. revert w. induction pods as [|name pods IH]; intros w; cbn [check_pods].
  { intros [= <-]. constructor. }
  set (path := filepath_Join [dir; name +:+ ".yaml"]). unfold mbind, act_bind, act_attempt.
  destruct (checkManifestDeployed path flt w) as [[[]|e] w1] eqn:Ec.
  - intros Hp%IH. eapply sync_checked; [by eapply checked_in_sync|done].
  - pose proof (checkManifestDeployed_inv _ _ _ _ _ Ec Hflt) as [Hn Hcase].
    destruct (errors_Is_ErrNotExist e) eqn:He; [|done]. intros Hp%IH.
    destruct Hcase as [(e' & [= <-] & Hrm & _ & Hm)|Hx].
    + destruct (Hm He) as [Hnone Hrt]. by eapply sync_missing.
    + destruct Hx as (? & ? & ? & ? & _ & _ & _ & _ & _ & Hx).
      apply check_sandboxes_spec in Hx as (_ & Hx & _). specialize (Hx _ eq_refl). congruence.
Qed.

(** A poll that finds both pods in sync: over one connection to the runtime. *)
Definition poll_in_sync (endpoint dataDir : string) w w' : Prop :=
  ∃ rt w2, Connection (if decide (endpoint = "") then ContainerdSock else endpoint) (w_rt w) = (Ok (), rt) ∧
    pods_in_sync (PodManifestsDir dataDir) ["etcd"; "kube-apiserver"] (World (w_fs w) rt (w_removed w)) w2 ∧
    w' = World (w_fs w2) (Close (w_rt w2)) (w_removed w2).

Lemma reconcile_body_spec endpoint dataDir flt w w' :
  io_faults flt → reconcile_body endpoint dataDir flt w = (Ok true, w') → poll_in_sync endpoint dataDir w w'.
Proof.
  intros Hflt. unfold reconcile_body, with_connection, mbind, act_bind, act_attempt.
  destruct (on_rt _ flt w) as [[u|e] w1] eqn:Ec; [|done]. apply on_rt_inv in Ec as [Hc [Hf Hr]]. destruct u.
  destruct (check_pods _ _ flt w1) as [[b'|e] w2] eqn:E; [|done].
  intros [= -> <-]. apply check_pods_spec in E; [|done].
  exists (w_rt w1), w2. split_and!; [done| |done]. rewrite <-Hf, <-Hr. by destruct w1.
Qed.

(** [k] polls that ask for a retry, with what the rest of the system does after
    each. *)
Inductive retries (env : nat → world → world) (condition : act bool) (flt : faults)
    : nat → world → world → Prop :=
  | retries_none w : retries env condition flt 0 w w
  | retries_once k w w1 w2 :
      retries env condition flt k w w1 → condition flt w1 = (Ok false, w2) →
      retries env condition flt (S k) w (env k w2).

Lemma poll_true env polls k (condition : act bool) flt w0 w w' :
  retries env condition flt k w0 w → poll env polls k condition flt w = (Ok true, w') →
  ∃ n w1, n < k + polls ∧ retries env condition flt n w0 w1 ∧ condition flt w1 = (Ok true, w').
Proof.
  revert k w. induction polls as [|polls IH]; intros k w Hr; cbn [poll]; [done|].
  unfold mbind, act_bind. destruct (condition flt w) as [[[]|e] w1] eqn:E; [| |done].
  - intros [= <-]. exists k, w. split_and!; [lia|done|done].
  - intros Hp. destruct (IH (S k) (env k w1)) as (n & w2 & ? & ? & ?); [by eapply retries_once|done|].
    exists n, w2. split_and!; [lia|done|done].
Qed.
End check.

Section properties.
Context `{CRILaws}.

(** C12: [checkManifestDeployed] reports success only when, during that very call,
    the runtime lists exactly one sandbox for the manifest on disk, that sandbox
    has the UID of the manifest's pod, the runtime reports it ready in answer to
    the next call, and the kubelet's code needs no other; the call then requests
    no removal and leaves the disk alone. *)
Theorem checkManifestDeployed_synced path flt w w' :
  io_faults flt → checkManifestDeployed path flt w = (Ok (), w') → in_sync path w w'.
Proof. apply checked_in_sync. Qed.

(** C13: What [checkManifestDeployed] requests to be removed.  Either the sandboxes
    for the manifest cannot be listed (no manifest, no pod in it, a failing system
    call, an error of the runtime) or a status call fails: then it fails and
    requests nothing.  Or the status calls are answered ([sts]): then it requests
    the removal of exactly the listed sandboxes that have another UID than the
    manifest's pod or are not the one the kubelet's code names for those answers
    ([sid]), one after the other; that one is the first that answered, or none
    when no sandbox answered or the first is in another network namespace than
    the pod wants, and then every sandbox of the pod is kept.  It succeeds if and
    only if there was nothing to remove and no new sandbox is needed. *)
Theorem checkManifestDeployed_removes path flt w r w' :
  io_faults flt → checkManifestDeployed path flt w = (r, w') →
  (is_Ok r = false ∧ w_removed w' = w_removed w ∧
   (unlisted path flt w ∨
    ∃ text p items rt, file_content (nodes (w_fs w)) path = Some text ∧ decode_pod text = Ok p ∧
      ListPodSandbox (selector p) (w_rt w) = (Ok items, rt) ∧ status_fails p items rt)) ∨
  ∃ text p items rt sts rt1 needed sid,
    file_content (nodes (w_fs w)) path = Some text ∧ decode_pod text = Ok p ∧
    ListPodSandbox (selector p) (w_rt w) = (Ok items, rt) ∧ answered p items rt sts rt1 ∧
    PodSandboxChanged p (pod_status p sts) = (needed, sid) ∧ named p sts needed sid ∧
    let ids := sb_Id <$> filter (λ sb, at_key (sb_Labels sb) "io.kubernetes.pod.uid" ≠ pod_UID p ∨
                                       (sid ≠ "" ∧ sid ≠ sb_Id sb)) items in
    w_removed w' = w_removed w ++ ids ∧ w_rt w' = requested ids rt1 ∧ (r = Ok () ↔ ids = [] ∧ needed = false).
Proof.
  intros Hflt E. apply checkManifestDeployed_inv in E as [_ [(e & -> & Hr & Hu & _)|Hx]]; [left; auto| |done].
  destruct Hx as (text & p & items & w1 & Ht & Hd & Hl & _ & Hr & E).
  apply check_sandboxes_spec in E as (_ & _ & [(Hne & Hr' & Hf)|(ids & Hrm & Hc)]).
  { left. split_and!; [done|congruence|]. right. by exists text, p, items, (w_rt w1). }
  destruct Hc as (sts & rt1 & needed & sid & Ha & HP & Hnamed & Hids & Hrt & Hok). right.
  exists text, p, items, (w_rt w1), sts, rt1, needed, sid. do 6 (split; [done|]).
  assert (ids = sb_Id <$> filter (λ sb, at_key (sb_Labels sb) "io.kubernetes.pod.uid" ≠ pod_UID p ∨
                                        (sid ≠ "" ∧ sid ≠ sb_Id sb)) items) as <-.
  { rewrite Hids. apply (f_equal (fmap sb_Id)), list_filter_iff. intros sb. unfold outdated, of_pod.
    by rewrite orb_true_iff, negb_true_iff, bool_decide_eq_false, bool_decide_eq_true. }
  by rewrite Hrm, Hr.
Qed.

Lemma reconcile_Synced env polls cancelled endpoint dataDir flt w w' :
  io_faults flt →
  reconcileStaticPods env polls cancelled endpoint dataDir flt w = (Ok Synced, w') →
  ∃ k w1, k < polls ∧ retries env (reconcile_body endpoint dataDir) flt k w w1 ∧
          poll_in_sync endpoint dataDir w1 w'.
Proof.
  intros Hflt. unfold reconcileStaticPods, mbind, act_bind.
  destruct (poll _ _ _ _ flt w) as [[[]|e] w1] eqn:E; [|by destruct cancelled|done].
  intros [= <-]. eapply poll_true in E as (k & w2 & Hk & Hr & Hb); [|constructor].
  exists k, w2. split_and!; [done|done|by apply (reconcile_body_spec _ _ flt)].
Qed.

(** Unless the context has ended, the channel that the other components wait for
    closes only in a state that follows a poll in which etcd and kube-apiserver
    were in sync with their manifests. *)
Theorem apiserverSyncAndReady_synced env polls endpoint dataDir api_ready flt w w' :
  io_faults flt →
  apiserverSyncAndReady env polls false endpoint dataDir api_ready flt w = (Ok true, w') →
  ∃ k w1 w2, retries env (reconcile_body endpoint dataDir) flt k w w1 ∧
    poll_in_sync endpoint dataDir w1 w2 ∧ api_ready flt w2 = (Ok true, w').
Proof.
  intros Hflt. unfold apiserverSyncAndReady, mbind at 1, act_bind at 1.
  destruct (reconcileStaticPods _ _ _ _ _ flt w) as [[[]|e] w2] eqn:E; [| |done|done].
  - intros Hready. apply reconcile_Synced in E as (k & w1 & _ & Hr & Hp); [|done]. by exists k, w1, w2.
  - unfold reconcileStaticPods, mbind, act_bind in E.
    by destruct (poll _ _ _ _ flt w) as [[[]|?] ?].
Qed.

(** C11: When [reconcileStaticPods] returns because the pods are synced, then after
    some number of polls that asked for a retry, whatever the rest of the system
    did after each of them, its last poll found in one pass, first for etcd and
    then for kube-apiserver, either no manifest on disk or the runtime in sync
    with it: exactly one sandbox listed, of the manifest's pod, reported ready. *)
Theorem reconcileStaticPods_synced env polls cancelled endpoint dataDir flt w w' :
  io_faults flt →
  reconcileStaticPods env polls cancelled endpoint dataDir flt w = (Ok Synced, w') →
  ∃ k w1, k < polls ∧ retries env (reconcile_body endpoint dataDir) flt k w w1 ∧
          poll_in_sync endpoint dataDir w1 w'.
Proof. apply reconcile_Synced. Qed.
End properties.

(** ** Convergence on a runtime that does what it is asked *)

(** The sandbox has every label of the filter. *)
Definition selects (f : gmap string string) (sb : PodSandbox) : bool :=
  bool_decide (map_Forall (λ k v, sb_Labels sb !! k = Some v) f).

(** A runtime whose calls succeed: it lists what it has, in a fixed order, and
    forgets a sandbox that is removed. *)
Class HealthyCRI `{CRI} := {
  view : runtime → list (PodSandbox * SandboxStatus);
  healthy_list : ∀ f rt, ∃ rt', view rt' = view rt ∧
    ListPodSandbox f rt = (Ok (filter (λ x, selects f x.1 = true) (view rt)).*1, rt');
  healthy_status : ∀ sb st rt, (sb, st) ∈ view rt →
    ∃ rt', PodSandboxStatus (sb_Id sb) rt = (Ok st, rt') ∧ view rt' = view rt;
  healthy_remove : ∀ id rt, ∃ rt', RemovePodSandbox id rt = (Ok (), rt') ∧
    view rt' = filter (λ x, sb_Id x.1 ≠ id) (view rt);
  healthy_ids : ∀ rt, NoDup ((λ x, sb_Id x.1) <$> view rt)
}.

Section converge.
Context `{CRILaws} `{!HealthyCRI}.
Implicit Types (p : pod) (w : world) (l : list (PodSandbox * SandboxStatus)).

Lemma filter_fst (P : PodSandbox → bool) l :
  filter (λ sb, P sb = true) l.*1 = (filter (λ x, P x.1 = true) l).*1.
Proof.
  induction l as [|[sb st] l IH]; [done|]. rewrite fmap_cons, !filter_cons. simpl.
  rewrite IH. by destruct (P sb).
Qed.

Lemma collect_healthy p l pre flt w :
  l ⊆ view (w_rt w) →
  ∃ w', collect p l.*1 (pod_status p pre) (length pre) flt w
        = (Ok (pod_status p (pre ++ (filter (λ x, of_pod p x.1 = true) l).*2)), w') ∧
    view (w_rt w') = view (w_rt w) ∧ w_fs w' = w_fs w.
Proof.
  revert pre w. induction l as [|[sb st] l IH]; intros pre w Hl.
  { exists w. by rewrite app_nil_r. }
  rewrite fmap_cons. cbn [collect fst].
  assert (l ⊆ view (w_rt w)) as Hl' by set_solver. rewrite filter_cons. simpl.
  destruct (of_pod p sb); [|by apply IH].
  destruct (healthy_status sb st (w_rt w)) as (rt & Hst & Hv); [set_solver|].
  unfold mbind, act_bind, act_attempt, on_rt. rewrite Hst, pod_status_snoc.
  destruct (IH (pre ++ [st]) (World (w_fs w) rt (w_removed w))) as (w' & E & Hw & Hf); [simpl; by rewrite Hv|].
  exists w'. rewrite length_app, Nat.add_1_r in E. rewrite E, Hw, <-(assoc_L (++)). simpl. by rewrite Hf.
Qed.

Lemma requested_view ids rt : view (requested ids rt) = filter (λ x, sb_Id x.1 ∉ ids) (view rt).
Proof.
  revert rt. induction ids as [|id ids IH]; intros rt; cbn [requested foldl].
  { symmetry. apply filter_all, Forall_true. intros x ?%elem_of_nil. done. }
  fold (requested ids (RemovePodSandbox id rt).2).
  destruct (healthy_remove id rt) as (rt' & -> & Hv). cbn [snd]. rewrite IH, Hv, list_filter_filter.
  apply list_filter_iff. intros x. simpl. rewrite not_elem_of_cons. tauto.
Qed.

(** The sandboxes the runtime has for a pod, with their statuses. *)
Definition matching p w : list (PodSandbox * SandboxStatus) :=
  filter (λ x, selects (selector p) x.1 = true) (view (w_rt w)).

Lemma check_run path text p w :
  file_content (nodes (w_fs w)) path = Some text → decode_pod text = Ok p →
  ∃ w1, checkManifestDeployed path no_faults w
        = check_sandboxes p (matching p w).*1 no_faults w1 ∧
        nodes (w_fs w1) = nodes (w_fs w) ∧ view (w_rt w1) = view (w_rt w).
Proof.
  intros Ht Hd. unfold checkManifestDeployed, mbind, act_bind, act_with_message, on_fs, on_rt.
  unfold os_Open, os_ReadFile, syscall, no_faults, lift_act. unfold file_content in Ht.
  cbn -[Clean].
  destruct (nodes (w_fs w) !! Clean path) as [[]|] eqn:En; simplify_eq. cbn -[Clean].
  rewrite Hd. cbn -[Clean].
  destruct (healthy_list (selector p) (w_rt w)) as (rt & Hv & ->). eexists. by split.
Qed.

Lemma check_sandboxes_healthy p l w :
  l ⊆ view (w_rt w) →
  let '(b, sid) := PodSandboxChanged p (pod_status p (filter (λ x, of_pod p x.1 = true) l).*2) in
  let rw := check_sandboxes p l.*1 no_faults w in
  w_fs rw.2 = w_fs w ∧
  view (w_rt rw.2) = filter (λ x, sb_Id x.1 ∉ outdated_ids p sid l.*1) (view (w_rt w)) ∧
  (outdated_ids p sid l.*1 = [] → b = false → rw.1 = Ok ()).
Proof.
  intros Hl. destruct (collect_healthy p l [] no_faults w Hl) as (w1 & E & Hv & Hf).
  set (sts := (filter _ l).*2) in *. destruct (PodSandboxChanged p (pod_status p sts)) as [b sid] eqn:HP. cbv zeta.
  unfold check_sandboxes, mbind, act_bind. change (new_status p) with (pod_status p []).
  cbn [length app] in E. rewrite E, HP, remove_outdated_spec. fold (outdated_ids p sid l.*1).
  cbn [orb]. rewrite <-Hv, <-Hf, <-requested_view.
  destruct (outdated_ids p sid l.*1); simpl; [|done]. destruct b; [|done]. by case_decide.
Qed.

(** Among listed sandboxes with distinct identifiers, exactly the latest one of
    the pod survives the removal of the outdated ones. *)
Lemma survivors p l sb st :
  NoDup ((λ x, sb_Id x.1) <$> l) → (sb, st) ∈ l → of_pod p sb = true → sb_Id sb ≠ "" →
  filter (λ x, sb_Id x.1 ∉ outdated_ids p (sb_Id sb) l.*1) l = [(sb, st)].
Proof.
  intros Hnd Hin Hof Hne.
  assert (∀ x, x ∈ l → sb_Id x.1 ∉ outdated_ids p (sb_Id sb) l.*1 ↔ x = (sb, st)) as Hiff.
  { assert (∀ x y, x ∈ l → y ∈ l → sb_Id x.1 = sb_Id y.1 → x = y) as Hinj.
    { intros x y [i Hi]%list_elem_of_lookup [j Hj]%list_elem_of_lookup Heq.
      assert (i = j) as ->; [|congruence].
      eapply NoDup_lookup; [done|rewrite list_lookup_fmap, Hi; done|].
      rewrite list_lookup_fmap, Hj. simpl. by f_equal. }
    intros x Hx. unfold outdated_ids. rewrite filter_fst, list_elem_of_fmap.
    setoid_rewrite list_elem_of_fmap. setoid_rewrite list_elem_of_filter. split.
    - intros Hno. apply Hinj; [done..|]. simpl. apply dec_stable. intros Hid. apply Hno.
      exists x.1. split; [done|]. exists x. split_and!; [done| |done].
      unfold outdated. rewrite orb_true_iff, bool_decide_eq_true. right. auto.
    - intros -> (sb' & Heq & y & -> & Hout & Hy).
      apply Hinj in Heq; [|done..]. subst y. unfold outdated in Hout. simpl in Hout.
      rewrite Hof, orb_true_iff, bool_decide_eq_true in Hout. naive_solver. }
  clear Hof Hne. revert Hnd Hin Hiff. generalize (outdated_ids p (sb_Id sb) l.*1). intros ids.
  induction l as [|x l IH]; intros Hnd Hin Hiff; [by apply elem_of_nil in Hin|].
  rewrite fmap_cons, NoDup_cons, list_elem_of_fmap in Hnd. destruct Hnd as [Hx Hnd].
  destruct (Hiff x ltac:(constructor)) as [Hout Heq].
  rewrite filter_cons. destruct (decide _) as [Hd|Hd].
  - specialize (Hout Hd). subst x. f_equal. apply filter_none, Forall_forall. intros y Hy Hy'%Hiff; [|by constructor].
    subst y. apply Hx. eauto.
  - apply IH; [done| |intros; apply Hiff; by constructor].
    apply elem_of_cons in Hin as [Hx0|?]; [|done]. destruct Hd. by apply Heq.
Qed.

Lemma matching_subseteq p w : matching p w ⊆ view (w_rt w).
Proof. intros x. unfold matching. rewrite list_elem_of_filter. tauto. Qed.

Lemma current_id p w sb st rest :
  filter (λ x, of_pod p x.1 = true) (matching p w) = (sb, st) :: rest →
  (sb, st) ∈ matching p w ∧ of_pod p sb = true ∧ st_Id st = sb_Id sb ∧ sb_Id sb ≠ "".
Proof.
  intros Hc.
  assert ((sb, st) ∈ filter (λ x, of_pod p x.1 = true) (matching p w)) as Hin
    by (rewrite Hc; constructor).
  apply list_elem_of_filter in Hin as [Hof Hin]. split_and!; [done..| |].
  - destruct (healthy_status sb st (w_rt w)) as (rt & Hst & _); [by eapply matching_subseteq|].
    by apply status_id in Hst.
  - destruct (healthy_list (selector p) (w_rt w)) as (rt & _ & Hl). apply list_ids in Hl.
    rewrite Forall_forall in Hl. apply Hl, list_elem_of_fmap. by exists (sb, st).
Qed.

(** One check leaves the latest sandbox of the pod as its only one. *)
Lemma check_leaves_latest path text p w sb st rest :
  file_content (nodes (w_fs w)) path = Some text → decode_pod text = Ok p →
  filter (λ x, of_pod p x.1 = true) (matching p w) = (sb, st) :: rest →
  st_NetworkMode st = network_mode p →
  let w1 := (checkManifestDeployed path no_faults w).2 in
  nodes (w_fs w1) = nodes (w_fs w) ∧ matching p w1 = [(sb, st)].
Proof.
  intros Ht Hd Hc Hmode. destruct (current_id _ _ _ _ _ Hc) as (Hin & Hof & Hid & Hne).
  destruct (check_run _ _ _ _ Ht Hd) as (w0 & -> & Hn & Hv).
  pose proof (check_sandboxes_healthy p (matching p w) w0) as Hx. rewrite Hv in Hx.
  specialize (Hx (matching_subseteq p w)). rewrite Hc in Hx. cbn [fmap list_fmap snd] in Hx.
  pose proof (changed_names p (pod_status p (st :: rest.*2)) st rest.*2 eq_refl) as [Hl|[_ Hl]]; [|done].
  rewrite Hid in Hl. change (snd <$> rest) with (rest.*2) in Hx.
  destruct (PodSandboxChanged p _) as [b sid]. simpl in Hl. subst sid.
  destruct Hx as (Hf & Hv' & _). split; [by rewrite Hf|].
  unfold matching at 1. rewrite Hv', list_filter_filter.
  rewrite <-(survivors p (matching p w) sb st); [|by apply NoDup_fmap_filter, healthy_ids|done..].
  generalize (outdated_ids p (sb_Id sb) (matching p w).*1). intros ids.
  unfold matching. rewrite list_filter_filter. apply list_filter_iff. tauto.
Qed.

(** C10: On a runtime whose calls succeed, when no system call fails and the
    manifest holds a pod on the host's network, and the first sandbox listed with
    the pod's UID is ready and in the host's network namespace,
    [checkManifestDeployed] converges: one call removes every other sandbox it
    lists, and the next call reports success. *)
Theorem checkManifestDeployed_converges path text p w sb st rest :
  file_content (nodes (w_fs w)) path = Some text → decode_pod text = Ok p →
  pod_HostNetwork p = true →
  filter (λ x, of_pod p x.1 = true) (matching p w) = (sb, st) :: rest →
  st_Ready st = true → st_NetworkMode st = ModeNode →
  let w1 := (checkManifestDeployed path no_faults w).2 in
  matching p w1 = [(sb, st)] ∧ (checkManifestDeployed path no_faults w1).1 = Ok ().
Proof.
  intros Ht Hd Hhost Hc Hready Hmode w1. destruct (current_id _ _ _ _ _ Hc) as (_ & Hof & Hid & Hne).
  assert (st_NetworkMode st = network_mode p) as Hm by (unfold network_mode; by rewrite Hhost).
  destruct (check_leaves_latest _ _ _ _ _ _ _ Ht Hd Hc Hm) as [Hn Hone]. split; [done|].
  fold w1 in Hn, Hone. rewrite <-Hn in Ht.
  destruct (check_run _ _ _ _ Ht Hd) as (w0 & -> & _ & Hv).
  pose proof (check_sandboxes_healthy p (matching p w1) w0) as Hx. rewrite Hv in Hx.
  specialize (Hx (matching_subseteq p w1)). rewrite Hone in Hx |- *.
  rewrite (filter_all (λ x, of_pod p x.1 = true) [(sb, st)]) in Hx by (by constructor).
  change ([(sb, st)].*2) with [st] in Hx.
  pose proof (changed_host p (pod_status p [st]) st eq_refl Hready Hhost Hmode) as Hb.
  pose proof (changed_unneeded p (pod_status p [st]) st [] eq_refl Hb) as (Hl & _ & _). rewrite Hid in Hl.
  destruct (PodSandboxChanged p (pod_status p [st])) as [b sid]. simpl in Hb, Hl. subst.
  destruct Hx as (_ & _ & Hx). apply Hx; [|done]. apply outdated_ids_nil. constructor; [|done].
  unfold outdated. cbn [fst]. rewrite Hof. apply bool_decide_eq_false. tauto.
Qed.
End converge.

Section stop.
Context `{CRI}.

Lemma stop_items_spec items flt w :
  let ids := sb_Id <$> filter (λ sb, from_file sb = true) items in
  ∃ done_ids, done_ids `prefix_of` ids ∧
    w_removed (stop_items items flt w).2 = w_removed w ++ done_ids ∧
    ((stop_items items flt w).1 = Ok () → done_ids = ids).
Proof.
  revert w. induction items as [|sb items IH]; intros w; simpl.
  { exists []. by rewrite app_nil_r. }
  rewrite filter_cons. destruct (from_file sb); [|by apply IH].
  unfold mbind, act_bind, act_with_message.
  pose proof (removals_remove (sb_Id sb) flt w) as Hrm.
  destruct (remove (sb_Id sb) flt w) as [[u|e] w1]; simpl in *.
  - destruct (IH w1) as (ids & Hp & Hr & Hok). exists (sb_Id sb :: ids). split_and!.
    + by apply prefix_cons.
    + by rewrite Hr, Hrm, <-(assoc_L (++)).
    + intros ?. f_equal. by apply Hok.
  - exists [sb_Id sb]. split_and!; [|done|done]. apply prefix_cons, prefix_nil.
Qed.

(** [stopEtcd] requests the removal of etcd sandboxes in the order the
    runtime lists them, of those that come from a manifest file and of no other;
    when it reports success all of them have been requested, and when it fails
    it has stopped after the first removal that failed. *)
Theorem stopEtcd_removes endpoint flt w :
  let '(r, w') := stopEtcd endpoint flt w in
  (is_Ok r = false ∧ w_removed w' = w_removed w) ∨
  ∃ rt items rt' ids, ListPodSandbox etcd_selector rt = (Ok items, rt') ∧
    w_removed w' = w_removed w ++ ids ∧
    ids `prefix_of` sb_Id <$> filter (λ sb, from_file sb = true) items ∧
    (r = Ok () → ids = sb_Id <$> filter (λ sb, from_file sb = true) items).
Proof.
  unfold stopEtcd. destruct (on_rt _ flt w) as [[u|e] w1] eqn:E1;
    apply on_rt_inv in E1 as [_ [_ Hr1]]; [|by left].
  unfold mbind, act_bind, act_with_message.
  destruct (on_rt _ flt w1) as [[items|e] w2] eqn:E2; apply on_rt_inv in E2 as [Hl [_ Hr2]]; simpl.
  2:{ left. split; [done|congruence]. }
  destruct (stop_items_spec items flt w2) as (ids & Hp & Hr & Hok).
  destruct (stop_items items flt w2) as [r w3]. simpl in *. right.
  exists (w_rt w1), items, (w_rt w2), ids. split_and!; [done|congruence|done|done].
Qed.
End stop.

(** ** A concrete runtime

    A list of sandboxes with distinct, non-empty identifiers; the manifest text
    is the UID of its pod. *)
Module SimpleCRI.
#[local] Existing Instance SimpleLib.lib.
#[local] Open Scope bool_scope.

Definition valid (l : list (PodSandbox * SandboxStatus)) : bool :=
  bool_decide (NoDup ((λ x, sb_Id x.1) <$> l)) &&
  bool_decide (Forall (λ x, sb_Id x.1 ≠ "" ∧ st_Id x.2 = sb_Id x.1) l).

Definition rt := { l | valid l = true }.

Lemma valid_iff l : valid l = true ↔ NoDup ((λ x, sb_Id x.1) <$> l) ∧
  Forall (λ x, sb_Id x.1 ≠ "" ∧ st_Id x.2 = sb_Id x.1) l.
Proof. unfold valid. by rewrite andb_true_iff, !bool_decide_eq_true. Qed.

Lemma valid_remove l id : valid l = true → valid (filter (λ x, sb_Id x.1 ≠ id) l) = true.
Proof.
  rewrite !valid_iff. intros [Hn Hf]. split; [by apply NoDup_fmap_filter|by apply Forall_filter].
Qed.

Definition drop_id (id : string) (r : rt) : rt :=
  exist _ (filter (λ x, sb_Id x.1 ≠ id) (proj1_sig r)) (valid_remove _ id (proj2_sig r)).

Definition find_id (id : string) (l : list (PodSandbox * SandboxStatus)) :=
  snd <$> head (filter (λ x, sb_Id x.1 = id) l).

#[export] Instance NamespaceMode_eq_dec : EqDecision NamespaceMode.
Proof. solve_decision. Defined.

Definition changed (p : pod) (ps : PodStatus) : bool * string :=
  match ps_SandboxStatuses ps with
  | [] => (true, "")
  | st :: sts =>
      if negb (st_Ready st) || existsb st_Ready sts then (true, st_Id st)
      else if decide (st_NetworkMode st = network_mode p) then (false, st_Id st)
      else (true, "")
  end.

Definition sample_pod (uid : string) : pod :=
  {| pod_Name := "etcd"; pod_Namespace := "kube-system"; pod_UID := uid;
     pod_Labels := {[ "component" := "etcd"; "tier" := "control-plane" ]};
     pod_Annotations := ∅; c_Name := "etcd"; c_Image := ""; c_Command := []; c_Args := [];
     c_Ports := []; c_Env := []; c_Requests := ∅; c_Limits := ∅; c_LivenessProbe := None;
     c_ReadinessProbe := None; c_StartupProbe := None; c_ImagePullPolicy := "";
     c_Privileged := false; c_VolumeMounts := []; pod_HostNetwork := true;
     pod_PriorityClassName := ""; pod_SecurityContext := None; pod_Volumes := [] |}.

#[export] Instance cri : CRI := {|
  runtime := rt;
  Connection _ r := (Ok (), r);
  Close r := r;
  ListPodSandbox f r := (Ok (filter (λ x, selects f x.1 = true) (proj1_sig r)).*1, r);
  PodSandboxStatus id r := (match find_id id (proj1_sig r) with
                            | Some st => Ok st
                            | None => Err ErrApiNotFound
                            end, r);
  RemovePodSandbox id r := (Ok (), drop_id id r);
  crierror_IsNotFound e := bool_decide (e = ErrApiNotFound);
  PodSandboxChanged := changed;
  ParseIPSloppy ip := bool_decide (ip ≠ "");
  decode_pod text := if decide (text = "") then Err (ErrMsg "EOF") else Ok (sample_pod text)
|}.

Lemma find_id_in id l st :
  find_id id l = Some st → ∃ sb, (sb, st) ∈ l ∧ sb_Id sb = id.
Proof.
  unfold find_id. destruct (filter _ l) as [|[sb st'] l'] eqn:E; [done|]. intros [= ->].
  exists sb. assert ((sb, st) ∈ filter (λ x, sb_Id x.1 = id) l) as Hin by (rewrite E; constructor).
  apply list_elem_of_filter in Hin. tauto.
Qed.

Lemma find_id_valid l sb st :
  valid l = true → (sb, st) ∈ l → find_id (sb_Id sb) l = Some st.
Proof.
  intros [Hnd _]%valid_iff Hin. unfold find_id.
  induction l as [|x l IH]; [by apply elem_of_nil in Hin|].
  rewrite fmap_cons, NoDup_cons in Hnd. destruct Hnd as [Hx Hnd]. rewrite filter_cons.
  apply elem_of_cons in Hin as [<-|Hin]; [by rewrite decide_True|].
  rewrite decide_False; [by apply IH|]. intros Heq. apply Hx, list_elem_of_fmap.
  by exists (sb, st).
Qed.

#[export] Instance cri_laws : CRILaws.
Proof.
  split; simpl; unfold changed.
  - by intros ?? ->.
  - intros p ps st sts ->. destruct (negb _ || _); [by left|]. case_decide; [by left|by right].
  - intros p ps st sts ->. destruct (negb (st_Ready st) || existsb st_Ready sts) eqn:E; [done|].
    apply orb_false_iff in E as [Hr%negb_false_iff Hs]. case_decide; [|done]. intros _. split_and!; [done..|].
    apply Forall_forall. intros st' Hin. apply not_true_iff_false. intros Hst'.
    apply not_true_iff_false in Hs. apply Hs, existsb_exists. exists st'. by rewrite <-list_elem_of_In.
  - intros p ps st -> -> Hhost Hmode. simpl. rewrite decide_True; [done|]. unfold network_mode. by rewrite Hhost.
  - intros id r st r'. destruct (find_id id (proj1_sig r)) as [st'|] eqn:E; [|done].
    intros [= -> _]. apply find_id_in in E as (sb & Hin & <-).
    pose proof (proj2_sig r) as [_ Hf]%valid_iff. rewrite Forall_forall in Hf.
    by apply Hf in Hin as [_ ?].
  - intros f r items r' [= <- _]. pose proof (proj2_sig r) as [Hn Hf]%valid_iff. split.
    + rewrite <-list_fmap_compose. by apply NoDup_fmap_filter.
    + apply Forall_fmap, Forall_filter. eapply Forall_impl; [done|]. by intros ? [].
  - done.
  - intros id r e r'. case_match; by intros [= <- _].
  - intros text e. case_decide; [|done]. by intros [= <-].
Qed.

#[export] Instance healthy : HealthyCRI.
Proof.
  refine {| view (r : @runtime _ cri) := proj1_sig r |}.
  - intros f r. by exists r.
  - intros sb st r Hin. exists r. simpl. by rewrite (find_id_valid _ _ _ (proj2_sig r) Hin).
  - intros id r. by exists (drop_id id r).
  - intros r. by pose proof (proj2_sig r) as [? _]%valid_iff.
Defined.
End SimpleCRI.

#[local] Existing Instance SimpleLib.lib.
#[local] Existing Instance SimpleCRI.cri.
#[local] Existing Instance SimpleCRI.cri_laws.
#[local] Existing Instance SimpleCRI.healthy.

Definition sample_sandbox (id uid : string) (ready : bool) : PodSandbox * SandboxStatus :=
  ({| sb_Id := id; sb_Name := "etcd";
      sb_Labels := {[ "component" := "etcd"; "tier" := "control-plane";
                      "io.kubernetes.pod.namespace" := "kube-system"; pod_uid_label := uid ]};
      sb_Annotations := {[ "kubernetes.io/config.source" := "file" ]} |},
   {| st_Id := id; st_Ready := ready; st_Network := None; st_NetworkMode := ModeNode |}).

(** The manifest of etcd has UID "u2"; the runtime still has a sandbox of the
    pod with UID "u1", and two attempts of the new one. *)
Definition sample_manifests : tree :=
  <["/d/agent/pod-manifests/etcd.yaml" := NFile "u2" 384]> ∅.

Definition sample_runtime (l : list (PodSandbox * SandboxStatus))
    (Hl : SimpleCRI.valid l = true) : world :=
  World (MkFS sample_manifests 0 []) (exist _ l Hl) [].

Definition sample_mixed : world :=
  sample_runtime [sample_sandbox "s3" "u2" true; sample_sandbox "s2" "u2" false;
                  sample_sandbox "s1" "u1" true] eq_refl.

Lemma no_faults_io : io_faults no_faults.
Proof. done. Qed.

Definition sample_synced : world :=
  sample_runtime [sample_sandbox "s3" "u2" true] eq_refl.

Definition etcd_manifest := "/d/agent/pod-manifests/etcd.yaml".

Lemma checkManifestDeployed_synced_witness :
  ∃ w', checkManifestDeployed etcd_manifest no_faults sample_synced = (Ok (), w') ∧
        in_sync etcd_manifest sample_synced w'.
Proof.
  exists (checkManifestDeployed etcd_manifest no_faults sample_synced).2.
  assert (checkManifestDeployed etcd_manifest no_faults sample_synced
    = (Ok (), (checkManifestDeployed etcd_manifest no_faults sample_synced).2)) as E by (vm_compute; reflexivity).
  split; [exact E|]. exact (checkManifestDeployed_synced _ _ _ _ no_faults_io E).
Defined.

Lemma checkManifestDeployed_removes_witness :
  w_removed (checkManifestDeployed etcd_manifest no_faults sample_mixed).2 = ["s2"; "s1"] ∧
  ∃ text p items rt sts rt1 needed sid, decode_pod text = Ok p ∧
    ListPodSandbox (selector p) (w_rt sample_mixed) = (Ok items, rt) ∧
    answered p items rt sts rt1 ∧ PodSandboxChanged p (pod_status p sts) = (needed, sid) ∧
    ["s2"; "s1"] = sb_Id <$> filter (λ sb, at_key (sb_Labels sb) "io.kubernetes.pod.uid" ≠ pod_UID p ∨
                                           (sid ≠ "" ∧ sid ≠ sb_Id sb)) items.
Proof.
  assert (w_removed (checkManifestDeployed etcd_manifest no_faults sample_mixed).2 = ["s2"; "s1"]) as Hrm
    by (vm_compute; reflexivity).
  split; [exact Hrm|].
  destruct (checkManifestDeployed_removes etcd_manifest no_faults sample_mixed
    (checkManifestDeployed etcd_manifest no_faults sample_mixed).1
    (checkManifestDeployed etcd_manifest no_faults sample_mixed).2 no_faults_io (surjective_pairing _))
    as [(_ & Hr & _)|(text & p & items & rt & sts & rt1 & needed & sid & Ht & Hd & Hl & Ha & HP & _ & Hids & _)].
  { rewrite Hrm in Hr. discriminate Hr. }
  exists text, p, items, rt, sts, rt1, needed, sid. do 4 (split; [assumption|]). by rewrite Hrm in Hids.
Defined.

Lemma checkManifestDeployed_converges_witness :
  (checkManifestDeployed etcd_manifest no_faults
     (checkManifestDeployed etcd_manifest no_faults sample_mixed).2).1 = Ok ().
Proof.
  refine (proj2 (checkManifestDeployed_converges etcd_manifest "u2" (SimpleCRI.sample_pod "u2")
    sample_mixed (sample_sandbox "s3" "u2" true).1 (sample_sandbox "s3" "u2" true).2
    [sample_sandbox "s2" "u2" false] _ _ _ _ _ _)); vm_compute; reflexivity.
Defined.

(** The first poll finds the outdated sandboxes, the second one is in sync. *)
Lemma reconcileStaticPods_synced_witness :
  ∃ k w1 w', k < 2 ∧ retries (λ _ w, w) (reconcile_body "" "/d") no_faults k sample_mixed w1 ∧
    poll_in_sync "" "/d" w1 w'.
Proof.
  destruct (reconcileStaticPods_synced (λ _ w, w) 2 false "" "/d" no_faults sample_mixed
    (reconcileStaticPods (λ _ w, w) 2 false "" "/d" no_faults sample_mixed).2 no_faults_io) as (k & w1 & H).
  - vm_compute. reflexivity.
  - exists k, w1, (reconcileStaticPods (λ _ w, w) 2 false "" "/d" no_faults sample_mixed).2. exact H.
Defined.
