(* ===== verification/Cleanup.v ===== *)
(** * Cleanup: removal of disabled static pods (cleanup.go)

    [RemoveDisabledPods] deletes the manifests of disabled components and then
    waits until the runtime has no sandbox of them left.  The list of components
    to wait for is a slice that the poll body deletes from while it ranges over
    it, so it lives in the store of GoSlice.v.  Two goroutines send on one
    channel; [wake] is what the receiving [select] sees first. *)

From S2P Require Import Prelude GoStrings GoSlice GoPath GoFS GoTree PodTemplate Images PodSpec ManifestFile.
From S2P Require Import StaticPod Cri Sandbox.

Definition binDir (dataDir : string) : string := filepath_Join [dataDir; "bin"].

Inductive wake :=
  | WakeContainerd (err : option error)
  | WakeTerminate
  | WakeTimeout.

(** The temporary containerd: its arguments and its environment. *)
Record command := { cmd_Args : list string; cmd_Env : list string }.

Definition containerd_args (dataDir : string) : list string :=
  ["-c"; filepath_Join [dataDir; "agent"; "etc"; "containerd"; "config.toml"];
   "-a"; ContainerdSock;
   "--state"; filepath_Dir ContainerdSock;
   "--root"; filepath_Join [dataDir; "agent"; "containerd"]].

(** One round of the loop over [os.Environ()]; [None] is the panic of [pair[1]]
    on an entry without an equals sign. *)
Definition environ_step (dataDir e : string) (acc : list string * list string * list string)
    : option (list string * list string * list string) :=
  let '(args, env, cenv) := acc in
  let pair := SplitN2 equals e in
  let key := hd "" pair in
  if decide (key = "NOTIFY_SOCKET") then Some (args, env, cenv)
  else if decide (key = "CONTAINERD_LOG_LEVEL") then
    v ← pair !! 1; Some (args ++ ["--log-level"; v], env, cenv)
  else if HasPrefix "CONTAINERD_" key then
    Some (args, env, cenv ++ [Join "=" (TrimPrefix "CONTAINERD_" key :: tl pair)])
  else if decide (key = "PATH") then
    v ← pair !! 1; Some (args, env ++ ["PATH=" +:+ binDir dataDir +:+ ":" +:+ v], cenv)
  else Some (args, env ++ [Join "=" pair], cenv).

Fixpoint environ_loop (dataDir : string) (environ : list string)
    (acc : list string * list string * list string)
    : option (list string * list string * list string) :=
  match environ with
  | [] => Some acc
  | e :: es => acc ← environ_step dataDir e acc; environ_loop dataDir es acc
  end.

(** The command [startContainerd] runs; [path] is the program it starts. *)
Definition startContainerd (dataDir path : string) (environ : list string) : option command :=
  r ← environ_loop dataDir environ (containerd_args dataDir, [], []);
  let '(args, env, cenv) := r in
  Some {| cmd_Args := path :: args; cmd_Env := env ++ cenv |}.

Section cleanup.
Context `{CRI}.

(** The variable [terminatePods] and the arrays it may point into. *)
Record pods := Pods { t_store : store string; t_pods : slice }.

Definition component_sandbox (component : string) (sb : PodSandbox) : bool :=
  bool_decide (at_key (sb_Labels sb) "component" = component) && from_file sb.

(** The inner loop: request the removal of the component's sandboxes. *)
Fixpoint remove_component (component : string) (items : list PodSandbox) (found : bool)
    : act bool :=
  match items with
  | [] => mret found
  | sb :: items' =>
      if component_sandbox component sb
      then _ ← act_attempt (remove (sb_Id sb)); remove_component component items' true
      else remove_component component items' found
  end.

(** [for _, component := range terminatePods]: [s0] is the header evaluated on
    entry, [n] the rounds left, [i] the index. *)
Fixpoint terminate_loop (s0 : slice) (n i : nat) (items : list PodSandbox) (st : pods) : act pods :=
  match n with
  | 0 => mret st
  | S n' =>
      match index (t_store st) s0 i with
      | None => act_fail (ErrPanic "index out of range")
      | Some component =>
          found ← remove_component component items false;
          let st := if (found : bool) then st
                    else let '(h, s) := DeleteFunc (t_store st) (t_pods st)
                                          (λ c, bool_decide (c = component)) "" in Pods h s in
          terminate_loop s0 n' (S i) items st
      end
  end.

Definition system_selector : gmap string string :=
  {[ "io.kubernetes.pod.namespace" := "kube-system" ]}.

(** The poll body: the new list, and whether it is empty. *)
Definition terminate_body (endpoint : string) (st : pods) : act (pods * bool) := λ flt w,
  match on_rt (Connection endpoint) flt w with
  | (Err _, w1) => (Ok (st, false), w1)
  | (Ok _, w1) =>
      let '(r, w2) :=
        (resp ← act_attempt (on_rt (ListPodSandbox system_selector));
         match resp with
         | Err _ => mret (st, false)
         | Ok items =>
             st ← terminate_loop (t_pods st) (s_len (t_pods st)) 0 items st;
             mret (st, bool_decide (s_len (t_pods st) = 0))
         end) flt w1 in
      (r, World (w_fs w2) (Close (w_rt w2)) (w_removed w2))
  end.

Definition ctx_err := ErrMsg "context deadline exceeded".

(** [wait.PollUntilWithContext] around the body, [polls] times at most. *)
Fixpoint terminate_poll (env : nat → runtime → runtime) (polls k : nat) (endpoint : string)
    (st : pods) : act unit :=
  match polls with
  | 0 => act_fail ctx_err
  | S polls' =>
      environment (λ w, World (w_fs w) (env k (w_rt w)) (w_removed w));;
      r ← terminate_body endpoint st;
      if (r.2 : bool) then mret () else terminate_poll env polls' (S k) endpoint r.1
  end.

(** [terminateRunningContainers] on the list [terminatePods]. *)
Definition terminateRunningContainers (env : nat → runtime → runtime) (polls : nat)
    (endpoint : string) (terminatePods : list string) : act unit :=
  let '(h, s) := literal [] terminatePods in
  terminate_poll env polls 0 endpoint (Pods h s).

Definition manifest_file (manifestDir component : string) : string :=
  filepath_Join [manifestDir; component +:+ ".yaml"].

(** The components of the list that are disabled and have a manifest. *)
Fixpoint to_terminate (manifestDir : string) (items : list (string * bool)) : io (list string) :=
  match items with
  | [] => mret []
  | (component, disabled) :: items' =>
      if (disabled : bool) then
        r ← attempt (os_Stat (manifest_file manifestDir component));
        rest ← to_terminate manifestDir items';
        mret (if is_Ok r then component :: rest else rest)
      else to_terminate manifestDir items'
  end.

Fixpoint delete_manifests (manifestDir : string) (components : list string) : io unit :=
  match components with
  | [] => mret ()
  | c :: cs =>
      io_with_message ("unable to delete " +:+ c +:+ " manifest")
        (os_RemoveAll (manifest_file manifestDir c));;
      delete_manifests manifestDir cs
  end.

(** [true] when one of the paths is missing. *)
Fixpoint any_missing (paths : list string) : io bool :=
  match paths with
  | [] => mret false
  | p :: ps =>
      r ← attempt (os_Stat p);
      match r with
      | Err e => if os_IsNotExist e then mret true else any_missing ps
      | Ok _ => any_missing ps
      end
  end.

Definition force_disabled (clusterReset : bool) (disabledItems : gmap string bool)
    : gmap string bool :=
  if clusterReset then <["kube-apiserver" := true]> (<["etcd" := true]> disabledItems)
  else disabledItems.

(** The wait for the containers, and what the first message on the channel (or
    the end of the context) makes of it. *)
Definition await_termination (env : nat → runtime → runtime) (polls : nat) (woken : wake)
    (endpoint : string) (terminatePods : list string) : act unit :=
  r ← act_attempt (terminateRunningContainers env polls endpoint terminatePods);
  match woken with
  | WakeContainerd (Some e) =>
      act_fail (ErrWithMessage "temporary containerd process exited unexpectedly" e)
  | WakeContainerd None => mret ()
  | WakeTimeout => act_fail (ErrMsg "static pod cleanup timed out")
  | WakeTerminate =>
      match r with
      | Err e => act_fail (ErrWithMessage "temporary containerd process exited unexpectedly" e)
      | Ok _ => mret ()
      end
  end.

Definition remove_pods (env : nat → runtime → runtime) (polls : nat) (woken : wake)
    (manifestDir endpoint : string) (terminatePods : list string) : act unit :=
  match terminatePods with
  | [] => mret ()
  | _ => on_fs (delete_manifests manifestDir terminatePods);;
         await_termination env polls woken endpoint terminatePods
  end.

(** [RemoveDisabledPods]; [order] is the order in which the map is iterated. *)
Definition RemoveDisabledPods (env : nat → runtime → runtime) (polls : nat) (woken : wake)
    (order : gmap string bool → list (string * bool))
    (dataDir containerRuntimeEndpoint : string) (disabledItems : gmap string bool)
    (clusterReset : bool) : act unit :=
  let execPath := binDir dataDir in
  let manifestDir := PodManifestsDir dataDir in
  missing ← on_fs (any_missing [execPath; manifestDir]);
  if (missing : bool) then mret () else
  let disabledItems := force_disabled clusterReset disabledItems in
  terminatePods ← on_fs (to_terminate manifestDir (order disabledItems));
  remove_pods env polls woken manifestDir containerRuntimeEndpoint terminatePods.
End cleanup.

(** ** The poll body on the shared array *)

Section terminate.
Context `{CRI}.
Implicit Types (w : world) (items : list PodSandbox) (st : pods) (c : string).

Lemma remove_component_spec c items b flt w :
  let ids := sb_Id <$> filter (λ sb, component_sandbox c sb = true) items in
  ∃ w', remove_component c items b flt w = (Ok (b || bool_decide (ids ≠ [])), w') ∧
        w_fs w' = w_fs w ∧ w_removed w' = w_removed w ++ ids.
Proof.
  revert b w. induction items as [|sb items IH]; intros b w; simpl.
  { exists w. rewrite app_nil_r. split_and!; [by destruct b|done..]. }
  rewrite filter_cons. destruct (component_sandbox c sb); [|by apply IH].
  unfold mbind, act_bind, act_attempt.
  pose proof (removals_remove (sb_Id sb) flt w) as Hrm.
  destruct (remove (sb_Id sb) flt w) as [r w1] eqn:E1. simpl in Hrm.
  destruct (IH true w1) as (w' & E & Hf & Hr). exists w'. rewrite E. simpl.
  split_and!; [by destruct b| |by rewrite Hr, Hrm, <-(assoc_L (++))].
  rewrite Hf. unfold remove in E1. by destruct (RemovePodSandbox _ _); simplify_eq.
Qed.

(** No sandbox of the list belongs to the component. *)
Definition gone c items : Prop := Forall (λ sb, component_sandbox c sb = false) items.

Lemma found_gone c items :
  bool_decide (sb_Id <$> filter (λ sb, component_sandbox c sb = true) items ≠ []) = false ↔
  gone c items.
Proof.
  rewrite bool_decide_eq_false. unfold gone. induction items as [|sb items IH].
  { split; [constructor|]. intros _ Hn. by destruct Hn. }
  rewrite Forall_cons, filter_cons. destruct (component_sandbox c sb); simpl; [|naive_solver].
  split; [|by intros []]. intros Hn. by destruct Hn.
Qed.

(** The list [cur] at the front of an array of length [n], zero values behind. *)
Definition holds st (k n : nat) (cur : list string) : Prop :=
  t_pods st = Slice k 0 (length cur) n ∧ length cur ≤ n ∧
  t_store st !! k = Some (cur ++ replicate (n - length cur) "").

Definition drop_component st c : pods :=
  let '(h, s) := DeleteFunc (t_store st) (t_pods st) (λ d, bool_decide (d = c)) "" in Pods h s.

Lemma holds_drop st k n cur c :
  holds st k n cur → holds (drop_component st c) k n (filter (λ d, d ≠ c) cur).
Proof.
  intros (Hs & Hle & Hk). unfold drop_component. rewrite Hs, (DeleteFunc_front _ _ _ _ _ _ _ Hk).
  assert (filter (λ x, bool_decide (x = c) = false) cur = filter (λ d, d ≠ c) cur) as ->
    by (apply list_filter_iff; intros d; apply bool_decide_eq_false).
  pose proof (length_filter (λ d, d ≠ c) cur) as Hf. unfold holds. simpl. split_and!; [done|lia|].
  rewrite list_lookup_insert_eq by (by eapply lookup_lt_Some).
  rewrite <-replicate_add. do 3 f_equal. lia.
Qed.

Lemma index_holds st k m0 n cur i :
  holds st k n cur → i < m0 → m0 ≤ n →
  index (t_store st) (Slice k 0 m0 n) i = Some (default "" (cur !! i)).
Proof.
  intros (_ & Hle & Hk) Hi Hm0.
  assert (length (cur ++ replicate (n - length cur) "") = n) as Hlen
    by (rewrite length_app, length_replicate; lia).
  assert (front (t_store st) k m0 (cur ++ replicate (n - length cur) "")) as Hfr
    by (split; [done|lia]).
  rewrite (index_front _ _ _ n _ _ Hfr Hi).
  destruct (cur !! i) as [c|] eqn:Hc; [by rewrite lookup_app_l by (by eapply lookup_lt_Some); rewrite Hc|].
  apply lookup_ge_None in Hc. rewrite lookup_app_r by done. simpl. apply lookup_replicate. split; [done|lia].
Qed.

(** One round. *)
Definition round st c items : pods :=
  if bool_decide (sb_Id <$> filter (λ sb, component_sandbox c sb = true) items ≠ [])
  then st else drop_component st c.

Lemma terminate_loop_step k m0 n m i items st cur flt w :
  holds st k n cur → i < m0 → m0 ≤ n →
  let c := default "" (cur !! i) in
  ∃ w1, w_fs w1 = w_fs w ∧
    w_removed w1 = w_removed w ++ (sb_Id <$> filter (λ sb, component_sandbox c sb = true) items) ∧
    terminate_loop (Slice k 0 m0 n) (S m) i items st flt w
    = terminate_loop (Slice k 0 m0 n) m (S i) items (round st c items) flt w1.
Proof.
  intros Hst Hi Hm0 c. cbn [terminate_loop]. rewrite (index_holds _ _ _ _ _ _ Hst Hi Hm0). fold c.
  destruct (remove_component_spec c items false flt w) as (w1 & E & Hf & Hr).
  exists w1. split_and!; [done..|]. unfold mbind, act_bind. rewrite E. unfold round, drop_component.
  by destruct (bool_decide _).
Qed.

Lemma round_holds st k n cur c items :
  holds st k n cur →
  ∃ cur', holds (round st c items) k n cur' ∧ cur' `sublist_of` cur ∧
    ∀ d, d ∈ cur → d ∉ cur' → gone d items.
Proof.
  intros Hst. unfold round. destruct (bool_decide _) eqn:Hb.
  { exists cur. split_and!; done. }
  apply found_gone in Hb. exists (filter (λ d, d ≠ c) cur).
  split_and!; [by apply holds_drop|apply sublist_filter|].
  intros d Hd Hnot. rewrite list_elem_of_filter in Hnot.
  destruct (decide (d = c)) as [->|]; [done|tauto].
Qed.

(** The loop does not fail, keeps the list a sublist of what it was, and drops
    only components with no sandbox among those listed. *)
Lemma terminate_loop_spec k m0 n m i items st cur flt w :
  holds st k n cur → i + m = m0 → m0 ≤ n →
  ∃ st' w' cur', terminate_loop (Slice k 0 m0 n) m i items st flt w = (Ok st', w') ∧
    w_fs w' = w_fs w ∧ holds st' k n cur' ∧ cur' `sublist_of` cur ∧
    (∀ c, c ∈ cur → c ∉ cur' → gone c items) ∧
    ∃ ids, w_removed w' = w_removed w ++ ids ∧
           Forall (λ id, ∃ sb, sb ∈ items ∧ from_file sb = true ∧ sb_Id sb = id) ids.
Proof.
  revert i st cur w. induction m as [|m IH]; intros i st cur w Hst Hi Hm0.
  { exists st, w, cur. split_and!; try done. exists []. by rewrite app_nil_r. }
  destruct (terminate_loop_step k m0 n m i items st cur flt w Hst ltac:(lia) Hm0) as (w1 & Hf1 & Hr1 & ->).
  set (c := default "" (cur !! i)) in *.
  destruct (round_holds _ _ _ _ c items Hst) as (cur1 & Hst1 & Hsub1 & Hgone1).
  destruct (IH (S i) _ _ w1 Hst1 ltac:(lia) Hm0)
    as (st' & w' & cur' & E & Hf & Hst' & Hsub & Hgone & ids & Hr & Hids).
  exists st', w', cur'. split_and!; [done|congruence|done|by etrans| |].
  - intros d Hd Hnot. destruct (decide (d ∈ cur1)); [by apply Hgone|by apply Hgone1].
  - eexists. rewrite Hr, Hr1, <-(assoc_L (++)). split; [done|]. apply Forall_app. split; [|done].
    apply Forall_fmap, Forall_forall. intros sb [Hsb Hin]%list_elem_of_filter.
    exists sb. split_and!; [done| |done]. unfold component_sandbox in Hsb.
    by apply andb_true_iff in Hsb as [_ ?].
Qed.
End terminate.

Section outcome.
Context `{CRI}.
Implicit Types (w : world) (items : list PodSandbox) (st : pods) (c : string).

(** In some listing of the system namespace, the component has no sandbox. *)
Definition observed_gone c : Prop :=
  ∃ rt items rt', ListPodSandbox system_selector rt = (Ok items, rt') ∧ gone c items.

(** The sandbox was listed, and comes from a manifest file. *)
Definition listed_from_file (id : string) : Prop :=
  ∃ rt items rt' sb, ListPodSandbox system_selector rt = (Ok items, rt') ∧
    sb ∈ items ∧ from_file sb = true ∧ sb_Id sb = id.

Lemma terminate_body_spec endpoint st k n cur flt w :
  holds st k n cur →
  ∃ st' b w' cur', terminate_body endpoint st flt w = (Ok (st', b), w') ∧
    w_fs w' = w_fs w ∧ holds st' k n cur' ∧ cur' `sublist_of` cur ∧
    (∀ c, c ∈ cur → c ∉ cur' → observed_gone c) ∧ (b = true → cur' = []) ∧
    ∃ ids, w_removed w' = w_removed w ++ ids ∧ Forall listed_from_file ids.
Proof.
  intros Hst. unfold terminate_body, mbind, act_bind, act_attempt.
  destruct (on_rt (Connection endpoint) flt w) as [[u|e] w1] eqn:E1;
    apply on_rt_inv in E1 as [Hc [Hf1 Hr1]].
  2:{ exists st, false, w1, cur. split_and!; try done. exists []. by rewrite app_nil_r. }
  destruct (on_rt _ flt w1) as [[items|e] w2] eqn:E2; apply on_rt_inv in E2 as [Hl [Hf2 Hr2]].
  2:{ eexists st, false, _, cur. split_and!; [done|simpl; congruence|done..|].
      exists []. rewrite app_nil_r. simpl. split; [congruence|constructor]. }
  pose proof Hst as (-> & Hle & _). cbn [s_len].
  destruct (terminate_loop_spec k (length cur) n (length cur) 0 items st cur flt w2 Hst eq_refl Hle)
    as (st' & w' & cur' & E & Hf & Hst' & Hsub & Hgone & ids & Hr & Hids).
  rewrite E. eexists st', _, _, cur'. split_and!; [done|simpl; congruence|done|done| | |].
  - intros c Hin Hout. exists (w_rt w1), items, (w_rt w2). split; [done|by apply Hgone].
  - destruct Hst' as (-> & _). simpl. intros Hb%bool_decide_eq_true. by apply nil_length_inv.
  - exists ids. simpl. split; [congruence|]. eapply Forall_impl; [done|].
    intros id (sb & ? & ? & ?). exists (w_rt w1), items, (w_rt w2), sb. done.
Qed.

Lemma terminate_poll_spec env polls j endpoint st k n cur flt w r w' :
  holds st k n cur → terminate_poll env polls j endpoint st flt w = (r, w') →
  w_fs w' = w_fs w ∧ (r = Ok () → Forall observed_gone cur) ∧ (r = Ok () ∨ r = Err ctx_err) ∧
  ∃ ids, w_removed w' = w_removed w ++ ids ∧ Forall listed_from_file ids.
Proof.
  revert j st cur w. induction polls as [|polls IH]; intros j st cur w Hst; simpl.
  { intros [= <- <-]. split_and!; [done|done|by right|]. exists []. by rewrite app_nil_r. }
  unfold mbind, act_bind, environment. set (w0 := World _ _ _).
  destruct (terminate_body_spec endpoint st k n cur flt w0 Hst)
    as (st' & b & w1 & cur' & -> & Hf & Hst' & Hsub & Hgone & Hb & ids & Hr & Hids). simpl.
  destruct b.
  - intros [= <- <-]. specialize (Hb eq_refl). subst cur'. split_and!; [done| |by left|eauto].
    intros _. apply Forall_forall. intros c Hc. apply Hgone; [done|]. apply not_elem_of_nil.
  - intros (Hf' & Hok & Hres & ids' & Hr' & Hids')%(IH _ _ cur'); [|done].
    split_and!; [by rewrite Hf', Hf| |done|].
    + intros Hr0. specialize (Hok Hr0). rewrite Forall_forall in Hok |- *. intros c Hc.
      destruct (decide (c ∈ cur')); [by apply Hok|by apply Hgone].
    + exists (ids ++ ids'). rewrite Hr', Hr, (assoc_L (++)). split; [done|]. by apply Forall_app.
Qed.

Lemma holds_literal l : let '(h, s) := literal [] l in holds (Pods h s) 0 (length l) l.
Proof. simpl. split_and!; [done..|]. by rewrite Nat.sub_diag, app_nil_r. Qed.

(** [terminateRunningContainers], although it deletes from the list it ranges
    over, ends well only after every component has been seen without a sandbox
    in some listing, whatever the runtime did between the polls; otherwise it
    ends with the error of the context.  It only ever requests the removal of
    sandboxes that were listed and come from a manifest file. *)
Theorem terminateRunningContainers_complete env polls endpoint terminatePods flt w :
  let '(r, w') := terminateRunningContainers env polls endpoint terminatePods flt w in
  (r = Ok () → Forall observed_gone terminatePods) ∧ (r = Ok () ∨ r = Err ctx_err) ∧
  ∃ ids, w_removed w' = w_removed w ++ ids ∧ Forall listed_from_file ids.
Proof.
  unfold terminateRunningContainers.
  pose proof (holds_literal terminatePods) as Hst. destruct (literal [] terminatePods) as [h s].
  destruct (terminate_poll env polls 0 endpoint (Pods h s) flt w) as [r w'] eqn:E.
  by apply (terminate_poll_spec _ _ _ _ _ _ _ _ _ _ _ _ Hst) in E as (_ & ? & ? & ?).
Qed.
End outcome.

(** ** The range over the shrinking list *)

Section aliasing.
Context `{CRI}.
Implicit Types (w : world) (items : list PodSandbox) (st : pods).

(** Once the list is shorter than the range, the last round reads the zero
    value that [DeleteFunc] left, and treats it as a component. *)
Lemma terminate_loop_reads_zero k m0 n m i items st cur flt w sb :
  holds st k n cur → i + S m = m0 → m0 ≤ n → length cur < m0 →
  sb ∈ items → component_sandbox "" sb = true →
  sb_Id sb ∈ w_removed (terminate_loop (Slice k 0 m0 n) (S m) i items st flt w).2.
Proof.
  intros Hst Hi Hm0 Hlen Hsb Hun. revert i st cur w Hst Hi Hlen.
  induction m as [|m IH]; intros i st cur w Hst Hi Hlen.
  - destruct (terminate_loop_step k m0 n 0 i items st cur flt w Hst ltac:(lia) Hm0)
      as (w1 & _ & Hr & ->). rewrite (lookup_ge_None_2 cur i) in Hr by lia. simpl in *. rewrite Hr, elem_of_app. right.
    apply list_elem_of_fmap. exists sb. split; [done|]. by apply list_elem_of_filter.
  - destruct (terminate_loop_step k m0 n (S m) i items st cur flt w Hst ltac:(lia) Hm0)
      as (w1 & _ & _ & ->).
    destruct (round_holds _ _ _ _ (default "" (cur !! i)) items Hst) as (cur' & Hst' & Hsub & _).
    apply sublist_length in Hsub. eapply IH; [done|lia|lia].
Qed.

(** C23: A flaw of the poll body: when the first of several components has no
    sandbox left, the range reads past the shortened list, takes the zero value
    there for a component name, and requests the removal of a static pod that
    has no component label, which is none of the components to be terminated. *)
Theorem terminate_removes_unlabelled endpoint component components items sb flt w rt1 rt2 :
  components ≠ [] →
  Connection endpoint (w_rt w) = (Ok (), rt1) →
  ListPodSandbox system_selector rt1 = (Ok items, rt2) →
  gone component items →
  sb ∈ items → sb_Labels sb !! "component" = None → from_file sb = true →
  let '(h, s) := literal [] (component :: components) in
  sb_Id sb ∈ w_removed (terminate_body endpoint (Pods h s) flt w).2.
Proof.
  intros Hne Hc Hl Hgone Hsb Hlab Hfile.
  pose proof (holds_literal (component :: components)) as Hst.
  destruct (literal [] (component :: components)) as [h s].
  unfold terminate_body, mbind, act_bind, act_attempt, on_rt.
  rewrite Hc. cbn [w_rt]. rewrite Hl. pose proof Hst as (-> & _). cbn [s_len].
  set (w2 := World _ _ _). set (n := length (component :: components)) in *.
  destruct (terminate_loop_spec 0 n n n 0 items _ _ flt w2 Hst eq_refl (le_n _))
    as (st' & w' & _ & E & _).
  enough (sb_Id sb ∈ w_removed (terminate_loop (Slice 0 0 n n) n 0 items (Pods h s) flt w2).2) as Hin
    by (rewrite E in Hin |- *; exact Hin). clear E.
  destruct components as [|d components]; [done|]. unfold n at 3. cbn [length].
  destruct (terminate_loop_step 0 n n (S (length components)) 0 items _ _ flt w2 Hst
    ltac:(unfold n; simpl; lia) (le_n _)) as (w3 & _ & _ & ->). simpl default.
  unfold round. rewrite (proj2 (found_gone _ _) Hgone). apply (holds_drop _ _ _ _ component) in Hst.
  rewrite filter_cons_False in Hst by tauto.
  pose proof (length_filter (λ x, x ≠ component) (d :: components)).
  eapply terminate_loop_reads_zero; [exact Hst|unfold n; simpl in *; lia..|done|].
  unfold component_sandbox, at_key. by rewrite Hlab, Hfile.
Qed.
End aliasing.

(** ** The manifests on disk *)

Lemma readonly_to_terminate dir items : readonly (to_terminate dir items).
Proof.
  induction items as [|[c []] items IH]; simpl; auto with readonly.
Qed.

Lemma readonly_any_missing paths : readonly (any_missing paths).
Proof.
  induction paths as [|p ps IH]; cbn [any_missing]; [auto with readonly|].
  apply readonly_bind; [auto with readonly|]. intros [n|e]; [done|].
  destruct (os_IsNotExist e); auto with readonly.
Qed.

Lemma delete_manifests_frame dir cs flt s q :
  Forall (λ c, under (Clean (manifest_file dir c)) q = false) cs →
  nodes (delete_manifests dir cs flt s).2 !! q = nodes s !! q.
Proof.
  intros Hcs. revert s. induction Hcs as [|c cs Hc _ IH]; intros s; [done|].
  cbn [delete_manifests]. unfold mbind, io_bind, io_with_message.
  destruct (os_RemoveAll_triple (manifest_file dir c) (nodes s) (λ _, True) ltac:(done) flt s eq_refl)
    as [Hrm _].
  destruct (os_RemoveAll _ flt s) as [[u|e] s1]; simpl in *; [|by apply Hrm].
  by rewrite IH, Hrm.
Qed.

Lemma delete_manifests_run dir cs s :
  ∃ s', delete_manifests dir cs no_faults s = (Ok (), s') ∧
    ∀ q, nodes s' !! q = if existsb (λ c, under (Clean (manifest_file dir c)) q) cs
                         then None else nodes s !! q.
Proof.
  revert s. induction cs as [|c cs IH]; intros s; cbn [delete_manifests]; [by exists s|].
  destruct (os_RemoveAll_run (manifest_file dir c) s) as (s1 & E1 & N1).
  destruct (IH s1) as (s2 & E2 & N2). exists s2.
  unfold mbind, io_bind, io_with_message. rewrite E1. simpl. split; [done|]. intros q.
  rewrite N2, N1. by destruct (under _ q), (existsb _ cs).
Qed.

(** The components found are disabled ones, and without faults they are exactly
    those with something at the path of their manifest. *)
Lemma to_terminate_spec dir items flt s l s' :
  to_terminate dir items flt s = (Ok l, s') →
  (∀ c, c ∈ l → (c, true) ∈ items) ∧
  (flt = no_faults → ∀ c, (c, true) ∈ items →
     c ∈ l ∨ is_Ok (stat_at (nodes s) (manifest_file dir c)) = false).
Proof.
  revert s l. induction items as [|[c b] items IH]; intros s l; cbn [to_terminate].
  { intros [= <- <-]. split; [by intros ? ?%elem_of_nil|by intros _ ? ?%elem_of_nil]. }
  destruct b.
  - unfold attempt, mbind, io_bind.
    pose proof (os_Stat_spec (manifest_file dir c) flt s) as [Hn Hst].
    destruct (os_Stat _ flt s) as [r s1]. simpl in *.
    destruct (to_terminate dir items flt s1) as [[rest|e] s2] eqn:E; [|done].
    intros [= <- <-]. apply IH in E as [H1 H2]. split.
    + intros d Hd. apply elem_of_cons.
      destruct (is_Ok r); [apply elem_of_cons in Hd as [->|Hd]|]; auto.
    + intros Hflt d [[= ->]|Hd]%elem_of_cons.
      * destruct r; [left; constructor|right]. rewrite Hst; [done|by subst flt].
      * rewrite <-Hn. destruct (H2 Hflt d Hd); [|by right]. left.
        destruct (is_Ok r); [by apply elem_of_cons; right|done].
  - intros [H1 H2]%IH. split.
    + intros d Hd. apply elem_of_cons. auto.
    + intros Hflt d [[=]|Hd]%elem_of_cons. by apply H2.
Qed.

Lemma any_missing_no_faults paths s :
  ∃ s', any_missing paths no_faults s = (Ok (existsb (missing_at (nodes s)) paths), s') ∧
    nodes s' = nodes s.
Proof.
  revert s. induction paths as [|p ps IH]; intros s; [by exists s|].
  cbn [any_missing existsb]. unfold attempt, mbind, io_bind, missing_at at 1.
  destruct (os_Stat_run p s) as (s1 & -> & N). destruct (IH s1) as (s' & E & Hs').
  rewrite N in *. destruct (stat_at (nodes s) p) as [n|e]; [|destruct (os_IsNotExist e)]; simpl;
    eauto.
Qed.

Section manifests.
Context `{CRI}.

Lemma await_termination_fs env polls woken endpoint l flt w :
  w_fs (await_termination env polls woken endpoint l flt w).2 = w_fs w.
Proof.
  unfold await_termination, terminateRunningContainers.
  pose proof (holds_literal l) as Hst. destruct (literal [] l) as [h s].
  unfold act_attempt, mbind, act_bind.
  destruct (terminate_poll env polls 0 endpoint (Pods h s) flt w) as [r w'] eqn:E.
  apply (terminate_poll_spec _ _ _ _ _ _ _ _ _ _ _ _ Hst) in E as (Hf & _).
  by destruct woken as [[]| |], r.
Qed.

Lemma remove_pods_frame env polls woken dir endpoint l flt w q :
  Forall (λ c, under (Clean (manifest_file dir c)) q = false) l →
  nodes (w_fs (remove_pods env polls woken dir endpoint l flt w).2) !! q = nodes (w_fs w) !! q.
Proof.
  intros Hl. unfold remove_pods. destruct l as [|c l]; [done|].
  pose proof (delete_manifests_frame dir (c :: l) flt (w_fs w) q Hl) as Hd.
  unfold mbind, act_bind, on_fs. destruct (delete_manifests _ _ _ _) as [[u|e] s1]; [|done].
  by rewrite await_termination_fs.
Qed.

Lemma remove_pods_run env polls woken dir endpoint l w q :
  nodes (w_fs (remove_pods env polls woken dir endpoint l no_faults w).2) !! q
  = if existsb (λ c, under (Clean (manifest_file dir c)) q) l then None else nodes (w_fs w) !! q.
Proof.
  unfold remove_pods. destruct l as [|d l]; [done|].
  destruct (delete_manifests_run dir (d :: l) (w_fs w)) as (s1 & E & N).
  unfold mbind, act_bind, on_fs. rewrite E, await_termination_fs. cbn [w_fs]. apply N.
Qed.

Lemma to_terminate_no_faults dir items s : is_Ok (to_terminate dir items no_faults s).1 = true.
Proof.
  revert s. induction items as [|[c []] items IH]; intros s; cbn [to_terminate]; [done| |apply IH].
  unfold attempt, mbind, io_bind. destruct (os_Stat _ no_faults s) as [r s1].
  specialize (IH s1). by destruct (to_terminate dir items no_faults s1) as [[] ?].
Qed.

(** The first two queries find a directory missing: nothing is cleaned up. *)
Definition clean_install (dataDir : string) (t : tree) : bool :=
  existsb (missing_at t) [binDir dataDir; PodManifestsDir dataDir].

(** [RemoveDisabledPods] ends early with the tree as it was, or removes the
    components it found. *)
Lemma RemoveDisabledPods_cases env polls woken order dataDir endpoint disabledItems
    clusterReset flt w :
  let dir := PodManifestsDir dataDir in
  let w' := (RemoveDisabledPods env polls woken order dataDir endpoint disabledItems
               clusterReset flt w).2 in
  (nodes (w_fs w') = nodes (w_fs w) ∧
   (flt = no_faults → clean_install dataDir (nodes (w_fs w)) = true)) ∨
  ∃ l s s' w1,
    (flt = no_faults → clean_install dataDir (nodes (w_fs w)) = false) ∧
    to_terminate dir (order (force_disabled clusterReset disabledItems)) flt s = (Ok l, s') ∧
    nodes s = nodes (w_fs w) ∧ nodes (w_fs w1) = nodes (w_fs w) ∧
    w' = (remove_pods env polls woken dir endpoint l flt w1).2.
Proof.
  intros dir w'. subst w'. unfold RemoveDisabledPods. fold dir.
  set (items := order (force_disabled clusterReset disabledItems)).
  pose proof (readonly_any_missing [binDir dataDir; dir] flt (w_fs w)) as [Hn1 _].
  assert (flt = no_faults →
    (any_missing [binDir dataDir; dir] flt (w_fs w)).1 = Ok (clean_install dataDir (nodes (w_fs w)))) as Hex.
  { intros ->. by destruct (any_missing_no_faults [binDir dataDir; dir] (w_fs w)) as (? & -> & _). }
  unfold mbind, act_bind. unfold on_fs at 1 3.
  destruct (any_missing _ flt (w_fs w)) as [[[]|e] s1]; simpl in Hn1, Hex;
    [left; split; [done|]; intros Hf; specialize (Hex Hf); congruence
    | |left; split; [done|]; intros Hf; by specialize (Hex Hf)].
  unfold on_fs. cbn [w_fs w_rt w_removed].
  pose proof (readonly_to_terminate dir items flt s1) as [Hn2 _].
  destruct (to_terminate dir items flt s1) as [[l|e] s2] eqn:E; simpl in Hn2.
  - right. exists l, s1, s2, (World s2 (w_rt w) (w_removed w)).
    split_and!; [intros Hf; specialize (Hex Hf); congruence|done|done|simpl; congruence|done].
  - left. split; [simpl; congruence|]. intros ->.
    pose proof (to_terminate_no_faults dir items s1) as Hok. by rewrite E in Hok.
Qed.

Lemma exists_clean_install dataDir t :
  clean_install dataDir t = true ↔
  missing_at t (binDir dataDir) = true ∨ missing_at t (PodManifestsDir dataDir) = true.
Proof.
  unfold clean_install. cbn [existsb]. rewrite orb_false_r. apply orb_true_iff.
Qed.

(** After the removals nothing is found at the path of a disabled component. *)
Lemma remove_pods_gone env polls woken dir endpoint items s s' l w c :
  to_terminate dir items no_faults s = (Ok l, s') → nodes s = nodes (w_fs w) → (c, true) ∈ items →
  let t := nodes (w_fs (remove_pods env polls woken dir endpoint l no_faults w).2) in
  is_Ok (stat_at t (manifest_file dir c)) = false ∧
  (t !! Clean (manifest_file dir c) = None ∨
   ∃ target, t !! Clean (manifest_file dir c) = Some (NLink target)).
Proof.
  intros [_ Hall]%to_terminate_spec Hs Hc t. subst t.
  pose proof (remove_pods_run env polls woken dir endpoint l w) as Hrun.
  set (t := nodes (w_fs (remove_pods _ _ _ _ _ _ _ _).2)) in *.
  assert (t ⊆ nodes (w_fs w)) as Hsub.
  { apply map_subseteq_spec. intros q n. rewrite Hrun. by destruct (existsb _ _). }
  destruct (Hall eq_refl c Hc) as [Hl|Hno].
  - assert (t !! Clean (manifest_file dir c) = None) as Hnone.
    2:{ split; [|by left]. by rewrite (stat_at_missing _ _ Hnone). }
    rewrite Hrun, (proj2 (existsb_exists _ _)); [done|].
    exists c. split; [by apply list_elem_of_In|]. unfold under. by rewrite bool_decide_eq_true_2.
  - rewrite Hs in Hno. split.
    + destruct (stat_at t (manifest_file dir c)) as [n|e] eqn:E; [|done].
      by rewrite (stat_at_subseteq _ _ _ _ Hsub E) in Hno.
    + destruct (t !! Clean (manifest_file dir c)) as [n|] eqn:E; [right|by left].
      apply (lookup_weaken _ _ _ _ E) in Hsub. destruct n as [| | |target|]; [..|by exists target|];
        by rewrite (stat_at_plain _ _ _ Hsub) in Hno.
Qed.

(** Without faults, a disabled component has no manifest afterwards (but for a
    link to nowhere), unless a directory of a clean install is missing. *)
Lemma RemoveDisabledPods_final env polls woken order dataDir endpoint disabledItems clusterReset w c :
  (∀ m, order m ≡ₚ map_to_list m) →
  force_disabled clusterReset disabledItems !! c = Some true →
  let t := nodes (w_fs (RemoveDisabledPods env polls woken order dataDir endpoint disabledItems
                          clusterReset no_faults w).2) in
  t !! Clean (manifest_file (PodManifestsDir dataDir) c) = None ∨
  (∃ target, t !! Clean (manifest_file (PodManifestsDir dataDir) c) = Some (NLink target)) ∨
  missing_at t (binDir dataDir) = true ∨ missing_at t (PodManifestsDir dataDir) = true.
Proof.
  intros Horder Hc t. subst t.
  destruct (RemoveDisabledPods_cases env polls woken order dataDir endpoint disabledItems
    clusterReset no_faults w) as [[Hn Hno]|(l & s & s' & w1 & _ & El & Hs & Hn & Hw)].
  - rewrite Hn. do 2 right. by apply exists_clean_install, Hno.
  - rewrite Hw. apply elem_of_map_to_list in Hc. rewrite <-Horder in Hc.
    destruct (remove_pods_gone env polls woken _ endpoint _ _ _ _ w1 c El
      ltac:(congruence) Hc) as [_ [Hg|Hg]]; [by left|by right; left].
Qed.

Lemma RemoveDisabledPods_spares env polls woken order dataDir endpoint disabledItems clusterReset flt w q :
  (∀ m, order m ≡ₚ map_to_list m) →
  (∀ c, force_disabled clusterReset disabledItems !! c = Some true →
        under (Clean (manifest_file (PodManifestsDir dataDir) c)) q = false) →
  nodes (w_fs (RemoveDisabledPods env polls woken order dataDir endpoint disabledItems
                 clusterReset flt w).2) !! q = nodes (w_fs w) !! q.
Proof.
  intros Horder Hq.
  destruct (RemoveDisabledPods_cases env polls woken order dataDir endpoint disabledItems
    clusterReset flt w) as [[Hn _]|(l & s & s' & w1 & _ & El & Hs & Hn & Hw)]; [by rewrite Hn|].
  rewrite Hw, remove_pods_frame, Hn; [done|].
  destruct (to_terminate_spec _ _ _ _ _ _ El) as [Hl _]. apply Forall_forall. intros c Hc.
  apply Hq, elem_of_map_to_list. rewrite <-Horder. by apply Hl.
Qed.

(** C18: Whatever fails, [RemoveDisabledPods] changes nothing on disk but the
    manifests of disabled components (with etcd and kube-apiserver among them
    for a cluster reset).  When no system call fails: on a clean install (the
    bin directory, through its link, or the manifests directory is missing) it
    changes nothing at all, and otherwise none of those manifests is found any
    more, however the wait for their containers ends. *)
Theorem RemoveDisabledPods_manifests env polls woken order dataDir endpoint disabledItems
    clusterReset flt w :
  (∀ m, order m ≡ₚ map_to_list m) →
  let dir := PodManifestsDir dataDir in
  let disabled := force_disabled clusterReset disabledItems in
  let w' := (RemoveDisabledPods env polls woken order dataDir endpoint disabledItems
               clusterReset flt w).2 in
  (∀ q, (∀ c, disabled !! c = Some true → under (Clean (manifest_file dir c)) q = false) →
        nodes (w_fs w') !! q = nodes (w_fs w) !! q) ∧
  (flt = no_faults →
   if missing_at (nodes (w_fs w)) (binDir dataDir) || missing_at (nodes (w_fs w)) dir
   then nodes (w_fs w') = nodes (w_fs w)
   else ∀ c, disabled !! c = Some true →
          is_Ok (stat_at (nodes (w_fs w')) (manifest_file dir c)) = false ∧
          ∀ n, nodes (w_fs w') !! Clean (manifest_file dir c) = Some n → ∃ target, n = NLink target).
Proof.
  intros Horder dir disabled w'. subst w'.
  assert (∀ c, (c, true) ∈ order disabled ↔ disabled !! c = Some true) as Hin
    by (intros c; rewrite Horder; apply elem_of_map_to_list).
  split; [intros q Hq; by apply RemoveDisabledPods_spares|]. intros ->.
  assert (missing_at (nodes (w_fs w)) (binDir dataDir) || missing_at (nodes (w_fs w)) dir
          = clean_install dataDir (nodes (w_fs w))) as ->
    by (unfold clean_install; cbn [existsb]; by rewrite orb_false_r).
  destruct (RemoveDisabledPods_cases env polls woken order dataDir endpoint disabledItems
    clusterReset no_faults w) as [[Hn Hno]|(l & s & s' & w1 & Hcl & El & Hs & Hn & Hw)];
    [by rewrite Hno|]. rewrite Hcl by done. rewrite Hw.
  intros c Hc%Hin. destruct (remove_pods_gone env polls woken dir endpoint _ _ _ _ w1 c El
    ltac:(congruence) Hc) as [Hgone Hnode]. split; [done|].
  intros n Hl. destruct Hnode as [E|[target E]]; pose proof (eq_trans (eq_sym Hl) E) as En;
    [discriminate En|]. exists target. by injection En.
Qed.
End manifests.

(** ** The environment of the temporary containerd *)

Definition entry (kv : string * string) : string := kv.1 +:+ "=" +:+ kv.2.

(** Variables meant for containerd are named with this prefix. *)
Definition for_containerd (k : string) : bool :=
  HasPrefix "CONTAINERD_" k && bool_decide (k ≠ "CONTAINERD_LOG_LEVEL").

Definition log_flags (kv : string * string) : list string :=
  if decide (kv.1 = "CONTAINERD_LOG_LEVEL") then ["--log-level"; kv.2] else [].

Definition inherited (dataDir : string) (kv : string * string) : option string :=
  if decide (kv.1 = "NOTIFY_SOCKET") then None
  else if HasPrefix "CONTAINERD_" kv.1 then None
  else if decide (kv.1 = "PATH") then Some (entry ("PATH", binDir dataDir +:+ ":" +:+ kv.2))
  else Some (entry kv).

Definition stripped (kv : string * string) : option string :=
  if for_containerd kv.1 then Some (entry (TrimPrefix "CONTAINERD_" kv.1, kv.2)) else None.

Lemma environ_step_entry dataDir kv args env cenv :
  has_char equals kv.1 = false →
  environ_step dataDir (entry kv) (args, env, cenv)
  = Some (args ++ log_flags kv, env ++ option_list (inherited dataDir kv),
          cenv ++ option_list (stripped kv)).
Proof.
  intros Hk. unfold environ_step.
  assert (SplitN2 equals (entry kv) = [kv.1; kv.2]) as ->.
  { unfold SplitN2, entry.
    change (kv.1 +:+ "=" +:+ kv.2) with (kv.1 +:+ String equals kv.2). by rewrite Cut_app. }
  cbn [hd tl]. unfold log_flags, inherited, stripped, for_containerd.
  destruct kv as [k v]. cbn [fst snd].
  destruct (decide (k = "NOTIFY_SOCKET")) as [->|Hn]; [simpl; by rewrite !app_nil_r|].
  destruct (decide (k = "CONTAINERD_LOG_LEVEL")) as [->|Hl]; [simpl; by rewrite !app_nil_r|].
  rewrite (bool_decide_eq_true_2 (k ≠ _)) by done. rewrite andb_true_r.
  destruct (HasPrefix "CONTAINERD_" k); [rewrite !app_nil_r; reflexivity|].
  destruct (decide (k = "PATH")) as [->|Hp]; rewrite !app_nil_r; reflexivity.
Qed.

(** [startContainerd], on an environment of [key=value] entries, runs the
    program with its fixed arguments and one log-level flag per
    CONTAINERD_LOG_LEVEL; the inherited variables come first, with the binary
    directory put in front of PATH and NOTIFY_SOCKET left out, and the variables
    named with the CONTAINERD_ prefix follow with the prefix stripped, so that
    they take precedence. *)
Theorem startContainerd_command dataDir path kvs :
  Forall (λ kv, has_char equals kv.1 = false) kvs →
  startContainerd dataDir path (entry <$> kvs)
  = Some {| cmd_Args := path :: containerd_args dataDir ++ concat (log_flags <$> kvs);
            cmd_Env := omap (inherited dataDir) kvs ++ omap stripped kvs |}.
Proof.
  intros Hk. unfold startContainerd.
  assert (∀ args env cenv, environ_loop dataDir (entry <$> kvs) (args, env, cenv)
    = Some (args ++ concat (log_flags <$> kvs), env ++ omap (inherited dataDir) kvs,
            cenv ++ omap stripped kvs)) as ->; [|done].
  induction Hk as [|kv kvs Hkv _ IH]; intros args env cenv; [by simpl; rewrite !app_nil_r|].
  rewrite fmap_cons. cbn [environ_loop]. rewrite environ_step_entry by done. simpl. rewrite IH.
  rewrite <-!(assoc_L (++)). do 3 f_equal; f_equal; unfold option_list;
    by repeat case_match.
Qed.

(** ** Witnesses *)

#[local] Existing Instance SimpleLib.lib.
#[local] Existing Instance SimpleCRI.cri.

(** A static pod of the system namespace without a component label. *)
Definition unlabelled_sandbox : PodSandbox * SandboxStatus :=
  ({| sb_Id := "vip"; sb_Name := "kube-vip";
      sb_Labels := {[ "io.kubernetes.pod.namespace" := "kube-system" ]};
      sb_Annotations := {[ "kubernetes.io/config.source" := "file" ]} |},
   {| st_Id := "vip"; st_Ready := true; st_Network := None; st_NetworkMode := ModeNode |}).

Definition sample_vip : world := sample_runtime [unlabelled_sandbox] eq_refl.

Lemma terminate_removes_unlabelled_witness :
  "vip" ∈ w_removed (terminate_body "" (Pods [["etcd"; "kube-apiserver"]] (Slice 0 0 2 2))
                       no_faults sample_vip).2.
Proof.
  apply (terminate_removes_unlabelled "" "etcd" ["kube-apiserver"] [unlabelled_sandbox.1]
           unlabelled_sandbox.1 no_faults sample_vip (w_rt sample_vip) (w_rt sample_vip));
    try done; try (vm_compute; reflexivity).
  - constructor; [vm_compute; reflexivity|constructor].
  - constructor.
Defined.

Lemma map_to_list_order : ∀ m : gmap string bool, map_to_list m ≡ₚ map_to_list m.
Proof. done. Qed.

(** A cluster reset on a node that runs etcd. *)
Definition sample_reset : world :=
  World (MkFS (<["/d/bin" := NLink "/d/data/v1/bin"]> (<["/d/data/v1/bin" := NDir]> (<["/d/agent/pod-manifests" := NDir]> sample_manifests))) 0 [])
        (w_rt sample_synced) [].

Lemma RemoveDisabledPods_manifests_witness :
  let t := nodes (w_fs (RemoveDisabledPods (λ _ r, r) 3 WakeTerminate map_to_list "/d" "" ∅ true
                          no_faults sample_reset).2) in
  is_Ok (stat_at t (manifest_file (PodManifestsDir "/d") "etcd")) = false ∧
  ∀ n, t !! Clean (manifest_file (PodManifestsDir "/d") "etcd") = Some n → ∃ target, n = NLink target.
Proof.
  refine (proj2 (RemoveDisabledPods_manifests (λ _ r, r) 3 WakeTerminate map_to_list "/d" "" ∅ true
    no_faults sample_reset map_to_list_order) eq_refl "etcd" _).
  vm_compute; reflexivity.
Defined.

Lemma startContainerd_command_witness :
  cmd_Env <$> startContainerd "/d" "/d/bin/containerd"
    ["PATH=/bin"; "NOTIFY_SOCKET=/s"; "CONTAINERD_HTTPS_PROXY=p"; "HOME=/root"]
  = Some ["PATH=/d/bin:/bin"; "HOME=/root"; "HTTPS_PROXY=p"].
Proof.
  refine (eq_trans (f_equal (fmap cmd_Env) (startContainerd_command "/d" "/d/bin/containerd"
    [("PATH", "/bin"); ("NOTIFY_SOCKET", "/s"); ("CONTAINERD_HTTPS_PROXY", "p"); ("HOME", "/root")] _)) _);
    [repeat constructor|vm_compute; reflexivity].
Defined.
