(* ===== verification/Kube.v ===== *)
(** * Kube: the Kubernetes API as the startup hooks and controllers see it

    Objects carry only the fields the program reads or writes.  The client is
    library code: [KubeApi] gives its calls as functions on an unknown cluster
    state.  [KubeLaws] states what the API documents of an available server,
    above all optimistic concurrency: an update that carries an outdated
    resource version is refused with a conflict and changes nothing. *)

From S2P Require Import Prelude GoStrings.

Inductive protocol := TCP | UDP.
Inductive IntOrString := IntVal (n : Z) | StrVal (s : string).

Record NetworkPolicyPort := { port_Protocol : protocol; port_Port : IntOrString }.

(** A peer of an ingress rule: pods of the namespace, or a block of addresses. *)
Inductive NetworkPolicyPeer :=
  | PodSelectorPeer (matchLabels : gmap string string)
  | IPBlockPeer (cidr : string).

Record NetworkPolicyIngressRule := {
  rule_From : list NetworkPolicyPeer;
  rule_Ports : list NetworkPolicyPort
}.

Inductive PolicyType := PolicyTypeIngress | PolicyTypeEgress.

Record NetworkPolicySpec := {
  spec_PodSelector : gmap string string;
  spec_Ingress : list NetworkPolicyIngressRule;
  spec_PolicyTypes : list PolicyType
}.

Record NetworkPolicy := {
  np_Name : string;
  np_ResourceVersion : string;
  np_Annotations : gmap string string;
  np_Spec : NetworkPolicySpec
}.

Record Namespace := {
  ns_Name : string;
  ns_ResourceVersion : string;
  ns_Labels : gmap string string;
  ns_Annotations : gmap string string
}.

Record ServiceAccount := {
  sa_Name : string;
  sa_ResourceVersion : string;
  sa_Labels : gmap string string;
  AutomountServiceAccountToken : option bool
}.

Record Node := {
  node_Name : string;
  node_Annotations : gmap string string;
  node_PodCIDR : string;
  node_PodCIDRs : list string;
  node_Finalizers : list string;
  (** it has a deletion timestamp *)
  node_Deleting : bool
}.

Class KubeApi := {
  cluster : Type;
  Namespaces_Get : string → cluster → result Namespace * cluster;
  Namespaces_Update : Namespace → cluster → result Namespace * cluster;
  (** calls on the policies of a namespace, the first argument *)
  NetworkPolicies_Get : string → string → cluster → result NetworkPolicy * cluster;
  NetworkPolicies_Delete : string → string → cluster → result unit * cluster;
  NetworkPolicies_Create : string → NetworkPolicy → cluster → result NetworkPolicy * cluster;
  NetworkPolicies_Update : string → NetworkPolicy → cluster → result NetworkPolicy * cluster;
  ServiceAccounts_Get : string → string → cluster → result ServiceAccount * cluster;
  ServiceAccounts_Update : string → ServiceAccount → cluster → result ServiceAccount * cluster;
  Nodes_List : cluster → result (list Node) * cluster;
  (** a JSON patch that replaces the finalizers of a node *)
  Nodes_PatchFinalizers : string → list string → cluster → result unit * cluster
}.

(** A step of a client that keeps local state [S] (the objects its pointers
    refer to) next to the cluster. *)
Definition attempt_fn `{KubeApi} (S : Type) := S → cluster → result unit * S * cluster.

(** [retry.OnError]: the function is called at most [S steps] times, and again
    only after an error that may be retried; the last error is returned. *)
Fixpoint OnError `{KubeApi} {S} (retriable : error → bool) (steps : nat) (fn : attempt_fn S)
    (s : S) (c : cluster) : result unit * S * cluster :=
  let '(r, s', c') := fn s c in
  match steps, r with
  | S steps', Err e => if retriable e then OnError retriable steps' fn s' c' else (r, s', c')
  | _, _ => (r, s', c')
  end.

(** [retry.RetryOnConflict] with [retry.DefaultBackoff] (4 calls) and with
    [retry.DefaultRetry] (5 calls). *)
Definition DefaultBackoff := 3.
Definition DefaultRetry := 4.

Definition RetryOnConflict `{KubeApi} {S} (steps : nat) (fn : attempt_fn S) :=
  OnError apierrors_IsConflict steps fn.

(** What every call of a retried function leaves alone, the retries do. *)
Lemma OnError_keeps `{KubeApi} {S X} (obs : cluster → X) retriable steps (fn : attempt_fn S) s c :
  (∀ s c, obs (fn s c).2 = obs c) → obs (OnError retriable steps fn s c).2 = obs c.
Proof.
  intros Hfn. revert s c. induction steps as [|steps IH]; intros s c; cbn [OnError];
    pose proof (Hfn s c) as Hn; destruct (fn s c) as [[r s'] c']; cbn [snd] in Hn |- *; [done|].
  destruct r as [|e]; [done|]. destruct (retriable e); [|done]. by rewrite IH.
Qed.

(** ** An available API server *)

Definition set_annotations (a : gmap string string) (ns : Namespace) : Namespace :=
  {| ns_Name := ns_Name ns; ns_ResourceVersion := ns_ResourceVersion ns;
     ns_Labels := ns_Labels ns; ns_Annotations := a |}.

Class KubeLaws `{KubeApi} := {
  namespace_at : cluster → string → option Namespace;
  policy_at : cluster → string → string → option NetworkPolicy;
  account_at : cluster → string → string → option ServiceAccount;
  namespace_name : ∀ c n ns, namespace_at c n = Some ns → ns_Name ns = n;

  Namespaces_Get_law : ∀ n c,
    Namespaces_Get n c = (from_option Ok (Err ErrApiNotFound) (namespace_at c n), c);
  (** an update with the current version and a change is stored under a new version *)
  Namespaces_Update_current : ∀ ns c cur,
    namespace_at c (ns_Name ns) = Some cur → ns_ResourceVersion cur = ns_ResourceVersion ns →
    ns_Annotations cur ≠ ns_Annotations ns →
    ∃ ns' c', Namespaces_Update ns c = (Ok ns', c') ∧
      ns_ResourceVersion ns' ≠ ns_ResourceVersion ns ∧ ns_Annotations ns' = ns_Annotations ns ∧
      ns_Name ns' = ns_Name ns ∧ ns_Labels ns' = ns_Labels ns ∧
      namespace_at c' (ns_Name ns) = Some ns' ∧
      (∀ n, n ≠ ns_Name ns → namespace_at c' n = namespace_at c n) ∧
      (∀ n p, policy_at c' n p = policy_at c n p);
  Namespaces_Update_stale : ∀ ns c cur,
    namespace_at c (ns_Name ns) = Some cur → ns_ResourceVersion cur ≠ ns_ResourceVersion ns →
    Namespaces_Update ns c = (Err ErrApiConflict, c);

  NetworkPolicies_Get_law : ∀ n p c,
    NetworkPolicies_Get n p c = (from_option Ok (Err ErrApiNotFound) (policy_at c n p), c);
  NetworkPolicies_Delete_law : ∀ n p c, is_Some (policy_at c n p) →
    ∃ c', NetworkPolicies_Delete n p c = (Ok (), c') ∧ policy_at c' n p = None ∧
      (∀ n' p', (n', p') ≠ (n, p) → policy_at c' n' p' = policy_at c n' p') ∧
      (∀ m, namespace_at c' m = namespace_at c m);
  NetworkPolicies_Create_law : ∀ n np c, policy_at c n (np_Name np) = None →
    ∃ np' c', NetworkPolicies_Create n np c = (Ok np', c') ∧
      policy_at c' n (np_Name np) = Some np' ∧ np_Spec np' = np_Spec np ∧
      np_Annotations np' = np_Annotations np ∧ np_Name np' = np_Name np ∧
      (∀ n' p', (n', p') ≠ (n, np_Name np) → policy_at c' n' p' = policy_at c n' p') ∧
      (∀ m, namespace_at c' m = namespace_at c m);

  policy_name : ∀ c n p np, policy_at c n p = Some np → np_Name np = p;
  NetworkPolicies_Update_current : ∀ n np c cur,
    policy_at c n (np_Name np) = Some cur → np_ResourceVersion cur = np_ResourceVersion np →
    ∃ np' c', NetworkPolicies_Update n np c = (Ok np', c') ∧
      policy_at c' n (np_Name np) = Some np' ∧ np_Spec np' = np_Spec np ∧
      (∀ n' p', (n', p') ≠ (n, np_Name np) → policy_at c' n' p' = policy_at c n' p');

  account_name : ∀ c n a sa, account_at c n a = Some sa → sa_Name sa = a;
  ServiceAccounts_Get_law : ∀ n a c,
    ServiceAccounts_Get n a c = (from_option Ok (Err ErrApiNotFound) (account_at c n a), c);
  (** an accepted update is what is stored *)
  ServiceAccounts_Update_Ok : ∀ n sa c sa' c',
    ServiceAccounts_Update n sa c = (Ok sa', c') →
    account_at c' n (sa_Name sa) = Some sa' ∧
    AutomountServiceAccountToken sa' = AutomountServiceAccountToken sa ∧
    (∀ n' a, (n', a) ≠ (n, sa_Name sa) → account_at c' n' a = account_at c n' a);
  ServiceAccounts_Update_Err : ∀ n sa c e c', ServiceAccounts_Update n sa c = (Err e, c') → c' = c;
  ServiceAccounts_Update_current : ∀ n sa c cur,
    account_at c n (sa_Name sa) = Some cur → sa_ResourceVersion cur = sa_ResourceVersion sa →
    is_Ok (ServiceAccounts_Update n sa c).1 = true
}.

(** A call about objects of one kind changes none of another. *)
Class KubeFrames `{KubeLaws} := {
  Namespaces_Update_account ns c n a : account_at (Namespaces_Update ns c).2 n a = account_at c n a;
  NetworkPolicies_Create_account m np c n a :
    account_at (NetworkPolicies_Create m np c).2 n a = account_at c n a;
  NetworkPolicies_Delete_account m p c n a :
    account_at (NetworkPolicies_Delete m p c).2 n a = account_at c n a;
  ServiceAccounts_Update_namespace m sa c n :
    namespace_at (ServiceAccounts_Update m sa c).2 n = namespace_at c n;
  ServiceAccounts_Update_policy m sa c n p :
    policy_at (ServiceAccounts_Update m sa c).2 n p = policy_at c n p
}.

(** The nodes, which other clients change and calls about policies do not. *)
Class KubeNodes `{KubeLaws} := {
  nodes_of : cluster → list Node;
  set_nodes : list Node → cluster → cluster;
  Nodes_List_law c : Nodes_List c = (Ok (nodes_of c), c);
  Create_nodes n np c : nodes_of (NetworkPolicies_Create n np c).2 = nodes_of c;
  Update_nodes n np c : nodes_of (NetworkPolicies_Update n np c).2 = nodes_of c;
  set_nodes_of l c : nodes_of (set_nodes l c) = l;
  set_nodes_policy l c n p : policy_at (set_nodes l c) n p = policy_at c n p
}.

(** ** A concrete API server

    Objects in maps; a new resource version is the old one with a mark added. *)
Module SimpleKube.
Record state := State {
  k_namespaces : gmap string Namespace;
  k_policies : gmap (string * string) NetworkPolicy;
  k_accounts : gmap (string * string) ServiceAccount;
  k_nodes : list Node
}.

Definition next (v : string) : string := v +:+ "'".

Definition found {A} (o : option A) : result A := from_option Ok (Err ErrApiNotFound) o.

Definition bump_ns (ns : Namespace) : Namespace :=
  {| ns_Name := ns_Name ns; ns_ResourceVersion := next (ns_ResourceVersion ns);
     ns_Labels := ns_Labels ns; ns_Annotations := ns_Annotations ns |}.
Definition bump_np (np : NetworkPolicy) : NetworkPolicy :=
  {| np_Name := np_Name np; np_ResourceVersion := next (np_ResourceVersion np);
     np_Annotations := np_Annotations np; np_Spec := np_Spec np |}.
Definition bump_sa (sa : ServiceAccount) : ServiceAccount :=
  {| sa_Name := sa_Name sa; sa_ResourceVersion := next (sa_ResourceVersion sa);
     sa_Labels := sa_Labels sa;
     AutomountServiceAccountToken := AutomountServiceAccountToken sa |}.

Definition get_ns (s : state) (n : string) : option Namespace :=
  ns ← k_namespaces s !! n; guard (ns_Name ns = n);; Some ns.
Definition get_np (s : state) (n p : string) : option NetworkPolicy :=
  np ← k_policies s !! (n, p); guard (np_Name np = p);; Some np.
Definition get_sa (s : state) (n a : string) : option ServiceAccount :=
  sa ← k_accounts s !! (n, a); guard (sa_Name sa = a);; Some sa.
Definition set_ns (ns : Namespace) (s : state) : state :=
  State (<[ns_Name ns := ns]> (k_namespaces s)) (k_policies s) (k_accounts s) (k_nodes s).
Definition set_policies (f : gmap (string * string) NetworkPolicy → gmap (string * string) NetworkPolicy)
    (s : state) : state :=
  State (k_namespaces s) (f (k_policies s)) (k_accounts s) (k_nodes s).
Definition set_account (n : string) (sa : ServiceAccount) (s : state) : state :=
  State (k_namespaces s) (k_policies s) (<[(n, sa_Name sa) := sa]> (k_accounts s)) (k_nodes s).

(** An update: [old] is the stored version, [new] the offered one. *)
Definition update {A} (cur : option A) (version : A → string) (new stored : A) (s s' : state)
    : result A * state :=
  match cur with
  | None => (Err ErrApiNotFound, s)
  | Some o => if decide (version o = version new) then (Ok stored, s') else (Err ErrApiConflict, s)
  end.

#[export] Instance api : KubeApi := {|
  cluster := state;
  Namespaces_Get n s := (found (get_ns s n), s);
  Namespaces_Update ns s :=
    update (get_ns s (ns_Name ns)) ns_ResourceVersion ns (bump_ns ns) s (set_ns (bump_ns ns) s);
  NetworkPolicies_Get n p s := (found (get_np s n p), s);
  NetworkPolicies_Delete n p s :=
    match get_np s n p with
    | Some _ => (Ok (), set_policies (delete (n, p)) s)
    | None => (Err ErrApiNotFound, s)
    end;
  NetworkPolicies_Create n np s :=
    match get_np s n (np_Name np) with
    | Some _ => (Err ErrApiAlreadyExists, s)
    | None => (Ok (bump_np np), set_policies (<[(n, np_Name np) := bump_np np]>) s)
    end;
  NetworkPolicies_Update n np s :=
    update (get_np s n (np_Name np)) np_ResourceVersion np (bump_np np) s
      (set_policies (<[(n, np_Name np) := bump_np np]>) s);
  ServiceAccounts_Get n a s := (found (get_sa s n a), s);
  ServiceAccounts_Update n sa s :=
    update (get_sa s n (sa_Name sa)) sa_ResourceVersion sa (bump_sa sa) s
      (set_account n (bump_sa sa) s);
  Nodes_List s := (Ok (k_nodes s), s);
  Nodes_PatchFinalizers n l s := (Ok (), s)
|}.

Lemma next_ne v : next v ≠ v.
Proof.
  intros Hv. apply (f_equal Len) in Hv. unfold next in Hv. rewrite Len_app in Hv. simpl in Hv. lia.
Qed.

#[export] Instance kube_laws : KubeLaws.
Proof.
  refine {| namespace_at (s : @cluster api) n := get_ns s n;
            policy_at (s : @cluster api) n p := get_np s n p;
            account_at (s : @cluster api) n a := get_sa s n a |}.
  - intros s n ns. unfold get_ns. destruct (k_namespaces s !! n) as [ns'|]; [|done]. simpl.
    case_guard; [|done]. by intros [= <-].
  - done.
  - intros ns s cur Hcur Hrv _. simpl. rewrite Hcur. simpl. rewrite decide_True by done.
    eexists _, _. split; [done|]. unfold get_ns, set_ns. simpl.
    split_and!; [apply next_ne|done|done|done| | |done].
    + rewrite lookup_insert_eq. simpl. by case_guard.
    + intros n Hn. by rewrite lookup_insert_ne.
  - intros ns s cur Hcur Hrv. simpl. rewrite Hcur. simpl. by rewrite decide_False.
  - done.
  - intros n p s [np Hnp]. simpl. rewrite Hnp. eexists. split; [done|]. unfold get_np. simpl.
    split_and!; [by rewrite lookup_delete_eq| |done]. intros n' p' Hne. by rewrite lookup_delete_ne.
  - intros n np s Hnone. simpl. rewrite Hnone. eexists _, _. split; [done|]. unfold get_np. simpl.
    split_and!; [|done|done|done| |done].
    + rewrite lookup_insert_eq. simpl. by case_guard.
    + intros n' p' Hne. by rewrite lookup_insert_ne.
  - intros s n p np. unfold get_np. destruct (k_policies s !! (n, p)) as [np'|]; [|done]. simpl.
    case_guard; [|done]. by intros [= <-].
  - intros n np s cur Hcur Hrv. simpl. rewrite Hcur. simpl. rewrite decide_True by done.
    eexists _, _. split; [done|]. unfold get_np. simpl. split_and!; [|done|].
    + rewrite lookup_insert_eq. simpl. by case_guard.
    + intros n' p' Hne. by rewrite lookup_insert_ne.
  - intros s n a sa. unfold get_sa. destruct (k_accounts s !! (n, a)) as [sa'|]; [|done]. simpl.
    case_guard; [|done]. by intros [= <-].
  - done.
  - intros n sa s sa' s'. simpl. unfold update. destruct (get_sa s n (sa_Name sa)); [|done].
    case_decide; [|done]. intros [= <- <-]. unfold get_sa, set_account. simpl. split_and!.
    + rewrite lookup_insert_eq. simpl. by case_guard.
    + done.
    + intros n' a Hne. by rewrite lookup_insert_ne.
  - intros n sa s e s'. simpl. unfold update. destruct (get_sa s n (sa_Name sa)); [case_decide|];
      by intros [= _ <-].
  - intros n sa s cur. simpl. intros Hcur Hrv. rewrite Hcur. simpl. by rewrite decide_True.
Defined.

#[export] Instance kube_nodes : KubeNodes.
Proof.
  refine {| nodes_of (s : @cluster api) := k_nodes s;
            set_nodes l (s : @cluster api) :=
              State (k_namespaces s) (k_policies s) (k_accounts s) l : @cluster api |}; try done.
  - intros n np s. cbn. by destruct (get_np s n (np_Name np)).
  - intros n np s. cbn. unfold update. destruct (get_np s n (np_Name np)); [by case_decide|done].
Defined.

#[export] Instance kube_frames : KubeFrames.
Proof.
  split; cbn; intros; unfold update; repeat case_match; done.
Qed.
End SimpleKube.
