(* ===== verification/NetPolicy.v ===== *)
(** * NetPolicy: the default network policies of CIS mode (pkg/rke2/np.go) *)

From S2P Require Import Prelude GoStrings Kube.

Definition cisAnnotationValue := "resolved".

Record policyTemplate := {
  t_name : string;
  t_annotationKey : string;
  t_podSelector : gmap string string;
  t_ingress : list NetworkPolicyIngressRule
}.

Definition ports (l : list (protocol * IntOrString)) : list NetworkPolicyIngressRule :=
  [{| rule_From := [];
      rule_Ports := (λ p, {| port_Protocol := p.1; port_Port := p.2 |}) <$> l |}].

Definition defaultNamespacePolicies : list policyTemplate :=
  [{| t_name := "default-network-policy"; t_annotationKey := "np.rke2.io"; t_podSelector := ∅;
      t_ingress := [{| rule_From := [PodSelectorPeer ∅]; rule_Ports := [] |}] |}].

Definition defaultKubeSystemPolicies : list policyTemplate :=
  [{| t_name := "default-network-dns-policy"; t_annotationKey := "np.rke2.io/dns";
      t_podSelector := {["k8s-app" := "kube-dns"]};
      t_ingress := ports [(TCP, IntVal 53); (UDP, IntVal 53)] |};
   {| t_name := "default-network-ingress-policy"; t_annotationKey := "np.rke2.io/ingress";
      t_podSelector := {["app.kubernetes.io/name" := "rke2-ingress-nginx"]};
      t_ingress := ports [(TCP, StrVal "http"); (TCP, StrVal "https")] |};
   {| t_name := "default-network-ingress-webhook-policy";
      t_annotationKey := "np.rke2.io/ingress-webhook";
      t_podSelector := {["app.kubernetes.io/name" := "rke2-ingress-nginx"]};
      t_ingress := ports [(TCP, StrVal "webhook")] |};
   {| t_name := "default-network-traefik-policy"; t_annotationKey := "np.rke2.io/traefik";
      t_podSelector := {["app.kubernetes.io/name" := "rke2-traefik"]};
      t_ingress := ports [(TCP, StrVal "web"); (TCP, StrVal "websecure")] |};
   {| t_name := "default-network-snapshot-validation-webhook-policy";
      t_annotationKey := "np.rke2.io/snapshot-validation-webhook";
      t_podSelector := {["app.kubernetes.io/name" := "rke2-snapshot-validation-webhook"]};
      t_ingress := ports [(TCP, StrVal "https")] |};
   {| t_name := "default-network-metrics-server-policy";
      t_annotationKey := "np.rke2.io/metrics-server";
      t_podSelector := {["app" := "rke2-metrics-server"]};
      t_ingress := ports [(TCP, StrVal "https")] |}].

Definition policyFromTemplate (template : policyTemplate) : NetworkPolicy := {|
  np_Name := t_name template;
  np_ResourceVersion := "";
  np_Annotations := {[t_annotationKey template := cisAnnotationValue]};
  np_Spec := {| spec_PodSelector := t_podSelector template;
                spec_Ingress := t_ingress template;
                spec_PolicyTypes := [PolicyTypeIngress] |}
|}.

Section np.
Context `{KubeApi}.

(** [updateNamespaceRef]: the annotations of [ns] copied over those of the
    newest revision. *)
Definition updateNamespaceRef (ns : Namespace) (c : cluster) : result unit * Namespace * cluster :=
  match Namespaces_Get (ns_Name ns) c with
  | (Err e, c') => (Err e, ns, c')
  | (Ok newNS, c') => (Ok (), set_annotations (ns_Annotations ns ∪ ns_Annotations newNS) newNS, c')
  end.

(** The function given to [RetryOnConflict]. *)
Definition update_namespace (ns : Namespace) (c : cluster) : result unit * Namespace * cluster :=
  match Namespaces_Update ns c with
  | (Err e, c') => if apierrors_IsConflict e then updateNamespaceRef ns c' else (Err e, ns, c')
  | (Ok _, c') => (Ok (), ns, c')
  end.

(** The old policy of that name is deleted, if there is one. *)
Definition delete_old (namespace : string) (template : policyTemplate) (c : cluster)
    : result unit * cluster :=
  match NetworkPolicies_Get namespace (t_name template) c with
  | (Err _, c') => (Ok (), c')
  | (Ok _, c') =>
      match NetworkPolicies_Delete namespace (t_name template) c' with
      | (Err e, c'') => if apierrors_IsNotFound e then (Ok (), c'') else (Err e, c'')
      | (Ok _, c'') => (Ok (), c'')
      end
  end.

Definition create_policy (namespace : string) (template : policyTemplate) (c : cluster)
    : result unit * cluster :=
  match NetworkPolicies_Create namespace (policyFromTemplate template) c with
  | (Err e, c') => if apierrors_IsAlreadyExists e then (Ok (), c') else (Err e, c')
  | (Ok _, c') => (Ok (), c')
  end.

Definition apply_message (template : policyTemplate) (ns : Namespace) : string :=
  "failed to apply network policy " +:+ t_name template +:+ " to namespace " +:+ ns_Name ns.

(** The loop over the templates; [ns] is what the pointer refers to. *)
Fixpoint apply_templates (namespace : string) (templates : list policyTemplate)
    (ns : Namespace) (c : cluster) : result unit * cluster :=
  match templates with
  | [] => (Ok (), c)
  | template :: rest =>
      match ns_Annotations ns !! t_annotationKey template with
      | Some _ => apply_templates namespace rest ns c
      | None =>
          match delete_old namespace template c with
          | (Err e, c1) => (Err e, c1)
          | (Ok _, c1) =>
              match create_policy namespace template c1 with
              | (Err e, c2) => (Err e, c2)
              | (Ok _, c2) =>
                  let ns := set_annotations
                    (<[t_annotationKey template := cisAnnotationValue]> (ns_Annotations ns)) ns in
                  match RetryOnConflict DefaultBackoff update_namespace ns c2 with
                  | (Err e, ns, c3) => (Err (ErrWithMessage (apply_message template ns) e), c3)
                  | (Ok _, ns, c3) => apply_templates namespace rest ns c3
                  end
              end
          end
      end
  end.

Definition setPoliciesFromTemplates (templates : list policyTemplate) (namespace : string)
    (c : cluster) : result unit * cluster :=
  match Namespaces_Get namespace c with
  | (Err e, c') => (Err (ErrWithMessage ("networkPolicy: get " +:+ namespace) e), c')
  | (Ok ns, c') => apply_templates namespace templates ns c'
  end.

(** The condition polled by the hook of [setNetworkPolicies]. *)
Fixpoint apply_namespaces (namespaces : list string) (c : cluster) : bool * cluster :=
  match namespaces with
  | [] => (true, c)
  | namespace :: rest =>
      match setPoliciesFromTemplates defaultNamespacePolicies namespace c with
      | (Err _, c1) => (false, c1)
      | (Ok _, c1) =>
          if decide (namespace = "kube-system") then
            match setPoliciesFromTemplates defaultKubeSystemPolicies namespace c1 with
            | (Err _, c2) => (false, c2)
            | (Ok _, c2) => apply_namespaces rest c2
            end
          else apply_namespaces rest c1
      end
  end.

(** [setNetworkPolicies]: nothing outside CIS mode; else the condition is polled,
    [polls] times before the context ends. *)
Fixpoint poll_policies (polls : nat) (namespaces : list string) (c : cluster) : bool * cluster :=
  match polls with
  | 0 => (false, c)
  | S polls' =>
      let '(b, c') := apply_namespaces namespaces c in
      if b : bool then (true, c') else poll_policies polls' namespaces c'
  end.

Definition setNetworkPolicies (cisMode : bool) (namespaces : list string) (polls : nat)
    (c : cluster) : bool * cluster :=
  if cisMode then poll_policies polls namespaces c else (true, c).
End np.

(** ** What the hook does on an available API server *)

(** The templates the namespace does not record as applied. *)
Definition missing (a : gmap string string) (templates : list policyTemplate)
    : list policyTemplate :=
  filter (λ t, a !! t_annotationKey t = None) templates.

(** Record a template, or several, in the annotations. *)
Definition record (a : gmap string string) (t : policyTemplate) : gmap string string :=
  <[t_annotationKey t := cisAnnotationValue]> a.
Definition record_all (a : gmap string string) (l : list policyTemplate) : gmap string string :=
  foldl record a l.

Section applied.
Context `{KubeLaws} (n : string).
Implicit Types (c : cluster) (t : policyTemplate) (ts : list policyTemplate) (ns : Namespace).

(** The policy of the template is in the namespace, as the template says. *)
Definition policy_applied c t : Prop :=
  ∃ np, policy_at c n (t_name t) = Some np ∧ np_Spec np = np_Spec (policyFromTemplate t) ∧
        np_Annotations np = np_Annotations (policyFromTemplate t).

(** Only the policies of [ts] differ between two clusters. *)
Definition only_policies ts c c' : Prop :=
  ∀ n' p, (n' = n → p ∉ t_name <$> ts) → policy_at c' n' p = policy_at c n' p.

Definition same_namespaces c c' : Prop := ∀ m, namespace_at c' m = namespace_at c m.
Definition other_namespaces c c' : Prop := ∀ m, m ≠ n → namespace_at c' m = namespace_at c m.

Lemma delete_create t c :
  ∃ c1 c2, delete_old n t c = (Ok (), c1) ∧ create_policy n t c1 = (Ok (), c2) ∧
    policy_applied c2 t ∧ only_policies [t] c c2 ∧ same_namespaces c c2.
Proof.
  assert (∃ c1, delete_old n t c = (Ok (), c1) ∧ policy_at c1 n (t_name t) = None ∧
                only_policies [t] c c1 ∧ same_namespaces c c1) as (c1 & E1 & Hnone & Hp1 & Hs1).
  { unfold delete_old. rewrite NetworkPolicies_Get_law.
    destruct (policy_at c n (t_name t)) as [np|] eqn:Hp; simpl; [|by exists c].
    destruct (NetworkPolicies_Delete_law n (t_name t) c) as (c1 & -> & ? & Hother & ?); [done|].
    exists c1. split_and!; try done. intros n' p Hne. apply Hother. intros [= -> ->].
    apply Hne; [done|constructor]. }
  destruct (NetworkPolicies_Create_law n (policyFromTemplate t) c1 Hnone)
    as (np & c2 & E2 & Hp & Hspec & Hann & _ & Hother & Hs2).
  exists c1, c2. unfold create_policy. rewrite E2. split_and!; [done|done| | |].
  - by exists np.
  - intros n' p Hne. rewrite Hother, Hp1; [done|done|]. intros [= -> ->].
    apply Hne; [done|constructor].
  - intros m. by rewrite Hs2, Hs1.
Qed.

(** The annotations stored in the cluster after the templates [l], none of them
    recorded, have been applied, when the local copy has annotations [loc] and
    the stored object [st]; [fresh] tells whether the local copy has the current
    resource version. *)
Fixpoint stored (fresh : bool) (l : list policyTemplate) (loc st : gmap string string)
    : gmap string string :=
  match l with
  | [] => st
  | t :: l' => if fresh then stored false l' (record loc t) (record loc t)
               else stored true l' (record loc t) st
  end.

(** One update of the namespace. *)
Lemma update_fresh ns c cur :
  namespace_at c n = Some cur → ns_Name ns = n →
  ns_ResourceVersion cur = ns_ResourceVersion ns → ns_Annotations cur ≠ ns_Annotations ns →
  ∃ c' cur', RetryOnConflict DefaultBackoff update_namespace ns c = (Ok (), ns, c') ∧
    namespace_at c' n = Some cur' ∧ ns_ResourceVersion cur' ≠ ns_ResourceVersion ns ∧
    ns_Annotations cur' = ns_Annotations ns ∧ (∀ n' p, policy_at c' n' p = policy_at c n' p) ∧
    other_namespaces c c'.
Proof.
  intros Hc Hn Hrv Hne. rewrite <-Hn in Hc.
  destruct (Namespaces_Update_current ns c cur Hc Hrv Hne)
    as (ns' & c' & E & Hrv' & Ha & _ & _ & Hat & Hm & Hp).
  exists c', ns'. split_and!; try done; [|congruence|intros m Hmn; apply Hm; congruence].
  unfold RetryOnConflict, DefaultBackoff. simpl.
  unfold update_namespace. by rewrite E.
Qed.

Lemma update_stale ns c cur :
  namespace_at c n = Some cur → ns_Name ns = n →
  ns_ResourceVersion cur ≠ ns_ResourceVersion ns →
  RetryOnConflict DefaultBackoff update_namespace ns c
  = (Ok (), set_annotations (ns_Annotations ns ∪ ns_Annotations cur) cur, c).
Proof.
  intros Hc Hn Hrv. rewrite <-Hn in Hc. unfold RetryOnConflict, DefaultBackoff. simpl.
  unfold update_namespace. rewrite (Namespaces_Update_stale ns c cur Hc Hrv). simpl.
  unfold updateNamespaceRef. by rewrite Namespaces_Get_law, Hc.
Qed.

(** How the local copy [ns] relates to the stored object [cur]. *)
Definition linked (fresh : bool) ns (cur : Namespace) : Prop :=
  ns_Name ns = n ∧
  if fresh then ns_ResourceVersion cur = ns_ResourceVersion ns ∧
                ns_Annotations cur ⊆ ns_Annotations ns
  else ns_ResourceVersion cur ≠ ns_ResourceVersion ns ∧ ns_Annotations cur = ns_Annotations ns.

(** Recording one more template moves the pair to the other mode. *)
Lemma record_step fresh ns cur c t :
  namespace_at c n = Some cur → linked fresh ns cur →
  ns_Annotations ns !! t_annotationKey t = None →
  let ns1 := set_annotations (record (ns_Annotations ns) t) ns in
  ∃ ns2 c' cur', RetryOnConflict DefaultBackoff update_namespace ns1 c = (Ok (), ns2, c') ∧
    namespace_at c' n = Some cur' ∧ linked (negb fresh) ns2 cur' ∧
    ns_Annotations ns2 = record (ns_Annotations ns) t ∧
    ns_Annotations cur' = (if fresh then record (ns_Annotations ns) t else ns_Annotations cur) ∧
    (∀ n' p, policy_at c' n' p = policy_at c n' p) ∧ other_namespaces c c'.
Proof.
  intros Hc [Hn Hl] Hkey ns1. destruct fresh; destruct Hl as [Hrv Ha].
  - destruct (update_fresh ns1 c cur Hc Hn Hrv) as (c' & cur' & E & Hc' & Hrv' & Ha' & Hp & Hm).
    { intros Heq. simpl in Heq. apply (f_equal (lookup (t_annotationKey t))) in Heq.
      unfold record in Heq. rewrite lookup_insert_eq in Heq.
      rewrite map_subseteq_spec in Ha. apply Ha in Heq. congruence. }
    exists ns1, c', cur'. split_and!; done.
  - rewrite (update_stale ns1 c cur Hc Hn Hrv). eexists _, c, cur.
    assert (ns_Annotations cur ⊆ record (ns_Annotations ns) t) as Hsub
      by (rewrite Ha; by apply insert_subseteq).
    assert (record (ns_Annotations ns) t ∪ ns_Annotations cur = record (ns_Annotations ns) t) as Hu
      by (by apply map_union_absorb).
    split_and!; try done. split; [exact (namespace_name _ _ _ Hc)|]. split; [done|]. simpl. by rewrite Hu.
Qed.

Lemma missing_record a t ts :
  t_annotationKey t ∉ t_annotationKey <$> ts → missing (record a t) ts = missing a ts.
Proof.
  intros Hnot. unfold missing. induction ts as [|u ts IH]; [done|].
  rewrite fmap_cons, not_elem_of_cons in Hnot. destruct Hnot as [Hne Hnot].
  rewrite !filter_cons, IH by done. unfold record. by rewrite lookup_insert_ne.
Qed.

Lemma apply_templates_spec fresh ts ns cur c :
  namespace_at c n = Some cur → linked fresh ns cur →
  NoDup (t_annotationKey <$> ts) → NoDup (t_name <$> ts) →
  let ms := missing (ns_Annotations ns) ts in
  ∃ c' cur', apply_templates n ts ns c = (Ok (), c') ∧ namespace_at c' n = Some cur' ∧
    ns_Annotations cur' = stored fresh ms (ns_Annotations ns) (ns_Annotations cur) ∧
    Forall (policy_applied c') ms ∧ only_policies ms c c' ∧ other_namespaces c c'.
Proof.
  revert fresh ns cur c. induction ts as [|t ts IH]; intros fresh ns cur c Hc Hl Hkeys Hnames.
  { exists c, cur. split_and!; done. }
  rewrite fmap_cons in Hkeys, Hnames. apply NoDup_cons in Hkeys as [Hk Hkeys].
  apply NoDup_cons in Hnames as [Hname Hnames]. cbn [apply_templates].
  unfold missing. rewrite filter_cons. fold (missing (ns_Annotations ns) ts).
  destruct (ns_Annotations ns !! t_annotationKey t) as [v|] eqn:Hv.
  { rewrite decide_False by done. by apply (IH fresh ns cur). }
  rewrite decide_True by done. cbn zeta.
  destruct (delete_create t c) as (c1 & c2 & -> & -> & Happ & Honly & Hsame).
  rewrite <-(Hsame n) in Hc.
  destruct (record_step fresh ns cur c2 t Hc Hl Hv)
    as (ns2 & c3 & cur3 & E & Hc3 & Hl3 & Ha2 & Ha3 & Hp3 & Hm3).
  unfold record in E. rewrite E.
  destruct (IH _ _ _ _ Hc3 Hl3 Hkeys Hnames) as (c' & cur' & -> & Hc' & Ha' & Hall & Hother & Hm').
  rewrite Ha2, missing_record in Ha', Hall, Hother by done.
  exists c', cur'. split_and!; [done|done| | | |].
  - rewrite Ha', Ha3. cbn [stored]. by destruct fresh.
  - constructor; [|done]. destruct Happ as (np & Hnp & Hspec). exists np.
    rewrite Hother, Hp3; [done|]. intros _ Hin. apply Hname.
    apply list_elem_of_fmap in Hin as (u & -> & [_ Hu]%list_elem_of_filter).
    by apply list_elem_of_fmap_2.
  - intros n' p Hnp. rewrite Hother, Hp3, Honly; [done| |].
    + intros -> Hin%list_elem_of_singleton. apply Hnp; [done|]. subst. constructor.
    + intros -> Hin. apply Hnp; [done|]. by constructor.
  - intros m Hm. by rewrite Hm', Hm3, Hsame.
Qed.

(** What is stored in the end, in closed form. *)
Lemma stored_fresh l loc st :
  stored true l loc st
  = match l with
    | [] => st
    | _ => record_all loc (if Nat.odd (length l) then l else removelast l)
    end.
Proof.
  remember (length l) as k eqn:Hk. revert l loc st Hk.
  induction (lt_wf k) as [k _ IH]; intros [|t [|u l]] loc st Hk; [done|by subst k|].
  cbn [stored]. rewrite (IH (length l)) by (simpl in Hk; lia || done).
  subst k. destruct l as [|v l]; [done|].
  change (Nat.odd (length (t :: u :: v :: l))) with (Nat.odd (length (v :: l))).
  by destruct (Nat.odd (length (v :: l))).
Qed.

(** The templates whose record reaches the cluster. *)
Definition recorded (l : list policyTemplate) : list policyTemplate :=
  if Nat.odd (length l) then l else removelast l.

Lemma setPolicies_spec ts ns c :
  namespace_at c n = Some ns → NoDup (t_annotationKey <$> ts) → NoDup (t_name <$> ts) →
  let ms := missing (ns_Annotations ns) ts in
  ∃ c' ns', setPoliciesFromTemplates ts n c = (Ok (), c') ∧ namespace_at c' n = Some ns' ∧
    ns_Annotations ns' = record_all (ns_Annotations ns) (recorded ms) ∧
    Forall (policy_applied c') ms ∧ only_policies ms c c' ∧ other_namespaces c c'.
Proof.
  intros Hc Hkeys Hnames ms. unfold setPoliciesFromTemplates.
  rewrite Namespaces_Get_law, Hc. simpl.
  destruct (apply_templates_spec true ts ns ns c Hc) as (c' & ns' & E & Hc' & Ha & Hrest);
    [split; [by eapply namespace_name|done]|done|done|].
  exists c', ns'. split_and!; try apply Hrest; [done|done|].
  fold ms in Ha. rewrite Ha, stored_fresh. unfold recorded. by destruct ms.
Qed.
End applied.

(** ** The hook *)

(** The policies meant for a namespace. *)
Definition default_policies (n : string) : list policyTemplate :=
  defaultNamespacePolicies ++ (if decide (n = "kube-system") then defaultKubeSystemPolicies else []).

Section hook.
Context `{KubeLaws}.
Implicit Types (c : cluster).

Lemma policy_applied_frame n ts c c' t :
  only_policies n ts c c' → t_name t ∉ t_name <$> ts → policy_applied n c t → policy_applied n c' t.
Proof.
  intros Hp Hn (np & Hnp & Hrest). exists np. rewrite Hp; [done|]. by intros _.
Qed.

Lemma only_policies_other n m ts c c' t :
  only_policies n ts c c' → m ≠ n → policy_applied m c t → policy_applied m c' t.
Proof.
  intros Hp Hn (np & Hnp & Hrest). exists np. rewrite Hp; [done|]. by intros ->.
Qed.

Lemma missing_app a l1 l2 : missing a (l1 ++ l2) = missing a l1 ++ missing a l2.
Proof. apply filter_app. Qed.

Lemma missing_subset a ts t : t ∈ missing a ts → t ∈ ts.
Proof. intros [_ ?]%list_elem_of_filter. done. Qed.

(** Recording templates of one list does not hide those of another. *)
Lemma missing_record_all a l ts :
  (∀ t, t ∈ l → t_annotationKey t ∉ t_annotationKey <$> ts) →
  missing (record_all a l) ts = missing a ts.
Proof.
  revert a. induction l as [|t l IH]; intros a Hl; [done|]. unfold record_all in *. simpl.
  rewrite IH; [apply missing_record, Hl; constructor|]. intros u Hu. apply Hl. by constructor.
Qed.

Lemma recorded_subset l t : t ∈ recorded l → t ∈ l.
Proof.
  unfold recorded. destruct (Nat.odd (length l)); [done|].
  destruct l as [|u l _] using rev_ind; [done|]. rewrite removelast_last, elem_of_app. auto.
Qed.

Lemma defaults_disjoint t : t ∈ defaultNamespacePolicies →
  (t_annotationKey t ∉ t_annotationKey <$> defaultKubeSystemPolicies) ∧
  (t_name t ∉ t_name <$> defaultKubeSystemPolicies).
Proof.
  intros ->%list_elem_of_singleton. split; apply (bool_decide_unpack _); by vm_compute.
Qed.

Lemma record_all_mono a l k : is_Some (a !! k) → is_Some (record_all a l !! k).
Proof.
  revert a. induction l as [|u l IH]; intros a Ha; [done|]. apply IH. unfold record.
  rewrite lookup_insert. by case_decide.
Qed.

(** With all but the last of the missing templates recorded, the last is missing. *)
Lemma missing_record_init a ts init t :
  NoDup (t_annotationKey <$> ts) → missing a ts = init ++ [t] →
  missing (record_all a init) ts = [t].
Proof.
  revert a init. induction ts as [|u ts IH]; intros a init Hnd Hms; [by destruct init|].
  rewrite fmap_cons in Hnd. apply NoDup_cons in Hnd as [Hu Hnd].
  unfold missing in Hms |- *. rewrite filter_cons in Hms |- *. fold (missing a ts) in Hms.
  fold (missing (record_all a init) ts).
  assert (∀ a', is_Some (a' !! t_annotationKey u) →
    record_all a' init !! t_annotationKey u ≠ None) as Hkeep
    by (intros a' Ha'; rewrite <-not_eq_None_Some in Ha'; destruct (record_all_mono a' init
          (t_annotationKey u)) as [? ->]; [by apply not_eq_None_Some|done]).
  destruct (a !! t_annotationKey u) as [v|] eqn:Hv.
  - rewrite decide_False in Hms by done. rewrite decide_False; [by apply IH|].
    apply Hkeep. by rewrite Hv.
  - rewrite decide_True in Hms by done. destruct init as [|u' init]; simplify_eq/=.
    + rewrite decide_True by done. by f_equal.
    + rewrite decide_False.
      * apply IH; [done|]. by rewrite missing_record.
      * destruct (record_all_mono (record a u') init (t_annotationKey u')) as [? ->]; [|done].
        unfold record. by rewrite lookup_insert_eq.
Qed.

(** One namespace of the loop. *)
Lemma apply_namespace n ns c rest :
  namespace_at c n = Some ns →
  ∃ c', apply_namespaces (n :: rest) c = apply_namespaces rest c' ∧
    Forall (policy_applied n c') (missing (ns_Annotations ns) (default_policies n)) ∧
    (∀ m, m ≠ n → namespace_at c' m = namespace_at c m) ∧
    (∀ m t, m ≠ n → policy_applied m c t → policy_applied m c' t).
Proof.
  intros Hc. cbn [apply_namespaces]. unfold default_policies.
  destruct (setPolicies_spec n defaultNamespacePolicies ns c Hc)
    as (c1 & ns1 & -> & Hc1 & Ha1 & Hall1 & Honly1 & Hm1);
    [apply (bool_decide_unpack _); by vm_compute..|].
  case_decide as Hsys.
  2:{ exists c1. rewrite app_nil_r. split_and!; [done..|]. intros m t ?. by eapply only_policies_other. }
  destruct (setPolicies_spec n defaultKubeSystemPolicies ns1 c1 Hc1)
    as (c2 & ns2 & -> & _ & _ & Hall2 & Honly2 & Hm2);
    [apply (bool_decide_unpack _); by vm_compute..|].
  exists c2. split_and!; [done| | |].
  - rewrite missing_app. apply Forall_app. split.
    + rewrite Forall_forall in Hall1 |- *. intros t Ht.
      eapply policy_applied_frame; [done| |by apply Hall1].
      apply missing_subset, defaults_disjoint in Ht as [_ Hname]. intros Hin. apply Hname.
      apply list_elem_of_fmap in Hin as (u & -> & Hu%missing_subset).
      by apply list_elem_of_fmap_2.
    + rewrite Ha1, missing_record_all in Hall2; [done|].
      intros t Ht%recorded_subset%missing_subset. by apply defaults_disjoint.
  - intros m Hm. by rewrite Hm2, Hm1.
  - intros m t Hm Ht. eapply only_policies_other, only_policies_other; eauto.
Qed.

(** In CIS mode, on an available API server whose namespaces all exist, the
    first poll of the network policy hook completes, and every policy meant for
    a namespace (the base policy, and for kube-system also the policies of the
    system components) that its annotations do not record is then in place with
    the specification of its template. *)
Theorem setNetworkPolicies_applied namespaces polls c :
  NoDup namespaces → (∀ n, n ∈ namespaces → is_Some (namespace_at c n)) →
  let '(done, c') := setNetworkPolicies true namespaces (S polls) c in
  done = true ∧
  ∀ n ns, n ∈ namespaces → namespace_at c n = Some ns →
    Forall (policy_applied n c') (missing (ns_Annotations ns) (default_policies n)).
Proof.
  intros Hnd Hex. unfold setNetworkPolicies. cbn [poll_policies].
  enough (∃ c', apply_namespaces namespaces c = (true, c') ∧
    (∀ m t, m ∉ namespaces → policy_applied m c t → policy_applied m c' t) ∧
    ∀ n ns, n ∈ namespaces → namespace_at c n = Some ns →
      Forall (policy_applied n c') (missing (ns_Annotations ns) (default_policies n)))
    as (c' & -> & _ & ?) by done.
  revert c Hex. induction Hnd as [|n namespaces Hn Hnd IH]; intros c Hex.
  { exists c. split_and!; [done..|]. by intros ? ? ?%elem_of_nil. }
  destruct (Hex n) as [ns Hns]; [constructor|].
  destruct (apply_namespace n ns c namespaces Hns) as (c1 & -> & Happ & Hm & Hkeep).
  destruct (IH c1) as (c' & -> & Hkeep' & Hall).
  { intros m Hm'. rewrite Hm by set_solver. apply Hex. by constructor. }
  exists c'. split_and!; [done| |].
  - intros m t [Hne Hm']%not_elem_of_cons Ht. by apply Hkeep', Hkeep.
  - intros m ms [->|Hm']%elem_of_cons Hms.
    + simplify_eq. eapply Forall_impl; [done|]. intros t. by apply Hkeep'.
    + apply Hall; [done|]. rewrite Hm; [done|]. by intros ->.
Qed.

(** C29: A flaw of the recording: the object returned by an update is dropped, so
    the next update carries an outdated version, and the conflict it meets is
    answered by fetching the namespace without updating it again.  Every second
    record is therefore left to the next update, and when an even number of
    templates is missing the last one is never recorded: the call reports
    success, and the next one finds that template missing again. *)
Theorem setPolicies_forgets_last n ts ns c init t :
  namespace_at c n = Some ns → NoDup (t_annotationKey <$> ts) → NoDup (t_name <$> ts) →
  missing (ns_Annotations ns) ts = init ++ [t] → Nat.even (length (init ++ [t])) = true →
  ∃ c' ns', setPoliciesFromTemplates ts n c = (Ok (), c') ∧ namespace_at c' n = Some ns' ∧
            missing (ns_Annotations ns') ts = [t].
Proof.
  intros Hc Hkeys Hnames Hms Heven.
  destruct (setPolicies_spec n ts ns c Hc Hkeys Hnames) as (c' & ns' & E & Hc' & Ha & _).
  exists c', ns'. split_and!; [done|done|]. rewrite Ha, Hms. unfold recorded.
  rewrite <-Nat.negb_even, Heven, removelast_last. simpl.
  by apply missing_record_init.
Qed.
End hook.

(** What no call about namespaces and policies changes, the hook leaves alone. *)
Section keeps.
Context {HA : KubeApi} {HK : KubeLaws} {X : Type} (obs : cluster → X).
Context (Hupdate : ∀ ns c, obs (Namespaces_Update ns c).2 = obs c).
Context (Hcreate : ∀ n np c, obs (NetworkPolicies_Create n np c).2 = obs c).
Context (Hdelete : ∀ n p c, obs (NetworkPolicies_Delete n p c).2 = obs c).
Implicit Types (c : cluster).

Lemma update_namespace_keeps ns c : obs (update_namespace ns c).2 = obs c.
Proof using HK Hupdate.
  unfold update_namespace, updateNamespaceRef. pose proof (Hupdate ns c) as Hu.
  destruct (Namespaces_Update ns c) as [[|e] c']; [done|]. destruct (apierrors_IsConflict e); [|done].
  rewrite Namespaces_Get_law. by destruct (namespace_at c' (ns_Name ns)).
Qed.

Lemma delete_old_keeps n t c : obs (delete_old n t c).2 = obs c.
Proof using HK Hdelete.
  unfold delete_old. rewrite NetworkPolicies_Get_law. destruct (policy_at c n (t_name t)); [|done].
  pose proof (Hdelete n (t_name t) c) as Hd. cbn.
  destruct (NetworkPolicies_Delete n (t_name t) c) as [[|e] c']; [done|]. by destruct (apierrors_IsNotFound e).
Qed.

Lemma create_policy_keeps n t c : obs (create_policy n t c).2 = obs c.
Proof using HK Hcreate.
  unfold create_policy. pose proof (Hcreate n (policyFromTemplate t) c) as Hn.
  destruct (NetworkPolicies_Create n (policyFromTemplate t) c) as [[|e] c']; [done|].
  by destruct (apierrors_IsAlreadyExists e).
Qed.

Lemma apply_templates_keeps n ts ns c : obs (apply_templates n ts ns c).2 = obs c.
Proof using HK Hupdate Hcreate Hdelete.
  revert ns c. induction ts as [|t ts IH]; intros ns c; cbn [apply_templates]; [done|].
  destruct (ns_Annotations ns !! t_annotationKey t); [by apply IH|].
  pose proof (delete_old_keeps n t c) as H1. destruct (delete_old n t c) as [[|e] c1]; [|done].
  pose proof (create_policy_keeps n t c1) as H2. destruct (create_policy n t c1) as [[|e] c2]; cbn [snd] in *; [|congruence].
  set (ns1 := set_annotations _ ns).
  pose proof (OnError_keeps obs apierrors_IsConflict DefaultBackoff update_namespace ns1 c2
    update_namespace_keeps) as H3.
  unfold RetryOnConflict. destruct (OnError _ _ _ ns1 c2) as [[[|e] ns2] c3]; cbn [snd] in *; [|congruence].
  rewrite IH. congruence.
Qed.

Lemma setPoliciesFromTemplates_keeps ts n c : obs (setPoliciesFromTemplates ts n c).2 = obs c.
Proof using HK Hupdate Hcreate Hdelete.
  unfold setPoliciesFromTemplates. rewrite Namespaces_Get_law.
  destruct (namespace_at c n); [apply apply_templates_keeps|done].
Qed.

Lemma apply_namespaces_keeps l c : obs (apply_namespaces l c).2 = obs c.
Proof using HK Hupdate Hcreate Hdelete.
  revert c. induction l as [|n l IH]; intros c; cbn [apply_namespaces]; [done|].
  pose proof (setPoliciesFromTemplates_keeps defaultNamespacePolicies n c) as H1.
  destruct (setPoliciesFromTemplates defaultNamespacePolicies n c) as [[|e] c1]; [|done]. cbn [snd] in H1.
  case_decide; [|by rewrite IH].
  pose proof (setPoliciesFromTemplates_keeps defaultKubeSystemPolicies n c1) as H2.
  destruct (setPoliciesFromTemplates defaultKubeSystemPolicies n c1) as [[|e] c2]; cbn [snd] in *; [|congruence].
  rewrite IH. congruence.
Qed.

Lemma setNetworkPolicies_keeps cis l polls c : obs (setNetworkPolicies cis l polls c).2 = obs c.
Proof using HK Hupdate Hcreate Hdelete.
  unfold setNetworkPolicies. destruct cis; [|done]. revert c.
  induction polls as [|polls IH]; intros c; cbn [poll_policies]; [done|].
  pose proof (apply_namespaces_keeps l c) as Hn. destruct (apply_namespaces l c) as [[] c']; [done|].
  by rewrite IH.
Qed.
End keeps.

#[local] Existing Instance SimpleKube.api.
#[local] Existing Instance SimpleKube.kube_laws.

(** A new cluster with the three core namespaces. *)
Definition new_namespace (n : string) : Namespace :=
  {| ns_Name := n; ns_ResourceVersion := "1"; ns_Labels := ∅; ns_Annotations := ∅ |}.

Definition core_namespaces : list string := ["kube-system"; "default"; "kube-public"].

Definition new_cluster : cluster :=
  SimpleKube.State (list_to_map ((λ n, (n, new_namespace n)) <$> core_namespaces)) ∅ ∅ [].

Lemma setNetworkPolicies_applied_witness :
  let '(done, c') := setNetworkPolicies true core_namespaces 1 new_cluster in
  done = true ∧
  ∀ n ns, n ∈ core_namespaces → namespace_at new_cluster n = Some ns →
    Forall (policy_applied n c') (missing (ns_Annotations ns) (default_policies n)).
Proof.
  apply (setNetworkPolicies_applied core_namespaces 0 new_cluster).
  - apply (bool_decide_unpack _). vm_compute. exact I.
  - intros n Hn. unfold core_namespaces in Hn.
    repeat (apply elem_of_cons in Hn as [->|Hn]; [eexists; vm_compute; reflexivity|]).
    by apply elem_of_nil in Hn.
Defined.

(** On a new cluster the policy of the metrics server is the one forgotten. *)
Lemma setPolicies_forgets_last_witness :
  ∃ c' ns', setPoliciesFromTemplates defaultKubeSystemPolicies "kube-system" new_cluster = (Ok (), c') ∧
    namespace_at c' "kube-system" = Some ns' ∧
    t_name <$> missing (ns_Annotations ns') defaultKubeSystemPolicies
    = ["default-network-metrics-server-policy"].
Proof.
  destruct (setPolicies_forgets_last "kube-system" defaultKubeSystemPolicies
    (new_namespace "kube-system") new_cluster (removelast defaultKubeSystemPolicies)
    (List.last defaultKubeSystemPolicies (Build_policyTemplate "" "" ∅ [])))
    as (c' & ns' & H1 & H2 & H3).
  - vm_compute. reflexivity.
  - apply (bool_decide_unpack _). vm_compute. exact I.
  - apply (bool_decide_unpack _). vm_compute. exact I.
  - vm_compute. reflexivity.
  - vm_compute. reflexivity.
  - exists c', ns'. split; [exact H1|]. split; [exact H2|]. rewrite H3. vm_compute. reflexivity.
Defined.
