(* ===== verification/CisHooks.v ===== *)
(** * CisHooks: the other startup hooks of pkg/rke2

    serviceaccount.go (no automatic token mounts for default accounts), psa.go
    (the pod security configuration), spc.go (cleanup of the static pods when
    the node is deleted) and kp.go (kube-proxy chart disabled). *)

From S2P Require Import Prelude GoStrings GoPath GoFS PodTemplate ManifestFile StaticPod Cri Sandbox.
From S2P Require Import Cleanup Kube.

(** ** serviceaccount.go *)

Definition DefaultServiceAccountName := "default".

Definition retryError (e : error) : bool := apierrors_IsNotFound e.

Definition disable_automount (sa : ServiceAccount) : ServiceAccount :=
  {| sa_Name := sa_Name sa; sa_ResourceVersion := sa_ResourceVersion sa;
     sa_Labels := sa_Labels sa; AutomountServiceAccountToken := Some false |}.

Section serviceaccount.
Context `{KubeApi}.

Definition updateServiceAccountRef (namespace : string) (sa : ServiceAccount) (c : cluster)
    : result unit * ServiceAccount * cluster :=
  match ServiceAccounts_Get namespace (sa_Name sa) c with
  | (Err e, c') => (Err e, sa, c')
  | (Ok newSA, c') => (Ok (), newSA, c')
  end.

(** The function retried on conflicts. *)
Definition update_account (namespace : string) : attempt_fn ServiceAccount := λ sa c,
  let sa := disable_automount sa in
  match ServiceAccounts_Update namespace sa c with
  | (Ok _, c1) => (Ok (), sa, c1)
  | (Err e, c1) =>
      if apierrors_IsConflict e then
        match updateServiceAccountRef namespace sa c1 with
        | (Err getErr, sa, c2) => (Err getErr, sa, c2)
        | (Ok _, sa, c2) => (Err e, sa, c2)
        end
      else (Err e, sa, c1)
  end.

(** The function retried while the account does not exist. *)
Definition restrict_once (namespace : string) : attempt_fn unit := λ _ c,
  match ServiceAccounts_Get namespace DefaultServiceAccountName c with
  | (Err e, c1) => (Err e, (), c1)
  | (Ok sa, c1) =>
      let '(r, _, c2) := RetryOnConflict DefaultBackoff (update_account namespace) sa c1 in
      (r, (), c2)
  end.

(** [restrictServiceAccount]: ten steps. *)
Definition restrictServiceAccount (namespace : string) (c : cluster) : result unit * cluster :=
  let '(r, _, c') := OnError retryError 9 (restrict_once namespace) () c in (r, c').

(** The loop of the hook; an error is fatal to the process. *)
Fixpoint restrict_all (namespaces : list string) (c : cluster) : result unit * cluster :=
  match namespaces with
  | [] => (Ok (), c)
  | n :: rest =>
      match restrictServiceAccount n c with
      | (Err e, c') => (Err (ErrWithMessage ("serviceAccount: namespace " +:+ n) e), c')
      | (Ok _, c') => restrict_all rest c'
      end
  end.

Definition restrictServiceAccounts (cisMode : bool) (namespaces : list string) (c : cluster)
    : result unit * cluster :=
  if cisMode then restrict_all (namespaces ++ ["kube-node-lease"]) c else (Ok (), c).
End serviceaccount.

Section restricted.
Context `{KubeLaws}.
Implicit Types (c : cluster) (n : string).

(** The default account of the namespace does not mount its token. *)
Definition restricted c n : Prop :=
  ∃ sa, account_at c n DefaultServiceAccountName = Some sa ∧
        AutomountServiceAccountToken sa = Some false.

(** Only the default account of [n] may differ. *)
Definition only_account n c c' : Prop :=
  ∀ n' a, (n', a) ≠ (n, DefaultServiceAccountName) → account_at c' n' a = account_at c n' a.

Lemma update_account_spec n sa c r sa' c' :
  sa_Name sa = DefaultServiceAccountName → update_account n sa c = (r, sa', c') →
  sa_Name sa' = DefaultServiceAccountName ∧ only_account n c c' ∧ (r = Ok () → restricted c' n).
Proof.
  intros Hname. unfold update_account.
  destruct (ServiceAccounts_Update n (disable_automount sa) c) as [[sa1|e] c1] eqn:E.
  - intros [= <- <- <-]. apply ServiceAccounts_Update_Ok in E as (Hat & Hauto & Hother).
    simpl in *. rewrite Hname in *. split_and!; [done|done|]. intros _. by exists sa1.
  - apply ServiceAccounts_Update_Err in E as ->. unfold updateServiceAccountRef.
    destruct (apierrors_IsConflict e); [|by intros [= <- <- <-]].
    rewrite ServiceAccounts_Get_law. simpl. rewrite Hname.
    destruct (account_at c n DefaultServiceAccountName) as [sa1|] eqn:Hat; simpl;
      intros [= <- <- <-]; [|done]. apply account_name in Hat. done.
Qed.

(** What holds of every call of a retried function holds of the retries. *)
Lemma OnError_spec {S} retriable steps (fn : attempt_fn S) (P : S → Prop) (R : cluster → cluster → Prop)
    (Q : cluster → Prop) :
  (∀ c, R c c) → (∀ c1 c2 c3, R c1 c2 → R c2 c3 → R c1 c3) →
  (∀ s c r s' c', P s → fn s c = (r, s', c') → P s' ∧ R c c' ∧ (r = Ok () → Q c')) →
  ∀ s c r s' c', P s → OnError retriable steps fn s c = (r, s', c') →
    P s' ∧ R c c' ∧ (r = Ok () → Q c').
Proof.
  intros Hrefl Htrans Hfn. induction steps as [|steps IH]; intros s c r s' c' HP; simpl;
    destruct (fn s c) as [[r1 s1] c1] eqn:E; pose proof (Hfn _ _ _ _ _ HP E) as (HP1 & HR1 & HQ1).
  { by intros [= <- <- <-]. }
  destruct r1 as [u|e]; [by intros [= <- <- <-]|].
  destruct (retriable e); [|by intros [= <- <- <-]].
  intros Hr. destruct (IH _ _ _ _ _ HP1 Hr) as (? & ? & ?). eauto.
Qed.

Lemma restrict_once_spec n c r c' :
  restrict_once n () c = (r, (), c') → only_account n c c' ∧ (r = Ok () → restricted c' n).
Proof.
  unfold restrict_once. rewrite ServiceAccounts_Get_law.
  destruct (account_at c n DefaultServiceAccountName) as [sa|] eqn:Hat; simpl;
    [|by intros [= <- <-]].
  destruct (RetryOnConflict _ _ sa c) as [[r1 s1] c1] eqn:E. intros [= <- <-].
  eapply (OnError_spec _ _ _ (λ sa, sa_Name sa = DefaultServiceAccountName) (only_account n)
    (λ c, restricted c n)) in E; [naive_solver|done| | |by eapply account_name].
  - intros c2 c3 c4 H23 H34 n' a Hne. by rewrite H34, H23.
  - apply update_account_spec.
Qed.

Lemma restrictServiceAccount_spec n c r c' :
  restrictServiceAccount n c = (r, c') → only_account n c c' ∧ (r = Ok () → restricted c' n).
Proof.
  unfold restrictServiceAccount.
  destruct (OnError _ _ _ _ _) as [[r1 []] c1] eqn:E. intros [= <- <-].
  eapply (OnError_spec _ _ _ (λ _, True) (only_account n) (λ c, restricted c n)) in E;
    [naive_solver|done| | |done].
  - intros c2 c3 c4 H23 H34 n' a Hne. by rewrite H34, H23.
  - intros [] c2 r2 [] c3 _ Hr. split; [done|]. by apply restrict_once_spec.
Qed.

(** With the account present and nobody interfering, the first try succeeds. *)
Lemma restrictServiceAccount_available n c :
  is_Some (account_at c n DefaultServiceAccountName) → (restrictServiceAccount n c).1 = Ok ().
Proof.
  intros [sa Hsa]. unfold restrictServiceAccount. simpl. unfold restrict_once.
  rewrite ServiceAccounts_Get_law, Hsa. simpl. unfold RetryOnConflict. simpl. unfold update_account.
  pose proof (account_name _ _ _ _ Hsa) as Hname.
  pose proof (ServiceAccounts_Update_current n (disable_automount sa) c sa) as Hok.
  simpl in Hok. rewrite Hname in Hok. specialize (Hok Hsa eq_refl).
  by destruct (ServiceAccounts_Update n (disable_automount sa) c) as [[]].
Qed.

(** The hook as a whole, for the accounts that exist. *)
Lemma restrict_all_restricted namespaces c :
  NoDup (namespaces ++ ["kube-node-lease"]) →
  let '(r, c') := restrictServiceAccounts true namespaces c in
  (r = Ok () → Forall (restricted c') (namespaces ++ ["kube-node-lease"])) ∧
  (∀ n a, a ≠ DefaultServiceAccountName ∨ n ∉ namespaces ++ ["kube-node-lease"] →
          account_at c' n a = account_at c n a) ∧
  (Forall (λ n, is_Some (account_at c n DefaultServiceAccountName)) (namespaces ++ ["kube-node-lease"]) →
   r = Ok ()).
Proof.
  unfold restrictServiceAccounts. generalize (namespaces ++ ["kube-node-lease"]). intros l Hnd.
  revert c. induction Hnd as [|n l Hn Hnd IH]; intros c; simpl; [done|].
  destruct (restrictServiceAccount n c) as [r1 c1] eqn:E.
  pose proof (restrictServiceAccount_available n c) as Hav. rewrite E in Hav. simpl in Hav.
  apply restrictServiceAccount_spec in E as [Hother Hr]. destruct r1 as [[]|e].
  - specialize (IH c1). destruct (restrict_all l c1) as [r c']. destruct IH as (H1 & H2 & H3).
    split_and!.
    + intros Hok. constructor; [|by apply H1]. destruct (Hr eq_refl) as (sa & Hsa & Hauto).
      exists sa. rewrite H2; [done|]. by right.
    + intros m a Hma. rewrite H2, Hother; [done| |set_solver].
      intros [= -> ->]. destruct Hma as [|Hm]; [done|]. apply Hm. constructor.
    + intros [_ Hl]%Forall_cons. apply H3. rewrite Forall_forall in Hl |- *. intros m Hm.
      rewrite Hother; [by apply Hl|]. intros [= ->]. done.
  - split_and!; [done| |].
    + intros m a Hma. apply Hother. intros [= -> ->]. destruct Hma as [|Hm]; [done|].
      apply Hm. constructor.
    + intros [Hsome _]%Forall_cons. by specialize (Hav Hsome).
Qed.

(** C30: When the service account hook of CIS mode ends without a fatal error,
    whatever conflicts it met, the default account of every core namespace and of
    kube-node-lease has its automatic token mount turned off; it touches no
    other account, and it does end so when the accounts exist. *)
Theorem restrictServiceAccounts_restricted namespaces c :
  NoDup (namespaces ++ ["kube-node-lease"]) →
  let '(r, c') := restrictServiceAccounts true namespaces c in
  (r = Ok () → Forall (restricted c') (namespaces ++ ["kube-node-lease"])) ∧
  (∀ n a, a ≠ DefaultServiceAccountName ∨ n ∉ namespaces ++ ["kube-node-lease"] →
          account_at c' n a = account_at c n a) ∧
  (Forall (λ n, is_Some (account_at c n DefaultServiceAccountName)) (namespaces ++ ["kube-node-lease"]) →
   r = Ok ()).
Proof. apply restrict_all_restricted. Qed.

(** What no update of an account changes, the hook leaves alone. *)
Lemma restrictServiceAccounts_keeps {X} (obs : cluster → X) cis namespaces c :
  (∀ n sa c, obs (ServiceAccounts_Update n sa c).2 = obs c) →
  obs (restrictServiceAccounts cis namespaces c).2 = obs c.
Proof.
  intros Hu.
  assert (∀ n sa c, obs (update_account n sa c).2 = obs c) as Hupdate.
  { intros n sa c'. unfold update_account, updateServiceAccountRef.
    pose proof (Hu n (disable_automount sa) c') as Hn.
    destruct (ServiceAccounts_Update n (disable_automount sa) c') as [[|e] c1]; [done|].
    destruct (apierrors_IsConflict e); [|done]. rewrite ServiceAccounts_Get_law.
    by destruct (account_at c1 n _). }
  assert (∀ n c, obs (restrictServiceAccount n c).2 = obs c) as Hone.
  { intros n c'. unfold restrictServiceAccount.
    pose proof (OnError_keeps obs retryError 9 (restrict_once n) () c') as Hn.
    destruct (OnError _ _ _ () c') as [[r u] c1]. apply Hn. clear Hn r u c1. intros [] c1.
    unfold restrict_once. rewrite ServiceAccounts_Get_law.
    destruct (account_at c1 n DefaultServiceAccountName) as [sa|]; [|done]. cbn [from_option].
    pose proof (OnError_keeps obs apierrors_IsConflict DefaultBackoff (update_account n) sa c1 (Hupdate n)) as Hn.
    unfold RetryOnConflict. by destruct (OnError _ _ _ sa c1) as [[r u] c2]. }
  unfold restrictServiceAccounts. destruct cis; [|done]. generalize (namespaces ++ ["kube-node-lease"]).
  intros l. revert c. induction l as [|n l IH]; intros c; cbn [restrict_all]; [done|].
  pose proof (Hone n c) as Hn. destruct (restrictServiceAccount n c) as [[|e] c1]; [|done]. by rewrite IH.
Qed.

End restricted.

(** ** spc.go *)

Definition static_components : list string :=
  ["kube-apiserver"; "kube-scheduler"; "kube-controller-manager"; "cloud-controller-manager"; "etcd"].

(** [cleanupStaticPods] *)
Definition cleanupStaticPods (dataDir : string) : io unit :=
  delete_manifests (PodManifestsDir dataDir) static_components.

(** A watch event: the deletion timestamp and the annotations of a node, or an
    object of another type. *)
Inductive event :=
  | NodeEvent (deleting : bool) (annotations : gmap string string)
  | OtherEvent.

(** [version.Program] is "rke2". *)
Definition removalAnnotation := "etcd.rke2.cattle.io/remove".

Definition self_deleted (e : event) : result bool :=
  match e with
  | NodeEvent deleting annotations =>
      Ok (deleting || bool_decide (at_key annotations removalAnnotation = "true"))
  | OtherEvent => Err (ErrMsg "event object not of type Node")
  end.

(** [toolswatch.UntilWithSync]: the events in order until the condition holds;
    [Err] when the condition fails or the watch ends before. *)
Fixpoint until_deleted (events : list event) : result unit :=
  match events with
  | [] => Err (ErrMsg "watch closed before Until timeout")
  | e :: rest => b ← self_deleted e; if (b : bool) then Ok () else until_deleted rest
  end.

(** [watchForSelfDelete]; errors are logged. *)
Definition watchForSelfDelete (dataDir : string) (events : list event) : io unit :=
  match until_deleted events with
  | Err _ => mret ()
  | Ok _ => attempt (cleanupStaticPods dataDir);; mret ()
  end.

(** [cleanupStaticPodsOnSelfDelete]: the goroutine of the hook, once the apiserver is
    ready; [client] is the outcome of making the client.  The error ends the
    process. *)
Definition cleanupStaticPodsOnSelfDelete (dataDir : string) (client : result unit) (events : list event)
    : io unit :=
  match client with
  | Err err => io_fail (ErrText "spc: new k8s client" err)
  | Ok _ => watchForSelfDelete dataDir events
  end.

(** The events that lead to cleanup: nodes, up to one that is being deleted or
    is marked for removal from etcd. *)
Lemma until_deleted_Ok events :
  until_deleted events = Ok () ↔
  ∃ before e after, events = before ++ e :: after ∧ self_deleted e = Ok true ∧
                    Forall (λ e, self_deleted e = Ok false) before.
Proof.
  induction events as [|e events IH]; simpl.
  { split; [done|]. by intros ([] & ? & ? & ? & _). }
  destruct (self_deleted e) as [[]|err] eqn:E; simpl.
  - split; [|done]. intros _. by exists [], e, events.
  - rewrite IH. split.
    + intros (before & e' & after & -> & ? & ?). exists (e :: before), e', after. split_and!; [done..|by constructor].
    + intros ([|e0 before] & e' & after & [= -> ->] & Hdel & Hb); [congruence|].
      apply Forall_cons in Hb as [_ Hb]. by exists before, e', after.
  - split; [done|]. intros ([|e0 before] & e' & after & [= -> ->] & Hdel & Hb); [congruence|].
    apply Forall_cons in Hb as [Hb _]. congruence.
Qed.

(** When no system call fails, the node watcher removes the manifest of every
    static control-plane component and nothing else on disk, exactly when an
    event shows the local node deleted or marked for removal before the watch
    fails; otherwise it changes nothing. *)
Theorem watchForSelfDelete_spec dataDir events s :
  let dir := PodManifestsDir dataDir in
  let s' := (watchForSelfDelete dataDir events no_faults s).2 in
  ((∃ before e after, events = before ++ e :: after ∧ self_deleted e = Ok true ∧
                      Forall (λ e, self_deleted e = Ok false) before) ∧
   ∀ q, nodes s' !! q = if existsb (λ c, under (Clean (manifest_file dir c)) q)
                             ["kube-apiserver"; "kube-scheduler"; "kube-controller-manager";
                              "cloud-controller-manager"; "etcd"]
                        then None else nodes s !! q) ∨
  (until_deleted events ≠ Ok () ∧ s' = s).
Proof.
  intros dir s'. subst s'. unfold watchForSelfDelete.
  destruct (until_deleted events) as [[]|e] eqn:E; [left|by right].
  apply until_deleted_Ok in E. split; [done|]. intros q.
  destruct (delete_manifests_run dir static_components s) as (s1 & E1 & N1).
  unfold attempt, mbind, io_bind, cleanupStaticPods. fold dir. rewrite E1. apply N1.
Qed.

(** ** kp.go *)

Definition kubeProxyChart := "rke2-kube-proxy".

(** [setKubeProxyDisabled] on the maps [args.Skips] and [args.Disables]. *)
Definition setKubeProxyDisabled (skips disables : gmap string bool)
    : gmap string bool * gmap string bool :=
  (<[kubeProxyChart := true]> skips, <[kubeProxyChart := true]> disables).

(** ** psa.go *)

Definition defaultPSAConfigFile := "/etc/rancher/rke2/rke2-pss.yaml".

(** A quoted word. *)
Definition quoted (s : string) : string :=
  String (ascii_of_nat 34) (s +:+ String (ascii_of_nat 34) "").

Definition psa_header : list string :=
  ["apiVersion: apiserver.config.k8s.io/v1";
   "kind: AdmissionConfiguration";
   "plugins:";
   "- name: PodSecurity";
   "  configuration:";
   "    apiVersion: pod-security.admission.config.k8s.io/v1beta1";
   "    kind: PodSecurityConfiguration";
   "    defaults:"].

Definition newline : string := String (ascii_of_nat 10) "".

Definition restrictedPSAConfig : string := Join newline (psa_header ++
  ["      enforce: " +:+ quoted "restricted";
   "      enforce-version: " +:+ quoted "latest";
   "      audit: " +:+ quoted "restricted";
   "      audit-version: " +:+ quoted "latest";
   "      warn: " +:+ quoted "restricted";
   "      warn-version: " +:+ quoted "latest";
   "    exemptions:";
   "      usernames: []";
   "      runtimeClasses: []";
   "      namespaces: [kube-system, compliance-operator-system, tigera-operator]"]).

Definition unrestrictedPSAConfig : string := Join newline (psa_header ++
  ["      enforce: " +:+ quoted "privileged";
   "      enforce-version: " +:+ quoted "latest";
   "    exemptions:";
   "      usernames: []";
   "      runtimeClasses: []";
   "      namespaces: []"]).

Definition setPSAs (cisMode : bool) : io unit :=
  os_MkdirAll (filepath_Dir defaultPSAConfigFile);;
  if cisMode
  then io_with_message "psa: failed to write psa restricted config"
         (os_WriteFile defaultPSAConfigFile restrictedPSAConfig 384)
  else io_with_message "psa: failed to write psa unrestricted config"
         (os_WriteFile defaultPSAConfigFile unrestrictedPSAConfig 384).

#[local] Existing Instance SimpleKube.api.
#[local] Existing Instance SimpleKube.kube_laws.

Definition sample_accounts : cluster :=
  SimpleKube.State ∅ ∅
    {[ ("default", "default") := {| sa_Name := "default"; sa_ResourceVersion := "1"; sa_Labels := ∅;
                                    AutomountServiceAccountToken := None |};
       ("kube-node-lease", "default") :=
         {| sa_Name := "default"; sa_ResourceVersion := "7"; sa_Labels := ∅;
            AutomountServiceAccountToken := Some true |} ]} [].

Lemma restrictServiceAccounts_restricted_witness :
  (restrictServiceAccounts true ["default"] sample_accounts).1 = Ok () ∧
  Forall (restricted (restrictServiceAccounts true ["default"] sample_accounts).2)
    ["default"; "kube-node-lease"].
Proof.
  assert ((restrictServiceAccounts true ["default"] sample_accounts).1 = Ok ()) as Hok
    by (vm_compute; reflexivity).
  pose proof (restrictServiceAccounts_restricted ["default"] sample_accounts) as Hx.
  destruct (restrictServiceAccounts true ["default"] sample_accounts) as [r c'].
  destruct Hx as (H1 & _); [apply (bool_decide_unpack _); vm_compute; exact I|].
  split; [exact Hok|]. apply H1. exact Hok.
Defined.
