(* ===== verification/GoNet.v ===== *)
(** * GoNet: addresses of package [net]

    [net.ParseCIDR], [IP.To4] and [IP.String], on the texts the program gives
    them.  An address is four bytes or eight groups of sixteen bits. *)

From S2P Require Import Prelude GoStrings.

Inductive ip := V4 (bytes : list Z) | V6 (groups : list Z).

Definition colon : ascii := ":"%char.
Definition dot : ascii := "."%char.

(** One decimal field of an IPv4 address: no leading zero, at most 255. *)
Definition parse_octet (s : string) : option Z :=
  z ← parse_uint s;
  if decide (Len s ≤ 3 ∧ (z ≤ 255)%Z ∧ (Len s = 1 ∨ HasPrefix "0" s = false)) then Some z else None.

Definition parse_ipv4 (s : string) : option (list Z) :=
  match mapM parse_octet (Split dot s) with
  | Some [a; b; c; d] => Some [a; b; c; d]
  | _ => None
  end.

Definition hex_digit (c : ascii) : option Z :=
  let n := Z.of_N (N_of_ascii c) in
  if decide (48 ≤ n ≤ 57)%Z then Some (n - 48)%Z
  else if decide (97 ≤ n ≤ 102)%Z then Some (n - 87)%Z
  else if decide (65 ≤ n ≤ 70)%Z then Some (n - 55)%Z
  else None.

Fixpoint hex_value (acc : Z) (s : string) : option Z :=
  match s with
  | "" => Some acc
  | String c s' => d ← hex_digit c; hex_value (16 * acc + d) s'
  end.

(** A group: one to four hexadecimal digits. *)
Definition parse_group (s : string) : option Z :=
  if decide (1 ≤ Len s ≤ 4) then hex_value 0 s else None.

(** The groups between colons; the last one may be an IPv4 address. *)
Fixpoint parse_groups (l : list string) (v4_last : bool) : option (list Z) :=
  match l with
  | [] => Some []
  | [s] =>
      if v4_last && has_char dot s then
        v ← parse_ipv4 s;
        match v with [a; b; c; d] => Some [256 * a + b; 256 * c + d]%Z | _ => None end
      else (λ g, [g]) <$> parse_group s
  | s :: l' => g ← parse_group s; gs ← parse_groups l' v4_last; Some (g :: gs)
  end.

(** The text before and after the first double colon. *)
Fixpoint cut_ellipsis (s : string) : option (string * string) :=
  match s with
  | String c (String d s'' as s') =>
      if decide (c = colon ∧ d = colon) then Some ("", s'')
      else match cut_ellipsis s' with Some (b, a) => Some (String c b, a) | None => None end
  | _ => None
  end.

Definition side (s : string) (v4_last : bool) : option (list Z) :=
  if decide (s = "") then Some [] else parse_groups (Split colon s) v4_last.

Definition parse_ipv6 (s : string) : option (list Z) :=
  match cut_ellipsis s with
  | Some (l, r) =>
      gl ← side l false; gr ← side r true;
      if decide (length gl + length gr < 8)
      then Some (gl ++ replicate (8 - length gl - length gr) 0%Z ++ gr) else None
  | None =>
      gs ← parse_groups (Split colon s) true;
      if decide (length gs = 8) then Some gs else None
  end.

Definition ParseAddr (s : string) : option ip :=
  if has_char colon s then V6 <$> parse_ipv6 s else V4 <$> parse_ipv4 s.

(** [net.ParseCIDR], the address part. *)
Definition ParseCIDR (s : string) : option ip :=
  '(addr, mask) ← Cut "/"%char s;
  a ← ParseAddr addr;
  n ← parse_uint mask;
  if decide (n ≤ match a with V4 _ => 32 | V6 _ => 128 end)%Z then Some a else None.

(** [IP.To4]: an IPv4 address, written as such or mapped into IPv6. *)
Definition To4 (a : ip) : option (list Z) :=
  match a with
  | V4 b => Some b
  | V6 [0; 0; 0; 0; 0; 65535; g; h]%Z => Some [g / 256; g mod 256; h / 256; h mod 256]%Z
  | V6 _ => None
  end.

(** [net.ParseIP]; a text that is no address gives a nil address. *)
Definition ParseIP (s : string) : option ip := ParseAddr s.

(** A network: an address and the length of its prefix. *)
Definition ParseNet (s : string) : option (ip * Z) :=
  '(_, mask) ← Cut "/"%char s;
  a ← ParseCIDR s;
  n ← parse_uint mask;
  Some (a, n).

Definition number (base : Z) (digits : list Z) : Z := foldl (λ acc d, base * acc + d)%Z 0%Z digits.

(** The first [n] of [w] bits agree. *)
Definition same_prefix (w n x y : Z) : bool := bool_decide (x / 2 ^ (w - n) = y / 2 ^ (w - n))%Z.

(** [IPNet.Contains]: addresses of four and of sixteen bytes never match, and a
    mapped network of at least 96 bits is one of four bytes. *)
Definition net_Contains (net : ip * Z) (a : option ip) : bool :=
  match a with
  | None => false
  | Some a =>
      let four := match net with
                  | (V4 b, n) => Some (b, n)
                  | (V6 g, n) => if decide (96 ≤ n)%Z then (λ b, (b, n - 96)%Z) <$> To4 (V6 g) else None
                  end in
      match four, To4 a, net.1, a with
      | Some (b, n), Some b', _, _ => same_prefix 32 n (number 256 b) (number 256 b')
      | None, None, V6 g, V6 g' => same_prefix 128 net.2 (number 65536 g) (number 65536 g')
      | _, _, _, _ => false
      end
  end.

Definition hex_char (d : Z) : ascii :=
  ascii_of_N (Z.to_N (if decide (d < 10)%Z then 48 + d else 87 + d)).

(** A group without leading zeros. *)
Definition hex_string (g : Z) : string :=
  let digits := [g / 4096; g / 256 mod 16; g / 16 mod 16; g mod 16]%Z in
  let fix strip (l : list Z) := match l with
    | 0%Z :: ((_ :: _) as l') => strip l'
    | _ => l
    end in
  foldr (λ d s, String (hex_char d) s) "" (strip digits).

Fixpoint zero_run (l : list Z) : nat :=
  match l with 0%Z :: l' => S (zero_run l') | _ => 0 end.

(** The first longest run of at least two zero groups: where, and how long. *)
Fixpoint longest_run (l : list Z) (i : nat) (best : nat * nat) : nat * nat :=
  match l with
  | [] => best
  | _ :: l' => longest_run l' (S i) (if decide (best.2 < zero_run l ∧ 2 ≤ zero_run l)
                                      then (i, zero_run l) else best)
  end.

Definition IP_String (a : ip) : string :=
  match To4 a, a with
  | Some b, _ => Join "." (pretty <$> b)
  | None, V4 _ => ""
  | None, V6 gs =>
      let '(i, n) := longest_run gs 0 (0, 0) in
      if decide (n = 0) then Join ":" (hex_string <$> gs)
      else Join ":" (hex_string <$> take i gs) +:+ "::" +:+ Join ":" (hex_string <$> drop (i + n) gs)
  end.

Example ipv4_text : IP_String <$> ParseCIDR "10.42.1.0/24" = Some "10.42.1.0".
Proof. vm_compute. reflexivity. Qed.
Example ipv6_text : IP_String <$> ParseCIDR "2001:DB8:42:0:0:0:0:1/56" = Some "2001:db8:42::1".
Proof. vm_compute. reflexivity. Qed.
Example mapped_text : IP_String <$> ParseCIDR "::ffff:10.0.0.1/128" = Some "10.0.0.1".
Proof. vm_compute. reflexivity. Qed.
Example bad_cidrs : ParseCIDR <$> ["10.42.1.0"; "10.42.01.0/24"; "10.42.1.0/33"; "::1::/64"; "1:2/64"]
                    = [None; None; None; None; None].
Proof. vm_compute. reflexivity. Qed.
Example edges : (fmap IP_String ∘ ParseCIDR) <$> ["::/0"; "fe80::/10"; "1:0:0:2:0:0:0:3/64"; "1::/16"]
                = [Some "::"; Some "fe80::"; Some "1:0:0:2::3"; Some "1::"].
Proof. vm_compute. reflexivity. Qed.

Definition contains (cidr a : string) : bool :=
  match ParseNet cidr with Some n => net_Contains n (ParseIP a) | None => false end.
Example contained :
  contains "10.42.0.0/16" "10.42.255.1" && contains "10.42.1.7/24" "::ffff:10.42.1.200" &&
  contains "::ffff:10.0.0.0/104" "10.9.9.9" && contains "fe80::/10" "fe81::1" && contains "0.0.0.0/0" "1.2.3.4" = true.
Proof. vm_compute. reflexivity. Qed.
Example not_contained :
  contains "10.42.0.0/16" "10.43.0.1" || contains "::/0" "10.0.0.1" || contains "10.0.0.0/8" "::a00:1" ||
  contains "10.0.0.0/8" "10.0.0.1/24" = false.
Proof. vm_compute. reflexivity. Qed.
