(* ===== verification/GoWin.v ===== *)
(** * GoWin: [path/filepath] on Windows

    A path is a drive (or none) and a rest in which slashes and backslashes both
    separate; cleaning the rest is the Unix algorithm, and the result is written
    with backslashes.  UNC paths do not occur: every path of the program starts
    with its drive or with the data directory.  The file system of [GoFS] holds
    a drive as a directory of its root. *)

From S2P Require Import Prelude GoStrings GoPath GoFS.

Definition backslash : ascii := "\"%char.

Definition is_sep (c : ascii) : bool := bool_decide (c = slash ∨ c = backslash).

(** [filepath.ToSlash] and [filepath.FromSlash] *)
Definition ToSlash (s : string) : string := ReplaceAll s backslash "/".
Definition FromSlash (s : string) : string := ReplaceAll s slash "\".

Definition is_letter (c : ascii) : bool :=
  let n := N_of_ascii (lower_char c) in bool_decide (97 ≤ n ∧ n ≤ 122)%N.

(** The drive and what follows it. *)
Definition volume (p : string) : string * string :=
  match p with
  | String c (String d rest) =>
      if is_letter c && bool_decide (d = ":"%char) then (String c ":", rest) else ("", p)
  | _ => ("", p)
  end.

Definition win_Clean (p : string) : string :=
  let '(v, rest) := volume p in v +:+ FromSlash (Clean (ToSlash rest)).

Fixpoint trim_seps (s : string) : string :=
  match s with String c s' => if is_sep c then trim_seps s' else s | "" => "" end.

Fixpoint last_char (s : string) : option ascii :=
  match s with "" => None | String c "" => Some c | String _ s' => last_char s' end.

(** The loop of [filepath.Join]: [b] is what has been written. *)
Fixpoint win_join (b : string) (elems : list string) : string :=
  match elems with
  | [] => b
  | e :: es =>
      match last_char b with
      | None => win_join e es
      | Some c =>
          if is_sep c then win_join (b +:+ trim_seps e) es
          else if decide (c = ":"%char) then win_join (b +:+ e) es
          else win_join (b +:+ "\" +:+ e) es
      end
  end.

Definition win_Join (elems : list string) : string :=
  let b := win_join "" elems in if decide (b = "") then "" else win_Clean b.

(** Where a path is in the tree; one without a drive is on the current one. *)
Definition win_path (p : string) : string :=
  let '(v, rest) := volume p in
  Clean (Join "/" [""; if decide (v = "") then "c:" else ToLower v; ToSlash rest]).

Definition win_Dir (p : string) : string :=
  let '(v, rest) := volume p in v +:+ FromSlash (filepath_Dir (ToSlash rest)).

Example data_dir : win_Join ["c:\"; "/var/lib/rancher/rke2"; "agent"] = "c:\var\lib\rancher\rke2\agent".
Proof. reflexivity. Qed.
Example mixed : win_Join ["c:\"; "C:/rke2\data/"; ".."; "bin"] = "c:\C:\rke2\bin".
Proof. reflexivity. Qed.
Example in_tree : win_path (win_Join ["C:"; "\a\.\b"; "f"]) = "/c:/a/b/f".
Proof. reflexivity. Qed.
