(* ===== verification/WinNet.v ===== *)
(** * WinNet: the network helpers of Windows nodes (pkg/windows/utils.go)

    Which interface carries an address or a network, the platform the node runs
    on, and the host network service (HNS), a state machine whose network list
    other processes also change.  What [net.Interfaces], the metadata services
    and HNS answer are arguments; an [HNS] call takes and returns the state. *)

From S2P Require Import Prelude GoStrings GoNet.

(** ** Interfaces *)

(** The texts of the addresses ("10.0.0.1/24"), or the error of [iFace.Addrs]. *)
Record iface := { if_Name : string; if_Addrs : result (list string) }.

Fixpoint find_in (ip : string) (iFaces : list iface) : result string :=
  match iFaces with
  | [] => Err (ErrMsg ("no interface has the ip: " +:+ ip))
  | iFace :: rest =>
      addrs ← if_Addrs iFace;
      if existsb (λ addr, Contains addr ip) addrs then Ok (if_Name iFace) else find_in ip rest
  end.

Definition findInterface (Interfaces : result (list iface)) (ip : string) : result string :=
  iFaces ← Interfaces; find_in ip iFaces.

(** [strings.Split(s, sep)[0]] *)
Definition first_part (sep : ascii) (s : string) : string := hd "" (Split sep s).

Definition err_different := ErrMsg "the passed CIDRs are routed in different interfaces".

(** The three nested loops of [findInterfaceCIDR], over addresses, interfaces
    and networks. *)
Fixpoint cidr_addrs (network : GoNet.ip * Z) (name : string) (addrs : list string)
    (foundIf : string) : result string :=
  match addrs with
  | [] => Ok foundIf
  | addr :: rest =>
      if net_Contains network (ParseIP (first_part "/"%char addr)) then
        if decide (foundIf ≠ "" ∧ foundIf ≠ name) then Err err_different
        else cidr_addrs network name rest name
      else cidr_addrs network name rest foundIf
  end.

Fixpoint cidr_ifaces (network : GoNet.ip * Z) (interfaces : list iface) (foundIf : string)
    : result string :=
  match interfaces with
  | [] => Ok foundIf
  | i :: rest =>
      addrs ← if_Addrs i;
      foundIf ← cidr_addrs network (if_Name i) addrs foundIf;
      cidr_ifaces network rest foundIf
  end.

(** [Interfaces k] is the answer of call [k]. *)
Fixpoint cidr_networks (Interfaces : nat → result (list iface)) (k : nat) (cidrs : list string)
    (foundIf : string) : result string :=
  match cidrs with
  | [] => Ok foundIf
  | cidr :: rest =>
      match ParseNet cidr with
      | None => Err (ErrMsg ("invalid CIDR address: " +:+ cidr))
      | Some network =>
          interfaces ← Interfaces k;
          foundIf ← cidr_ifaces network interfaces foundIf;
          cidr_networks Interfaces (S k) rest foundIf
      end
  end.

(** No interface at all is only logged. *)
Definition findInterfaceCIDR (Interfaces : nat → result (list iface)) (cidrs : list string)
    : result string := cidr_networks Interfaces 0 cidrs "".

(** The white space of regular expressions. *)
Definition re_space (c : ascii) : bool := bool_decide (N_of_ascii c ∈ [9; 10; 12; 13; 32]%N).

Fixpoint trim_left (s : string) : string :=
  match s with String c s' => if re_space c then trim_left s' else s | "" => "" end.
Definition trim_right (s : string) : string := String.rev (trim_left (String.rev s)).

(** Splitting at commas with the white space around them. *)
Fixpoint split_tail (l : list string) : list string :=
  match l with
  | [] => []
  | [s] => [trim_left s]
  | s :: l' => trim_right (trim_left s) :: split_tail l'
  end.

Definition split_regexes (s : string) : list string :=
  match Split comma s with
  | [] => []
  | [w] => [w]
  | w :: ws => trim_right w :: split_tail ws
  end.

(** [compile] is [regexp.Compile] as a matcher; its error is overwritten, and
    matching with no expression panics.  The error of [net.Interfaces] is
    printed and leaves no interfaces. *)
Definition findInterfaceRegEx (compile : string → option (string → bool))
    (Interfaces : result (list iface)) (expression : string) : result string :=
  let none := Err (ErrMsg "no interface matches the set expression") in
  let iFaces := match Interfaces with Ok l => l | Err _ => [] end in
  match compile ("(" +:+ Join ")|(" (split_regexes expression) +:+ ")"), iFaces with
  | None, [] => none
  | None, _ => Err (ErrPanic "invalid memory address or nil pointer dereference")
  | Some matches, _ =>
      match List.find (λ i, matches (if_Name i)) iFaces with
      | Some i => Ok (if_Name i)
      | None => none
      end
  end.

(** [Dial] gives the local address of a UDP socket to the destination. *)
Definition findInterfaceReach (Dial : string → result (option string))
    (Interfaces : result (list iface)) (dest : string) : result string :=
  localAddress ← Dial ("[" +:+ dest +:+ "]:80");
  match localAddress with
  | None => Err (ErrMsg ("no interface can route IP: " +:+ dest))
  | Some a => findInterface Interfaces (first_part colon a)
  end.

(** [opv1.NodeAddressAutodetection] *)
Record NodeAddressAutodetection := {
  FirstFound : option bool; Interface : string; CanReach : string; CIDRS : list string
}.

Definition nodeAddressAutodetection (autoDetect : NodeAddressAutodetection) : result string :=
  if decide (FirstFound autoDetect = Some true) then Ok "first-found"
  else if decide (CanReach autoDetect ≠ "") then Ok ("can-reach=" +:+ CanReach autoDetect)
  else if decide (Interface autoDetect ≠ "") then Ok ("interface=" +:+ Interface autoDetect)
  else if decide (CIDRS autoDetect ≠ []) then Ok ("cidrs=" +:+ Join "," (CIDRS autoDetect))
  else Err (ErrMsg "the passed autoDetect value is not supported").

Definition autoConfigureIpam (it : string) : bool := bool_decide (it = "host-local").

(** ** The metadata services *)

(** An error of the HTTP client, as [hasTimedOut] looks at it: a [url.Error]
    around another error, an error that can say whether it is a timeout
    ([net.Error]; a [net.OpError] is one), or any other; with its text. *)
Inductive http_error :=
  | UrlError (inner_timeout : option bool) (text : string)
  | NetError (timeout : bool) (text : string)
  | OtherError (text : string).

Definition http_text (e : http_error) : string :=
  match e with UrlError _ t => t | NetError _ t => t | OtherError t => t end.

Definition hasTimedOut (err : http_error) : bool :=
  match err with
  | UrlError (Some true) _ => true
  | NetError true _ => true
  | _ => Contains (http_text err) "use of closed network connection"
  end.

(** The status code of a response, or an error. *)
Definition response : Type := Z + http_error.

Definition ec2_uri := "http://169.254.169.254/latest/meta-data/local-hostname".
Definition gce_uri := "http://metadata.google.internal/computeMetadata/v1/instance/hostname".

(** [platformType]; [network name] tells whether HNS knows the network, and
    [get uri header] is the answer of the service.  The request for the constant
    Google URI can always be made. *)
Definition platformType (network : string → bool)
    (get : string → list (string * string) → response) : string :=
  if network "azure" then "aks"
  else if network "vpcbr*" then "eks"
  else
    let gce :=
      match get gce_uri [("Metadata-Flavor", "Google")] with
      | inl 200%Z => "gce"
      | _ => "bare-metal"
      end in
    match get ec2_uri [] with
    | inr e => if hasTimedOut e then "bare-metal" else gce
    | inl 200%Z => "ec2"
    | inl _ => gce
    end.

(** [setMetaDataServerRoute]; [Route] gives the preferred source for an address
    and [RouteWithSrc] looks up the route from it to a destination, which is nil
    here: "169.254.169.254/32" is a network, not an address. *)
Definition setMetaDataServerRoute (Router : result unit) (Route : GoNet.ip → result GoNet.ip)
    (RouteWithSrc : GoNet.ip → option GoNet.ip → result unit) (mgmt : string) : result unit :=
  match ParseIP mgmt with
  | None => Err (ErrMsg "not a valid ip")
  | Some ip =>
      let metaIp := ParseIP "169.254.169.254/32" in
      Router;;
      preferredSrc ← Route ip;
      RouteWithSrc preferredSrc metaIp
  end.

(** ** The host network service *)

Definition CalicoHnsNetworkName := "External".

Record Subnet := { AddressPrefix : string; GatewayAddress : string; Policies : list string }.

Record HNSNetwork := {
  hn_Type : string; hn_Name : string; hn_Adapter : string; hn_Subnets : list Subnet;
  hn_ManagementIP : string
}.

Class HnsApi := {
  hns : Type;
  GetHNSNetworkByName : string → hns → result HNSNetwork;
  HNSListNetworkRequest : hns → result (list HNSNetwork);
  Create : HNSNetwork → hns → result unit * hns;
  Delete : HNSNetwork → hns → result unit * hns;
  (** a rule for a name, a text, a port, UDP and all profiles *)
  FirewallRuleAdd : string → string → string → hns → result unit * hns;
  (** the text of the address of an endpoint *)
  GetHNSEndpointByName : string → hns → result string;
  (** deletes the policy lists that can be listed and deleted *)
  DeletePolicyLists : hns → hns
}.

(** What is documented of HNS: a network that was created has the name it was
    created with, deleting one removes its name and no other. *)
Class HnsLaws `{HnsApi} := {
  get_of_created n h h' : Create n h = (Ok (), h') → ∃ n', GetHNSNetworkByName (hn_Name n) h' = Ok n';
  list_deleted n h h' l : Delete n h = (Ok (), h') → HNSListNetworkRequest h = Ok l →
    HNSListNetworkRequest h' = Ok (filter (λ m, hn_Name m ≠ hn_Name n) l)
}.

Section hns.
Context `{HnsApi}.

(** The wait of [createHnsNetwork]: [polls] lookups fit into five minutes, and
    [env k] is what happens to HNS before lookup [k]. *)
Fixpoint await_network (env : nat → hns → hns) (polls k : nat) (h : hns) : result string * hns :=
  match polls with
  | 0 => (Err (ErrMsg ("failed to create " +:+ CalicoHnsNetworkName +:+ " network")), h)
  | S polls' =>
      let h := env k h in
      match GetHNSNetworkByName CalicoHnsNetworkName h with
      | Ok network => (Ok (hn_ManagementIP network), h)
      | Err _ => await_network env polls' (S k) h
      end
  end.

Definition subnet (policies : list string) : Subnet :=
  {| AddressPrefix := "192.168.255.0/30"; GatewayAddress := "192.168.255.1"; Policies := policies |}.

Definition new_network (type adapter : string) (policies : list string) : HNSNetwork :=
  {| hn_Type := type; hn_Name := CalicoHnsNetworkName; hn_Adapter := adapter;
     hn_Subnets := [subnet policies]; hn_ManagementIP := "" |}.

(** Text of a template, with grave accents for double quotes. *)
Definition quoted (s : string) : string := ReplaceAll s "`" dquote.

(** The policy of the overlay network. *)
Definition vsid_policy := quoted "{ `Type`: `VSID`, `VSID`: 9999 }".

Definition create_and_wait (env : nat → hns → hns) (polls : nat) (network : HNSNetwork) (h : hns)
    : result string * hns :=
  match Create network h with
  | (Err e, h) => (Err (ErrText ("error creating the " +:+ CalicoHnsNetworkName +:+ " network") e), h)
  | (Ok _, h) => await_network env polls 0 h
  end.

Definition createHnsNetwork (env : nat → hns → hns) (polls : nat) (backend networkAdapter : string)
    (h : hns) : result string * hns :=
  match GetHNSNetworkByName CalicoHnsNetworkName h with
  | Ok network => (Ok (hn_ManagementIP network), h)
  | Err _ =>
      if decide (backend = "vxlan") then
        match FirewallRuleAdd "OverlayTraffic4789UDP" "Overlay network traffic UDP" "4789" h with
        | (Err e, h) => (Err (ErrText "error creating firewall rules" e), h)
        | (Ok _, h) =>
            create_and_wait env polls (new_network "Overlay" networkAdapter [vsid_policy]) h
        end
      else create_and_wait env polls (new_network "L2Bridge" networkAdapter []) h
  end.

(** The loop of [deleteAllNetworks], with the management addresses of the
    networks deleted so far. *)
Fixpoint delete_networks (networks : list HNSNetwork) (ips : list string) (h : hns)
    : result (list string) * hns :=
  match networks with
  | [] => (Ok ips, h)
  | network :: rest =>
      if decide (hn_Name network ≠ "nat") then
        match Delete network h with
        | (Ok _, h) => delete_networks rest (ips ++ [hn_ManagementIP network]) h
        | (Err e, h) => (Err e, h)
        end
      else delete_networks rest ips h
  end.

(** The wait for the interfaces: [Interfaces k] are those of evaluation [k]. *)
Fixpoint await_interfaces (Interfaces : nat → result (list iface)) (ips : list string) (polls k : nat)
    : result unit :=
  match polls with
  | 0 => Err (ErrMsg "timed out waiting for the network interfaces to come back")
  | S polls' =>
      if forallb (λ ip, is_Ok (findInterface (Interfaces k) ip)) ips then Ok ()
      else await_interfaces Interfaces ips polls' (S k)
  end.

Definition deleteAllNetworks (Interfaces : nat → result (list iface)) (polls : nat) (h : hns)
    : result unit * hns :=
  match HNSListNetworkRequest h with
  | Err e => (Err e, h)
  | Ok networks =>
      match delete_networks networks [] h with
      | (Err e, h) => (Err e, h)
      | (Ok ips, h) => (await_interfaces Interfaces ips polls 0, h)
      end
  end.
End hns.

(** ** Theorems *)

Definition carries (ip : string) (i : iface) : Prop :=
  ∃ addrs, if_Addrs i = Ok addrs ∧ ∃ addr, addr ∈ addrs ∧ Contains addr ip = true.
Definition carries_not (ip : string) (i : iface) : Prop :=
  ∃ addrs, if_Addrs i = Ok addrs ∧ ∀ addr, addr ∈ addrs → Contains addr ip = false.

Lemma carries_or_not ip i : carries ip i → carries_not ip i → False.
Proof.
  intros (l & Hl & addr & Hin & Hc) (l' & Hl' & Hno). rewrite Hl in Hl'. injection Hl' as <-.
  by rewrite Hno in Hc.
Qed.

(** [findInterface] is the first interface with an address whose text contains
    the text of the address looked for. *)
Theorem findInterface_first ifs ip name :
  findInterface (Ok ifs) ip = Ok name ↔
  ∃ pre i post, ifs = pre ++ i :: post ∧ Forall (carries_not ip) pre ∧ carries ip i ∧ if_Name i = name.
Proof.
  assert (findInterface (Ok ifs) ip = find_in ip ifs) as -> by reflexivity.
  induction ifs as [|i ifs IH]; cbn [find_in].
  { split; [done|]. intros (pre & ? & ? & E & _). by destruct pre. }
  destruct (if_Addrs i) as [addrs|e] eqn:Ha; cbn.
  2:{ split; [done|]. intros ([|j pre] & k & post & [= <- ->] & Hpre & Hk & _).
      - destruct Hk as (? & ? & _). congruence.
      - apply Forall_cons in Hpre as [(? & ? & _) _]. congruence. }
  destruct (existsb _ addrs) eqn:He.
  - apply existsb_exists in He as (addr & Hin%list_elem_of_In & Hc). split.
    + intros [= <-]. exists [], i, ifs. split_and!; [done|constructor|by exists addrs; split; [|exists addr]|done].
    + intros ([|j pre] & k & post & [= <- ->] & Hpre & Hk & <-); [done|].
      apply Forall_cons in Hpre as [Hno _]. by destruct (carries_or_not ip i); [exists addrs; split; [|exists addr]|].
  - assert (carries_not ip i) as Hi.
    { exists addrs. split; [done|]. intros addr Hin. apply not_true_iff_false. intros Hc.
      apply not_true_iff_false in He. apply He, existsb_exists. exists addr. by rewrite <-list_elem_of_In. }
    rewrite IH. split.
    + intros (pre & k & post & -> & Hpre & Hk). exists (i :: pre), k, post. split; [done|].
      split; [by constructor|done].
    + intros ([|j pre] & k & post & [= <- ->] & Hpre & Hk & <-).
      * by destruct (carries_or_not ip i).
      * apply Forall_cons in Hpre as [_ Hpre]. by exists pre, k, post.
Qed.

(** So an interface is taken for that of an address which only begins the same. *)
Example findInterface_wrong :
  findInterface (Ok [{| if_Name := "management"; if_Addrs := Ok ["10.0.0.10/24"] |};
                     {| if_Name := "node"; if_Addrs := Ok ["10.0.0.1/24"] |}]) "10.0.0.1" = Ok "management".
Proof. reflexivity. Qed.

(** An expression that does not compile is not reported: matching panics. *)
Example findInterfaceRegEx_panics :
  findInterfaceRegEx (λ _, None) (Ok [{| if_Name := "eth0"; if_Addrs := Ok [] |}]) "eth(" =
  Err (ErrPanic "invalid memory address or nil pointer dereference").
Proof. reflexivity. Qed.

(** The metadata address is read as a network: the route is asked for nil. *)
Example metadata_address_is_nil : ParseIP "169.254.169.254/32" = None.
Proof. reflexivity. Qed.

(** The names of the interfaces with an address in a network, in the order of
    the loops. *)
Definition hits (network : GoNet.ip * Z) (i : string * list string) : list string :=
  (λ _, i.1) <$> filter (λ addr, net_Contains network (ParseIP (first_part "/"%char addr)) = true) i.2.

Fixpoint agree (names : list string) (foundIf : string) : result string :=
  match names with
  | [] => Ok foundIf
  | n :: ns => if decide (foundIf ≠ "" ∧ foundIf ≠ n) then Err err_different else agree ns n
  end.

Lemma agree_app l1 l2 f : agree (l1 ++ l2) f = (f' ← agree l1 f; agree l2 f').
Proof. revert f. induction l1 as [|n l1 IH]; intros f; cbn; [done|]. by destruct (decide _). Qed.

Definition plain_iface (i : string * list string) : iface := {| if_Name := i.1; if_Addrs := Ok i.2 |}.

Lemma cidr_addrs_hits network name addrs f :
  cidr_addrs network name addrs f = agree (hits network (name, addrs)) f.
Proof.
  revert f. induction addrs as [|a addrs IH]; intros f; cbn [cidr_addrs]; [done|].
  unfold hits. cbn [snd fst].
  destruct (net_Contains network (ParseIP (first_part "/"%char a))) eqn:Hc.
  - rewrite filter_cons_True by exact Hc. cbn. destruct (decide _); [done|]. apply IH.
  - rewrite filter_cons_False by (by rewrite Hc). apply IH.
Qed.

Lemma cidr_ifaces_hits network ifs f :
  cidr_ifaces network (plain_iface <$> ifs) f = agree (ifs ≫= hits network) f.
Proof.
  revert f. induction ifs as [|[n addrs] ifs IH]; intros f; [done|].
  cbn [fmap list_fmap cidr_ifaces]. rewrite bind_cons, agree_app, <-cidr_addrs_hits. cbn.
  by destruct (cidr_addrs network n addrs f); cbn.
Qed.

Lemma cidr_networks_hits Interfaces k cidrs networks ifs f :
  mapM ParseNet cidrs = Some networks → (∀ k, Interfaces k = Ok (plain_iface <$> ifs)) →
  cidr_networks Interfaces k cidrs f = agree (networks ≫= (λ network, ifs ≫= hits network)) f.
Proof.
  intros Hc Hi. revert k f networks Hc. induction cidrs as [|c cidrs IH]; intros k f networks.
  { by intros [= <-]. }
  cbn [mapM cidr_networks]. destruct (ParseNet c) as [network|]; [|done]. cbn.
  destruct (mapM ParseNet cidrs) as [rest|]; [|done]. intros [= <-].
  rewrite bind_cons, agree_app, Hi, <-cidr_ifaces_hits. cbn.
  destruct (cidr_ifaces network (plain_iface <$> ifs) f); [by apply IH|done].
Qed.

Lemma agree_spec l f :
  Forall (λ n, n ≠ "") l →
  (∃ n, agree l f = Ok n ∧ (l = [] ∧ n = f ∨ l ≠ [] ∧ Forall (eq n) l ∧ (f = "" ∨ f = n))) ∨
  agree l f = Err err_different ∧
    ((∃ m n, m ∈ l ∧ n ∈ l ∧ m ≠ n) ∨ f ≠ "" ∧ ∃ n, n ∈ l ∧ n ≠ f).
Proof.
  revert f. induction l as [|m l IH]; intros f Hl; cbn [agree]; [left; eauto|].
  apply Forall_cons in Hl as [Hm Hl]. destruct (decide (f ≠ "" ∧ f ≠ m)) as [[Hf Hne]|Hok].
  { right. split; [done|]. right. split; [done|]. exists m. split; [left|done]. }
  destruct (IH m Hl) as [(n & -> & Hn)|[-> Hd]].
  - left. exists n. split; [done|]. right. split; [done|].
    destruct Hn as [[-> ->]|(_ & Hall & Hmn)].
    + split; [by repeat constructor|]. destruct (decide (f = "")); [by left|right]. by destruct (decide (f = m)); [|exfalso; apply Hok].
    + assert (m = n) as -> by (destruct Hmn; done). split; [by constructor|].
      destruct (decide (f = "")); [by left|right]. by destruct (decide (f = n)); [|exfalso; apply Hok].
  - right. split; [done|]. left. destruct Hd as [(a & b & Ha & Hb & Hab)|(_ & n & Hn & Hne)].
    + exists a, b. split_and!; [by right|by right|done].
    + exists n, m. split_and!; [by right|left|done].
Qed.

(** C33: For networks that parse and interfaces that answer, [findInterfaceCIDR]
    finds the interface: it returns the name that every interface with an
    address in one of the networks has, the empty name when there is none, and
    an error exactly when two such interfaces have different names. *)
Theorem findInterfaceCIDR_spec Interfaces cidrs networks ifs :
  mapM ParseNet cidrs = Some networks → (∀ k, Interfaces k = Ok (plain_iface <$> ifs)) →
  Forall (λ i, i.1 ≠ "") ifs →
  let found name := ∃ network addrs addr, network ∈ networks ∧ (name, addrs) ∈ ifs ∧ addr ∈ addrs ∧
                      net_Contains network (ParseIP (first_part "/"%char addr)) = true in
  match findInterfaceCIDR Interfaces cidrs with
  | Ok "" => ∀ name, ¬ found name
  | Ok name => found name ∧ ∀ name', found name' → name' = name
  | Err e => e = err_different ∧ ∃ n1 n2, found n1 ∧ found n2 ∧ n1 ≠ n2
  end.
Proof.
  intros Hc Hi Hne found. unfold findInterfaceCIDR. rewrite (cidr_networks_hits _ _ _ networks ifs) by done.
  set (l := networks ≫= λ network, ifs ≫= hits network).
  assert (∀ n, n ∈ l ↔ found n) as Hl.
  { intros n. unfold l. rewrite list_elem_of_bind. setoid_rewrite list_elem_of_bind. split.
    - intros (network & ([m addrs] & Hn & Hin) & Hnet). unfold hits in Hn.
      apply list_elem_of_fmap in Hn as (addr & -> & [Hcon Haddr]%list_elem_of_filter). by exists network, addrs, addr.
    - intros (network & addrs & addr & Hnet & Hin & Haddr & Hcon). exists network. split; [|done].
      exists (n, addrs). split; [|done]. apply list_elem_of_fmap. exists addr. split; [done|].
      by apply list_elem_of_filter. }
  assert (Forall (λ n, n ≠ "") l) as Hlne.
  { apply Forall_forall. intros n (network & addrs & addr & _ & Hin & _)%Hl.
    rewrite Forall_forall in Hne. by apply (Hne (n, addrs)). }
  destruct (agree_spec l "" Hlne) as [(n & -> & [[Hnil ->]|(Hcons & Hall & _)])|[-> Hd]].
  - intros name Hf%Hl. rewrite Hnil in Hf. by apply elem_of_nil in Hf.
  - destruct l as [|m l]; [done|]. apply Forall_cons in Hall as [<- Hall].
    apply Forall_cons in Hlne as [Hn _]. destruct n as [|c n]; [done|]. split; [apply Hl; left|].
    intros name' [->|Hin]%Hl%elem_of_cons; [done|]. rewrite Forall_forall in Hall. symmetry. by apply Hall.
  - split; [done|]. destruct Hd as [(m & n & Hm%Hl & Hn%Hl & Hmn)|[? _]]; [by exists m, n|done].
Qed.

(** ** Networks: theorems *)

Section hns_theorems.
Context `{HnsLaws}.

Lemma delete_networks_spec networks ips h ips' h' l :
  delete_networks networks ips h = (Ok ips', h') → HNSListNetworkRequest h = Ok l →
  ∃ l', HNSListNetworkRequest h' = Ok l' ∧
    (∀ m, m ∈ l' ↔ m ∈ l ∧ (hn_Name m = "nat" ∨ hn_Name m ∉ hn_Name <$> networks)) ∧
    ips' = ips ++ (hn_ManagementIP <$> filter (λ n, hn_Name n ≠ "nat") networks).
Proof.
  revert ips h l. induction networks as [|n networks IH]; intros ips h l; cbn [delete_networks].
  { intros [= <- <-] Hl. exists l. rewrite app_nil_r. split_and!; [done| |done]. set_solver. }
  rewrite filter_cons. destruct (decide (hn_Name n ≠ "nat")) as [Hn|Hn].
  - destruct (Delete n h) as [[[]|e] h1] eqn:Hd; [|done]. intros Hrest Hl.
    destruct (IH _ _ _ Hrest (list_deleted _ _ _ _ Hd Hl)) as (l' & Hl' & Hin & ->).
    exists l'. split; [done|]. split; [|by rewrite fmap_cons, <-(assoc_L (++))].
    intros m. rewrite Hin, list_elem_of_filter, fmap_cons, elem_of_cons.
    destruct (decide (hn_Name m = "nat")) as [E|E]; naive_solver congruence.
  - intros Hrest Hl. destruct (IH _ _ _ Hrest Hl) as (l' & Hl' & Hin & ->).
    exists l'. split; [done|]. split; [|done].
    intros m. rewrite Hin, fmap_cons, elem_of_cons.
    destruct (decide (hn_Name m = "nat")) as [E|E]; naive_solver congruence.
Qed.

Lemma await_interfaces_Ok Interfaces ips polls k :
  await_interfaces Interfaces ips polls k = Ok () →
  ∃ j, k ≤ j < k + polls ∧ Forall (λ ip, is_Ok (findInterface (Interfaces j) ip) = true) ips.
Proof.
  revert k. induction polls as [|polls IH]; intros k; cbn [await_interfaces]; [done|].
  destruct (forallb _ ips) eqn:Hf.
  - intros _. exists k. split; [lia|]. apply Forall_forall. intros ip Hip.
    rewrite forallb_forall in Hf. by apply Hf, list_elem_of_In.
  - intros (j & Hj & HF)%IH. exists j. split; [lia|done].
Qed.

(** After [deleteAllNetworks] only networks called nat are left, and in one of
    the polls every management address of a deleted one was found. *)
Theorem deleteAllNetworks_spec Interfaces polls h h' l :
  HNSListNetworkRequest h = Ok l → deleteAllNetworks Interfaces polls h = (Ok (), h') →
  (∃ l', HNSListNetworkRequest h' = Ok l' ∧ ∀ m, m ∈ l' ↔ m ∈ l ∧ hn_Name m = "nat") ∧
  ∃ j, j < polls ∧ ∀ n, n ∈ l → hn_Name n ≠ "nat" →
    is_Ok (findInterface (Interfaces j) (hn_ManagementIP n)) = true.
Proof.
  intros Hl. unfold deleteAllNetworks. rewrite Hl.
  destruct (delete_networks l [] h) as [[ips|e] h1] eqn:Hd; [|done]. intros [= Hw <-].
  destruct (delete_networks_spec _ _ _ _ _ _ Hd Hl) as (l' & Hl' & Hin & ->). split.
  - exists l'. split; [done|]. intros m. rewrite Hin. split; [|naive_solver].
    intros (Hm & [E|E]); [done|]. exfalso. apply E, list_elem_of_fmap. by exists m.
  - apply await_interfaces_Ok in Hw as (j & Hj & HF). exists j. split; [lia|].
    rewrite Forall_forall in HF. intros n Hn Hnat. apply HF, list_elem_of_fmap.
    exists n. split; [done|]. by apply list_elem_of_filter.
Qed.

(** A backend other than vxlan needs no firewall rule; without the network, a
    creation that succeeds is found by the first lookup. *)
Theorem createHnsNetwork_bridge env polls backend adapter h h' e :
  backend ≠ "vxlan" → GetHNSNetworkByName CalicoHnsNetworkName h = Err e → env 0 h' = h' → 0 < polls →
  Create (new_network "L2Bridge" adapter []) h = (Ok (), h') →
  ∃ network, GetHNSNetworkByName CalicoHnsNetworkName h' = Ok network ∧
    createHnsNetwork env polls backend adapter h = (Ok (hn_ManagementIP network), h').
Proof.
  intros Hb Hget Henv Hp Hc. destruct (get_of_created _ _ _ Hc) as (network & Hn). cbn in Hn.
  exists network. split; [done|]. unfold createHnsNetwork, create_and_wait.
  rewrite Hget, decide_False, Hc by done. destruct polls as [|polls]; [lia|].
  cbn [await_network]. by rewrite Henv, Hn.
Qed.
End hns_theorems.

(** ** Concrete interfaces and networks *)

Module SimpleHns.
#[export] Instance api : HnsApi := {|
  hns := list HNSNetwork;
  GetHNSNetworkByName name h :=
    match List.find (λ n, bool_decide (hn_Name n = name)) h with
    | Some n => Ok n
    | None => Err (ErrMsg "network not found")
    end;
  HNSListNetworkRequest h := Ok h;
  Create n h := (Ok (), n :: h);
  Delete n h := (Ok (), filter (λ m, hn_Name m ≠ hn_Name n) h);
  FirewallRuleAdd _ _ _ h := (Ok (), h);
  GetHNSEndpointByName name _ := Ok "192.168.255.2";
  DeletePolicyLists h := h
|}.

#[export] Instance laws : HnsLaws.
Proof.
  split.
  - intros n h h' [= <-]. exists n. cbn. by rewrite bool_decide_true.
  - by intros n h h' l [= <-] [= <-].
Qed.
End SimpleHns.

Definition two_ifaces : list (string * list string) :=
  [("vEthernet (nat)", ["172.16.0.1/20"; "fe80::1/64"]); ("Ethernet", ["10.0.0.10/24"; "10.1.0.7/16"])].

Lemma findInterfaceCIDR_spec_witness :
  findInterfaceCIDR (λ _, Ok (plain_iface <$> two_ifaces)) ["10.0.0.0/24"; "10.1.0.0/16"] = Ok "Ethernet" ∧
  ∃ network addrs addr,
    network ∈ ([(V4 [10; 0; 0; 0], 24); (V4 [10; 1; 0; 0], 16)]%Z : list (GoNet.ip * Z)) ∧
    ("Ethernet", addrs) ∈ two_ifaces ∧ addr ∈ addrs ∧
    net_Contains network (ParseIP (first_part "/"%char addr)) = true.
Proof.
  pose proof (findInterfaceCIDR_spec (λ _, Ok (plain_iface <$> two_ifaces)) ["10.0.0.0/24"; "10.1.0.0/16"]
    [(V4 [10; 0; 0; 0], 24); (V4 [10; 1; 0; 0], 16)]%Z two_ifaces
    ltac:(vm_compute; reflexivity) ltac:(reflexivity) ltac:(repeat constructor; done)) as Hspec.
  assert (findInterfaceCIDR (λ _, Ok (plain_iface <$> two_ifaces)) ["10.0.0.0/24"; "10.1.0.0/16"]
          = Ok "Ethernet") as E by (vm_compute; reflexivity).
  rewrite E in Hspec. split; [exact E|exact (proj1 Hspec)].
Defined.
