(* ===== verification/CisController.v ===== *)
(** * CisController: the host network policy of flannel nodes

    pkg/controllers/cisnetworkpolicy: controller.go reconciles one policy per
    core namespace with the pod addresses of the flannel hosts; cleanup.go
    removes the finalizer that the controller left on nodes when it is disabled. *)

From S2P Require Import Prelude GoStrings GoSlice GoNet Kube.

Definition flannelPresenceLabel := "flannel.alpha.coreos.com/public-ip".
Definition flannelHostNetworkPolicyName := "rke2-flannel-host-networking".
Definition finalizerKey := "wrangler.cattle.io/cisnetworkpolicy-node".

Definition policy_namespaces : list string := ["kube-system"; "default"; "kube-public"].

(** The block of one pod network: its address as a single host. *)
Definition ip_block (cidr : string) : option string :=
  podCIDRFirstIP ← ParseCIDR cidr;
  Some (IP_String podCIDRFirstIP +:+ match To4 podCIDRFirstIP with None => "/128" | Some _ => "/32" end).

Definition node_blocks (node : Node) : list string :=
  match node_Annotations node !! flannelPresenceLabel with
  | None => []
  | Some _ =>
      let podCIDRs := match node_PodCIDRs node with [] => [node_PodCIDR node] | l => l end in
      omap ip_block podCIDRs
  end.

(** The rule for the listed nodes; peers are sorted by their text. *)
Definition host_rule (nodes : list Node) : NetworkPolicyIngressRule :=
  {| rule_From := IPBlockPeer <$> sort_Strings (mjoin (node_blocks <$> nodes));
     rule_Ports := [] |}.

Definition generateHostNetworkingNetworkPolicy (rule : NetworkPolicyIngressRule) : NetworkPolicy :=
  {| np_Name := flannelHostNetworkPolicyName; np_ResourceVersion := ""; np_Annotations := ∅;
     np_Spec := {| spec_PodSelector := ∅; spec_Ingress := [rule];
                   spec_PolicyTypes := [PolicyTypeIngress] |} |}.

(** [npGet.Spec.Ingress[0] = rule]; [None] is the panic on an empty list. *)
Definition set_first_rule (rule : NetworkPolicyIngressRule) (np : NetworkPolicy)
    : option NetworkPolicy :=
  match spec_Ingress (np_Spec np) with
  | [] => None
  | _ :: rest =>
      Some {| np_Name := np_Name np; np_ResourceVersion := np_ResourceVersion np;
              np_Annotations := np_Annotations np;
              np_Spec := {| spec_PodSelector := spec_PodSelector (np_Spec np);
                            spec_Ingress := rule :: rest;
                            spec_PolicyTypes := spec_PolicyTypes (np_Spec np) |} |}
  end.

Section controller.
Context `{KubeApi}.

Definition generateHostNetworkPolicyIngressRule (c : cluster)
    : result NetworkPolicyIngressRule * cluster :=
  match Nodes_List c with
  | (Err e, c') => (Err (ErrWithMessage "CISNetworkPolicyController: problem listing nodes" e), c')
  | (Ok nodes, c') => (Ok (host_rule nodes), c')
  end.

(** The function retried on conflicts, for one namespace. *)
Definition reconcile_namespace (namespace : string) (rule : NetworkPolicyIngressRule)
    : attempt_fn unit := λ _ c,
  match NetworkPolicies_Get namespace flannelHostNetworkPolicyName c with
  | (Err e, c1) =>
      if apierrors_IsNotFound e then
        match NetworkPolicies_Create namespace (generateHostNetworkingNetworkPolicy rule) c1 with
        | (Err e, c2) => (if apierrors_IsAlreadyExists e then Ok () else Err e, (), c2)
        | (Ok _, c2) => (Ok (), (), c2)
        end
      else (Err e, (), c1)
  | (Ok npGet, c1) =>
      match set_first_rule rule npGet with
      | None => (Err (ErrPanic "index out of range"), (), c1)
      | Some np =>
          match NetworkPolicies_Update namespace np c1 with
          | (Err e, c2) => (Err e, (), c2)
          | (Ok _, c2) => (Ok (), (), c2)
          end
      end
  end.

Fixpoint reconcile_namespaces (namespaces : list string) (rule : NetworkPolicyIngressRule)
    (c : cluster) : result unit * cluster :=
  match namespaces with
  | [] => (Ok (), c)
  | n :: rest =>
      match RetryOnConflict DefaultRetry (reconcile_namespace n rule) () c with
      | (Err e, _, c1) =>
          (Err (ErrWithMessage ("CISNetworkPolicyController: error working on network policy in namespace "
                                +:+ n) e), c1)
      | (Ok _, _, c1) => reconcile_namespaces rest rule c1
      end
  end.

Definition reconcileFlannelHostNetworkPolicy (c : cluster) : result unit * cluster :=
  match generateHostNetworkPolicyIngressRule c with
  | (Err e, c1) => (Err e, c1)
  | (Ok rule, c1) => reconcile_namespaces policy_namespaces rule c1
  end.

(** [handle]; no node, nothing to do. *)
Definition handle (node : option Node) (c : cluster) : result unit * cluster :=
  match node with None => (Ok (), c) | Some _ => reconcileFlannelHostNetworkPolicy c end.

(** ** cleanup.go *)

(** The loop of [removeFinalizer] over the slice [s] it also deletes from. *)
Fixpoint finalizer_loop (s : slice) (n k : nat) (h : store string) (newFinalizers : slice)
    : option (store string * slice) :=
  match n with
  | 0 => Some (h, newFinalizers)
  | S n' =>
      v ← index h s k;
      if decide (v ≠ finalizerKey) then finalizer_loop s n' (S k) h newFinalizers
      else '(h, newFinalizers) ← delete_at h s k; finalizer_loop s n' (S k) h newFinalizers
  end.

(** The value of the patch. *)
Definition new_finalizers (finalizers : list string) : option (list string) :=
  let '(h, s) := literal [] finalizers in
  let '(h, empty) := literal h [] in
  '(h, r) ← finalizer_loop s (s_len s) 0 h empty;
  Some (contents h r).

Definition removeFinalizer (node : Node) (c : cluster) : result unit * cluster :=
  match new_finalizers (node_Finalizers node) with
  | None => (Err (ErrPanic "slice bounds out of range"), c)
  | Some l => Nodes_PatchFinalizers (node_Name node) l c
  end.

(** The poll body of [unregister]; [true] when every node has been handled. *)
Fixpoint unregister_nodes (nodes : list Node) (c : cluster) : bool * cluster :=
  match nodes with
  | [] => (true, c)
  | node :: rest =>
      if decide (finalizerKey ∈ node_Finalizers node) then
        match removeFinalizer node c with
        | (Err _, c1) => (false, c1)
        | (Ok _, c1) => unregister_nodes rest c1
        end
      else unregister_nodes rest c
  end.

Definition unregister (c : cluster) : bool * cluster :=
  match Nodes_List c with
  | (Err _, c1) => (false, c1)
  | (Ok nodes, c1) => unregister_nodes nodes c1
  end.
End controller.

(** ** The rule *)

(** A block of the rule, and where it comes from. *)
Definition block_of (nodes : list Node) (b : string) : Prop :=
  ∃ node cidr a, node ∈ nodes ∧ is_Some (node_Annotations node !! flannelPresenceLabel) ∧
    (cidr ∈ node_PodCIDRs node ∨ (node_PodCIDRs node = [] ∧ cidr = node_PodCIDR node)) ∧
    ParseCIDR cidr = Some a ∧
    b = IP_String a +:+ match To4 a with Some _ => "/32" | None => "/128" end.

Lemma elem_of_node_blocks node b : b ∈ node_blocks node ↔ block_of [node] b.
Proof.
  unfold node_blocks, block_of. split.
  - destruct (node_Annotations node !! flannelPresenceLabel) eqn:Ha; [|by intros ?%elem_of_nil].
    intros (cidr & Hin & Hb)%list_elem_of_omap. unfold ip_block in Hb.
    destruct (ParseCIDR cidr) as [a|] eqn:Hc; [|done]. injection Hb as <-.
    exists node, cidr, a. split_and!; [constructor|by rewrite Ha| |done|by destruct (To4 a)].
    destruct (node_PodCIDRs node); [right|by left]. by apply list_elem_of_singleton in Hin.
  - intros (? & cidr & a & ->%list_elem_of_singleton & [v Ha] & Hcidr & Hc & ->).
    rewrite Ha. apply list_elem_of_omap. exists cidr. split.
    + destruct Hcidr as [Hin|[-> ->]]; [|constructor].
      destruct (node_PodCIDRs node); [by apply elem_of_nil in Hin|done].
    + unfold ip_block. rewrite Hc. simpl. by destruct (To4 a).
Qed.

Lemma elem_of_blocks nodes b : b ∈ mjoin (node_blocks <$> nodes) ↔ block_of nodes b.
Proof.
  rewrite list_elem_of_join. split.
  - intros (l & Hb & (node & -> & Hnode)%list_elem_of_fmap).
    apply elem_of_node_blocks in Hb as (? & cidr & a & ->%list_elem_of_singleton & Hrest).
    by exists node, cidr, a.
  - intros (node & cidr & a & Hin & Hrest). exists (node_blocks node). split.
    + apply elem_of_node_blocks. exists node, cidr, a. split; [constructor|done].
    + by apply list_elem_of_fmap_2.
Qed.

(** C31: The ingress rule of the host network policy admits, sorted, exactly one
    host address per parseable pod network of a node that has the flannel
    annotation; it does not depend on the order in which nodes are listed.  When
    there is no such network the list of peers is empty, which the API reads as
    every source. *)
Theorem host_rule_spec nodes :
  ∃ blocks, rule_From (host_rule nodes) = IPBlockPeer <$> blocks ∧
    StronglySorted String.le blocks ∧ (∀ b, b ∈ blocks ↔ block_of nodes b) ∧
    (rule_From (host_rule nodes) = [] ↔ ∀ b, ¬ block_of nodes b) ∧
    ∀ nodes', nodes ≡ₚ nodes' → host_rule nodes' = host_rule nodes.
Proof.
  exists (sort_Strings (mjoin (node_blocks <$> nodes))).
  assert (∀ b, b ∈ sort_Strings (mjoin (node_blocks <$> nodes)) ↔ block_of nodes b) as Hin
    by (intros b; rewrite elem_of_sort_Strings; apply elem_of_blocks).
  split_and!; [done|apply sort_Strings_sorted|done| |].
  - simpl. split.
    + intros Hnil b Hb%Hin. apply fmap_nil_inv in Hnil. rewrite Hnil in Hb. by apply elem_of_nil in Hb.
    + intros Hno. destruct (sort_Strings _) as [|b l] eqn:E; [done|].
      destruct (Hno b). apply Hin. constructor.
  - intros nodes' Hp. unfold host_rule. do 2 f_equal. apply sort_Strings_proper. by rewrite Hp.
Qed.

(** ** Reconciliation *)

Section reconcile.
Context `{KubeLaws}.
Implicit Types (c : cluster) (rule : NetworkPolicyIngressRule).

(** The policy of the namespace has [rule] as its first rule. *)
Definition has_rule c (n : string) rule : Prop :=
  ∃ np rest, policy_at c n flannelHostNetworkPolicyName = Some np ∧
             spec_Ingress (np_Spec np) = rule :: rest.

(** The policy, if there is one, has a rule that can be replaced. *)
Definition replaceable c (n : string) : Prop :=
  ∀ np, policy_at c n flannelHostNetworkPolicyName = Some np → spec_Ingress (np_Spec np) ≠ [].

Definition only_policy c c' (n : string) : Prop :=
  ∀ n' p, (n', p) ≠ (n, flannelHostNetworkPolicyName) → policy_at c' n' p = policy_at c n' p.

Lemma reconcile_namespace_spec n rule c :
  replaceable c n →
  ∃ c', RetryOnConflict DefaultRetry (reconcile_namespace n rule) () c = (Ok (), (), c') ∧
        has_rule c' n rule ∧ only_policy c c' n.
Proof.
  intros Hrep. unfold RetryOnConflict, DefaultRetry. simpl. unfold reconcile_namespace.
  rewrite NetworkPolicies_Get_law.
  destruct (policy_at c n flannelHostNetworkPolicyName) as [np|] eqn:Hnp; simpl.
  - unfold set_first_rule. pose proof (Hrep np Hnp) as Hne.
    pose proof (policy_name _ _ _ _ Hnp) as Hname.
    destruct (spec_Ingress (np_Spec np)) as [|r rest]; [done|]. set (np1 := Build_NetworkPolicy _ _ _ _).
    destruct (NetworkPolicies_Update_current n np1 c np) as (np' & c' & -> & Hat & Hspec & Hother);
      [simpl; by rewrite Hname|done|]. simpl in Hat. rewrite Hname in Hat.
    exists c'. split_and!; [done| |].
    + exists np', rest. by rewrite Hspec.
    + intros n' p Hne'. apply Hother. simpl. by rewrite Hname.
  - destruct (NetworkPolicies_Create_law n (generateHostNetworkingNetworkPolicy rule) c Hnp)
      as (np & c' & -> & Hat & Hspec & _ & _ & Hother & _).
    exists c'. split_and!; [done| |exact Hother]. exists np, []. by rewrite Hspec.
Qed.

(** What [reconcileFlannelHostNetworkPolicy] does on an available server. *)
Lemma reconcile_succeeds nodes c c0 :
  Nodes_List c0 = (Ok nodes, c) →
  (∀ n, n ∈ policy_namespaces → replaceable c n) →
  ∃ c', reconcileFlannelHostNetworkPolicy c0 = (Ok (), c') ∧
    Forall (λ n, has_rule c' n (host_rule nodes)) policy_namespaces ∧
    ∀ n p, n ∉ policy_namespaces ∨ p ≠ flannelHostNetworkPolicyName →
           policy_at c' n p = policy_at c n p.
Proof.
  intros Hlist. unfold reconcileFlannelHostNetworkPolicy, generateHostNetworkPolicyIngressRule.
  rewrite Hlist. generalize (host_rule nodes). intros rule. clear Hlist.
  assert (NoDup policy_namespaces) as Hnd by (apply (bool_decide_unpack _); by vm_compute).
  revert Hnd. generalize policy_namespaces. intros l Hnd. revert c.
  induction Hnd as [|n l Hn Hnd IH]; intros c Hrep; simpl.
  { exists c. split_and!; done. }
  destruct (reconcile_namespace_spec n rule c) as (c1 & -> & Hrule & Hone); [apply Hrep; constructor|].
  destruct (IH c1) as (c' & -> & Hall & Hother).
  { intros m Hm np. rewrite Hone; [by apply Hrep; constructor|]. by intros [= ->]. }
  exists c'. split_and!; [done| |].
  - constructor; [|done]. destruct Hrule as (np & rest & Hat & Hing). exists np, rest.
    by rewrite Hother by (by left).
  - intros m p Hmp. rewrite Hother, Hone; [done| |set_solver].
    intros [= -> ->]. destruct Hmp as [Hm|]; [|done]. apply Hm. constructor.
Qed.

(** On an available API server, and when the policies that exist have a rule
    to replace, [reconcileFlannelHostNetworkPolicy] succeeds and leaves in every
    core namespace a host network policy whose first rule is the one for the
    nodes listed; it touches no other policy. *)
Theorem reconcileFlannelHostNetworkPolicy_spec nodes c c0 :
  Nodes_List c0 = (Ok nodes, c) →
  (∀ n, n ∈ policy_namespaces → replaceable c n) →
  ∃ c', reconcileFlannelHostNetworkPolicy c0 = (Ok (), c') ∧
    Forall (λ n, has_rule c' n (host_rule nodes)) policy_namespaces ∧
    ∀ n p, n ∉ policy_namespaces ∨ p ≠ flannelHostNetworkPolicyName →
           policy_at c' n p = policy_at c n p.
Proof. apply reconcile_succeeds. Qed.
End reconcile.

(** ** The finalizer *)

(** Rounds that meet no finalizer of this controller change nothing. *)
Lemma finalizer_loop_skip s n k h r :
  (∀ i, k ≤ i < k + n → ∃ v, index h s i = Some v ∧ v ≠ finalizerKey) →
  finalizer_loop s n k h r = Some (h, r).
Proof.
  revert k. induction n as [|n IH]; intros k Hv; [done|]. cbn [finalizer_loop].
  destruct (Hv k) as (v & -> & Hne); [lia|]. simpl. rewrite decide_True by done.
  apply IH. intros i Hi. apply Hv. lia.
Qed.

Lemma finalizer_loop_app s n m k h r :
  (∀ i, k ≤ i < k + n → ∃ v, index h s i = Some v ∧ v ≠ finalizerKey) →
  finalizer_loop s (n + m) k h r = finalizer_loop s m (k + n) h r.
Proof.
  revert k. induction n as [|n IH]; intros k Hv; [by rewrite Nat.add_0_r|]. cbn [finalizer_loop Nat.add].
  destruct (Hv k) as (v & -> & Hne); [lia|]. simpl. rewrite decide_True by done.
  rewrite IH by (intros i Hi; apply Hv; lia). f_equal. lia.
Qed.

(** Although [removeFinalizer] deletes from the slice it ranges over, for a
    node that has the finalizer once the patch value is its finalizers without
    it, in order, and no index is out of range. *)
Theorem new_finalizers_correct pre post :
  finalizerKey ∉ pre → finalizerKey ∉ post →
  new_finalizers (pre ++ finalizerKey :: post) = Some (pre ++ post).
Proof.
  intros Hpre Hpost. unfold new_finalizers. cbn [literal app length].
  set (l := pre ++ finalizerKey :: post). set (h := [l; []]).
  assert (length l = length pre + S (length post)) as Hlen by (unfold l; by rewrite length_app).
  cbn [s_len]. rewrite Hlen, finalizer_loop_app.
  2:{ intros i Hi. rewrite (index_front h 0 _ _ l); [|by split; [done|lia]|lia].
      unfold l. rewrite lookup_app_l by lia.
      destruct (lookup_lt_is_Some_2 pre i) as [v Hv]; [lia|]. exists v. split; [done|].
      intros ->. apply Hpre. by eapply list_elem_of_lookup_2. }
  cbn [finalizer_loop Nat.add].
  rewrite (index_front h 0 _ _ l); [|by split; [done|lia]|lia].
  unfold l at 1. rewrite lookup_app_r, Nat.sub_diag by lia.
  cbn [lookup list_lookup mbind option_bind]. rewrite decide_False by tauto.
  destruct (exists_last (l := finalizerKey :: post)) as (l' & z & Hz); [done|].
  rewrite (delete_at_front h 0 _ pre finalizerKey post l' z []); [|by rewrite app_nil_r|done|simpl; lia].
  simpl. set (arr := pre ++ post ++ [z]).
  assert (length arr = length l) as Harr
    by (unfold arr; rewrite Hlen, !length_app; simpl; lia).
  rewrite finalizer_loop_skip.
  - cbn [mbind option_bind]. rewrite (contents_front _ 0 _ _ arr) by (split; [done|lia]).
    f_equal. unfold arr. rewrite (assoc_L (++)), take_app_le, take_ge; [done| |];
      rewrite length_app; lia.
  - intros i Hi. rewrite (index_front _ 0 _ _ arr); [|split; [done|lia]|lia]. unfold arr.
    rewrite lookup_app_r by lia.
    destruct (lookup_lt_is_Some_2 (post ++ [z]) (i - length pre)) as [v Hv];
      [rewrite length_app; simpl; lia|].
    exists v. split; [done|]. intros ->. apply list_elem_of_lookup_2 in Hv.
    assert (post ≠ []) as Hne by (intros ->; simpl in Hi; lia).
    rewrite elem_of_app, list_elem_of_singleton in Hv. destruct Hv as [?|<-]; [done|].
    destruct (exists_last Hne) as (p' & z' & ->). rewrite app_comm_cons in Hz.
    apply app_inj_tail in Hz as [_ ->]. apply Hpost, elem_of_app. right. constructor.
Qed.

#[local] Existing Instance SimpleKube.api.
#[local] Existing Instance SimpleKube.kube_laws.

Definition sample_node (name cidr : string) : Node :=
  {| node_Name := name; node_Annotations := {[flannelPresenceLabel := "192.0.2.1"]};
     node_PodCIDR := cidr; node_PodCIDRs := [cidr; "fd00:42::/64"];
     node_Finalizers := ["a"; finalizerKey; "b"]; node_Deleting := false |}.

Definition sample_nodes : cluster :=
  SimpleKube.State ∅ ∅ ∅ [sample_node "n2" "10.42.1.0/24"; sample_node "n1" "10.42.0.0/24"].

Example sample_rule : rule_From (host_rule (SimpleKube.k_nodes sample_nodes))
  = IPBlockPeer <$> ["10.42.0.0/32"; "10.42.1.0/32"; "fd00:42::/128"; "fd00:42::/128"].
Proof. vm_compute. reflexivity. Qed.

Lemma reconcileFlannelHostNetworkPolicy_spec_witness :
  ∃ c', reconcileFlannelHostNetworkPolicy sample_nodes = (Ok (), c') ∧
    Forall (λ n, has_rule c' n (host_rule (SimpleKube.k_nodes sample_nodes))) policy_namespaces.
Proof.
  destruct (reconcileFlannelHostNetworkPolicy_spec (SimpleKube.k_nodes sample_nodes)
    sample_nodes sample_nodes) as (c' & H1 & H2 & _).
  - reflexivity.
  - intros n Hn np Hnp. discriminate Hnp.
  - exists c'. split; [exact H1|exact H2].
Defined.

Lemma new_finalizers_correct_witness :
  new_finalizers (node_Finalizers (sample_node "n1" "")) = Some ["a"; "b"].
Proof.
  apply (new_finalizers_correct ["a"] ["b"]);
    (intros Hin; apply list_elem_of_singleton in Hin; discriminate Hin).
Defined.
