(* ===== verification/CisLifecycle.v ===== *)
(** * CisLifecycle: the CIS network policy controller at work (controller.go)

    [register] hooks [handle] to the changes and the removal of nodes.  The step
    relation lets other clients change nodes while the controller takes names
    from its queue, in any order; a node under deletion keeps the controller's
    finalizer until the removal hook has run.  The invariant says which hosts the
    policies admit whenever the queue is empty. *)

From S2P Require Import Prelude GoStrings GoNet Kube CisController.

Section lifecycle.
Context `{KubeNodes}.
Implicit Types (c : cluster) (node : Node) (key : string) (l : list Node).

(** The hooks of a node controller. *)
Inductive hook := OnChange | OnRemove.

(** [register]: the same handler for both. *)
Definition register (h : hook) : option Node → cluster → result unit * cluster :=
  match h with OnChange => handle | OnRemove => handle end.

Definition find_node key l : option Node := list_find (λ m, node_Name m = key) l ≫= λ m, Some m.2.
Definition other_nodes key l : list Node := filter (λ m, node_Name m ≠ key) l.
Definition put_node node l : list Node := node :: other_nodes (node_Name node) l.

(** The cluster, the names to be handled, and two things the program does not
    keep: whether the policies were ever written, and the nodes that have gone
    since they were last written. *)
Record controller := Ctl {
  k_cluster : cluster;
  k_queue : list string;
  k_written : bool;
  k_gone : list Node
}.

Definition without (key : string) (queue queue' : list string) : Prop :=
  ∃ pre post, queue = pre ++ key :: post ∧ queue' = pre ++ post.

Inductive ctl_step : controller → controller → Prop :=
  (** a client creates or changes a node, or asks for its deletion *)
  | node_changed node x :
      ctl_step x (Ctl (set_nodes (put_node node (nodes_of (k_cluster x))) (k_cluster x))
                      (node_Name node :: k_queue x) (k_written x) (k_gone x))
  (** a name is taken from the queue *)
  | node_handled key node x queue c :
      without key (k_queue x) queue → find_node key (nodes_of (k_cluster x)) = Some node →
      node_Deleting node = false → register OnChange (Some node) (k_cluster x) = (Ok (), c) →
      ctl_step x (Ctl c queue true [])
  | node_absent key x queue c :
      without key (k_queue x) queue → find_node key (nodes_of (k_cluster x)) = None →
      register OnChange None (k_cluster x) = (Ok (), c) →
      ctl_step x (Ctl c queue (k_written x) (k_gone x))
  (** a node under deletion: after both hooks the finalizer goes, and with it the
      node; its name is queued for the change *)
  | node_removed key node x queue c1 c2 :
      without key (k_queue x) queue → find_node key (nodes_of (k_cluster x)) = Some node →
      node_Deleting node = true →
      register OnChange (Some node) (k_cluster x) = (Ok (), c1) →
      register OnRemove (Some node) c1 = (Ok (), c2) →
      ctl_step x (Ctl (set_nodes (other_nodes key (nodes_of c2)) c2) (key :: queue) true
                      (filter (λ m, node_Name m = key) (nodes_of c2)))
  (** an error puts the name back *)
  | node_failed key node x c e :
      key ∈ k_queue x → find_node key (nodes_of (k_cluster x)) = Some node →
      register OnChange (Some node) (k_cluster x) = (Err e, c) →
      ctl_step x (Ctl c (k_queue x) (k_written x) (k_gone x)).

(** ** What the handler leaves alone *)

Lemma reconcile_namespace_nodes n rule u c : nodes_of (reconcile_namespace n rule u c).2 = nodes_of c.
Proof.
  unfold reconcile_namespace. rewrite NetworkPolicies_Get_law.
  destruct (policy_at c n flannelHostNetworkPolicyName) as [np|]; simpl.
  - destruct (set_first_rule rule np) as [np'|]; [|done]. pose proof (Update_nodes n np' c) as Hn.
    by destruct (NetworkPolicies_Update n np' c) as [[] c2].
  - pose proof (Create_nodes n (generateHostNetworkingNetworkPolicy rule) c) as Hn.
    by destruct (NetworkPolicies_Create _ _ c) as [[] c2].
Qed.

Lemma handle_nodes o c : nodes_of (handle o c).2 = nodes_of c.
Proof.
  destruct o as [node|]; [|done]. cbn [handle].
  unfold reconcileFlannelHostNetworkPolicy, generateHostNetworkPolicyIngressRule.
  rewrite Nodes_List_law. generalize (host_rule (nodes_of c)), policy_namespaces. intros rule namespaces.
  revert c. induction namespaces as [|n ns IH]; intros c; cbn [reconcile_namespaces]; [done|].
  pose proof (OnError_keeps nodes_of apierrors_IsConflict DefaultRetry _ () c
    (λ u, reconcile_namespace_nodes n rule u)) as Hn.
  unfold RetryOnConflict. destruct (OnError _ _ _ _ c) as [[[|e] u] c1]; cbn [snd] in Hn; [|done].
  by rewrite IH.
Qed.

(** ** The invariant *)

(** The policies were written for the nodes of [l], in some order. *)
Definition written_for c l : Prop :=
  ∃ l', l' ≡ₚ l ∧ Forall (λ n, has_rule c n (host_rule l')) policy_namespaces.

(** What the API admits through a rule: without a peer it is every source. *)
Definition rule_admits (rule : NetworkPolicyIngressRule) (block : string) : Prop :=
  rule_From rule = [] ∨ IPBlockPeer block ∈ rule_From rule.

(** In every core namespace the first rule of the controller's policy, on all
    ports, admits the host blocks of the nodes of [l] and no other source; or
    every source, when no node of [l] has a host block. *)
Definition admits c l : Prop :=
  Forall (λ n, ∃ np rule rest, policy_at c n flannelHostNetworkPolicyName = Some np ∧
    spec_Ingress (np_Spec np) = rule :: rest ∧ rule_Ports rule = [] ∧
    (∀ peer, peer ∈ rule_From rule → ∃ block, peer = IPBlockPeer block) ∧
    ∀ block, rule_admits rule block ↔ block_of l block ∨ ∀ block', ¬ block_of l block') policy_namespaces.

Lemma block_of_perm l l' b : l ≡ₚ l' → block_of l b ↔ block_of l' b.
Proof. intros Hp. unfold block_of. by setoid_rewrite Hp. Qed.

Lemma elem_of_host_rule l peer :
  peer ∈ rule_From (host_rule l) ↔ ∃ block, peer = IPBlockPeer block ∧ block_of l block.
Proof.
  cbn. rewrite list_elem_of_fmap. setoid_rewrite elem_of_sort_Strings. by setoid_rewrite elem_of_blocks.
Qed.

Lemma host_rule_admits l block :
  rule_admits (host_rule l) block ↔ block_of l block ∨ ∀ block', ¬ block_of l block'.
Proof.
  unfold rule_admits. rewrite elem_of_host_rule. split.
  - intros [Hnil|(b & [= ->] & Hb)]; [right|by left]. intros b Hb.
    apply (not_elem_of_nil (IPBlockPeer b)). rewrite <-Hnil. apply elem_of_host_rule. by exists b.
  - intros [Hb|Hno]; [right; by exists block|left]. destruct (rule_From (host_rule l)) as [|peer peers] eqn:E; [done|].
    assert (peer ∈ rule_From (host_rule l)) as (b & _ & Hb)%elem_of_host_rule by (rewrite E; left).
    by destruct (Hno b).
Qed.

Lemma written_admits c l : written_for c l → admits c l.
Proof.
  intros (l' & Hp & Hall). eapply Forall_impl; [exact Hall|]. intros n (np & rest & Hat & Hing).
  exists np, (host_rule l'), rest. split_and!; [done|done|done| |].
  - intros peer (b & -> & _)%elem_of_host_rule. by exists b.
  - intros block. rewrite host_rule_admits, (block_of_perm _ _ block Hp).
    by setoid_rewrite (λ b, block_of_perm _ _ b Hp).
Qed.

Definition replaceable_all c : Prop := ∀ n, n ∈ policy_namespaces → replaceable c n.

Record ctl_inv (x : controller) : Prop := {
  inv_replaceable : replaceable_all (k_cluster x);
  inv_admits : k_written x = true →
    (∀ key, key ∈ k_queue x → find_node key (nodes_of (k_cluster x)) = None) →
    written_for (k_cluster x) (nodes_of (k_cluster x) ++ k_gone x)
}.

Lemma has_rule_replaceable c n rule : has_rule c n rule → replaceable c n.
Proof. intros (np & rest & Hat & Hing) np' Hat'. simplify_eq. by rewrite Hing. Qed.

Lemma handle_admits node c r c' :
  replaceable_all c → handle (Some node) c = (r, c') →
  r = Ok () ∧ replaceable_all c' ∧ Forall (λ n, has_rule c' n (host_rule (nodes_of c))) policy_namespaces.
Proof.
  intros Hrep Hh.
  destruct (reconcile_succeeds (nodes_of c) c c (Nodes_List_law c) Hrep) as (c1 & E & Hall & _).
  cbn [handle] in Hh. rewrite E in Hh. injection Hh as <- <-. split_and!; [done| |done].
  intros n Hn. rewrite Forall_forall in Hall. by eapply has_rule_replaceable, Hall.
Qed.

Lemma set_nodes_has_rule l c n rule : has_rule (set_nodes l c) n rule ↔ has_rule c n rule.
Proof. unfold has_rule. by setoid_rewrite set_nodes_policy. Qed.

Lemma set_nodes_replaceable l c : replaceable_all c → replaceable_all (set_nodes l c).
Proof. intros Hr n Hn np. rewrite set_nodes_policy. by apply Hr. Qed.

Lemma find_put node l : find_node (node_Name node) (put_node node l) = Some node.
Proof. unfold find_node, put_node. cbn. by rewrite decide_True. Qed.

Lemma find_other key l : find_node key (other_nodes key l) = None.
Proof.
  unfold find_node. destruct (list_find _ _) as [[i m]|] eqn:E; [|done].
  apply list_find_Some in E as (Hm & Hk & _). apply list_elem_of_lookup_2 in Hm.
  unfold other_nodes in Hm. by apply list_elem_of_filter in Hm as [Hm _].
Qed.

Lemma split_nodes key l :
  other_nodes key l ++ filter (λ m, node_Name m = key) l ≡ₚ l.
Proof.
  induction l as [|m l IH]; [done|]. unfold other_nodes in *. rewrite !filter_cons.
  destruct (decide (node_Name m = key)).
  - rewrite decide_False by by intros Hn. by rewrite <-Permutation_middle, IH.
  - rewrite decide_True by done. cbn [app]. by rewrite IH.
Qed.

Lemma ctl_step_inv x x' : ctl_step x x' → ctl_inv x → ctl_inv x'.
Proof.
  intros Hs [Hrep Hadm]. destruct Hs as
    [node x|key node x queue c Hq Hf Hd Hh|key x queue c Hq Hf Hh
    |key node x queue c1 c2 Hq Hf Hd Hone Htwo|key node x c e Hq Hf Hh];
    cbn [k_cluster k_queue k_written k_gone register] in *.
  - split; cbn [k_cluster k_queue k_written k_gone]; [by apply set_nodes_replaceable|]. intros _ Hno.
    specialize (Hno (node_Name node) ltac:(left)). by rewrite set_nodes_of, find_put in Hno.
  - pose proof (handle_nodes (Some node) (k_cluster x)) as Hn. rewrite Hh in Hn. cbn [snd] in Hn.
    apply handle_admits in Hh as (_ & Hrep' & Hall); [|done]. split; cbn [k_cluster k_queue k_written k_gone]; [done|]. intros _ _.
    exists (nodes_of (k_cluster x)). by rewrite Hn, app_nil_r.
  - injection Hh as <-. split; cbn [k_cluster k_queue k_written k_gone]; [done|]. intros Hw Hno. apply Hadm; [done|].
    destruct Hq as (pre & post & -> & ->). intros k Hk. destruct (decide (k = key)) as [->|]; [done|].
    apply Hno. set_solver.
  - pose proof (handle_nodes (Some node) c1) as Hn. rewrite Htwo in Hn. cbn [snd] in Hn.
    apply handle_admits in Hone as (_ & Hrep1 & _); [|done].
    apply handle_admits in Htwo as (_ & Hrep2 & Hall); [|done].
    split; cbn [k_cluster k_queue k_written k_gone]; [by apply set_nodes_replaceable|]. intros _ _. rewrite set_nodes_of.
    exists (nodes_of c1). split; [by rewrite split_nodes, Hn|].
    eapply Forall_impl; [exact Hall|]. intros n. by rewrite set_nodes_has_rule.
  - apply handle_admits in Hh as [[=] _]; done.
Qed.

(** C9: Where the policies that exist have a rule to replace, every run of the
    controller keeps them so.  And whenever the controller has written them at
    least once and the names still queued are not those of nodes, the
    controller's rule in every core namespace admits exactly the host blocks of
    the nodes that are listed and of those that have gone since the policies were
    last written, or, when these have no host block at all, every source. *)
Theorem policy_follows_nodes x x' :
  rtc ctl_step x x' → replaceable_all (k_cluster x) → k_written x = false →
  replaceable_all (k_cluster x') ∧
  (k_written x' = true →
   (∀ key, key ∈ k_queue x' → find_node key (nodes_of (k_cluster x')) = None) →
   admits (k_cluster x') (nodes_of (k_cluster x') ++ k_gone x')).
Proof.
  intros Hrtc Hrep Hw. assert (ctl_inv x) as Hi by (split; [done|by rewrite Hw]).
  assert (ctl_inv x') as [Hrep' Hadm']; [|split; [done|]; intros; by apply written_admits, Hadm'].
  clear Hrep Hw. induction Hrtc; eauto using ctl_step_inv.
Qed.

(** C24: The removal of a node does not reach the policies.  From a quiet state in
    which only the node that is under deletion is queued, the controller always gets
    to a state with an empty queue in which the node is gone, while every core
    namespace still admits the hosts of the old list: the hook that should drop
    them ran when the node was still listed, and the change that follows the
    removal has no node and does nothing. *)
Theorem removed_node_stays_admitted x node :
  replaceable_all (k_cluster x) → k_queue x = [node_Name node] → node_Deleting node = true →
  find_node (node_Name node) (nodes_of (k_cluster x)) = Some node →
  ∃ c', rtc ctl_step x (Ctl c' [] true (filter (λ m, node_Name m = node_Name node)
                                               (nodes_of (k_cluster x)))) ∧
    nodes_of c' = other_nodes (node_Name node) (nodes_of (k_cluster x)) ∧
    Forall (λ n, has_rule c' n (host_rule (nodes_of (k_cluster x)))) policy_namespaces.
Proof.
  intros Hrep Hq Hd Hf.
  destruct (handle (Some node) (k_cluster x)) as [r1 c1] eqn:Hone.
  pose proof (handle_nodes (Some node) (k_cluster x)) as Hn1. rewrite Hone in Hn1. cbn [snd] in Hn1.
  destruct (handle_admits _ _ _ _ Hrep Hone) as (-> & Hrep1 & _).
  destruct (handle (Some node) c1) as [r2 c2] eqn:Htwo.
  pose proof (handle_nodes (Some node) c1) as Hn2. rewrite Htwo in Hn2. cbn [snd] in Hn2.
  destruct (handle_admits _ _ _ _ Hrep1 Htwo) as (-> & _ & Hall).
  exists (set_nodes (other_nodes (node_Name node) (nodes_of c2)) c2). rewrite set_nodes_of, Hn2, Hn1.
  split_and!; [|done|].
  - eapply rtc_l; [eapply (node_removed (node_Name node) node x []); [|done..]; by exists [], []|].
    rewrite Hn2, Hn1. eapply rtc_once, node_absent; cbn; [by exists [], []| |done].
    rewrite set_nodes_of. apply find_other.
  - eapply Forall_impl; [exact Hall|]. intros n. by rewrite set_nodes_has_rule, Hn1.
Qed.
End lifecycle.

(** ** A node that is removed *)

#[local] Existing Instance SimpleKube.api.
#[local] Existing Instance SimpleKube.kube_laws.
#[local] Existing Instance SimpleKube.kube_nodes.

Definition leaving : Node :=
  {| node_Name := "n1"; node_Annotations := {[flannelPresenceLabel := "192.0.2.1"]};
     node_PodCIDR := "10.42.0.0/24"; node_PodCIDRs := [];
     node_Finalizers := [finalizerKey]; node_Deleting := true |}.

Definition before : controller :=
  Ctl (SimpleKube.State ∅ ∅ ∅ [leaving; sample_node "n2" "10.42.1.0/24"]) ["n1"] false [].

Lemma removed_node_stays_admitted_witness :
  ∃ c' : @cluster SimpleKube.api, nodes_of c' = [sample_node "n2" "10.42.1.0/24"] ∧
    has_rule c' "default" {| rule_From := [IPBlockPeer "10.42.0.0/32"; IPBlockPeer "10.42.1.0/32";
                                           IPBlockPeer "fd00:42::/128"]; rule_Ports := [] |}.
Proof.
  destruct (removed_node_stays_admitted before leaving) as (c' & _ & Hn & Hall).
  - intros n Hn np Hnp. discriminate Hnp.
  - reflexivity.
  - reflexivity.
  - vm_compute. reflexivity.
  - exists c'. split.
    + rewrite Hn. vm_compute. reflexivity.
    + inversion_clear Hall as [|? ? _ Hall']. inversion_clear Hall' as [|? ? Hd _].
      match type of Hd with has_rule _ _ ?r =>
        let v := eval vm_compute in (rule_From r) in
        assert (rule_From r = v) as Hv by (vm_compute; reflexivity) end.
      exact Hd.
Defined.

Definition alone : controller :=
  Ctl (SimpleKube.State ∅ ∅ ∅ [sample_node "n2" "10.42.1.0/24"]) ["n2"] false [].

Lemma policy_follows_nodes_witness :
  admits (handle (Some (sample_node "n2" "10.42.1.0/24")) (k_cluster alone)).2
         [sample_node "n2" "10.42.1.0/24"].
Proof.
  set (c := (handle (Some (sample_node "n2" "10.42.1.0/24")) (k_cluster alone)).2).
  destruct (policy_follows_nodes alone (Ctl c [] true [])) as [_ Hadm].
  - apply rtc_once. eapply (node_handled "n2" (sample_node "n2" "10.42.1.0/24")).
    + by exists [], [].
    + vm_compute. reflexivity.
    + reflexivity.
    + vm_compute. reflexivity.
  - intros n Hn np Hnp. discriminate Hnp.
  - reflexivity.
  - apply Hadm; [reflexivity|]. intros key Hk. by apply elem_of_nil in Hk.
Defined.
