(* ===== verification/InitExecutor.v ===== *)
(** * InitExecutor: how a node sets up its executor (pkg/rke2, Linux)

    rke2_linux.go ([initExecutor], [initStaticPodExecutor]), rke2.go (profiles, the
    force-restart file) and pkg/cli/defaults.  A CLI context is the functions its accessors compute.
    The answers of the metadata service and of hostname(1), kine's
    [SchemeAndAddress], and the orders of map iterations are arguments. *)

From S2P Require Import Prelude GoStrings GoPath GoFS GoTree Images PodConfig PodSpec PodTemplate.
From S2P Require Import ManifestFile StaticPod Cri Sandbox Cleanup CisHooks.

(** [cli.Context]: [String], [Bool] and [IsSet]. *)
Record Flags := {
  flag_String : string → string;
  flag_Bool : string → bool;
  flag_IsSet : string → bool
}.

(** [clx.Set(name, value)] of a string flag. *)
Definition flag_Set (name value : string) (clx : Flags) : Flags := {|
  flag_String := λ n, if decide (n = name) then value else flag_String clx n;
  flag_Bool := flag_Bool clx;
  flag_IsSet := λ n, bool_decide (n = name) || flag_IsSet clx n
|}.

(** The fields of k3s's [cmds.ServerConfig] and [cmds.AgentConfig] that are
    written here, and whether the etcd driver is registered. *)
Record K3sConfig := {
  DatastoreEndpoint : string;
  DisableETCD : bool;
  ClusterInit : bool;
  KineTLS : bool;
  etcdDriver : bool;
  DisableNPC : bool;
  FlannelBackend : string;
  AdvertisePort : Z;
  SupervisorPort : Z;
  HTTPSPort : Z;
  APIServerPort : Z;
  APIServerBindAddress : string;
  ExtraAPIArgs : list string;
  ExtraKubeletArgs : list string;
  ContainerRuntimeEndpoint : string
}.

(** [rke2cli.Config] without the parts that go into the pod templates. *)
Record NodeConfig := {
  nc_Template : CLIConfig;
  nc_CloudProviderConfig : string;
  nc_CloudProviderName : string;
  nc_CloudProviderMetadataHostname : bool;
  nc_KubeletPath : string;
  nc_IngressController : list string
}.

Definition ProfileCIS := "cis".
Definition ProfileETCD := "etcd".

Definition flag_isCISMode (clx : Flags) : bool := bool_decide (flag_String clx "profile" = ProfileCIS).

Definition profileMode (clx : Flags) : ProfileMode :=
  if decide (flag_String clx "profile" = ProfileCIS) then ProfileModeCIS
  else if decide (flag_String clx "profile" = ProfileETCD) then ProfileModeETCD
  else ProfileModeNone.

Definition ForceRestartFile (dataDir : string) : string := filepath_Join [dataDir; "force-restart"].

(** ** pkg/cli/defaults *)

Definition PrependToStringSlice (ss values : list string) : list string := values ++ ss.

Definition createDataDir (dataDir : string) : io unit :=
  if decide (dataDir = "") then mret ()
  else io_with_message ("failed to create directory " +:+ dataDir) (os_MkdirAll dataDir).

Definition set_defaults (logFile : string) (k : K3sConfig) : K3sConfig := {|
  DatastoreEndpoint := DatastoreEndpoint k; DisableETCD := DisableETCD k; ClusterInit := true;
  KineTLS := KineTLS k; etcdDriver := etcdDriver k; DisableNPC := true; FlannelBackend := "none";
  AdvertisePort := 6443; SupervisorPort := 9345; HTTPSPort := 6443; APIServerPort := 6443;
  APIServerBindAddress := "0.0.0.0";
  ExtraAPIArgs := PrependToStringSlice (ExtraAPIArgs k) ["enable-admission-plugins=NodeRestriction"];
  ExtraKubeletArgs := PrependToStringSlice (ExtraKubeletArgs k)
    ["stderrthreshold=FATAL"; "log-file-max-size=50"; "alsologtostderr=false"; "logtostderr=false";
     "log-file=" +:+ logFile];
  ContainerRuntimeEndpoint := ContainerRuntimeEndpoint k |}.

Definition Set_defaults (dataDir : string) (k : K3sConfig) : io K3sConfig :=
  io_with_message ("failed to create directory " +:+ dataDir) (createDataDir dataDir);;
  let logsDir := filepath_Join [dataDir; "agent"; "logs"] in
  io_with_message ("failed to create directory " +:+ logsDir) (os_MkdirAll logsDir);;
  mret (set_defaults (filepath_Join [logsDir; "kubelet.log"]) k).

(** ** initStaticPodExecutor *)

Section init.
Context `{NameApi} `{CRI} (defaults : Defaults).

(** What the process asks of the world outside the program. *)
Record Answers := {
  SchemeAndAddress : string → string * string;
  metadata_hostname : string;
  host_fqdn : result string;
  cri_env : nat → runtime → runtime;
  cri_polls : nat;
  cri_woken : wake;
  item_order : gmap string bool → list (string * bool);
  resource_order : list (Component * ResourceKind);
  probe_order : list (Component * ProbeType * Threshold)
}.

Definition set_datastore (disableEtcd clusterInit kineTLS driver : bool) (k : K3sConfig) : K3sConfig := {|
  DatastoreEndpoint := DatastoreEndpoint k; DisableETCD := disableEtcd; ClusterInit := clusterInit;
  KineTLS := kineTLS; etcdDriver := driver; DisableNPC := DisableNPC k;
  FlannelBackend := FlannelBackend k; AdvertisePort := AdvertisePort k;
  SupervisorPort := SupervisorPort k; HTTPSPort := HTTPSPort k; APIServerPort := APIServerPort k;
  APIServerBindAddress := APIServerBindAddress k; ExtraAPIArgs := ExtraAPIArgs k;
  ExtraKubeletArgs := ExtraKubeletArgs k; ContainerRuntimeEndpoint := ContainerRuntimeEndpoint k |}.

(** Which datastore is used: the new configuration, whether etcd is disabled,
    and whether the database is external. *)
Definition datastore (ans : Answers) (clx : Flags) (k : K3sConfig) : K3sConfig * bool * bool :=
  let disableEtcd := flag_Bool clx "disable-etcd" in
  if decide (DatastoreEndpoint k ≠ "" ∨ (disableEtcd = true ∧ flag_IsSet clx "server" = false)) then
    let scheme := fst (SchemeAndAddress ans (DatastoreEndpoint k)) in
    let externalDatabase := bool_decide (scheme ∉ ["http"; "https"; "unix"; "unixs"]) in
    (set_datastore false false (externalDatabase || KineTLS k) (etcdDriver k) k, true, externalDatabase)
  else (set_datastore (DisableETCD k) (ClusterInit k) (KineTLS k) true k, disableEtcd, false).

(** The force-restart file: whether it was there; it is removed. *)
Definition check_force_restart (dataDir : string) : io bool :=
  r ← attempt (os_Stat (ForceRestartFile dataDir));
  match r with
  | Err e => if os_IsNotExist e then mret false else io_fail e
  | Ok _ => attempt (os_Remove (ForceRestartFile dataDir));; mret true
  end.

(** A server that should run etcd but has no database name is rejoining. *)
Definition check_rejoin (clx : Flags) (isServer : bool) (dataDir : string) : io bool :=
  r ← attempt (os_Stat (etcdNameFile dataDir));
  mret match r with
       | Err e => os_IsNotExist e && isServer && negb (flag_Bool clx "disable-etcd") &&
                  negb (flag_IsSet clx "datastore-endpoint")
       | Ok _ => false
       end.

Definition mark_force_restart (restorePath dataDir : string) : io unit :=
  if decide (restorePath ≠ "") then
    os_MkdirAll dataDir;; os_WriteFile (ForceRestartFile dataDir) "" 384
  else mret ().

(** The cloud provider, and whether the host name comes from the metadata
    service. *)
Definition cloud_provider (cfg : NodeConfig) : result (option CloudProviderConfig * bool) :=
  if decide (nc_CloudProviderConfig cfg ≠ "" ∧ nc_CloudProviderName cfg = "") then
    Err (ErrMsg "--cloud-provider-config requires --cloud-provider-name to be provided")
  else if decide (nc_CloudProviderName cfg = "") then
    Ok (None, nc_CloudProviderMetadataHostname cfg)
  else if decide (nc_CloudProviderName cfg = "aws") then Ok (None, true)
  else Ok (Some {| cp_Name := nc_CloudProviderName cfg; cp_Path := nc_CloudProviderConfig cfg |},
           nc_CloudProviderMetadataHostname cfg).

(** [clx] with the node name of the metadata service, or of the host. *)
Definition node_name (ans : Answers) (metadata : bool) (clx : Flags) : result Flags :=
  if metadata then
    if decide (metadata_hostname ans = "") then
      fqdn ← host_fqdn ans; Ok (flag_Set "node-name" fqdn clx)
    else Ok (flag_Set "node-name" (metadata_hostname ans) clx)
  else Ok clx.

Definition disabled_items (clx : Flags) (isServer forceRestart : bool) : gmap string bool :=
  let all := negb isServer || forceRestart in
  {[ "cloud-controller-manager" := all || flag_Bool clx "disable-cloud-controller";
     "etcd" := all || flag_Bool clx "disable-etcd" || flag_IsSet clx "datastore-endpoint";
     "kube-apiserver" := all || flag_Bool clx "disable-apiserver";
     "kube-controller-manager" := all || flag_Bool clx "disable-controller-manager";
     "kube-scheduler" := all || flag_Bool clx "disable-scheduler" ]}.

(** The pod security configuration file, written unless the user gave one. *)
Definition psa_file (clx : Flags) : io string :=
  let file := flag_String clx "pod-security-admission-config-file" in
  if decide (file = "") then setPSAs (flag_isCISMode clx);; mret defaultPSAConfigFile
  else mret file.

Definition runtime_endpoint (k : K3sConfig) : string :=
  if decide (ContainerRuntimeEndpoint k = "") then ContainerdSock else ContainerRuntimeEndpoint k.

(** The executor as it is returned: the part its handlers read, and the rest. *)
Record Executor := {
  ex_Config : StaticPodConfig;
  ex_KubeletPath : string;
  ex_RuntimeEndpoint : string;
  ex_IsServer : bool;
  ex_Prime : bool;
  ex_IngressController : list string
}.

(** The executor, and the settings that change on the way. *)
Definition initStaticPodExecutor (ans : Answers) (cfg : NodeConfig) (isServer : bool)
    (clx : Flags) (k : K3sConfig) : act (Executor * Flags * K3sConfig) :=
  let '(k, disableEtcd, externalDatabase) := datastore ans clx k in
  let dataDir := flag_String clx "data-dir" in
  let agentManifestsDir := filepath_Join [dataDir; "agent"; DefaultPodManifestPath] in
  forceRestart ← on_fs (check_force_restart dataDir);
  rejoin ← on_fs (check_rejoin clx isServer dataDir);
  let clusterReset := flag_Bool clx "cluster-reset" || rejoin in
  on_fs (mark_force_restart (flag_String clx "cluster-reset-restore-path") dataDir);;
  cp ← lift_act (cloud_provider cfg);
  let '(cpConfig, metadata) := cp in
  clx ← lift_act (node_name ans metadata clx);
  templateConfig ← act_with_message "failed to parse pod template config"
    (lift_act (NewConfigFromCLI defaults (resource_order ans) (probe_order ans) dataDir (nc_Template cfg)));
  podSecurityConfigFile ← on_fs (psa_file clx);
  RemoveDisabledPods (cri_env ans) (cri_polls ans) (cri_woken ans) (item_order ans) dataDir
    (runtime_endpoint k) (disabled_items clx isServer forceRestart) clusterReset;;
  mret ({| ex_Config := {| x_Config := templateConfig;
                           x_CloudProvider := cpConfig;
                           x_ManifestsDir := agentManifestsDir;
                           x_AuditPolicyFile := flag_String clx "audit-policy-file";
                           x_PSAConfigFile := podSecurityConfigFile;
                           x_ProfileMode := profileMode clx;
                           x_DisableETCD := disableEtcd;
                           x_ExternalDatabase := externalDatabase |};
           ex_KubeletPath := if decide (nc_KubeletPath cfg = "") then "kubelet" else nc_KubeletPath cfg;
           ex_RuntimeEndpoint := runtime_endpoint k;
           ex_IsServer := isServer;
           ex_Prime := flag_Bool clx "prime";
           ex_IngressController := nc_IngressController cfg |}, clx, k).

Definition set_registry (r : string) (cfg : NodeConfig) : NodeConfig :=
  let t := nc_Template cfg in
  let i := cli_Images t in
  {| nc_Template :=
       {| cli_Images :=
            {| oc_SystemDefaultRegistry := r; oc_KubeAPIServer := oc_KubeAPIServer i;
               oc_KubeControllerManager := oc_KubeControllerManager i;
               oc_KubeProxy := oc_KubeProxy i; oc_KubeScheduler := oc_KubeScheduler i;
               oc_Pause := oc_Pause i; oc_Runtime := oc_Runtime i; oc_ETCD := oc_ETCD i;
               oc_CloudControllerManager := oc_CloudControllerManager i |};
          cli_Requests := cli_Requests t; cli_Limits := cli_Limits t;
          cli_ProbeConf := cli_ProbeConf t; cli_ExtraEnv := cli_ExtraEnv t;
          cli_ExtraMounts := cli_ExtraMounts t |};
     nc_CloudProviderConfig := nc_CloudProviderConfig cfg;
     nc_CloudProviderName := nc_CloudProviderName cfg;
     nc_CloudProviderMetadataHostname := nc_CloudProviderMetadataHostname cfg;
     nc_KubeletPath := nc_KubeletPath cfg;
     nc_IngressController := nc_IngressController cfg |}.

Definition initExecutor (ans : Answers) (cfg : NodeConfig) (isServer : bool) (clx : Flags)
    (k : K3sConfig) : act (Executor * Flags * K3sConfig) :=
  let '(cfg, clx) :=
    if decide (flag_IsSet clx "system-default-registry" = false ∧ flag_Bool clx "prime" = true)
    then (set_registry (PrimeRegistry defaults) cfg,
          flag_Set "system-default-registry" (PrimeRegistry defaults) clx)
    else (set_registry (flag_String clx "system-default-registry") cfg, clx) in
  k ← on_fs (Set_defaults (flag_String clx "data-dir") k);
  initStaticPodExecutor ans cfg isServer clx k.
End init.

(** ** Which manifests survive the start *)

Section disabled.
Context `{NameApi} `{CRI} (defaults : Defaults).
Implicit Types (clx : Flags) (c : string).

Lemma act_with_message_Ok {A} msg (m : act A) flt w a w' :
  act_with_message msg m flt w = (Ok a, w') ↔ m flt w = (Ok a, w').
Proof.
  unfold act_with_message. destruct (m flt w) as [[]]; simpl; split; intros; by simplify_eq.
Qed.

Lemma on_fs_Ok {A} (m : io A) flt w a w' :
  on_fs m flt w = (Ok a, w') → ∃ s, m flt (w_fs w) = (Ok a, s) ∧ w_fs w' = s.
Proof. unfold on_fs. destruct (m flt (w_fs w)) as [r s]. intros. simplify_eq. eauto. Qed.

Lemma check_force_restart_no_faults dataDir s b s' :
  check_force_restart dataDir no_faults s = (Ok b, s') →
  (b = true ↔ is_Ok (stat_at (nodes s) (ForceRestartFile dataDir)) = true) ∧
  (b = false → nodes s' = nodes s).
Proof.
  unfold check_force_restart, attempt, mbind, io_bind.
  destruct (os_Stat_run (ForceRestartFile dataDir) s) as (s1 & -> & N).
  destruct (stat_at _ _) as [nd|e]; simpl.
  - destruct (os_Remove _ _ _) as [r s2]. by intros [= <- <-].
  - destruct (os_IsNotExist e); [|done]. by intros [= <- <-].
Qed.

Lemma check_rejoin_no_faults clx isServer dataDir s b s' :
  check_rejoin clx isServer dataDir no_faults s = (Ok b, s') →
  b = missing_at (nodes s) (etcdNameFile dataDir) && isServer &&
      negb (flag_Bool clx "disable-etcd") && negb (flag_IsSet clx "datastore-endpoint").
Proof.
  unfold check_rejoin, attempt, mbind, io_bind, missing_at.
  destruct (os_Stat_run (etcdNameFile dataDir) s) as (s1 & -> & N).
  destruct (stat_at _ _) as [nd|e]; by intros [= <- <-].
Qed.

(** The components that must not run on the node: all of them on an agent or
    after a forced restart; else those disabled by a flag, etcd with an external
    datastore, and etcd and kube-apiserver on a cluster reset or when a server
    that runs etcd has lost its database name. *)
Definition must_not_run clx (isServer : bool) (dataDir : string) (t : tree) c : Prop :=
  c ∈ ["cloud-controller-manager"; "etcd"; "kube-apiserver"; "kube-controller-manager";
       "kube-scheduler"] ∧
  (isServer = false ∨ plain_at t (ForceRestartFile dataDir) ∨
   c = "cloud-controller-manager" ∧ flag_Bool clx "disable-cloud-controller" = true ∨
   c = "etcd" ∧ (flag_Bool clx "disable-etcd" = true ∨ flag_IsSet clx "datastore-endpoint" = true) ∨
   c = "kube-apiserver" ∧ flag_Bool clx "disable-apiserver" = true ∨
   c = "kube-controller-manager" ∧ flag_Bool clx "disable-controller-manager" = true ∨
   c = "kube-scheduler" ∧ flag_Bool clx "disable-scheduler" = true ∨
   c ∈ ["etcd"; "kube-apiserver"] ∧
     (flag_Bool clx "cluster-reset" = true ∨
      t !! Clean (etcdNameFile dataDir) = None ∧ flag_Bool clx "disable-etcd" = false ∧
        flag_IsSet clx "datastore-endpoint" = false)).

Lemma node_name_flags (ans : Answers) metadata clx clx' :
  node_name ans metadata clx = Ok clx' →
  flag_Bool clx' = flag_Bool clx ∧
  ∀ n, n ≠ "node-name" → flag_IsSet clx' n = flag_IsSet clx n.
Proof.
  unfold node_name. destruct metadata; [|by intros [= <-]].
  assert (∀ v, flag_Bool (flag_Set "node-name" v clx) = flag_Bool clx ∧
    ∀ n, n ≠ "node-name" → flag_IsSet (flag_Set "node-name" v clx) n = flag_IsSet clx n) as Hset.
  { intros v. split; [done|]. intros n Hn. simpl. by rewrite bool_decide_eq_false_2. }
  case_decide; [|by intros [= <-]].
  destruct (host_fqdn ans); [|done]. by intros [= <-].
Qed.

(** What the calls of a successful [initStaticPodExecutor] returned. *)
Lemma initStaticPodExecutor_parts ans cfg isServer clx k flt w ex clx' k' w' :
  initStaticPodExecutor defaults ans cfg isServer clx k flt w = (Ok (ex, clx', k'), w') →
  let dataDir := flag_String clx "data-dir" in
  ∃ forceRestart rejoin cp metadata templateConfig psa s1 s2 w1 w2,
    check_force_restart dataDir flt (w_fs w) = (Ok forceRestart, s1) ∧
    check_rejoin clx isServer dataDir flt s1 = (Ok rejoin, s2) ∧
    cloud_provider cfg = Ok (cp, metadata) ∧ node_name ans metadata clx = Ok clx' ∧
    NewConfigFromCLI defaults (resource_order ans) (probe_order ans) dataDir (nc_Template cfg)
      = Ok templateConfig ∧
    psa_file clx' flt (w_fs w1) = (Ok psa, w_fs w2) ∧
    RemoveDisabledPods (cri_env ans) (cri_polls ans) (cri_woken ans) (item_order ans) dataDir
      (runtime_endpoint k') (disabled_items clx' isServer forceRestart)
      (flag_Bool clx "cluster-reset" || rejoin) flt w2 = (Ok (), w') ∧
    ex_IsServer ex = isServer ∧
    ex_Config ex = {| x_Config := templateConfig; x_CloudProvider := cp;
                      x_ManifestsDir := filepath_Join [dataDir; "agent"; DefaultPodManifestPath];
                      x_AuditPolicyFile := flag_String clx' "audit-policy-file";
                      x_PSAConfigFile := psa; x_ProfileMode := profileMode clx';
                      x_DisableETCD := (datastore ans clx k).1.2;
                      x_ExternalDatabase := (datastore ans clx k).2 |}.
Proof.
  unfold initStaticPodExecutor. destruct (datastore ans clx k) as [[k1 de] ed].
  intros (fr & w1 & (s1 & E1 & <-)%on_fs_Ok & E)%act_bind_Ok.
  apply act_bind_Ok in E as (rj & w2 & (s2 & E2 & <-)%on_fs_Ok & E).
  apply act_bind_Ok in E as (u & w3 & _ & E).
  apply act_bind_Ok in E as ([cp md] & w4 & E4 & E).
  apply act_bind_Ok in E as (clx1 & w5 & E5 & E).
  apply act_bind_Ok in E as (tc & w6 & E6 & E).
  apply act_bind_Ok in E as (psa & w7 & (s7 & E7 & <-)%on_fs_Ok & E).
  apply act_bind_Ok in E as ([] & w8 & E8 & E). injection E as <- <- <- ->.
  apply act_with_message_Ok in E6. unfold lift_act in E4, E5, E6.
  injection E4 as E4 _. injection E5 as E5 _. injection E6 as E6 _.
  exists fr, rj, cp, md, tc, psa, (w_fs w1), (w_fs w2), w6, w7. by split_and!.
Qed.

(** The flag that disables a component. *)
Definition disabled_by clx c : bool :=
  if decide (c = "cloud-controller-manager") then flag_Bool clx "disable-cloud-controller"
  else if decide (c = "etcd") then flag_Bool clx "disable-etcd" || flag_IsSet clx "datastore-endpoint"
  else if decide (c = "kube-apiserver") then flag_Bool clx "disable-apiserver"
  else if decide (c = "kube-controller-manager") then flag_Bool clx "disable-controller-manager"
  else flag_Bool clx "disable-scheduler".

Lemma disabled_items_lookup clx isServer forceRestart reset c :
  c ∈ ["cloud-controller-manager"; "etcd"; "kube-apiserver"; "kube-controller-manager";
       "kube-scheduler"] →
  force_disabled reset (disabled_items clx isServer forceRestart) !! c
  = Some ((negb isServer || forceRestart || disabled_by clx c) ||
          (reset && bool_decide (c ∈ ["etcd"; "kube-apiserver"]))).
Proof.
  rewrite !elem_of_cons, elem_of_nil.
  intros [->|[->|[->|[->|[->|[]]]]]]; destruct reset; vm_compute; destruct isServer, forceRestart;
    repeat match goal with |- context [if ?b then _ else _] => destruct b end; reflexivity.
Qed.

Lemma must_not_run_disabled clx isServer dataDir t c :
  must_not_run clx isServer dataDir t c →
  isServer = false ∨ plain_at t (ForceRestartFile dataDir) ∨ disabled_by clx c = true ∨
  c ∈ ["etcd"; "kube-apiserver"] ∧
    (flag_Bool clx "cluster-reset" = true ∨
     t !! Clean (etcdNameFile dataDir) = None ∧ flag_Bool clx "disable-etcd" = false ∧
       flag_IsSet clx "datastore-endpoint" = false).
Proof.
  intros [_ Hwhy]. destruct Hwhy as [?|[?|[[-> ?]|[[-> ?]|[[-> ?]|[[-> ?]|[[-> ?]|?]]]]]]]; auto;
    right; right; left; unfold disabled_by; repeat case_decide; try done.
  rewrite orb_true_iff. done.
Qed.

Lemma disables_removes ans cfg isServer clx k w r w' c :
  (∀ m, item_order ans m ≡ₚ map_to_list m) →
  initStaticPodExecutor defaults ans cfg isServer clx k no_faults w = (Ok r, w') →
  let dataDir := flag_String clx "data-dir" in
  must_not_run clx isServer dataDir (nodes (w_fs w)) c →
  nodes (w_fs w') !! Clean (manifest_file (PodManifestsDir dataDir) c) = None ∨
  (∃ target, nodes (w_fs w') !! Clean (manifest_file (PodManifestsDir dataDir) c) = Some (NLink target)) ∨
  missing_at (nodes (w_fs w')) (binDir dataDir) = true ∨
  missing_at (nodes (w_fs w')) (PodManifestsDir dataDir) = true.
Proof.
  intros Horder E dataDir Hc. destruct r as [[ex clx'] k'].
  destruct (initStaticPodExecutor_parts _ _ _ _ _ _ _ _ _ _ _ E)
    as (fr & rj & cp & md & tc & psa & s1 & s2 & w0 & w1 & Efr & Erj & _ & Hname & _ & _ & Erm & _).
  apply node_name_flags in Hname as [Hb Hs]. specialize (Hs "datastore-endpoint" ltac:(done)).
  fold dataDir in Efr, Erj, Erm.
  apply check_force_restart_no_faults in Efr as [Hfr Hsame].
  apply check_rejoin_no_faults in Erj.
  pose proof (RemoveDisabledPods_final (cri_env ans) (cri_polls ans) (cri_woken ans) (item_order ans)
    dataDir (runtime_endpoint k') (disabled_items clx' isServer fr) (flag_Bool clx "cluster-reset" || rj) w1 c Horder)
    as Hfin. rewrite Erm in Hfin. apply Hfin. clear Hfin Erm E.
  rewrite disabled_items_lookup by apply Hc. f_equal.
  assert (disabled_by clx' c = disabled_by clx c) as -> by (unfold disabled_by; by rewrite Hb, Hs).
  apply must_not_run_disabled in Hc as [->|[Hforce|[->|[Hin Hwhy]]]].
  - done.
  - destruct Hforce as (n & Hn & Hlink).
    rewrite (stat_at_plain _ _ _ Hn Hlink) in Hfr. by rewrite (proj2 Hfr eq_refl), orb_true_r.
  - by rewrite !orb_true_r.
  - rewrite (bool_decide_eq_true_2 _ Hin), andb_true_r.
    destruct isServer; [|done]. destruct fr; [done|].
    destruct Hwhy as [->|(Hname & Hd & Hds)]; [by rewrite orb_true_r|].
    unfold missing_at in Erj. rewrite Hd, Hds, (Hsame eq_refl), stat_at_missing in Erj by done.
    simpl in Erj. subst rj. by rewrite !orb_true_r.
Qed.

(** A start that succeeds while no system call fails leaves on disk no
    manifest of a component that must not run on the node (but for a link to
    nowhere), unless the node is a clean install without a binary or manifest
    directory. *)
Theorem initStaticPodExecutor_disables ans cfg isServer clx k w r w' c :
  (∀ m, item_order ans m ≡ₚ map_to_list m) →
  initStaticPodExecutor defaults ans cfg isServer clx k no_faults w = (Ok r, w') →
  let dataDir := flag_String clx "data-dir" in
  must_not_run clx isServer dataDir (nodes (w_fs w)) c →
  nodes (w_fs w') !! Clean (manifest_file (PodManifestsDir dataDir) c) = None ∨
  (∃ target, nodes (w_fs w') !! Clean (manifest_file (PodManifestsDir dataDir) c) = Some (NLink target)) ∨
  missing_at (nodes (w_fs w')) (binDir dataDir) = true ∨
  missing_at (nodes (w_fs w')) (PodManifestsDir dataDir) = true.
Proof. apply disables_removes. Qed.
End disabled.

#[local] Existing Instance SimpleName.api.
#[local] Existing Instance SimpleLib.lib.
#[local] Existing Instance SimpleCRI.cri.

(** An agent on a node that was a server: the manifest of etcd is still there. *)
Definition sample_answers : Answers := {|
  SchemeAndAddress e := (e, "");
  metadata_hostname := "";
  host_fqdn := Ok "node1";
  cri_env _ r := r;
  cri_polls := 3;
  cri_woken := WakeTerminate;
  item_order := map_to_list;
  resource_order := sample_resource_order;
  probe_order := sample_probe_order
|}.

Definition sample_flags : Flags := {|
  flag_String n := if decide (n = "data-dir") then "/d" else "";
  flag_Bool _ := false;
  flag_IsSet _ := false
|}.

Definition sample_k3s : K3sConfig := {|
  DatastoreEndpoint := ""; DisableETCD := false; ClusterInit := true; KineTLS := false;
  etcdDriver := false; DisableNPC := true; FlannelBackend := "none"; AdvertisePort := 6443;
  SupervisorPort := 9345; HTTPSPort := 6443; APIServerPort := 6443; APIServerBindAddress := "0.0.0.0";
  ExtraAPIArgs := []; ExtraKubeletArgs := []; ContainerRuntimeEndpoint := "" |}.

Definition sample_node_config : NodeConfig := {|
  nc_Template := sample_cli; nc_CloudProviderConfig := ""; nc_CloudProviderName := "";
  nc_CloudProviderMetadataHostname := false; nc_KubeletPath := "";
  nc_IngressController := [] |}.

Definition sample_start := initStaticPodExecutor build_defaults sample_answers sample_node_config false
  sample_flags sample_k3s no_faults sample_reset.

Lemma initStaticPodExecutor_disables_witness :
  is_Ok sample_start.1 = true ∧
  (nodes (w_fs sample_start.2) !! Clean (manifest_file (PodManifestsDir "/d") "etcd") = None ∨
   (∃ target, nodes (w_fs sample_start.2) !! Clean (manifest_file (PodManifestsDir "/d") "etcd")
              = Some (NLink target)) ∨
   missing_at (nodes (w_fs sample_start.2)) (binDir "/d") = true ∨
   missing_at (nodes (w_fs sample_start.2)) (PodManifestsDir "/d") = true).
Proof.
  assert (is_Ok sample_start.1 = true) as Hok by (vm_compute; reflexivity).
  split; [exact Hok|]. destruct sample_start as [[r|e] w'] eqn:E; [|discriminate Hok].
  apply (initStaticPodExecutor_disables build_defaults sample_answers sample_node_config false
    sample_flags sample_k3s sample_reset r w' "etcd" map_to_list_order E).
  split; [apply (bool_decide_unpack _); vm_compute; exact I|left; reflexivity].
Defined.
