(* ===== verification/NodeStart.v ===== *)
(** * NodeStart: from the start of a node to its manifests

    [InitExecutor] decides what must not run and removes its manifests;
    [ExecutorSteps] interleaves what k3s asks of the executor afterwards.  Here
    the two are put together: what the kubelet can find of a component that had
    to be removed, at any moment of the life of the process. *)

From S2P Require Import Prelude GoStrings GoPath GoFS GoTree Images PodConfig PodSpec PodTemplate.
From S2P Require Import ManifestFile StaticPod ExecutorSteps Cri Sandbox Cleanup CisHooks InitExecutor.

(** ** Runs in which k3s does not ask for a component *)

(** The component a call of k3s is about. *)
Definition component {H : PodLib} {HE : ExecLib} (c : call) : string :=
  match c with
  | CallAPIServer _ _ => "kube-apiserver"
  | CallScheduler _ => "kube-scheduler"
  | CallControllerManager _ => "kube-controller-manager"
  | CallCloudControllerManager _ => "cloud-controller-manager"
  | CallKubeProxy _ => "kube-proxy"
  | CallETCD _ _ => "etcd"
  end.

Section uncalled.
Context `{NameApi} `{ExecLib} (defaults : Defaults) (g : Globals).

(** Nothing of the component is waiting or has been written. *)
Definition untouched (command : string) (x : exec) : Prop :=
  Forall (λ cs, Command cs.2 ≠ command) (e_pending x) ∧ Forall (λ w, w.1 ≠ command) (e_written x).

Lemma untouched_defer command ch m flt x :
  (∀ spec s', m flt (e_fs x) = (Ok spec, s') → Command spec ≠ command) →
  untouched command x → untouched command (defer ch m flt x).
Proof.
  intros Hm [Hp Hw]. unfold defer. destruct (m flt (e_fs x)) as [[spec|e] f]; [|by split].
  split; [|done]. constructor; [by eapply Hm|done].
Qed.

Lemma untouched_write_now command c m flt x :
  c ≠ command → untouched command x → untouched command (write_now c m flt x).
Proof. intros Hc [Hp Hw]. unfold write_now. destruct (m flt (e_fs x)). split; [done|by constructor]. Qed.

Lemma untouched_step command x x' :
  step_by defaults g (λ c, component c ≠ command) x x' → untouched command x → untouched command x'.
Proof.
  intros Hs Hx. destruct Hs as [c flt x Hc _ _|ch x _ _|ch spec pre post flt x r f _ _ Hpend _ _]; [|done|].
  - destruct c; cbn [do_call component] in *.
    + destruct (APIServer _ _ _ _ _ _ _) as [[[cfg [spec|e]]|e] f] eqn:E; [|destruct e; exact Hx|exact Hx].
      destruct Hx as [Hp Hw]. split; [|done]. constructor; [|done].
      apply APIServer_Command in E. simpl. by rewrite E.
    + apply untouched_defer; [|done]. intros spec s' E%Scheduler_Command. by rewrite E.
    + apply untouched_defer; [|done]. intros spec s' E%ControllerManager_Command. by rewrite E.
    + apply untouched_defer; [|done]. intros spec s' E%CloudControllerManager_Command. by rewrite E.
    + by apply untouched_write_now.
    + by apply untouched_write_now.
  - destruct Hx as [Hp Hw]. rewrite Hpend in Hp. apply Forall_app in Hp as [Hp1 Hp2].
    apply Forall_cons in Hp2 as [Hc Hp2]. split; [by apply Forall_app|]. by constructor.
Qed.

Lemma untouched_steps command x x' :
  rtc (step_by defaults g (λ c, component c ≠ command)) x x' →
  untouched command x → untouched command x' ∧ steps defaults g x x'.
Proof.
  induction 1 as [x|x y z Hxy _ IH]; [split; [done|apply rtc_refl]|].
  intros Hx. destruct (IH (untouched_step _ _ _ Hxy Hx)) as [Hz Hyz]. split; [done|].
  eapply rtc_l; [by eapply step_by_step|done].
Qed.

(** Without a call for a component, a manifest that is not there stays away, at
    every moment. *)
Lemma absent_until_called ds (Hds : Forall (λ c, simple c = true) ds)
    (Hconf : ∀ args extra, outside (manifests ds) (ToConfigFile args extra)) command x x' :
  initial x → layout ds (e_cfg x) → nodes (e_fs x) !! ExecutorSteps.manifest_file ds command = None →
  rtc (step_by defaults g (λ c, component c ≠ command)) x x' →
  leads (λ t, t !! ExecutorSteps.manifest_file ds command = None) (e_fs x) (e_fs x').
Proof.
  intros (_ & Hp & Hw & _) Hl Habs Hs.
  destruct (untouched_steps command x x' Hs) as [[_ Hwx] Hsteps].
  { unfold untouched. by rewrite Hp, Hw. }
  eapply (steps_leads defaults g ds Hds Hconf _ _ x x' (e_written x') (absent_stable ds command));
    [done|by rewrite Hw, app_nil_r|done|done| |done].
  unfold ordered. by rewrite Hp, Hw.
Qed.
End uncalled.

(** ** The start *)

Section start.
Context `{NameApi} `{CRI} (defaults : Defaults).

Lemma node_name_strings (ans : Answers) metadata clx clx' n :
  node_name ans metadata clx = Ok clx' → n ≠ "node-name" → flag_String clx' n = flag_String clx n.
Proof.
  unfold node_name. destruct metadata; [|by intros [= <-]].
  intros E Hn. case_decide; [destruct (host_fqdn ans); [|done]|]; injection E as <-;
    simpl; by rewrite decide_False.
Qed.

Lemma NewConfigFromCLI_images ro po dataDir cfg c :
  NewConfigFromCLI defaults ro po dataDir cfg = Ok c →
  cfg_ImagesDir c = filepath_Join [dataDir; "agent"; "images"].
Proof.
  unfold NewConfigFromCLI. intros E. repeat (apply bind_Ok in E as (? & _ & E)). by injection E as <-.
Qed.

(** Where the executor that a start returns keeps its files. *)
Lemma initStaticPodExecutor_paths ans cfg isServer clx k flt w ex clx' k' w' :
  initStaticPodExecutor defaults ans cfg isServer clx k flt w = (Ok (ex, clx', k'), w') →
  let dataDir := flag_String clx "data-dir" in
  cfg_ImagesDir (x_Config (ex_Config ex)) = filepath_Join [dataDir; "agent"; "images"] ∧
  x_ManifestsDir (ex_Config ex) = PodManifestsDir dataDir ∧
  x_AuditPolicyFile (ex_Config ex) = flag_String clx "audit-policy-file".
Proof.
  intros (fr & rj & cp & md & tc & psa & s1 & s2 & w1 & w2 & _ & _ & _ & Hname & Htc & _ & _ & _ & ->)
    %initStaticPodExecutor_parts. cbn.
  split_and!; [by eapply NewConfigFromCLI_images|done|by eapply node_name_strings].
Qed.

(** The flags a start leaves, and what the executor knows of the profile. *)
Lemma initStaticPodExecutor_flags ans cfg isServer clx k flt w ex clx' k' w' :
  initStaticPodExecutor defaults ans cfg isServer clx k flt w = (Ok (ex, clx', k'), w') →
  flag_Bool clx' = flag_Bool clx ∧
  (∀ n, n ≠ "node-name" → flag_String clx' n = flag_String clx n) ∧
  x_ProfileMode (ex_Config ex) = profileMode clx ∧ ex_IsServer ex = isServer.
Proof.
  intros (fr & rj & cp & md & tc & psa & s1 & s2 & w1 & w2 & _ & _ & _ & Hname & _ & _ & _ & Hs & ->)
    %initStaticPodExecutor_parts. cbn.
  pose proof (node_name_strings _ _ _ _ "profile" Hname ltac:(done)) as Hp.
  split_and!; [by apply node_name_flags in Hname as [? _]|intros n; by eapply node_name_strings| |done].
  unfold profileMode. by rewrite Hp.
Qed.

(** The manifests are not where the pod security configuration is. *)
Lemma disabled_component reset clx isServer forceRestart c :
  force_disabled reset (disabled_items clx isServer forceRestart) !! c = Some true →
  c ∈ ["cloud-controller-manager"; "etcd"; "kube-apiserver"; "kube-controller-manager"; "kube-scheduler"].
Proof.
  intros Hc. destruct (decide (c ∈ ["cloud-controller-manager"; "etcd"; "kube-apiserver";
    "kube-controller-manager"; "kube-scheduler"])) as [|Hn]; [done|exfalso].
  rewrite !not_elem_of_cons in Hn. destruct Hn as (? & ? & ? & ? & ? & _).
  unfold force_disabled, disabled_items in Hc.
  destruct reset; rewrite ?lookup_insert_ne, lookup_singleton_ne in Hc by done; done.
Qed.

Lemma psa_elsewhere ds c :
  Forall (λ c, simple c = true) ds → ds ≠ [] →
  c ∈ ["cloud-controller-manager"; "etcd"; "kube-apiserver"; "kube-controller-manager"; "kube-scheduler"] →
  under (Clean (Cleanup.manifest_file (PodManifestsDir (mkpath ds)) c)) (Clean defaultPSAConfigFile) = false.
Proof.
  intros Hds Hne Hc.
  assert (simple (c +:+ ".yaml") = true) as Hs.
  { rewrite !elem_of_cons, elem_of_nil in Hc. by destruct Hc as [->|[->|[->|[->|[->|[]]]]]]. }
  assert (Forall (λ c, simple c = true) (ds ++ ["agent"; DefaultPodManifestPath])) as Hm
    by (apply Forall_app; split; [done|by repeat constructor]).
  unfold Cleanup.manifest_file, PodManifestsDir.
  rewrite filepath_Join_list, filepath_Join_mkpath, Clean_mkpath by
    (done || apply Forall_app; by repeat constructor).
  change (Clean defaultPSAConfigFile) with (mkpath ["etc"; "rancher"; "rke2"; "rke2-pss.yaml"]).
  apply not_true_iff_false. intros Hu. apply under_mkpath in Hu as [r Hr];
    [|by destruct ds|apply Forall_app; by repeat constructor|by repeat constructor].
  destruct ds as [|d [|d' ds]]; [done|done|]. apply (f_equal length) in Hr. revert Hr.
  rewrite !length_app. cbn. lia.
Qed.

(** The pod security configuration is there when a start ends, unless the
    operator has one. *)
Lemma setPSAs_Ok cisMode flt s s' :
  setPSAs cisMode flt s = (Ok (), s') →
  file_content (nodes s') defaultPSAConfigFile
  = Some (if cisMode then restrictedPSAConfig else unrestrictedPSAConfig).
Proof.
  unfold setPSAs. intros (u & s1 & _ & E)%io_bind_Ok.
  set (content := if cisMode then restrictedPSAConfig else unrestrictedPSAConfig).
  assert (os_WriteFile defaultPSAConfigFile content 384 flt s1 = (Ok (), s')) as Hw.
  { subst content. destruct cisMode; unfold io_with_message in E;
      by destruct (os_WriteFile _ _ _ flt s1) as [[[]|] ?]; simplify_eq/=. }
  destruct (os_WriteFile_triple defaultPSAConfigFile content 384 (nodes s1) (λ _, True)) with flt s1
    as [[Hq _] _]; [done|done|]. rewrite Hw in Hq. destruct (Hq eq_refl) as [q Hfile].
  unfold file_content. cbn [snd] in Hfile. by rewrite Hfile.
Qed.

Lemma initStaticPodExecutor_psa ds ans cfg isServer clx k flt w ex clx' k' w' :
  Forall (λ c, simple c = true) ds → ds ≠ [] → flag_String clx "data-dir" = mkpath ds →
  (∀ m, item_order ans m ≡ₚ map_to_list m) →
  initStaticPodExecutor defaults ans cfg isServer clx k flt w = (Ok (ex, clx', k'), w') →
  if decide (flag_String clx "pod-security-admission-config-file" = "") then
    x_PSAConfigFile (ex_Config ex) = defaultPSAConfigFile ∧
    file_content (nodes (w_fs w')) defaultPSAConfigFile
    = Some (if flag_isCISMode clx then restrictedPSAConfig else unrestrictedPSAConfig)
  else x_PSAConfigFile (ex_Config ex) = flag_String clx "pod-security-admission-config-file".
Proof.
  intros Hds Hne Hdir Horder
    (fr & rj & cp & md & tc & psa & s1 & s2 & w1 & w2 & _ & _ & _ & Hname & _ & Hpsa & Hrm & _ & ->)
    %initStaticPodExecutor_parts. cbn [x_PSAConfigFile].
  pose proof (λ n, node_name_strings _ _ _ _ n Hname) as Hs. apply node_name_flags in Hname as [Hb _].
  unfold psa_file, flag_isCISMode in Hpsa. rewrite !Hs in Hpsa by done.
  case_decide; [|by injection Hpsa as -> _].
  apply io_bind_Ok in Hpsa as ([] & s3 & Hpsa%setPSAs_Ok & [= <- ->]). split; [done|].
  unfold flag_isCISMode. rewrite <-Hpsa. unfold file_content.
  pose proof (RemoveDisabledPods_spares (cri_env ans) (cri_polls ans) (cri_woken ans) (item_order ans)
    (flag_String clx "data-dir") (runtime_endpoint k') (disabled_items clx' isServer fr)
    (flag_Bool clx "cluster-reset" || rj) flt w2 (Clean defaultPSAConfigFile) Horder) as Hsame.
  rewrite Hrm in Hsame. cbn [snd] in Hsame. rewrite Hsame; [done|].
  intros c Hc. rewrite Hdir. apply psa_elsewhere; [done..|]. by eapply disabled_component.
Qed.

(** The files and flags that decide what must not run are not changed by what
    [initExecutor] does before [initStaticPodExecutor]. *)
Lemma initExecutor_inv ans cfg isServer clx k flt w r w' :
  initExecutor defaults ans cfg isServer clx k flt w = (Ok r, w') →
  ∃ cfg1 clx1 k1 w1, initStaticPodExecutor defaults ans cfg1 isServer clx1 k1 flt w1 = (Ok r, w') ∧
    cloud_provider cfg1 = cloud_provider cfg ∧
    flag_Bool clx1 = flag_Bool clx ∧
    (∀ n, n ≠ "system-default-registry" →
       flag_String clx1 n = flag_String clx n ∧ flag_IsSet clx1 n = flag_IsSet clx n) ∧
    ∃ k2, Set_defaults (flag_String clx1 "data-dir") k flt (w_fs w) = (Ok k2, w_fs w1).
Proof.
  unfold initExecutor. destruct (decide _).
  - intros (k1 & w1 & (s & E & <-)%on_fs_Ok & Hrest)%act_bind_Ok.
    eexists _, _, _, _. split; [exact Hrest|]. do 2 (split; [done|]). split; [|by exists k1].
    intros n Hn. simpl. by rewrite decide_False, bool_decide_eq_false_2.
  - intros (k1 & w1 & (s & E & <-)%on_fs_Ok & Hrest)%act_bind_Ok.
    eexists _, _, _, _. split; [exact Hrest|]. do 2 (split; [done|]). split; [done|by exists k1].
Qed.

Lemma Set_defaults_spares ds k K :
  Forall (λ c, simple c = true) ds → ds ≠ [] →
  (∀ q, q ∈ ancestors (mkpath (ds ++ ["agent"; "logs"])) → ¬ K q) →
  spares K (Set_defaults (mkpath ds) k).
Proof.
  intros Hds Hne HK. unfold Set_defaults, createDataDir.
  rewrite decide_False by (unfold mkpath; done).
  rewrite filepath_Join_list by (done || (apply Forall_app; split; [done|by repeat constructor])).
  assert (Forall (λ c, simple c = true) (ds ++ ["agent"; "logs"])) as Hs
    by (apply Forall_app; split; [done|by repeat constructor]).
  repeat first [apply spares_bind; [apply spares_with_message; try apply spares_with_message|intros _]
               | apply spares_ret | apply spares_MkdirAll].
  - intros q. rewrite elem_of_ancestors by done. intros (l & Hl & Hlne & ->). apply HK.
    rewrite elem_of_ancestors by done. exists l. split_and!; [|done|done]. by apply prefix_app_r.
  - exact HK.
Qed.
End start.

(** ** The life of a component that had to be removed *)

Section life.
Context `{NameApi} `{ExecLib} `{!CRI} (defaults : Defaults) (g : Globals).
Context (ds : list string) (Hds : Forall (λ c, simple c = true) ds) (Hne : ds ≠ []).
Context (Hconf : ∀ args extra, outside (manifests ds) (ToConfigFile args extra)).

Lemma simple_below l : Forall (λ c, simple c = true) l → Forall (λ c, simple c = true) (ds ++ l).
Proof. intros Hl. by apply Forall_app. Qed.

Lemma Join_below l : Forall (λ c, simple c = true) l → filepath_Join (mkpath ds :: l) = mkpath (ds ++ l).
Proof. intros Hl. apply filepath_Join_list; [done|by apply simple_below]. Qed.

(** The logs directory and its parents are neither of the two files. *)
Lemma not_above_logs c l q :
  Forall (λ c, simple c = true) (c :: l) → c ≠ "agent" →
  q ∈ ancestors (mkpath (ds ++ ["agent"; "logs"])) → q ≠ mkpath (ds ++ c :: l).
Proof.
  intros Hl Hc Hq ->. rewrite elem_of_ancestors in Hq by (apply simple_below; by repeat constructor).
  destruct Hq as (p & Hp & Hpne & Heq). apply mkpath_inj in Heq as <-; [|by apply simple_below|].
  - by apply prefix_app_inv, prefix_cons_inv_1 in Hp.
  - destruct Hp as [r Hr]. apply (Forall_app _ p r). rewrite <-Hr. apply simple_below. by repeat constructor.
Qed.

Lemma must_not_run_same clx clx' isServer dataDir t t' c :
  flag_Bool clx' = flag_Bool clx → flag_IsSet clx' "datastore-endpoint" = flag_IsSet clx "datastore-endpoint" →
  t' !! Clean (ForceRestartFile dataDir) = t !! Clean (ForceRestartFile dataDir) →
  t' !! Clean (etcdNameFile dataDir) = t !! Clean (etcdNameFile dataDir) →
  must_not_run clx isServer dataDir t c → must_not_run clx' isServer dataDir t' c.
Proof. unfold must_not_run, plain_at. by intros -> -> -> ->. Qed.

(** The executor as its life begins, on a file system [st]. *)
Definition bootstrapped (ex : InitExecutor.Executor) (st : fs) : exec :=
  Exec (ex_Config ex) st [] [] [] false.

Lemma PodManifestsDir_below : PodManifestsDir (mkpath ds) = mkpath (manifests ds).
Proof.
  unfold PodManifestsDir, manifests. rewrite Join_below by (by repeat constructor).
  by rewrite <-(assoc_L (++)).
Qed.

(** The executor that a start returns keeps its files where [ExecutorSteps]
    expects them. *)
Lemma started_layout ans cfg isServer clx k flt w ex clx' k' w' :
  flag_String clx "data-dir" = mkpath ds → policy_ok ds (flag_String clx "audit-policy-file") →
  initExecutor defaults ans cfg isServer clx k flt w = (Ok (ex, clx', k'), w') →
  layout ds (ex_Config ex).
Proof.
  intros Hdir Hpol (cfg1 & clx1 & k1 & w1 & Hinit & _ & _ & Hflags & _)%initExecutor_inv.
  destruct (Hflags "data-dir" ltac:(done)) as [Hdir1 _]. rewrite Hdir in Hdir1.
  destruct (Hflags "audit-policy-file" ltac:(done)) as [Haudit _].
  apply initStaticPodExecutor_paths in Hinit as (Hi & Hm & Hp). rewrite Hdir1 in Hi, Hm.
  split; [done| | |].
  - rewrite Hi. by apply Join_below; repeat constructor.
  - by rewrite Hm, PodManifestsDir_below.
  - by rewrite Hp, Haudit.
Qed.

(** What must not run when a start begins must not run when it gets to the
    removal of manifests. *)
Lemma must_not_run_defaults clx clx1 isServer k flt s k2 s1 c :
  flag_Bool clx1 = flag_Bool clx → flag_IsSet clx1 "datastore-endpoint" = flag_IsSet clx "datastore-endpoint" →
  Set_defaults (mkpath ds) k flt s = (Ok k2, s1) →
  must_not_run clx isServer (mkpath ds) (nodes s) c → must_not_run clx1 isServer (mkpath ds) (nodes s1) c.
Proof.
  intros Hb Hset Hdef. apply must_not_run_same; [done|done| |];
    unfold ForceRestartFile, etcdNameFile; rewrite Join_below by (by repeat constructor);
    (rewrite Clean_mkpath by (apply simple_below; by repeat constructor));
    eapply (spares_run (λ q, q = _)); [|exact Hdef|done| |exact Hdef|done];
    (apply Set_defaults_spares; [done|done|]);
    intros q Hq; (apply not_above_logs; [by repeat constructor|done|done]).
Qed.

Lemma started_without ans cfg isServer clx k w ex clx' k' w' c :
  (∀ m, item_order ans m ≡ₚ map_to_list m) → flag_String clx "data-dir" = mkpath ds →
  initExecutor defaults ans cfg isServer clx k no_faults w = (Ok (ex, clx', k'), w') →
  missing_at (nodes (w_fs w')) (binDir (mkpath ds)) = false →
  missing_at (nodes (w_fs w')) (PodManifestsDir (mkpath ds)) = false →
  (∀ target, nodes (w_fs w') !! ExecutorSteps.manifest_file ds c ≠ Some (NLink target)) →
  must_not_run clx isServer (mkpath ds) (nodes (w_fs w)) c →
  nodes (w_fs w') !! ExecutorSteps.manifest_file ds c = None.
Proof.
  intros Horder Hdir Hinit Hbin Hman Hlink Hc.
  apply initExecutor_inv in Hinit as (cfg1 & clx1 & k1 & w1 & Hinit & _ & Hb & Hflags & k2 & Hset).
  destruct (Hflags "data-dir" ltac:(done)) as [Hdir1 _]. rewrite Hdir in Hdir1. rewrite Hdir1 in Hset.
  assert (simple (c +:+ ".yaml") = true) as Hs.
  { destruct Hc as [Hin _]. apply list_elem_of_In in Hin. simpl in Hin.
    by destruct Hin as [<-|[<-|[<-|[<-|[<-|[]]]]]]. }
  apply (must_not_run_defaults clx clx1 isServer _ _ _ _ _ _ Hb ltac:(by apply Hflags) Hset) in Hc.
  rewrite <-Hdir1 in Hc.
  destruct (disables_removes defaults ans cfg1 isServer clx1 k1 w1 (ex, clx', k') w' c Horder
    Hinit Hc) as [E|[[target E]|[E|E]]]; rewrite Hdir1 in E; [| |congruence..];
    unfold Cleanup.manifest_file in E; rewrite PodManifestsDir_below in E;
    (rewrite filepath_Join_mkpath, Clean_mkpath in E;
     [|apply Forall_app; split; [by apply simple_md|by constructor]|by apply simple_md|done]);
    [done|by destruct (Hlink target)].
Qed.

(** C4: From the start of a node to the end of its process, a component that must
    not run when it starts is never seen by the kubelet because of an earlier
    run.  The start must be one in which no system call failed and which was no
    clean install: the bin directory (through its link) and the manifests
    directory are there when it ends; otherwise the cleanup is skipped and an
    old manifest stays (Cleanup.v).  Then, after a successful [initExecutor]
    that found no dangling link in the manifest's place, on any file system that
    has the manifests it left, whatever k3s asks of the executor and however
    channels, writers and failing system calls interleave from there on, at
    every moment the manifest is missing or the complete one of this run, and
    as long as k3s does not ask for the component it is missing. *)
Theorem removed_until_called ans cfg isServer clx k w ex clx' k' w' st c x :
  (∀ m, item_order ans m ≡ₚ map_to_list m) →
  flag_String clx "data-dir" = mkpath ds → policy_ok ds (flag_String clx "audit-policy-file") →
  initExecutor defaults ans cfg isServer clx k no_faults w = (Ok (ex, clx', k'), w') →
  missing_at (nodes (w_fs w')) (binDir (mkpath ds)) = false →
  missing_at (nodes (w_fs w')) (PodManifestsDir (mkpath ds)) = false →
  (∀ target, nodes (w_fs w') !! ExecutorSteps.manifest_file ds c ≠ Some (NLink target)) →
  same_dir (manifests ds) (nodes (w_fs w')) (nodes st) →
  must_not_run clx isServer (mkpath ds) (nodes (w_fs w)) c →
  steps defaults g (bootstrapped ex st) x →
  ∃ ts, hist (e_fs x) = ts ++ hist st ∧
    Forall (λ t, t !! ExecutorSteps.manifest_file ds c = None ∨
                 ∃ spec p b q, t !! ExecutorSteps.manifest_file ds c = Some (NFile b q) ∧
                   yaml_Marshal p = Ok b ∧ Command spec = c ∧
                   manifest_of spec (ExecutorSteps.manifest_file ds c) p) (nodes (e_fs x) :: ts) ∧
    (rtc (step_by defaults g (λ k, component k ≠ c)) (bootstrapped ex st) x →
     Forall (λ t, t !! ExecutorSteps.manifest_file ds c = None) (nodes (e_fs x) :: ts)).
Proof.
  intros Horder Hdir Hpol Hinit Hbin Hman Hlink Hsame Hc Hsteps.
  assert (nodes st !! ExecutorSteps.manifest_file ds c = None) as Habs.
  { rewrite (Hsame _ (dest_inside ds c)).
    exact (started_without _ _ _ _ _ _ _ _ _ _ _ Horder Hdir Hinit Hbin Hman Hlink Hc). }
  assert (layout ds (e_cfg (bootstrapped ex st))) as Hl by by eapply started_layout.
  destruct (complete_leads defaults g ds Hds Hconf (bootstrapped ex st) x c ltac:(done) Hl Hsteps)
    as (HPx & ts & Hh & HF). exists ts. split; [done|]. split.
  - eapply Forall_impl; [by apply Forall_cons|]. intros t [E|Ht]; [|done]. left. by rewrite E.
  - intros Hrun. destruct (absent_until_called defaults g ds Hds Hconf c (bootstrapped ex st) x ltac:(done) Hl Habs Hrun)
      as (HPx' & ts' & Hh' & HF'). rewrite Hh in Hh'. apply app_inv_tail in Hh' as ->. by constructor.
Qed.
End life.

(** ** An agent on a node that was a server *)

#[local] Existing Instance SimpleName.api.
#[local] Existing Instance SimpleLib.lib.
#[local] Existing Instance SimpleExec.lib.
#[local] Existing Instance SimpleCRI.cri.

Definition agent_start : result (InitExecutor.Executor * Flags * K3sConfig) * world :=
  initExecutor build_defaults sample_answers sample_node_config false sample_flags sample_k3s no_faults sample_reset.

Lemma removed_until_called_witness :
  ∃ ex, is_Some (nodes (w_fs sample_reset) !! ExecutorSteps.manifest_file ["d"] "etcd") ∧
    (∃ r, agent_start.1 = Ok (ex, r.1, r.2)) ∧
    Forall (λ t, t !! ExecutorSteps.manifest_file ["d"] "etcd" = None)
      [nodes (e_fs (do_call build_defaults sample_globals (CallKubeProxy ["--v=2"]) no_faults
                     (bootstrapped ex (w_fs agent_start.2))))].
Proof.
  assert (is_Ok agent_start.1 = true) as Hok by (vm_compute; reflexivity).
  assert (missing_at (nodes (w_fs agent_start.2)) (binDir (mkpath ["d"])) = false) as Hb
    by (vm_compute; reflexivity).
  assert (missing_at (nodes (w_fs agent_start.2)) (PodManifestsDir (mkpath ["d"])) = false) as Hm
    by (vm_compute; reflexivity).
  assert (∀ target, nodes (w_fs agent_start.2) !! ExecutorSteps.manifest_file ["d"] "etcd"
                    ≠ Some (NLink target)) as Hl by (intros target; vm_compute; discriminate).
  assert (is_Some (nodes (w_fs sample_reset) !! ExecutorSteps.manifest_file ["d"] "etcd")) as Hs
    by (vm_compute; by eexists).
  destruct agent_start as [[[[ex clx'] k']|e] w'] eqn:E; [|discriminate Hok]. cbn [fst snd] in *.
  exists ex. split; [exact Hs|]. split; [by exists (clx', k')|].
  assert (must_not_run sample_flags false (mkpath ["d"]) (nodes (w_fs sample_reset)) "etcd") as Hc
    by (split; [right; left|left; reflexivity]).
  set (x0 := bootstrapped ex (w_fs w')).
  set (x := do_call build_defaults sample_globals (CallKubeProxy ["--v=2"]) no_faults x0).
  assert (step_by build_defaults sample_globals (λ k, component k ≠ "etcd") x0 x) as Hstep
    by (apply step_call; [discriminate|reflexivity|exact honest_no_faults]).
  destruct (removed_until_called build_defaults sample_globals ["d"] ltac:(by repeat constructor) ltac:(done)
    (λ args extra, spares_readonly _ _ (readonly_ret _))
    sample_answers sample_node_config false sample_flags sample_k3s sample_reset ex clx' k' w' (w_fs w') "etcd" x
    map_to_list_order eq_refl (or_introl eq_refl) E Hb Hm Hl (λ q _, eq_refl)
    Hc
    (rtc_once _ _ (step_by_step _ _ _ _ _ Hstep))) as (ts & _ & _ & HF).
  specialize (HF (rtc_once _ _ Hstep)). apply Forall_cons in HF as [HF _].
  apply Forall_cons. split; [exact HF|apply Forall_nil; exact I].
Defined.
