(* ===== verification/Cmds.v ===== *)
(** * Cmds: what the commands check before they start (pkg/cli/cmds)

    The validations of the cloud provider, the security profile and the choice of
    CNI, which turn them into values of other flags, mainly the list of charts to
    disable; [Rke2] runs them.  A call of logrus.Fatal ends the process: it is an
    error of the model.  [Rotate] of cert.go asks the next start to recreate the
    static pods. *)

From S2P Require Import Prelude GoStrings GoPath GoFS GoTree Images PodConfig FlagOpts InitExecutor.

(** ** The command line context *)

(** [cli.Context]: single values, and the values of the flags that hold lists. *)
Record Context := { c_Flags : Flags; c_Slices : string → list string }.

(** [clx.Set(name, value)] on a text, a switch and a list; setting a list flag
    adds a value. *)
Definition set_text (name value : string) (clx : Context) : Context :=
  {| c_Flags := flag_Set name value (c_Flags clx); c_Slices := c_Slices clx |}.

Definition set_true (name : string) (clx : Context) : Context := {|
  c_Flags := {| flag_String := flag_String (c_Flags clx);
                flag_Bool := λ n, bool_decide (n = name) || flag_Bool (c_Flags clx) n;
                flag_IsSet := λ n, bool_decide (n = name) || flag_IsSet (c_Flags clx) n |};
  c_Slices := c_Slices clx
|}.

Definition add_value (name value : string) (clx : Context) : Context := {|
  c_Flags := {| flag_String := flag_String (c_Flags clx); flag_Bool := flag_Bool (c_Flags clx);
                flag_IsSet := λ n, bool_decide (n = name) || flag_IsSet (c_Flags clx) n |};
  c_Slices := λ n, if decide (n = name) then c_Slices clx n ++ [value] else c_Slices clx n
|}.

Inductive CLIRole := Agent | Server.

#[export] Instance CLIRole_eq_dec : EqDecision CLIRole.
Proof. solve_decision. Defined.

Definition disable (charts : list string) (clx : Context) : Context :=
  foldl (λ c x, add_value "disable" x c) clx charts.

(** ** Cloud providers: root.go *)

Record bundledCloudProvider := { p_name : string; p_csi : string; p_cpi : string }.

Definition cloudProviders : list bundledCloudProvider := [
  {| p_name := "rancher-vsphere"; p_csi := "rancher-vsphere-csi"; p_cpi := "rancher-vsphere-cpi" |};
  {| p_name := "harvester"; p_csi := "harvester-csi-driver"; p_cpi := "harvester-cloud-provider" |};
  {| p_name := "ovirt"; p_csi := "rke2-ovirt-csi-driver"; p_cpi := "" |}].

Definition nonblank (s : string) : list string := if decide (s ≠ "") then [s] else [].

(** One turn of the loop over the bundled providers. *)
Definition provider_step (role : CLIRole) (cloudProvider : string) (clx : Context)
    (provider : bundledCloudProvider) : Context :=
  if decide (p_name provider = cloudProvider) then
    let clx := set_text "cloud-provider-name" "external" clx in
    if decide (role = Server ∧ p_cpi provider ≠ "")
    then set_true "disable-cloud-controller" clx else clx
  else if decide (role = Server)
       then disable (nonblank (p_csi provider) ++ nonblank (p_cpi provider)) clx
       else clx.

Definition validateCloudProvider (clx : Context) (role : CLIRole) : result Context :=
  let cloudProvider := flag_String (c_Flags clx) "cloud-provider-name" in
  let isSet := flag_IsSet (c_Flags clx) in
  if (isSet "cloud-provider-name" || isSet "cloud-provider-config") && isSet "node-external-ip"
  then Err (ErrMsg "can't set node-external-ip while using cloud provider")
  else Ok (foldl (provider_step role cloudProvider) clx cloudProviders).

(** ** Profiles: profile_linux.go *)

Definition protectKernelDefaultsFlagName := "protect-kernel-defaults".

Definition kernelRuntimeParameters : gmap string Z :=
  {["vm.overcommit_memory" := 1; "vm.panic_on_oom" := 0;
    "kernel.panic" := 10; "kernel.panic_on_oops" := 1]}%Z.

Definition sysctl_path (s : string) : string := "/proc/sys/" +:+ ReplaceAll s "." "/".

(** The text of a parameter: a number and a newline. *)
Definition sysctl_value (name v : string) : result Z :=
  if decide (Len v < 2 ∨ HasSuffix newline v = false) then Err (ErrMsg ("invalid contents: " +:+ name))
  else match ParseInt 64 (ReplaceAll v "010" "") with
       | Some z => Ok z
       | None => Err (ErrMsg "invalid syntax")
       end.

Definition sysctl (s : string) : io Z :=
  v ← os_ReadFile (sysctl_path s);
  match sysctl_value (ReplaceAll s "." "/") v with Ok z => mret z | Err e => io_fail e end.

(** The loop of [validateKernelReqs]: the deviations found; a parameter that
    cannot be read is fatal. *)
Fixpoint kernel_errors (params : list (string * Z)) : io (list error) :=
  match params with
  | [] => mret []
  | (kp, pv) :: params' =>
      cv ← sysctl kp;
      ce ← kernel_errors params';
      mret (if decide (cv = pv) then ce
            else ErrMsg ("invalid kernel parameter value " +:+ kp) :: ce)
  end.

(** [cisErrors.Error]: one line per error. *)
Definition cisErrors_Error (ce : list error) : string :=
  foldr (λ e s, error_text e +:+ newline +:+ s) "" ce.

Definition cisErrors (ce : list error) : result unit :=
  match ce with [] => Ok () | _ => Err (ErrMsg (cisErrors_Error ce)) end.

Definition of_result {A} (r : result A) : io A :=
  match r with Ok a => mret a | Err e => io_fail e end.

(** [order] is how the map is iterated. *)
Definition validateKernelReqs (order : gmap string Z → list (string * Z)) : io unit :=
  ce ← kernel_errors (order kernelRuntimeParameters);
  of_result (cisErrors ce).

Definition errors_of {A} (r : result A) : list error :=
  match r with Ok _ => [] | Err e => [e] end.

(** [user.Lookup] and [user.LookupGroup], as the host answers them. *)
Definition validateETCDReqs (Lookup LookupGroup : string → result unit) (role : CLIRole)
    : result unit :=
  if decide (role = Server) then
    cisErrors (errors_of (with_message "missing required" (Lookup "etcd")) ++
               errors_of (with_message "missing required" (LookupGroup "etcd")))
  else Ok ().

Definition setCISFlags (clx : Context) : result Context :=
  if flag_IsSet (c_Flags clx) protectKernelDefaultsFlagName &&
     negb (flag_Bool (c_Flags clx) protectKernelDefaultsFlagName)
  then Err (ErrMsg "--protect-kernel-defaults must be true when using this profile")
  else Ok (set_true protectKernelDefaultsFlagName clx).

Definition validateProfile (order : gmap string Z → list (string * Z))
    (Lookup LookupGroup : string → result unit) (clx : Context) (role : CLIRole) : io Context :=
  let profile := flag_String (c_Flags clx) "profile" in
  if decide (profile = ProfileCIS) then
    validateKernelReqs order;;
    clx ← of_result (setCISFlags clx);
    of_result (validateETCDReqs Lookup LookupGroup role);;
    mret clx
  else if decide (profile = ProfileETCD) then
    of_result (validateETCDReqs Lookup LookupGroup role);; mret clx
  else if decide (profile = "") then mret clx
  else io_fail (ErrMsg "invalid value provided for --profile flag").

(** ** CNI: server.go *)

Definition chart_names (d : string) : list string := ["rke2-" +:+ d; "rke2-" +:+ d +:+ "-crd"].

(** The loop that re-enables the charts of selected items. *)
Fixpoint enable_selected (valid values : list string) (disabledCharts : gset string)
    : result (gset string) :=
  match values with
  | [] => Ok disabledCharts
  | d :: values' =>
      if decide (d = "none") then enable_selected valid values' disabledCharts
      else if decide (d ∈ valid)
           then enable_selected valid values' (disabledCharts ∖ list_to_set (chart_names d))
           else Err (ErrMsg ("Invalid value " +:+ d))
  end.

(** [disableExceptSelected]; [order] is the order of [UnsortedList]. *)
Definition disableExceptSelected (order : gset string → list string) (clx : Context)
    (valid : list string) (flag : string)
    (validateFunc : Context → list string → result (list string * Context)) : result Context :=
  let values := c_Slices clx flag ≫= Split comma in
  '(values, clx) ← validateFunc clx values;
  disabledCharts ← enable_selected valid values (list_to_set (valid ≫= chart_names));
  Ok (disable (order disabledCharts) clx).

(** The validation function of [validateCNI]. *)
Definition validate_cni_values (clx : Context) (values : list string)
    : result (list string * Context) :=
  let one (values : list string) : result (list string * Context) :=
    if decide (head values = Some "multus")
    then Err (ErrMsg "multus must be used alongside another primary cni selection")
    else Ok (values, disable ["rke2-multus"] clx) in
  match values with
  | [] => one ["canal"]
  | [_] => one values
  | [a; b] => if decide (a = "multus") then Ok ([b], clx)
              else Err (ErrMsg "may only provide multiple values if multus is the first value")
  | _ => Err (ErrMsg "must specify 1 or 2 values")
  end.

Definition validateCNI (order : gset string → list string) (clx : Context) : result Context :=
  disableExceptSelected order clx CNIItems "cni" validate_cni_values.

(** ** Certificates: cert.go *)

(** [Rotate]; [cert_Rotate] is the command of k3s. *)
Definition Rotate (cert_Rotate : Context → io unit) (clx : Context) : io unit :=
  let dataDir := flag_String (c_Flags clx) "data-dir" in
  let dataDir := if decide (dataDir = "") then rke2Path else dataDir in
  os_WriteFile (ForceRestartFile dataDir) "" 384;;
  cert_Rotate clx.

(** ** Theorems *)

Lemma disable_slices l clx n :
  c_Slices (disable l clx) n = if decide (n = "disable") then c_Slices clx n ++ l else c_Slices clx n.
Proof.
  revert clx. induction l as [|x l IH]; intros clx; cbn [disable foldl].
  { case_decide; by rewrite ?app_nil_r. }
  fold (disable l (add_value "disable" x clx)). rewrite IH. cbn [c_Slices add_value].
  case_decide; [|done]. by rewrite <-(assoc_L (++)).
Qed.

Lemma enable_selected_spec valid values set :
  match enable_selected valid values set with
  | Ok set' => Forall (λ d, d = "none" ∨ d ∈ valid) values ∧
      ∀ c, c ∈ set' ↔ c ∈ set ∧ ∀ d, d ∈ values → d ≠ "none" → c ∉ chart_names d
  | Err _ => Exists (λ d, d ≠ "none" ∧ d ∉ valid) values
  end.
Proof.
  revert set. induction values as [|d values IH]; intros set; cbn [enable_selected].
  { split; [done|]. set_solver. }
  case_decide as Hn; [|case_decide as Hv].
  - specialize (IH set). destruct (enable_selected valid values set).
    + destruct IH as [IH1 IH2]. split; [by constructor; auto|]. intros c. rewrite IH2. set_solver.
    + by right.
  - specialize (IH (set ∖ list_to_set (chart_names d))).
    destruct (enable_selected valid values _).
    + destruct IH as [IH1 IH2]. split; [constructor; auto|]. intros c. rewrite IH2.
      rewrite elem_of_difference, elem_of_list_to_set. setoid_rewrite elem_of_cons. naive_solver.
    + by right.
  - left. done.
Qed.

(** The selected CNI plugins: what was given, split at commas, or canal. *)
Definition cni_values (clx : Context) : list string :=
  match c_Slices clx "cni" ≫= Split comma with [] => ["canal"] | l => l end.

Definition with_multus (clx : Context) : bool := bool_decide (head (cni_values clx) = Some "multus").

Definition primary (clx : Context) : list string :=
  if with_multus clx then tail (cni_values clx) else cni_values clx.

(** Exactly one primary plugin is selected and it is known. *)
Definition cni_ok (clx : Context) : Prop :=
  ∃ d, primary clx = [d] ∧ (d = "none" ∨ d ∈ CNIItems).

Lemma validate_cni_values_spec clx :
  match validate_cni_values clx (c_Slices clx "cni" ≫= Split comma) with
  | Ok (values, clx') => values = primary clx ∧ length values = 1 ∧
      clx' = if with_multus clx then clx else disable ["rke2-multus"] clx
  | Err _ => length (primary clx) ≠ 1
  end.
Proof.
  unfold primary, with_multus, cni_values, validate_cni_values.
  destruct (c_Slices clx "cni" ≫= Split comma) as [|a [|b [|c l]]]; cbn [head tail].
  - rewrite decide_False by done. by rewrite bool_decide_false by done.
  - case_decide as Ha; [by rewrite bool_decide_true by done|by rewrite bool_decide_false by done].
  - case_decide as Ha; [rewrite bool_decide_true by congruence|rewrite bool_decide_false by congruence];
      done.
  - case_bool_decide; cbn [tail length]; lia.
Qed.

Lemma chart_names_inj c d e : c ∈ chart_names d → c ∈ chart_names e → d ∈ CNIItems → e ∈ CNIItems → d = e.
Proof.
  unfold chart_names, CNIItems. rewrite !elem_of_cons, !elem_of_nil.
  intros Hd He [->|[->|[->|[->|[]]]]] [->|[->|[->|[->|[]]]]]; try done;
    destruct Hd as [->|[->|[]]]; destruct He as [He|[He|[]]]; done.
Qed.

(** What every check leaves alone. *)
Record kept (clx clx' : Context) : Prop := {
  kept_String n : n ≠ "cloud-provider-name" → flag_String (c_Flags clx') n = flag_String (c_Flags clx) n;
  kept_Bool n : n ≠ "disable-cloud-controller" → n ≠ protectKernelDefaultsFlagName →
    flag_Bool (c_Flags clx') n = flag_Bool (c_Flags clx) n;
  kept_Slices n : n ≠ "disable" → c_Slices clx' n = c_Slices clx n
}.

#[export] Instance kept_preorder : PreOrder kept.
Proof.
  split; [done|]. intros c1 c2 c3 [S1 B1 L1] [S2 B2 L2].
  split; intros n **; [rewrite S2, S1|rewrite B2, B1|rewrite L2, L1]; done.
Qed.

Lemma disable_flags l clx :
  flag_String (c_Flags (disable l clx)) = flag_String (c_Flags clx) ∧
  flag_Bool (c_Flags (disable l clx)) = flag_Bool (c_Flags clx).
Proof.
  revert clx. induction l as [|x l IH]; intros clx; cbn [disable foldl]; [done|].
  fold (disable l (add_value "disable" x clx)). by destruct (IH (add_value "disable" x clx)) as [-> ->].
Qed.

Lemma kept_disable l clx : kept clx (disable l clx).
Proof.
  destruct (disable_flags l clx) as [HS HB].
  split; [by rewrite HS|by rewrite HB|]. intros n Hn. by rewrite disable_slices, decide_False.
Qed.

Lemma kept_provider_step role name clx p : kept clx (provider_step role name clx p).
Proof.
  unfold provider_step. repeat case_decide; try apply kept_disable; try done;
    split; intros n **; cbn; by rewrite ?decide_False, ?bool_decide_false.
Qed.

Lemma kept_validateCloudProvider clx role clx' : validateCloudProvider clx role = Ok clx' → kept clx clx'.
Proof.
  unfold validateCloudProvider. destruct (_ && _); [done|]. intros E.
  assert (clx' = foldl (provider_step role (flag_String (c_Flags clx) "cloud-provider-name")) clx cloudProviders)
    as -> by congruence.
  generalize cloudProviders, (flag_String (c_Flags clx) "cloud-provider-name"). intros ps name.
  clear E. revert clx. induction ps as [|q ps IH]; intros clx; [reflexivity|]. cbn [foldl].
  etrans; [apply kept_provider_step|apply IH].
Qed.

Lemma kept_validateProfile order Lookup LookupGroup clx role flt s clx' s' :
  validateProfile order Lookup LookupGroup clx role flt s = (Ok clx', s') → kept clx clx'.
Proof.
  unfold validateProfile. intros E. repeat case_decide; [| |by injection E as <- _|done].
  - apply io_bind_Ok in E as (? & ? & _ & E). apply io_bind_Ok in E as (clx1 & ? & E1 & E).
    apply io_bind_Ok in E as (? & ? & _ & E). injection E as <- _.
    unfold setCISFlags in E1. case_match; [done|]. injection E1 as <- _.
    split; intros n **; cbn; by rewrite ?bool_decide_false.
  - apply io_bind_Ok in E as (? & ? & _ & E). by injection E as <- _.
Qed.

Lemma validateProfile_Slices order Lookup LookupGroup clx role flt s clx' s' :
  validateProfile order Lookup LookupGroup clx role flt s = (Ok clx', s') → c_Slices clx' = c_Slices clx.
Proof.
  unfold validateProfile. intros E. repeat case_decide; [| |by injection E as <- _|done].
  - apply io_bind_Ok in E as (? & ? & _ & E). apply io_bind_Ok in E as (clx1 & ? & E1 & E).
    apply io_bind_Ok in E as (? & ? & _ & E). injection E as <- _.
    unfold setCISFlags in E1. case_match; [done|]. by injection E1 as <- _.
  - apply io_bind_Ok in E as (? & ? & _ & E). by injection E as <- _.
Qed.

(** The charts that the selection of a CNI disables. *)
Definition cni_disabled (clx : Context) (c : string) : Prop :=
  (c = "rke2-multus" ∧ with_multus clx = false) ∨
  ∃ d, d ∈ CNIItems ∧ d ∉ primary clx ∧ c ∈ chart_names d.

Lemma primary_kept clx clx' : kept clx clx' → with_multus clx' = with_multus clx ∧ primary clx' = primary clx.
Proof.
  intros Hk. unfold primary, with_multus, cni_values. by rewrite (kept_Slices _ _ Hk "cni").
Qed.

Lemma validateCNI_run order clx :
  (∀ s, order s ≡ₚ elements s) →
  match validateCNI order clx with
  | Ok clx' => cni_ok clx ∧ ∃ l, clx' = disable l clx ∧ ∀ c, c ∈ l ↔ cni_disabled clx c
  | Err _ => ¬ cni_ok clx
  end.
Proof.
  intros Ho. unfold validateCNI, disableExceptSelected, cni_ok, cni_disabled.
  pose proof (validate_cni_values_spec clx) as Hv.
  destruct (validate_cni_values clx _) as [[values clx1]|e]; cbn [mbind result_bind].
  2: { intros (d & Hp & _). by rewrite Hp in Hv. }
  destruct Hv as (-> & Hlen & ->). destruct (primary clx) as [|d [|? ?]] eqn:Hp; try done. clear Hlen.
  pose proof (enable_selected_spec CNIItems [d] (list_to_set (CNIItems ≫= chart_names))) as He.
  destruct (enable_selected CNIItems [d] _) as [set'|e]; cbn [mbind result_bind].
  2: { apply Exists_cons in He as [He|He]; [|by inversion He]. intros (d' & [= <-] & ?). naive_solver. }
  destruct He as [Hok Hset]. apply Forall_cons in Hok as [Hok _]. split; [by exists d|].
  exists ((if with_multus clx then [] else ["rke2-multus"]) ++ order set').
  split; [unfold disable; rewrite foldl_app; by destruct (with_multus clx)|].
  intros c. rewrite elem_of_app, Ho, elem_of_elements, Hset, elem_of_list_to_set, list_elem_of_bind.
  assert (c ∈ (if with_multus clx then [] else ["rke2-multus"]) ↔
          c = "rke2-multus" ∧ with_multus clx = false) as -> by (destruct (with_multus clx); set_solver).
  apply or_iff_compat_l. split.
  - intros [(e & Hc & He) Hnot]. exists e. split_and!; [done| |done].
    rewrite list_elem_of_singleton. intros ->. apply (Hnot d); [set_solver| |done].
    intros ->. set_solver.
  - intros (e & He & Hne & Hc). split; [by exists e|]. intros d' ->%list_elem_of_singleton Hdn Hc'.
    destruct Hok as [|Hd]; [done|]. apply Hne. rewrite list_elem_of_singleton.
    by apply (chart_names_inj c).
Qed.

(** The CNI selection, whatever the order in which Go lists a set:
    [validateCNI] accepts exactly the selections of one known plugin (or none),
    optionally after multus, and then adds to the charts to disable the charts of
    every plugin that was not selected, their CRD charts, and multus unless it
    was asked for, and nothing else. *)
Theorem validateCNI_spec order clx :
  (∀ s, order s ≡ₚ elements s) →
  match validateCNI order clx with
  | Ok clx' => cni_ok clx ∧ ∃ l, c_Slices clx' "disable" = c_Slices clx "disable" ++ l ∧
      ∀ c, c ∈ l ↔ (c = "rke2-multus" ∧ with_multus clx = false) ∨
                   ∃ d, d ∈ CNIItems ∧ d ∉ primary clx ∧ c ∈ chart_names d
  | Err _ => ¬ cni_ok clx
  end.
Proof.
  intros Ho. pose proof (validateCNI_run order clx Ho) as H.
  destruct (validateCNI order clx) as [clx'|e]; [|done]. destruct H as (Hok & l & -> & Hl).
  split; [done|]. exists l. by rewrite disable_slices, decide_True.
Qed.

(** *** Cloud providers *)

Definition bundled (name : string) : bool := existsb (λ p, bool_decide (p_name p = name)) cloudProviders.

(** The charts of the bundled providers other than [name]. *)
Definition other_charts (name : string) : list string :=
  p ← filter (λ p, p_name p ≠ name) cloudProviders; nonblank (p_csi p) ++ nonblank (p_cpi p).

(** One provider. *)
Lemma provider_step_spec role name clx p :
  let clx' := provider_step role name clx p in
  let chosen := bool_decide (p_name p = name) in
  flag_String (c_Flags clx') "cloud-provider-name"
    = (if chosen then "external" else flag_String (c_Flags clx) "cloud-provider-name") ∧
  c_Slices clx' "disable" = c_Slices clx "disable" ++
    (if decide (role = Server ∧ p_name p ≠ name) then nonblank (p_csi p) ++ nonblank (p_cpi p) else []) ∧
  flag_Bool (c_Flags clx') "disable-cloud-controller"
    = flag_Bool (c_Flags clx) "disable-cloud-controller" ||
      (bool_decide (role = Server) && (chosen && bool_decide (p_cpi p ≠ ""))).
Proof.
  unfold provider_step. destruct (decide (p_name p = name)) as [Hn|Hn].
  - rewrite bool_decide_true by done. rewrite (decide_False (P := role = Server ∧ p_name p ≠ name)) by naive_solver.
    rewrite app_nil_r. case_decide as Hr.
    + rewrite !bool_decide_true by naive_solver. cbn. by rewrite orb_true_r.
    + cbn. split_and!; [done..|].
      destruct (flag_Bool (c_Flags clx) "disable-cloud-controller"); [done|].
      symmetry. apply andb_false_iff. destruct (decide (role = Server)); [right|left];
        apply bool_decide_eq_false; naive_solver.
  - rewrite bool_decide_false by done. cbn [andb]. rewrite andb_false_r, orb_false_r.
    destruct (decide (role = Server)) as [Hr|Hr].
    + rewrite decide_True by done. destruct (disable_flags (nonblank (p_csi p) ++ nonblank (p_cpi p)) clx) as [-> ->].
      by rewrite disable_slices, decide_True.
    + rewrite decide_False by naive_solver. by rewrite app_nil_r.
Qed.

Lemma provider_fold_spec role name ps clx :
  let clx' := foldl (provider_step role name) clx ps in
  flag_String (c_Flags clx') "cloud-provider-name"
    = (if existsb (λ p, bool_decide (p_name p = name)) ps then "external"
       else flag_String (c_Flags clx) "cloud-provider-name") ∧
  c_Slices clx' "disable" = c_Slices clx "disable" ++
    (if decide (role = Server)
     then (p ← filter (λ p, p_name p ≠ name) ps; nonblank (p_csi p) ++ nonblank (p_cpi p)) else []) ∧
  flag_Bool (c_Flags clx') "disable-cloud-controller"
    = flag_Bool (c_Flags clx) "disable-cloud-controller" ||
      (bool_decide (role = Server) &&
       existsb (λ p, bool_decide (p_name p = name) && bool_decide (p_cpi p ≠ "")) ps).
Proof.
  revert clx. induction ps as [|p ps IH]; intros clx; cbn [foldl existsb].
  { rewrite andb_false_r, orb_false_r. split_and!; [done| |done]. case_decide; by rewrite app_nil_r. }
  destruct (IH (provider_step role name clx p)) as (H1 & H2 & H3).
  destruct (provider_step_spec role name clx p) as (S1 & S2 & S3). cbn zeta. split_and!.
  - rewrite H1, S1. 
    destruct (bool_decide (p_name p = name)); cbn [orb]; [|done].
    by destruct (existsb (λ p, bool_decide (p_name p = name)) ps).
  - rewrite H2, S2, <-(assoc_L (++)), filter_cons.
    repeat case_decide; try naive_solver; rewrite ?bind_cons; done.
  - rewrite H3, S3. rewrite <-orb_assoc. f_equal. by rewrite <-andb_orb_distrib_r.
Qed.

(** The cloud provider is refused exactly when an external address is set
    next to it; otherwise a bundled provider is passed on as external, the charts
    of all other bundled providers are disabled on a server, and the built-in
    cloud controller is switched off exactly when the chosen provider brings its
    own; an agent disables nothing. *)
Theorem validateCloudProvider_spec clx role :
  let name := flag_String (c_Flags clx) "cloud-provider-name" in
  let isSet := flag_IsSet (c_Flags clx) in
  match validateCloudProvider clx role with
  | Err _ => (isSet "cloud-provider-name" = true ∨ isSet "cloud-provider-config" = true) ∧
             isSet "node-external-ip" = true
  | Ok clx' =>
      flag_String (c_Flags clx') "cloud-provider-name"
        = (if bundled name then "external" else name) ∧
      c_Slices clx' "disable" = c_Slices clx "disable" ++
        (if decide (role = Server) then other_charts name else []) ∧
      flag_Bool (c_Flags clx') "disable-cloud-controller"
        = flag_Bool (c_Flags clx) "disable-cloud-controller" ||
          (bool_decide (role = Server) && bool_decide (name ∈ ["rancher-vsphere"; "harvester"]))
  end.
Proof.
  intros name isSet. unfold validateCloudProvider. fold name isSet.
  destruct ((isSet "cloud-provider-name" || isSet "cloud-provider-config") && isSet "node-external-ip") eqn:E.
  { apply andb_true_iff in E as [E1 E2]. by apply orb_true_iff in E1. }
  destruct (provider_fold_spec role name cloudProviders clx) as (H1 & H2 & H3).
  split_and!; [exact H1|exact H2|]. rewrite H3. do 2 f_equal.
  apply eq_true_iff_eq. rewrite existsb_exists, bool_decide_eq_true. split.
  - intros (p & Hp%list_elem_of_In & [Hn Hc]%andb_true_iff).
    apply bool_decide_eq_true in Hn, Hc. subst name. unfold cloudProviders in Hp.
    rewrite !elem_of_cons, elem_of_nil in Hp. destruct Hp as [->|[->|[->|[]]]]; cbn in *;
      [rewrite <-Hn..|]; [left|right; left|done].
  - rewrite !elem_of_cons, elem_of_nil. intros [->|[->|[]]].
    + eexists. split; [by left|done].
    + eexists. split; [by right; left|done].
Qed.

(** *** Profiles *)

Lemma sysctl_Ok name flt s z s' :
  sysctl name flt s = (Ok z, s') →
  nodes s' = nodes s ∧ ∃ v, file_content (nodes s) (sysctl_path name) = Some v ∧
    sysctl_value (ReplaceAll name "." "/") v = Ok z.
Proof.
  unfold sysctl. intros (v & s1 & Hr & Hk)%io_bind_Ok. apply os_ReadFile_Ok in Hr as [Hc Hn].
  destruct (sysctl_value _ v) eqn:Hv; [|done]. injection Hk as -> ->. eauto.
Qed.

Lemma kernel_errors_Ok params flt s s' :
  kernel_errors params flt s = (Ok [], s') →
  nodes s' = nodes s ∧
  Forall (λ p, ∃ v, file_content (nodes s) (sysctl_path p.1) = Some v ∧
                    sysctl_value (ReplaceAll p.1 "." "/") v = Ok p.2) params.
Proof.
  revert s. induction params as [|[k z] params IH]; intros s; cbn [kernel_errors].
  { intros [= <-]. done. }
  intros (cv & s1 & [N1 Hv]%sysctl_Ok & Hk)%io_bind_Ok.
  apply io_bind_Ok in Hk as (ce & s2 & Hce & [= Hr ->]).
  case_decide as Hz; [|done]. subst ce cv. apply IH in Hce as [N2 HF].
  rewrite N1 in N2, HF. split; [done|]. by constructor.
Qed.

Lemma of_result_Ok {A} (r : result A) flt s a s' :
  of_result r flt s = (Ok a, s') ↔ r = Ok a ∧ s' = s.
Proof. destruct r; cbn; split; [intros [= -> ->]; done|intros [[= ->] ->]; done|done|by intros []]. Qed.

Lemma cisErrors_Ok ce : cisErrors ce = Ok () ↔ ce = [].
Proof. by destruct ce. Qed.

(** A node that passes the CIS profile is hardened, under every fault
    schedule and iteration order: every kernel parameter of the guide has the
    required value in /proc/sys, the kubelet is told to protect kernel defaults,
    a server has the etcd user and group, and the check has changed no file. *)
Lemma validateProfile_hardened order Lookup LookupGroup clx role flt s clx' s' :
  (∀ m, order m ≡ₚ map_to_list m) →
  flag_String (c_Flags clx) "profile" = ProfileCIS →
  validateProfile order Lookup LookupGroup clx role flt s = (Ok clx', s') →
  (∀ k z, kernelRuntimeParameters !! k = Some z →
     ∃ v, file_content (nodes s) (sysctl_path k) = Some v ∧
          sysctl_value (ReplaceAll k "." "/") v = Ok z) ∧
  flag_Bool (c_Flags clx') protectKernelDefaultsFlagName = true ∧
  (role = Server → Lookup "etcd" = Ok () ∧ LookupGroup "etcd" = Ok ()) ∧
  nodes s' = nodes s.
Proof.
  intros Ho Hp. unfold validateProfile. rewrite decide_True by done.
  intros (u & s1 & Hk & H)%io_bind_Ok. unfold validateKernelReqs in Hk.
  apply io_bind_Ok in Hk as (ce & s2 & Hce & Hok). destruct u.
  apply of_result_Ok in Hok as [->%cisErrors_Ok ->]. apply kernel_errors_Ok in Hce as [N2 HF].
  apply io_bind_Ok in H as (clx1 & s3 & [Hset ->]%of_result_Ok & H).
  apply io_bind_Ok in H as ([] & s4 & [Hetcd ->]%of_result_Ok & [= <- <-]).
  split_and!.
  - intros k z Hkz. rewrite Forall_forall in HF. apply (HF (k, z)).
    rewrite Ho. by apply elem_of_map_to_list.
  - unfold setCISFlags in Hset. case_match; [done|]. injection Hset as <-. cbn. done.
  - intros ->. unfold validateETCDReqs in Hetcd. rewrite decide_True in Hetcd by done.
    apply cisErrors_Ok in Hetcd. destruct (Lookup "etcd") as [[]|], (LookupGroup "etcd") as [[]|]; done.
  - done.
Qed.

(** *** Certificate rotation *)

(** After a successful rotation of the certificates the next start
    recreates the static pods: the command of k3s does not touch the file, so
    the start finds it and reports a forced restart. *)
Theorem Rotate_forces_restart cert_Rotate clx flt s s' :
  let dir := flag_String (c_Flags clx) "data-dir" in
  let dataDir := if decide (dir = "") then rke2Path else dir in
  spares (λ q, q = Clean (ForceRestartFile dataDir)) (cert_Rotate clx) →
  Rotate cert_Rotate clx flt s = (Ok (), s') →
  ∃ s2, check_force_restart dataDir no_faults s' = (Ok true, s2).
Proof.
  intros dir dataDir Hspare. unfold Rotate. fold dir dataDir.
  intros ([] & s1 & Hw & Hr)%io_bind_Ok.
  destruct (os_WriteFile_triple (ForceRestartFile dataDir) "" 384 (nodes s) (λ _, True)) with flt s
    as [[Hq _] _]; [done|done|]. rewrite Hw in Hq. destruct (Hq eq_refl) as [q Hfile].
  pose proof (spares_run _ _ _ _ _ _ Hspare Hr (Clean (ForceRestartFile dataDir)) eq_refl) as Hsame.
  cbn [snd] in Hfile. rewrite Hfile in Hsame.
  unfold check_force_restart, mbind, io_bind, attempt.
  destruct (os_Stat_run (ForceRestartFile dataDir) s') as (s2 & -> & _).
  rewrite (stat_at_plain _ _ _ Hsame) by done.
  destruct (os_Remove (ForceRestartFile dataDir) no_faults s2) as [r s3]. by eexists.
Qed.

(** ** Witnesses *)

Definition sample_context (values : list (string * string)) (cni : list string) : Context := {|
  c_Flags := {| flag_String := λ n, default "" ((list_to_map values : gmap string string) !! n);
                flag_Bool := λ _, false; flag_IsSet := λ n, bool_decide (n ∈ values.*1) |};
  c_Slices := λ n, if decide (n = "cni") then cni else []
|}.

Lemma validateCNI_spec_witness :
  ∃ clx' l, validateCNI elements (sample_context [] ["multus,cilium"]) = Ok clx' ∧
    c_Slices clx' "disable" = l ∧ "rke2-canal-crd" ∈ l ∧ "rke2-cilium" ∉ l ∧ "rke2-multus" ∉ l.
Proof.
  pose proof (validateCNI_spec elements (sample_context [] ["multus,cilium"]) (λ s, Permutation_refl _)) as H.
  assert (is_Ok (validateCNI elements (sample_context [] ["multus,cilium"])) = true) as Hok
    by (vm_compute; reflexivity).
  destruct (validateCNI elements (sample_context [] ["multus,cilium"])) as [clx'|e]; [|discriminate Hok].
  destruct H as (_ & l & Hl & Hin). exists clx', l. split; [reflexivity|]. split; [exact Hl|].
  assert (∀ c, c = "rke2-cilium" ∨ c = "rke2-multus" → c ∉ l) as Hnot.
  { intros c Hc. rewrite Hin. intros [[_ H]|(d & Hd & Hp & Hcn)]; [discriminate H|].
    unfold CNIItems in Hd. rewrite !elem_of_cons, elem_of_nil in Hd.
    unfold chart_names in Hcn. rewrite !elem_of_cons, elem_of_nil in Hcn.
    destruct Hd as [->|[->|[->|[->|[]]]]], Hc as [-> | ->], Hcn as [Hcn|[Hcn|[]]]; try discriminate Hcn.
    apply Hp. left. }
  split_and!; [|apply Hnot; auto..]. apply Hin. right. exists "canal".
  split; [right; left|]. split; [|right; left].
  intros [H|H%elem_of_nil]%elem_of_cons; [discriminate H|exact H].
Defined.

Definition hardened : fs := MkFS {[
  "/proc/sys/vm/overcommit_memory" := NFile ("1" +:+ newline) 420;
  "/proc/sys/vm/panic_on_oom" := NFile ("0" +:+ newline) 420;
  "/proc/sys/kernel/panic" := NFile ("10" +:+ newline) 420;
  "/proc/sys/kernel/panic_on_oops" := NFile ("1" +:+ newline) 420]} 0 [].

Lemma validateProfile_hardened_witness :
  ∃ clx' s', validateProfile map_to_list (λ _, Ok ()) (λ _, Ok ())
               (sample_context [("profile", "cis")] []) Server no_faults hardened = (Ok clx', s') ∧
    flag_Bool (c_Flags clx') "protect-kernel-defaults" = true.
Proof.
  assert (is_Ok (validateProfile map_to_list (λ _, Ok ()) (λ _, Ok ())
    (sample_context [("profile", "cis")] []) Server no_faults hardened).1 = true) as Hok
    by (vm_compute; reflexivity).
  destruct (validateProfile map_to_list (λ _, Ok ()) (λ _, Ok ())
    (sample_context [("profile", "cis")] []) Server no_faults hardened) as [[clx'|e] s'] eqn:E;
    [|discriminate Hok].
  exists clx', s'. split; [reflexivity|].
  apply (validateProfile_hardened map_to_list (λ _, Ok ()) (λ _, Ok ())
    (sample_context [("profile", "cis")] []) Server no_faults hardened clx' s'
    (λ m, Permutation_refl _) eq_refl E).
Defined.

Definition nothing_to_rotate (_ : Context) : io unit := mret ().

Lemma Rotate_forces_restart_witness :
  let s := MkFS {["/data" := NDir]} 0 [] in
  let clx := sample_context [("data-dir", "/data")] [] in
  ∃ s2, check_force_restart "/data" no_faults (Rotate nothing_to_rotate clx no_faults s).2 = (Ok true, s2).
Proof.
  intros s clx.
  exact (Rotate_forces_restart nothing_to_rotate clx no_faults s (Rotate nothing_to_rotate clx no_faults s).2
    (spares_ret _ ()) ltac:(vm_compute; reflexivity)).
Defined.
