(* ===== verification/Entry.v ===== *)
(** * Entry: the program and its authenticator (main.go, pkg/cli/cmds/root.go, pkg/auth)

    [main] builds the application and its seven commands and turns an error into
    the end of the process.  [BootstrapTokenAuthenticator] chains library
    authenticators, which are a class. *)

From S2P Require Import Prelude GoStrings GoPath GoFS Images PodConfig FlagOpts.

(** ** The application *)

(** A command: its name, its flags, and its subcommands with theirs. *)
Record Command := { cmd_Name : string; cmd_Flags : list Flag; cmd_Subcommands : list (string * list Flag) }.

Record App := {
  app_Name : string;
  app_EnableBashCompletion : bool;
  app_DisableSliceFlagSeparator : bool;
  app_Usage : string;
  app_Version : string;
  app_Commands : list Command
}.

(** [init]: the resolver of Go's library looks at this variable. *)
Definition init_resolver (env : gmap string string) : gmap string string :=
  if decide (default "" (env !! "RES_OPTIONS") = "") then <["RES_OPTIONS" := " "]> env else env.

(** [NewApp]; the version and commit are set by the build. *)
Definition NewApp (appName Version GitCommit : string) : App := {|
  app_Name := appName; app_EnableBashCompletion := true; app_DisableSliceFlagSeparator := true;
  app_Usage := "Rancher Kubernetes Engine 2"; app_Version := Version +:+ " (" +:+ GitCommit +:+ ")";
  app_Commands := [] |}.

(** [agentSubcommands]: none that all systems have, then [serviceSubcommand], which
    is the zero command except on Windows. *)
Definition zero_subcommand : string * list Flag := ("", []).

Definition service_subcommand (ConfigFlag : Flag) (Program : string) : string * list Flag :=
  let flag v n u := {| f_Name := n; f_Aliases := []; f_Usage := u; f_EnvVars := []; f_Hidden := false;
                       f_Value := v |} in
  ("service", [ConfigFlag;
               flag BoolFlag "add" "add RKE2 as a Windows Service";
               flag BoolFlag "delete" "stop and delete RKE2 as a Windows Service";
               flag (StringFlag Program) "service-name" "name for the RKE2 service"]).

Definition agentSubcommands (serviceSubcommand : string * list Flag) : list (string * list Flag) :=
  [] ++ [serviceSubcommand].

(** The commands of k3s: flags and subcommands by name. *)
Record K3sCommands := {
  k_server : list Flag;
  k_agent : list Flag;
  k_etcd_snapshot : list Flag * list (string * list Flag);
  k_certificate : list Flag * list (string * list Flag);
  k_secrets_encrypt : list Flag * list (string * list Flag);
  k_token : list Flag * list (string * list Flag);
  k_completion : list Flag * list (string * list Flag)
}.

Section main.
Context (order : K3SFlagSet → list (string * K3SFlagOption)).

Definition commands (serviceSubcommand : string * list Flag) (k : K3sCommands) : result (list Command) :=
  server ← NewServerCommand order (k_server k);
  agent ← NewAgentCommand order (k_agent k);
  etcd ← NewEtcdSnapshotCommand order (k_etcd_snapshot k).1 (k_etcd_snapshot k).2;
  cert ← NewCertCommand order (k_certificate k).1 (k_certificate k).2;
  secrets ← NewSecretsEncryptCommand order (k_secrets_encrypt k).1 (k_secrets_encrypt k).2;
  token ← NewTokenCommand order (k_token k).1 (k_token k).2;
  completion ← NewCompletionCommand order (k_completion k).1 (k_completion k).2;
  Ok [{| cmd_Name := "server"; cmd_Flags := server; cmd_Subcommands := [] |};
      {| cmd_Name := "agent"; cmd_Flags := agent; cmd_Subcommands := agentSubcommands serviceSubcommand |};
      {| cmd_Name := "etcd-snapshot"; cmd_Flags := etcd.1; cmd_Subcommands := etcd.2 |};
      {| cmd_Name := "certificate"; cmd_Flags := cert.1; cmd_Subcommands := cert.2 |};
      {| cmd_Name := "secrets-encrypt"; cmd_Flags := secrets.1; cmd_Subcommands := secrets.2 |};
      {| cmd_Name := "token"; cmd_Flags := token.1; cmd_Subcommands := token.2 |};
      {| cmd_Name := "completion"; cmd_Flags := completion.1; cmd_Subcommands := completion.2 |}].

Definition set_Commands (l : list Command) (a : App) : App := {|
  app_Name := app_Name a; app_EnableBashCompletion := app_EnableBashCompletion a;
  app_DisableSliceFlagSeparator := app_DisableSliceFlagSeparator a; app_Usage := app_Usage a;
  app_Version := app_Version a; app_Commands := l |}.

(** [main]: the error that ends the process, if any.  [MustParse] merges the
    configuration file into the arguments, [Run] dispatches on them, and
    [is_Canceled] tells [context.Canceled]. *)
Definition main (Run : App → list string → result unit) (MustParse : list string → list string)
    (is_Canceled : error → bool) (app : App) (serviceSubcommand : string * list Flag) (k : K3sCommands)
    (Args : list string) : result unit :=
  cs ← commands serviceSubcommand k;
  match Run (set_Commands cs app) (MustParse Args) with
  | Ok _ => Ok ()
  | Err err => if is_Canceled err then Ok () else Err (ErrText "Error" err)
  end.
End main.

(** ** pkg/auth *)

Record UserInfo := { ui_Name : string; ui_Groups : list string }.
Record Response := { rs_Audiences : list string; rs_User : UserInfo }.

(** The authenticators of Kubernetes: of a token, and of a request. *)
Class AuthLib := {
  client : Type;
  lister : Type;
  http_request : Type;
  GetClientSet : string → result client;
  (** the lister of the secrets of a namespace *)
  SecretLister : client → string → lister;
  bootstrap_NewTokenAuthenticator : lister → string → result (option Response);
  WrapAudienceAgnosticToken :
    list string → (string → result (option Response)) → string → result (option Response);
  bearertoken_New : (string → result (option Response)) → http_request → result (option Response);
  NewAuthenticatedGroupAdder :
    (http_request → result (option Response)) → http_request → result (option Response)
}.

(** [BootstrapTokenAuthenticator]; it also starts the informer that fills the
    lister.  [Program] is [version.Program]. *)
Definition BootstrapTokenAuthenticator `{AuthLib} (Program file : string)
    : result (http_request → result (option Response)) :=
  k8s ← GetClientSet file;
  let l := SecretLister k8s "kube-system" in
  let audiences := [Program] in
  let tokenAuth := WrapAudienceAgnosticToken audiences (bootstrap_NewTokenAuthenticator l) in
  let auth := bearertoken_New tokenAuth in
  Ok (NewAuthenticatedGroupAdder auth).

(** What the libraries document of an authenticated request. *)
Class AuthLaws `{AuthLib} := {
  bearer_token : http_request → option string;
  (** the token of a bootstrap secret that may be used for authentication *)
  bootstrap_user : lister → string → option UserInfo;
  bootstrap_law l t r :
    bootstrap_NewTokenAuthenticator l t = Ok (Some r) → bootstrap_user l t = Some (rs_User r);
  wrap_law a f t r : WrapAudienceAgnosticToken a f t = Ok (Some r) →
    ∃ r0, f t = Ok (Some r0) ∧ rs_User r = rs_User r0;
  bearer_law f q r : bearertoken_New f q = Ok (Some r) → ∃ t, bearer_token q = Some t ∧ f t = Ok (Some r);
  group_law f q r : NewAuthenticatedGroupAdder f q = Ok (Some r) →
    ∃ r0, f q = Ok (Some r0) ∧ ui_Name (rs_User r) = ui_Name (rs_User r0) ∧
      (∀ g, g ∈ ui_Groups (rs_User r) → g ∈ ui_Groups (rs_User r0) ∨ g = "system:authenticated")
}.

(** ** Theorems *)

(** Only the holder of a bootstrap token of kube-system is let in, under the name
    of that token, and with no group besides the token's but that of
    authenticated users. *)
Theorem bootstrap_token_needed `{AuthLaws} Program file auth q r :
  BootstrapTokenAuthenticator Program file = Ok auth → auth q = Ok (Some r) →
  ∃ k8s t u, GetClientSet file = Ok k8s ∧ bearer_token q = Some t ∧
    bootstrap_user (SecretLister k8s "kube-system") t = Some u ∧
    ui_Name (rs_User r) = ui_Name u ∧
    ∀ g, g ∈ ui_Groups (rs_User r) → g ∈ ui_Groups u ∨ g = "system:authenticated".
Proof.
  unfold BootstrapTokenAuthenticator. destruct (GetClientSet file) as [k8s|]; [|done]. intros [= <-].
  intros (r0 & (t & Ht & (r1 & Hb & Hu)%wrap_law)%bearer_law & Hn & Hg)%group_law.
  apply bootstrap_law in Hb. exists k8s, t, (rs_User r1). rewrite Hu in Hn, Hg. by split_and!.
Qed.

(** The process ends well or by a cancelled context, and otherwise says why; the
    names of the commands are distinct. *)
Theorem main_ends order Run MustParse is_Canceled app sub k Args cs :
  commands order sub k = Ok cs →
  (main order Run MustParse is_Canceled app sub k Args = Ok () ↔
   ∀ e, Run (set_Commands cs app) (MustParse Args) = Err e → is_Canceled e = true) ∧
  NoDup (cmd_Name <$> cs).
Proof.
  intros Hcs. unfold main. rewrite Hcs. cbn [mbind result_bind]. split.
  - destruct (Run _ _) as [[]|e]; [done|]. destruct (is_Canceled e) eqn:Hc; [naive_solver|].
    split; [done|]. intros He. specialize (He e eq_refl). congruence.
  - unfold commands in Hcs. repeat (apply bind_Ok in Hcs as (? & _ & Hcs)). injection Hcs as <-.
    cbn. apply (bool_decide_unpack _). by vm_compute.
Qed.

(** The option keeps what the operator has set. *)
Lemma init_resolver_spec env :
  ∃ v, init_resolver env !! "RES_OPTIONS" = Some v ∧ v ≠ "" ∧
    (∀ w, env !! "RES_OPTIONS" = Some w → w ≠ "" → v = w) ∧
    ∀ k, k ≠ "RES_OPTIONS" → init_resolver env !! k = env !! k.
Proof.
  unfold init_resolver. destruct (env !! "RES_OPTIONS") as [w|] eqn:E; cbn [default].
  - case_decide as Hw; cbn in Hw; subst.
    + exists " ". rewrite lookup_insert_eq. split_and!; [done|done| |]; [by intros w [= <-]|].
      intros k Hk. by rewrite lookup_insert_ne.
    + exists w. split_and!; [done|done|by intros ? [= ->]|done].
  - rewrite decide_True by done. exists " ". rewrite lookup_insert_eq. split_and!; [done..|].
    intros k Hk. by rewrite lookup_insert_ne.
Qed.
