(* ===== verification/Rke2.v ===== *)
(** * Rke2: the commands server and agent (pkg/rke2/rke2.go, pkg/cli/cmds)

    [ServerRun] and [AgentRun] put the parts of a start together: the checks of
    [Cmds], the executor of [InitExecutor], the flags and startup hooks that
    [Server] gives to k3s.  What k3s runs then is a parameter.  The host name
    comes from the metadata service of the cloud, whose client is a class. *)

From S2P Require Import Prelude GoStrings GoPath GoFS GoTree Images PodConfig PodSpec PodTemplate.
From S2P Require Import FlagOpts ManifestFile StaticPod Cri Sandbox Cleanup CisHooks InitExecutor Cmds NodeStart.

#[local] Set Default Proof Using "Type".

(** ** The metadata service *)

Record HttpRequest := { hq_Method : string; hq_URL : string; hq_Header : list (string * string) }.

#[export] Instance HttpRequest_eq_dec : EqDecision HttpRequest.
Proof. solve_decision. Defined.

(** A response: the status, and what reading its body gives. *)
Record HttpResponse := { StatusCode : Z; Body : result string }.

(** [http.DefaultClient.Do] within the second the context allows. *)
Class HttpClient := {
  network : Type;
  http_Do : HttpRequest → network → result HttpResponse * network
}.

Definition StatusOK : Z := 200.

(** [http.NewRequestWithContext]; it refuses methods and URLs it cannot parse,
    which the two constants are not. *)
Definition NewRequest (method url : string) : result HttpRequest :=
  Ok {| hq_Method := method; hq_URL := url; hq_Header := [] |}.

Definition Header_Add (k v : string) (req : HttpRequest) : HttpRequest :=
  {| hq_Method := hq_Method req; hq_URL := hq_URL req; hq_Header := hq_Header req ++ [(k, v)] |}.

Definition token_url := "http://169.254.169.254/latest/api/token".
Definition hostname_url := "http://169.254.169.254/latest/meta-data/local-hostname".
Definition ttl_header := "x-aws-ec2-metadata-token-ttl-seconds".
Definition token_header := "x-aws-ec2-metadata-token".

(** The text of an acceptable answer; everything else is only logged. *)
Definition response_text (r : result HttpResponse) : option string :=
  match r with
  | Err _ => None
  | Ok resp =>
      if decide (StatusCode resp ≠ StatusOK) then None
      else match Body resp with Err _ => None | Ok b => Some b end
  end.

Section metadata.
Context `{HttpClient}.

Definition answer_text (req : HttpRequest) (n : network) : option string * network :=
  let '(r, n) := http_Do req n in (response_text r, n).

Definition hostnameFromMetadataEndpoint (n : network) : string * network :=
  let '(token, n) :=
    match NewRequest "PUT" token_url with
    | Err _ => ("", n)
    | Ok req =>
        let '(t, n) := answer_text (Header_Add ttl_header "60" req) n in (default "" t, n)
    end in
  match NewRequest "GET" hostname_url with
  | Err _ => ("", n)
  | Ok req =>
      let req := if decide (token ≠ "") then Header_Add token_header token req else req in
      let '(b, n) := answer_text req n in
      (match b with Some b => TrimSpace b | None => "" end, n)
  end.
End metadata.

(** The metadata service of the cloud as it is documented: version 2 hands out
    tokens for a PUT with their lifetime and answers a GET that carries a valid
    one; without a token the older version answers, unless tokens are required. *)
Definition token_request : HttpRequest :=
  {| hq_Method := "PUT"; hq_URL := token_url; hq_Header := [(ttl_header, "60")] |}.
Definition hostname_request (token : option string) : HttpRequest :=
  {| hq_Method := "GET"; hq_URL := hostname_url;
     hq_Header := match token with Some t => [(token_header, t)] | None => [] end |}.

Definition ok_response (text : string) : result HttpResponse :=
  Ok {| StatusCode := StatusOK; Body := Ok text |}.

Class MetadataService `{HttpClient} := {
  instance_hostname : network → string;
  serves_tokens : bool;
  requires_token : bool;
  valid_token : network → string → Prop;
  required_served : requires_token = true → serves_tokens = true;
  token_answer n : serves_tokens = true → ∃ t n', http_Do token_request n = (ok_response t, n') ∧
    t ≠ "" ∧ valid_token n' t ∧ instance_hostname n' = instance_hostname n;
  (** an older service refuses the request, or does not answer *)
  no_token_answer n : serves_tokens = false → ∃ r n', http_Do token_request n = (r, n') ∧
    (∀ resp, r = Ok resp → StatusCode resp ≠ StatusOK) ∧ instance_hostname n' = instance_hostname n;
  token_accepted n t : valid_token n t →
    (http_Do (hostname_request (Some t)) n).1 = ok_response (instance_hostname n);
  plain_accepted n : requires_token = false →
    (http_Do (hostname_request None) n).1 = ok_response (instance_hostname n)
}.

Section metadata_service.
Context `{MetadataService}.

Lemma response_text_ok t : response_text (ok_response t) = Some t.
Proof. done. Qed.

Lemma hostname_answer n n' token :
  (http_Do (hostname_request token) n').1 = ok_response (instance_hostname n) →
  let '(b, n2) := answer_text (hostname_request token) n' in
  (match b with Some b => TrimSpace b | None => "" end, n2).1 = TrimSpace (instance_hostname n).
Proof.
  unfold answer_text. destruct (http_Do (hostname_request token) n') as [r n2]. cbn [fst]. intros ->.
  by rewrite response_text_ok.
Qed.

Lemma hostname_found n : (hostnameFromMetadataEndpoint n).1 = TrimSpace (instance_hostname n).
Proof.
  unfold hostnameFromMetadataEndpoint, NewRequest. unfold answer_text at 1.
  change (Header_Add ttl_header "60" _) with token_request. destruct serves_tokens eqn:Hs.
  - destruct (token_answer n Hs) as (t & n' & -> & Hne & Hv & <-). rewrite response_text_ok.
    cbn [default]. rewrite decide_True by done.
    pose proof (hostname_answer n' n' (Some t) (token_accepted n' t Hv)) as Hget.
    revert Hget. change (id t) with t.
    change (Header_Add token_header t _) with (hostname_request (Some t)).
    by destruct (answer_text (hostname_request (Some t)) n').
  - destruct (no_token_answer n Hs) as (r & n' & -> & Hr & <-).
    assert (response_text r = None) as ->
      by (destruct r as [resp|]; [cbn; by rewrite decide_True by by apply Hr|done]).
    assert (requires_token = false) as Hreq.
    { destruct requires_token eqn:E; [|done]. by rewrite (required_served E) in Hs. }
    cbn [default]. rewrite decide_False by (intros Hc; by apply Hc).
    pose proof (hostname_answer n' n' None (plain_accepted n' Hreq)) as Hget.
    change {| hq_Method := "GET"; hq_URL := hostname_url; hq_Header := [] |} with (hostname_request None).
    revert Hget. by destruct (answer_text (hostname_request None) n').
Qed.
End metadata_service.

(** [hostnameFQDN]; [run] is the standard output of a command. *)
Definition hostnameFQDN (run : string → list string → result string) : result string :=
  b ← run "hostname" ["-f"]; Ok (TrimSpace b).

(** ** The process *)

(** The closures that [Server] adds to the startup hooks, with what they
    capture; [NetPolicy], [ClusterRoles] and [CisHooks] say what they do. *)
Inductive StartupHook :=
  | SetNetworkPolicies (cisMode : bool) (namespaces : list string)
  | SetClusterRoles
  | RestrictServiceAccounts (cisMode : bool) (namespaces : list string)
  | SetKubeProxyDisabled
  | CleanupStaticPodsOnSelfDelete (dataDir : string).

(** The leader controllers of the network policies: the controller in CIS mode
    with canal (the default), its cleanup otherwise. *)
Inductive leader_controller := CisController | CisCleanup.

Definition network_policy_controller (clx : Context) (cnis : list string) : leader_controller :=
  if decide (flag_isCISMode (c_Flags clx) = true ∧ (cnis = [] ∨ "canal" ∈ cnis)) then CisController
  else CisCleanup.

(** A controller that k3s is given: one of the executor's, or one of these. *)
Inductive CustomController (C : Type) := OfExecutor (c : C) | OfPolicies (c : leader_controller).
Arguments OfExecutor {C} _.
Arguments OfPolicies {C} _.

(** [controllers.Server]. *)
Record ServerControllers (C : Type) := { LeaderControllers : list C; Controllers : list C }.
Arguments LeaderControllers {C} _.
Arguments Controllers {C} _.

Section process.
Context `{NameApi} `{CRI} `{HttpClient}.

(** The disk, the runtime and k3s's configuration, the executor that was set and
    the startup hooks. *)
Record process := Process {
  p_world : world;
  p_k3s : K3sConfig;
  p_executor : option Executor;
  p_hooks : list StartupHook
}.

Definition proc (A : Type) := faults → process → result A * process.

#[export] Instance proc_ret : MRet proc := λ A a _ p, (Ok a, p).
#[export] Instance proc_bind : MBind proc := λ A B f m flt p,
  let '(r, p') := m flt p in
  match r with Ok a => f a flt p' | Err e => (Err e, p') end.

Definition proc_attempt {A} (m : proc A) : proc (result A) := λ flt p,
  let '(r, p') := m flt p in (Ok r, p').

Definition lift_proc {A} (r : result A) : proc A := λ _ p, (r, p).

Definition set_world (w : world) (p : process) : process :=
  Process w (p_k3s p) (p_executor p) (p_hooks p).

Definition on_world {A} (m : act A) : proc A := λ flt p,
  let '(r, w) := m flt (p_world p) in (r, set_world w p).

Definition on_disk {A} (m : io A) : proc A := on_world (on_fs m).

Definition get_k3s : proc K3sConfig := λ _ p, (Ok (p_k3s p), p).
Definition put_k3s (k : K3sConfig) : proc unit := λ _ p,
  (Ok (), Process (p_world p) k (p_executor p) (p_hooks p)).

(** [executor.Set]. *)
Definition executor_Set (ex : Executor) : proc unit := λ _ p,
  (Ok (), Process (p_world p) (p_k3s p) (Some ex) (p_hooks p)).

Definition append_hooks (l : list StartupHook) : proc unit := λ _ p,
  (Ok (), Process (p_world p) (p_k3s p) (p_executor p) (p_hooks p ++ l)).

(** ** Starting *)

Context (defaults : Defaults).
(** the process identifier, the environment, and the output of commands *)
Context (Getpid : Z) (Getenv : string → string) (run_command : string → list string → result string).
(** the network when the host name is asked for, and the other answers from
    outside *)
Context (net : network) (answers : Answers).
(** the flags that the command defines *)
Context (flag_defined : string → bool).
(** [cmds.DisableItems] of k3s *)
Context (DisableItems : string).
(** the type assertion [ex.(controllers.Server)]; no executor of this repository
    has these methods *)
Context {C : Type} (as_Server : Executor → option (ServerControllers C)).
(** [server.RunWithControllers] and [agent.Run] *)
Context (RunWithControllers : Context → list (CustomController C) → list (CustomController C) → proc unit).
Context (agent_Run : Context → proc unit).

(** [clx.Set], which refuses a flag the command does not have. *)
Definition clx_Set (name : string) (f : Context → Context) (clx : Context) : result Context :=
  if flag_defined name then Ok (f clx) else Err (ErrMsg ("no such flag -" +:+ name)).

Definition host_answers : Answers := {|
  SchemeAndAddress := SchemeAndAddress answers;
  metadata_hostname := (hostnameFromMetadataEndpoint net).1;
  host_fqdn := hostnameFQDN run_command; cri_env := cri_env answers; cri_polls := cri_polls answers;
  cri_woken := cri_woken answers; item_order := item_order answers;
  resource_order := resource_order answers; probe_order := probe_order answers |}.

Definition reexecs : bool :=
  bool_decide (Getpid = 1%Z) && negb (bool_decide (Getenv "_K3S_LOG_REEXEC_" = "true")).

Definition setup (cfg : NodeConfig) (isServer : bool) (clx : Context)
    : proc (option (ServerControllers C) * Context) :=
  if reexecs then mret (None, clx) else
  k ← get_k3s;
  '(ex, flags, k) ← on_world (act_with_message "failed to initialize executor"
     (initExecutor defaults host_answers cfg isServer (c_Flags clx) k));
  put_k3s k;;
  executor_Set ex;;
  mret (as_Server ex, {| c_Flags := flags; c_Slices := c_Slices clx |}).

(** The loop over k3s's packaged components. *)
Fixpoint disable_items (items : list string) (clx : Context) : result Context :=
  match items with
  | [] => Ok clx
  | item :: rest =>
      let item := TrimSpace item in
      if flag_Bool (c_Flags clx) ("enable-" +:+ item) then disable_items rest clx
      else clx ← clx_Set "disable" (add_value "disable" item) clx; disable_items rest clx
  end.

Definition default_namespaces : list string := ["kube-system"; "default"; "kube-public"].

Definition server_hooks (clx : Context) : list StartupHook :=
  let cisMode := flag_isCISMode (c_Flags clx) in
  [SetNetworkPolicies cisMode default_namespaces; SetClusterRoles;
   RestrictServiceAccounts cisMode default_namespaces; SetKubeProxyDisabled;
   CleanupStaticPodsOnSelfDelete (flag_String (c_Flags clx) "data-dir")].

(** What k3s's server is started with. *)
Record launch := {
  l_Context : Context;
  l_Leader : list (CustomController C);
  l_Controllers : list (CustomController C)
}.

(** [Server], up to the call of [RunWithControllers]. *)
Definition prepare (cfg : NodeConfig) (clx : Context) : proc launch :=
  '(serverControllers, clx) ← setup cfg true clx;
  clx ← lift_proc (clx_Set "secrets-encryption" (set_true "secrets-encryption") clx);
  clx ← lift_proc (disable_items (Split comma DisableItems) clx);
  append_hooks (server_hooks clx);;
  let '(leaderControllers, controllers) :=
    match serverControllers with
    | Some c => (OfExecutor <$> LeaderControllers c, OfExecutor <$> Controllers c)
    | None => ([], [])
    end in
  let policies := OfPolicies (network_policy_controller clx (c_Slices clx "cni")) in
  mret {| l_Context := clx; l_Leader := leaderControllers ++ [policies]; l_Controllers := controllers |}.

Definition Server (cfg : NodeConfig) (clx : Context) : proc unit :=
  l ← prepare cfg clx;
  RunWithControllers (l_Context l) (l_Leader l) (l_Controllers l).

Definition Agent (cfg : NodeConfig) (clx : Context) : proc unit :=
  '(_, clx) ← setup cfg false clx;
  agent_Run clx.

(** ** The commands *)

Context (order_params : gmap string Z → list (string * Z)) (order_charts : gset string → list string).
Context (Lookup LookupGroup : string → result unit).

Definition server_checks (clx : Context) : proc Context :=
  clx ← lift_proc (validateCloudProvider clx Cmds.Server);
  clx ← on_disk (validateProfile order_params Lookup LookupGroup clx Cmds.Server);
  lift_proc (validateCNI order_charts clx).

Definition ServerRun (cfg : NodeConfig) (clx : Context) : proc unit :=
  clx ← server_checks clx;
  Server cfg clx.

(** Outside Windows there are no services. *)
Definition StartService : result bool := Ok false.
Definition MonitorProcessExit : proc unit := mret ().

Definition AgentRun (cfg : NodeConfig) (clx : Context) : proc unit :=
  clx ← lift_proc (validateCloudProvider clx Cmds.Agent);
  clx ← on_disk (validateProfile order_params Lookup LookupGroup clx Cmds.Agent);
  isWinService ← lift_proc StartService;
  err ← proc_attempt (Agent cfg clx);
  (if isWinService : bool then MonitorProcessExit else mret ());;
  lift_proc err.

(** ** Theorems *)

(** All that [ServerRun] does before k3s takes over. *)
Definition server_start (cfg : NodeConfig) (clx : Context) : proc launch :=
  clx ← server_checks clx;
  prepare cfg clx.

Lemma ServerRun_launch cfg clx flt p r p' :
  ServerRun cfg clx flt p = (r, p') →
  (∃ e, r = Err e ∧ server_start cfg clx flt p = (Err e, p')) ∨
  ∃ l p1, server_start cfg clx flt p = (Ok l, p1) ∧
          RunWithControllers (l_Context l) (l_Leader l) (l_Controllers l) flt p1 = (r, p').
Proof.
  unfold ServerRun, Server, server_start, mbind, proc_bind.
  destruct (server_checks clx flt p) as [[clx1|e] p1]; [|intros [= <- <-]; left; by exists e].
  destruct (prepare cfg clx1 flt p1) as [[l|e] p2]; [|intros [= <- <-]; left; by exists e].
  intros Hr. right. by exists l, p2.
Qed.

Lemma proc_bind_Ok {A B} (m : proc A) (f : A → proc B) flt p b p' :
  (m ≫= f) flt p = (Ok b, p') → ∃ a p1, m flt p = (Ok a, p1) ∧ f a flt p1 = (Ok b, p').
Proof. unfold mbind, proc_bind. destruct (m flt p) as [[a|e] p1]; [|done]. eauto. Qed.

Lemma on_world_Ok {A} (m : act A) flt p a p' :
  on_world m flt p = (Ok a, p') → ∃ w, m flt (p_world p) = (Ok a, w) ∧ p' = set_world w p.
Proof. unfold on_world. destruct (m flt (p_world p)) as [r w]. intros [= -> <-]. eauto. Qed.

Lemma lift_proc_Ok {A} (r : result A) flt p a p' : lift_proc r flt p = (Ok a, p') → r = Ok a ∧ p' = p.
Proof. by intros [= -> ->]. Qed.

(** What a start leaves alone: the switches and most texts. *)
Definition flags_kept (f f' : Flags) : Prop :=
  flag_Bool f' = flag_Bool f ∧
  ∀ n, n ≠ "node-name" → n ≠ "system-default-registry" → flag_String f' n = flag_String f n.

Lemma initExecutor_kept ans cfg isServer flags k flt w ex flags' k' w' :
  initExecutor defaults ans cfg isServer flags k flt w = (Ok (ex, flags', k'), w') →
  flags_kept flags flags' ∧ x_ProfileMode (ex_Config ex) = profileMode flags.
Proof.
  intros (cfg1 & f1 & k1 & w1 & Hinit & _ & Hb & Hf & _)%initExecutor_inv.
  apply initStaticPodExecutor_flags in Hinit as (Hb' & Hs & Hm & _).
  split; [split|].
  - by rewrite Hb'.
  - intros n Hn Hr. rewrite Hs by done. by apply Hf.
  - rewrite Hm. unfold profileMode. by rewrite !(proj1 (Hf "profile" ltac:(done))).
Qed.

Lemma setup_Ok cfg isServer clx flt p sc clx' p' :
  setup cfg isServer clx flt p = (Ok (sc, clx'), p') →
  c_Slices clx' = c_Slices clx ∧ flags_kept (c_Flags clx) (c_Flags clx') ∧ p_hooks p' = p_hooks p ∧
  if reexecs then p' = p
  else ∃ ex k, p_executor p' = Some ex ∧ sc = as_Server ex ∧
         initExecutor defaults host_answers cfg isServer (c_Flags clx) (p_k3s p) flt (p_world p)
         = (Ok (ex, c_Flags clx', k), p_world p').
Proof.
  unfold setup. destruct reexecs; [by intros [= _ <- <-]|].
  intros (k & p1 & [= <- <-] & E)%proc_bind_Ok. apply proc_bind_Ok in E as ([[ex flags] k] & p2 & E2 & E).
  apply on_world_Ok in E2 as (w & E2%act_with_message_Ok & ->).
  apply proc_bind_Ok in E as ([] & p3 & [= <-] & E). apply proc_bind_Ok in E as ([] & p4 & [= <-] & E).
  injection E as <- <- <-. cbn. split_and!; [done|by eapply initExecutor_kept|done|]. by exists ex, k.
Qed.

(** The packaged components that are not enabled. *)
Definition packaged (clx : Context) : list string :=
  filter (λ i, flag_Bool (c_Flags clx) ("enable-" +:+ i) = false) (TrimSpace <$> Split comma DisableItems).

Lemma disable_items_Ok items clx clx' :
  disable_items items clx = Ok clx' →
  clx' = disable (filter (λ i, flag_Bool (c_Flags clx) ("enable-" +:+ i) = false) (TrimSpace <$> items)) clx.
Proof.
  revert clx. induction items as [|i items IH]; intros clx; cbn [disable_items]; [by intros [= <-]|].
  rewrite fmap_cons, filter_cons. destruct (flag_Bool _ ("enable-" +:+ TrimSpace i)) eqn:Hb.
  - rewrite decide_False by congruence. apply IH.
  - rewrite decide_True by done. unfold clx_Set. destruct (flag_defined "disable"); [|done].
    cbn [mbind result_bind]. by intros ->%IH.
Qed.

Lemma prepare_Ok cfg clx flt p l p' :
  prepare cfg clx flt p = (Ok l, p') →
  ∃ sc clx1 p1, setup cfg true clx flt p = (Ok (sc, clx1), p1) ∧
    let clx2 := set_true "secrets-encryption" clx1 in
    l_Context l = disable (packaged clx2) clx2 ∧
    p' = Process (p_world p1) (p_k3s p1) (p_executor p1) (p_hooks p1 ++ server_hooks (l_Context l)) ∧
    OfPolicies (network_policy_controller (l_Context l) (c_Slices (l_Context l) "cni")) ∈ l_Leader l ∧
    ∀ c, OfPolicies c ∈ l_Leader l → c = network_policy_controller (l_Context l) (c_Slices (l_Context l) "cni").
Proof.
  unfold prepare. intros ([sc clx1] & p1 & E1 & E)%proc_bind_Ok.
  apply proc_bind_Ok in E as (clx2 & p2 & [E2 ->]%lift_proc_Ok & E).
  unfold clx_Set in E2. destruct (flag_defined _); [|done]. injection E2 as <-.
  apply proc_bind_Ok in E as (clx3 & p3 & [->%disable_items_Ok ->]%lift_proc_Ok & E).
  apply proc_bind_Ok in E as ([] & p4 & [= <-] & E).
  exists sc, clx1, p1. split; [done|].
  assert (∀ (x : leader_controller) (cs : list C), OfPolicies x ∉ OfExecutor <$> cs) as Hno
    by (intros x cs (? & [=] & _)%list_elem_of_fmap).
  destruct sc as [c|]; injection E as <- <-; cbn [l_Context l_Leader].
  - split_and!; [done|done|apply elem_of_app; right; by left|].
    intros c' [Hc|Hc]%elem_of_app; [by apply Hno in Hc|by apply list_elem_of_singleton in Hc as [= ->]].
  - split_and!; [done|done|by left|]. by intros c' [= ->]%list_elem_of_singleton.
Qed.

(** The steps of a start that gets to k3s. *)
Record started (cfg : NodeConfig) (clx : Context) (flt : faults) (p : process) (l : launch) (p' : process)
    (clx1 clx2 clx3 clx4 : Context) (s : fs) (p1 : process) : Prop := {
  st_provider : validateCloudProvider clx Cmds.Server = Ok clx1;
  st_profile : validateProfile order_params Lookup LookupGroup clx1 Cmds.Server flt (w_fs (p_world p))
               = (Ok clx2, s);
  st_cni : validateCNI order_charts clx2 = Ok clx3;
  st_setup : ∃ sc, setup cfg true clx3 flt
                     (set_world (World s (w_rt (p_world p)) (w_removed (p_world p))) p) = (Ok (sc, clx4), p1);
  st_Context : l_Context l = let clx5 := set_true "secrets-encryption" clx4 in disable (packaged clx5) clx5;
  st_process : p' = Process (p_world p1) (p_k3s p1) (p_executor p1) (p_hooks p1 ++ server_hooks (l_Context l));
  st_Leader c : OfPolicies c ∈ l_Leader l ↔
    c = network_policy_controller (l_Context l) (c_Slices (l_Context l) "cni")
}.

Lemma server_start_Ok cfg clx flt p l p' :
  server_start cfg clx flt p = (Ok l, p') →
  ∃ clx1 clx2 clx3 clx4 s p1, started cfg clx flt p l p' clx1 clx2 clx3 clx4 s p1.
Proof.
  unfold server_start, server_checks. intros (clx3 & p3 & E & Hp)%proc_bind_Ok.
  apply proc_bind_Ok in E as (clx1 & p1 & [E1 ->]%lift_proc_Ok & E).
  apply proc_bind_Ok in E as (clx2 & p2 & E2 & [E3 ->]%lift_proc_Ok).
  unfold on_disk, on_world, on_fs in E2.
  destruct (validateProfile _ _ _ _ _ _ _) as [r s] eqn:Ep. injection E2 as -> <-.
  apply prepare_Ok in Hp as (sc & clx4 & p4 & Hs & Hc & Hp' & Hl & Hl').
  exists clx1, clx2, clx3, clx4, s, p4. split; [done|done|done|by exists sc|done|done|].
  intros c. split; [by apply Hl'|by intros ->].
Qed.

(** What the flags are at the end of a start. *)
Lemma started_kept cfg clx flt p l p' clx1 clx2 clx3 clx4 s p1 :
  (∀ s, order_charts s ≡ₚ elements s) →
  started cfg clx flt p l p' clx1 clx2 clx3 clx4 s p1 →
  kept clx clx3 ∧ flag_Bool (c_Flags clx3) = flag_Bool (c_Flags clx2) ∧
  flags_kept (c_Flags clx3) (c_Flags clx4) ∧
  flag_String (c_Flags (l_Context l)) = flag_String (c_Flags clx4) ∧
  (∀ n, flag_Bool (c_Flags (l_Context l)) n = bool_decide (n = "secrets-encryption") || flag_Bool (c_Flags clx4) n) ∧
  (∀ n, n ≠ "disable" → c_Slices (l_Context l) n = c_Slices clx n).
Proof.
  intros Ho [E1 E2 E3 [sc E4] E5 E6 _].
  pose proof (validateCNI_run order_charts clx2 Ho) as Hcni. rewrite E3 in Hcni.
  destruct Hcni as (_ & ld & -> & _).
  assert (kept clx (disable ld clx2)) as Hk.
  { transitivity clx1; [by eapply kept_validateCloudProvider|].
    transitivity clx2; [by eapply kept_validateProfile|]. apply kept_disable. }
  apply setup_Ok in E4 as (Hs & Hf & _ & _). rewrite E5. cbn zeta.
  set (clx5 := set_true "secrets-encryption" clx4).
  destruct (disable_flags (packaged clx5) clx5) as [HS HB].
  split_and!; [done|by apply disable_flags|done|by rewrite HS|by rewrite HB|].
  intros n Hn. rewrite disable_slices, decide_False by done. cbn [clx5 set_true c_Slices].
  rewrite Hs. by apply kept_Slices.
Qed.

Lemma started_cis cfg clx flt p l p' clx1 clx2 clx3 clx4 s p1 :
  (∀ s, order_charts s ≡ₚ elements s) →
  started cfg clx flt p l p' clx1 clx2 clx3 clx4 s p1 →
  flag_isCISMode (c_Flags clx1) = flag_isCISMode (c_Flags clx) ∧
  flag_isCISMode (c_Flags clx3) = flag_isCISMode (c_Flags clx) ∧
  flag_isCISMode (c_Flags (l_Context l)) = flag_isCISMode (c_Flags clx).
Proof.
  intros Ho Hst. destruct (started_kept _ _ _ _ _ _ _ _ _ _ _ _ Ho Hst) as (Hk & _ & [_ Hf] & HS & _).
  apply st_provider, kept_validateCloudProvider in Hst. unfold flag_isCISMode. rewrite HS.
  rewrite Hf by done. by rewrite (kept_String _ _ Hst), (kept_String _ _ Hk).
Qed.

(** The names [enable-...] are none that a start switches on. *)
Lemma enable_flags clx clx' i :
  kept clx clx' → flag_Bool (c_Flags clx') ("enable-" +:+ i) = flag_Bool (c_Flags clx) ("enable-" +:+ i).
Proof. intros Hk. by apply (kept_Bool _ _ Hk). Qed.

(** C6: The charts that a server which gets to k3s does not deploy, under every
    fault schedule and iteration order, are exactly those of the operator's own
    list, those of the bundled cloud providers that were not chosen, those of the
    CNI plugins that were not selected (and multus unless asked for), and k3s's
    packaged components that were not enabled; and it gets there only with one
    known CNI plugin (or none) selected. *)
Theorem server_disable_list cfg clx flt p l p' :
  (∀ s, order_charts s ≡ₚ elements s) →
  server_start cfg clx flt p = (Ok l, p') →
  cni_ok clx ∧
  ∀ c, c ∈ c_Slices (l_Context l) "disable" ↔
    c ∈ c_Slices clx "disable" ∨
    c ∈ other_charts (flag_String (c_Flags clx) "cloud-provider-name") ∨
    cni_disabled clx c ∨
    c ∈ packaged clx.
Proof.
  intros Ho (clx1 & clx2 & clx3 & clx4 & s & p1 & Hst)%server_start_Ok.
  pose proof (started_kept _ _ _ _ _ _ _ _ _ _ _ _ Ho Hst) as (Hk & _ & [Hf _] & _ & _ & _).
  destruct Hst as [E1 E2 E3 [sc E4] E5 _ _].
  assert (kept clx clx2) as Hk2
    by (transitivity clx1; [by eapply kept_validateCloudProvider|by eapply kept_validateProfile]).
  destruct (primary_kept _ _ Hk2) as [Hm Hprim].
  pose proof (validateCloudProvider_spec clx Cmds.Server) as Hcp. rewrite E1 in Hcp.
  destruct Hcp as (_ & Hcp & _). rewrite decide_True in Hcp by done.
  pose proof (validateCNI_run order_charts clx2 Ho) as Hcni. rewrite E3 in Hcni.
  destruct Hcni as ((d & Hd & Hknown) & ld & -> & Hld). split; [exists d; by rewrite <-Hprim|].
  assert (packaged (set_true "secrets-encryption" clx4) = packaged clx) as Hpk.
  { unfold packaged. apply list_filter_iff. intros i. cbn [set_true c_Flags flag_Bool].
    rewrite Hf. by rewrite <-(enable_flags _ _ i Hk). }
  apply validateProfile_Slices in E2. apply setup_Ok in E4 as (Hs & _).
  intros c. rewrite E5. cbn zeta. rewrite Hpk, disable_slices, decide_True by done.
  cbn [set_true c_Slices]. rewrite Hs, disable_slices, decide_True, E2, Hcp by done.
  rewrite !elem_of_app, Hld. unfold cni_disabled. rewrite Hm, Hprim. clear. tauto.
Qed.

(** Which controller of the network policies a CIS server runs. *)
Lemma started_controller cfg clx flt p l p' :
  (∀ s, order_charts s ≡ₚ elements s) →
  flag_String (c_Flags clx) "profile" = ProfileCIS →
  server_start cfg clx flt p = (Ok l, p') →
  cni_ok clx ∧
  ∀ c, OfPolicies c ∈ l_Leader l ↔
    c = (if decide (c_Slices clx "cni" = [] ∨ "canal" ∈ c_Slices clx "cni") then CisController else CisCleanup).
Proof.
  intros Ho Hcis (clx1 & clx2 & clx3 & clx4 & s & p1 & Hst)%server_start_Ok.
  pose proof (started_kept _ _ _ _ _ _ _ _ _ _ _ _ Ho Hst) as (_ & _ & _ & _ & _ & HL).
  destruct (started_cis _ _ _ _ _ _ _ _ _ _ _ _ Ho Hst) as (_ & _ & Hcl).
  assert (kept clx clx2) as Hk2.
  { destruct Hst. transitivity clx1; [by eapply kept_validateCloudProvider|by eapply kept_validateProfile]. }
  destruct (primary_kept _ _ Hk2) as [Hm Hprim]. split.
  - destruct Hst as [_ _ E3 _ _ _ _].
    pose proof (validateCNI_run order_charts clx2 Ho) as Hcni. rewrite E3 in Hcni.
    destruct Hcni as [(d & Hd & Hknown) _]. exists d. by rewrite <-Hprim.
  - intros c. rewrite (st_Leader _ _ _ _ _ _ _ _ _ _ _ _ Hst). unfold network_policy_controller.
    unfold flag_isCISMode in *. rewrite Hcl, HL, Hcis, bool_decide_true by done.
    by destruct (decide (c_Slices clx "cni" = [] ∨ _)) as [Hd|Hd];
      [rewrite decide_True|rewrite decide_False by by intros [_ ?]].
Qed.

(** Values without a comma are the selection. *)
Lemma cni_values_plain clx :
  Forall (λ v, has_char comma v = false) (c_Slices clx "cni") →
  cni_values clx = match c_Slices clx "cni" with [] => ["canal"] | l => l end.
Proof.
  intros Hl. unfold cni_values.
  assert (c_Slices clx "cni" ≫= Split comma = c_Slices clx "cni") as ->; [|done].
  induction Hl as [|v l Hv _ IH]; [done|]. by rewrite bind_cons, IH, Split_no_char.
Qed.

Lemma canal_primary clx : "canal" ∈ primary clx ↔ "canal" ∈ cni_values clx.
Proof.
  unfold primary, with_multus. case_bool_decide as Hm; [|done].
  destruct (cni_values clx) as [|a l]; [done|]. injection Hm as ->. cbn [tail].
  rewrite elem_of_cons. split; [by right|]. by intros [?|?].
Qed.

(** C27: A CIS server that gets to k3s, with its CNI plugins given one by one, runs
    the controller that opens the network policies to the hosts of flannel if
    canal is the plugin of the cluster, and otherwise the cleanup that takes the
    policies away, and never both. *)
Theorem cis_controller_follows_cni cfg clx flt p l p' :
  (∀ s, order_charts s ≡ₚ elements s) →
  flag_String (c_Flags clx) "profile" = ProfileCIS →
  Forall (λ v, has_char comma v = false) (c_Slices clx "cni") →
  server_start cfg clx flt p = (Ok l, p') →
  (primary clx = ["canal"] → ∀ c, OfPolicies c ∈ l_Leader l ↔ c = CisController) ∧
  (primary clx ≠ ["canal"] → ∀ c, OfPolicies c ∈ l_Leader l ↔ c = CisCleanup).
Proof.
  intros Ho Hcis Hplain Hstart.
  destruct (started_controller _ _ _ _ _ _ Ho Hcis Hstart) as [(d & Hd & _) Hc].
  assert (c_Slices clx "cni" = [] ∨ "canal" ∈ c_Slices clx "cni" ↔ primary clx = ["canal"]) as Hsel.
  { transitivity ("canal" ∈ primary clx).
    2: { rewrite Hd, list_elem_of_singleton. split; [by intros ->|by intros [= ->]]. }
    rewrite canal_primary, cni_values_plain by done. destruct (c_Slices clx "cni") as [|a vs].
    - split; [by left|by left].
    - split; [by intros [?|?]|by right]. }
  split; intros Hp c; rewrite Hc; [rewrite decide_True by by apply Hsel|rewrite decide_False by by rewrite Hsel]; done.
Qed.

(** C28: A flaw: [Server] looks for canal among the values of the flag as they were
    given, while [validateCNI] splits them at commas.  A CIS server whose values
    are accepted and select canal, but only within a list such as multus,canal,
    runs the cleanup in place of the controller, although the chart of canal is
    not disabled. *)
Theorem canal_in_a_list_is_cleaned_up cfg clx flt p l p' :
  (∀ s, order_charts s ≡ₚ elements s) →
  flag_String (c_Flags clx) "profile" = ProfileCIS →
  "canal" ∈ primary clx → c_Slices clx "cni" ≠ [] → "canal" ∉ c_Slices clx "cni" →
  server_start cfg clx flt p = (Ok l, p') →
  (∀ c, OfPolicies c ∈ l_Leader l ↔ c = CisCleanup) ∧ ¬ cni_disabled clx "rke2-canal".
Proof.
  intros Ho Hcis Hsel Hne Hno Hstart.
  destruct (started_controller _ _ _ _ _ _ Ho Hcis Hstart) as [_ Hc]. split.
  - intros c. rewrite Hc. by rewrite decide_False by by intros [?|?].
  - intros [[? _]|(d & Hd & Hnp & Hch)]; [done|]. apply Hnp.
    assert (d = "canal") as ->; [|done]. apply (chart_names_inj "rke2-canal"); [done| |done|].
    + left.
    + unfold CNIItems. apply (bool_decide_unpack _). done.
Qed.

(** The name of a node of a cloud whose metadata service behaves as documented,
    whether or not it serves or demands tokens: after a start with the aws
    provider, or with the flag for the metadata host name, the node is named by
    the host name of the instance, without surrounding space, and if the service
    has none by the full name of the host. *)
Theorem node_named_by_metadata `{!MetadataService} cfg isServer clx flt p sc clx' p' :
  nc_CloudProviderName cfg = "aws" ∨ nc_CloudProviderMetadataHostname cfg = true →
  reexecs = false →
  setup cfg isServer clx flt p = (Ok (sc, clx'), p') →
  let host := TrimSpace (instance_hostname net) in
  if decide (host = "")
  then ∃ out, run_command "hostname" ["-f"] = Ok out ∧
              flag_String (c_Flags clx') "node-name" = TrimSpace out
  else flag_String (c_Flags clx') "node-name" = host.
Proof.
  intros Hcfg Hre Hsetup. apply setup_Ok in Hsetup as (_ & _ & _ & Hex). rewrite Hre in Hex.
  destruct Hex as (ex & k & _ & _ & Hinit).
  apply initExecutor_inv in Hinit as (cfg1 & f1 & k1 & w1 & Hinit & Hcp & _).
  apply initStaticPodExecutor_parts in Hinit
    as (fr & rj & cp & md & tc & psa & s1 & s2 & w2 & w3 & _ & _ & Hcloud & Hname & _).
  assert (md = true) as ->.
  { rewrite Hcp in Hcloud. unfold cloud_provider in Hcloud.
    destruct Hcfg as [Haws|Hmd]; [rewrite Haws in Hcloud|rewrite Hmd in Hcloud];
      repeat case_decide; by simplify_eq. }
  unfold node_name in Hname. cbn [metadata_hostname host_answers host_fqdn] in Hname.
  rewrite hostname_found in Hname. cbn zeta. case_decide.
  - unfold hostnameFQDN in Hname. destruct (run_command "hostname" ["-f"]) as [out|]; [|done].
    injection Hname as <-. exists out. split; [done|]. cbn. by rewrite decide_True.
  - injection Hname as <-. cbn. by rewrite decide_True.
Qed.

(** The executor of a CIS start. *)
Lemma executor_hardened cfg flags flags0 k flt w ex flags' k' w' ds :
  (∀ m, item_order answers m ≡ₚ map_to_list m) →
  Forall (λ c, simple c = true) ds → ds ≠ [] →
  flag_String flags "profile" = ProfileCIS → flag_String flags0 "data-dir" = mkpath ds →
  (∀ n, n ≠ "cloud-provider-name" → flag_String flags n = flag_String flags0 n) →
  initExecutor defaults host_answers cfg true flags k flt w = (Ok (ex, flags', k'), w') →
  x_ProfileMode (ex_Config ex) = ProfileModeCIS ∧
  let psa := flag_String flags0 "pod-security-admission-config-file" in
  if decide (psa = "")
  then x_PSAConfigFile (ex_Config ex) = defaultPSAConfigFile ∧
       file_content (nodes (w_fs w')) defaultPSAConfigFile = Some restrictedPSAConfig
  else x_PSAConfigFile (ex_Config ex) = psa.
Proof.
  intros Hoi Hds Hne Hp Hdir Hflags Hinit.
  destruct (initExecutor_kept _ _ _ _ _ _ _ _ _ _ _ Hinit) as [_ Hm]. split.
  { rewrite Hm. unfold profileMode. by rewrite decide_True. }
  cbn zeta. rewrite <-Hflags in Hdir |- * by done.
  apply initExecutor_inv in Hinit as (cfg1 & f1 & k1 & w1 & Hinit & _ & _ & Hf & _).
  rewrite <-(proj1 (Hf "data-dir" ltac:(done))) in Hdir.
  rewrite <-(proj1 (Hf "pod-security-admission-config-file" ltac:(done))).
  eapply initStaticPodExecutor_psa in Hinit; [|done..]. revert Hinit. case_decide; [|done].
  unfold flag_isCISMode. by rewrite (proj1 (Hf "profile" ltac:(done))), Hp, bool_decide_true.
Qed.

(** C3: Starting a server with the CIS profile, under every fault schedule:
    either it ends in an error before k3s runs, or k3s is started on a hardened
    node: every kernel parameter of the guide had the required value, the etcd
    user and group exist, kernel defaults are protected and secrets encrypted,
    the hooks of CIS mode are installed; and, unless the process is about to be
    executed again, the executor is set, in CIS mode, and the pod security file
    it passes on is the operator's or, on disk, the restricted one. *)
Theorem cis_server_hardened cfg clx flt p r p' ds :
  (∀ m, order_params m ≡ₚ map_to_list m) → (∀ s, order_charts s ≡ₚ elements s) →
  (∀ m, item_order answers m ≡ₚ map_to_list m) →
  Forall (λ c, simple c = true) ds → ds ≠ [] → flag_String (c_Flags clx) "data-dir" = mkpath ds →
  flag_String (c_Flags clx) "profile" = ProfileCIS →
  ServerRun cfg clx flt p = (r, p') →
  (∃ e, r = Err e ∧ server_start cfg clx flt p = (Err e, p')) ∨
  ∃ l p1, RunWithControllers (l_Context l) (l_Leader l) (l_Controllers l) flt p1 = (r, p') ∧
    (∀ k z, kernelRuntimeParameters !! k = Some z →
       ∃ v, file_content (nodes (w_fs (p_world p))) (sysctl_path k) = Some v ∧
            sysctl_value (ReplaceAll k "." "/") v = Ok z) ∧
    Lookup "etcd" = Ok () ∧ LookupGroup "etcd" = Ok () ∧
    flag_Bool (c_Flags (l_Context l)) "protect-kernel-defaults" = true ∧
    flag_Bool (c_Flags (l_Context l)) "secrets-encryption" = true ∧
    p_hooks p1 = p_hooks p ++
      [SetNetworkPolicies true default_namespaces; SetClusterRoles;
       RestrictServiceAccounts true default_namespaces; SetKubeProxyDisabled;
       CleanupStaticPodsOnSelfDelete (mkpath ds)] ∧
    (reexecs = false →
     ∃ ex, p_executor p1 = Some ex ∧ x_ProfileMode (ex_Config ex) = ProfileModeCIS ∧
       let psa := flag_String (c_Flags clx) "pod-security-admission-config-file" in
       if decide (psa = "")
       then x_PSAConfigFile (ex_Config ex) = defaultPSAConfigFile ∧
            file_content (nodes (w_fs (p_world p1))) defaultPSAConfigFile = Some restrictedPSAConfig
       else x_PSAConfigFile (ex_Config ex) = psa).
Proof.
  intros Hop Hoc Hoi Hds Hne Hdir Hcis Hrun.
  destruct (ServerRun_launch _ _ _ _ _ _ Hrun) as [Herr|(l & p2 & Hstart & Hgo)]; [by left|right].
  exists l, p2. split; [done|]. apply server_start_Ok in Hstart as (clx1 & clx2 & clx3 & clx4 & s & p1 & Hst).
  pose proof (started_kept _ _ _ _ _ _ _ _ _ _ _ _ Hoc Hst) as (Hk & HB3 & Hf & HS & HB & _).
  pose proof (started_cis _ _ _ _ _ _ _ _ _ _ _ _ Hoc Hst) as (Hc1 & Hc3 & Hcl).
  unfold flag_isCISMode in *. rewrite Hcis, (bool_decide_true (ProfileCIS = ProfileCIS)) in * by done.
  apply bool_decide_eq_true in Hc1, Hc3, Hcl.
  assert (∀ n, n ≠ "cloud-provider-name" → n ≠ "node-name" → n ≠ "system-default-registry" →
    flag_String (c_Flags (l_Context l)) n = flag_String (c_Flags clx) n) as Hstr.
  { intros n ? ? ?. rewrite HS, (proj2 Hf) by done. by apply kept_String. }
  destruct Hst as [_ Hprof Hcni [sc Hsetup] _ -> _].
  apply validateProfile_hardened in Hprof as (Hkern & Hprot & Hetcd & _); [|done..].
  destruct (Hetcd eq_refl) as [Hu Hg].
  apply setup_Ok in Hsetup as (_ & _ & Hhooks & Hex). cbn [p_world p_hooks p_executor set_world] in *.
  split_and!; [done|done|done| | | |].
  - unfold protectKernelDefaultsFlagName in Hprot. by rewrite HB, (proj1 Hf), HB3, Hprot.
  - by rewrite HB.
  - rewrite Hhooks. f_equal. unfold server_hooks, flag_isCISMode.
    by rewrite Hcl, (bool_decide_true (ProfileCIS = ProfileCIS)), Hstr, Hdir.
  - intros Hre. rewrite Hre in Hex. destruct Hex as (ex & k & -> & _ & Hinit). exists ex. split; [done|].
    eapply (executor_hardened cfg _ (c_Flags clx)); [done|done|done|exact Hc3|done| |exact Hinit].
    apply (kept_String _ _ Hk).
Qed.
End process.

(** ** A concrete node *)

(** A metadata service that demands tokens; the state is the tokens it gave. *)
Module SimpleMetadata.
#[export] Instance client : HttpClient := {|
  network := list string;
  http_Do req n :=
    if decide (req = token_request) then (ok_response (Join "," ("t" :: n)), Join "," ("t" :: n) :: n)
    else match hq_Header req with
         | [(_, t)] => if decide (hq_Method req = "GET" ∧ t ∈ n)
                       then (ok_response (" ip-10-0-0-1.ec2.internal" +:+ newline), n)
                       else (Ok {| StatusCode := 401; Body := Ok "" |}, n)
         | _ => (Ok {| StatusCode := 401; Body := Ok "" |}, n)
         end
|}.

#[export] Instance service : MetadataService.
Proof.
  refine {| instance_hostname (n : @network client) := " ip-10-0-0-1.ec2.internal" +:+ newline;
            serves_tokens := true; requires_token := true;
            valid_token (n : @network client) t := t ∈ n |}.
  - done.
  - intros n _. eexists _, _. cbn [http_Do client]. rewrite decide_True by done.
    split; [done|]. split_and!; [|by left|done]. by destruct n.
  - done.
  - intros n t Ht. cbn [http_Do client hq_Header hostname_request].
    rewrite decide_False by done. by rewrite decide_True.
  - done.
Defined.
End SimpleMetadata.

#[local] Existing Instance SimpleName.api.
#[local] Existing Instance SimpleLib.lib.
#[local] Existing Instance SimpleCRI.cri.
#[local] Existing Instance SimpleMetadata.client.
#[local] Existing Instance SimpleMetadata.service.

(** A server that meets the CIS profile. *)
Definition sample_node : process :=
  Process (World (MkFS (nodes hardened ∪ nodes (w_fs sample_reset)) 0 []) (w_rt sample_reset) [])
          sample_k3s None [].

Definition server_flags (cni : list string) : Context :=
  sample_context [("profile", "cis"); ("data-dir", "/d")] cni.

Definition no_variables (_ : string) : string := "".
Definition packaged_items := "ccm, coredns,servicelb".
Definition no_controllers (_ : Executor) : option (ServerControllers unit) := None.
Definition started_well (_ : Context) (_ _ : list (CustomController unit)) : proc unit := mret ().

Definition no_tokens : network := ([] : list string).

Definition sample_run (cni : list string) :=
  ServerRun build_defaults 7 no_variables (λ _ _, Ok "node1") no_tokens sample_answers (λ _, true) packaged_items
    no_controllers started_well map_to_list elements (λ _, Ok ()) (λ _, Ok ()) sample_node_config
    (server_flags cni) no_faults sample_node.

Definition sample_server_start (cni : list string) :=
  server_start build_defaults 7 no_variables (λ _ _, Ok "node1") no_tokens sample_answers (λ _, true) packaged_items
    no_controllers map_to_list elements (λ _, Ok ()) (λ _, Ok ()) sample_node_config
    (server_flags cni) no_faults sample_node.

Lemma elements_order (s : gset string) : elements s ≡ₚ elements s.
Proof. done. Qed.

Lemma cis_server_hardened_witness :
  ∃ ex, p_executor (sample_run ["canal"]).2 = Some ex ∧
    x_ProfileMode (ex_Config ex) = ProfileModeCIS ∧
    file_content (nodes (w_fs (p_world (sample_run ["canal"]).2))) defaultPSAConfigFile = Some restrictedPSAConfig.
Proof.
  assert (is_Ok (sample_run ["canal"]).1 = true) as Hok by (vm_compute; reflexivity).
  destruct (sample_run ["canal"]) as [r p'] eqn:E. cbn [fst snd] in *.
  destruct (cis_server_hardened build_defaults 7 no_variables (λ _ _, Ok "node1") no_tokens sample_answers (λ _, true)
    packaged_items no_controllers started_well map_to_list elements (λ _, Ok ()) (λ _, Ok ())
    sample_node_config (server_flags ["canal"]) no_faults sample_node r p' ["d"]
    (λ m, Permutation_refl _) elements_order map_to_list_order ltac:(by repeat constructor) ltac:(done)
    eq_refl eq_refl E) as [(e & -> & _)|(l & p1 & Hrun & _ & _ & _ & _ & _ & _ & Hex)]; [discriminate Hok|].
  injection Hrun as _ <-. destruct (Hex eq_refl) as (ex & Hset & Hmode & Hpsa).
  exists ex. split; [exact Hset|]. split; [exact Hmode|exact (proj2 Hpsa)].
Defined.

Lemma server_disable_list_witness :
  match (sample_server_start ["cilium"]).1 with
  | Ok l => "rke2-canal" ∈ c_Slices (l_Context l) "disable" ∧ "coredns" ∈ c_Slices (l_Context l) "disable"
  | Err _ => False
  end.
Proof.
  assert (is_Ok (sample_server_start ["cilium"]).1 = true) as Hok by (vm_compute; reflexivity).
  destruct (sample_server_start ["cilium"]) as [[l|e] p'] eqn:E; [|discriminate Hok]. cbn [fst].
  destruct (server_disable_list build_defaults 7 no_variables (λ _ _, Ok "node1") no_tokens sample_answers (λ _, true)
    packaged_items no_controllers map_to_list elements (λ _, Ok ()) (λ _, Ok ())
    sample_node_config (server_flags ["cilium"]) no_faults sample_node l p' elements_order E) as [_ H].
  split; apply H; do 2 right; [left; right; exists "canal"|right].
  - split; [apply (bool_decide_unpack _); vm_compute; exact I|].
    split; [apply (bool_decide_unpack _); vm_compute; exact I|left].
  - apply (bool_decide_unpack _). vm_compute. exact I.
Defined.

Lemma cis_controller_follows_cni_witness :
  match (sample_server_start []).1 with
  | Ok l => OfPolicies CisController ∈ l_Leader l | Err _ => False
  end.
Proof.
  assert (is_Ok (sample_server_start []).1 = true) as Hok by (vm_compute; reflexivity).
  destruct (sample_server_start []) as [[l|e] p'] eqn:E; [|discriminate Hok]. cbn [fst].
  apply (proj1 (cis_controller_follows_cni build_defaults 7 no_variables (λ _ _, Ok "node1") no_tokens sample_answers
    (λ _, true) packaged_items no_controllers map_to_list elements (λ _, Ok ()) (λ _, Ok ())
    sample_node_config (server_flags []) no_faults sample_node l p' elements_order eq_refl
    (Forall_nil_2 _) E) eq_refl). reflexivity.
Defined.

Lemma canal_in_a_list_is_cleaned_up_witness :
  match (sample_server_start ["multus,canal"]).1 with
  | Ok l => OfPolicies CisCleanup ∈ l_Leader l ∧ ¬ cni_disabled (server_flags ["multus,canal"]) "rke2-canal"
  | Err _ => False
  end.
Proof.
  assert (is_Ok (sample_server_start ["multus,canal"]).1 = true) as Hok by (vm_compute; reflexivity).
  destruct (sample_server_start ["multus,canal"]) as [[l|e] p'] eqn:E; [|discriminate Hok]. cbn [fst].
  assert ("canal" ∈ primary (server_flags ["multus,canal"])) as Hin by (vm_compute; left).
  assert ("canal" ∉ c_Slices (server_flags ["multus,canal"]) "cni") as Hno
    by (intros [Hc|Hc%elem_of_nil]%elem_of_cons; [discriminate Hc|exact Hc]).
  destruct (canal_in_a_list_is_cleaned_up build_defaults 7 no_variables (λ _ _, Ok "node1") no_tokens sample_answers
    (λ _, true) packaged_items no_controllers map_to_list elements (λ _, Ok ()) (λ _, Ok ())
    sample_node_config (server_flags ["multus,canal"]) no_faults sample_node l p' elements_order eq_refl
    Hin ltac:(discriminate) Hno E) as [H Hn].
  split; [apply H; reflexivity|exact Hn].
Defined.

(** A node of the aws provider. *)
Definition aws_config : NodeConfig := {|
  nc_Template := sample_cli; nc_CloudProviderConfig := ""; nc_CloudProviderName := "aws";
  nc_CloudProviderMetadataHostname := false; nc_KubeletPath := ""; nc_IngressController := [] |}.

Definition aws_setup :=
  setup build_defaults 7 no_variables (λ _ _, Ok "node1") no_tokens sample_answers no_controllers aws_config false
    (server_flags []) no_faults sample_node.

Lemma node_named_by_metadata_witness :
  match aws_setup.1 with
  | Ok (_, clx') => flag_String (c_Flags clx') "node-name" = "ip-10-0-0-1.ec2.internal"
  | Err _ => False
  end.
Proof.
  assert (is_Ok aws_setup.1 = true) as Hok by (vm_compute; reflexivity).
  destruct aws_setup as [[[sc clx']|e] p'] eqn:E; [|discriminate Hok]. cbn [fst].
  pose proof (node_named_by_metadata build_defaults 7 no_variables (λ _ _, Ok "node1") no_tokens sample_answers
    no_controllers aws_config false (server_flags []) no_faults sample_node sc clx' p'
    (or_introl eq_refl) eq_refl E) as H.
  exact H.
Defined.
