(* ===== verification/ClusterRoles.v ===== *)
(** * ClusterRoles: the RBAC objects of the node's own components (pkg/rke2)

    clusterrole_bootstrap.go declares roles and bindings, clusterrole.go applies
    them when the apiserver is ready: the reconciler of the kube-apiserver adds
    what is missing, and a patch then takes away subjects that an older release
    has left.  The builders of the declarations, the reconciler and the patches
    are library code, classes with their documented laws. *)

From S2P Require Import Prelude GoStrings.

(** ** Objects *)

Record PolicyRule := { ru_Verbs : list string; ru_APIGroups : list string; ru_Resources : list string }.

Record ClusterRole := {
  cr_Name : string;
  cr_Labels : gmap string string;
  cr_Annotations : gmap string string;
  cr_Rules : list PolicyRule
}.

Record Subject := { su_APIGroup : string; su_Kind : string; su_Namespace : string; su_Name : string }.

(** A ClusterRoleBinding, or a RoleBinding in a namespace; the role is its kind
    and its name. *)
Record Binding := {
  bi_Name : string;
  bi_Labels : gmap string string;
  bi_Annotations : gmap string string;
  bi_RoleRef : string * string;
  bi_Subjects : list Subject
}.

Definition set_Name (n : string) (b : Binding) : Binding :=
  {| bi_Name := n; bi_Labels := bi_Labels b; bi_Annotations := bi_Annotations b;
     bi_RoleRef := bi_RoleRef b; bi_Subjects := bi_Subjects b |}.
Definition set_Subjects (l : list Subject) (b : Binding) : Binding :=
  {| bi_Name := bi_Name b; bi_Labels := bi_Labels b; bi_Annotations := bi_Annotations b;
     bi_RoleRef := bi_RoleRef b; bi_Subjects := l |}.

(** What [meta.Accessor] gives of an object. *)
Class Accessor (A : Type) := {
  GetLabels : A → gmap string string;
  SetLabels : gmap string string → A → A;
  GetAnnotations : A → gmap string string;
  SetAnnotations : gmap string string → A → A
}.

#[export] Instance role_accessor : Accessor ClusterRole := {|
  GetLabels := cr_Labels;
  SetLabels l r := {| cr_Name := cr_Name r; cr_Labels := l; cr_Annotations := cr_Annotations r;
                      cr_Rules := cr_Rules r |};
  GetAnnotations := cr_Annotations;
  SetAnnotations a r := {| cr_Name := cr_Name r; cr_Labels := cr_Labels r; cr_Annotations := a;
                           cr_Rules := cr_Rules r |}
|}.

#[export] Instance binding_accessor : Accessor Binding := {|
  GetLabels := bi_Labels;
  SetLabels l b := {| bi_Name := bi_Name b; bi_Labels := l; bi_Annotations := bi_Annotations b;
                      bi_RoleRef := bi_RoleRef b; bi_Subjects := bi_Subjects b |};
  GetAnnotations := bi_Annotations;
  SetAnnotations a b := {| bi_Name := bi_Name b; bi_Labels := bi_Labels b; bi_Annotations := a;
                           bi_RoleRef := bi_RoleRef b; bi_Subjects := bi_Subjects b |}
|}.

(** ** Builders *)

Class RbacHelpers := {
  (** [NewRule(verbs).Groups(groups).Resources(resources).RuleOrDie()] *)
  RuleOrDie : list string → list string → list string → result PolicyRule;
  NewClusterBinding : string → Binding;
  NewRoleBinding : string → string → Binding;
  Users : list string → Binding → Binding;
  BindingOrDie : Binding → result Binding
}.

Definition GroupName := "rbac.authorization.k8s.io".
Definition UserKind := "User".
Definition NamespaceSystem := "kube-system".

Definition user_subject (namespace user : string) : Subject :=
  {| su_APIGroup := GroupName; su_Kind := UserKind; su_Namespace := namespace; su_Name := user |}.

(** A rule or a binding with nothing missing is what was put in (a rule's lists in
    some order); a new binding has the name of its role and no subjects. *)
Class RbacHelpersLaws `{RbacHelpers} := {
  RuleOrDie_law v g r : v ≠ [] → g ≠ [] → r ≠ [] → ∃ ru, RuleOrDie v g r = Ok ru ∧
    ru_Verbs ru ≡ₚ v ∧ ru_APIGroups ru ≡ₚ g ∧ ru_Resources ru ≡ₚ r;
  NewClusterBinding_law n : NewClusterBinding n =
    {| bi_Name := n; bi_Labels := ∅; bi_Annotations := ∅; bi_RoleRef := ("ClusterRole", n); bi_Subjects := [] |};
  NewRoleBinding_law n ns : NewRoleBinding n ns =
    {| bi_Name := n; bi_Labels := ∅; bi_Annotations := ∅; bi_RoleRef := ("Role", n); bi_Subjects := [] |};
  Users_law us b : Users us b = set_Subjects (bi_Subjects b ++ (user_subject "" <$> us)) b;
  BindingOrDie_law b : bi_Subjects b ≠ [] → BindingOrDie b = Ok b
}.

(** ** clusterrole_bootstrap.go *)

Definition kubeletAPIServerRoleBindingName := "kube-apiserver-kubelet-admin".
Definition kubeProxyName := "system:kube-proxy".
Definition tunnelControllerName := "system:rke2-controller".
Definition cloudControllerManagerName := "rke2-cloud-controller-manager".

Definition appsGroup := "apps".
Definition coordinationGroup := "coordination.k8s.io".
Definition helmGroup := "helm.cattle.io".
Definition legacyGroup := "".
Definition networkingGroup := "networking.k8s.io".
Definition discoveryGroup := "discovery.k8s.io".

Definition AutoUpdateAnnotationKey := "rbac.authorization.kubernetes.io/autoupdate".
Definition label : gmap string string := {["rke2.io/bootstrapping" := "rbac-defaults"]}.
Definition annotation : gmap string string := {[AutoUpdateAnnotationKey := "true"]}.

(** The loops over the two maps write every entry, whatever the order. *)
Definition addDefaultMetadata `{Accessor A} (obj : A) : A :=
  let obj := SetLabels (label ∪ GetLabels obj) obj in
  SetAnnotations (annotation ∪ GetAnnotations obj) obj.

Definition addClusterRoleLabel (roles : list ClusterRole) : list ClusterRole := addDefaultMetadata <$> roles.
Definition addRoleLabel (roles : list ClusterRole) : list ClusterRole := addDefaultMetadata <$> roles.
Definition addClusterRoleBindingLabel (rolebindings : list Binding) : list Binding :=
  addDefaultMetadata <$> rolebindings.

Definition namespaced_users (namespace : string) (users : list string) (b : Binding) : Binding :=
  foldl (λ b user, set_Subjects (bi_Subjects b ++ [user_subject namespace user]) b) b users.

Definition RoleBindingNamespacedUsers := namespaced_users.
Definition ClusterRoleBindingNamespacedUsers := namespaced_users.
Definition RoleBindingName (name : string) (b : Binding) : Binding := set_Name name b.
Definition ClusterRoleBindingName (name : string) (b : Binding) : Binding := set_Name name b.

(** Verbs, groups and resources of a rule. *)
Definition rule_text : Type := list string * list string * list string.

(** The rules of the three roles. *)
Definition kube_proxy_rules : list rule_text :=
  [(["get"; "list"], [legacyGroup], ["nodes"])].

Definition tunnel_rules : list rule_text :=
  [(["get"], [legacyGroup], ["nodes"]);
   (["list"; "watch"], [legacyGroup], ["namespaces"]);
   (["list"; "watch"], [networkingGroup], ["networkpolicies"]);
   (["list"; "watch"; "get"], [legacyGroup], ["endpoints"; "pods"]);
   (["list"; "watch"; "get"], [discoveryGroup], ["endpointslices"]);
   (["create"], [legacyGroup], ["serviceaccounts/token"]);
   (["list"; "get"], [helmGroup], ["helmcharts"; "helmchartconfigs"])].

Definition cloud_controller_rules : list rule_text :=
  [(["get"; "create"; "update"], [coordinationGroup], ["leases"]);
   (["create"; "patch"; "update"], [legacyGroup], ["events"]);
   (["*"], [legacyGroup], ["nodes"]);
   (["patch"], [legacyGroup], ["nodes/status"; "services/status"]);
   (["get"; "list"; "watch"; "patch"; "update"], [legacyGroup], ["services"; "pods"]);
   (["create"; "get"], [legacyGroup], ["serviceaccounts"]);
   (["create"; "get"], [""], ["namespaces"]);
   (["*"], [appsGroup], ["daemonsets"]);
   (["get"; "list"; "watch"], [discoveryGroup], ["endpointslices"])].

Section bootstrap.
Context `{RbacHelpers}.

Definition new_rules (l : list rule_text) : result (list PolicyRule) :=
  mapM (λ '(v, g, r), RuleOrDie v g r) l.

Definition new_role (name : string) (l : list rule_text) : result ClusterRole :=
  rules ← new_rules l;
  Ok {| cr_Name := name; cr_Labels := ∅; cr_Annotations := ∅; cr_Rules := rules |}.

Definition clusterRoles : result (list ClusterRole) :=
  roles ← mapM (λ '(name, l), new_role name l)
    [(kubeProxyName, kube_proxy_rules); (tunnelControllerName, tunnel_rules);
     (cloudControllerManagerName, cloud_controller_rules)];
  Ok (addClusterRoleLabel roles).

Definition clusterRoleBindings : result (list Binding) :=
  rolebindings ← mapM BindingOrDie
    [ClusterRoleBindingName kubeletAPIServerRoleBindingName
       (Users ["kube-apiserver"] (NewClusterBinding "system:kubelet-api-admin"));
     ClusterRoleBindingNamespacedUsers NamespaceSystem [cloudControllerManagerName]
       (ClusterRoleBindingName (cloudControllerManagerName +:+ "-auth-delegator")
          (NewClusterBinding "system:auth-delegator"));
     ClusterRoleBindingNamespacedUsers NamespaceSystem [cloudControllerManagerName]
       (NewClusterBinding cloudControllerManagerName);
     Users [kubeProxyName] (NewClusterBinding kubeProxyName);
     Users [tunnelControllerName] (NewClusterBinding tunnelControllerName)];
  Ok (addClusterRoleBindingLabel rolebindings).

(** [roles] is nil: no namespaced role is declared. *)
Definition roles : gmap string (list ClusterRole) := ∅.

Definition roleBindings : result (gmap string (list Binding)) :=
  ccmAuthReader ← BindingOrDie
    (RoleBindingNamespacedUsers NamespaceSystem [cloudControllerManagerName]
       (RoleBindingName (cloudControllerManagerName +:+ "-authentication-reader")
          (NewRoleBinding "extension-apiserver-authentication-reader" NamespaceSystem)));
  Ok {[NamespaceSystem := [addDefaultMetadata ccmAuthReader]]}.
End bootstrap.

(** ** clusterrole.go *)

Record PolicyData := {
  pd_ClusterRoles : list ClusterRole;
  pd_ClusterRoleBindings : list Binding;
  pd_Roles : gmap string (list ClusterRole);
  pd_RoleBindings : gmap string (list Binding)
}.

(** The RBAC objects of a cluster. *)
Class RbacApi := {
  rbac : Type;
  EnsureRBACPolicy : PolicyData → rbac → result unit * rbac;
  (** JSON bytes, and those of an object with subjects *)
  json : Type;
  Marshal_binding : list Subject → json;
  (** merge patches: namespace (of a RoleBinding), name, patch *)
  PatchRoleBinding : string → string → json → rbac → result unit * rbac;
  PatchClusterRoleBinding : string → json → rbac → result unit * rbac
}.

Section hook.
Context `{RbacHelpers, RbacApi}.

(** The two loops of patches; an error is only logged. *)
Fixpoint patch_role_bindings (ns : string) (rbs : list Binding) (s : rbac) : rbac :=
  match rbs with
  | [] => s
  | rb :: rbs' =>
      patch_role_bindings ns rbs' (PatchRoleBinding ns (bi_Name rb) (Marshal_binding (bi_Subjects rb)) s).2
  end.

Fixpoint patch_namespaces (l : list (string * list Binding)) (s : rbac) : rbac :=
  match l with
  | [] => s
  | (ns, rbs) :: l' => patch_namespaces l' (patch_role_bindings ns rbs s)
  end.

Fixpoint patch_cluster_bindings (crbs : list Binding) (s : rbac) : rbac :=
  match crbs with
  | [] => s
  | crb :: crbs' =>
      patch_cluster_bindings crbs' (PatchClusterRoleBinding (bi_Name crb) (Marshal_binding (bi_Subjects crb)) s).2
  end.

Definition policy_data : result PolicyData :=
  crs ← clusterRoles; crbs ← clusterRoleBindings; rbs ← roleBindings;
  Ok {| pd_ClusterRoles := crs; pd_ClusterRoleBindings := crbs; pd_Roles := roles; pd_RoleBindings := rbs |}.

(** The goroutine of the hook, once the apiserver is ready: [config] and [client]
    are the outcomes of making the client, and [order] is how the map is
    iterated.  A failure ends the process (logrus.Fatalf). *)
Definition setClusterRoles (order : gmap string (list Binding) → list (string * list Binding))
    (config client : result unit) (s : rbac) : result unit * rbac :=
  match config, client, policy_data with
  | Err e, _, _ => (Err (ErrText "clusterrole: new k8s restConfig" e), s)
  | Ok _, Err e, _ => (Err (ErrText "clusterrole: new k8s client" e), s)
  | Ok _, Ok _, Err e => (Err e, s)
  | Ok _, Ok _, Ok policy =>
      match EnsureRBACPolicy policy s with
      | (Err e, s) => (Err (ErrText "clusterrole: EnsureRBACPolicy failed" e), s)
      | (Ok _, s) =>
          let s := patch_namespaces (order (pd_RoleBindings policy)) s in
          (Ok (), patch_cluster_bindings (pd_ClusterRoleBindings policy) s)
      end
  end.
End hook.

(** ** What the API documents *)

(** A request by its verb, API group and resource, and the rules that allow it. *)
Record request := { rq_Verb : string; rq_Group : string; rq_Resource : string }.

Definition covers (l : list string) (x : string) : Prop := x ∈ l ∨ "*" ∈ l.

Definition rule_allows (q : request) (r : PolicyRule) : Prop :=
  covers (ru_Verbs r) (rq_Verb q) ∧ covers (ru_APIGroups r) (rq_Group q) ∧
  covers (ru_Resources r) (rq_Resource q).

Definition text_allows (q : request) (r : rule_text) : Prop :=
  covers r.1.1 (rq_Verb q) ∧ covers r.1.2 (rq_Group q) ∧ covers r.2 (rq_Resource q).

#[export] Instance text_allows_dec q r : Decision (text_allows q r).
Proof. unfold text_allows, covers. apply _. Defined.

Definition role_allows (q : request) (r : ClusterRole) : Prop := Exists (rule_allows q) (cr_Rules r).

(** An administrator can exempt an object from the reconciler. *)
Definition opted_out (annotations : gmap string string) : Prop :=
  annotations !! AutoUpdateAnnotationKey = Some "false".

Class RbacLaws `{RbacApi} := {
  cluster_role_at : rbac → string → option ClusterRole;
  cluster_binding_at : rbac → string → option Binding;
  role_binding_at : rbac → string → string → option Binding;
  (** the reconciler adds the rules and subjects that are missing *)
  Ensure_role p s s' r :
    EnsureRBACPolicy p s = (Ok (), s') → NoDup (cr_Name <$> pd_ClusterRoles p) → r ∈ pd_ClusterRoles p →
    (∀ old, cluster_role_at s (cr_Name r) = Some old → ¬ opted_out (cr_Annotations old)) →
    ∃ r', cluster_role_at s' (cr_Name r) = Some r' ∧ ∀ q, role_allows q r → role_allows q r';
  Ensure_binding p s s' b :
    EnsureRBACPolicy p s = (Ok (), s') → NoDup (bi_Name <$> pd_ClusterRoleBindings p) →
    b ∈ pd_ClusterRoleBindings p →
    (∀ old, cluster_binding_at s (bi_Name b) = Some old → ¬ opted_out (bi_Annotations old)) →
    ∃ b', cluster_binding_at s' (bi_Name b) = Some b' ∧ bi_RoleRef b' = bi_RoleRef b ∧
          bi_Subjects b ⊆ bi_Subjects b';
  (** a patch replaces the subjects of an object that exists, or fails *)
  Patch_binding_Ok n l s s' :
    PatchClusterRoleBinding n (Marshal_binding l) s = (Ok (), s') →
    (∃ b, cluster_binding_at s n = Some b ∧ cluster_binding_at s' n = Some (set_Subjects l b)) ∧
    (∀ m, m ≠ n → cluster_binding_at s' m = cluster_binding_at s m) ∧
    (∀ m, cluster_role_at s' m = cluster_role_at s m);
  Patch_binding_Err n t s e s' : PatchClusterRoleBinding n t s = (Err e, s') → s' = s;
  Patch_role_binding ns n t s m :
    cluster_binding_at (PatchRoleBinding ns n t s).2 m = cluster_binding_at s m ∧
    cluster_role_at (PatchRoleBinding ns n t s).2 m = cluster_role_at s m
}.

(** ** Theorems *)

(** A namespaced subject as the code makes it. *)
Definition declared_bindings : list Binding :=
  let binding name role subject := {|
    bi_Name := name; bi_Labels := label; bi_Annotations := annotation;
    bi_RoleRef := ("ClusterRole", role); bi_Subjects := [subject] |} in
  [binding kubeletAPIServerRoleBindingName "system:kubelet-api-admin" (user_subject "" "kube-apiserver");
   binding (cloudControllerManagerName +:+ "-auth-delegator") "system:auth-delegator"
     (user_subject NamespaceSystem cloudControllerManagerName);
   binding cloudControllerManagerName cloudControllerManagerName
     (user_subject NamespaceSystem cloudControllerManagerName);
   binding kubeProxyName kubeProxyName (user_subject "" kubeProxyName);
   binding tunnelControllerName tunnelControllerName (user_subject "" tunnelControllerName)].

(** The roles by name, with the texts of their rules. *)
Definition declared_roles : list (string * list rule_text) :=
  [(kubeProxyName, kube_proxy_rules); (tunnelControllerName, tunnel_rules);
   (cloudControllerManagerName, cloud_controller_rules)].

Section declared.
Context `{RbacHelpersLaws}.

Lemma clusterRoleBindings_eq : clusterRoleBindings = Ok declared_bindings.
Proof.
  unfold clusterRoleBindings. rewrite !NewClusterBinding_law, !Users_law.
  cbn [mapM]. rewrite !BindingOrDie_law by done. reflexivity.
Qed.

Lemma covers_perm l l' x : l ≡ₚ l' → covers l x ↔ covers l' x.
Proof. intros E. unfold covers. by rewrite E. Qed.

(** A text that can be made into a rule. *)
Definition full_text (r : rule_text) : Prop := r.1.1 ≠ [] ∧ r.1.2 ≠ [] ∧ r.2 ≠ [].

Lemma new_rules_Ok l :
  Forall full_text l → ∃ rules, new_rules l = Ok rules ∧ ∀ q, Exists (rule_allows q) rules ↔ Exists (text_allows q) l.
Proof.
  unfold new_rules. induction 1 as [|[[v g] r] l (Hv & Hg & Hr) _ (rules & IH & Hq)].
  { exists []. split; [done|]. intros q. by rewrite !Exists_nil. }
  destruct (RuleOrDie_law v g r Hv Hg Hr) as (ru & Hru & Ev & Eg & Er).
  exists (ru :: rules). cbn [mapM]. rewrite Hru. cbn. rewrite IH. split; [done|].
  intros q. rewrite !Exists_cons, Hq. unfold rule_allows, text_allows.
  by rewrite (covers_perm _ _ _ Ev), (covers_perm _ _ _ Eg), (covers_perm _ _ _ Er).
Qed.

Lemma declared_full : Forall (λ nl, Forall full_text nl.2) declared_roles.
Proof. by repeat constructor. Qed.

Lemma clusterRoles_Ok : ∃ rs, clusterRoles = Ok rs ∧
  Forall2 (λ r nl, cr_Name r = nl.1 ∧ ∀ q, role_allows q r ↔ Exists (text_allows q) nl.2) rs declared_roles.
Proof.
  unfold clusterRoles, addClusterRoleLabel. fold declared_roles.
  assert (∀ l, Forall (λ nl, Forall full_text nl.2) l →
    ∃ rs, mapM (λ '(name, l), new_role name l) l = Ok rs ∧
      Forall2 (λ r nl, cr_Name r = nl.1 ∧ ∀ q, role_allows q r ↔ Exists (text_allows q) nl.2) rs l) as Hl.
  { induction 1 as [|[n texts] l Hn _ (rs & IH & Hrs)]; [by exists []; split; [|constructor]|].
    destruct (new_rules_Ok texts Hn) as (rules & E & Hq).
    assert (new_role n texts = Ok {| cr_Name := n; cr_Labels := ∅; cr_Annotations := ∅; cr_Rules := rules |})
      as Er by (unfold new_role; by rewrite E).
    eexists. cbn [mapM]. cbv beta iota. rewrite Er. cbn. rewrite IH. split; [reflexivity|].
    constructor; [done|exact Hrs]. }
  destruct (Hl declared_roles declared_full) as (rs & E & Hrs). rewrite E. eexists. split; [reflexivity|].
  apply Forall2_fmap_l. eapply Forall2_impl; [exact Hrs|]. done.
Qed.

Lemma policy_data_Ok : ∃ rs rbs, clusterRoles = Ok rs ∧
  policy_data = Ok {| pd_ClusterRoles := rs; pd_ClusterRoleBindings := declared_bindings;
                      pd_Roles := roles; pd_RoleBindings := rbs |}.
Proof.
  destruct clusterRoles_Ok as (rs & E & _). eexists rs, _. split; [done|].
  unfold policy_data. rewrite E, clusterRoleBindings_eq. cbn.
  unfold roleBindings. rewrite NewRoleBinding_law, BindingOrDie_law by done. reflexivity.
Qed.
End declared.

Section hook_theorems.
Context `{RbacHelpersLaws, RbacLaws}.

(** Every patch of a binding that exists goes through. *)
Definition patches_work : Prop := ∀ n l s b,
  cluster_binding_at s n = Some b → is_Ok (PatchClusterRoleBinding n (Marshal_binding l) s).1 = true.

Lemma patch_namespaces_same l s m :
  cluster_binding_at (patch_namespaces l s) m = cluster_binding_at s m ∧
  cluster_role_at (patch_namespaces l s) m = cluster_role_at s m.
Proof.
  assert (∀ ns rbs s, cluster_binding_at (patch_role_bindings ns rbs s) m = cluster_binding_at s m ∧
                      cluster_role_at (patch_role_bindings ns rbs s) m = cluster_role_at s m) as Hrbs.
  { intros ns rbs. induction rbs as [|rb rbs IH]; intros s1; cbn [patch_role_bindings]; [done|].
    destruct (IH (PatchRoleBinding ns (bi_Name rb) (Marshal_binding (bi_Subjects rb)) s1).2) as [-> ->].
    apply Patch_role_binding. }
  revert s. induction l as [|[ns rbs] l IH]; intros s; cbn [patch_namespaces]; [done|].
  destruct (IH (patch_role_bindings ns rbs s)) as [-> ->]. apply Hrbs.
Qed.

(** One patch, whether it succeeds or not. *)
Lemma patch_one n l s m :
  cluster_role_at (PatchClusterRoleBinding n (Marshal_binding l) s).2 m = cluster_role_at s m ∧
  (m ≠ n → cluster_binding_at (PatchClusterRoleBinding n (Marshal_binding l) s).2 m = cluster_binding_at s m) ∧
  ∀ b, cluster_binding_at s n = Some b →
    ∃ b', cluster_binding_at (PatchClusterRoleBinding n (Marshal_binding l) s).2 n = Some b' ∧
      (b' = b ∨ b' = set_Subjects l b) ∧ (patches_work → b' = set_Subjects l b).
Proof.
  destruct (PatchClusterRoleBinding n (Marshal_binding l) s) as [[[]|e] s'] eqn:E; cbn.
  - apply Patch_binding_Ok in E as ((b & Hb & Hb') & Ho & Hr). split_and!; [done|by apply Ho|].
    intros b0 Hb0. rewrite Hb in Hb0. injection Hb0 as <-. eauto.
  - pose proof (Patch_binding_Err _ _ _ _ _ E) as ->. split_and!; [done|done|]. intros b Hb.
    exists b. split_and!; [done|by left|]. intros Hw. specialize (Hw n l s b Hb). by rewrite E in Hw.
Qed.

Lemma patch_cluster_bindings_spec crbs s :
  NoDup (bi_Name <$> crbs) →
  (∀ m, cluster_role_at (patch_cluster_bindings crbs s) m = cluster_role_at s m) ∧
  (∀ m, m ∉ bi_Name <$> crbs → cluster_binding_at (patch_cluster_bindings crbs s) m = cluster_binding_at s m) ∧
  ∀ b b0, b ∈ crbs → cluster_binding_at s (bi_Name b) = Some b0 →
    ∃ b', cluster_binding_at (patch_cluster_bindings crbs s) (bi_Name b) = Some b' ∧
      (b' = b0 ∨ b' = set_Subjects (bi_Subjects b) b0) ∧
      (patches_work → b' = set_Subjects (bi_Subjects b) b0).
Proof.
  revert s. induction crbs as [|c crbs IH]; intros s; cbn [patch_cluster_bindings fmap list_fmap].
  { intros _. split_and!; [done|done|]. intros b b0 Hb. by apply elem_of_nil in Hb. }
  intros [Hc Hnd]%NoDup_cons.
  set (s1 := (PatchClusterRoleBinding (bi_Name c) (Marshal_binding (bi_Subjects c)) s).2).
  destruct (IH s1 Hnd) as (Hr & Ho & Hin). split_and!.
  - intros m. rewrite Hr. apply patch_one.
  - intros m [Hm Hm']%not_elem_of_cons. rewrite Ho by done. by apply patch_one.
  - intros b b0 [->|Hb]%elem_of_cons Hb0.
    + rewrite Ho by done. by apply (patch_one (bi_Name c) (bi_Subjects c) s "").
    + apply Hin; [done|]. unfold s1. destruct (patch_one (bi_Name c) (bi_Subjects c) s (bi_Name b))
        as (_ & -> & _); [done|]. intros Heq. apply Hc. rewrite <-Heq. by apply list_elem_of_fmap_2.
Qed.

Lemma declared_bindings_NoDup : NoDup (bi_Name <$> declared_bindings).
Proof. apply (bool_decide_unpack _). vm_compute. exact I. Qed.

Lemma declared_roles_NoDup rs :
  Forall2 (λ r nl, cr_Name r = nl.1 ∧ ∀ q, role_allows q r ↔ Exists (text_allows q) nl.2) rs declared_roles →
  cr_Name <$> rs = declared_roles.*1 ∧ NoDup (cr_Name <$> rs).
Proof.
  intros Hrs. assert (cr_Name <$> rs = declared_roles.*1) as ->.
  { induction Hrs as [|r nl rs l [Hn _] _ IH]; [done|]. cbn. by rewrite Hn, IH. }
  split; [done|]. apply (bool_decide_unpack _). vm_compute. exact I.
Qed.

(** What the hook leaves, for objects nobody has exempted. *)
Lemma setClusterRoles_inv order config client s s' :
  setClusterRoles order config client s = (Ok (), s') →
  (∀ n texts, (n, texts) ∈ declared_roles →
     (∀ old, cluster_role_at s n = Some old → ¬ opted_out (cr_Annotations old)) →
     ∃ r, cluster_role_at s' n = Some r ∧ ∀ q, Exists (text_allows q) texts → role_allows q r) ∧
  (∀ b, b ∈ declared_bindings →
     (∀ old, cluster_binding_at s (bi_Name b) = Some old → ¬ opted_out (bi_Annotations old)) →
     ∃ b', cluster_binding_at s' (bi_Name b) = Some b' ∧ bi_RoleRef b' = bi_RoleRef b ∧
       bi_Subjects b ⊆ bi_Subjects b' ∧ (patches_work → bi_Subjects b' = bi_Subjects b)).
Proof.
  unfold setClusterRoles. destruct config as [[]|], client as [[]|]; [|done..].
  destruct policy_data_Ok as (rs & rbs & Hrs & ->).
  destruct clusterRoles_Ok as (rs' & E & Hspec). rewrite Hrs in E. injection E as <-.
  destruct (declared_roles_NoDup rs Hspec) as [Hnames Hnd].
  destruct (EnsureRBACPolicy _ s) as [[[]|e] s1] eqn:He; [|done]. intros [= <-].
  cbn [pd_RoleBindings pd_ClusterRoleBindings].
  set (s2 := patch_namespaces (order rbs) s1).
  destruct (patch_cluster_bindings_spec declared_bindings s2 declared_bindings_NoDup) as (Hr & _ & Hb). split.
  - intros n texts Hin Hold. rewrite Hr. unfold s2. rewrite (proj2 (patch_namespaces_same _ _ _)).
    apply list_elem_of_lookup_1 in Hin as [i Hi].
    destruct (Forall2_lookup_r _ _ _ _ _ Hspec Hi) as (r & Hri & Hn & Hq). cbn in Hn, Hq. subst n.
    destruct (Ensure_role _ _ _ r He Hnd ltac:(by eapply list_elem_of_lookup_2) Hold) as (r' & Hr' & Hq').
    exists r'. split; [done|]. intros q Hx. by apply Hq', Hq.
  - intros b Hin Hold.
    destruct (Ensure_binding _ _ _ b He declared_bindings_NoDup Hin Hold) as (b1 & Hb1 & Href & Hsub).
    destruct (Hb b b1 Hin) as (b' & Hb' & Hor & Hw).
    { unfold s2. by rewrite (proj1 (patch_namespaces_same _ _ _)). }
    exists b'. split; [done|]. split; [by destruct Hor as [-> | ->]|].
    split; [by destruct Hor as [-> | ->]|]. by intros ->%Hw.
Qed.

(** C25: After the hook the node's own bindings are what is declared: each exists
    with its role and at least its subjects, and with exactly its subjects when
    the patches go through, so the excess subjects of an older release are gone;
    this holds for every order of the map and every cluster before, unless an
    administrator has exempted the binding. *)
Theorem setClusterRoles_bindings order config client s s' b :
  setClusterRoles order config client s = (Ok (), s') → b ∈ declared_bindings →
  (∀ old, cluster_binding_at s (bi_Name b) = Some old → ¬ opted_out (bi_Annotations old)) →
  ∃ b', cluster_binding_at s' (bi_Name b) = Some b' ∧ bi_RoleRef b' = bi_RoleRef b ∧
    bi_Subjects b ⊆ bi_Subjects b' ∧ (patches_work → bi_Subjects b' = bi_Subjects b).
Proof. intros Hs. by apply (setClusterRoles_inv _ _ _ _ _ Hs). Qed.

(** A user may do something through a binding of a cluster role. *)
Definition user_allowed (s : rbac) (user : string) (q : request) : Prop := ∃ n b r,
  cluster_binding_at s n = Some b ∧ Exists (λ su, su_Kind su = UserKind ∧ su_Name su = user) (bi_Subjects b) ∧
  (bi_RoleRef b).1 = "ClusterRole" ∧ cluster_role_at s (bi_RoleRef b).2 = Some r ∧ role_allows q r.

(** The three components may do what their rules say. *)
Theorem setClusterRoles_grants order config client s s' user texts q :
  setClusterRoles order config client s = (Ok (), s') → (user, texts) ∈ declared_roles →
  (∀ old, cluster_role_at s user = Some old → ¬ opted_out (cr_Annotations old)) →
  (∀ old, cluster_binding_at s user = Some old → ¬ opted_out (bi_Annotations old)) →
  Exists (text_allows q) texts → user_allowed s' user q.
Proof.
  intros Hs Hin Hor Hob Hq. destruct (setClusterRoles_inv _ _ _ _ _ Hs) as [Hroles Hbindings].
  destruct (Hroles user texts Hin Hor) as (r & Hr & Hall).
  assert (∃ b, b ∈ declared_bindings ∧ bi_Name b = user ∧ bi_RoleRef b = ("ClusterRole", user) ∧
    ∃ su, su ∈ bi_Subjects b ∧ su_Kind su = UserKind ∧ su_Name su = user) as (b & Hb & Hn & Href & su & Hsu & Hk & Hu).
  { assert (∃ i b, declared_bindings !! i = Some b ∧ bi_Name b = user ∧ bi_RoleRef b = ("ClusterRole", user) ∧
      ∃ su, su ∈ bi_Subjects b ∧ su_Kind su = UserKind ∧ su_Name su = user) as (i & b & Hi & Hb).
    { apply list_elem_of_In in Hin. cbn in Hin. destruct Hin as [[= <- _]|[[= <- _]|[[= <- _]|[]]]];
        [exists 3|exists 4|exists 2]; (eexists; split; [reflexivity|]; split_and!; [done|done|]);
        (eexists; split; [by left|done]). }
    exists b. split; [by eapply list_elem_of_lookup_2|exact Hb]. }
  rewrite <-Hn in Hob. destruct (Hbindings b Hb Hob) as (b' & Hb' & Href' & Hsub & _).
  exists (bi_Name b), b', r. rewrite Href', Href. split_and!; try done.
  - apply Exists_exists. exists su. split; [by apply Hsub|done].
  - by apply Hall.
Qed.
End hook_theorems.

(** What every rule of the tables satisfies, by the name of its role. *)
Definition text_limited (n : string) (t : rule_text) : Prop :=
  Forall (λ g, g ≠ GroupName ∧ g ≠ "*") t.1.2 ∧ Forall (λ r, r ∉ ["secrets"; "*"]) t.2 ∧
  (n = kubeProxyName → Forall (λ r, r = "nodes") t.2 ∧ Forall (λ v, v ∈ ["get"; "list"]) t.1.1) ∧
  (n = tunnelControllerName → Forall (λ v, v ∈ ["get"; "list"; "watch"]) t.1.1 ∨
     t.1.1 = ["create"] ∧ t.2 = ["serviceaccounts/token"]) ∧
  (covers t.1.1 "delete" → n = cloudControllerManagerName ∧ Forall (λ r, r ∈ ["nodes"; "daemonsets"]) t.2).

#[local] Instance text_limited_dec n t : Decision (text_limited n t).
Proof. unfold text_limited, covers. apply _. Defined.

Lemma declared_limited : Forall (λ nl, Forall (text_limited nl.1) nl.2) declared_roles.
Proof. apply (bool_decide_unpack _). vm_compute. exact I. Qed.

Lemma covers_plain l x : covers l x → "*" ∉ l → x ∈ l.
Proof. by intros [?|?]. Qed.

(** C26: The roles give no more than their purpose: no declared role touches
    secrets or RBAC objects or has a wildcard of groups or resources, kube-proxy
    only reads nodes, the controller of RKE2 only reads but for making service
    account tokens, and only the cloud controller manager deletes, and only
    nodes and daemon sets. *)
Theorem declared_roles_limits `{RbacHelpersLaws} rs r q :
  clusterRoles = Ok rs → r ∈ rs → role_allows q r →
  rq_Group q ≠ GroupName ∧ rq_Group q ≠ "*" ∧ rq_Resource q ∉ ["secrets"; "*"] ∧
  (cr_Name r = kubeProxyName → rq_Resource q = "nodes" ∧ rq_Verb q ∈ ["get"; "list"]) ∧
  (cr_Name r = tunnelControllerName → rq_Verb q ∈ ["get"; "list"; "watch"] ∨
     rq_Verb q = "create" ∧ rq_Resource q = "serviceaccounts/token") ∧
  (rq_Verb q = "delete" → cr_Name r = cloudControllerManagerName ∧ rq_Resource q ∈ ["nodes"; "daemonsets"]).
Proof.
  intros Hrs Hin Hall. destruct clusterRoles_Ok as (rs' & E & Hspec). rewrite Hrs in E. injection E as <-.
  apply list_elem_of_lookup_1 in Hin as [i Hi].
  destruct (Forall2_lookup_l _ _ _ _ _ Hspec Hi) as ([n texts] & Ht & Hn & Hq). cbn in Hn, Hq.
  apply Hq in Hall. apply Exists_exists in Hall as (t & Hin & Hv & Hg & Hr). rewrite Hn.
  pose proof declared_limited as HL. rewrite Forall_forall in HL.
  specialize (HL _ (list_elem_of_lookup_2 _ _ _ Ht)). cbn in HL. rewrite Forall_forall in HL.
  destruct (HL t Hin) as (HG & HR & Hproxy & Htunnel & Hdel). rewrite Forall_forall in HG, HR.
  apply covers_plain in Hg; [|by intros [_ ?]%HG]. apply covers_plain in Hr; [|intros Hstar%HR; set_solver].
  destruct (HG _ Hg) as [Hg1 Hg2]. split_and!; [done|done|by apply HR| | |].
  - intros [HN HV]%Hproxy. rewrite Forall_forall in HN, HV. split; [by apply HN|].
    apply HV, covers_plain; [done|]. intros Hstar%HV. set_solver.
  - intros [HV|[EV ER]]%Htunnel.
    + left. rewrite Forall_forall in HV. apply HV, covers_plain; [done|]. intros Hstar%HV. set_solver.
    + right. rewrite EV in Hv. rewrite ER in Hr. unfold covers in Hv. set_solver.
  - intros Ev. rewrite Ev in Hv. destruct (Hdel Hv) as [En HN]. rewrite Forall_forall in HN. eauto.
Qed.

(** ** A concrete cluster *)

Module SimpleRbac.
#[export] Instance helpers : RbacHelpers := {|
  RuleOrDie v g r := Ok {| ru_Verbs := v; ru_APIGroups := g; ru_Resources := r |};
  NewClusterBinding n := {| bi_Name := n; bi_Labels := ∅; bi_Annotations := ∅;
                            bi_RoleRef := ("ClusterRole", n); bi_Subjects := [] |};
  NewRoleBinding n _ := {| bi_Name := n; bi_Labels := ∅; bi_Annotations := ∅;
                           bi_RoleRef := ("Role", n); bi_Subjects := [] |};
  Users us b := set_Subjects (bi_Subjects b ++ (user_subject "" <$> us)) b;
  BindingOrDie b := if decide (bi_Subjects b = []) then Err (ErrPanic "subjects are required") else Ok b
|}.

#[export] Instance helpers_laws : RbacHelpersLaws.
Proof. split; try done; [by intros; eexists|intros b Hb]. cbn. by rewrite decide_False. Qed.

Record state := State { c_roles : gmap string ClusterRole; c_bindings : gmap string Binding }.

#[export] Instance opted_out_dec a : Decision (opted_out a).
Proof. unfold opted_out. apply _. Defined.

(** Reconciliation: what is declared added to what there is. *)
Definition add_rules (new old : ClusterRole) : option ClusterRole := Some
  (if decide (opted_out (cr_Annotations old)) then old else
   {| cr_Name := cr_Name old; cr_Labels := cr_Labels old; cr_Annotations := cr_Annotations old;
      cr_Rules := cr_Rules old ++ cr_Rules new |}).
Definition add_subjects (new old : Binding) : option Binding := Some
  (if decide (opted_out (bi_Annotations old)) then old else
   {| bi_Name := bi_Name old; bi_Labels := bi_Labels old; bi_Annotations := bi_Annotations old;
      bi_RoleRef := bi_RoleRef new; bi_Subjects := bi_Subjects old ++ bi_Subjects new |}).

Definition by_name {A} (name : A → string) (l : list A) : gmap string A := list_to_map ((λ a, (name a, a)) <$> l).

Lemma by_name_lookup {A} (name : A → string) l a : NoDup (name <$> l) → a ∈ l → by_name name l !! name a = Some a.
Proof.
  intros Hnd Hin. apply elem_of_list_to_map_1; [by rewrite <-list_fmap_compose|].
  apply list_elem_of_fmap. by exists a.
Qed.

#[export] Instance api : RbacApi := {|
  rbac := state;
  EnsureRBACPolicy p s := (Ok (), State
    (union_with add_rules (by_name cr_Name (pd_ClusterRoles p)) (c_roles s))
    (union_with add_subjects (by_name bi_Name (pd_ClusterRoleBindings p)) (c_bindings s)));
  json := list Subject;
  Marshal_binding l := l;
  PatchRoleBinding _ _ _ s := (Ok (), s);
  PatchClusterRoleBinding n l s :=
    match c_bindings s !! n with
    | Some b => (Ok (), State (c_roles s) (<[n := set_Subjects l b]> (c_bindings s)))
    | None => (Err ErrApiNotFound, s)
    end
|}.

#[export] Instance laws : RbacLaws.
Proof.
  refine {| cluster_role_at (s : @rbac api) n := c_roles s !! n;
            cluster_binding_at (s : @rbac api) n := c_bindings s !! n;
            role_binding_at _ _ _ := None |}.
  - intros p s s' r [= <-] Hnd Hin Hold. cbn. rewrite lookup_union_with, (by_name_lookup _ _ _ Hnd Hin).
    destruct (c_roles s !! cr_Name r) as [old|]; cbn; [|by exists r].
    unfold add_rules. rewrite decide_False by by apply Hold. eexists. split; [done|].
    intros q. unfold role_allows. cbn. rewrite Exists_app. by right.
  - intros p s s' b [= <-] Hnd Hin Hold. cbn. rewrite lookup_union_with, (by_name_lookup _ _ _ Hnd Hin).
    destruct (c_bindings s !! bi_Name b) as [old|]; cbn; [|by exists b].
    unfold add_subjects. rewrite decide_False by by apply Hold. eexists. split; [done|]. cbn. split; [done|]. set_solver.
  - intros n l s s'. cbn. destruct (c_bindings s !! n) as [b|] eqn:E; [|done]. intros [= <-]. cbn.
    split; [exists b; by rewrite lookup_insert_eq|]. split; [|done]. intros m Hm. by rewrite lookup_insert_ne.
  - intros n t s e s'. cbn. by destruct (c_bindings s !! n); intros [= _ <-].
  - done.
Defined.

Lemma patches : patches_work.
Proof. intros n l s b Hb. cbn in *. by rewrite Hb. Qed.
End SimpleRbac.

#[local] Existing Instance SimpleRbac.helpers.
#[local] Existing Instance SimpleRbac.helpers_laws.
#[local] Existing Instance SimpleRbac.api.
#[local] Existing Instance SimpleRbac.laws.

(** A cluster of an older release, with a subject too many. *)
Definition old_cluster : rbac := SimpleRbac.State ∅
  {[kubeProxyName := {| bi_Name := kubeProxyName; bi_Labels := ∅; bi_Annotations := ∅;
      bi_RoleRef := ("ClusterRole", kubeProxyName);
      bi_Subjects := [user_subject NamespaceSystem kubeProxyName; user_subject "" kubeProxyName] |}]}.

Definition remedied : result unit * rbac := setClusterRoles map_to_list (Ok ()) (Ok ()) old_cluster.

Lemma setClusterRoles_bindings_witness :
  ∃ b, cluster_binding_at remedied.2 kubeProxyName = Some b ∧ bi_Subjects b = [user_subject "" kubeProxyName].
Proof.
  destruct (setClusterRoles_bindings map_to_list (Ok ()) (Ok ()) old_cluster remedied.2
    {| bi_Name := kubeProxyName; bi_Labels := label; bi_Annotations := annotation;
       bi_RoleRef := ("ClusterRole", kubeProxyName); bi_Subjects := [user_subject "" kubeProxyName] |})
    as (b & Hb & _ & _ & Hs).
  - vm_compute. reflexivity.
  - do 3 right. left.
  - intros old Hold. vm_compute in Hold. injection Hold as <-. vm_compute. discriminate.
  - exists b. split; [exact Hb|exact (Hs SimpleRbac.patches)].
Defined.

Lemma declared_roles_limits_witness :
  ∃ rs r, clusterRoles = Ok rs ∧ r ∈ rs ∧ cr_Name r = tunnelControllerName ∧
    let q := {| rq_Verb := "list"; rq_Group := ""; rq_Resource := "pods" |} in
    role_allows q r ∧ rq_Resource q ∉ ["secrets"; "*"].
Proof.
  destruct clusterRoles as [rs|e] eqn:E; [|vm_compute in E; discriminate E].
  pose proof E as E'. vm_compute in E'. injection E' as E'.
  destruct (rs !! 1) as [r|] eqn:Hr; [|rewrite <-E' in Hr; discriminate Hr].
  assert (r ∈ rs) as Hin by (eapply list_elem_of_lookup_2; exact Hr).
  rewrite <-E' in Hr. injection Hr as Hr.
  assert (role_allows {| rq_Verb := "list"; rq_Group := ""; rq_Resource := "pods" |} r) as Ha.
  { rewrite <-Hr. do 3 right. left. vm_compute. split; [left; left|]. split; [left; left|left; right; left]. }
  exists rs, r. split; [reflexivity|]. split; [exact Hin|]. split; [rewrite <-Hr; reflexivity|]. split; [exact Ha|].
  exact (proj1 (proj2 (proj2 (declared_roles_limits rs r _ E Hin Ha)))).
Defined.
