(* ===== verification/Hooks.v ===== *)
(** * Hooks: the startup hooks of a server together (pkg/rke2)

    [Rke2.Server] installs five hooks; [NetPolicy], [ClusterRoles] and [CisHooks]
    say what each does.  Here they act on one platform: the cluster, its RBAC
    objects, the chart switches of k3s and the disk.  Each waits for the apiserver
    in a goroutine of its own, so they run in any order; the calls of one hook are
    taken together, as the hooks share no object. *)

From S2P Require Import Prelude GoStrings GoPath GoFS PodTemplate ManifestFile StaticPod Cri Sandbox.
From S2P Require Import Cleanup Kube NetPolicy CisHooks InitExecutor Cmds Rke2 ClusterRoles.

#[local] Set Default Proof Using "All".

Section hooks.
Context `{KubeLaws, RbacHelpers, RbacApi}.

Record platform := Platform {
  pf_cluster : cluster;
  pf_rbac : rbac;
  (** [args.Skips] and [args.Disables] *)
  pf_skips : gmap string bool;
  pf_disables : gmap string bool;
  pf_files : fs
}.

(** How often the policies are polled (after the first time), the order of the map
    of role bindings, the outcomes of making the clients, and the events of the
    watched node. *)
Context (polls : nat) (order : gmap string (list Binding) → list (string * list Binding)).
Context (config client : result unit) (events : list event).

(** A hook, once the apiserver is ready; an error ends the process. *)
Definition run_hook (h : StartupHook) (flt : faults) (pf : platform) : result unit * platform :=
  match h with
  | SetNetworkPolicies cisMode namespaces =>
      let '(_, c) := setNetworkPolicies cisMode namespaces (S polls) (pf_cluster pf) in
      (Ok (), Platform c (pf_rbac pf) (pf_skips pf) (pf_disables pf) (pf_files pf))
  | SetClusterRoles =>
      let '(r, s) := setClusterRoles order config client (pf_rbac pf) in
      (r, Platform (pf_cluster pf) s (pf_skips pf) (pf_disables pf) (pf_files pf))
  | RestrictServiceAccounts cisMode namespaces =>
      let '(r, c) := restrictServiceAccounts cisMode namespaces (pf_cluster pf) in
      (r, Platform c (pf_rbac pf) (pf_skips pf) (pf_disables pf) (pf_files pf))
  | SetKubeProxyDisabled =>
      let '(skips, disables) := setKubeProxyDisabled (pf_skips pf) (pf_disables pf) in
      (Ok (), Platform (pf_cluster pf) (pf_rbac pf) skips disables (pf_files pf))
  | CleanupStaticPodsOnSelfDelete dataDir =>
      let '(r, st) := cleanupStaticPodsOnSelfDelete dataDir client events flt (pf_files pf) in
      (r, Platform (pf_cluster pf) (pf_rbac pf) (pf_skips pf) (pf_disables pf) st)
  end.

Fixpoint run_hooks (l : list StartupHook) (flt : faults) (pf : platform) : result unit * platform :=
  match l with
  | [] => (Ok (), pf)
  | h :: l' =>
      match run_hook h flt pf with
      | (Err e, pf1) => (Err e, pf1)
      | (Ok _, pf1) => run_hooks l' flt pf1
      end
  end.

(** The namespaces of the account hook. *)
Definition account_namespaces : list string := default_namespaces ++ ["kube-node-lease"].

(** The hooks of CIS mode; [dataDir] is the one of the command. *)
Definition cis_hooks (dataDir : string) : list StartupHook :=
  [SetNetworkPolicies true default_namespaces; SetClusterRoles;
   RestrictServiceAccounts true default_namespaces; SetKubeProxyDisabled;
   CleanupStaticPodsOnSelfDelete dataDir].

(** ** One hook *)

(** Reconciling the RBAC objects with a policy does not fail. *)
Definition reconcilable (s : rbac) : Prop := ∀ policy, (EnsureRBACPolicy policy s).1 = Ok ().

Lemma setClusterRoles_succeeds `{!RbacHelpersLaws} s :
  config = Ok () → client = Ok () → reconcilable s → (setClusterRoles order config client s).1 = Ok ().
Proof.
  intros -> -> Hup. unfold setClusterRoles. destruct policy_data_Ok as (rs & rbs & _ & ->).
  specialize (Hup {| pd_ClusterRoles := rs; pd_ClusterRoleBindings := declared_bindings;
                     pd_Roles := roles; pd_RoleBindings := rbs |}).
  destruct (EnsureRBACPolicy _ s) as [[u|e] s1]; [done|discriminate Hup].
Qed.

Section one.
Context `{!KubeFrames, !RbacHelpersLaws} (dataDir : string) (flt : faults).
Implicit Types (l : list StartupHook) (h : StartupHook) (pf : platform).

(** What the hooks of [l] need: a cluster that is up, and RBAC objects that can be
    reconciled. *)
Record ready l pf : Prop := {
  ready_policies : SetNetworkPolicies true default_namespaces ∈ l →
    ∀ n, n ∈ default_namespaces → is_Some (namespace_at (pf_cluster pf) n);
  ready_roles : SetClusterRoles ∈ l → config = Ok () ∧ reconcilable (pf_rbac pf);
  ready_accounts : RestrictServiceAccounts true default_namespaces ∈ l →
    Forall (λ n, is_Some (account_at (pf_cluster pf) n DefaultServiceAccountName)) account_namespaces
}.

(** What a hook leaves behind. *)
Definition effect h pf pf' : Prop :=
  match h with
  | SetNetworkPolicies _ namespaces => ∀ n ns, n ∈ namespaces → namespace_at (pf_cluster pf) n = Some ns →
      Forall (policy_applied n (pf_cluster pf')) (missing (ns_Annotations ns) (default_policies n))
  | SetClusterRoles => pf_rbac pf' = (setClusterRoles order config client (pf_rbac pf)).2
  | RestrictServiceAccounts _ namespaces =>
      Forall (restricted (pf_cluster pf')) (namespaces ++ ["kube-node-lease"])
  | SetKubeProxyDisabled =>
      pf_skips pf' !! kubeProxyChart = Some true ∧ pf_disables pf' !! kubeProxyChart = Some true
  | CleanupStaticPodsOnSelfDelete d =>
      pf_files pf' = (watchForSelfDelete d events flt (pf_files pf)).2
  end.

(** What the hooks of [l] leave alone. *)
Record untouched l pf pf' : Prop := {
  un_policies n p : SetNetworkPolicies true default_namespaces ∉ l →
    policy_at (pf_cluster pf') n p = policy_at (pf_cluster pf) n p;
  un_namespaces n : SetNetworkPolicies true default_namespaces ∉ l →
    namespace_at (pf_cluster pf') n = namespace_at (pf_cluster pf) n;
  un_accounts n a : RestrictServiceAccounts true default_namespaces ∉ l →
    account_at (pf_cluster pf') n a = account_at (pf_cluster pf) n a;
  un_rbac : SetClusterRoles ∉ l → pf_rbac pf' = pf_rbac pf;
  un_proxy : SetKubeProxyDisabled ∉ l → pf_skips pf' = pf_skips pf ∧ pf_disables pf' = pf_disables pf;
  un_files : CleanupStaticPodsOnSelfDelete dataDir ∉ l → pf_files pf' = pf_files pf
}.

Lemma untouched_app l1 l2 pf pf1 pf' :
  untouched l1 pf pf1 → untouched l2 pf1 pf' → untouched (l1 ++ l2) pf pf'.
Proof.
  intros [P1 N1 A1 R1 K1 F1] [P2 N2 A2 R2 K2 F2].
  split; setoid_rewrite not_elem_of_app; intros *.
  - intros [Hl1 Hl2]. by rewrite P2, P1.
  - intros [Hl1 Hl2]. by rewrite N2, N1.
  - intros [Hl1 Hl2]. by rewrite A2, A1.
  - intros [Hl1 Hl2]. by rewrite R2, R1.
  - intros [Hl1 Hl2]. destruct (K1 Hl1), (K2 Hl2). split; congruence.
  - intros [Hl1 Hl2]. by rewrite F2, F1.
Qed.

(** A hook touches only what is its own. *)
Lemma run_hook_one h pf :
  client = Ok () → h ∈ cis_hooks dataDir → ready [h] pf →
  ∃ pf', run_hook h flt pf = (Ok (), pf') ∧ effect h pf pf' ∧ untouched [h] pf pf'.
Proof.
  intros Hclient Hh [Hns Hroles Hacc]. unfold cis_hooks in Hh.
  repeat (apply elem_of_cons in Hh as [->|Hh]); [..|by apply elem_of_nil in Hh]; cbn [run_hook effect].
  - pose proof (setNetworkPolicies_applied default_namespaces polls (pf_cluster pf)) as Happ.
    pose proof (λ n a, setNetworkPolicies_keeps (λ c, account_at c n a)
      (λ ns c, Namespaces_Update_account ns c n a) (λ m np c, NetworkPolicies_Create_account m np c n a)
      (λ m p c, NetworkPolicies_Delete_account m p c n a) true default_namespaces (S polls) (pf_cluster pf)) as Hk.
    cbn beta in Hk. destruct (setNetworkPolicies _ _ _ _) as [done c].
    destruct Happ as [_ Happ]; [by apply (bool_decide_unpack _); vm_compute|apply Hns; by left|].
    eexists. split; [done|]. split; [exact Happ|]. split; cbn; set_solver.
  - destruct (Hroles ltac:(by left)) as [Hconfig Hup].
    pose proof (setClusterRoles_succeeds (pf_rbac pf) Hconfig Hclient Hup) as Hok.
    destruct (setClusterRoles _ _ _ _) as [r s]. cbn in Hok |- *. subst r.
    eexists. split; [done|]. split; [done|]. split; cbn; set_solver.
  - pose proof (restrict_all_restricted default_namespaces (pf_cluster pf)) as Hres.
    pose proof (λ n, restrictServiceAccounts_keeps (λ c, namespace_at c n) true default_namespaces (pf_cluster pf)
      (λ m sa c, ServiceAccounts_Update_namespace m sa c n)) as HkN.
    pose proof (λ n p, restrictServiceAccounts_keeps (λ c, policy_at c n p) true default_namespaces (pf_cluster pf)
      (λ m sa c, ServiceAccounts_Update_policy m sa c n p)) as HkP.
    cbn beta in HkN, HkP. destruct (restrictServiceAccounts _ _ _) as [r c].
    destruct Hres as (Hok & _ & Hr); [by apply (bool_decide_unpack _); vm_compute|].
    rewrite Hr in * by (apply Hacc; by left).
    eexists. split; [done|]. split; [by apply Hok|]. split; cbn; set_solver.
  - eexists. split; [done|]. cbn. split; [by rewrite !lookup_insert_eq|]. split; cbn; set_solver.
  - unfold cleanupStaticPodsOnSelfDelete. rewrite Hclient.
    assert ((watchForSelfDelete dataDir events flt (pf_files pf)).1 = Ok ()) as Hr.
    { unfold watchForSelfDelete, attempt, mbind, io_bind. destruct (until_deleted events); [|done].
      by destruct (cleanupStaticPods _ _ _). }
    destruct (watchForSelfDelete _ _ _ _) as [r st]. cbn in Hr |- *. subst r.
    eexists. split; [done|]. split; [done|]. split; cbn; set_solver.
Qed.

Lemma effect_after h l pf pf1 pf' :
  h ∈ cis_hooks dataDir → h ∉ l → effect h pf pf1 → untouched l pf1 pf' → effect h pf pf'.
Proof.
  intros Hh Hl He [P N A R K F]. unfold cis_hooks in Hh.
  repeat (apply elem_of_cons in Hh as [->|Hh]); [..|by apply elem_of_nil in Hh]; cbn [effect] in *.
  - intros n ns Hn Hns. eapply Forall_impl; [by apply He|]. intros t (np & Hnp & Hrest).
    exists np. by rewrite P.
  - by rewrite R.
  - eapply Forall_impl; [exact He|]. intros n (sa & Hsa & Ha). exists sa. by rewrite A.
  - destruct (K Hl) as [-> ->]. done.
  - by rewrite F.
Qed.

Lemma effect_before h l pf pf1 pf' :
  h ∈ cis_hooks dataDir → h ∉ l → untouched l pf pf1 → effect h pf1 pf' → effect h pf pf'.
Proof.
  intros Hh Hl [P N A R K F] He. unfold cis_hooks in Hh.
  repeat (apply elem_of_cons in Hh as [->|Hh]); [..|by apply elem_of_nil in Hh]; cbn [effect] in *.
  - intros n ns Hn Hns. apply He; [done|]. by rewrite N.
  - by rewrite He, R.
  - done.
  - done.
  - by rewrite He, F.
Qed.

Lemma ready_after h l pf pf1 : h ∉ l → ready (h :: l) pf → untouched [h] pf pf1 → ready l pf1.
Proof.
  intros Hl [Hns Hroles Hacc] [P N A R K F]. split.
  - intros Hin n Hn. rewrite N by set_solver. apply Hns; [by right|done].
  - intros Hin. rewrite R by set_solver. apply Hroles. by right.
  - intros Hin. eapply Forall_impl; [apply Hacc; by right|]. intros n. by rewrite A by set_solver.
Qed.

Lemma ready_one h l pf : ready (h :: l) pf → ready [h] pf.
Proof. intros [Hns Hroles Hacc]. split; set_solver. Qed.

Lemma run_hooks_all l pf :
  client = Ok () → NoDup l → l ⊆ cis_hooks dataDir → ready l pf →
  ∃ pf', run_hooks l flt pf = (Ok (), pf') ∧ Forall (λ h, effect h pf pf') l ∧ untouched l pf pf'.
Proof.
  intros Hclient Hnd. revert pf. induction Hnd as [|h l Hh Hnd IH]; intros pf Hsub Hready; cbn [run_hooks].
  { exists pf. split_and!; [done|done|]. by split. }
  assert (h ∈ cis_hooks dataDir ∧ l ⊆ cis_hooks dataDir) as [Hin Hsubl] by set_solver.
  destruct (run_hook_one h pf) as (pf1 & -> & He & Hu); [done|done|by eapply ready_one|].
  destruct (IH pf1) as (pf' & -> & Hall & Hul); [done|by eapply ready_after|].
  exists pf'. split_and!; [done| |by apply (untouched_app [h] l pf pf1)].
  constructor; [by eapply effect_after|]. rewrite Forall_forall in Hall |- *. intros h' Hh'.
  eapply (effect_before h' [h]); [by apply Hsubl| |done|by apply Hall].
  rewrite list_elem_of_singleton. by intros ->.
Qed.
End one.

(** ** All of them *)

(** C7: On a cluster that is up (the clients can be made, the core namespaces and
    their default accounts are there, and Kubernetes' reconciler, which is given
    the policy, reports no error), the startup hooks of a CIS server all succeed,
    in whatever order their goroutines come to run, and together leave the
    cluster hardened: in every core namespace the policies that were not recorded are in
    place, no default account mounts its token, the declared bindings exist with
    their subjects unless an administrator has exempted them, the kube-proxy chart
    is switched off, and no manifest is touched unless the node is deleted. *)
Theorem cis_hooks_applied `{!KubeFrames, !RbacHelpersLaws, !RbacLaws} clx l flt pf :
  flag_isCISMode (c_Flags clx) = true → l ≡ₚ server_hooks clx → config = Ok () → client = Ok () →
  (∀ n, n ∈ default_namespaces → is_Some (namespace_at (pf_cluster pf) n)) →
  Forall (λ n, is_Some (account_at (pf_cluster pf) n DefaultServiceAccountName)) account_namespaces →
  reconcilable (pf_rbac pf) →
  ∃ pf', run_hooks l flt pf = (Ok (), pf') ∧
    (∀ n ns, n ∈ default_namespaces → namespace_at (pf_cluster pf) n = Some ns →
       Forall (policy_applied n (pf_cluster pf')) (missing (ns_Annotations ns) (default_policies n))) ∧
    Forall (restricted (pf_cluster pf')) account_namespaces ∧
    (∀ b, b ∈ declared_bindings →
       (∀ old, cluster_binding_at (pf_rbac pf) (bi_Name b) = Some old → ¬ opted_out (bi_Annotations old)) →
       ∃ b', cluster_binding_at (pf_rbac pf') (bi_Name b) = Some b' ∧ bi_RoleRef b' = bi_RoleRef b ∧
             bi_Subjects b ⊆ bi_Subjects b') ∧
    pf_skips pf' !! kubeProxyChart = Some true ∧ pf_disables pf' !! kubeProxyChart = Some true ∧
    (until_deleted events ≠ Ok () → pf_files pf' = pf_files pf).
Proof.
  intros Hcis Hl Hconfig Hclient Hns Hacc Hup.
  pose proof (setClusterRoles_succeeds (pf_rbac pf) Hconfig Hclient Hup) as Hroles. set (d := flag_String (c_Flags clx) "data-dir").
  assert (server_hooks clx = cis_hooks d) as Hhooks by (unfold server_hooks; by rewrite Hcis).
  rewrite Hhooks in Hl. clear Hhooks.
  assert (NoDup (cis_hooks d)) as Hnd by (repeat constructor; set_solver).
  destruct (run_hooks_all d flt l pf) as (pf' & Hrun & Heff & _); [done|by rewrite Hl|by rewrite Hl|by split|].
  exists pf'. split; [done|]. rewrite Hl in Heff. unfold cis_hooks in Heff.
  rewrite !Forall_cons in Heff. destruct Heff as (Hpol & Hrbac & Hres & [Hskip Hdis] & Hfiles & _).
  cbn [effect] in *. split_and!; [done|done| |done|done|].
  - intros b Hb Hold. destruct (setClusterRoles _ _ _ _) as [r s] eqn:E. cbn in Hroles, Hrbac. subst r s.
    destruct (setClusterRoles_inv _ _ _ _ _ E) as [_ Hbind].
    destruct (Hbind b Hb Hold) as (b' & ? & ? & ? & _). by exists b'.
  - intros Hno. rewrite Hfiles. unfold watchForSelfDelete. by destruct (until_deleted events) as [[]|].
Qed.
End hooks.

(** ** A new cluster *)

#[local] Existing Instance SimpleKube.api.
#[local] Existing Instance SimpleKube.kube_laws.
#[local] Existing Instance SimpleKube.kube_frames.
#[local] Existing Instance SimpleRbac.helpers.
#[local] Existing Instance SimpleRbac.helpers_laws.
#[local] Existing Instance SimpleRbac.api.
#[local] Existing Instance SimpleRbac.laws.

Definition new_account : ServiceAccount :=
  {| sa_Name := "default"; sa_ResourceVersion := "1"; sa_Labels := ∅; AutomountServiceAccountToken := None |}.

Definition new_platform : platform :=
  Platform (SimpleKube.State (list_to_map ((λ n, (n, new_namespace n)) <$> core_namespaces)) ∅
              (list_to_map ((λ n, ((n, "default"), new_account)) <$> account_namespaces)) [] : @cluster SimpleKube.api)
           (SimpleRbac.State ∅ ∅ : @rbac SimpleRbac.api) ∅ ∅ (MkFS ∅ 0 []).

(** The hooks in the opposite order. *)
Definition late_hooks : list StartupHook := reverse (server_hooks (server_flags [])).

Lemma cis_hooks_applied_witness :
  ∃ pf', run_hooks 0 map_to_list (Ok ()) (Ok ()) [] late_hooks no_faults new_platform = (Ok (), pf') ∧
    Forall (policy_applied "kube-system" (pf_cluster pf')) (default_policies "kube-system") ∧
    Forall (restricted (pf_cluster pf')) account_namespaces ∧
    (∀ b, b ∈ declared_bindings → is_Some (cluster_binding_at (pf_rbac pf') (bi_Name b))) ∧ pf_files pf' = pf_files new_platform.
Proof.
  destruct (cis_hooks_applied 0 map_to_list (Ok ()) (Ok ()) [] (server_flags []) late_hooks no_faults new_platform)
    as (pf' & Hrun & Hpol & Hres & Hbind & _ & _ & Hfiles).
  - reflexivity.
  - apply reverse_Permutation.
  - reflexivity.
  - reflexivity.
  - intros n Hn. repeat (apply elem_of_cons in Hn as [->|Hn]; [eexists; vm_compute; reflexivity|]).
    by apply elem_of_nil in Hn.
  - repeat constructor; vm_compute; by eexists.
  - intros policy. reflexivity.
  - exists pf'. split; [exact Hrun|]. split; [|split; [exact Hres|split; [|by apply Hfiles]]].
    + apply (Hpol "kube-system" (new_namespace "kube-system")); [left|vm_compute; reflexivity].
    + intros b Hb. destruct (Hbind b Hb) as (b' & Hb' & _); [|by exists b'].
      intros old Hold. discriminate Hold.
Defined.
