(* ===== verification/Bootstrap.v ===== *)
(** * Bootstrap: pkg/bootstrap/bootstrap.go, staging of the runtime image

    The runtime image carries the binaries and charts of a release.  [Stage]
    extracts them into a directory named after the image, marks the directory
    complete, points dataDir/bin at it and removes the directories of older
    releases that no container uses any more.  A node may lose power at any
    call, so the theorems speak of every intermediate tree under every fault
    schedule.  The image library (wharfie, go-containerregistry) and the
    credential plugins are the class [ImageLib]; [ImageLaws] states what the
    code relies on. *)

From S2P Require Import Prelude GoStrings GoPath GoFS GoTree Images.

(** ** The image library *)

Class ImageLib `{NameApi} := {
  (** [v1.Image], the private registry configuration, a keychain, and the
      mirrors the agent configuration carries *)
  Image : Type;
  PrivateRegistry : Type;
  Keychain : Type;
  Mirrors : Type;
  (** [tarfile.FindImage(dir, ref)]: image and error are returned independently *)
  FindImage : string → Reference → io (option Image * option error);
  GetPrivateRegistries : string → io PrivateRegistry;
  (** [registry.Registry = mirrors] and [registry.DefaultKeychain = k] *)
  set_Mirrors : Mirrors → PrivateRegistry → PrivateRegistry;
  set_DefaultKeychain : Keychain → PrivateRegistry → PrivateRegistry;
  (** [agent.ImageCredProvAvailable], given the two configured paths *)
  ImageCredProvAvailable : string → string → io bool;
  RegisterCredentialProviderPlugins : string → string → io Keychain;
  authn_DefaultKeychain : Keychain;
  (** [registry.Image(ref, ...)]: a pull *)
  registry_Image : PrivateRegistry → Reference → io Image;
  (** [extract.ExtractDirs(img, paths)] *)
  ExtractDirs : Image → list (string * string) → io unit;
  (** what the image holds below a directory, by relative path *)
  image_dir : Image → string → gmap string node;
  (** lower-case hexadecimal SHA-256 of a text *)
  sha256_hex : string → string
}.

(** The directory [dst] of the tree holds what the image has in [src]. *)
Definition holds `{ImageLib} (img : Image) (src dst : string) (t : tree) : Prop :=
  t !! dst = Some NDir ∧
  ∀ rel n, image_dir img src !! rel = Some n → t !! (dst +:+ "/" +:+ rel) = Some n.

(** The path is neither below a destination of the extraction nor a parent of one. *)
Definition not_destination (paths : list (string * string)) (q : string) : Prop :=
  ∀ src dst, (src, dst) ∈ paths → under dst q = false ∧ q ∉ ancestors dst.

Class ImageLaws `{ImageLib} := {
  (** finding, configuring and pulling an image changes no file *)
  find_readonly dir ref : readonly (FindImage dir ref);
  registries_readonly p : readonly (GetPrivateRegistries p);
  cred_readonly c b : readonly (ImageCredProvAvailable c b);
  plugins_readonly c b : readonly (RegisterCredentialProviderPlugins c b);
  image_readonly reg ref : readonly (registry_Image reg ref);
  (** extraction writes below its destinations and makes their parents *)
  extract_frame img paths :
    spares (not_destination paths) (ExtractDirs img paths);
  (** a successful extraction is complete *)
  extract_complete img paths flt s src dst :
    (ExtractDirs img paths flt s).1 = Ok () → (src, dst) ∈ paths →
    holds img src dst (nodes (ExtractDirs img paths flt s).2)
}.

(** ** Paths *)

Definition taskDir := "/run/k3s/containerd/io.containerd.runtime.v2.task/k8s.io".

Definition binDirForDigest (dataDir refDigest : string) : string :=
  filepath_Join [dataDir; "data"; refDigest; "bin"].
Definition chartsDirForDigest (dataDir refDigest : string) : string :=
  filepath_Join [dataDir; "data"; refDigest; "charts"].
Definition completionMarkerForDigest (dataDir refDigest : string) : string :=
  filepath_Join [dataDir; "data"; refDigest; ".extracted"].
Definition manifestsDir (dataDir : string) : string := filepath_Join [dataDir; "server"; "manifests"].
Definition imagesDir (dataDir : string) : string := filepath_Join [dataDir; "agent"; "images"].
Definition symlinkBinDir (dataDir : string) : string := filepath_Join [dataDir; "bin"].

Definition dirExists (dir : string) : io bool :=
  s ← attempt (os_Stat dir);
  mret (match s with Ok NDir => true | _ => false end).

Definition isRegular (file : string) : io bool :=
  s ← attempt (os_Stat file);
  mret (match s with Ok (NFile _ _) => true | _ => false end).

(** ** Old releases *)

(** [releasePattern], the expression ^v[0-9] *)
Definition releasePattern (s : string) : bool :=
  match s with
  | String v (String d _) =>
      bool_decide (v = "v"%char) && bool_decide (is_Some (Ascii.is_nat d))
  | _ => false
  end.

(** The loop of [dirHasShims] over the entries of the task directory. *)
Fixpoint any_shim (dirPath : string) (entries : list (string * node)) : io bool :=
  match entries with
  | [] => mret false
  | (name, NDir) :: es =>
      shimPath ← attempt (os_ReadFile (filepath_Join [taskDir; name; "shim-binary-path"]));
      match shimPath with
      | Err _ => any_shim dirPath es
      | Ok p => if HasPrefix dirPath p then mret true else any_shim dirPath es
      end
  | _ :: es => any_shim dirPath es
  end.

Definition dirHasShims (dirPath : string) : io bool :=
  entries ← attempt (os_ReadDir taskDir);
  match entries with
  | Err _ => mret true
  | Ok es => any_shim dirPath es
  end.

(** The loop of [cleanDataDirs] over the entries of the data directory. *)
Fixpoint clean_entries (datapath refDigest : string) (entries : list (string * node)) : io unit :=
  match entries with
  | [] => mret ()
  | (name, NDir) :: es =>
      if decide (name = refDigest) then clean_entries datapath refDigest es
      else if negb (releasePattern name) then clean_entries datapath refDigest es
      else
        let oldpath := filepath_Join [datapath; name] in
        used ← dirHasShims oldpath;
        if (used : bool) then clean_entries datapath refDigest es
        else attempt (os_RemoveAll oldpath);; clean_entries datapath refDigest es
  | _ :: es => clean_entries datapath refDigest es
  end.

Definition cleanDataDirs (dataDir refDigest : string) : io unit :=
  let datapath := filepath_Join [dataDir; "data"] in
  entries ← attempt (os_ReadDir datapath);
  match entries with
  | Err e => if os_IsNotExist e then mret () else io_fail e
  | Ok es => clean_entries datapath refDigest es
  end.

(** ** Staging *)

Section stage.
Context `{ImageLib} (defaults : Defaults).

(** [releaseRefDigest] *)
Definition releaseRefDigest (ref : Reference) : result string :=
  let fail := Err (ErrMsg ("Runtime image " +:+ Ref_Name ref +:+
    " is not a not a reference to a digest or version tag matching pattern ^v[0-9]")) in
  match Ref_kind ref with
  | KTag t =>
      if releasePattern t then Ok (t +:+ "-" +:+ take_str 12 (sha256_hex (Ref_String ref)))
      else fail
  | KDigest d => Ok (match Cut ":" d with Some (_, rest) => rest | None => d end)
  | KOther => fail
  end.

(** The fields of [daemonconfig.Node] and [cmds.Agent] read here. *)
Record StageConfig := {
  sc_DataDir : string;
  sc_PrivateRegistry : string;
  sc_Mirrors : Mirrors;
  sc_ImageCredProvConfig : string;
  sc_ImageCredProvBinDir : string
}.

Definition BinDir (resolver : Resolver) (dataDir : string) : result string :=
  ref ← GetReference defaults resolver Runtime [];
  refDigest ← releaseRefDigest ref;
  Ok (binDirForDigest dataDir refDigest).

Definition lift_result {A} (r : result A) : io A :=
  match r with Ok a => mret a | Err e => io_fail e end.

(** The loop of [preloadBootstrapFromRuntime]: the first reference a tarball
    has, with the error the search returned next to it. *)
Fixpoint find_first (dir : string) (refs : list Reference) : io (option Image) :=
  match refs with
  | [] => mret None
  | ref :: refs' =>
      found ← FindImage dir ref;
      match found with
      | (Some img, None) => mret (Some img)
      | (Some _, Some e) => io_fail e
      | (None, _) => find_first dir refs'
      end
  end.

(** The references looked for, in order. *)
Definition preload_refs (resolver : Resolver) : result (list Reference) :=
  runtimeRef ← GetReference defaults resolver Runtime [];
  if decide (Ref_RegistryStr runtimeRef = DefaultRegistry defaults) then Ok [runtimeRef]
  else
    defaultRef ← GetReference defaults resolver Runtime [WithRegistry (DefaultRegistry defaults)];
    Ok [defaultRef; runtimeRef].

Definition preloadBootstrapFromRuntime (dir : string) (resolver : Resolver) : io (option Image) :=
  refs ← lift_result (preload_refs resolver);
  find_first dir refs.

(** The branch of [Stage] that pulls the image. *)
Definition pull_runtime (cfg : StageConfig) (ref : Reference) : io Image :=
  registry ← io_with_message ("failed to load private registry configuration from " +:+
                              sc_PrivateRegistry cfg)
               (GetPrivateRegistries (sc_PrivateRegistry cfg));
  let registry := set_Mirrors (sc_Mirrors cfg) registry in
  available ← ImageCredProvAvailable (sc_ImageCredProvConfig cfg) (sc_ImageCredProvBinDir cfg);
  registry ← (if (available : bool) then
                plugins ← RegisterCredentialProviderPlugins (sc_ImageCredProvConfig cfg)
                                                           (sc_ImageCredProvBinDir cfg);
                mret (set_DefaultKeychain plugins registry)
              else mret (set_DefaultKeychain authn_DefaultKeychain registry));
  attempt (Pull (imagesDir (sc_DataDir cfg)) Runtime (Ref_Name ref));;
  io_with_message ("failed to get runtime image " +:+ Ref_Name ref) (registry_Image registry ref).

(** The extraction of [img], then the marker. *)
Definition extract_runtime (dataDir refDigest : string) (ref : Reference) (img : Image) : io unit :=
  let refBinDir := binDirForDigest dataDir refDigest in
  io_with_message "failed to extract runtime image"
    (ExtractDirs img [("/bin", refBinDir); ("/charts", chartsDirForDigest dataDir refDigest)]);;
  os_Chmod refBinDir 493;;
  os_WriteFile (completionMarkerForDigest dataDir refDigest) (Ref_Name ref) 420.

(** [dirExists(bin) && dirExists(charts) && isRegular(marker)], left to right. *)
Definition already_staged (dataDir refDigest : string) : io bool :=
  b ← dirExists (binDirForDigest dataDir refDigest);
  if negb b then mret false
  else c ← dirExists (chartsDirForDigest dataDir refDigest);
       if negb c then mret false
       else isRegular (completionMarkerForDigest dataDir refDigest).

(** The image to extract: from a tarball, or else pulled. *)
Definition obtain_image (cfg : StageConfig) (resolver : Resolver) (ref : Reference) : io Image :=
  img ← preloadBootstrapFromRuntime (imagesDir (sc_DataDir cfg)) resolver;
  match img with
  | Some i => mret i
  | None => pull_runtime cfg ref
  end.

Definition Stage (resolver : Resolver) (cfg : StageConfig) : io unit :=
  ref ← lift_result (GetReference defaults resolver Runtime []);
  refDigest ← lift_result (releaseRefDigest ref);
  let dataDir := sc_DataDir cfg in
  staged ← already_staged dataDir refDigest;
  (if (staged : bool) then mret ()
   else img ← obtain_image cfg resolver ref;
        extract_runtime dataDir refDigest ref img);;
  attempt (os_RemoveAll (symlinkBinDir dataDir));;
  attempt (os_Symlink (binDirForDigest dataDir refDigest) (symlinkBinDir dataDir));;
  attempt (cleanDataDirs dataDir refDigest);;
  mret ().
End stage.

(** ** The embedded registry: spegel.go *)

Section spegel.
(** [url.Parse] succeeds; [docker.IsLocalhost] *)
Context (url_Parse_ok IsLocalhost : string → bool).

(** [mirrors] are the hosts with a mirror; [running] says that
    [spegel.DefaultRegistry] is not nil. *)
Definition isEmbeddedRegistryConfigured (mirrors : list string) (EmbeddedRegistry running : bool)
    : bool :=
  let hasValidMirrors :=
    existsb (λ host, url_Parse_ok ("https://" +:+ host) && negb (IsLocalhost host)) mirrors in
  hasValidMirrors && EmbeddedRegistry && running.

(** The poll: [ready k] is what the registry answers at evaluation [k], [evals]
    the number of evaluations the timeout leaves room for. *)
Fixpoint poll_ready (evals k : nat) (ready : nat → bool) : result unit :=
  match evals with
  | 0 => Err (ErrMsg "context deadline exceeded")
  | S evals' => if ready k then Ok () else poll_ready evals' (S k) ready
  end.

Definition WaitForEmbeddedRegistry (evals : nat) (ready : nat → bool) (mirrors : list string)
    (EmbeddedRegistry running : bool) : result unit :=
  if isEmbeddedRegistryConfigured mirrors EmbeddedRegistry running
  then poll_ready evals 0 ready else Ok ().

(** The wait ends well exactly when there is nothing to wait for or the registry
    answers within the evaluations. *)
Lemma WaitForEmbeddedRegistry_Ok evals ready mirrors e running :
  WaitForEmbeddedRegistry evals ready mirrors e running = Ok () ↔
  isEmbeddedRegistryConfigured mirrors e running = false ∨ ∃ k, k < evals ∧ ready k = true.
Proof.
  assert (∀ n k, poll_ready n k ready = Ok () ↔ ∃ j, k ≤ j < k + n ∧ ready j = true) as Hp.
  { induction n as [|n IH]; intros k; cbn [poll_ready].
    - split; [done|]. intros (j & ? & _). lia.
    - destruct (ready k) eqn:Hk.
      + split; [|done]. intros _. exists k. split; [lia|done].
      + rewrite IH. split; intros (j & Hj & Hr); exists j; (split; [|done]); [lia|].
        destruct (decide (j = k)) as [->|]; [congruence|lia]. }
  unfold WaitForEmbeddedRegistry. destruct (isEmbeddedRegistryConfigured _ _ _).
  - rewrite Hp. split; [intros (j & ? & ?); right; exists j; split; [lia|done]|].
    intros [|(j & ? & ?)]; [done|]. exists j. split; [lia|done].
  - split; [by left|done].
Qed.
End spegel.

(** ** Cleaning *)

Lemma readonly_any_shim d es : readonly (any_shim d es).
Proof.
  induction es as [|[name n] es IH]; cbn [any_shim]; [auto with readonly|].
  destruct n; try done. apply readonly_bind; [auto with readonly|].
  intros [p|e]; [case_match|]; auto with readonly.
Qed.

Lemma readonly_dirHasShims d : readonly (dirHasShims d).
Proof.
  unfold dirHasShims. apply readonly_bind; [auto with readonly|].
  intros [es|e]; [apply readonly_any_shim|auto with readonly].
Qed.
#[export] Hint Resolve readonly_dirHasShims : readonly.

Lemma releasePattern_simple name :
  releasePattern name = true → has_char slash name = false ∨ name = "/" → simple name = true.
Proof.
  intros Hr [Hs| ->]; [|done]. apply simple_spec. split; [done|].
  split_and!; intros ->; by vm_compute in Hr.
Qed.

(** Only directories of other releases are ever touched, whatever fails. *)
Definition not_old (datapath refDigest q : string) : Prop :=
  ∀ name, simple name = true → name ≠ refDigest → releasePattern name = true →
    under (Clean (filepath_Join [datapath; name])) q = false.

Lemma spares_clean_entries datapath refDigest es :
  Forall (λ e, has_char slash e.1 = false ∨ e.1 = "/") es →
  spares (not_old datapath refDigest) (clean_entries datapath refDigest es).
Proof.
  induction 1 as [|[name n] es Hn Hes IH]; cbn [clean_entries]; [auto with spares|].
  destruct n; try done. case_decide as Hd; [done|].
  destruct (releasePattern name) eqn:Hr; cbn [negb]; [|done].
  apply spares_bind; [auto with spares|]. intros []; [done|].
  apply spares_bind; [|by intros _]. apply spares_attempt, spares_RemoveAll.
  intros q Hq. apply Hq; auto using releasePattern_simple.
Qed.

Lemma spares_cleanDataDirs dataDir refDigest :
  spares (not_old (filepath_Join [dataDir; "data"]) refDigest) (cleanDataDirs dataDir refDigest).
Proof.
  unfold cleanDataDirs. set (p := filepath_Join [dataDir; "data"]).
  apply (spares_bind_with _ (λ r, match r with
    | Ok es => Forall (λ e, has_char slash e.1 = false ∨ e.1 = "/") es | Err _ => True end)).
  - intros flt s r s'. unfold attempt, os_ReadDir, syscall.
    destruct (flt (clock s)) as [[e [k|]]|]; [by intros [= <- _]..|].
    destruct (nodes s !! Clean p) as [[]|]; intros [= <- _]; try done.
    apply Forall_forall. intros [name n]. apply children_no_slash.
  - auto with spares.
  - intros [es|e] He; [by apply spares_clean_entries|case_match; auto with spares].
Qed.

(** *** Which directories have shims *)

Definition task_cs : list string :=
  ["run"; "k3s"; "containerd"; "io.containerd.runtime.v2.task"; "k8s.io"].

Lemma taskDir_mkpath : taskDir = mkpath task_cs.
Proof. done. Qed.

Lemma simple_task : Forall (λ c, simple c = true) task_cs.
Proof. by repeat constructor. Qed.

(** What [dirHasShims] answers when nothing fails. *)
Definition shim_entry (t : tree) (d : string) (e : string * node) : bool :=
  match e with
  | (name, NDir) =>
      match t !! Clean (filepath_Join [taskDir; name; "shim-binary-path"]) with
      | Some (NFile c _) => HasPrefix d c
      | _ => false
      end
  | _ => false
  end.

Definition shims_in (t : tree) (d : string) : bool :=
  match t !! taskDir with
  | Some NDir => existsb (shim_entry t d) (children t taskDir)
  | _ => true
  end.

Lemma any_shim_run d es s :
  ∃ s', any_shim d es no_faults s = (Ok (existsb (shim_entry (nodes s) d) es), s') ∧
        nodes s' = nodes s.
Proof.
  revert s. induction es as [|[name n] es IH]; intros s; cbn [any_shim existsb]; [by eexists|].
  destruct n; try apply IH.
  unfold mbind, io_bind, attempt.
  destruct (os_ReadFile_run (filepath_Join [taskDir; name; "shim-binary-path"]) s) as (s1 & -> & N1).
  destruct (IH s1) as (s2 & E2 & N2). rewrite N1 in E2, N2. unfold shim_entry at 1.
  destruct (nodes s !! Clean (filepath_Join [taskDir; name; "shim-binary-path"])) as [[]|];
    cbn [orb]; try by exists s2.
  destruct (HasPrefix d content); [|by exists s2]. by exists s1.
Qed.

Lemma dirHasShims_run d s :
  ∃ s', dirHasShims d no_faults s = (Ok (shims_in (nodes s) d), s') ∧ nodes s' = nodes s.
Proof.
  unfold dirHasShims, shims_in, mbind, io_bind, attempt.
  destruct (os_ReadDir_run taskDir s) as (s1 & -> & N1).
  change (Clean taskDir) with taskDir.
  destruct (nodes s !! taskDir) as [[]|]; try by exists s1.
  destruct (any_shim_run d (children (nodes s) taskDir) s1) as (s2 & E2 & N2).
  rewrite N1 in E2, N2. by exists s2.
Qed.

(** The answer depends on the task directory alone. *)
Lemma shims_in_ext t t' d :
  tidy t → tidy t' → same_on (λ q, under taskDir q = true) t t' → shims_in t d = shims_in t' d.
Proof.
  assert (∀ t t', tidy t → tidy t' → same_on (λ q, under taskDir q = true) t t' →
    t !! taskDir = Some NDir → existsb (shim_entry t d) (children t taskDir) = true →
    existsb (shim_entry t' d) (children t' taskDir) = true) as Hone.
  { clear. intros t t' Ht Ht' Hs Hd. rewrite !existsb_exists.
    intros ([c n] & Hin%list_elem_of_In & Hsh). exists (c, n).
    unfold shim_entry in Hsh |- *. destruct n; try done.
    rewrite taskDir_mkpath in *.
    apply elem_of_children in Hin as [Hc Hn]; [|done|done|apply simple_task].
    rewrite (filepath_Join_list task_cs [c; "shim-binary-path"]) in Hsh |- *
      by (done || (apply Forall_app; split; [apply simple_task|by repeat constructor])).
    rewrite Clean_mkpath in Hsh |- * by (apply Forall_app; split; [apply simple_task|by repeat constructor]).
    rewrite (Hs (mkpath (task_cs ++ [c; _]))) by by apply under_prefix.
    split; [|done]. apply list_elem_of_In, elem_of_children; [done|done|apply simple_task|].
    split; [done|]. rewrite (Hs (mkpath (task_cs ++ [c]))) by by apply under_prefix. done. }
  intros Ht Ht' Hs. unfold shims_in. rewrite (Hs taskDir) by by apply under_refl.
  destruct (t !! taskDir) as [[]|] eqn:Hd; try done.
  apply eq_true_iff_eq. split; apply Hone; try done.
  by rewrite (Hs taskDir) by by apply under_refl.
Qed.

Lemma tidy_subset t t' : (∀ q, t' !! q = t !! q ∨ t' !! q = None) → tidy t → tidy t'.
Proof. intros Hs Ht q n Hn. destruct (Hs q) as [E|E]; [|congruence]. rewrite E in Hn. eauto. Qed.

Lemma existsb_ext {A} (f g : A → bool) l : (∀ x, f x = g x) → existsb f l = existsb g l.
Proof. intros Hfg. induction l as [|x l IH]; [done|]. simpl. by rewrite Hfg, IH. Qed.

(** *** What is removed *)

Section clean.
Context (cs : list string) (refDigest : string).
Context (Hcs : Forall (λ c, simple c = true) cs) (Hne : cs ≠ []).
Context (Htask1 : ¬ (cs ++ ["data"]) `prefix_of` task_cs).
Context (Htask2 : ¬ task_cs `prefix_of` (cs ++ ["data"])).

Abbreviation old name := (mkpath (cs ++ ["data"; name])).

(** The directory [name] is that of an old release no container uses. *)
Definition stale (t : tree) (name : string) : bool :=
  bool_decide (name ≠ refDigest) && releasePattern name && negb (shims_in t (old name)).

Lemma simple_old name : simple name = true → Forall (λ c, simple c = true) (cs ++ ["data"; name]).
Proof. intros. apply Forall_app. split; [done|]. by repeat constructor. Qed.

Lemma prefix_snoc_of l c ds : (l ++ [c] : list string) `prefix_of` ds → l `prefix_of` ds.
Proof. intros [k ->]. rewrite <-(assoc_L (++)). by eexists. Qed.

Lemma old_not_task name q :
  simple name = true → under (old name) q = true → under taskDir q = false.
Proof.
  intros Hn. rewrite taskDir_mkpath.
  assert (cs ++ ["data"; name] = (cs ++ ["data"]) ++ [name]) as Heq by by rewrite <-(assoc_L (++)).
  apply under_disjoint; try done; [by destruct cs|by apply simple_old|apply simple_task| |].
  - rewrite Heq. by intros ?%prefix_snoc_of.
  - rewrite Heq. intros [k Hk]. destruct k as [|x k] using rev_ind.
    + rewrite app_nil_r in Hk. apply Htask1. rewrite <-Hk. by eexists.
    + rewrite (assoc_L (++)) in Hk. apply app_inj_tail in Hk as [Hk _]. apply Htask2. by eexists.
Qed.

Lemma clean_entries_run es s :
  tidy (nodes s) → Forall (λ e, simple e.1 = true) es →
  ∃ s', clean_entries (mkpath (cs ++ ["data"])) refDigest es no_faults s = (Ok (), s') ∧
    (∀ q, nodes s' !! q = nodes s !! q ∨ nodes s' !! q = None) ∧
    ∀ q, nodes s' !! q =
      if existsb (λ e, match e with
                       | (name, NDir) => stale (nodes s) name && under (old name) q
                       | _ => false
                       end) es
      then None else nodes s !! q.
Proof.
  revert s. induction es as [|[name n] es IH]; intros s Ht Hes; cbn [clean_entries existsb].
  { exists s. split_and!; by auto. }
  apply Forall_cons in Hes as [Hn Hes]. cbn [fst] in Hn.
  destruct n; try by apply IH.
  destruct (bool_decide (name ≠ refDigest)) eqn:Hb.
  2: { apply bool_decide_eq_false in Hb. rewrite decide_True by (by apply dec_stable).
       unfold stale at 1. rewrite bool_decide_false by done. by apply IH. }
  rewrite decide_False by (by apply bool_decide_eq_true in Hb).
  unfold stale at 1. rewrite Hb. destruct (releasePattern name); cbn [negb andb]; [|by apply IH].
  rewrite filepath_Join_mkpath by (done || (apply Forall_app; auto)).
  rewrite <-(assoc_L (++)). cbn [app].
  unfold mbind at 1, io_bind at 1.
  destruct (dirHasShims_run (old name) s) as (s1 & -> & N1).
  destruct (shims_in (nodes s) (old name)) eqn:Hsh; cbn [negb andb orb].
  { rewrite <-N1 in Ht |- *. by apply IH. }
  unfold mbind at 1, io_bind at 1, attempt at 1.
  destruct (os_RemoveAll_run (old name) s1) as (s2 & -> & N2).
  rewrite Clean_mkpath in N2 by by apply simple_old. rewrite N1 in N2.
  assert (∀ q, nodes s2 !! q = nodes s !! q ∨ nodes s2 !! q = None) as Hsub.
  { intros q. rewrite N2. destruct (under (old name) q); auto. }
  assert (tidy (nodes s2)) as Ht2 by (by eapply tidy_subset).
  destruct (IH s2 Ht2 Hes) as (s3 & E3 & Hsub3 & N3). exists s3. split; [done|]. split.
  { intros q. destruct (Hsub3 q) as [->|]; auto. }
  intros q. rewrite N3, N2.
  assert (∀ d, shims_in (nodes s2) d = shims_in (nodes s) d) as Hshim.
  { intros d. symmetry. apply shims_in_ext; [done..|]. intros p Hp. rewrite N2.
    destruct (under (old name) p) eqn:Hu; [|done].
    by rewrite (old_not_task name p) in Hp. }
  assert (∀ nm, stale (nodes s2) nm = stale (nodes s) nm) as Hst.
  { intros nm. unfold stale. by rewrite Hshim. }
  rewrite (existsb_ext _ (λ e, match e with (nm, NDir) => stale (nodes s) nm && under (old nm) q
                                          | _ => false end)).
  2: { intros [nm n]. by destruct n; rewrite ?Hst. }
  destruct (under (old name) q); cbn [orb]; by case_match.
Qed.

(** When no call fails, cleaning removes exactly the directories of
    other releases that no container's shim lives in: a path disappears if and
    only if it lies in a directory data/<name> whose name looks like a release,
    is not the current one, and is a prefix of no shim path in containerd's task
    directory (which must be readable); every other path keeps its node. *)
Theorem cleanDataDirs_exact s :
  tidy (nodes s) → nodes s !! mkpath (cs ++ ["data"]) = Some NDir →
  ∃ s', cleanDataDirs (mkpath cs) refDigest no_faults s = (Ok (), s') ∧
    ∀ q, (∃ name, simple name = true ∧ nodes s !! old name = Some NDir ∧
                  stale (nodes s) name = true ∧ under (old name) q = true) ∧
         nodes s' !! q = None ∨
         (∀ name, simple name = true → nodes s !! old name = Some NDir →
                  stale (nodes s) name = true → under (old name) q = false) ∧
         nodes s' !! q = nodes s !! q.
Proof.
  intros Ht Hdata. unfold cleanDataDirs.
  assert (Forall (λ c, simple c = true) (cs ++ ["data"])) as Hd by (apply Forall_app; auto).
  rewrite filepath_Join_mkpath by done. unfold mbind at 1, io_bind at 1, attempt at 1.
  destruct (os_ReadDir_run (mkpath (cs ++ ["data"])) s) as (s1 & -> & N1).
  rewrite Clean_mkpath, Hdata by done.
  assert (∀ name n, (name, n) ∈ children (nodes s) (mkpath (cs ++ ["data"])) ↔
            simple name = true ∧ nodes s !! old name = Some n) as Hch.
  { intros name n. rewrite elem_of_children by (done || by destruct cs).
    by rewrite <-(assoc_L (++)). }
  destruct (clean_entries_run (children (nodes s) (mkpath (cs ++ ["data"]))) s1) as (s2 & -> & _ & N2).
  { by rewrite N1. }
  { apply Forall_forall. intros [name n] Hin. by apply Hch in Hin as []. }
  exists s2. split; [done|]. intros q. rewrite N2, N1.
  case_match eqn:Hex; [left|right].
  - split; [|done]. apply existsb_exists in Hex as ([name n] & Hin%list_elem_of_In & Hb).
    apply Hch in Hin as [? ?]. destruct n; try done. apply andb_true_iff in Hb as [? ?]. eauto 6.
  - split; [|done]. intros name Hn Hl Hs. apply not_true_iff_false. intros Hu.
    apply not_true_iff_false in Hex. apply Hex, existsb_exists. exists (name, NDir).
    split; [by apply list_elem_of_In, Hch|]. by rewrite Hs, Hu.
Qed.
End clean.

(** ** Staging is crash-safe *)

Section staging.
Context `{ImageLaws} (defaults : Defaults).
Context (cs : list string) (Hcs : Forall (λ c, simple c = true) cs) (Hne : cs ≠ []).
Context (d : string) (Hd : simple d = true).

Abbreviation stage_dir := (mkpath (cs ++ ["data"; d])).
Abbreviation bin_dir := (mkpath (cs ++ ["data"; d; "bin"])).
Abbreviation charts_dir := (mkpath (cs ++ ["data"; d; "charts"])).
Abbreviation marker := (mkpath (cs ++ ["data"; d; ".extracted"])).
Abbreviation staging q := (under stage_dir q = true).

Lemma simple_app ds : Forall (λ c, simple c = true) ds → Forall (λ c, simple c = true) (cs ++ ds).
Proof. intros. by apply Forall_app. Qed.

Lemma join_dir ds : Forall (λ c, simple c = true) ds → filepath_Join (mkpath cs :: ds) = mkpath (cs ++ ds).
Proof. intros. apply filepath_Join_list; auto using simple_app. Qed.

Lemma bin_path : binDirForDigest (mkpath cs) d = bin_dir.
Proof. apply (join_dir [_; _; _]). by repeat constructor. Qed.
Lemma charts_path : chartsDirForDigest (mkpath cs) d = charts_dir.
Proof. apply (join_dir [_; _; _]). by repeat constructor. Qed.
Lemma marker_path : completionMarkerForDigest (mkpath cs) d = marker.
Proof. apply (join_dir [_; _; _]). by repeat constructor. Qed.
Lemma images_path : imagesDir (mkpath cs) = mkpath (cs ++ ["agent"; "images"]).
Proof. apply (join_dir [_; _]). by repeat constructor. Qed.
Lemma link_path : symlinkBinDir (mkpath cs) = mkpath (cs ++ ["bin"]).
Proof. apply (join_dir [_]). by repeat constructor. Qed.

Lemma simple_stage x : simple x = true → Forall (λ c, simple c = true) (cs ++ ["data"; d; x]).
Proof. intros. apply simple_app. by repeat constructor. Qed.

(** A path that starts with other components is not part of the stage. *)
Lemma not_staging ds :
  Forall (λ c, simple c = true) ds → ¬ ["data"; d] `prefix_of` ds → ¬ staging (mkpath (cs ++ ds)).
Proof.
  intros Hds Hn Hu. apply under_mkpath in Hu; [|by destruct cs|apply simple_app; by repeat constructor
    |by apply simple_app].
  by apply prefix_app_inv in Hu.
Qed.

Lemma not_staging_ancestors q ds :
  Forall (λ c, simple c = true) ds → ¬ ["data"; d] `prefix_of` ds →
  q ∈ ancestors (mkpath (cs ++ ds)) → ¬ staging q.
Proof.
  intros Hds Hn (es & Hp & _ & ->)%elem_of_ancestors; [|by apply simple_app]. intros Hu.
  assert (Forall (λ c, simple c = true) (cs ++ ds)) as Hs by by apply simple_app.
  apply under_mkpath in Hu; [|by destruct cs|apply simple_app; by repeat constructor|].
  - apply Hn. apply (prefix_app_inv cs). by trans es.
  - destruct Hp as [l Hp]. rewrite Hp in Hs. by apply Forall_app in Hs as [].
Qed.

Lemma staging_below x rel : staging (mkpath (cs ++ ["data"; d; x]) +:+ "/" +:+ rel).
Proof.
  unfold under. apply orb_true_iff. right. apply HasPrefix_app.
  change ["data"; d; x] with (["data"; d] ++ [x]). rewrite (assoc_L (++)), mkpath_snoc by (by destruct cs).
  exists (x +:+ "/" +:+ rel). by rewrite !app_assoc'.
Qed.

Lemma marker_not_below x rel :
  simple x = true → x ≠ ".extracted" → mkpath (cs ++ ["data"; d; x]) +:+ "/" +:+ rel ≠ marker.
Proof.
  intros Hx Hxm Heq.
  assert (under (mkpath (cs ++ ["data"; d; x])) marker = true) as Hu.
  { rewrite <-Heq. unfold under. apply orb_true_iff. right. apply HasPrefix_app.
    exists rel. by rewrite app_assoc'. }
  apply under_mkpath in Hu; [|by destruct cs|by apply simple_stage..].
  apply prefix_app_inv in Hu. do 2 apply prefix_cons_inv_2 in Hu.
  by apply prefix_cons_inv_1 in Hu.
Qed.

Lemma marker_ne x : simple x = true → x ≠ ".extracted" → mkpath (cs ++ ["data"; d; x]) ≠ marker.
Proof.
  intros Hx Hxm Heq. apply mkpath_inj in Heq; [|by apply simple_stage..].
  apply app_inv_head in Heq. by simplify_eq.
Qed.

(** [holds] in the stage only depends on the stage. *)
Lemma holds_ext img src x t t' :
  same_on (λ q, staging q ∧ q ≠ marker) t t' → simple x = true → x ≠ ".extracted" →
  holds img src (mkpath (cs ++ ["data"; d; x])) t →
  holds img src (mkpath (cs ++ ["data"; d; x])) t'.
Proof.
  intros Hs Hx Hxm [Hdir Hall]. split.
  - rewrite Hs; [done|]. split; [|by apply marker_ne].
    change ["data"; d; x] with (["data"; d] ++ [x]). rewrite (assoc_L (++)).
    apply under_prefix. by destruct cs.
  - intros rel n Hn. rewrite Hs; [by apply Hall|]. split; [apply staging_below|].
    by apply marker_not_below.
Qed.

(** The image was found in a tarball for one of the references looked for, or
    the registry answered the pull of [ref] with it. *)
Definition provided (resolver : Resolver) (ref : Reference) (img : Image) : Prop :=
  (∃ refs r dir flt s e, preload_refs defaults resolver = Ok refs ∧ r ∈ refs ∧
     (FindImage dir r flt s).1 = Ok (Some img, e)) ∨
  (∃ reg flt s, (registry_Image reg ref flt s).1 = Ok img).

(** Both directories hold what an image for [ref] has. *)
Definition extracted (resolver : Resolver) (ref : Reference) (t : tree) : Prop :=
  ∃ img, provided resolver ref img ∧ holds img "/bin" bin_dir t ∧ holds img "/charts" charts_dir t.

Lemma extracted_ext resolver ref t t' :
  same_on (λ q, staging q ∧ q ≠ marker) t t' → extracted resolver ref t → extracted resolver ref t'.
Proof.
  intros Hs (img & Hp & Hb & Hc). exists img. split; [done|].
  split; by (eapply holds_ext; [exact Hs|done|done|]).
Qed.

(** Marked implies complete. *)
Definition marked_complete (resolver : Resolver) (ref : Reference) (t : tree) : Prop :=
  t !! marker = None ∨ extracted resolver ref t.

Lemma marker_staging : staging marker.
Proof.
  change ["data"; d; ".extracted"] with (["data"; d] ++ [".extracted"]). rewrite (assoc_L (++)).
  apply under_prefix. by destruct cs.
Qed.

(** *** Obtaining the image *)

Lemma find_first_Ok dir refs flt s img s' :
  find_first dir refs flt s = (Ok (Some img), s') →
  ∃ r flt' s1 e, r ∈ refs ∧ (FindImage dir r flt' s1).1 = Ok (Some img, e).
Proof.
  revert s. induction refs as [|r refs IH]; intros s; cbn [find_first]; [by intros|].
  intros ([[img1|] e1] & s1 & Hf & Hk)%io_bind_Ok.
  - destruct e1 as [e|]; [done|]. injection Hk as -> ->. exists r, flt, s, None.
    rewrite Hf. split; [left|done].
  - destruct (IH s1 Hk) as (r' & flt' & s2 & e & Hr & HF). exists r', flt', s2, e.
    split; [by right|done].
Qed.

Lemma obtain_provided cfg resolver ref flt s img s' :
  obtain_image defaults cfg resolver ref flt s = (Ok img, s') → provided resolver ref img.
Proof.
  unfold obtain_image, preloadBootstrapFromRuntime.
  intros ([i|] & s1 & (refs & s2 & Hrefs & Hfind)%io_bind_Ok & Hk)%io_bind_Ok.
  - injection Hk as -> ->. left. destruct (preload_refs defaults resolver) as [l|e]; [|done].
    injection Hrefs as -> ->. apply find_first_Ok in Hfind as (r & flt' & s3 & e & Hr & HF).
    by exists refs, r, (imagesDir (sc_DataDir cfg)), flt', s3, e.
  - right. unfold pull_runtime in Hk.
    apply io_bind_Ok in Hk as (reg & s3 & _ & Hk).
    apply io_bind_Ok in Hk as (av & s4 & _ & Hk).
    apply io_bind_Ok in Hk as (reg' & s5 & _ & Hk).
    apply io_bind_Ok in Hk as (u & s6 & _ & Hk).
    unfold io_with_message in Hk. exists reg', flt, s6.
    destruct (registry_Image reg' ref flt s6) as [[i|e] s7]; [|done]. by injection Hk as ->.
Qed.

Lemma readonly_lift_result {A} (r : result A) : readonly (lift_result r).
Proof. destruct r; simpl; auto with readonly. Qed.

Lemma readonly_find_first dir refs : readonly (find_first dir refs).
Proof.
  induction refs as [|r refs IH]; cbn [find_first]; [auto with readonly|].
  apply readonly_bind; [apply find_readonly|]. intros [[i|] [e|]]; auto with readonly.
Qed.

Lemma spares_obtain cfg resolver ref :
  sc_DataDir cfg = mkpath cs → spares (λ q, staging q) (obtain_image defaults cfg resolver ref).
Proof.
  intros HD. unfold obtain_image, preloadBootstrapFromRuntime. apply spares_bind.
  { apply spares_readonly, readonly_bind; [apply readonly_lift_result|]. apply readonly_find_first. }
  intros [i|]; [auto with spares|]. unfold pull_runtime.
  apply spares_bind; [apply spares_with_message, spares_readonly, registries_readonly|intros reg].
  apply spares_bind; [apply spares_readonly, cred_readonly|intros av].
  apply spares_bind.
  { destruct av; [|auto with spares].
    apply spares_bind; [apply spares_readonly, plugins_readonly|auto with spares]. }
  intros reg'. apply spares_bind; [|intros _; apply spares_with_message, spares_readonly, image_readonly].
  apply spares_attempt. rewrite HD, images_path.
  assert (Forall (λ c, simple c = true) ["agent"; "images"]) as Hs by by repeat constructor.
  apply spares_Pull.
  - intros q. apply not_staging_ancestors; [done|]. by intros ?%prefix_cons_inv_1.
  - rewrite filepath_Join_mkpath by (done || by apply simple_app). rewrite <-(assoc_L (++)).
    assert (Forall (λ c, simple c = true) (["agent"; "images"] ++ [Runtime +:+ ".txt"])) as Hs'
      by by repeat constructor.
    rewrite Clean_mkpath by by apply simple_app. apply not_staging; [done|].
    by intros ?%prefix_cons_inv_1.
Qed.

(** *** Extraction *)

(** The paths both extraction and the marker leave alone. *)
Lemma extract_marker img :
  spares (λ q, q = marker)
    (ExtractDirs img [("/bin", bin_dir); ("/charts", charts_dir)]).
Proof.
  eapply spares_weaken; [|apply extract_frame]. intros q -> src dst Hin.
  assert (∃ x, dst = mkpath (cs ++ ["data"; d; x]) ∧ simple x = true ∧ x ≠ ".extracted")
    as (x & -> & Hx & Hxm).
  { apply elem_of_cons in Hin as [[= -> ->]|Hin]; [by exists "bin"|].
    apply list_elem_of_singleton in Hin as [= -> ->]. by exists "charts". }
  assert (¬ (cs ++ ["data"; d; x]) `prefix_of` (cs ++ ["data"; d; ".extracted"])) as Hp.
  { intros Hp%prefix_app_inv. do 2 apply prefix_cons_inv_2 in Hp. by apply prefix_cons_inv_1 in Hp. }
  split.
  - apply not_true_iff_false. intros Hu. apply Hp. apply under_mkpath in Hu; [done|by destruct cs|by apply simple_stage..].
  - rewrite elem_of_ancestors by by apply simple_stage.
    intros (es & [l Hes] & _ & Heq). apply mkpath_inj in Heq; [|by apply simple_stage|].
    + subst es. apply (f_equal length) in Hes as Hlen. rewrite !length_app in Hlen. simpl in Hlen.
      destruct l; [|simpl in Hlen; lia]. rewrite app_nil_r in Hes. apply app_inv_head in Hes. by simplify_eq.
    + pose proof (simple_stage x Hx) as Hs. rewrite Hes in Hs. by apply Forall_app in Hs as [].
Qed.

Lemma extract_runtime_triple resolver ref img :
  provided resolver ref img →
  triple (λ t, t !! marker = None) (extract_runtime (mkpath cs) d ref img)
    (λ r t, marked_complete resolver ref t ∧
            (r = Ok () → extracted resolver ref t ∧ ∃ q, t !! marker = Some (NFile (Ref_Name ref) q)))
    (marked_complete resolver ref).
Proof.
  intros Hp. unfold extract_runtime. rewrite bin_path, charts_path, marker_path.
  set (both t := t !! marker = None ∧ holds img "/bin" bin_dir t ∧ holds img "/charts" charts_dir t).
  eapply triple_bind with (R := λ _, both).
  { apply triple_with_message. intros flt s Hs.
    destruct (spares_triple (λ q, q = marker) (ExtractDirs img [("/bin", bin_dir); ("/charts", charts_dir)])
      (λ t, t !! marker = None) ltac:(intros t t' Ht E; etrans; [by apply Ht|exact E]) (extract_marker img) flt s Hs)
      as (Hm & ts & Hh & Hts).
    split.
    - destruct (ExtractDirs img _ flt s).1 as [[]|e] eqn:E; simpl.
      + split; [done|]. split; apply extract_complete; auto; set_solver.
      + split; [by left|done].
    - exists ts. split; [done|]. eapply Forall_impl; [exact Hts|]. by left. }
  intros _. eapply triple_bind with (R := λ _, both).
  { apply triple_syscall.
    - intros t (Hm & Hb & Hc). cbn beta. rewrite Clean_mkpath by by apply simple_stage.
      pose proof Hb as [Hbin _]. rewrite Hbin. by split.
    - intros t e (Hm & _). split; [by left|done].
    - intros t e k (Hm & _). split; [|done]. split; [by left|done]. }
  intros _ flt s (Hm & Hb & Hc).
  assert (∀ t', (∀ k, k ≠ marker → t' !! k = nodes s !! k) → extracted resolver ref t') as Hext.
  { intros t' Ht'. apply (extracted_ext _ _ (nodes s)); [by intros q [_ ?]; apply Ht'|by exists img]. }
  destruct (os_WriteFile_triple marker (Ref_Name ref) 420 (nodes s) (marked_complete resolver ref))
    with flt s as [[HQ1 HQ2] HI]; [|done|].
  - intros c q. rewrite Clean_mkpath by by apply simple_stage. right. apply Hext.
    intros k Hk. by rewrite lookup_insert_ne.
  - rewrite Clean_mkpath in HQ1, HQ2 by by apply simple_stage.
    split; [|done]. split; [right; by apply Hext|]. intros Hr. split; [by apply Hext|auto].
Qed.

Lemma already_staged_readonly : readonly (already_staged (mkpath cs) d).
Proof.
  unfold already_staged, dirExists, isRegular.
  repeat first [case_match | apply readonly_bind; intros | solve [auto with readonly]].
Qed.

Lemma already_staged_true flt s s' :
  already_staged (mkpath cs) d flt s = (Ok true, s') → nodes s !! marker ≠ None.
Proof.
  unfold already_staged, dirExists, isRegular. rewrite bin_path, charts_path, marker_path.
  intros (b & s1 & Hb & Hk)%io_bind_Ok.
  assert (nodes s1 = nodes s) as N1.
  { apply io_bind_Ok in Hb as (r & s0 & Hr & [= _ <-]).
    pose proof (readonly_attempt _ (readonly_Stat bin_dir) flt s) as [Hn _]. by rewrite Hr in Hn. }
  destruct b; cbn [negb] in Hk; [|done].
  apply io_bind_Ok in Hk as (c & s2 & Hc & Hk).
  assert (nodes s2 = nodes s1) as N2.
  { apply io_bind_Ok in Hc as (r & s0 & Hr & [= _ <-]).
    pose proof (readonly_attempt _ (readonly_Stat charts_dir) flt s1) as [Hn _]. by rewrite Hr in Hn. }
  destruct c; cbn [negb] in Hk; [|done].
  apply io_bind_Ok in Hk as (r & s3 & Hr & [= Hk _]).
  destruct (os_Stat_spec marker flt s2) as [_ Hst]. unfold attempt in Hr.
  destruct (os_Stat marker flt s2) as [[n|e] s4]; injection Hr as <- <-; [|done].
  apply stat_at_Ok in Hst. rewrite Clean_mkpath in Hst by by apply simple_stage. by rewrite <-N1, <-N2.
Qed.

(** *** The rest of [Stage] leaves the stage alone *)

Lemma spares_finish :
  spares (λ q, staging q)
    (attempt (os_RemoveAll (symlinkBinDir (mkpath cs)));;
     attempt (os_Symlink (binDirForDigest (mkpath cs) d) (symlinkBinDir (mkpath cs)));;
     attempt (cleanDataDirs (mkpath cs) d);; mret ()).
Proof.
  assert (∀ e, e ≠ d → simple e = true → ∀ q, staging q →
            under (mkpath (cs ++ ["data"; e])) q = false) as Hother.
  { intros e Hed He q Hq. revert Hq.
    apply under_disjoint; try (by destruct cs); try (apply simple_app; by repeat constructor).
    all: intros Hx%prefix_app_inv%prefix_cons_inv_2%prefix_cons_inv_1; congruence. }
  rewrite link_path. apply spares_bind; [|intros _; apply spares_bind; [|intros _]].
  - apply spares_attempt, spares_RemoveAll. intros q Hq.
    rewrite Clean_mkpath by (apply simple_app; by repeat constructor). revert Hq.
    apply under_disjoint; try (by destruct cs); try (apply simple_app; by repeat constructor).
    all: by intros Hx%prefix_app_inv%prefix_cons_inv_1.
  - apply spares_attempt, spares_Symlink. rewrite Clean_mkpath by (apply simple_app; by repeat constructor).
    apply not_staging; [by repeat constructor|]. by intros ?%prefix_cons_inv_1.
  - apply spares_bind; [|auto with spares]. apply spares_attempt.
    eapply spares_weaken; [|apply spares_cleanDataDirs]. intros q Hq name Hs Hn Hrel.
    rewrite filepath_Join_mkpath by done.
    rewrite filepath_Join_mkpath by (done || (apply simple_app; by repeat constructor)).
    rewrite <-(assoc_L (++)), Clean_mkpath by (apply simple_app; by repeat constructor).
    by apply Hother.
Qed.

(** C14: Staging is crash-safe where the completion marker is absent when it
    starts: from there, under every fault schedule, at no moment of the run does
    the marker exist unless the release's bin and charts directories hold
    everything an image for the runtime reference (from a tarball, or pulled) has
    in /bin and /charts; and a run that succeeds ends with the marker in place,
    naming the image.  The condition is needed: a marker that is there when
    staging starts again is not removed first ([Stage_stale_marker]). *)
Theorem Stage_marker_complete resolver cfg ref :
  sc_DataDir cfg = mkpath cs →
  GetReference defaults resolver Runtime [] = Ok ref → releaseRefDigest ref = Ok d →
  triple (λ t, t !! marker = None) (Stage defaults resolver cfg)
    (λ r t, marked_complete resolver ref t ∧
            (r = Ok () → extracted resolver ref t ∧ ∃ q, t !! marker = Some (NFile (Ref_Name ref) q)))
    (marked_complete resolver ref).
Proof.
  intros HD Href Hdig. unfold Stage. rewrite Href. cbn [lift_result].
  eapply triple_bind with (R := λ a t, a = ref ∧ t !! marker = None); [by apply triple_ret|].
  intros a. apply triple_pure. intros ->. rewrite Hdig. cbn [lift_result].
  eapply triple_bind with (R := λ a t, a = d ∧ t !! marker = None); [by apply triple_ret|].
  intros a. apply triple_pure. intros ->. rewrite HD.
  eapply triple_bind with (R := λ b t, b = false ∧ t !! marker = None).
  { apply triple_readonly; [apply already_staged_readonly|]. intros flt s Hs.
    destruct (already_staged (mkpath cs) d flt s) as [[[]|e] s'] eqn:E; simpl; [|done|].
    - by apply already_staged_true in E.
    - split; [by left|done]. }
  intros b. apply triple_pure. intros ->.
  eapply triple_bind with (R := λ _ t, extracted resolver ref t ∧
                                       ∃ q, t !! marker = Some (NFile (Ref_Name ref) q)).
  - eapply triple_bind with (R := λ img t, provided resolver ref img ∧ t !! marker = None).
    + intros flt s Hs.
      destruct (spares_triple (λ q, staging q) _ (λ t, t !! marker = None)
        ltac:(intros t t' Ht E; etrans; [by apply Ht, marker_staging|exact E])
        (spares_obtain cfg resolver ref HD) flt s Hs) as (Hm & ts & Hh & Hts).
      split; [|exists ts; split; [done|]; eapply Forall_impl; [exact Hts|by left]].
      destruct (obtain_image defaults cfg resolver ref flt s) as [[img|e] s'] eqn:E; simpl in *.
      * split; [by eapply obtain_provided|done].
      * split; [by left|done].
    + intros img. apply triple_pure. intros Hp.
      eapply triple_post; [by apply extract_runtime_triple|].
      intros [u|e] t [Hm Hr]; [|done]. destruct u. by apply Hr.
  - intros _. eapply triple_weaken; [|exact (λ t Ht, Ht)| |].
    + apply (spares_triple (λ q, staging q) _ (λ t, extracted resolver ref t ∧
                                     ∃ q, t !! marker = Some (NFile (Ref_Name ref) q))).
      2: { apply spares_finish. }
      intros t t' Ht [He (q & Hq)]. split; [|exists q; by rewrite Ht by apply marker_staging].
      eapply extracted_ext; [|exact He]. intros q' [Hq' _]. by apply Ht.
    + intros r t [He Hq]. split; [by right|done].
    + intros t [He _]. by right.
Qed.

(** *** A second start *)

Lemma io_ret_bind {A B} (a : A) (f : A → io B) flt s : (mret a ≫= f) flt s = f a flt s.
Proof. done. Qed.

Lemma already_staged_run s c q :
  nodes s !! bin_dir = Some NDir → nodes s !! charts_dir = Some NDir →
  nodes s !! marker = Some (NFile c q) →
  ∃ s', already_staged (mkpath cs) d no_faults s = (Ok true, s') ∧ nodes s' = nodes s.
Proof.
  intros Hb Hc Hm. unfold already_staged, dirExists, isRegular.
  rewrite bin_path, charts_path, marker_path. unfold mbind, io_bind, attempt.
  assert (∀ l n, Forall (λ c, simple c = true) l → (∀ target, n ≠ NLink target) →
    nodes s !! mkpath l = Some n → stat_at (nodes s) (mkpath l) = Ok n) as Hst.
  { intros l n Hl Hn E. apply stat_at_plain; [by rewrite Clean_mkpath|done]. }
  destruct (os_Stat_run bin_dir s) as (s1 & -> & N1).
  rewrite (Hst _ NDir) by (done || by apply simple_stage). cbn [mret io_ret negb].
  destruct (os_Stat_run charts_dir s1) as (s2 & -> & N2).
  rewrite N1, (Hst _ NDir) by (done || by apply simple_stage). cbn [mret io_ret negb].
  destruct (os_Stat_run marker s2) as (s3 & -> & N3).
  rewrite N2, N1, (Hst _ (NFile c q)) by (done || by apply simple_stage). exists s3. by rewrite N3, N2, N1.
Qed.

Lemma link_spared : spares (λ q, q = mkpath (cs ++ ["bin"])) (cleanDataDirs (mkpath cs) d).
Proof.
  eapply spares_weaken; [|apply spares_cleanDataDirs]. intros q -> name Hs _ _.
  rewrite filepath_Join_mkpath by done.
  rewrite filepath_Join_mkpath by (done || (apply simple_app; by repeat constructor)).
  rewrite <-(assoc_L (++)), Clean_mkpath by (apply simple_app; by repeat constructor).
  apply not_true_iff_false. intros Hu. apply under_mkpath in Hu;
    [|by destruct cs|apply simple_app; by repeat constructor..].
  by apply prefix_app_inv, prefix_cons_inv_1 in Hu.
Qed.

(** C20: A node that has staged the release starts without the image: if both
    directories and the marker are there and no call fails, [Stage] succeeds
    whatever the tarballs, registries and credential plugins would answer,
    leaves every path of the stage as it is, and dataDir/bin is a link to the
    release's bin directory. *)
Theorem Stage_staged_offline resolver cfg ref s c q :
  sc_DataDir cfg = mkpath cs →
  GetReference defaults resolver Runtime [] = Ok ref → releaseRefDigest ref = Ok d →
  nodes s !! mkpath cs = Some NDir →
  nodes s !! bin_dir = Some NDir → nodes s !! charts_dir = Some NDir →
  nodes s !! marker = Some (NFile c q) →
  ∃ s', Stage defaults resolver cfg no_faults s = (Ok (), s') ∧
    nodes s' !! mkpath (cs ++ ["bin"]) = Some (NLink bin_dir) ∧
    ∀ q, staging q → nodes s' !! q = nodes s !! q.
Proof.
  intros HD Href Hdig Hdir Hb Hc Hm.
  destruct (already_staged_run s c q Hb Hc Hm) as (s1 & E1 & N1).
  set (rest := attempt (os_RemoveAll (symlinkBinDir (mkpath cs)));;
     attempt (os_Symlink (binDirForDigest (mkpath cs) d) (symlinkBinDir (mkpath cs)));;
     attempt (cleanDataDirs (mkpath cs) d);; mret ()).
  assert (Stage defaults resolver cfg no_faults s = rest no_faults s1) as ->.
  { unfold Stage. rewrite Href. cbn [lift_result]. rewrite io_ret_bind. cbn beta.
    rewrite Hdig. cbn [lift_result]. rewrite io_ret_bind. cbn beta. rewrite HD.
    unfold mbind at 1, io_bind at 1. by rewrite E1. }
  destruct (rest no_faults s1) as [r s'] eqn:Er. pose proof Er as Er'.
  apply (spares_run _ _ _ _ _ _ spares_finish) in Er'.
  revert Er. unfold rest. rewrite link_path, bin_path.
  assert (Clean (mkpath (cs ++ ["bin"])) = mkpath (cs ++ ["bin"])) as Hcl
    by (apply Clean_mkpath, simple_app; by repeat constructor).
  unfold mbind at 1, io_bind at 1, attempt at 1.
  destruct (os_RemoveAll_run (mkpath (cs ++ ["bin"])) s1) as (s2 & -> & N2). rewrite Hcl in N2.
  unfold mbind at 1, io_bind at 1, attempt at 1.
  edestruct @syscall_run as (s3 & E3 & N3). unfold os_Symlink. rewrite E3. clear E3.
  rewrite Hcl, (N2 (mkpath (cs ++ ["bin"]))), under_refl, filepath_Dir_mkpath in N3 by done.
  assert (nodes s2 !! mkpath cs = Some NDir) as Hdir2.
  { rewrite N2, N1. destruct (under _ (mkpath cs)) eqn:Hu; [|done]. exfalso.
    apply under_mkpath in Hu; [|by destruct cs|apply simple_app; by repeat constructor|done].
    apply prefix_length in Hu. rewrite length_app in Hu. simpl in Hu. lia. }
  rewrite Hdir2 in N3. cbn in N3.
  unfold mbind, io_bind, attempt.
  destruct (cleanDataDirs (mkpath cs) d no_faults s3) as [r4 s4] eqn:E4.
  apply (spares_run _ _ _ _ _ _ link_spared) in E4.
  intros [= <- <-]. exists s4. split; [done|]. split.
  - rewrite (E4 _ eq_refl), N3. by simplify_map_eq.
  - intros q' Hq'. rewrite (Er' q' Hq'). by rewrite N1.
Qed.
(** *** A successful run leaves the release complete *)

Lemma holds_under img src dst t t' :
  same_on (λ q, under dst q = true) t t' → holds img src dst t → holds img src dst t'.
Proof.
  intros Hs [Hdir Hall]. split; [by rewrite Hs by apply under_refl|].
  intros rel n Hn. rewrite Hs; [by apply Hall|]. unfold under. apply orb_true_iff. right.
  apply HasPrefix_app. exists rel. by rewrite app_assoc'.
Qed.

Lemma extract_runtime_complete resolver ref img flt s s' :
  provided resolver ref img → extract_runtime (mkpath cs) d ref img flt s = (Ok (), s') →
  extracted resolver ref (nodes s').
Proof.
  intros Hp. unfold extract_runtime. rewrite bin_path, charts_path, marker_path.
  intros ([] & s1 & He & Hk)%io_bind_Ok. unfold io_with_message in He.
  pose proof (extract_complete img [("/bin", bin_dir); ("/charts", charts_dir)] flt s) as Hc.
  destruct (ExtractDirs img _ flt s) as [[[]|e] s0]; [|done]. injection He as ->. cbn [fst snd] in Hc.
  assert (extracted resolver ref (nodes s1)) as Hx.
  { exists img. split; [done|]. split; apply Hc; [done|set_solver|done|set_solver]. }
  apply io_bind_Ok in Hk as (u & s2 & Hch & Hw).
  assert (nodes s2 = nodes s1) as N2.
  { destruct Hx as (i & _ & [Hbin _] & _). unfold os_Chmod, syscall in Hch.
    destruct (flt (clock s1)) as [[e [k|]]|]; [done..|].
    rewrite Clean_mkpath, Hbin in Hch by by apply simple_stage. by injection Hch as <- <-. }
  destruct (os_WriteFile_triple marker (Ref_Name ref) 420 (nodes s2) (λ _, True)) with flt s2
    as [[_ Hsame] _]; [done|done|]. rewrite Hw in Hsame. cbn [snd] in Hsame.
  rewrite Clean_mkpath in Hsame by by apply simple_stage.
  eapply extracted_ext; [|exact Hx]. intros q [_ Hq]. by rewrite Hsame, N2.
Qed.

(** Whatever is there at the start, as long as the marker is not a lie. *)
Lemma Stage_extracted resolver cfg ref flt s s' :
  sc_DataDir cfg = mkpath cs →
  GetReference defaults resolver Runtime [] = Ok ref → releaseRefDigest ref = Ok d →
  marked_complete resolver ref (nodes s) →
  Stage defaults resolver cfg flt s = (Ok (), s') → extracted resolver ref (nodes s').
Proof.
  intros HD Href Hdig Hm. unfold Stage. rewrite Href. cbn [lift_result]. rewrite io_ret_bind. cbn beta.
  rewrite Hdig. cbn [lift_result]. rewrite io_ret_bind. cbn beta. rewrite HD.
  intros (b & s1 & Hst & (u & s2 & Hx & Hfin)%io_bind_Ok)%io_bind_Ok.
  destruct (already_staged_readonly flt s) as [N1 _]. rewrite Hst in N1. cbn [snd] in N1.
  assert (extracted resolver ref (nodes s2)) as He.
  { destruct b.
    - injection Hx as <- <-. rewrite N1. apply already_staged_true in Hst. by destruct Hm.
    - apply io_bind_Ok in Hx as (img & s3 & Hob & Hex). destruct u.
      eapply extract_runtime_complete; [by eapply obtain_provided|exact Hex]. }
  eapply extracted_ext; [|exact He]. intros q [Hq _].
  by eapply (spares_run _ _ _ _ _ _ spares_finish).
Qed.
End staging.

(** ** A concrete image library

    Every reference is found in a tarball and names an image of two binaries and
    a chart; an extraction is a list of steps, one node each, and may stop after
    any of them. *)

#[local] Existing Instance SimpleName.api.

Module SimpleImage.
Definition content (src : string) : gmap string node :=
  if decide (src = "/bin") then {["kubelet" := NFile "kubelet" 493; "containerd" := NFile "ctrd" 493]}
  else if decide (src = "/charts") then {["rke2-canal.yaml" := NFile "canal" 420]}
  else ∅.

Definition entries (paths : list (string * string)) : list (string * node) :=
  '(src, dst) ← paths;
  ((λ a, (a, NDir)) <$> ancestors dst) ++ [(dst, NDir)] ++
  ((λ e, (dst +:+ "/" +:+ e.1, e.2)) <$> map_to_list (content src)).

Fixpoint put (es : list (string * node)) (t : tree) : list tree :=
  match es with [] => [] | (p, n) :: es' => <[p := n]> t :: put es' (<[p := n]> t) end.

Definition holdsb (paths : list (string * string)) (t : tree) : bool :=
  forallb (λ '(src, dst), bool_decide (t !! dst = Some NDir) &&
    forallb (λ e, bool_decide (t !! (dst +:+ "/" +:+ e.1) = Some e.2)) (map_to_list (content src))) paths.

(** The extraction checks what it has written. *)
Definition extract (paths : list (string * string)) : io unit :=
  syscall (λ t, let ts := put (entries paths) t in
                (if holdsb paths (final ts t) then Ok () else Err (ErrMsg "extraction incomplete"), ts))
          (λ t k, put (take k (entries paths)) t).

#[export] Instance lib : ImageLib := {|
  Image := unit;
  PrivateRegistry := unit;
  Keychain := unit;
  Mirrors := unit;
  FindImage _ _ := mret (Some (), None);
  GetPrivateRegistries _ := mret ();
  set_Mirrors _ r := r;
  set_DefaultKeychain _ r := r;
  ImageCredProvAvailable _ _ := mret false;
  RegisterCredentialProviderPlugins _ _ := mret ();
  authn_DefaultKeychain := ();
  registry_Image _ _ := io_fail (ErrMsg "no network");
  ExtractDirs _ := extract;
  image_dir _ := content;
  sha256_hex _ := "0123456789abcdef"
|}.

Lemma put_spec K es t :
  Forall (λ e, ¬ K e.1) es → Forall (same_on K t) (put es t).
Proof.
  intros Hes. revert t. induction Hes as [|[p n] es Hp _ IH]; intros t; cbn [put]; [done|].
  constructor; [by apply same_on_insert|]. eapply Forall_impl; [apply IH|].
  intros t' Ht. etrans; [by apply same_on_insert|done].
Qed.

#[export] Instance laws : ImageLaws.
Proof.
  split; try (intros; first [apply readonly_ret|apply readonly_fail]).
  - intros img paths.
    assert (Forall (λ e, ¬ not_destination paths e.1) (entries paths)) as He.
    { apply Forall_forall. intros [p n] Hin Hp. cbn [fst] in Hp.
      unfold entries in Hin. apply list_elem_of_bind in Hin as ([src dst] & Hin & Hsd).
      destruct (Hp src dst Hsd) as [Hu Ha]. rewrite !elem_of_app in Hin.
      destruct Hin as [Hin|[Hin|Hin]].
      - apply list_elem_of_fmap in Hin as (a & [= -> ->] & ?). done.
      - apply list_elem_of_singleton in Hin as [= -> ->]. by rewrite under_refl in Hu.
      - apply list_elem_of_fmap in Hin as ([r m] & [= -> ->] & ?). cbn [fst] in Hu.
        apply not_true_iff_false in Hu. apply Hu. unfold under. apply orb_true_iff. right.
        apply HasPrefix_app. exists r. by rewrite app_assoc'. }
    apply spares_syscall.
    + intros t. by apply put_spec.
    + intros t k. by apply put_spec, Forall_take.
  - intros img paths flt s src dst. cbn [ExtractDirs lib]. unfold extract, syscall.
    destruct (flt (clock s)) as [[e [k|]]|]; [done..|]. cbn [fst snd].
    rewrite nodes_push. cbn [nodes].
    destruct (holdsb paths (final (put (entries paths) (nodes s)) (nodes s))) eqn:Hb; [|done].
    intros _ Hin. unfold holdsb in Hb. rewrite forallb_forall in Hb.
    specialize (Hb (src, dst) (proj1 (list_elem_of_In _ _) Hin)). cbn beta iota in Hb.
    apply andb_true_iff in Hb as [Hd Hall]. rewrite forallb_forall in Hall.
    split; [by apply bool_decide_eq_true in Hd|]. intros rel n Hn.
    specialize (Hall (rel, n)). rewrite <-list_elem_of_In, elem_of_map_to_list in Hall.
    specialize (Hall Hn). by apply bool_decide_eq_true in Hall.
Qed.

Definition ref : SimpleName.sref := {|
  SimpleName.sr_reg := SimpleName.hub;
  SimpleName.sr_rest := "rancher/rke2-runtime:v1.30.1-rke2r1";
  SimpleName.sr_text := "rancher/rke2-runtime:v1.30.1-rke2r1" |}.

Definition resolver : Resolver :=
  {| registry := SimpleName.hub; repoPath := ""; overrides := {[Runtime := ref]} |}.

Definition cfg : StageConfig := {|
  sc_DataDir := "/var/lib/rke2"; sc_PrivateRegistry := ""; sc_Mirrors := ();
  sc_ImageCredProvConfig := ""; sc_ImageCredProvBinDir := "" |}.

Definition digest := "v1.30.1-rke2r1-0123456789ab".
Definition data_cs := ["var"; "lib"; "rke2"].

(** An empty data directory. *)
Definition fresh : tree :=
  {["/var" := NDir; "/var/lib" := NDir; "/var/lib/rke2" := NDir]}.

Definition staged := (Stage build_defaults resolver cfg no_faults (MkFS fresh 0 [])).2.

(** Two releases, of which one is in use. *)
Definition two_releases : tree :=
  fresh ∪ {["/var/lib/rke2/data" := NDir;
            "/var/lib/rke2/data/v1.29-aa" := NDir; "/var/lib/rke2/data/v1.29-aa/bin" := NDir;
            "/var/lib/rke2/data/v1.28-bb" := NDir;
            taskDir := NDir; taskDir +:+ "/c1" := NDir;
            taskDir +:+ "/c1/shim-binary-path" := NFile "/var/lib/rke2/data/v1.28-bb/bin/shim" 420]}.

(** The release's directory after its bin directory was lost. *)
Definition no_bin : tree :=
  fresh ∪ {["/var/lib/rke2/data" := NDir; "/var/lib/rke2/data/v1.30.1-rke2r1-0123456789ab" := NDir;
            "/var/lib/rke2/data/v1.30.1-rke2r1-0123456789ab/charts" := NDir;
            "/var/lib/rke2/data/v1.30.1-rke2r1-0123456789ab/.extracted" := NFile "runtime" 420]}.

(** The extraction, call number 1, stops after [k] nodes. *)
Definition power_loss (k : nat) : faults := λ n, if decide (n = 1) then Some (ErrIO "power loss", Some k) else None.
End SimpleImage.

#[local] Existing Instance SimpleImage.lib.
#[local] Existing Instance SimpleImage.laws.

(** A marker that outlives its directory is trusted: the marker is not removed
    before extraction starts again, so when the bin directory was lost (an
    interrupted removal of the old release, say) and the new extraction is cut
    short, the next start takes the partial directory for complete. *)
Example Stage_stale_marker :
  let s1 := (Stage build_defaults SimpleImage.resolver SimpleImage.cfg (SimpleImage.power_loss 8)
               (MkFS SimpleImage.no_bin 0 [])).2 in
  let s2 := (Stage build_defaults SimpleImage.resolver SimpleImage.cfg no_faults s1).2 in
  (Stage build_defaults SimpleImage.resolver SimpleImage.cfg no_faults s1).1 = Ok () ∧
  is_Some (SimpleImage.content "/bin" !! "containerd") ∧
  nodes s2 !! "/var/lib/rke2/data/v1.30.1-rke2r1-0123456789ab/bin/kubelet" = Some (NFile "kubelet" 493) ∧
  nodes s2 !! "/var/lib/rke2/data/v1.30.1-rke2r1-0123456789ab/bin/containerd" = None.
Proof. vm_compute. split_and!; [done|by eexists|done|done]. Qed.

Definition tidyb (t : tree) : bool :=
  forallb (λ e, let cs := tail (Split slash e.1) in
                bool_decide (cs ≠ []) && forallb simple cs && bool_decide (e.1 = mkpath cs))
          (map_to_list t).

Lemma tidyb_tidy t : tidyb t = true → tidy t.
Proof.
  unfold tidyb. rewrite forallb_forall. intros Ht q n Hn.
  specialize (Ht (q, n)). rewrite <-list_elem_of_In, elem_of_map_to_list in Ht.
  specialize (Ht Hn). cbn [fst] in Ht. rewrite !andb_true_iff, !bool_decide_eq_true in Ht.
  destruct Ht as [[? Hs] ?]. exists (tail (Split slash q)). split_and!; [done| |done].
  apply Forall_forall. intros c Hc. rewrite forallb_forall in Hs. by apply Hs, list_elem_of_In.
Qed.

Lemma cleanDataDirs_exact_witness :
  ∃ s', cleanDataDirs "/var/lib/rke2" SimpleImage.digest no_faults
          (MkFS SimpleImage.two_releases 0 []) = (Ok (), s') ∧
    nodes s' !! "/var/lib/rke2/data/v1.29-aa/bin" = None ∧
    nodes s' !! "/var/lib/rke2/data/v1.28-bb" = Some NDir.
Proof.
  destruct (cleanDataDirs_exact SimpleImage.data_cs SimpleImage.digest
    ltac:(by repeat constructor) ltac:(done) ltac:(by intros ?%prefix_cons_inv_1)
    ltac:(by intros ?%prefix_cons_inv_1) (MkFS SimpleImage.two_releases 0 [])
    ltac:(apply tidyb_tidy; vm_compute; reflexivity) ltac:(vm_compute; reflexivity))
    as (s' & E & Hq).
  exists s'. split; [exact E|]. split.
  - destruct (Hq "/var/lib/rke2/data/v1.29-aa/bin") as [[_ H]|[H _]]; [exact H|].
    specialize (H "v1.29-aa" eq_refl eq_refl ltac:(vm_compute; reflexivity)). discriminate H.
  - destruct (Hq "/var/lib/rke2/data/v1.28-bb") as [[(name & Hs & Hd & Hst & Hu) _]|[_ H]];
      [|rewrite H; vm_compute; reflexivity].
    change "/var/lib/rke2/data/v1.28-bb" with (mkpath (SimpleImage.data_cs ++ ["data"; "v1.28-bb"])) in Hu.
    apply under_mkpath in Hu; [|discriminate|apply simple_old; [by repeat constructor|exact Hs]
      |by repeat constructor].
    apply prefix_app_inv, prefix_cons_inv_2, prefix_cons_inv_1 in Hu. subst name.
    vm_compute in Hst. discriminate Hst.
Defined.

Lemma Stage_marker_complete_witness :
  SimpleImage.fresh !! "/var/lib/rke2/data/v1.30.1-rke2r1-0123456789ab/.extracted" = None ∧
  ∃ q, nodes SimpleImage.staged !! "/var/lib/rke2/data/v1.30.1-rke2r1-0123456789ab/.extracted"
       = Some (NFile "index.docker.io/rancher/rke2-runtime:v1.30.1-rke2r1" q).
Proof.
  split; [vm_compute; reflexivity|].
  destruct (Stage_marker_complete build_defaults SimpleImage.data_cs ltac:(by repeat constructor)
    ltac:(done) SimpleImage.digest ltac:(reflexivity) SimpleImage.resolver SimpleImage.cfg
    SimpleImage.ref eq_refl eq_refl eq_refl no_faults (MkFS SimpleImage.fresh 0 [])
    ltac:(vm_compute; reflexivity)) as [[_ HQ] _].
  exact (proj2 (HQ ltac:(vm_compute; reflexivity))).
Defined.

Lemma Stage_staged_offline_witness :
  ∃ s', Stage build_defaults SimpleImage.resolver SimpleImage.cfg no_faults SimpleImage.staged
          = (Ok (), s') ∧
    nodes s' !! "/var/lib/rke2/bin" = Some (NLink "/var/lib/rke2/data/v1.30.1-rke2r1-0123456789ab/bin").
Proof.
  destruct (Stage_staged_offline build_defaults SimpleImage.data_cs ltac:(by repeat constructor)
    ltac:(done) SimpleImage.digest ltac:(reflexivity) SimpleImage.resolver SimpleImage.cfg
    SimpleImage.ref SimpleImage.staged "index.docker.io/rancher/rke2-runtime:v1.30.1-rke2r1" 420
    eq_refl eq_refl eq_refl ltac:(vm_compute; reflexivity) ltac:(vm_compute; reflexivity)
    ltac:(vm_compute; reflexivity) ltac:(vm_compute; reflexivity)) as (s' & E & Hl & _).
  exists s'. split; [exact E|exact Hl].
Defined.
