(* ===== verification/Charts.v ===== *)
(** * Charts: pkg/bootstrap, deployment of the bundled charts

    [updateManifests] copies the charts of the release into a temporary
    directory, blanks the charts of ingress controllers that were not selected,
    writes the cluster's configuration into every HelmChart that allows it,
    copies the result into the server's manifests and then does the same
    rewriting for the manifests of the user.  YAML, the unstructured objects of
    apimachinery and the directory copy are the class [ChartLib], with the
    documented behaviour the theorems use in [ChartLaws]. *)

From S2P Require Import Prelude GoStrings GoPath GoFS GoTree Images FlagOpts Bootstrap.

(** ** Libraries *)

Class ChartLib := {
  (** a decoded object *)
  Obj : Type;
  (** [yaml.ToObjects] and [yaml.Export], and what of an object is exported *)
  ToObjects : string → result (list Obj);
  Export : list Obj → result string;
  clean : Obj → Obj;
  (** the object is an [*unstructured.Unstructured] *)
  is_Unstructured : Obj → bool;
  GroupVersionKind : Obj → string * string * string;
  helmChartGVK : string * string * string;
  GetAnnotations : Obj → gmap string string;
  (** [unstructured.NestedString(content, path...)]: the empty text when the
      field is absent, an error when it or a level above has another type *)
  NestedString : Obj → list string → result string;
  (** [unstructured.SetNestedField(content, value, path...)], which updates the
      content in place *)
  SetNestedField : Obj → string → list string → result Obj;
  (** [copy.Copy(source, target, ...)] *)
  copy_Copy : string → string → io unit;
  (** [merr.NewErrors] of at least one error *)
  NewErrors : list error → error;
  IPNet : Type;
  IP : Type;
  JoinIPNets : list IPNet → string;
  JoinIP4Nets : list IPNet → string;
  JoinIP6Nets : list IPNet → string;
  JoinIPs : list IP → string
}.

Definition set_path (k : string) : list string := ["spec"; "set"; k].

Class ChartLaws `{ChartLib} := {
  (** a field that was set reads back; other fields and the metadata stay *)
  nested_set o v k o' : SetNestedField o v (set_path k) = Ok o' →
    NestedString o' (set_path k) = Ok v;
  nested_set_ne o v k k' o' : SetNestedField o v (set_path k) = Ok o' → k ≠ k' →
    NestedString o' (set_path k') = NestedString o (set_path k');
  set_metadata o v k o' : SetNestedField o v (set_path k) = Ok o' →
    is_Unstructured o' = is_Unstructured o ∧ GroupVersionKind o' = GroupVersionKind o ∧
    GetAnnotations o' = GetAnnotations o;
  (** every decoded object is an unstructured one *)
  decoded_unstructured text objs : ToObjects text = Ok objs → Forall (λ o, is_Unstructured o = true) objs;
  (** what was exported decodes to the cleaned objects: the export drops the
      status, most of the metadata and the annotations of kubectl and of cattle.io,
      and keeps the kind and the specification *)
  export_cleans objs data : Export objs = Ok data → ToObjects data = Ok (clean <$> objs);
  clean_kind o : GroupVersionKind (clean o) = GroupVersionKind o;
  clean_annotations o k v : GetAnnotations (clean o) !! k = Some v → GetAnnotations o !! k = Some v;
  clean_nested o k v : NestedString o (set_path k) = Ok v → NestedString (clean o) (set_path k) = Ok v;
  (** a document that is only a comment has no objects *)
  comment_decodes : ToObjects ("# disabled by configuration" +:+ newline) = Ok [];
  (** a copy writes below its target and makes the target's parents *)
  copy_frame source target :
    spares (λ q, under (Clean target) q = false ∧ q ∉ ancestors target) (copy_Copy source target);
  (** a successful copy has every file of the source *)
  copy_complete cs ds rel flt s c perm :
    cs ≠ [] → ds ≠ [] → rel ≠ [] → Forall (λ c, simple c = true) (cs ++ ds ++ rel) →
    ¬ cs `prefix_of` ds → ¬ ds `prefix_of` cs →
    nodes s !! mkpath (cs ++ rel) = Some (NFile c perm) →
    (copy_Copy (mkpath cs) (mkpath ds) flt s).1 = Ok () →
    ∃ perm', nodes (copy_Copy (mkpath cs) (mkpath ds) flt s).2 !! mkpath (ds ++ rel)
             = Some (NFile c perm')
}.

(** ** Injection of the cluster's configuration *)

Section inject.
Context `{ChartLib}.
(** [version.Program], [version.ProgramUpper] and the process environment *)
Context (Program ProgramUpper : string) (Getenv : string → string).

Definition injectAnnotationKey : string := Program +:+ ".cattle.io/inject-cluster-config".
Definition injectEnvKey : string := ProgramUpper +:+ "_INJECT_CLUSTER_CONFIG".
Definition injectDefault : bool := false.

Definition getInjectDefault : bool :=
  match ParseBool (Getenv injectEnvKey) with Some b => b | None => injectDefault end.

Definition isInjectEnabled (obj : Obj) : bool :=
  match GetAnnotations obj !! injectAnnotationKey ≫= ParseBool with
  | Some b => b
  | None => getInjectDefault
  end.

(** The loop over [chartValues] for one object: the object as the loop leaves
    it, and whether it changed, or [None] for [continue OBJECTS]. *)
Fixpoint set_values (o : Obj) (vals : list (string * string)) (contentChanged : bool)
    : Obj * option bool :=
  match vals with
  | [] => (o, Some contentChanged)
  | (k, v) :: vals' =>
      match NestedString o (set_path k) with
      | Err _ => (o, None)
      | Ok cv =>
          if decide (cv = v) then set_values o vals' contentChanged
          else match SetNestedField o v (set_path k) with
               | Err _ => (o, None)
               | Ok o' => set_values o' vals' true
               end
      end
  end.

(** The object is rewritten at all. *)
Definition selected (o : Obj) : bool :=
  is_Unstructured o && bool_decide (GroupVersionKind o = helmChartGVK) && isInjectEnabled o.

(** One turn of the loop over the objects. *)
Definition inject_object (vals : list (string * string)) (o : Obj) : Obj * bool :=
  if selected o then
    match set_values o vals false with
    | (o', Some contentChanged) => (o', contentChanged)
    | (o', None) => (o', false)
    end
  else (o, false).

(** The loop; [order i] is the order in which the map of values is iterated for
    object number [i]. *)
Fixpoint inject_objects (order : nat → list (string * string)) (i : nat) (objs : list Obj)
    : list Obj * bool :=
  match objs with
  | [] => ([], false)
  | o :: objs' =>
      let '(o', b) := inject_object (order i) o in
      let '(rest, b') := inject_objects order (S i) objs' in
      (o' :: rest, b || b')
  end.

(** The end of [rewriteChart]: the objects replace the content of the open file. *)
Definition save_objects (fileName : string) (objs : list Obj) : io unit :=
  data ← io_with_message ("failed to export modified manifest " +:+ fileName)
           (lift_result (Export objs));
  io_with_message ("failed to seek in manifest " +:+ fileName) (os_Seek fileName);;
  io_with_message ("failed to truncate manifest " +:+ fileName) (os_Truncate fileName);;
  io_with_message ("failed to write modified manifest " +:+ fileName)
    (os_WriteOpen fileName data);;
  io_with_message ("failed to sync modified manifest " +:+ fileName) (os_Sync fileName).

Definition rewriteChart (fileName : string) (order : nat → list (string * string)) : io unit :=
  io_with_message ("failed to open manifest " +:+ fileName) (os_OpenRW fileName);;
  text ← attempt (os_ReadFile fileName);
  match text ≫= ToObjects with
  | Err _ => mret ()
  | Ok objs =>
      let '(objs', changed) := inject_objects order 0 objs in
      if negb changed then mret ()
      else save_objects fileName objs'
  end.

(** *** All manifests of a directory *)

(** The fields of the node and agent configuration read here. *)
Record ChartConfig := {
  cc_ClusterCIDRs : list IPNet;
  cc_ClusterDNSs : list IP;
  cc_ClusterDomain : string;
  cc_ServiceCIDRs : list IPNet;
  cc_SystemDefaultRegistry : string;
  cc_DataDir : string;
  cc_prime : bool
}.

Definition chart_values (ingressController : string) (cfg : ChartConfig) : gmap string string :=
  {["global.clusterCIDR" := JoinIPNets (cc_ClusterCIDRs cfg);
    "global.clusterCIDRv4" := JoinIP4Nets (cc_ClusterCIDRs cfg);
    "global.clusterCIDRv6" := JoinIP6Nets (cc_ClusterCIDRs cfg);
    "global.clusterDNS" := JoinIPs (cc_ClusterDNSs cfg);
    "global.clusterDomain" := cc_ClusterDomain cfg;
    "global.rke2DataDir" := cc_DataDir cfg;
    "global.serviceCIDR" := JoinIPNets (cc_ServiceCIDRs cfg);
    "global.systemDefaultIngressClass" := ingressController;
    "global.prime.enabled" := FormatBool (cc_prime cfg);
    "global.systemDefaultRegistry" := cc_SystemDefaultRegistry cfg;
    "global.cattle.systemDefaultRegistry" := cc_SystemDefaultRegistry cfg]}.

Definition is_manifest (e : string * node) : bool :=
  match e.2 with
  | NDir => false
  | _ => HasSuffix ".yml" e.1 || HasSuffix ".yaml" e.1
  end.

(** How Go iterates the two maps of [setChartValues]: the files, and for each
    object of each file the values. *)
Record iteration := {
  it_files : list (string * node) → list (string * node);
  it_values : string → nat → gmap string string → list (string * string)
}.

Definition fair (it : iteration) : Prop :=
  (∀ l, it_files it l ≡ₚ l) ∧ (∀ f i m, it_values it f i m ≡ₚ map_to_list m).

Fixpoint rewrite_all (it : iteration) (vals : gmap string string) (files : list (string * node))
    : io (list error) :=
  match files with
  | [] => mret []
  | (f, _) :: files' =>
      r ← attempt (rewriteChart f (λ i, it_values it f i vals));
      errs ← rewrite_all it vals files';
      mret (match r with Ok _ => errs | Err e => e :: errs end)
  end.

Definition setChartValues (it : iteration) (dir ingressController : string) (cfg : ChartConfig)
    : io unit :=
  visited ← filepath_Walk dir;
  let files := filter (λ e, is_manifest e = true) visited in
  errs ← rewrite_all it (chart_values ingressController cfg) (it_files it files);
  match errs with [] => mret () | _ => io_fail (NewErrors errs) end.
End inject.

(** ** The default ingress controller *)

(** [intstr.IntOrString] and the part of a deployed HelmChart that is read. *)
Inductive IntOrString := IntVal (i : Z) | StrVal (s : string).
Record HelmChart := { hc_Name : string; hc_Set : gmap string IntOrString }.

Class HelmApi := {
  RestConfig : Type;
  HelmClient : Type;
  WaitForRBACReady : string → io unit;
  BuildConfigFromFlags : string → io RestConfig;
  helm_NewForConfig : RestConfig → io HelmClient;
  (** the HelmCharts of the namespace kube-system *)
  HelmCharts_List : HelmClient → io (list HelmChart)
}.

(** [ListHelmCharts]; [ctx_err] is the context's error if it ends before the
    API server is ready. *)
Definition ListHelmCharts `{HelmApi} (ctx_err : option error) (kubeConfig : string)
    : io (list HelmChart) :=
  match ctx_err with
  | Some e => io_fail e
  | None =>
      io_with_message "failed to wait for RBAC" (WaitForRBACReady kubeConfig);;
      restConfig ← BuildConfigFromFlags kubeConfig;
      hc ← helm_NewForConfig restConfig;
      HelmCharts_List hc
  end.

(** The chart is one of the two ingress charts and carries a class. *)
Definition ingress_class (h : HelmChart) : option string :=
  if decide (hc_Name h = "rke2-ingress-nginx" ∨ hc_Name h = "rke2-traefik") then
    match hc_Set h !! "global.systemDefaultIngressClass" with
    | Some (StrVal v) => Some v
    | _ => None
    end
  else None.

Fixpoint first_class (items : list HelmChart) : string :=
  match items with
  | [] => default "" (head IngressItems)
  | h :: hs => match ingress_class h with Some v => v | None => first_class hs end
  end.

Definition getDefaultIngressClassFromCharts `{HelmApi} (ctx_err : option error)
    (kubeConfig : string) : io string :=
  hl ← ListHelmCharts ctx_err kubeConfig;
  mret (first_class hl).

(** ** Updating the manifests *)

Section update.
Context `{ImageLib, ChartLib, HelmApi} (defaults : Defaults).
Context (Program ProgramUpper : string) (Getenv : string → string).
Abbreviation setChartValues := (setChartValues Program ProgramUpper Getenv).

Definition copyDir (target source : string) : io unit := copy_Copy source target.

Definition disabled_text : string := "# disabled by configuration" +:+ newline.

(** Blank one chart, if it is there; errors of the write are not looked at. *)
Definition blank_chart (path : string) : io unit :=
  f ← attempt (os_Truncate path);
  match f with
  | Ok _ => attempt (os_WriteOpen path disabled_text);; mret ()
  | Err _ => mret ()
  end.

(** The charts of the ingress controllers that were not selected. *)
Definition unselected_charts (ingressController : list string) : list string :=
  name ← filter (λ n, n ∉ ingressController) IngressItems;
  ["rke2-" +:+ name +:+ ".yaml"; "rke2-" +:+ name +:+ "-crd.yaml"].

Fixpoint blank_all (tempChartsDir : string) (fs : list string) : io unit :=
  match fs with
  | [] => mret ()
  | f :: fs' => blank_chart (filepath_Join [tempChartsDir; f]);; blank_all tempChartsDir fs'
  end.

(** The selection, or the default found in the cluster. *)
Definition choose_ingress (ctx_err : option error) (kubeConfig : string)
    (ingressController : list string) : io (list string) :=
  match ingressController with
  | [] => i ← io_with_message "failed to determine default ingress-controller from deployed charts"
                (getDefaultIngressClassFromCharts ctx_err kubeConfig);
          mret [i]
  | _ => mret ingressController
  end.

(** What runs between the copy into the temporary directory and its removal. *)
Definition deploy_charts (it1 it2 : iteration) (tempChartsDir manifestsDir : string)
    (ingressController : list string) (cfg : ChartConfig) : io unit :=
  blank_all tempChartsDir (unselected_charts ingressController);;
  let ingress := default "" (head ingressController) in
  io_with_message "failed to rewrite bundled HelmChart manifests to pass through CLI values"
    (setChartValues it1 tempChartsDir ingress cfg);;
  io_with_message "failed to copy runtime charts" (copyDir manifestsDir tempChartsDir);;
  attempt (setChartValues it2 manifestsDir ingress cfg);;
  mret ().

(** [updateManifests] *)
Definition updateManifests (it1 it2 : iteration) (resolver : Resolver) (ctx_err : option error)
    (kubeConfig : string) (ingressController : list string) (cfg : ChartConfig) : io unit :=
  ref ← lift_result (GetReference defaults resolver Runtime []);
  refDigest ← lift_result (releaseRefDigest ref);
  let refChartsDir := chartsDirForDigest (cc_DataDir cfg) refDigest in
  let manifestsDir := manifestsDir (cc_DataDir cfg) in
  attempt (os_MkdirAll manifestsDir);;
  ingress ← choose_ingress ctx_err kubeConfig ingressController;
  let tempChartsDir := refChartsDir +:+ ".tmp" in
  attempt (os_RemoveAll tempChartsDir);;
  io_with_message "failed to copy temporary charts" (copyDir tempChartsDir refChartsDir);;
  r ← attempt (deploy_charts it1 it2 tempChartsDir manifestsDir ingress cfg);
  attempt (os_RemoveAll tempChartsDir);;
  lift_result r.
End update.

(** [UpdateManifests]: an error asks the process to shut down. *)
Definition UpdateManifests `{ImageLib, ChartLib, HelmApi} (defaults : Defaults)
    (Program ProgramUpper : string) (Getenv : string → string) (it1 it2 : iteration)
    (resolver : Resolver) (ctx_err : option error) (kubeConfig : string)
    (ingressController : list string) (cfg : ChartConfig) : io (option error) :=
  r ← attempt (updateManifests defaults Program ProgramUpper Getenv it1 it2 resolver ctx_err
                 kubeConfig ingressController cfg);
  mret (match r with
        | Ok _ => None
        | Err e => Some (ErrWithMessage "failed to update manifests" e)
        end).

(** ** Injection: lemmas and theorems *)

Section inject_theorems.
Context `{ChartLaws} (Program ProgramUpper : string) (Getenv : string → string).
Abbreviation selected := (selected Program ProgramUpper Getenv).
Abbreviation inject_object := (inject_object Program ProgramUpper Getenv).
Abbreviation inject_objects := (inject_objects Program ProgramUpper Getenv).
Abbreviation rewriteChart := (rewriteChart Program ProgramUpper Getenv).
Implicit Types (o : Obj).

Lemma set_values_spec o vals b o' r :
  NoDup vals.*1 → set_values o vals b = (o', r) →
  (∀ k, k ∉ vals.*1 → NestedString o' (set_path k) = NestedString o (set_path k)) ∧
  selected o' = selected o ∧
  (r = Some b → b = false → o' = o) ∧
  (∀ b', r = Some b' → (b = true → b' = true) ∧
     ∀ k v, (k, v) ∈ vals → NestedString o' (set_path k) = Ok v).
Proof.
  revert o b. induction vals as [|[k v] vals IH]; intros o b Hnd; cbn [set_values].
  { intros [= <- <-]. split_and!; try done. intros b' [= ->]. split; [done|]. by intros k v ?%elem_of_nil. }
  rewrite fmap_cons, NoDup_cons in Hnd. destruct Hnd as [Hk Hnd]. cbn [fst] in Hk.
  destruct (NestedString o (set_path k)) as [cv|e] eqn:Hcv.
  2: { intros [= <- <-]. split_and!; done. }
  case_decide as Hv.
  - intros E. destruct (IH o b Hnd E) as (Hother & Hsel & Hsame & Hset).
    split_and!; [set_solver|done|done|]. intros b' Hr. destruct (Hset b' Hr) as [Hb Hall].
    split; [done|]. intros k' v' [[= -> ->]|Hin]%elem_of_cons; [|by apply Hall].
    rewrite Hother by done. by rewrite Hcv, Hv.
  - destruct (SetNestedField o v (set_path k)) as [o1|e] eqn:Hs.
    2: { intros [= <- <-]. split_and!; done. }
    intros E. destruct (IH o1 true Hnd E) as (Hother & Hsel & Hsame & Hset).
    destruct (set_metadata o v k o1 Hs) as (M1 & M2 & M3).
    split_and!.
    + intros k' Hk'. rewrite Hother by set_solver. eapply nested_set_ne; [exact Hs|set_solver].
    + rewrite Hsel. unfold Charts.selected, isInjectEnabled. by rewrite M1, M2, M3.
    + intros Hr ->. destruct (Hset _ Hr) as [Hb _]. by specialize (Hb eq_refl).
    + intros b' Hr. destruct (Hset b' Hr) as [Hb Hall]. split; [by intros _; apply Hb|].
      intros k' v' [[= -> ->]|Hin]%elem_of_cons; [|by apply Hall].
      rewrite Hother by done. by eapply nested_set.
Qed.

(** Values that are already set are left alone, in whatever order. *)
Lemma set_values_fixed o vals :
  (∀ k v, (k, v) ∈ vals → NestedString o (set_path k) = Ok v) →
  set_values o vals false = (o, Some false).
Proof.
  induction vals as [|[k v] vals IH]; intros Hall; cbn [set_values]; [done|].
  rewrite (Hall k v) by left. rewrite decide_True by done. apply IH. intros. apply Hall. by right.
Qed.

(** One value that differs is written to spec.set. *)
Definition set_step (vals : gmap string string) (o o' : Obj) : Prop :=
  ∃ k v, vals !! k = Some v ∧ NestedString o (set_path k) ≠ Ok v ∧
         SetNestedField o v (set_path k) = Ok o'.

(** The values can be read and written in spec.set, whichever of them have been
    written before. *)
Definition settable (vals : gmap string string) (o : Obj) : Prop :=
  ∀ o1 k v, rtc (set_step vals) o o1 → vals !! k = Some v →
    is_Ok (NestedString o1 (set_path k)) = true ∧ is_Ok (SetNestedField o1 v (set_path k)) = true.

(** Every value is in spec.set. *)
Definition carries (vals : gmap string string) (o : Obj) : Prop :=
  ∀ k v, vals !! k = Some v → NestedString o (set_path k) = Ok v.

(** What injection means for one object: nothing but writing values to spec.set,
    until all of them are there. *)
Definition injected (vals : gmap string string) (o o' : Obj) : Prop :=
  if selected o then
    rtc (set_step vals) o o' ∧ selected o' = true ∧ carries vals o' ∧
    (∀ k, vals !! k = None → NestedString o' (set_path k) = NestedString o (set_path k))
  else o' = o.

(** What the injection does object by object when values can be written. *)
Lemma set_values_steps vals l o b :
  (∀ k v, (k, v) ∈ l → vals !! k = Some v) → settable vals o →
  ∃ o' b', set_values o l b = (o', Some b') ∧ rtc (set_step vals) o o' ∧ (b = true → b' = true).
Proof.
  revert o b. induction l as [|[k v] l IH]; intros o b Hl Hs; cbn [set_values]; [by eexists _, _|].
  assert (∀ k v, (k, v) ∈ l → vals !! k = Some v) as Hl' by (intros; apply Hl; by right).
  assert (vals !! k = Some v) as Hk by (apply Hl; by left).
  destruct (Hs o k v (rtc_refl _ _) Hk) as [Hget Hset].
  destruct (NestedString o (set_path k)) as [cv|e] eqn:Hcv; [|done]. case_decide as Hv; [by apply IH|].
  destruct (SetNestedField o v (set_path k)) as [o1|e] eqn:Hf; [|done].
  assert (set_step vals o o1) as Hstep by (exists k, v; rewrite Hcv; split_and!; [done|congruence|done]).
  destruct (IH o1 true Hl') as (o' & b' & E & Hr & Hb).
  { intros o2 k' v' Hr. apply Hs. by eapply rtc_l. }
  exists o', b'. split_and!; [done|by eapply rtc_l|by intros _; apply Hb].
Qed.

Lemma order_NoDup (vals : gmap string string) l : l ≡ₚ map_to_list vals → NoDup l.*1.
Proof. intros ->. apply NoDup_fst_map_to_list. Qed.

Lemma inject_object_injected vals l o :
  l ≡ₚ map_to_list vals → (selected o = true → settable vals o) →
  injected vals o (inject_object l o).1 ∧ ((inject_object l o).2 = false → (inject_object l o).1 = o).
Proof.
  intros Hl Hp. unfold injected, Charts.inject_object in *.
  destruct (selected o) eqn:Hs; [|done].
  destruct (set_values_steps vals l o false) as (o' & b & E & Hr & _); [|by apply Hp|].
  { intros k v. rewrite Hl. by intros ?%elem_of_map_to_list. }
  rewrite E. cbn [fst snd].
  destruct (set_values_spec _ _ _ _ _ (order_NoDup _ _ Hl) E) as (Hother & Hsel & Hsame & Hset).
  destruct (Hset b eq_refl) as [_ Hall]. split; [|intros ->; by apply Hsame].
  split_and!; [done|by rewrite Hsel| |].
  - intros k v Hk. apply Hall. rewrite Hl. by apply elem_of_map_to_list.
  - intros k Hk. apply Hother. rewrite list_elem_of_fmap. intros ([k' v] & -> & Hin).
    rewrite Hl in Hin. apply elem_of_map_to_list in Hin. cbn [fst] in Hk. congruence.
Qed.

Lemma inject_objects_injected vals order i objs :
  (∀ j, order j ≡ₚ map_to_list vals) → Forall (λ o, selected o = true → settable vals o) objs →
  Forall2 (injected vals) objs (inject_objects order i objs).1 ∧
  ((inject_objects order i objs).2 = false → (inject_objects order i objs).1 = objs).
Proof.
  intros Ho. revert i. induction objs as [|o objs IH]; intros i Hp; cbn [Charts.inject_objects]; [done|].
  apply Forall_cons in Hp as [Hp Hps].
  destruct (inject_object_injected vals (order i) o (Ho i) Hp) as [Hinj Hsame].
  destruct (inject_object (order i) o) as [o' b].
  destruct (IH (S i) Hps) as [IH1 IH2].
  destruct (inject_objects order (S i) objs) as [rest b']. cbn [fst snd] in *.
  split; [by constructor|]. intros [-> ->]%orb_false_iff. by rewrite Hsame, IH2.
Qed.

(** Injection changes nothing when the selected objects carry the values. *)
Lemma inject_objects_fixed vals order i objs :
  (∀ j, order j ≡ₚ map_to_list vals) → Forall (λ o, selected o = true → carries vals o) objs →
  inject_objects order i objs = (objs, false).
Proof.
  intros Ho HF. revert i. induction HF as [|o objs Hi _ IH]; intros i;
    cbn [Charts.inject_objects]; [done|].
  assert (inject_object (order i) o = (o, false)) as ->.
  { unfold Charts.inject_object. destruct (selected o); [|done].
    rewrite set_values_fixed; [done|]. intros k v Hkv. apply Hi; [done|].
    rewrite Ho in Hkv. by apply elem_of_map_to_list. }
  by rewrite IH.
Qed.

(** And only then. *)
Lemma inject_objects_unchanged vals objs objs' :
  Forall2 (injected vals) objs objs' → objs' = objs → Forall (λ o, selected o = true → carries vals o) objs.
Proof.
  intros HF ->. induction objs as [|o objs IH]; [done|]. apply Forall2_cons in HF as [Hi HF].
  constructor; [|by apply IH]. intros Hs. unfold injected in Hi. rewrite Hs in Hi. tauto.
Qed.

(** A cleaned object is selected only if the object was, when injection has to be
    asked for by the annotation. *)
Lemma selected_clean o :
  getInjectDefault ProgramUpper Getenv = false → is_Unstructured o = true →
  selected (clean o) = true → selected o = true.
Proof.
  intros Hdef Ho. unfold Charts.selected, isInjectEnabled. rewrite Hdef, Ho, clean_kind, !andb_true_iff.
  intros [[_ ->] Hi]. split; [done|]. pose proof (clean_annotations o (injectAnnotationKey Program)) as Hc.
  destruct (GetAnnotations (clean o) !! injectAnnotationKey Program) as [a|]; [|done].
  by rewrite (Hc a eq_refl).
Qed.

Lemma injected_unstructured vals o o' :
  is_Unstructured o = true → injected vals o o' → is_Unstructured o' = true ∧
  (selected o' = true → carries vals o').
Proof.
  intros Ho Hi. unfold injected in Hi. destruct (selected o) eqn:Hs; [|by subst o'; rewrite Hs].
  destruct Hi as (_ & Hs' & Hc & _). split; [|done].
  unfold Charts.selected in Hs'. by apply andb_true_iff in Hs' as [[? _]%andb_true_iff _].
Qed.

(** What a reader of the rewritten file finds for an object. *)
Definition reads (vals : gmap string string) (o o' : Obj) : Prop :=
  GroupVersionKind o' = GroupVersionKind o ∧
  (selected o = true → carries vals o') ∧
  (∀ k v, selected o = false ∨ vals !! k = None →
          NestedString o (set_path k) = Ok v → NestedString o' (set_path k) = Ok v).

Lemma set_step_kind vals o o' : rtc (set_step vals) o o' → GroupVersionKind o' = GroupVersionKind o.
Proof.
  induction 1 as [|o o1 o2 (k & v & _ & _ & Hs) _ IH]; [done|]. rewrite IH. by eapply set_metadata.
Qed.

Lemma injected_reads vals o o' : injected vals o o' → reads vals o o' ∧ reads vals o (clean o').
Proof.
  intros Hi. assert (reads vals o o') as Hr.
  { unfold injected, reads in *. destruct (selected o) eqn:Hs; [|by subst o'].
    destruct Hi as (Hst & _ & Hc & Hother). split_and!; [by eapply set_step_kind|done|].
    intros k v [|Hk] Hn; [done|]. by rewrite Hother. }
  split; [done|]. destruct Hr as (Hk & Hc & Hother). split_and!; [by rewrite clean_kind| |].
  - intros Hs k v Hv. apply clean_nested. by apply Hc.
  - intros k v Hkv Hn. apply clean_nested. by apply Hother.
Qed.

(** *** Rewriting one file *)

Lemma spares_rewriteChart fileName order :
  spares (λ q, q ≠ Clean fileName) (rewriteChart fileName order).
Proof.
  unfold Charts.rewriteChart.
  apply spares_bind; [auto with spares|intros _]. apply spares_bind; [auto with spares|intros text].
  destruct (text ≫= ToObjects) as [objs|e]; [|auto with spares].
  destruct (Charts.inject_objects _ _ _ _ _ _) as [objs' []]; cbn [negb]; [|auto with spares]. unfold save_objects.
  apply spares_bind; [apply spares_with_message, spares_readonly, readonly_lift_result|intros data].
  apply spares_bind; [auto with spares|intros _].
  apply spares_bind; [by apply spares_with_message, spares_Truncate; intros ?|intros _].
  apply spares_bind; [by apply spares_with_message, spares_WriteOpen; intros ?|intros _].
  auto with spares.
Qed.

Lemma os_OpenRW_run p c perm s :
  nodes s !! Clean p = Some (NFile c perm) →
  ∃ s', os_OpenRW p no_faults s = (Ok (), s') ∧ nodes s' = nodes s.
Proof.
  intros Hp. edestruct @syscall_run as (s' & E & N). exists s'. unfold os_OpenRW.
  by rewrite E, N, Hp.
Qed.

Lemma noop_run s :
  ∃ s', syscall (λ _, (Ok (), [])) no_partial no_faults s = (Ok (), s') ∧ nodes s' = nodes s.
Proof. destruct (syscall_run (λ _, (Ok (), [])) no_partial s) as (s' & E & N). by exists s'. Qed.

(** Truncating and writing a file that is there. *)
Lemma overwrite_run p c perm data s :
  Clean p = p → nodes s !! p = Some (NFile c perm) →
  ∃ s1 s2, os_Truncate p no_faults s = (Ok (), s1) ∧ os_WriteOpen p data no_faults s1 = (Ok (), s2) ∧
           nodes s2 = <[p := NFile data perm]> (nodes s).
Proof.
  intros Hc Hp. edestruct (@syscall_run unit) as (s1 & E1 & N1). exists s1.
  unfold os_Truncate. rewrite E1. clear E1. rewrite Hc, Hp in N1 |- *. cbn in N1.
  edestruct (@syscall_run unit) as (s2 & E2 & N2). exists s2.
  unfold os_WriteOpen. rewrite E2. clear E2. split_and!; [done|done|].
  rewrite N2. cbn [snd fst]. rewrite Hc, N1, lookup_insert_eq. unfold writes.
  rewrite final_snoc, app_nil_l'. apply insert_insert_eq.
Qed.

Lemma rewriteChart_run fileName c perm objs order s :
  Clean fileName = fileName → nodes s !! fileName = Some (NFile c perm) → ToObjects c = Ok objs →
  let '(objs', changed) := inject_objects order 0 objs in
  (changed = false → ∃ s', rewriteChart fileName order no_faults s = (Ok (), s') ∧
                           nodes s' = nodes s) ∧
  (∀ data, changed = true → Export objs' = Ok data →
     ∃ s', rewriteChart fileName order no_faults s = (Ok (), s') ∧
           nodes s' = <[fileName := NFile data perm]> (nodes s)).
Proof.
  intros Hc Hf Hobjs. destruct (inject_objects order 0 objs) as [objs' changed] eqn:Einj.
  assert (nodes s !! Clean fileName = Some (NFile c perm)) as Hf' by by rewrite Hc.
  destruct (os_OpenRW_run fileName c perm s Hf') as (s1 & E1 & N1).
  destruct (os_ReadFile_run fileName s1) as (s2 & E2 & N2). rewrite N1, Hf' in E2.
  assert (rewriteChart fileName order no_faults s =
    (if negb changed then mret () else save_objects fileName objs') no_faults s2) as ->.
  { unfold Charts.rewriteChart.
    unfold mbind at 1, io_bind at 1, io_with_message at 1. rewrite E1. cbn [with_message].
    unfold mbind at 1, io_bind at 1, attempt at 1. rewrite E2. cbn [mbind result_bind].
    by rewrite Hobjs, Einj. }
  split.
  - intros ->. exists s2. split; [done|by rewrite N2, N1].
  - intros data -> Hexp.
    destruct (noop_run s2) as (s3 & E3 & N3).
    destruct (overwrite_run fileName c perm data s3 Hc) as (s4 & s5 & E4 & E5 & N5).
    { rewrite N3, N2, N1. done. }
    destruct (noop_run s5) as (s6 & E6 & N6).
    exists s6. split; [|by rewrite N6, N5, N3, N2, N1].
    cbn [negb]. unfold save_objects. rewrite Hexp.
    unfold mbind, io_bind, io_with_message. cbn [lift_result mret io_ret with_message].
    unfold os_Seek. rewrite E3. cbn [with_message fst]. rewrite E4. cbn [with_message].
    rewrite E5. cbn [with_message]. unfold os_Sync. by rewrite E6.
Qed.

(** C21: Rewriting a manifest, when no call fails, when reading and writing the
    chart values in spec.set fails for no HelmChart with injection enabled, and
    when the objects can be exported.  [objs'] are the objects after the injection:
    each HelmChart with injection enabled, by nothing but writes of values to its
    spec.set, has every chart value of the cluster there, and every other object is
    as it was.  If the charts had the values already, the file keeps its text;
    otherwise it decodes to [objs'] as the export leaves them.  Either way a reader
    finds as many objects, in the order and of the kinds they had, with every chart
    value in the HelmCharts with injection enabled, and every other text of
    spec.set unchanged in all of them.  And when injection is off by default,
    rewriting again, with the map iterated in any order, changes nothing. *)
Theorem rewriteChart_injects fileName c perm objs vals order s :
  Clean fileName = fileName → nodes s !! fileName = Some (NFile c perm) → ToObjects c = Ok objs →
  (∀ j, order j ≡ₚ map_to_list vals) →
  Forall (λ o, selected o = true → settable vals o) objs →
  (∀ objs', Forall2 (injected vals) objs objs' → is_Ok (Export objs') = true) →
  ∃ s' objs' c' objs2, rewriteChart fileName order no_faults s = (Ok (), s') ∧
    nodes s' = <[fileName := NFile c' perm]> (nodes s) ∧ ToObjects c' = Ok objs2 ∧
    Forall2 (injected vals) objs objs' ∧
    (Forall (λ o, selected o = true → carries vals o) objs ∧ c' = c ∨
     ¬ Forall (λ o, selected o = true → carries vals o) objs ∧ objs2 = clean <$> objs') ∧
    Forall2 (reads vals) objs objs2 ∧
    (getInjectDefault ProgramUpper Getenv = false → ∀ order', (∀ j, order' j ≡ₚ map_to_list vals) →
     ∃ s2, rewriteChart fileName order' no_faults s' = (Ok (), s2) ∧ nodes s2 = nodes s').
Proof.
  intros Hc Hf Hobjs Ho Hp Hexp. pose proof (decoded_unstructured _ _ Hobjs) as Hunst.
  destruct (inject_objects_injected vals order 0 objs Ho Hp) as [Hinj Hsame].
  pose proof (rewriteChart_run fileName c perm objs order s Hc Hf Hobjs) as Hrun.
  pose proof (inject_objects_fixed vals order 0 objs Ho) as Hfixed.
  destruct (inject_objects order 0 objs) as [objs' changed], Hrun as [Hno Hyes]. cbn [fst snd] in *.
  assert (∀ c' s', nodes s' = <[fileName := NFile c' perm]> (nodes s) → ∀ objs2, ToObjects c' = Ok objs2 →
    Forall (λ o, selected o = true → carries vals o) objs2 → ∀ order', (∀ j, order' j ≡ₚ map_to_list vals) →
    ∃ s2, rewriteChart fileName order' no_faults s' = (Ok (), s2) ∧ nodes s2 = nodes s') as Hagain.
  { intros c' s' N objs2 Hobjs2 Hall order' Ho'.
    pose proof (rewriteChart_run fileName c' perm objs2 order' s' Hc) as Hrun'.
    rewrite (inject_objects_fixed vals order' 0 objs2 Ho' Hall) in Hrun'.
    apply Hrun'; [|done|done]. by rewrite N, lookup_insert_eq. }
  destruct changed.
  - specialize (Hexp objs' Hinj). destruct (Export objs') as [data|e] eqn:Hd; [|done].
    destruct (Hyes data eq_refl eq_refl) as (s' & E & N). apply export_cleans in Hd.
    exists s', objs', data, (clean <$> objs'). split_and!; [done..| | |].
    + right. split; [|done]. intros Hall. by specialize (Hfixed Hall).
    + apply Forall2_fmap_r. eapply Forall2_impl; [exact Hinj|]. intros ?? Hi. apply (injected_reads _ _ _ Hi).
    + intros Hdef. eapply Hagain; [done..|]. apply Forall_fmap.
      eapply Forall2_Forall_r; [exact Hinj|]. eapply Forall_impl; [exact Hunst|].
      intros o Hu o' Hi Hs k v Hk. apply clean_nested. destruct (injected_unstructured _ _ _ Hu Hi) as [Hu' Hc'].
      by apply Hc'; [apply selected_clean|].
  - destruct (Hno eq_refl) as (s' & E & N). specialize (Hsame eq_refl). subst objs'.
    assert (Forall (λ o, selected o = true → carries vals o) objs) as Hall
      by (by eapply inject_objects_unchanged).
    assert (nodes s' = <[fileName := NFile c perm]> (nodes s)) as N' by (by rewrite N, insert_id).
    exists s', objs, c, objs. split_and!; [done..|by left| |].
    + eapply Forall2_impl; [exact Hinj|]. intros ?? Hi. apply (injected_reads _ _ _ Hi).
    + intros _. by eapply Hagain.
Qed.

(** *** A manifest without objects is never touched, whatever fails *)

Definition empty_manifest (p c : string) (t : tree) : Prop := file_content t p = Some c.

Lemma rewriteChart_empty p c fileName order :
  Clean p = p → ToObjects c = Ok [] →
  triple (empty_manifest p c) (rewriteChart fileName order) (λ _, empty_manifest p c)
         (empty_manifest p c).
Proof.
  intros Hp Hc. destruct (decide (Clean fileName = p)) as [Hf|Hf].
  - unfold Charts.rewriteChart.
    eapply triple_bind with (R := λ _, empty_manifest p c).
    { apply triple_readonly; [auto with readonly|]. intros flt s Hs. by destruct (_ flt s).1. }
    intros _. eapply triple_bind with (R := λ text t, (∀ x, text = Ok x → x = c) ∧ empty_manifest p c t).
    { apply triple_readonly; [auto with readonly|]. intros flt s Hs. unfold attempt.
      destruct (os_ReadFile fileName flt s) as [[x|e] s'] eqn:E; simpl; (split; [|done]); [|done].
      intros y [= <-]. apply os_ReadFile_Ok in E as [E _]. unfold empty_manifest, file_content in *.
      rewrite Hf in E. rewrite Hp in Hs. rewrite E in Hs. by simplify_eq. }
    intros text. apply triple_pure. intros Hx.
    destruct text as [x|e]; cbn [mbind result_bind]; [|by apply triple_ret].
    rewrite (Hx x eq_refl), Hc. by apply triple_ret.
  - apply (spares_triple (λ q, q ≠ Clean fileName)); [|apply spares_rewriteChart].
    intros t t' Ht. unfold empty_manifest, file_content. rewrite Hp. by rewrite (Ht p) by done.
Qed.

Lemma setChartValues_empty p c it dir ingress cfg :
  Clean p = p → ToObjects c = Ok [] →
  triple (empty_manifest p c) (setChartValues Program ProgramUpper Getenv it dir ingress cfg)
         (λ _, empty_manifest p c) (empty_manifest p c).
Proof.
  intros Hp Hc. unfold setChartValues.
  eapply triple_bind with (R := λ _, empty_manifest p c).
  { apply triple_readonly; [auto with readonly|]. intros flt s Hs. by destruct (_ flt s).1. }
  intros visited. eapply triple_bind with (R := λ _, empty_manifest p c).
  - generalize (it_files it (filter (λ e, is_manifest e = true) visited)). intros files.
    induction files as [|[f n] files IH]; cbn [rewrite_all]; [by apply triple_ret|].
    eapply triple_bind with (R := λ _, empty_manifest p c).
    { apply triple_attempt. by apply rewriteChart_empty. }
    intros r. eapply triple_bind with (R := λ _, empty_manifest p c); [exact IH|].
    intros errs. by apply triple_ret.
  - intros [|e errs]; [by apply triple_ret|by apply triple_fail].
Qed.

(** *** A directory is rewritten in place *)

Lemma spares_setChartValues it dir ingress cfg :
  (∀ l, it_files it l ≡ₚ l) →
  spares (λ q, under (Clean dir) q = false)
         (setChartValues Program ProgramUpper Getenv it dir ingress cfg).
Proof.
  intros Hit. unfold setChartValues.
  apply (spares_bind_with _ (Forall (λ e, under (Clean dir) (Clean e.1) = true))).
  - intros flt s l s' E%filepath_Walk_under. eapply Forall_impl; [exact E|]. by intros e [? _].
  - auto with spares.
  - intros visited Hv. apply spares_bind; [|intros [|e errs]; auto with spares].
    assert (Forall (λ e, under (Clean dir) (Clean e.1) = true)
              (it_files it (filter (λ e, is_manifest e = true) visited))) as Hf.
    { rewrite Hit. by apply Forall_filter. }
    induction Hf as [|[f n] files Hn _ IH]; cbn [rewrite_all]; [auto with spares|].
    apply spares_bind.
    { apply spares_attempt. eapply spares_weaken; [|apply spares_rewriteChart].
      intros q Hq ->. cbn [fst] in Hn. by rewrite Hn in Hq. }
    intros r. apply spares_bind; [exact IH|]. intros errs. auto with spares.
Qed.
End inject_theorems.

(** ** Updating the manifests: theorems *)

Class HelmLaws `{HelmApi} := {
  rbac_readonly k : readonly (WaitForRBACReady k);
  rest_readonly k : readonly (BuildConfigFromFlags k);
  client_readonly r : readonly (helm_NewForConfig r);
  list_readonly c : readonly (HelmCharts_List c)
}.

Lemma readonly_choose_ingress `{HelmLaws} ctx_err kubeConfig l :
  readonly (choose_ingress ctx_err kubeConfig l).
Proof.
  unfold choose_ingress, getDefaultIngressClassFromCharts, ListHelmCharts.
  destruct l; [|auto with readonly]. apply readonly_bind; [|auto with readonly].
  apply readonly_with_message, readonly_bind; [|auto with readonly].
  destruct ctx_err; [auto with readonly|].
  apply readonly_bind; [apply readonly_with_message, rbac_readonly|intros _].
  apply readonly_bind; [apply rest_readonly|intros r].
  apply readonly_bind; [apply client_readonly|intros c]. apply list_readonly.
Qed.

Section update_theorems.
Context `{HI : ImageLib} `{HL : ChartLaws} `{HH : HelmLaws} (defaults : Defaults).
Context (Program ProgramUpper : string) (Getenv : string → string).
Context (cs : list string) (Hcs : Forall (λ c, simple c = true) cs) (Hne : cs ≠ []).
Context (d : string) (Hd : simple d = true).

Abbreviation charts_cs := (cs ++ ["data"; d; "charts"]).
Abbreviation temp_cs := (cs ++ ["data"; d; "charts.tmp"]).
Abbreviation manifests_cs := (cs ++ ["server"; "manifests"]).
Abbreviation updateManifests :=
  (updateManifests defaults Program ProgramUpper Getenv).
Abbreviation setChartValues := (setChartValues Program ProgramUpper Getenv).

Lemma simple_charts x : simple x = true → Forall (λ c, simple c = true) (cs ++ ["data"; d; x]).
Proof. intros. apply Forall_app. split; [done|]. by repeat constructor. Qed.

Lemma simple_manifests : Forall (λ c, simple c = true) manifests_cs.
Proof. apply Forall_app. split; [done|]. by repeat constructor. Qed.

Lemma temp_path : chartsDirForDigest (mkpath cs) d +:+ ".tmp" = mkpath temp_cs.
Proof.
  rewrite charts_path by done.
  change ["data"; d; "charts"] with (["data"; d] ++ ["charts"]).
  change ["data"; d; "charts.tmp"] with (["data"; d] ++ ["charts" +:+ ".tmp"]).
  rewrite !(assoc_L (++)), !mkpath_snoc by (by destruct cs). by rewrite !app_assoc'.
Qed.

Lemma manifests_path : manifestsDir (mkpath cs) = mkpath manifests_cs.
Proof. apply (join_dir cs Hcs Hne [_; _]). by repeat constructor. Qed.

(** The staged directory [x] of the release and the two directories written to
    have nothing in common. *)
Lemma not_below x ds q :
  simple x = true → Forall (λ c, simple c = true) ds → ds ≠ [] →
  ¬ ["data"; d; x] `prefix_of` ds → ¬ ds `prefix_of` ["data"; d; x] →
  under (mkpath (cs ++ ["data"; d; x])) q = true → under (mkpath (cs ++ ds)) q = false.
Proof.
  intros Hx Hds Hn Hp1 Hp2. apply under_disjoint; try (by destruct cs); [by apply simple_charts| | |].
  - by apply Forall_app.
  - by intros ?%prefix_app_inv.
  - by intros ?%prefix_app_inv.
Qed.

Lemma not_parent x ds q :
  simple x = true → Forall (λ c, simple c = true) ds → ¬ ["data"; d; x] `prefix_of` ds →
  under (mkpath (cs ++ ["data"; d; x])) q = true → q ∉ ancestors (mkpath (cs ++ ds)).
Proof.
  intros Hx Hds Hn Hu. assert (Forall (λ c, simple c = true) (cs ++ ds)) as Hs by by apply Forall_app.
  rewrite elem_of_ancestors by done. intros (es & [l Hes] & _ & ->). rewrite Hes in Hs.
  apply Forall_app in Hs as [Hs _].
  apply under_mkpath in Hu; [|by destruct cs|by apply simple_charts|done].
  apply Hn, (prefix_app_inv cs). rewrite Hes. destruct Hu as [k ->]. rewrite <-(assoc_L (++)). by eexists.
Qed.

(** [updateManifests] with its two look-ups done. *)
Definition update_body it1 it2 ctx_err kubeConfig ingressController cfg : io unit :=
  attempt (os_MkdirAll (mkpath manifests_cs));;
  ingress ← choose_ingress ctx_err kubeConfig ingressController;
  attempt (os_RemoveAll (mkpath temp_cs));;
  io_with_message "failed to copy temporary charts" (copyDir (mkpath temp_cs) (mkpath charts_cs));;
  r ← attempt (deploy_charts Program ProgramUpper Getenv it1 it2 (mkpath temp_cs)
                 (mkpath manifests_cs) ingress cfg);
  attempt (os_RemoveAll (mkpath temp_cs));;
  lift_result r.

Lemma update_unfold it1 it2 resolver ctx_err kubeConfig l cfg ref :
  cc_DataDir cfg = mkpath cs → GetReference defaults resolver Runtime [] = Ok ref →
  releaseRefDigest ref = Ok d →
  ∀ flt s, updateManifests it1 it2 resolver ctx_err kubeConfig l cfg flt s
           = update_body it1 it2 ctx_err kubeConfig l cfg flt s.
Proof.
  intros HD Href Hdig flt s. unfold Charts.updateManifests. rewrite Href. cbn [lift_result].
  rewrite io_ret_bind. cbn beta. rewrite Hdig. cbn [lift_result]. rewrite io_ret_bind. cbn beta.
  by rewrite HD, temp_path, manifests_path, charts_path.
Qed.

Lemma spares_blank (K : string → Prop) path : ¬ K (Clean path) → spares K (blank_chart path).
Proof.
  intros HK. unfold blank_chart. apply spares_bind; [by apply spares_attempt, spares_Truncate|].
  intros [u|e]; [|auto with spares]. apply spares_bind; [|auto with spares].
  by apply spares_attempt, spares_WriteOpen.
Qed.

Lemma spares_updateManifests it1 it2 resolver ctx_err kubeConfig l cfg ref x :
  cc_DataDir cfg = mkpath cs → GetReference defaults resolver Runtime [] = Ok ref →
  releaseRefDigest ref = Ok d → x = "bin" ∨ x = "charts" → fair it1 → fair it2 →
  spares (λ q, under (mkpath (cs ++ ["data"; d; x])) q = true)
         (updateManifests it1 it2 resolver ctx_err kubeConfig l cfg).
Proof.
  intros HD Href Hdig Hx [Hit1 _] [Hit2 _] t0.
  eapply triple_ext; [by eapply update_unfold|]. revert t0.
  set (K := λ q, under (mkpath (cs ++ ["data"; d; x])) q = true).
  assert (simple x = true) as Hsx by by destruct Hx as [-> | ->].
  assert (∀ y z, y ≠ z → ¬ ["data"; d; y] `prefix_of` ["data"; d; z]) as Hpre.
  { intros y z Hyz. by intros ?%prefix_cons_inv_2%prefix_cons_inv_2%prefix_cons_inv_1. }
  assert (x ≠ "charts.tmp") as Hxt by by destruct Hx as [-> | ->].
  assert (∀ q, K q → under (Clean (mkpath temp_cs)) q = false) as Htemp.
  { intros q. rewrite Clean_mkpath by by apply simple_charts.
    apply not_below; [done|by repeat constructor|done|by apply Hpre|apply Hpre; congruence]. }
  assert (∀ q, K q → under (Clean (mkpath manifests_cs)) q = false) as Hman.
  { intros q. rewrite Clean_mkpath by apply simple_manifests.
    apply not_below; [done|by repeat constructor|done|..]; by intros ?%prefix_cons_inv_1. }
  assert (∀ q, K q → q ∉ ancestors (mkpath manifests_cs)) as Hman'.
  { intros q. apply not_parent; [done|by repeat constructor|]. by intros ?%prefix_cons_inv_1. }
  assert (∀ q, K q → q ∉ ancestors (mkpath temp_cs)) as Htemp'.
  { intros q. apply not_parent; [done|by repeat constructor|]. by apply Hpre. }
  unfold update_body. apply spares_bind; [apply spares_attempt, spares_MkdirAll|intros _].
  { intros q Hq HK. by apply (Hman' q). }
  apply spares_bind; [apply spares_readonly, readonly_choose_ingress|intros ingress].
  apply spares_bind; [by apply spares_attempt, spares_RemoveAll|intros _].
  apply spares_bind.
  { apply spares_with_message. unfold copyDir. eapply spares_weaken; [|apply copy_frame]. 
    intros q HK. by split; [apply Htemp|apply Htemp']. }
  intros _. apply spares_bind.
  2: { intros r. apply spares_bind; [by apply spares_attempt, spares_RemoveAll|intros _].
       apply spares_readonly, readonly_lift_result. }
  apply spares_attempt. unfold deploy_charts. apply spares_bind.
  { assert (Forall (λ f, simple f = true) (unselected_charts ingress)) as Hf.
    { unfold unselected_charts. apply Forall_forall. intros f Hin.
      apply list_elem_of_bind in Hin as (name & Hin & [_ Hname]%list_elem_of_filter).
      unfold IngressItems in Hname. rewrite !elem_of_cons, elem_of_nil in Hname, Hin.
      by destruct Hname as [->|[->|[]]], Hin as [->|[->|[]]]. }
    induction Hf as [|f fs Hf _ IH]; cbn [blank_all]; [auto with spares|].
    apply spares_bind; [|intros _; exact IH]. apply spares_blank. intros HK.
    rewrite filepath_Join_mkpath in HK by (done || by apply simple_charts).
    rewrite Clean_mkpath in HK by (apply Forall_app; split; [by apply simple_charts|by constructor]).
    apply Htemp in HK. rewrite Clean_mkpath in HK by by apply simple_charts.
    by rewrite under_prefix in HK by by destruct cs. }
  intros _. apply spares_bind.
  { apply spares_with_message. eapply spares_weaken; [|by apply spares_setChartValues]. exact Htemp. }
  intros _. apply spares_bind.
  { apply spares_with_message. unfold copyDir. eapply spares_weaken; [|apply copy_frame]. 
    intros q HK. by split; [apply Hman|apply Hman']. }
  intros _. apply spares_bind; [|auto with spares]. apply spares_attempt.
  eapply spares_weaken; [|by apply spares_setChartValues]. exact Hman.
Qed.

(** C16: Deploying the charts never touches the stage: under every fault
    schedule and at every moment of [updateManifests], the release's bin and
    charts directories, which the completion marker vouches for, are exactly as
    they were; the rewriting only ever happens in the temporary copy and in the
    manifests directory. *)
Theorem updateManifests_spares_stage it1 it2 resolver ctx_err kubeConfig l cfg ref x :
  cc_DataDir cfg = mkpath cs → GetReference defaults resolver Runtime [] = Ok ref →
  releaseRefDigest ref = Ok d → x = "bin" ∨ x = "charts" → fair it1 → fair it2 →
  spares (λ q, under (mkpath (cs ++ ["data"; d; x])) q = true)
         (updateManifests it1 it2 resolver ctx_err kubeConfig l cfg).
Proof. apply spares_updateManifests. Qed.

(** *** Blanking *)

Lemma blank_chart_Ok path flt s : (blank_chart path flt s).1 = Ok ().
Proof.
  unfold blank_chart, mbind, io_bind, attempt. destruct (os_Truncate path flt s) as [[u|e] s1]; [|done].
  by destruct (os_WriteOpen path disabled_text flt s1).
Qed.

Lemma blank_chart_run path c perm s :
  Clean path = path → nodes s !! path = Some (NFile c perm) →
  ∃ s', blank_chart path no_faults s = (Ok (), s') ∧
        nodes s' = <[path := NFile disabled_text perm]> (nodes s).
Proof.
  intros Hc Hp. destruct (overwrite_run path c perm disabled_text s Hc Hp) as (s1 & s2 & E1 & E2 & N2).
  exists s2. unfold blank_chart, mbind, io_bind, attempt. by rewrite E1, E2.
Qed.

Lemma blank_all_run ds f fs s c perm :
  ds ≠ [] → Forall (λ c, simple c = true) (ds ++ [f]) → Forall (λ c, simple c = true) fs →
  nodes s !! mkpath (ds ++ [f]) = Some (NFile c perm) → f ∈ fs ∨ c = disabled_text →
  ∃ s' perm', blank_all (mkpath ds) fs no_faults s = (Ok (), s') ∧
              nodes s' !! mkpath (ds ++ [f]) = Some (NFile disabled_text perm').
Proof.
  intros Hds Hdf Hfs. revert s c perm.
  pose proof Hdf as [Hds' Hf]%Forall_app. rewrite Forall_singleton in Hf.
  induction Hfs as [|g fs Hg _ IH]; intros s c perm Hn Hin; cbn [blank_all].
  { destruct Hin as [?%elem_of_nil| ->]; [done|]. by exists s, perm. }
  rewrite filepath_Join_mkpath by done.
  assert (Forall (λ c, simple c = true) (ds ++ [g])) as Hdg by by apply Forall_app; auto.
  unfold mbind, io_bind. destruct (decide (g = f)) as [->|Hgf].
  - destruct (blank_chart_run (mkpath (ds ++ [f])) c perm s) as (s1 & -> & N1);
      [by apply Clean_mkpath|done|].
    apply (IH s1 disabled_text perm); [|by right]. by rewrite N1, lookup_insert_eq.
  - pose proof (blank_chart_Ok (mkpath (ds ++ [g])) no_faults s) as Hr.
    destruct (blank_chart (mkpath (ds ++ [g])) no_faults s) as [r s1] eqn:E. cbn [fst] in Hr. subst r.
    assert (nodes s1 !! mkpath (ds ++ [f]) = nodes s !! mkpath (ds ++ [f])) as N1.
    { eapply (spares_run (λ q, q = mkpath (ds ++ [f]))); [|exact E|done]. apply spares_blank.
      rewrite Clean_mkpath by done. intros Heq. apply mkpath_inj in Heq; [|done..].
      apply app_inv_head in Heq. congruence. }
    apply (IH s1 c perm); [by rewrite N1|]. destruct Hin as [[?|?]%elem_of_cons|?]; auto. congruence.
Qed.

Lemma io_with_message_Ok {A} msg (m : io A) flt s a s' :
  io_with_message msg m flt s = (Ok a, s') → m flt s = (Ok a, s').
Proof. unfold io_with_message. destruct (m flt s) as [[b|e] s1]; [|done]. by intros [= -> ->]. Qed.

Lemma attempt_Ok {A} (m : io A) flt s r s' : attempt m flt s = (Ok r, s') → m flt s = (r, s').
Proof. unfold attempt. destruct (m flt s). by intros [= -> ->]. Qed.

Lemma unselected_spec l name f :
  name ∈ IngressItems → name ∉ l →
  f = "rke2-" +:+ name +:+ ".yaml" ∨ f = "rke2-" +:+ name +:+ "-crd.yaml" →
  simple f = true ∧ f ∈ unselected_charts l.
Proof.
  intros Hin Hl Hf. split.
  - unfold IngressItems in Hin. rewrite !elem_of_cons, elem_of_nil in Hin.
    by destruct Hin as [->|[->|[]]], Hf as [-> | ->].
  - unfold unselected_charts. apply list_elem_of_bind. exists name.
    split; [destruct Hf as [-> | ->]; set_solver|]. by apply list_elem_of_filter.
Qed.

Lemma unselected_simple l : Forall (λ f, simple f = true) (unselected_charts l).
Proof.
  apply Forall_forall. intros f Hin. unfold unselected_charts in Hin.
  apply list_elem_of_bind in Hin as (name & Hf & [Hl Hname]%list_elem_of_filter).
  rewrite !elem_of_cons, elem_of_nil in Hf.
  apply (unselected_spec l name); [done..|]. destruct Hf as [->|[->|[]]]; auto.
Qed.

(** Blanked charts stay blank until they are in the manifests directory. *)
Lemma deploy_disables it1 it2 ingress cfg f c perm s s' :
  f ∈ unselected_charts ingress → simple f = true →
  nodes s !! mkpath (temp_cs ++ [f]) = Some (NFile c perm) →
  deploy_charts Program ProgramUpper Getenv it1 it2 (mkpath temp_cs) (mkpath manifests_cs)
    ingress cfg no_faults s = (Ok (), s') →
  file_content (nodes s') (mkpath (manifests_cs ++ [f])) = Some disabled_text.
Proof.
  intros Hf Hsf Hn. pose proof (simple_charts "charts.tmp" eq_refl) as Hst.
  assert (Forall (λ c, simple c = true) (temp_cs ++ [f])) as Hstf by by apply Forall_app; auto.
  pose proof simple_manifests as Hsm.
  assert (Forall (λ c, simple c = true) (manifests_cs ++ [f])) as Hsmf by by apply Forall_app; auto.
  destruct (blank_all_run temp_cs f (unselected_charts ingress) s c perm)
    as (s1 & perm1 & E1 & N1); [by destruct cs|done|apply unselected_simple|done|by left|].
  unfold deploy_charts. unfold mbind at 1, io_bind at 1. rewrite E1.
  intros (u2 & s2 & E2%io_with_message_Ok & Hk)%io_bind_Ok.
  destruct (setChartValues_empty Program ProgramUpper Getenv (mkpath (temp_cs ++ [f])) disabled_text
    it1 (mkpath temp_cs) (default "" (head ingress)) cfg (Clean_mkpath _ Hstf) comment_decodes
    no_faults s1) as [N2 _].
  { unfold empty_manifest, file_content. by rewrite Clean_mkpath, N1. }
  rewrite E2 in N2. cbn [snd] in N2. unfold empty_manifest, file_content in N2.
  rewrite Clean_mkpath in N2 by done.
  destruct (nodes s2 !! mkpath (temp_cs ++ [f])) as [[|c2 p2| | |]|] eqn:N2'; try done.
  injection N2 as ->.
  apply io_bind_Ok in Hk as (u3 & s3 & E3%io_with_message_Ok & Hk). unfold copyDir in E3.
  destruct (copy_complete temp_cs manifests_cs [f] no_faults s2 disabled_text p2) as (p3 & N3);
    [by destruct cs|by destruct cs|done| | | |done|by rewrite E3; destruct u3|].
  { rewrite (assoc_L (++)). apply Forall_app; split; [by apply Forall_app|auto]. }
  { by intros ?%prefix_app_inv%prefix_cons_inv_1. }
  { by intros ?%prefix_app_inv%prefix_cons_inv_1. }
  rewrite E3 in N3. cbn [snd] in N3.
  apply io_bind_Ok in Hk as (r4 & s4 & E4%attempt_Ok & [= <-]).
  destruct (setChartValues_empty Program ProgramUpper Getenv (mkpath (manifests_cs ++ [f])) disabled_text
    it2 (mkpath manifests_cs) (default "" (head ingress)) cfg (Clean_mkpath _ Hsmf) comment_decodes
    no_faults s3) as [N4 _].
  { unfold empty_manifest, file_content. by rewrite Clean_mkpath, N3. }
  by rewrite E4 in N4.
Qed.

(** C22: When no call fails and the update succeeds, both manifests of every
    ingress controller that was not selected are deployed as comments: whatever
    the bundled chart holds, rke2-<name>.yaml and rke2-<name>-crd.yaml in the
    server's manifests read "disabled by configuration". *)
Theorem updateManifests_disables_ingress it1 it2 resolver ctx_err kubeConfig i l cfg ref
    name f c perm s s' :
  cc_DataDir cfg = mkpath cs → GetReference defaults resolver Runtime [] = Ok ref →
  releaseRefDigest ref = Ok d → name ∈ IngressItems → name ∉ i :: l →
  f = "rke2-" +:+ name +:+ ".yaml" ∨ f = "rke2-" +:+ name +:+ "-crd.yaml" →
  nodes s !! mkpath (charts_cs ++ [f]) = Some (NFile c perm) →
  updateManifests it1 it2 resolver ctx_err kubeConfig (i :: l) cfg no_faults s = (Ok (), s') →
  file_content (nodes s') (mkpath (manifests_cs ++ [f])) = Some disabled_text.
Proof.
  intros HD Href Hdig Hname Hnot Hf Hn. rewrite (update_unfold _ _ _ _ _ _ _ _ HD Href Hdig).
  destruct (unselected_spec (i :: l) name f Hname Hnot Hf) as [Hsf Hun].
  pose proof (simple_charts "charts" eq_refl) as Hsc.
  pose proof (simple_charts "charts.tmp" eq_refl) as Hst.
  assert (under (mkpath charts_cs) (mkpath (charts_cs ++ [f])) = true)
    as Hbelow by (apply under_prefix; by destruct cs).
  unfold update_body. cbn [choose_ingress].
  intros (r1 & s1 & E1%attempt_Ok & Hk)%io_bind_Ok.
  assert (nodes s1 !! mkpath (charts_cs ++ [f]) = Some (NFile c perm)) as N1.
  { rewrite <-Hn. eapply (spares_run (λ q, q = mkpath (charts_cs ++ [f]))); [|exact E1|done].
    apply spares_MkdirAll. intros q Hq ->. revert Hq. apply (not_parent "charts"); [done| | |done].
    - by repeat constructor.
    - by intros ?%prefix_cons_inv_1. }
  rewrite io_ret_bind in Hk. apply io_bind_Ok in Hk as (r2 & s2 & E2%attempt_Ok & Hk).
  assert (nodes s2 !! mkpath (charts_cs ++ [f]) = Some (NFile c perm)) as N2.
  { rewrite <-N1. eapply (spares_run (λ q, q = mkpath (charts_cs ++ [f]))); [|exact E2|done].
    apply spares_RemoveAll. intros q ->. rewrite Clean_mkpath by done.
    apply (not_below "charts" ["data"; d; "charts.tmp"]); [done|by repeat constructor|done| | |done];
      by intros ?%prefix_cons_inv_2%prefix_cons_inv_2%prefix_cons_inv_1. }
  apply io_bind_Ok in Hk as (u3 & s3 & E3%io_with_message_Ok & Hk). unfold copyDir in E3.
  destruct (copy_complete charts_cs temp_cs [f] no_faults s2 c perm) as (p3 & N3);
    [by destruct cs|by destruct cs|done| | | |done|by rewrite E3; destruct u3|].
  { rewrite (assoc_L (++)). apply Forall_app; split; [by apply Forall_app|auto]. }
  { by intros ?%prefix_app_inv%prefix_cons_inv_2%prefix_cons_inv_2%prefix_cons_inv_1. }
  { by intros ?%prefix_app_inv%prefix_cons_inv_2%prefix_cons_inv_2%prefix_cons_inv_1. }
  rewrite E3 in N3. cbn [snd] in N3.
  apply io_bind_Ok in Hk as (r4 & s4 & E4%attempt_Ok & Hk).
  apply io_bind_Ok in Hk as (r5 & s5 & E5%attempt_Ok & Hk).
  destruct r4 as [[]|e]; [|done]. injection Hk as <-.
  apply deploy_disables with (f := f) (c := c) (perm := p3) in E4; [|done..].
  unfold file_content in *.
  assert (Forall (λ c, simple c = true) (manifests_cs ++ [f])) as Hsmf
    by (apply Forall_app; split; [apply simple_manifests|auto]).
  rewrite Clean_mkpath in E4 |- * by done.
  assert (nodes s5 !! mkpath (manifests_cs ++ [f]) = nodes s4 !! mkpath (manifests_cs ++ [f])) as ->;
    [|done].
  eapply (spares_run (λ q, q = mkpath (manifests_cs ++ [f]))); [|exact E5|done].
  apply spares_RemoveAll. intros q ->. rewrite Clean_mkpath by done.
  apply not_true_iff_false. intros Hu. apply under_mkpath in Hu; [|by destruct cs|done..].
  rewrite <-(assoc_L (++)) in Hu. by apply prefix_app_inv, prefix_cons_inv_1 in Hu.
Qed.
End update_theorems.

(** ** Concrete libraries *)

Module SimpleChart.
(** Group, version and kind; annotations; spec.set, where a value is a text or a
    number.  The first entry of a key counts. *)
Definition sobj : Type :=
  (string * string * string) * list (string * string) * list (string * (string + Z)).

(** Objects are written as their encoding in binary. *)
Fixpoint bits (p : positive) : string :=
  match p with
  | xH => ""
  | xO q => String "0" (bits q)
  | xI q => String "1" (bits q)
  end.

Fixpoint unbits (s : string) : option positive :=
  match s with
  | "" => Some xH
  | String c s' =>
      if decide (c = "0"%char) then xO <$> unbits s'
      else if decide (c = "1"%char) then xI <$> unbits s' else None
  end.

Lemma unbits_bits p : unbits (bits p) = Some p.
Proof. induction p as [p IH|p IH|]; cbn; by rewrite ?IH. Qed.

Definition to_objects (text : string) : result (list sobj) :=
  if HasPrefix "#" text then Ok []
  else match unbits text ≫= decode with
       | Some objs => Ok objs
       | None => Err (ErrMsg "bad yaml")
       end.

(** The annotations of kubectl and of cattle.io are not exported. *)
Definition kept_annotation (a : string * string) : bool :=
  negb (HasPrefix "kubectl.kubernetes.io/" a.1 || Contains a.1 "cattle.io/").

Definition cleaned (o : sobj) : sobj := (o.1.1, filter (λ a, kept_annotation a = true) o.1.2, o.2).

Definition export (objs : list sobj) : result string := Ok (bits (encode (cleaned <$> objs))).

Definition get (o : sobj) (path : list string) : result string :=
  match path with
  | ["spec"; "set"; k] =>
      match (list_to_map o.2 : gmap string (string + Z)) !! k with
      | None => Ok ""
      | Some (inl v) => Ok v
      | Some (inr _) => Err (ErrMsg "accessor error: the value is not a string")
      end
  | _ => Err (ErrMsg "no such field")
  end.

Definition set (o : sobj) (v : string) (path : list string) : result sobj :=
  match path with
  | ["spec"; "set"; k] => Ok (o.1, (k, inl v) :: o.2)
  | _ => Err (ErrMsg "no such field")
  end.

(** Where a path below [source] is copied to. *)
Definition moved (source target q : string) : string := target +:+ drop_str (Len source) q.

Definition copies (source target : string) (t : tree) : list (string * node) :=
  ((λ a, (a, NDir)) <$> ancestors target) ++
  ((λ e, (moved (Clean source) (Clean target) e.1, e.2)) <$>
     map_to_list (filter (λ e, under (Clean source) e.1 = true) t)).

Definition copiedb (source target : string) (t t' : tree) : bool :=
  forallb (λ e, bool_decide (t' !! moved (Clean source) (Clean target) e.1 = Some e.2))
    (map_to_list (filter (λ e, under (Clean source) e.1 = true) t)).

(** The copy checks what it has written. *)
Definition copy (source target : string) : io unit :=
  syscall (λ t, let ts := SimpleImage.put (copies source target t) t in
                (if copiedb source target t (final ts t) then Ok ()
                 else Err (ErrMsg "copy incomplete"), ts))
          (λ t k, SimpleImage.put (take k (copies source target t)) t).

#[export] Instance lib : ChartLib := {|
  Obj := sobj;
  ToObjects := to_objects;
  Export := export;
  clean := cleaned;
  is_Unstructured _ := true;
  GroupVersionKind o := o.1.1;
  helmChartGVK := ("helm.cattle.io", "v1", "HelmChart");
  GetAnnotations o := list_to_map o.1.2;
  NestedString := get;
  SetNestedField := set;
  copy_Copy := copy;
  NewErrors errs := default (ErrMsg "") (head errs);
  IPNet := string;
  IP := string;
  JoinIPNets := Join ",";
  JoinIP4Nets := Join ",";
  JoinIP6Nets := Join ",";
  JoinIPs := Join ","
|}.

Lemma to_objects_export (objs : list sobj) : to_objects (bits (encode objs)) = Ok objs.
Proof.
  unfold to_objects.
  assert (HasPrefix "#" (bits (encode objs)) = false) as -> by by destruct (encode objs).
  rewrite unbits_bits. cbn [mbind option_bind]. by rewrite decode_encode.
Qed.

Lemma kept_lookup l k v :
  (list_to_map (filter (λ a, kept_annotation a = true) l) : gmap string string) !! k = Some v →
  (list_to_map l : gmap string string) !! k = Some v.
Proof.
  induction l as [|[k' v'] l IH]; [done|]. rewrite filter_cons. destruct (decide _) as [Hd|Hd]; cbn.
  - destruct (decide (k' = k)) as [->|Hk]; [by rewrite !lookup_insert_eq|]. by rewrite !lookup_insert_ne.
  - intros Hl. destruct (decide (k' = k)) as [->|Hk]; [|by rewrite lookup_insert_ne by done; apply IH].
    apply elem_of_list_to_map_2, list_elem_of_filter in Hl as [Hl _]. unfold kept_annotation in *.
    cbn [fst] in *. congruence.
Qed.

Lemma moved_mkpath cs ds rel :
  cs ≠ [] → ds ≠ [] → rel ≠ [] → moved (mkpath cs) (mkpath ds) (mkpath (cs ++ rel)) = mkpath (ds ++ rel).
Proof.
  intros Hc Hd Hr. unfold moved, mkpath. rewrite !Join_app by done.
  by rewrite (app_assoc' "/" (Join "/" cs)), drop_str_app.
Qed.

#[export] Instance laws : ChartLaws.
Proof.
  split.
  - intros o v k o' [= <-]. cbn. by rewrite lookup_insert_eq.
  - intros o v k k' o' [= <-] Hk. cbn. by rewrite lookup_insert_ne.
  - intros o v k o' [= <-]. done.
  - intros text objs _. by apply Forall_true.
  - intros objs data [= <-]. apply to_objects_export.
  - done.
  - intros [[gvk annotations] vals] k v. apply kept_lookup.
  - done.
  - done.
  - intros source target. set (K := λ q, under (Clean target) q = false ∧ q ∉ ancestors target).
    assert (∀ t, Forall (λ e, ¬ K e.1) (copies source target t)) as He.
    { intros t. apply Forall_forall. intros [p n] Hin [Hu Ha]. cbn [fst] in *.
      unfold copies in Hin. apply elem_of_app in Hin as [Hin|Hin].
      - by apply list_elem_of_fmap in Hin as (a & [= -> ->] & ?).
      - apply list_elem_of_fmap in Hin as ([q m] & [= -> ->] & Hq%elem_of_map_to_list).
        apply map_lookup_filter_Some in Hq as [_ Hq]. cbn [fst] in *.
        apply not_true_iff_false in Hu. apply Hu. clear Hu Ha. unfold moved, under in *.
        apply orb_true_iff in Hq as [->%bool_decide_eq_true|[r ->]%HasPrefix_app].
        + pose proof (drop_str_app (Clean source) "") as Hx. rewrite app_nil_r' in Hx.
          rewrite Hx, app_nil_r'. apply under_refl.
        + rewrite <-app_assoc', drop_str_app. apply orb_true_iff. right. apply HasPrefix_app.
          exists r. by rewrite app_assoc'. }
    apply spares_syscall; [intros t|intros t k]; apply SimpleImage.put_spec; [done|by apply Forall_take].
  - intros cs ds rel flt s c perm Hc Hd Hr Hs _ _ Hn.
    apply Forall_app in Hs as [Hcs Hs]. apply Forall_app in Hs as [Hds Hrel].
    cbn [copy_Copy lib]. unfold copy, syscall. destruct (flt (clock s)) as [[e [k|]]|]; [done..|].
    cbn [fst snd]. rewrite nodes_push. cbn [nodes].
    destruct (copiedb _ _ _ _) eqn:Hb; [|done]. intros _. exists perm.
    unfold copiedb in Hb. rewrite forallb_forall in Hb. specialize (Hb (mkpath (cs ++ rel), NFile c perm)).
    rewrite <-list_elem_of_In, elem_of_map_to_list, map_lookup_filter_Some in Hb. cbn [fst snd] in Hb.
    rewrite !Clean_mkpath, moved_mkpath in Hb by done.
    apply bool_decide_eq_true in Hb; [done|]. split; [done|]. by apply under_prefix.
Qed.

Definition traefik_chart : HelmChart :=
  {| hc_Name := "rke2-traefik"; hc_Set := {["global.systemDefaultIngressClass" := StrVal "traefik"]} |}.

(** Chart of a release that did not pass the class to it. *)
Definition legacy_nginx : HelmChart := {| hc_Name := "rke2-ingress-nginx"; hc_Set := ∅ |}.

Definition api_of (charts : list HelmChart) : HelmApi := {|
  RestConfig := unit;
  HelmClient := unit;
  WaitForRBACReady _ := mret ();
  BuildConfigFromFlags _ := mret ();
  helm_NewForConfig _ := mret ();
  HelmCharts_List _ := mret charts
|}.

#[export] Instance api : HelmApi := api_of [traefik_chart].
#[export] Instance api_laws : HelmLaws.
Proof. split; intros; apply readonly_ret. Qed.
End SimpleChart.

#[local] Existing Instance SimpleName.api.
#[local] Existing Instance SimpleImage.lib.
#[local] Existing Instance SimpleChart.lib.
#[local] Existing Instance SimpleChart.laws.
#[local] Existing Instance SimpleChart.api.
#[local] Existing Instance SimpleChart.api_laws.

(** The comment in [updateManifests] says that ingress-nginx is the default if
    its chart is present in the cluster; a chart that is present without the
    class value does not count. *)
Example legacy_nginx_is_not_default flt s :
  @getDefaultIngressClassFromCharts (SimpleChart.api_of [SimpleChart.legacy_nginx]) None "" flt s
  = (Ok "traefik", s).
Proof. reflexivity. Qed.

Definition no_env (_ : string) : string := "".
Definition helm_gvk := ("helm.cattle.io", "v1", "HelmChart").
Definition opt_in := [("rke2.cattle.io/inject-cluster-config", "true")].

(** A chart whose clusterDomain is a number, and one without values. *)
Definition numeric_chart : SimpleChart.sobj := (helm_gvk, opt_in, [("global.clusterDomain", inr 5%Z)]).
Definition plain_chart : SimpleChart.sobj := (helm_gvk, opt_in, []).
Definition config_map : SimpleChart.sobj := (("", "v1", "ConfigMap"), opt_in, []).

Definition domain_first := [("global.clusterDomain", "cluster.local"); ("global.rke2DataDir", "/d")].
Definition datadir_first := [("global.rke2DataDir", "/d"); ("global.clusterDomain", "cluster.local")].

(** A chart that is given up on with a warning has been changed in part, and the
    change is written out when another chart of the same file changes; how much
    of it depends on the iteration order of a Go map. *)
Example inject_order_matters :
  domain_first ≡ₚ datadir_first ∧
  let run vals := inject_objects "rke2" "RKE2" no_env (λ _, vals) 0 [numeric_chart; plain_chart] in
  (run domain_first).2 = true ∧ (run datadir_first).2 = true ∧
  (λ o, NestedString o (set_path "global.rke2DataDir")) <$> head (run domain_first).1 = Some (Ok "") ∧
  (λ o, NestedString o (set_path "global.rke2DataDir")) <$> head (run datadir_first).1 = Some (Ok "/d").
Proof. split; [apply Permutation_swap|]. by vm_compute. Qed.

Definition one_value : gmap string string := {["global.clusterDomain" := "cluster.local"]}.
Definition chart_text : string := SimpleChart.bits (encode [plain_chart; config_map]).
Definition chart_host : fs := MkFS {["/m.yaml" := NFile chart_text 420]} 0 [].

(** A HelmChart whose values are texts can be read and written. *)
Lemma texts_settable vals (o : SimpleChart.sobj) :
  Forall (λ e, ∃ v, e.2 = inl v) o.2 → settable vals o.
Proof.
  intros Ho o1 k v Hr _. assert (Forall (λ e : string * (string + Z), ∃ v, e.2 = inl v) o1.2) as Ho1.
  { induction Hr as [|o0 o1 o2 (k0 & v0 & _ & _ & Hs) _ IH]; [done|]. apply IH.
    cbn in Hs. injection Hs as <-. cbn. constructor; [by exists v0|done]. }
  split; [|done]. cbn. destruct (list_to_map o1.2 !! k) as [x|] eqn:E; [|done].
  apply elem_of_list_to_map_2 in E. rewrite Forall_forall in Ho1.
  by destruct (Ho1 _ E) as [v' [= ->]].
Qed.

Lemma sample_settable :
  Forall (λ o, selected "rke2" "RKE2" no_env o = true → settable one_value o) [plain_chart; config_map].
Proof.
  apply Forall_cons; split; [|apply Forall_singleton]; intros _; apply texts_settable; constructor.
Qed.

Lemma rewriteChart_injects_witness :
  ∃ s' c', rewriteChart "rke2" "RKE2" no_env "/m.yaml" (λ _, map_to_list one_value) no_faults chart_host
           = (Ok (), s') ∧
    nodes s' !! "/m.yaml" = Some (NFile c' 420) ∧
    ∃ objs2, ToObjects c' = Ok objs2 ∧
      Forall2 (reads "rke2" "RKE2" no_env one_value) [plain_chart; config_map] objs2.
Proof.
  destruct (rewriteChart_injects (H := SimpleChart.lib) "rke2" "RKE2" no_env "/m.yaml" chart_text 420
    [plain_chart; config_map] one_value (λ _, map_to_list one_value) chart_host
    ltac:(vm_compute; reflexivity) ltac:(vm_compute; reflexivity) ltac:(vm_compute; reflexivity)
    ltac:(reflexivity)
    sample_settable
    ltac:(intros objs' _; reflexivity)) as (s' & objs' & c' & objs2 & E & N & Ho & _ & _ & HF & _).
  exists s', c'. split; [exact E|]. split; [rewrite N; apply lookup_insert_eq|].
  exists objs2. split; [exact Ho|exact HF].
Defined.

Definition sample_iteration : iteration :=
  {| it_files l := l; it_values _ _ m := map_to_list m |}.

Lemma sample_fair : fair sample_iteration.
Proof. split; done. Qed.

Definition sample_charts : ChartConfig := {|
  cc_ClusterCIDRs := ["10.42.0.0/16"]; cc_ClusterDNSs := ["10.43.0.10"];
  cc_ClusterDomain := "cluster.local"; cc_ServiceCIDRs := ["10.43.0.0/16"];
  cc_SystemDefaultRegistry := ""; cc_DataDir := "/var/lib/rke2"; cc_prime := false |}.

Lemma updateManifests_spares_stage_witness :
  spares (λ q, under "/var/lib/rke2/data/v1.30.1-rke2r1-0123456789ab/charts" q = true)
    (updateManifests build_defaults "rke2" "RKE2" no_env sample_iteration sample_iteration
       SimpleImage.resolver None "" ["traefik"] sample_charts).
Proof.
  exact (updateManifests_spares_stage build_defaults "rke2" "RKE2" no_env SimpleImage.data_cs
    ltac:(by repeat constructor) ltac:(done) SimpleImage.digest ltac:(reflexivity)
    sample_iteration sample_iteration SimpleImage.resolver None "" ["traefik"] sample_charts
    SimpleImage.ref "charts" eq_refl eq_refl eq_refl (or_intror eq_refl) sample_fair sample_fair).
Defined.

(** A staged release whose ingress-nginx chart holds one HelmChart. *)
Definition with_nginx : fs :=
  MkFS (<["/var/lib/rke2/data/v1.30.1-rke2r1-0123456789ab/charts/rke2-ingress-nginx.yaml"
          := NFile chart_text 420]> (nodes SimpleImage.staged)) 0 [].

Lemma updateManifests_disables_ingress_witness :
  ∃ s', updateManifests build_defaults "rke2" "RKE2" no_env sample_iteration sample_iteration
          SimpleImage.resolver None "" ["traefik"] sample_charts no_faults with_nginx = (Ok (), s') ∧
    file_content (nodes s')
      (mkpath ((SimpleImage.data_cs ++ ["server"; "manifests"]) ++ ["rke2-ingress-nginx.yaml"]))
    = Some disabled_text.
Proof.
  assert (is_Ok (updateManifests build_defaults "rke2" "RKE2" no_env sample_iteration sample_iteration
    SimpleImage.resolver None "" ["traefik"] sample_charts no_faults with_nginx).1 = true) as Hok
    by (vm_compute; reflexivity).
  destruct (updateManifests build_defaults "rke2" "RKE2" no_env sample_iteration sample_iteration
    SimpleImage.resolver None "" ["traefik"] sample_charts no_faults with_nginx) as [[[]|e] s'] eqn:E;
    [|discriminate Hok].
  exists s'. split; [reflexivity|].
  exact (updateManifests_disables_ingress build_defaults "rke2" "RKE2" no_env SimpleImage.data_cs
    ltac:(by repeat constructor) ltac:(done) SimpleImage.digest ltac:(reflexivity)
    sample_iteration sample_iteration SimpleImage.resolver None "" "traefik" [] sample_charts
    SimpleImage.ref "ingress-nginx" "rke2-ingress-nginx.yaml" chart_text 420 with_nginx
    s' eq_refl eq_refl eq_refl
    ltac:(apply (bool_decide_eq_true_1 _); vm_compute; reflexivity)
    ltac:(apply (bool_decide_eq_true_1 _); vm_compute; reflexivity)
    (or_introl eq_refl) ltac:(vm_compute; reflexivity) E).
Defined.
