(* ===== verification/Shell.v ===== *)
(** * Shell: completion scripts (pkg/cli/cmds/completion.go) and log flags (pkg/logging)

    The completion commands print a script or append a line that sources it to
    the user's shell start-up file.  [ExtractFromArgs] takes the legacy klog flags
    out of an argument list and chooses where the component's log goes; its flag
    set is a global that is reset on every call. *)

From S2P Require Import Prelude GoStrings GoPath GoFS GoTree Images.

#[local] Set Default Proof Using "Type".

(** ** Completion scripts *)

(** A script is written here with grave accents for double quotes. *)
Definition script (lines : list string) : string :=
  ReplaceAll (foldr (λ l s, l +:+ newline +:+ s) "" lines) "`" dquote.

Definition bashScript (program : string) : string := script [
  "#! /bin/bash";
  "_cli_bash_autocomplete() {";
  "if [[ `${COMP_WORDS[0]}` != `source` ]]; then";
  "	local cur opts base";
  "	COMPREPLY=()";
  "	cur=`${COMP_WORDS[COMP_CWORD]}`";
  "	if [[ `$cur` == `-`* ]]; then";
  "	opts=$( ${COMP_WORDS[@]:0:$COMP_CWORD} ${cur} --generate-bash-completion )";
  "	else";
  "	opts=$( ${COMP_WORDS[@]:0:$COMP_CWORD} --generate-bash-completion )";
  "	fi";
  "	COMPREPLY=( $(compgen -W `${opts}` -- ${cur}) )";
  "	return 0";
  "fi";
  "}";
  "";
  "complete -o bashdefault -o default -o nospace -F _cli_bash_autocomplete " +:+ program].

Definition zshScript (program : string) : string := script [
  "#compdef " +:+ program;
  "_cli_zsh_autocomplete() {";
  "";
  "	local -a opts";
  "	local cur";
  "	cur=${words[-1]}";
  "	if [[ `$cur` == `-`* ]]; then";
  "	opts=(`${(@f)$(_CLI_ZSH_AUTOCOMPLETE_HACK=1 ${words[@]:0:#words[@]-1} ${cur} --generate-bash-completion)}`)";
  "	else";
  "	opts=(`${(@f)$(_CLI_ZSH_AUTOCOMPLETE_HACK=1 ${words[@]:0:#words[@]-1} --generate-bash-completion)}`)";
  "	fi";
  "";
  "	if [[ `${opts[1]}` != `` ]]; then";
  "	_describe 'values' opts";
  "	else";
  "	_files";
  "	fi";
  "";
  "	return";
  "}";
  "";
  "compdef _cli_zsh_autocomplete " +:+ program].

Definition isKubectlSet (kubectl : bool) : string := if kubectl then " --kubectl" else "".
Definition isCrictlSet (crictl : bool) : string := if crictl then " --crictl" else "".
Definition isCtrSet (ctr : bool) : string := if ctr then " --ctr" else "".

Definition genCompletionScript (program : string) (scr : string → string) (kubectl crictl ctr : bool)
    : string :=
  let completionScript := scr program in
  let completionScript :=
    if kubectl then completionScript +:+ newline +:+
      "export KUBECONFIG=/etc/rancher/rke2/rke2.yaml" +:+ newline +:+ "    "
    else completionScript in
  let completionScript :=
    if crictl then completionScript +:+ newline +:+
      "export CRI_CONFIG_FILE=/var/lib/rancher/rke2/agent/etc/crictl.yaml" +:+ newline +:+ "    "
    else completionScript in
  if ctr then completionScript +:+ newline +:+
    "export CONTAINERD_ADDRESS=/run/k3s/containerd/containerd.sock" +:+ newline +:+
    "export CONTAINERD_NAMESPACE=k8s.io" +:+ newline +:+ "    "
  else completionScript.

(** [os.OpenFile(p, O_APPEND|O_CREATE|O_WRONLY, perm)] *)
Definition os_OpenAppend (p : string) (perm : Z) : io unit :=
  syscall (λ t, match t !! Clean p, t !! filepath_Dir (Clean p) with
                | Some (NFile _ _), _ => (Ok (), [])
                | Some _, _ => (Err (ErrIO "is a directory"), [])
                | None, Some NDir => (Ok (), [<[Clean p := NFile "" perm]> t])
                | None, _ => (Err ErrNotExist, [])
                end) no_partial.

Definition rc_entry (program shell : string) (kubectl crictl ctr : bool) : string :=
  "# >> " +:+ program +:+ " command completion (start)" +:+ newline +:+
  ". <(" +:+ program +:+ " completion " +:+ shell +:+ isKubectlSet kubectl +:+ isCrictlSet crictl +:+
  isCtrSet ctr +:+ ")" +:+ newline +:+
  "# >> " +:+ program +:+ " command completion (end)".

(** [writeToRC]; [home] is what [os.UserHomeDir] answers. *)
Definition writeToRC (program : string) (home : result string) (shell fileName : string)
    (kubectl crictl ctr : bool) : io unit :=
  match home with
  | Err _ => mret ()
  | Ok h =>
      os_OpenAppend (h +:+ fileName) 420;;
      os_WriteOpen (h +:+ fileName) (rc_entry program shell kubectl crictl ctr)
  end.

(** [Bash] and [Zsh]: the text printed, or the entry is installed. *)
Definition completion (program : string) (home : result string) (shell fileName : string)
    (scr : string → string) (install kubectl crictl ctr : bool) : io string :=
  let completetionScript := genCompletionScript program scr kubectl crictl ctr in
  if install then writeToRC program home shell fileName kubectl crictl ctr;; mret ""
  else mret completetionScript.

Definition Bash program home := completion program home "bash" "/.bashrc" bashScript.
Definition Zsh program home := completion program home "zsh" "/.zshrc" zshScript.

(** ** Log flags *)

(** A flag of the klog set: the value without an argument, and which texts
    [Value.Set] accepts. *)
Record LogFlag := { NoOptDefVal : string; accepts : string → bool }.

Inductive writer :=
  | Stderr
  | Discard
  | LogFile (filename : string) (maxSize : Z)
  | Both (filename : string) (maxSize : Z).

(** [int(x)] of a 64-bit unsigned value. *)
Definition to_int (x : Z) : Z :=
  let r := (x mod 2 ^ 64)%Z in if decide (r < 2 ^ 63)%Z then r else (r - 2 ^ 64)%Z.

(** [init]: the flags of klog by name, each with its default, but for those whose
    name starts with v.  The flag set keeps them under normalised names (and
    refuses a second flag of one name), the defaults under klog's. *)
Definition package_flags (klog : list (string * (LogFlag * string))) : list (string * (LogFlag * string)) :=
  filter (λ f, HasPrefix "v" f.1 = false) klog.

Definition init (normalize : string → string) (klog : list (string * (LogFlag * string)))
    : gmap string LogFlag * gmap string string :=
  (list_to_map ((λ f, (normalize f.1, f.2.1)) <$> package_flags klog),
   list_to_map ((λ f, (f.1, f.2.2)) <$> package_flags klog)).

Section logging.
(** The flag set, its defaults, and the normalisation of names (both fixed by
    [init]), and how texts are read as numbers. *)
Context (packageFlags : gmap string LogFlag) (defaultValues : gmap string string).
Context (normalize : string → string) (parse_uint64 : string → option Z).

Abbreviation values := (gmap string string).

Definition set_value (name val : string) (vs : values) : values :=
  match packageFlags !! name with
  | Some f => if accepts f val then <[name := val]> vs else vs
  | None => vs
  end.

(** The loop that resets every flag; [Set] normalises the name. *)
Definition reset (vs : values) : values :=
  map_fold (λ name value vs, set_value (normalize name) value vs) vs defaultValues.

(** The name and the optional value of an argument. *)
Definition arg_name (arg : string) : string := normalize (cut_name equals (TrimPrefix "--" arg)).

Definition is_log_flag (arg : string) : bool :=
  bool_decide (is_Some (packageFlags !! arg_name arg)).

Definition arg_value (arg : string) (f : LogFlag) : string :=
  match Cut equals (TrimPrefix "--" arg) with Some (_, v) => v | None => NoOptDefVal f end.

Fixpoint extract_loop (args : list string) (vs : values) : list string * values :=
  match args with
  | [] => ([], vs)
  | arg :: args' =>
      match packageFlags !! arg_name arg with
      | Some f => extract_loop args' (set_value (arg_name arg) (arg_value arg f) vs)
      | None => let '(extraArgs, vs') := extract_loop args' vs in (arg :: extraArgs, vs')
      end
  end.

Definition get_bool (name : string) (vs : values) : bool :=
  default false (vs !! name ≫= ParseBool).

Definition GetLogger (filename : string) (maxSize : Z) : writer := LogFile filename maxSize.

Definition choose_writer (vs : values) : writer :=
  let alsoToStderr := get_bool "alsologtostderr" vs in
  let filename := default "" (vs !! "log-file") in
  let maxSize := default 0%Z (vs !! "log-file-max-size" ≫= parse_uint64) in
  let toStderr := get_bool "logtostderr" vs in
  if decide (filename = "") then (if toStderr || alsoToStderr then Stderr else Discard)
  else if alsoToStderr then Both filename (to_int maxSize)
       else GetLogger filename (to_int maxSize).

(** [ExtractFromArgs]; [vs] are the values the previous call left behind. *)
Definition ExtractFromArgs (vs : values) (args : list string) : list string * writer * values :=
  let '(extraArgs, vs') := extract_loop args (reset vs) in
  (extraArgs, choose_writer vs', vs').

(** *** Theorems *)

Lemma extract_loop_args args vs : (extract_loop args vs).1 = filter (λ a, is_log_flag a = false) args.
Proof.
  revert vs. induction args as [|a args IH]; intros vs; cbn [extract_loop]; [done|].
  rewrite filter_cons. unfold is_log_flag.
  destruct (packageFlags !! arg_name a) as [f|] eqn:Hf.
  - rewrite bool_decide_true by done. rewrite decide_False by done. apply IH.
  - rewrite bool_decide_false by (by intros []). rewrite decide_True by done.
    specialize (IH vs). destruct (extract_loop args vs). cbn in *. by rewrite IH.
Qed.

(** The flag set and the defaults speak of the same flags. *)
Definition flags_agree : Prop :=
  (∀ k v, defaultValues !! k = Some v → ∃ f, packageFlags !! normalize k = Some f ∧ accepts f v = true) ∧
  (∀ k1 k2, k1 ∈ dom defaultValues → k2 ∈ dom defaultValues → normalize k1 = normalize k2 → k1 = k2) ∧
  (∀ n, n ∈ dom packageFlags → ∃ k, k ∈ dom defaultValues ∧ normalize k = n).

Lemma reset_lookup vs :
  flags_agree →
  (∀ k v, defaultValues !! k = Some v → reset vs !! normalize k = Some v) ∧
  (∀ n, (∀ k, k ∈ dom defaultValues → normalize k ≠ n) → reset vs !! n = vs !! n).
Proof.
  clear parse_uint64.
  intros (Hd & Hinj & _). unfold reset. revert Hd Hinj.
  apply (map_fold_weak_ind (λ r m,
    (∀ k v, m !! k = Some v → ∃ f, packageFlags !! normalize k = Some f ∧ accepts f v = true) →
    (∀ k1 k2, k1 ∈ dom m → k2 ∈ dom m → normalize k1 = normalize k2 → k1 = k2) →
    (∀ k v, m !! k = Some v → r !! normalize k = Some v) ∧
    (∀ n, (∀ k, k ∈ dom m → normalize k ≠ n) → r !! n = vs !! n))).
  { by split. }
  intros k v m r Hk IH Hd Hinj. destruct IH as [IH1 IH2].
  { intros k' v' Hk'. apply Hd. rewrite lookup_insert_ne; [done|]. congruence. }
  { intros k1 k2 H1 H2. apply Hinj; set_solver. }
  unfold set_value. destruct (Hd k v) as (f & -> & ->); [by rewrite lookup_insert_eq|]. split.
  - intros k' v'. destruct (decide (k' = k)) as [->|Hne].
    + rewrite !lookup_insert_eq. done.
    + rewrite lookup_insert_ne by done. intros Hk'. rewrite lookup_insert_ne; [by apply IH1|].
      intros Heq. apply Hne. symmetry. apply Hinj; [set_solver| |done].
      apply elem_of_dom_2 in Hk'. set_solver.
  - intros n Hn. rewrite lookup_insert_ne by (apply Hn; set_solver). apply IH2.
    intros k' Hk'. apply Hn. set_solver.
Qed.

Lemma reset_forgets vs1 vs2 :
  flags_agree → dom vs1 ⊆ dom packageFlags → dom vs2 ⊆ dom packageFlags → reset vs1 = reset vs2.
Proof.
  clear parse_uint64.
  intros Hagree Hvs1 Hvs2. destruct (reset_lookup vs1 Hagree) as [Hset1 Hkeep1].
  destruct (reset_lookup vs2 Hagree) as [Hset2 Hkeep2]. destruct Hagree as (Hd & _ & Hcov).
  apply map_eq. intros n. destruct (decide (n ∈ dom packageFlags)) as [Hn|Hn].
  - destruct (Hcov n Hn) as (k & [v Hv]%elem_of_dom & <-). by rewrite (Hset1 k v), (Hset2 k v).
  - assert (∀ k, k ∈ dom defaultValues → normalize k ≠ n) as Hno.
    { intros k [v Hv]%elem_of_dom <-. destruct (Hd k v Hv) as (f & Hf & _). by apply elem_of_dom_2 in Hf. }
    rewrite Hkeep1, Hkeep2 by done.
    rewrite (not_elem_of_dom_1 vs1 n), (not_elem_of_dom_1 vs2 n); [done|set_solver..].
Qed.

Lemma reset_dom vs : dom vs ⊆ dom packageFlags → dom (reset vs) ⊆ dom packageFlags.
Proof.
  clear parse_uint64.
  unfold reset. intros Hvs. apply (map_fold_weak_ind (λ r _, dom r ⊆ dom packageFlags)); [done|].
  intros k v m r _ IH. unfold set_value. destruct (packageFlags !! normalize k) as [f|] eqn:Hf; [|done].
  destruct (accepts f v); [|done]. rewrite dom_insert. apply elem_of_dom_2 in Hf. set_solver.
Qed.

Lemma extract_loop_dom args vs : dom vs ⊆ dom packageFlags → dom (extract_loop args vs).2 ⊆ dom packageFlags.
Proof.
  clear parse_uint64.
  revert vs. induction args as [|a args IH]; intros vs Hvs; cbn [extract_loop]; [done|].
  destruct (packageFlags !! arg_name a) as [f|] eqn:Hf.
  - apply IH. unfold set_value. rewrite Hf. destruct (accepts f _); [|done].
    rewrite dom_insert. apply elem_of_dom_2 in Hf. set_solver.
  - specialize (IH vs Hvs). by destruct (extract_loop args vs).
Qed.
End logging.

(** klog's flags have distinct names, also normalised, and accept their defaults. *)
Definition klog_ok (normalize : string → string) (klog : list (string * (LogFlag * string))) : Prop :=
  NoDup (normalize <$> klog.*1) ∧ Forall (λ f, accepts f.2.1 f.2.2 = true) klog.

Lemma init_agrees normalize klog :
  klog_ok normalize klog →
  let '(packageFlags, defaultValues) := init normalize klog in
  flags_agree packageFlags defaultValues normalize ∧
  ∀ n, n ∈ dom packageFlags ↔ ∃ f, f ∈ klog ∧ HasPrefix "v" f.1 = false ∧ normalize f.1 = n.
Proof.
  intros [Hnd Hacc]. unfold init.
  assert (∀ f, f ∈ package_flags klog ↔ HasPrefix "v" f.1 = false ∧ f ∈ klog) as Hin
    by (intros f; unfold package_flags; by rewrite list_elem_of_filter).
  assert (NoDup (normalize <$> (package_flags klog).*1)) as Hnd'.
  { refine (sublist_NoDup _ _ Hnd _). do 2 apply fmap_sublist. apply sublist_filter. }
  assert (Forall (λ f, accepts f.2.1 f.2.2 = true) (package_flags klog)) as Hacc'.
  { rewrite Forall_forall in Hacc |- *. intros f [_ Hf]%Hin. by apply Hacc. }
  revert Hin Hnd' Hacc'. generalize (package_flags klog). intros l Hin Hndl Haccl.
  assert (NoDup l.*1) as Hnd1 by by apply NoDup_fmap_1 in Hndl.
  assert (∀ k v, (list_to_map ((λ f, (f.1, f.2.2)) <$> l) : gmap string string) !! k = Some v →
    ∃ f, (k, (f, v)) ∈ l) as Hdv.
  { intros k v Hk%elem_of_list_to_map_2. apply list_elem_of_fmap in Hk as ([n [f d]] & [= -> ->] & Hf). by exists f. }
  assert (∀ n f d, (n, (f, d)) ∈ l →
    (list_to_map ((λ f, (normalize f.1, f.2.1)) <$> l) : gmap string LogFlag) !! normalize n = Some f) as Hpf.
  { intros n f d Hf. apply elem_of_list_to_map_1.
    - rewrite <-list_fmap_compose in Hndl. by rewrite <-list_fmap_compose.
    - apply list_elem_of_fmap. by exists (n, (f, d)). }
  assert (∀ k1 k2, k1 ∈ l.*1 → k2 ∈ l.*1 → normalize k1 = normalize k2 → k1 = k2) as Hinj.
  { intros k1 k2 [i Hi]%list_elem_of_lookup_1 [j Hj]%list_elem_of_lookup_1 Heq.
    assert (i = j) as ->; [|congruence]. apply (NoDup_lookup _ i j (normalize k1) Hndl).
    - by rewrite list_lookup_fmap, Hi.
    - by rewrite list_lookup_fmap, Hj, Heq. }
  assert (∀ k, k ∈ dom (list_to_map ((λ f, (f.1, f.2.2)) <$> l) : gmap string string) ↔ k ∈ l.*1) as Hdom.
  { intros k. rewrite dom_list_to_map, elem_of_list_to_set, <-list_fmap_compose. done. }
  split; [split_and!|].
  - intros k v (f & Hf)%Hdv. exists f. split; [by eapply Hpf|].
    rewrite Forall_forall in Haccl. by specialize (Haccl _ Hf).
  - intros k1 k2 Hk1%Hdom Hk2%Hdom. by apply Hinj.
  - intros n Hn. rewrite dom_list_to_map, elem_of_list_to_set, <-list_fmap_compose in Hn.
    apply list_elem_of_fmap in Hn as (f & -> & Hf). exists f.1. split; [|done].
    apply Hdom. by apply list_elem_of_fmap_2.
  - intros n. rewrite dom_list_to_map, elem_of_list_to_set, <-list_fmap_compose, list_elem_of_fmap. split.
    + intros (f & -> & [Hv Hf]%Hin). by exists f.
    + intros (f & Hf & Hv & <-). exists f. split; [done|]. by apply Hin.
Qed.

(** Log flags of one component never leak into another: with the flag set that
    [init] makes, what [ExtractFromArgs] returns does not depend on the values the
    previous calls left behind; the remaining arguments are exactly those that
    name no flag of the set, in order, so -v and -vmodule are left to the
    component. *)
Theorem ExtractFromArgs_stateless normalize parse_uint64 klog vs1 vs2 args :
  klog_ok normalize klog →
  let '(packageFlags, defaultValues) := init normalize klog in
  let run := ExtractFromArgs packageFlags defaultValues normalize parse_uint64 in
  dom vs1 ⊆ dom packageFlags → dom vs2 ⊆ dom packageFlags →
  run vs1 args = run vs2 args ∧
  (run vs1 args).1.1 = filter (λ a, is_log_flag packageFlags normalize a = false) args ∧
  dom (run vs1 args).2 ⊆ dom packageFlags ∧
  ∀ a f, a ∈ args → f ∈ klog → HasPrefix "v" f.1 = true → arg_name normalize a = normalize f.1 →
    a ∈ (run vs1 args).1.1.
Proof.
  intros Hok. pose proof (init_agrees normalize klog Hok) as Hinit.
  destruct (init normalize klog) as [packageFlags defaultValues]. destruct Hinit as [Hagree Hdom].
  intros run Hvs1 Hvs2. unfold run, ExtractFromArgs.
  rewrite (reset_forgets _ _ _ vs1 vs2) by done.
  pose proof (extract_loop_args packageFlags normalize args (reset packageFlags defaultValues normalize vs2)) as Ha.
  pose proof (extract_loop_dom packageFlags normalize args (reset packageFlags defaultValues normalize vs2)
    (reset_dom _ _ _ _ Hvs2)) as Hl.
  destruct (extract_loop _ _ args _) as [extra vs]. cbn [fst snd] in Ha, Hl |- *. split_and!; [done|done|done|].
  intros a f Hin Hf Hv Hname. rewrite Ha. apply list_elem_of_filter. split; [|done].
  unfold is_log_flag. apply bool_decide_eq_false. rewrite Hname. intros Hsome%elem_of_dom%Hdom.
  destruct Hsome as (f' & Hf' & Hv' & Heq). destruct Hok as [Hnd _].
  apply list_elem_of_lookup_1 in Hf as [i Hi], Hf' as [j Hj].
  assert (i = j) as ->; [|assert (f' = f) as -> by congruence; by rewrite Hv in Hv'].
  apply (NoDup_lookup _ i j (normalize f.1) Hnd).
  - by rewrite !list_lookup_fmap, Hi.
  - by rewrite !list_lookup_fmap, Hj, <-Heq.
Qed.

(** ** Samples *)

(** The start-up file need not end with a newline; the entry then continues its
    last line, and in a shell the # inside a word starts no comment. *)
Example rc_entry_joins_line :
  file_content (nodes (writeToRC "rke2" (Ok "/root") "bash" "/.bashrc" false false false no_faults
      (MkFS {["/root" := NDir; "/root/.bashrc" := NFile "alias k=kubectl" 420]} 0 [])).2)
    "/root/.bashrc"
  = Some ("alias k=kubectl# >> rke2 command completion (start)" +:+ newline +:+
          ". <(rke2 completion bash)" +:+ newline +:+ "# >> rke2 command completion (end)").
Proof. vm_compute. reflexivity. Qed.

Definition bool_flag (d : string) : LogFlag * string :=
  ({| NoOptDefVal := "true"; accepts := λ v, bool_decide (is_Some (ParseBool v)) |}, d).

(** Some of klog's flags. *)
Definition klog_flags : list (string * (LogFlag * string)) :=
  [("alsologtostderr", bool_flag "false"); ("log_file", ({| NoOptDefVal := ""; accepts := λ _, true |}, ""));
   ("log_file_max_size", ({| NoOptDefVal := ""; accepts := λ v, bool_decide (is_Some (parse_uint v)) |}, "1800"));
   ("logtostderr", bool_flag "true"); ("v", ({| NoOptDefVal := ""; accepts := λ _, true |}, "0"));
   ("vmodule", ({| NoOptDefVal := ""; accepts := λ _, true |}, ""))].

Definition word_sep (n : string) : string := ReplaceAll n "_" "-".

Lemma klog_flags_ok : klog_ok word_sep klog_flags.
Proof. split; apply (bool_decide_unpack _); vm_compute; exact I. Qed.

Lemma ExtractFromArgs_stateless_witness :
  let run vs args := ExtractFromArgs (init word_sep klog_flags).1 (init word_sep klog_flags).2 word_sep parse_uint vs args in
  (run {["log-file" := "/old.log"]} ["--v=2"; "--log_file=/x.log"; "--port=0"]).1
  = (["--v=2"; "--port=0"], LogFile "/x.log" 1800).
Proof.
  intros run.
  destruct (ExtractFromArgs_stateless word_sep parse_uint klog_flags
    {["log-file" := "/old.log"]} ∅ ["--v=2"; "--log_file=/x.log"; "--port=0"] klog_flags_ok) as [H _].
  - apply (bool_decide_eq_true_1 _). vm_compute. reflexivity.
  - apply (bool_decide_eq_true_1 _). vm_compute. reflexivity.
  - unfold run. etransitivity; [exact (f_equal fst H)|]. vm_compute. reflexivity.
Defined.
