(* ===== verification/Startup.v ===== *)
(** * Startup: Bootstrap, Kubelet and the runtime handlers of pkg/executor/staticpod/staticpod.go

    [Bootstrap] of the executor settles the registry and the pause image, puts
    the release's bin directory first in PATH and starts a goroutine that stages
    the release and closes dataReady; on servers another goroutine then deploys
    the charts.  [Containerd], [Docker] and [CRI] wait for dataReady and close
    criReady.  The step relation interleaves them in every order, each call with
    a fault schedule of its own; the theorem composes the staging of [Bootstrap]
    with the deployment of [Charts]. *)

From S2P Require Import Prelude GoStrings GoPath GoFS GoTree Images ManifestFile StaticPod.
From S2P Require Import FlagOpts Bootstrap Charts Shell.

Section startup.
Context `{ImageLib, ChartLib, HelmApi} (defaults : Defaults).

(** The fields of [StaticPodConfig] used here. *)
Record Executor := {
  ex_Resolver : Resolver;
  ex_CloudProvider : option CloudProviderConfig;
  ex_ManifestsDir : string;
  ex_KubeletPath : string;
  ex_IngressController : list string;
  ex_IsServer : bool;
  ex_Prime : bool
}.

Definition set_Resolver (r : Resolver) (s : Executor) : Executor := {|
  ex_Resolver := r; ex_CloudProvider := ex_CloudProvider s; ex_ManifestsDir := ex_ManifestsDir s;
  ex_KubeletPath := ex_KubeletPath s; ex_IngressController := ex_IngressController s;
  ex_IsServer := ex_IsServer s; ex_Prime := ex_Prime s
|}.

(** ** Bootstrap *)

(** The default registry: that of the agent configuration, or the Prime one. *)
Definition set_default_registry (s : Executor) (registry : string) : result (Executor * string) :=
  if decide (registry ≠ "") then
    r ← ParseAndSetDefaultRegistry (ex_Resolver s) registry;
    Ok (set_Resolver r s, registry)
  else if ex_Prime s then
    r ← ParseAndSetDefaultRegistry (ex_Resolver s) (PrimeRegistry defaults);
    Ok (set_Resolver r s, PrimeRegistry defaults)
  else Ok (s, registry).

(** What [Bootstrap] writes outside the executor. *)
Record AgentState := { ag_SystemDefaultRegistry : string; ag_PauseImage : string; ag_PATH : string }.

(** [Bootstrap]; [path] is the process's PATH.  The channels and the staging
    goroutine are those of [start_step]. *)
Definition Bootstrap (s : Executor) (dataDir registry path : string) : io (Executor * AgentState) :=
  '(s, registry) ← lift_result (set_default_registry s registry);
  pauseImage ← lift_result (GetReference defaults (ex_Resolver s) Pause []);
  binDir ← lift_result (BinDir defaults (ex_Resolver s) dataDir);
  attempt (removeTemplate (ex_ManifestsDir s) "kube-proxy");;
  mret (s, {| ag_SystemDefaultRegistry := registry; ag_PauseImage := Ref_Name pauseImage;
              ag_PATH := binDir +:+ ":" +:+ path |}).

(** ** Kubelet *)

Definition kubelet_args (s : Executor) (args : list string) : list string :=
  ["--volume-plugin-dir=/var/lib/kubelet/volumeplugins"; "--file-check-frequency=5s";
   "--sync-frequency=30s"] ++
  match ex_CloudProvider s with
  | Some cp => ["--cloud-provider=" +:+ cp_Name cp]
  | None => []
  end ++ args.

(** The command that is run again, five seconds after it exits, until the context
    ends: its path, its arguments without log flags, and its log. *)
Definition Kubelet (packageFlags : gmap string LogFlag) (defaultValues : gmap string string)
    (normalize : string → string) (parse_uint64 : string → option Z) (s : Executor)
    (vs : gmap string string) (args : list string) : string * list string * writer :=
  let '(args, logOut, _) :=
    ExtractFromArgs packageFlags defaultValues normalize parse_uint64 vs (kubelet_args s args) in
  (ex_KubeletPath s, args, logOut).

(** ** Channels *)

(** [APIServerReadyChan], [ETCDReadyChan], [CRIReadyChan] and [dataReadyChan]. *)
Definition ready_chan {C : Type} (ch : option C) : result C :=
  match ch with Some c => Ok c | None => Err (ErrPanic "executor not bootstrapped") end.

(** The loop that closes etcdReady: [test k] is the outcome of probe [k] and
    [probes] how many the context leaves time for. *)
Fixpoint etcd_ready (test : nat → result unit) (probes k : nat) : bool :=
  match probes with
  | 0 => false
  | S probes' => match test k with Ok _ => true | Err _ => etcd_ready test probes' (S k) end
  end.

(** [CRI]: an endpoint of /dev/null needs no runtime. *)
Definition CRI (WaitForService : string → io unit) (endpoint : string) : io unit :=
  if decide (endpoint ≠ "/dev/null") then WaitForService endpoint else mret ().

(** ** Staging, the runtime and the charts, interleaved *)

(** [stageData], up to the goroutine it starts; [registry_wait] is the outcome of
    [WaitForEmbeddedRegistry], which is only logged. *)
Definition stageData (registry_wait : result unit) (s : Executor) (cfg : StageConfig) : io unit :=
  attempt (lift_result registry_wait);;
  Stage defaults (ex_Resolver s) cfg.

Record node_state := NodeState {
  n_fs : fs;
  (** the staging goroutine has not finished *)
  n_staging : bool;
  n_dataReady : bool;
  n_criReady : bool;
  (** the goroutine of [UpdateManifests] has not finished *)
  n_updating : bool;
  n_shutdown : list error
}.

Section steps.
Context (Program ProgramUpper : string) (Getenv : string → string).
Context (s : Executor) (cfg : StageConfig) (charts : ChartConfig) (kubeConfig : string).
(** [containerd.Run], [cridockerd.Run] or the wait for the CRI socket *)
Context (run_cri : io unit).

Inductive start_step : node_state → node_state → Prop :=
  | stage_done flt wait x st' :
      n_staging x = true → stageData wait s cfg flt (n_fs x) = (Ok (), st') →
      start_step x (NodeState st' false true (n_criReady x) (ex_IsServer s) (n_shutdown x))
  | stage_failed flt wait x e st' :
      n_staging x = true → stageData wait s cfg flt (n_fs x) = (Err e, st') →
      start_step x (NodeState st' false (n_dataReady x) (n_criReady x) (n_updating x)
                      (e :: n_shutdown x))
  (** a runtime handler, past its receive from dataReady *)
  | cri_returns flt x r st' :
      n_dataReady x = true → run_cri flt (n_fs x) = (r, st') →
      start_step x (NodeState st' (n_staging x) true (n_criReady x || is_Ok r) (n_updating x)
                      (n_shutdown x))
  | charts_updated flt it1 it2 ctx_err x r st' :
      n_updating x = true → fair it1 → fair it2 →
      UpdateManifests defaults Program ProgramUpper Getenv it1 it2 (ex_Resolver s) ctx_err kubeConfig
        (ex_IngressController s) charts flt (n_fs x) = (Ok r, st') →
      start_step x (NodeState st' (n_staging x) (n_dataReady x) (n_criReady x) false
                      (option_list r ++ n_shutdown x)).

Definition start_initial (st : fs) : node_state := NodeState st true false false false [].
End steps.
End startup.

(** ** Theorems *)

Section theorems.
Context `{HIL : ImageLaws} `{HCL : ChartLaws} `{HHL : HelmLaws} (defaults : Defaults).
Context (Program ProgramUpper : string) (Getenv : string → string).
Context (cs : list string) (Hcs : Forall (λ c, simple c = true) cs) (Hne : cs ≠ []).
Context (d : string) (Hd : simple d = true).
Context (s : Executor) (cfg : StageConfig) (charts : ChartConfig) (kubeConfig : string) (run_cri : io unit).
Context (ref : Reference).
Context (HD : sc_DataDir cfg = mkpath cs) (HDc : cc_DataDir charts = mkpath cs).
Context (Href : GetReference defaults (ex_Resolver s) Runtime [] = Ok ref) (Hdig : releaseRefDigest ref = Ok d).

Abbreviation staged_dir x := (mkpath (cs ++ ["data"; d; x])).
Abbreviation release_complete t := (extracted defaults cs d (ex_Resolver s) ref t).

(** The runtime does not write into the release it runs from. *)
Context (Hcri : ∀ x, x = "bin" ∨ x = "charts" → spares (λ q, under (staged_dir x) q = true) run_cri).

Abbreviation start_step :=
  (start_step defaults Program ProgramUpper Getenv s cfg charts kubeConfig run_cri).

(** From [st] to [st'] the release is complete at every moment. *)
Definition stays_complete (st st' : fs) : Prop :=
  ∃ ts, hist st' = ts ++ hist st ∧ Forall (λ t, release_complete t) (nodes st' :: ts).

Lemma stays_complete_refl st : release_complete (nodes st) → stays_complete st st.
Proof. intros Hr. exists []. by repeat constructor. Qed.

Lemma stays_complete_trans st1 st2 st3 :
  stays_complete st1 st2 → stays_complete st2 st3 → stays_complete st1 st3.
Proof.
  intros (ts1 & Hh1 & [_ F1]%Forall_cons) (ts2 & Hh2 & [Hn F2]%Forall_cons). exists (ts2 ++ ts1).
  rewrite Hh2, Hh1, (assoc_L (++)). split; [done|]. apply Forall_cons. split; [done|]. by apply Forall_app.
Qed.

Lemma stays_complete_nodes st st' : stays_complete st st' → release_complete (nodes st').
Proof. by intros (ts & _ & [? _]%Forall_cons). Qed.

Lemma release_complete_spared {A} (m : io A) flt st r st' :
  (∀ x, x = "bin" ∨ x = "charts" → spares (λ q, under (staged_dir x) q = true) m) →
  m flt st = (r, st') → release_complete (nodes st) → stays_complete st st'.
Proof.
  intros Hm E Hr.
  destruct (Hm "bin" (or_introl eq_refl) (nodes st) flt st ltac:(done)) as (Hb & ts & Hh & Hbs).
  destruct (Hm "charts" (or_intror eq_refl) (nodes st) flt st ltac:(done)) as (Hc & ts' & Hh' & Hcs').
  rewrite E in *. cbn [snd] in *. rewrite Hh in Hh'. apply app_inv_tail in Hh' as <-.
  assert (∀ t, same_on (λ q, under (staged_dir "bin") q = true) (nodes st) t →
    same_on (λ q, under (staged_dir "charts") q = true) (nodes st) t → release_complete t) as Hstay.
  { intros t Ht1 Ht2. destruct Hr as (img & Hp & Hbin & Hch). exists img. split; [done|].
    split; by (eapply holds_under; [|eassumption]). }
  exists ts. split; [done|]. apply Forall_cons. split; [by apply Hstay|].
  rewrite Forall_forall in *. auto.
Qed.

Lemma stageData_Stage w flt st : stageData defaults w s cfg flt st = Stage defaults (ex_Resolver s) cfg flt st.
Proof. by destruct w. Qed.

Lemma spares_UpdateManifests it1 it2 ctx x :
  fair it1 → fair it2 → x = "bin" ∨ x = "charts" →
  spares (λ q, under (staged_dir x) q = true)
    (UpdateManifests defaults Program ProgramUpper Getenv it1 it2 (ex_Resolver s) ctx kubeConfig
       (ex_IngressController s) charts).
Proof.
  intros Hf1 Hf2 Hx. unfold UpdateManifests. apply spares_bind; [|auto with spares].
  apply spares_attempt. by eapply spares_updateManifests.
Qed.

(** The invariant: before staging the marker is honest; once dataReady is closed
    the release is complete; criReady closes after dataReady. *)
Record start_inv (x : node_state) : Prop := {
  inv_marker : n_staging x = true → marked_complete defaults cs d (ex_Resolver s) ref (nodes (n_fs x)) ∧
                                    n_dataReady x = false ∧ n_updating x = false;
  inv_data : n_dataReady x = true → release_complete (nodes (n_fs x));
  inv_cri : n_criReady x = true → n_dataReady x = true;
  inv_update : n_updating x = true → n_dataReady x = true
}.

Lemma start_step_inv x x' : start_step x x' → start_inv x → start_inv x'.
Proof.
  intros Hstep [Hm Hdata Hc Hu]. destruct Hstep as [flt w x st' Hs E|flt w x e st' Hs E|flt x r st' Hr E
    |flt it1 it2 ctx x r st' Hup Hf1 Hf2 E].
  - destruct (Hm Hs) as (Hmark & Hnd & Hnu). split; cbn; [done| |done|done].
    intros _. rewrite stageData_Stage in E. by eapply Stage_extracted.
  - destruct (Hm Hs) as (Hmark & Hnd & Hnu). split; cbn; [done|congruence|auto|congruence].
  - split; cbn; try done.
    + intros Hs. destruct (Hm Hs) as (_ & Hnd & _). congruence.
    + intros _. eapply stays_complete_nodes, release_complete_spared; [apply Hcri|exact E|by apply Hdata].
  - split; cbn; [|intros Hr|auto|done].
    + intros Hs. destruct (Hm Hs) as (_ & _ & Hnu). congruence.
    + eapply stays_complete_nodes, release_complete_spared; [|exact E|by apply Hdata].
      intros y Hy. by apply spares_UpdateManifests.
Qed.

Lemma start_inv_reachable st x :
  marked_complete defaults cs d (ex_Resolver s) ref (nodes st) →
  rtc start_step (start_initial st) x → start_inv x.
Proof.
  intros Hm Hsteps. assert (start_inv (start_initial st)) as Hini by (by split; cbn).
  induction Hsteps as [|x1 x2 x3 Hx _ IH]; [done|]. by apply IH, (start_step_inv x1).
Qed.

(** Once dataReady is closed, no step leaves the release incomplete even for a
    moment. *)
Lemma start_step_stays x x' :
  start_step x x' → start_inv x → n_dataReady x = true →
  n_dataReady x' = true ∧ (n_criReady x = true → n_criReady x' = true) ∧ stays_complete (n_fs x) (n_fs x').
Proof.
  intros Hstep [Hm Hdata Hc Hu] Hr. destruct Hstep as [flt w x st' Hs E|flt w x e st' Hs E|flt x r st' _ E
    |flt it1 it2 ctx x r st' Hup Hf1 Hf2 E]; cbn;
    [destruct (Hm Hs) as (_ & Hnd & _); congruence..| |]; (split; [done|]).
  - split; [by intros ->|]. eapply release_complete_spared; [apply Hcri|exact E|by apply Hdata].
  - split; [done|]. eapply release_complete_spared; [|exact E|by apply Hdata].
    intros y Hy. by apply spares_UpdateManifests.
Qed.

Lemma steps_stay x x' :
  rtc start_step x x' → start_inv x → n_dataReady x = true →
  (n_criReady x = true → n_criReady x' = true) ∧ stays_complete (n_fs x) (n_fs x').
Proof.
  induction 1 as [x|x1 x2 x3 Hx _ IH]; intros Hi Hr.
  { split; [done|]. by apply stays_complete_refl, inv_data. }
  destruct (start_step_stays _ _ Hx Hi Hr) as (Hr2 & Hc2 & Hs2).
  destruct (IH (start_step_inv _ _ Hx Hi) Hr2) as [Hc3 Hs3].
  split; [auto|by eapply stays_complete_trans].
Qed.

(** C15: No container runtime runs before the release is in place.  Start where
    the completion marker is absent or honest (a marker that outlived its
    directory is trusted, and the next start may run from a partial release:
    Bootstrap.v), with a runtime that writes nothing under the release's bin and
    charts directories.  Then in every interleaving of staging, runtime handlers
    and chart deployment, and under every fault schedule, when criReady is
    closed ([x1]) staging has finished and both directories hold everything the
    release's image has, and at every later moment, those inside the deployment
    of the charts and inside the calls of the runtime included, they still
    do. *)
Theorem cri_ready_after_staging st x1 x2 :
  marked_complete defaults cs d (ex_Resolver s) ref (nodes st) →
  rtc start_step (start_initial st) x1 → n_criReady x1 = true → rtc start_step x1 x2 →
  n_dataReady x1 = true ∧ release_complete (nodes (n_fs x1)) ∧ n_criReady x2 = true ∧
  ∃ ts, hist (n_fs x2) = ts ++ hist (n_fs x1) ∧
        Forall (λ t, release_complete t) (nodes (n_fs x2) :: ts).
Proof.
  intros Hm Hsteps Hc Hlater. pose proof (start_inv_reachable _ _ Hm Hsteps) as Hi.
  pose proof (inv_cri _ Hi Hc) as Hr. destruct (steps_stay _ _ Hlater Hi Hr) as [Hc2 Hs].
  split_and!; [done|by apply inv_data|by apply Hc2|exact Hs].
Qed.
End theorems.

Lemma lift_result_Ok {A} (r : result A) flt st a st' :
  lift_result r flt st = (Ok a, st') → r = Ok a ∧ st' = st.
Proof. destruct r; by intros [= -> ->]. Qed.

(** [Bootstrap] makes the rest of the process find the release that will
    be staged: when it succeeds, PATH starts with the bin directory of the
    runtime image as the executor's resolver now resolves it, the pause image is
    the resolved one, and the default registry is the configured one or, on Prime
    without one, the Prime registry.  A kube-proxy manifest that cannot be removed
    is no error. *)
Theorem Bootstrap_spec `{ImageLib} defaults s dataDir registry path flt st s' a st' :
  Bootstrap defaults s dataDir registry path flt st = (Ok (s', a), st') →
  (∃ ref d, GetReference defaults (ex_Resolver s') Runtime [] = Ok ref ∧ releaseRefDigest ref = Ok d ∧
            ag_PATH a = binDirForDigest dataDir d +:+ ":" +:+ path) ∧
  (∃ pause, GetReference defaults (ex_Resolver s') Pause [] = Ok pause ∧ ag_PauseImage a = Ref_Name pause) ∧
  set_default_registry defaults s registry = Ok (s', ag_SystemDefaultRegistry a).
Proof.
  unfold Bootstrap.
  intros ([s1 reg] & st1 & [E1 _]%lift_result_Ok & (pause & st2 & [E2 _]%lift_result_Ok &
    (bin & st3 & [E3 _]%lift_result_Ok & (r & st4 & _ & [= <- <- _])%io_bind_Ok)%io_bind_Ok)%io_bind_Ok)%io_bind_Ok.
  cbn [ag_PATH ag_PauseImage ag_SystemDefaultRegistry]. split_and!; [|by eexists|done].
  unfold BinDir in E3. destruct (GetReference _ _ Runtime []) as [ref|] eqn:Er; [|done]. cbn in E3.
  destruct (releaseRefDigest ref) as [d|] eqn:Ed; [|done]. injection E3 as <-. by exists ref, d.
Qed.

(** ** A start that goes well *)

#[local] Existing Instance SimpleName.api.
#[local] Existing Instance SimpleImage.lib.
#[local] Existing Instance SimpleImage.laws.
#[local] Existing Instance SimpleChart.lib.
#[local] Existing Instance SimpleChart.laws.
#[local] Existing Instance SimpleChart.api.
#[local] Existing Instance SimpleChart.api_laws.

Definition sample_executor : Executor := {|
  ex_Resolver := SimpleImage.resolver; ex_CloudProvider := None;
  ex_ManifestsDir := "/var/lib/rke2/agent/pod-manifests"; ex_KubeletPath := "kubelet";
  ex_IngressController := ["traefik"]; ex_IsServer := true; ex_Prime := false |}.

Lemma cri_ready_after_staging_witness :
  ∃ x x', n_criReady x = true ∧ n_updating x = true ∧ n_updating x' = false ∧
    rtc (start_step build_defaults "rke2" "RKE2" no_env sample_executor SimpleImage.cfg sample_charts ""
           (mret ())) (start_initial (MkFS SimpleImage.fresh 0 [])) x ∧
    ∃ ts, hist (n_fs x') = ts ++ hist (n_fs x) ∧
      Forall (extracted build_defaults SimpleImage.data_cs SimpleImage.digest SimpleImage.resolver
                SimpleImage.ref) (nodes (n_fs x') :: ts).
Proof.
  assert (is_Ok (stageData build_defaults (Ok ()) sample_executor SimpleImage.cfg no_faults
                   (MkFS SimpleImage.fresh 0 [])).1 = true) as Hok by (vm_compute; reflexivity).
  destruct (stageData build_defaults (Ok ()) sample_executor SimpleImage.cfg no_faults
              (MkFS SimpleImage.fresh 0 [])) as [[[]|e] st'] eqn:E; [|discriminate Hok].
  destruct (UpdateManifests build_defaults "rke2" "RKE2" no_env sample_iteration sample_iteration
    SimpleImage.resolver None "" ["traefik"] sample_charts no_faults st') as [[r|e] st''] eqn:E2.
  2: { unfold UpdateManifests, mbind, io_bind, attempt in E2.
       destruct (updateManifests _ _ _ _ _ _ _ _ _ _ _ _ _) in E2. discriminate E2. }
  set (x := NodeState st' false true true true []).
  set (x' := NodeState st'' false true true false (option_list r ++ [])).
  exists x, x'. do 3 (split; [reflexivity|]).
  assert (rtc (start_step build_defaults "rke2" "RKE2" no_env sample_executor SimpleImage.cfg sample_charts ""
           (mret ())) (start_initial (MkFS SimpleImage.fresh 0 [])) x) as Hsteps.
  { eapply rtc_l; [|apply rtc_once].
    - by apply (stage_done _ _ _ _ _ _ _ _ _ no_faults (Ok ()) (start_initial (MkFS SimpleImage.fresh 0 []))).
    - by apply (cri_returns _ _ _ _ _ _ _ _ _ no_faults (NodeState st' false true false true []) (Ok ())). }
  split; [exact Hsteps|].
  assert (rtc (start_step build_defaults "rke2" "RKE2" no_env sample_executor SimpleImage.cfg sample_charts ""
           (mret ())) x x') as Hlater.
  { apply rtc_once. by apply (charts_updated _ _ _ _ _ _ _ _ _ no_faults sample_iteration sample_iteration
      None x r st'' eq_refl sample_fair sample_fair). }
  exact (proj2 (proj2 (proj2 (cri_ready_after_staging build_defaults "rke2" "RKE2" no_env SimpleImage.data_cs
    ltac:(by repeat constructor) ltac:(done) SimpleImage.digest ltac:(reflexivity) sample_executor SimpleImage.cfg
    sample_charts "" (mret ()) SimpleImage.ref eq_refl eq_refl eq_refl eq_refl
    ltac:(intros; apply spares_ret) (MkFS SimpleImage.fresh 0 []) x x'
    (or_introl eq_refl) Hsteps eq_refl Hlater)))).
Defined.
