(* ===== verification/WinCni.v ===== *)
(** * WinCni: the CNI plugins of Windows nodes (pkg/windows: types, none, calico, flannel)

    A plugin writes its configuration when it is set up and starts its services
    later.  Programs run on a host: the file system, the host network service and
    the processes started; the Kubernetes API, the clock, the metadata services
    and how a process ends are arguments. *)

From S2P Require Import Prelude GoStrings GoPath GoFS GoTree GoWin GoNet WinNet Images Bootstrap Shell.

(** ** Configurations *)

Record KubeConfig := {
  kc_CertificateAuthority : string; kc_Server : string; kc_Token : string; kc_Path : string
}.

Definition no_kubeconfig : KubeConfig :=
  {| kc_CertificateAuthority := ""; kc_Server := ""; kc_Token := ""; kc_Path := "" |}.

Record CNICommonConfig := {
  cn_Name : string; cn_OverlayNetName : string; cn_OverlayEncap : string; cn_Hostname : string;
  cn_ConfigPath : string; cn_CNIConfDir : string; cn_CNIBinDir : string; cn_ClusterCIDR : string;
  cn_ServiceCIDR : string; cn_NodeIP : string; cn_VxlanVNI : string; cn_VxlanPort : string;
  cn_Interface : string; cn_IpamType : string; cn_CNIVersion : string; cn_VIPAddress : string;
  cn_KubeConfig : KubeConfig
}.

(** The zero value, and the updates the code makes. *)
Definition empty_config : CNICommonConfig := {|
  cn_Name := ""; cn_OverlayNetName := ""; cn_OverlayEncap := ""; cn_Hostname := ""; cn_ConfigPath := "";
  cn_CNIConfDir := ""; cn_CNIBinDir := ""; cn_ClusterCIDR := ""; cn_ServiceCIDR := ""; cn_NodeIP := "";
  cn_VxlanVNI := ""; cn_VxlanPort := ""; cn_Interface := ""; cn_IpamType := ""; cn_CNIVersion := "";
  cn_VIPAddress := ""; cn_KubeConfig := no_kubeconfig |}.

Definition update_config (encap interface vip : string) (k : KubeConfig) (c : CNICommonConfig)
    : CNICommonConfig := {|
  cn_Name := cn_Name c; cn_OverlayNetName := cn_OverlayNetName c; cn_OverlayEncap := encap;
  cn_Hostname := cn_Hostname c; cn_ConfigPath := cn_ConfigPath c; cn_CNIConfDir := cn_CNIConfDir c;
  cn_CNIBinDir := cn_CNIBinDir c; cn_ClusterCIDR := cn_ClusterCIDR c; cn_ServiceCIDR := cn_ServiceCIDR c;
  cn_NodeIP := cn_NodeIP c; cn_VxlanVNI := cn_VxlanVNI c; cn_VxlanPort := cn_VxlanPort c;
  cn_Interface := interface; cn_IpamType := cn_IpamType c; cn_CNIVersion := cn_CNIVersion c;
  cn_VIPAddress := vip; cn_KubeConfig := k |}.

Definition set_OverlayEncap (e : string) (c : CNICommonConfig) : CNICommonConfig :=
  update_config e (cn_Interface c) (cn_VIPAddress c) (cn_KubeConfig c) c.
Definition set_Interface (i : string) (c : CNICommonConfig) : CNICommonConfig :=
  update_config (cn_OverlayEncap c) i (cn_VIPAddress c) (cn_KubeConfig c) c.
Definition set_VIPAddress (v : string) (c : CNICommonConfig) : CNICommonConfig :=
  update_config (cn_OverlayEncap c) (cn_Interface c) v (cn_KubeConfig c) c.
Definition set_KubeConfig (k : KubeConfig) (c : CNICommonConfig) : CNICommonConfig :=
  update_config (cn_OverlayEncap c) (cn_Interface c) (cn_VIPAddress c) k c.

Record CalicoConfig := {
  ca_Common : CNICommonConfig; ca_KubeNetwork : string; ca_DNSServers : string; ca_DNSSearch : string;
  ca_DatastoreType : string; ca_NodeNameFile : string; ca_Platform : string;
  ca_IPAutoDetectionMethod : string; ca_ETCDEndpoints : string; ca_ETCDKeyFile : string;
  ca_ETCDCertFile : string; ca_ETCDCaCertFile : string
}.

Definition update_calico (method : string) (common : CNICommonConfig) (c : CalicoConfig) : CalicoConfig := {|
  ca_Common := common; ca_KubeNetwork := ca_KubeNetwork c; ca_DNSServers := ca_DNSServers c;
  ca_DNSSearch := ca_DNSSearch c; ca_DatastoreType := ca_DatastoreType c;
  ca_NodeNameFile := ca_NodeNameFile c; ca_Platform := ca_Platform c;
  ca_IPAutoDetectionMethod := method; ca_ETCDEndpoints := ca_ETCDEndpoints c;
  ca_ETCDKeyFile := ca_ETCDKeyFile c; ca_ETCDCertFile := ca_ETCDCertFile c;
  ca_ETCDCaCertFile := ca_ETCDCaCertFile c |}.

Definition set_common (f : CNICommonConfig → CNICommonConfig) (c : CalicoConfig) : CalicoConfig :=
  update_calico (ca_IPAutoDetectionMethod c) (f (ca_Common c)) c.

(** The part of the node's configuration that the plugins read, addresses and
    networks as their texts. *)
Record WinNode := {
  nd_NodeName : string; nd_CNIConfDir : string; nd_CNIBinDir : string; nd_ClusterCIDR : string;
  nd_ServiceCIDR : string; nd_NodeIP : string; nd_ClusterDNS : string; nd_ClusterDomain : string
}.

(** ** Templates *)

Definition lines (l : list string) : string := foldr (λ l s, l +:+ newline +:+ s) "" l.

(** The function [replace] of the templates. *)
Definition replaceSlashWin (s : string) : string := ReplaceAll s backslash "\\".

Definition kubeconfig_text (user : string) (k : KubeConfig) : string := lines [
  "apiVersion: v1";
  "kind: Config";
  "clusters:";
  "- name: kubernetes";
  "  cluster:";
  "    certificate-authority: " +:+ kc_CertificateAuthority k;
  "    server: " +:+ kc_Server k;
  "contexts:";
  "- name: " +:+ user +:+ "@kubernetes";
  "  context:";
  "    cluster: kubernetes";
  "    namespace: kube-system";
  "    user: " +:+ user;
  "current-context: " +:+ user +:+ "@kubernetes";
  "users:";
  "- name: " +:+ user;
  "  user:";
  "    token: " +:+ kc_Token k].

Definition calicoKubeConfigTemplate (c : CalicoConfig) : string :=
  kubeconfig_text "calico-windows" (cn_KubeConfig (ca_Common c)).

Definition flannelKubeConfigTemplate (c : CNICommonConfig) : string :=
  kubeconfig_text "flannel" (cn_KubeConfig c).

(** A line ["name": "value",] *)
Definition text_line (name value : string) : string := quoted name +:+ value +:+ quoted "`,".

Definition calicoConfigTemplate (c : CalicoConfig) : string :=
  let n := ca_Common c in
  lines [
  "{";
  text_line "  `name`: `" (cn_Name n);
  quoted "  `windows_use_single_network`: true,";
  text_line "  `cniVersion`: `" (cn_CNIVersion n);
  quoted "  `type`: `calico`,";
  text_line "  `mode`: `" (cn_OverlayEncap n);
  quoted "  `vxlan_mac_prefix`: `0E-2A`,";
  quoted "  `vxlan_vni`: " +:+ cn_VxlanVNI n +:+ ",";
  quoted "  `policy`: {";
  quoted "    `type`: `k8s`";
  "  },";
  quoted "  `log_level`: `info`,";
  quoted "  `capabilities`: {`dns`: true},";
  quoted "  `DNS`: {";
  quoted "    `Nameservers`: [";
  quoted "		`" +:+ ca_DNSServers c +:+ quoted "`";
  "    ],";
  quoted "    `Search`:  [";
  quoted "      `svc.cluster.local`";
  "    ]";
  "  },";
  text_line "  `nodename_file`: `" (replaceSlashWin (ca_NodeNameFile c));
  text_line "  `datastore_type`: `" (ca_DatastoreType c);
  text_line "  `etcd_endpoints`: `" (ca_ETCDEndpoints c);
  text_line "  `etcd_key_file`: `" (ca_ETCDKeyFile c);
  text_line "  `etcd_cert_file`: `" (ca_ETCDCertFile c);
  text_line "  `etcd_ca_cert_file`: `" (ca_ETCDCaCertFile c);
  quoted "  `kubernetes`: {";
  quoted "    `kubeconfig`: `" +:+ replaceSlashWin (kc_Path (cn_KubeConfig n)) +:+ quoted "`";
  "  },";
  quoted "  `ipam`: {";
  text_line "    `type`: `" (cn_IpamType n);
  quoted "    `subnet`: `usePodCidr`";
  "  },";
  quoted "  `policies`:  [";
  "    {";
  quoted "      `Name`:  `EndpointPolicy`,";
  quoted "      `Value`:  {";
  quoted "        `Type`:  `OutBoundNAT`,";
  quoted "        `ExceptionList`:  [";
  quoted "          `" +:+ cn_ServiceCIDR n +:+ quoted "`";
  "        ]";
  "      }";
  "    },";
  "    {";
  quoted "      `Name`:  `EndpointPolicy`,";
  quoted "      `Value`:  {";
  quoted "        `Type`:  `SDNROUTE`,";
  text_line "        `DestinationPrefix`:  `" (cn_ServiceCIDR n);
  quoted (if decide (cn_OverlayEncap n = "vxlan") then "        `NeedEncap`: true" else "        `NeedEncap`: false");
  "      }";
  "    }";
  "  ]";
  "}"].

Definition flanneldConfigTemplate (c : CNICommonConfig) : string :=
  Join newline [
  "{";
  quoted "`Network`: `" +:+ cn_ClusterCIDR c +:+ quoted "`, ";
  quoted "`Backend`: {";
  text_line "  `Type`: `" (cn_OverlayEncap c);
  quoted "  `VNI`: " +:+ cn_VxlanVNI c +:+ ",";
  quoted "  `Port`: " +:+ cn_VxlanPort c;
  "  }";
  "}"].

Definition flannelCniConflistTemplate (c : CNICommonConfig) : string := lines [
  "{";
  quoted "	`name`:`flannel.4096`,  ";
  text_line "	`cniVersion`:`" (cn_CNIVersion c);
  quoted "	`plugins`:[";
  "	  {";
  quoted "		`type`:`flannel`,";
  quoted "		`capabilities`: {";
  quoted "		  `portMappings`: true,";
  quoted "		  `dns`: true";
  "		},";
  quoted "		`delegate`: {";
  quoted "		  `type`: `win-overlay`,";
  quoted "		  `apiVersion`: 2,";
  quoted "		  `Policies`: [{";
  quoted "			  `Name`: `EndpointPolicy`,";
  quoted "			  `Value`: {";
  quoted "				  `Type`: `OutBoundNAT`,";
  quoted "				  `Settings`: {";
  quoted "					`Exceptions`: [";
  quoted "					  `" +:+ cn_ClusterCIDR c +:+ quoted "`, `" +:+ cn_ServiceCIDR c +:+ quoted "`";
  "					]";
  "				  }";
  "			  }";
  "		  }, {";
  quoted "			  `Name`: `EndpointPolicy`,";
  quoted "			  `Value`: {";
  quoted "				  `Type`: `SDNRoute`,";
  quoted "				  `Settings`: {";
  text_line "					`DestinationPrefix`: `" (cn_ServiceCIDR c);
  quoted "					`NeedEncap`: true";
  "				  }";
  "			  }";
  "		  }, {";
  quoted "			  `name`: `EndpointPolicy`,";
  quoted "			  `value`: {";
  quoted "				  `Type`: `ProviderAddress`,";
  quoted "				  `Settings`: {";
  quoted "					  `ProviderAddress`: `" +:+ cn_NodeIP c +:+ quoted "`";
  "				  }";
  "			  } ";
  "		  }]";
  "		}";
  "	  }";
  "	]";
  "  }"].

(** ** Programs on a host *)

Section host.
Context `{HnsApi}.

(** A process that is kept running. *)
Record process := { pr_Program : string; pr_Args : list string; pr_Env : list string }.

Record host := Host { h_fs : fs; h_hns : hns; h_processes : list process }.

Definition win (A : Type) := faults → host → result A * host.

#[export] Instance win_ret : MRet win := λ A a _ h, (Ok a, h).
#[export] Instance win_bind : MBind win := λ A B f m flt h,
  let '(r, h') := m flt h in
  match r with Ok a => f a flt h' | Err e => (Err e, h') end.

Definition win_fail {A} (e : error) : win A := λ _ h, (Err e, h).
Definition win_of {A} (r : result A) : win A := λ _ h, (r, h).

Definition files {A} (m : io A) : win A := λ flt h,
  let '(r, s) := m flt (h_fs h) in (r, Host s (h_hns h) (h_processes h)).
Definition network {A} (f : hns → result A * hns) : win A := λ _ h,
  let '(r, n) := f (h_hns h) in (r, Host (h_fs h) n (h_processes h)).
(** [go] with a function that keeps a process running *)
Definition spawn (p : process) : win unit := λ _ h,
  (Ok (), Host (h_fs h) (h_hns h) (h_processes h ++ [p])).
Definition win_message {A} (msg : string) (m : win A) : win A := λ flt h,
  let '(r, h') := m flt h in
  (match r with Ok a => Ok a | Err e => Err (ErrWithMessage msg e) end, h').
End host.
#[export] Hint Unfold win_of : core.

(** [os.Create] *)
Definition os_Create (p : string) : io unit := os_WriteFile p "" 438.

(** [renderCalicoConfig] and [renderFlannelConfig]: an error of [Execute] is
    dropped, and with it that of the write. *)
Definition render_config (path text : string) : io unit :=
  os_MkdirAll (win_path (win_Dir path));;
  os_Create (win_path path);;
  attempt (os_WriteOpen (win_path path) text);;
  mret ().

Definition renderFlannelConfig := render_config.

(** [authv1.TokenRequest]: the audiences, and for how long the token is valid. *)
Record TokenRequest := { tr_Audiences : list string; tr_ExpirationSeconds : Z }.

(** The API server, asked for tokens: the name of the program ([version.Program]),
    the outcome of making the client, and what [CreateToken] answers for a
    namespace and an account. *)
Record Tokens := {
  tk_Program : string;
  tk_NewForConfig : result unit;
  tk_CreateToken : string → string → TokenRequest → io string
}.

(** A token for a year. *)
Definition token_request (t : Tokens) : TokenRequest :=
  {| tr_Audiences := [tk_Program t]; tr_ExpirationSeconds := 60 * 60 * 24 * 365 |}.

(** [createKubeConfigAndClient] of both plugins, for a service account. *)
Definition create_kubeconfig (tokens : Tokens) (namespace account path : string)
    (configPath : string) : io KubeConfig :=
  lift_result (tk_NewForConfig tokens);;
  t ← io_with_message ("failed to create token for service account (" +:+ namespace +:+ "/" +:+ account +:+ ")")
        (tk_CreateToken tokens namespace account (token_request tokens));
  mret {| kc_CertificateAuthority := win_Join [configPath; "server-ca.crt"];
          kc_Server := "https://127.0.0.1:6443"; kc_Token := t; kc_Path := path |}.

(** ** Calico *)

Definition CalicoConfigName := "10-calico.conf".
Definition CalicoKubeConfigName := "calico.kubeconfig".
Definition CalicoNodeNameFileName := "calico_node_name".
Definition CalicoSystemNamespace := "calico-system".
Definition calicoNode := "calico-node".

(** What the plugin asks of the rest of the world while it is set up: a token of
    the API server (its client included), whether HNS has a network, the metadata
    services, the Helm client, the
    values of the HelmChartConfig (none when it is not found), and how its
    interface is found. *)
Record CalicoWorld := {
  cw_token : Tokens;
  cw_network : string → bool;
  cw_get : string → list (string * string) → response;
  cw_factory : result unit;
  cw_values : io (option string);
  cw_interfaces : nat → result (list iface);
  cw_compile : string → option (string → bool);
  cw_dial : string → result (option string)
}.

(** The overrides a user can give, as [yaml.Unmarshal] finds them in the values:
    the address detection and whether BGP is enabled, if they are there. *)
Class CalicoYaml := {
  parse_overrides : string → result (option NodeAddressAutodetection * option bool)
}.

Definition initializeConfig (w : CalicoWorld) (node : WinNode) (dataDir : string) : io CalicoConfig :=
  let configPath := win_Join ["c:\"; dataDir; "agent"] in
  k ← create_kubeconfig (cw_token w) CalicoSystemNamespace calicoNode
        (win_Join [configPath; CalicoKubeConfigName]) configPath;
  mret {| ca_Common := {|
            cn_Name := "Calico"; cn_OverlayNetName := "Calico"; cn_OverlayEncap := "vxlan";
            cn_Hostname := nd_NodeName node; cn_ConfigPath := configPath;
            cn_CNIConfDir := nd_CNIConfDir node; cn_CNIBinDir := nd_CNIBinDir node;
            cn_ClusterCIDR := nd_ClusterCIDR node; cn_ServiceCIDR := nd_ServiceCIDR node;
            cn_NodeIP := nd_NodeIP node; cn_VxlanVNI := "4096"; cn_VxlanPort := "4789";
            cn_Interface := ""; cn_IpamType := "calico-ipam"; cn_CNIVersion := "0.3.1";
            cn_VIPAddress := ""; cn_KubeConfig := k |};
          ca_KubeNetwork := "Calico.*"; ca_DNSServers := nd_ClusterDNS node;
          ca_DNSSearch := "svc." +:+ nd_ClusterDomain node; ca_DatastoreType := "kubernetes";
          ca_NodeNameFile := win_Join ["c:\"; dataDir; "agent"; CalicoNodeNameFileName];
          ca_Platform := platformType (cw_network w) (cw_get w); ca_IPAutoDetectionMethod := "first-found";
          ca_ETCDEndpoints := ""; ca_ETCDKeyFile := ""; ca_ETCDCertFile := ""; ca_ETCDCaCertFile := "" |}.

(** The method and the interface of the user's detection setting. *)
Definition findCalicoInterface (w : CalicoWorld) (nodeV4 : NodeAddressAutodetection)
    : result (string * string) :=
  method ← nodeAddressAutodetection nodeV4;
  calicoInterface ←
    if Contains method "cidrs" then findInterfaceCIDR (cw_interfaces w) (CIDRS nodeV4) else Ok "";
  calicoInterface ←
    if Contains method "interface"
    then findInterfaceRegEx (cw_compile w) (cw_interfaces w 0) (Interface nodeV4) else Ok calicoInterface;
  calicoInterface ←
    if Contains method "can-reach"
    then findInterfaceReach (cw_dial w) (cw_interfaces w 0) (CanReach nodeV4) else Ok calicoInterface;
  Ok (method, calicoInterface).

Definition apply_overrides (w : CalicoWorld)
    (overrides : option NodeAddressAutodetection * option bool) (c : CalicoConfig) : result CalicoConfig :=
  c ← match overrides.1 with
      | Some nodeV4 =>
          '(method, interface) ← findCalicoInterface w nodeV4;
          Ok (update_calico method (set_Interface interface (ca_Common c)) c)
      | None => Ok c
      end;
  Ok (if decide (overrides.2 = Some true) then set_common (set_OverlayEncap "windows-bgp") c else c).

Definition overrideCalicoConfigByHelm `{CalicoYaml} (w : CalicoWorld) (c : CalicoConfig)
    : io CalicoConfig :=
  lift_result (cw_factory w);;
  values ← attempt (cw_values w);
  match values with
  | Err _ => io_fail (ErrMsg "failed to check for rke2-calico HelmChartConfig")
  | Ok None => mret c
  | Ok (Some text) => overrides ← lift_result (parse_overrides text); lift_result (apply_overrides w overrides c)
  end.

Definition writeConfigFiles (c : CalicoConfig) : io unit :=
  let n := ca_Common c in
  render_config (kc_Path (cn_KubeConfig n)) (calicoKubeConfigTemplate c);;
  render_config (win_Join [cn_CNIConfDir n; CalicoConfigName]) (calicoConfigTemplate c);;
  os_WriteFile (win_path (win_Join [cn_ConfigPath n; CalicoNodeNameFileName])) (cn_Hostname n) 420.

Definition Calico_Setup `{CalicoYaml} (w : CalicoWorld) (node : WinNode) (dataDir : string)
    : io CalicoConfig :=
  c ← initializeConfig w node dataDir;
  c ← overrideCalicoConfigByHelm w c;
  writeConfigFiles c;;
  mret c.

(** *** The environment of its processes *)

Definition generateGeneralCalicoEnvs (c : CalicoConfig) : list string :=
  let n := ca_Common c in
  ["KUBE_NETWORK=" +:+ ca_KubeNetwork c;
   "KUBECONFIG=" +:+ win_Join [cn_ConfigPath n; CalicoKubeConfigName];
   "NODENAME=" +:+ cn_Hostname n;
   "CALICO_K8S_NODE_REF=" +:+ cn_Hostname n;
   "IP=" +:+ cn_NodeIP n;
   "USE_POD_CIDR=" +:+ FormatBool (autoConfigureIpam (cn_IpamType n))].

(** calico-node.exe with arguments and environment. *)
Definition calico_node (args env : list string) : process :=
  {| pr_Program := "calico-node.exe"; pr_Args := args; pr_Env := env |}.

Definition startCalico (environ : list string) (c : CalicoConfig) : process :=
  calico_node ["-startup"] (generateGeneralCalicoEnvs c ++
   ["CALICO_NODENAME_FILE=" +:+ ca_NodeNameFile c;
    "CALICO_NETWORKING_BACKEND=" +:+ cn_OverlayEncap (ca_Common c);
    "CALICO_DATASTORE_TYPE=" +:+ ca_DatastoreType c;
    "IP_AUTODETECTION_METHOD=" +:+ ca_IPAutoDetectionMethod c;
    "VXLAN_VNI=" +:+ cn_VxlanVNI (ca_Common c)] ++
   filter (λ e, HasPrefix "CALICO_" e = true) environ).

Definition runFelix (environ : list string) (c : CalicoConfig) : process :=
  calico_node ["-felix"] (generateGeneralCalicoEnvs c ++
   ["FELIX_FELIXHOSTNAME=" +:+ cn_Hostname (ca_Common c);
    "FELIX_VXLANVNI=" +:+ cn_VxlanVNI (ca_Common c);
    "FELIX_DATASTORETYPE=" +:+ ca_DatastoreType c] ++
   filter (λ e, HasPrefix "FELIX_" e = true) environ).

(** Confd is run for BGP only, in the directory of its configuration. *)
Definition runConfd (PATH : string) (c : CalicoConfig) : option process :=
  if decide (cn_OverlayEncap (ca_Common c) ≠ "windows-bgp") then None
  else Some (calico_node ["-confd"; "-confd-confdir=" +:+ win_Join [cn_CNIBinDir (ca_Common c); "confd"]]
               (generateGeneralCalicoEnvs c ++ ["PATH=" +:+ PATH])).

(** *** Networks *)

Definition lastRebootPath (c : CalicoConfig) : string :=
  win_path (win_Join [cn_ConfigPath (ca_Common c); "lastBootTime.txt"]).

Definition getStoredLastBootTime (c : CalicoConfig) : io string :=
  r ← attempt (os_ReadFile (lastRebootPath c));
  match r with
  | Ok t => mret t
  | Err e => if os_IsNotExist e then mret "" else io_fail e
  end.

Definition setStoredLastBootTime (c : CalicoConfig) (lastBootTime : string) : io unit :=
  os_WriteFile (lastRebootPath c) lastBootTime 420.

(** [Format(time.UnixDate)] of package [time], on the nanoseconds since 1970 and
    the offset and name of the local zone at a second: the date by the civil
    calendar, the day of the month padded with a space. *)
Definition second_of (t : Z) : Z := (t / 1000000000)%Z.

Definition civil (day : Z) : Z * Z * Z :=
  (let z := day + 719468 in
   let era := z / 146097 in
   let doe := z mod 146097 in
   let yoe := (doe - doe / 1460 + doe / 36524 - doe / 146096) / 365 in
   let doy := doe - (365 * yoe + yoe / 4 - yoe / 100) in
   let mp := (5 * doy + 2) / 153 in
   let m := if decide (mp < 10) then mp + 3 else mp - 9 in
   (yoe + era * 400 + (if decide (m ≤ 2) then 1 else 0), m, doy - (153 * mp + 2) / 5 + 1))%Z.

Definition weekdays : list string := ["Sun"; "Mon"; "Tue"; "Wed"; "Thu"; "Fri"; "Sat"].
Definition months : list string :=
  ["Jan"; "Feb"; "Mar"; "Apr"; "May"; "Jun"; "Jul"; "Aug"; "Sep"; "Oct"; "Nov"; "Dec"].

Definition pad (filler : string) (width : nat) (n : Z) : string :=
  let s := pretty n in
  String.concat "" (repeat filler (width - String.length s)) +:+ s.

Definition UnixDate (zone : Z → Z * string) (t : Z) : string :=
  let '(offset, name) := zone (second_of t) in
  let local := (second_of t + offset)%Z in
  let day := (local / 86400)%Z in
  let s := (local mod 86400)%Z in
  let '(y, m, d) := civil day in
  Join " " [nth (Z.to_nat ((day + 4) mod 7)) weekdays ""; nth (Z.to_nat (m - 1)) months ""; pad " " 2 d;
            Join ":" [pad "0" 2 (s / 3600)%Z; pad "0" 2 (s / 60 mod 60)%Z; pad "0" 2 (s mod 60)%Z];
            name; pad "0" 4 y].

(** [now] and [tickCountSinceBoot] are two clocks, read one after the other: the
    wall clock and the time the machine has been up, in nanoseconds. *)
Definition isNodeRebooted (c : CalicoConfig) (zone : Z → Z * string) (now tickCountSinceBoot : Z) : io bool :=
  let bootTime := (now - tickCountSinceBoot)%Z in
  let lastReboot := UnixDate zone bootTime in
  prevLastReboot ← getStoredLastBootTime c;
  if decide (lastReboot = prevLastReboot) then mret false
  else setStoredLastBootTime c lastReboot;; mret true.

Section calico_start.
Context `{HnsApi}.

(** The four polls of a start. *)
Inductive wait := WaitInterfaces | WaitNetwork | WaitNode | WaitVIP.

(** What happens around the plugin while it starts: the interfaces, changes of
    HNS by others, how often each poll looks, the environment, the routes,
    whether the node is registered and how a process ends in a given poll. *)
Record StartWorld := {
  (** the local zone, the wall clock and the time since the boot *)
  sw_zone : Z → Z * string;
  sw_now : Z;
  sw_sinceBoot : Z;
  sw_VXLAN_ADAPTER : string;
  sw_PATH : string;
  sw_environ : list string;
  sw_interfaces : nat → result (list iface);
  sw_env : nat → hns → hns;
  sw_polls : wait → nat;
  sw_Router : result unit;
  sw_Route : GoNet.ip → result GoNet.ip;
  sw_RouteWithSrc : GoNet.ip → option GoNet.ip → result unit;
  sw_node : nat → result unit;
  sw_run : nat → process → result unit
}.

(** The adapter: the variable, the interface of the chart, that of the node's
    address (looked up after the wait for the interfaces), or none. *)
Definition network_adapter (sw : StartWorld) (n : CNICommonConfig) : result string :=
  if decide (sw_VXLAN_ADAPTER sw ≠ "") then Ok (sw_VXLAN_ADAPTER sw)
  else if decide (cn_Interface n ≠ "") then Ok (cn_Interface n)
  else if decide (cn_NodeIP n ≠ "") then findInterface (sw_interfaces sw (sw_polls sw WaitInterfaces)) (cn_NodeIP n)
  else Ok "".

Definition metadata_route (sw : StartWorld) (mgmt : string) : result unit :=
  setMetaDataServerRoute (sw_Router sw) (sw_Route sw) (sw_RouteWithSrc sw) mgmt.

Definition generateCalicoNetworks (sw : StartWorld) (c : CalicoConfig) : win unit :=
  nodeRebooted ← win_message "failed to check last node reboot time"
                   (files (isNodeRebooted c (sw_zone sw) (sw_now sw) (sw_sinceBoot sw)));
  (if (nodeRebooted : bool) then
     win_message "failed to delete all networks before bootstrapping calico"
       (network (deleteAllNetworks (sw_interfaces sw) (sw_polls sw WaitInterfaces)))
   else mret ());;
  networkAdapter ← win_of (network_adapter sw (ca_Common c));
  mgmt ← network (createHnsNetwork (sw_env sw) (sw_polls sw WaitNetwork) (cn_OverlayEncap (ca_Common c)) networkAdapter);
  if decide (ca_Platform c = "ec2" ∨ ca_Platform c = "gce") then win_of (metadata_route sw mgmt)
  else mret ().

(** The wait for the node, and the start-up routine, tried again together. *)
Fixpoint await_calico (sw : StartWorld) (c : CalicoConfig) (polls k : nat) : result unit :=
  match polls with
  | 0 => Err (ErrMsg "context deadline exceeded")
  | S polls' =>
      match (sw_node sw k;; sw_run sw k (startCalico (sw_environ sw) c)) with
      | Ok _ => Ok ()
      | Err _ => await_calico sw c polls' (S k)
      end
  end.

(** [reserveCalicoVIP]; [env k] is what happens to HNS before lookup [k]. *)
Fixpoint reserveCalicoVIP (env : nat → hns → hns) (polls k : nat) (c : CalicoConfig) (h : hns)
    : result CalicoConfig * hns :=
  match polls with
  | 0 => (Err (ErrMsg "context deadline exceeded"), h)
  | S polls' =>
      let h := env k h in
      match GetHNSEndpointByName "Calico_ep" h with
      | Ok address => (Ok (set_common (set_VIPAddress address) c), h)
      | Err _ => reserveCalicoVIP env polls' (S k) c h
      end
  end.

Definition Calico_Start (sw : StartWorld) (c : CalicoConfig) : win CalicoConfig :=
  generateCalicoNetworks sw c;;
  win_of (await_calico sw c (sw_polls sw WaitNode) 0);;
  spawn (runFelix (sw_environ sw) c);;
  from_option spawn (mret ()) (runConfd (sw_PATH sw) c);;
  network (λ h, (Ok (), DeletePolicyLists h));;
  network (reserveCalicoVIP (sw_env sw) (sw_polls sw WaitVIP) (sw_polls sw WaitNetwork) c).
End calico_start.

(** ** Flannel *)

Definition flannelConfigName := "07-flannel.conflist".
Definition flannelKubeConfigName := "flannel.kubeconfig".
Definition flanneldConfigName := "flanneld-net-conf.json".
Definition hostlocalContainerID := "kube-proxy".
Definition hostlocalInterfaceName := "source-vip".
Definition hostLocalDataDir := "/var/lib/cni/networks".

Definition Flannel_createKubeConfig (tokens : Tokens) (configPath : string) : io KubeConfig :=
  create_kubeconfig tokens "kube-system" "flannel" "" configPath.

Definition Flannel_initializeConfig (tokens : Tokens) (node : WinNode)
    (dataDir : string) : io CNICommonConfig :=
  let configPath := win_Join ["c:\"; dataDir; "agent"] in
  k ← Flannel_createKubeConfig tokens configPath;
  mret {| cn_Name := "flannel"; cn_OverlayNetName := "flannel.4096"; cn_OverlayEncap := "vxlan";
          cn_Hostname := nd_NodeName node; cn_ConfigPath := configPath;
          cn_CNIConfDir := nd_CNIConfDir node; cn_CNIBinDir := nd_CNIBinDir node;
          cn_ClusterCIDR := nd_ClusterCIDR node; cn_ServiceCIDR := nd_ServiceCIDR node;
          cn_NodeIP := nd_NodeIP node; cn_VxlanVNI := "4096"; cn_VxlanPort := "4789";
          cn_Interface := nd_NodeIP node; cn_IpamType := ""; cn_CNIVersion := "1.0.0";
          cn_VIPAddress := ""; cn_KubeConfig := k |}.

Definition Flannel_writeConfigFiles (c : CNICommonConfig) : io unit :=
  renderFlannelConfig (win_Join [cn_ConfigPath c; flannelKubeConfigName]) (flannelKubeConfigTemplate c);;
  renderFlannelConfig (win_Join [cn_ConfigPath c; flanneldConfigName]) (flanneldConfigTemplate c);;
  renderFlannelConfig (win_Join [cn_CNIConfDir c; flannelConfigName]) (flannelCniConflistTemplate c).

Definition Flannel_Setup (tokens : Tokens) (node : WinNode) (dataDir : string)
    : io CNICommonConfig :=
  c ← Flannel_initializeConfig tokens node dataDir;
  Flannel_writeConfigFiles c;;
  mret c.

Definition startFlannel (PATH : string) (c : CNICommonConfig) : process := {|
  pr_Program := "flanneld.exe";
  pr_Env := ["NODE_NAME=" +:+ cn_Hostname c; "PATH=" +:+ PATH];
  pr_Args :=
   ["--kubeconfig-file=" +:+ win_Join [cn_ConfigPath c; flannelKubeConfigName]; "--ip-masq";
    "--kube-subnet-mgr"; "--iptables-forward-rules=false"; "--iface=" +:+ cn_Interface c;
    "--net-config-path=" +:+ win_Join [cn_ConfigPath c; flanneldConfigName]] |}.

(** [strings.TrimSpace(strings.Split(address, "/")[0])] *)
Definition address_part (address : string) : string := TrimSpace (first_part "/"%char address).

(** The request for host-local.exe. *)
Definition host_local_config (name subnet : string) : string := Join newline [
  "{";
  quoted "		`cniVersion`: `1.0.0`,";
  text_line "		`name`: `" name;
  quoted "		`ipam`: {";
  quoted "			`type`: `host-local`,";
  quoted "			`ranges`: [[{`subnet`:`" +:+ subnet +:+ quoted "`}]],";
  quoted "			`dataDir`: `" +:+ hostLocalDataDir +:+ quoted "`";
  "		}";
  "	}"].

Definition host_local_env (environ : list string) (c : CNICommonConfig) : list string :=
  environ ++ ["CNI_COMMAND=ADD"; "CNI_CONTAINERID=" +:+ hostlocalContainerID; "CNI_NETNS=kube-proxy";
              "CNI_IFNAME=" +:+ hostlocalInterfaceName; "CNI_PATH=" +:+ cn_CNIBinDir c].

Section flannel_start.
Context `{HnsApi}.

(** The wait for the network and its management address. *)
Fixpoint await_flannel (env : nat → hns → hns) (name : string) (polls k : nat) (h : hns)
    : result HNSNetwork * hns :=
  match polls with
  | 0 => (Err (ErrMsg "context deadline exceeded"), h)
  | S polls' =>
      let h := env k h in
      match GetHNSNetworkByName name h with
      | Ok n => if decide (hn_ManagementIP n = "") then await_flannel env name polls' (S k) h else (Ok n, h)
      | Err _ => await_flannel env name polls' (S k) h
      end
  end.

(** The answer of host-local.exe: its addresses with their gateways. *)
Record SourceVipResponse := { sv_CniVersion : string; sv_IPs : list (string * string) }.

(** What host-local knows and does: the addresses it has reserved under the
    plugin's name, and its answer, parsed. *)
Record HostLocal := {
  hl_reserved : string → result (list string);
  hl_run : string → list string → result SourceVipResponse
}.

Definition reserveFlannelVIP (hl : HostLocal) (environ : list string) (env : nat → hns → hns) (polls : nat)
    (c : CNICommonConfig) : win CNICommonConfig :=
  n ← network (await_flannel env (cn_OverlayNetName c) polls 0);
  ips ← win_message "failed to create host-local store" (win_of (hl_reserved hl (cn_OverlayNetName c)));
  match ips with
  | ip :: _ => mret (set_VIPAddress (address_part ip) c)
  | [] =>
      match hn_Subnets n with
      | [] => win_fail (ErrPanic "index out of range")
      | subnet :: _ =>
          answer ← win_of (hl_run hl (host_local_config (cn_OverlayNetName c) (AddressPrefix subnet))
                                   (host_local_env environ c));
          match sv_IPs answer with
          | (a, _) :: _ => mret (set_VIPAddress (address_part a) c)
          | [] => win_fail (ErrMsg "no source vip reserved")
          end
      end
  end.

(** The wait for the node of both plugins. *)
Fixpoint await_node (node : nat → result unit) (polls k : nat) : result unit :=
  match polls with
  | 0 => Err (ErrMsg "context deadline exceeded")
  | S polls' => match node k with Ok _ => Ok () | Err _ => await_node node polls' (S k) end
  end.

Definition Flannel_Start (hl : HostLocal) (PATH : string) (environ : list string) (env : nat → hns → hns)
    (node : nat → result unit) (polls : nat) (c : CNICommonConfig) : win CNICommonConfig :=
  win_of (await_node node polls 0);;
  spawn (startFlannel PATH c);;
  reserveFlannelVIP hl environ env polls c.
End flannel_start.

(** ** Templates: theorems *)

(** A reader of a JSON string up to its closing quote: what is escaped is the
    character after a backslash, here a backslash or a quote. *)
Fixpoint json_string (s : string) : option (string * string) :=
  match s with
  | "" => None
  | String c s' =>
      if decide (c = "034"%char) then Some ("", s')
      else if decide (c = backslash) then
        match s' with
        | String d s'' =>
            if decide (d = backslash ∨ d = "034"%char)
            then prod_map (String d) id <$> json_string s'' else None
        | "" => None
        end
      else prod_map (String c) id <$> json_string s'
  end.

(** C34: A Windows path survives the trip through a template: what [replace] writes
    between quotes is read back by a JSON reader as the path, for every path
    without a quote (which no path has), whatever follows the closing quote. *)
Theorem replace_roundtrip p rest :
  has_char "034" p = false → json_string (replaceSlashWin p +:+ dquote +:+ rest) = Some (p, rest).
Proof.
  intros Hp. induction p as [|c p IH]; [done|]. cbn [has_char] in Hp.
  destruct (decide (c = "034"%char)) as [->|Hc]; [done|].
  assert (has_char "034" p = false) as Hp' by (apply orb_false_iff in Hp; apply Hp).
  unfold replaceSlashWin in *. cbn [ReplaceAll]. destruct (decide (c = backslash)) as [->|Hb].
  - change ("\\" +:+ ReplaceAll p backslash "\\") with (String backslash (String backslash (ReplaceAll p backslash "\\"))).
    rewrite !app_cons. cbn [json_string]. rewrite (decide_False (P := backslash = "034"%char)) by done.
    rewrite decide_True by done. rewrite decide_True by (by left). by rewrite (IH Hp').
  - rewrite app_cons. cbn [json_string]. rewrite !decide_False by done. by rewrite (IH Hp').
Qed.

(** ** Networks across restarts *)

Lemma getStored_no_faults c s :
  ∃ s', getStoredLastBootTime c no_faults s =
    (match nodes s !! Clean (lastRebootPath c) with
     | Some (NFile t _) => Ok t
     | Some _ => Err (ErrIO "not a regular file")
     | None => Ok ""
     end, s') ∧ nodes s' = nodes s.
Proof.
  destruct (os_ReadFile_run (lastRebootPath c) s) as (s' & E & N). exists s'. split; [|done].
  unfold getStoredLastBootTime, attempt, mbind, io_bind. rewrite E.
  by destruct (nodes s !! Clean (lastRebootPath c)) as [[]|].
Qed.

(** Whatever fails, a check that succeeds leaves the time it was given. *)
Lemma UnixDate_nonempty zone t : UnixDate zone t ≠ "".
Proof.
  unfold UnixDate. destruct (zone _) as [offset name]. destruct (civil _) as [[y m] d].
  generalize (nth (Z.to_nat (((second_of t + offset) / 86400 + 4) mod 7)) weekdays "") as w.
  intros w Hw. by destruct w.
Qed.

Lemma isNodeRebooted_stores c zone now since flt s b s' :
  isNodeRebooted c zone now since flt s = (Ok b, s') →
  file_content (nodes s') (lastRebootPath c) = Some (UnixDate zone (now - since)).
Proof.
  unfold isNodeRebooted. generalize (UnixDate_nonempty zone (now - since)).
  generalize (UnixDate zone (now - since)) as t. intros t Ht (prev & s1 & Hget & Hrest)%io_bind_Ok.
  destruct (decide (t = prev)) as [<-|Hne].
  - injection Hrest as _ <-. unfold getStoredLastBootTime in Hget.
    apply io_bind_Ok in Hget as (r & s2 & Hr & Hcase). unfold attempt in Hr.
    destruct (os_ReadFile (lastRebootPath c) flt s) as [[t'|e] s3] eqn:E; injection Hr as <- <-; cbn in Hcase.
    + injection Hcase as <- <-. by apply os_ReadFile_Ok in E as [E ->].
    + destruct (os_IsNotExist e); [|done]. by injection Hcase as <- _.
  - apply io_bind_Ok in Hrest as ([] & s2 & Hw & [= _ <-]).
    destruct (os_WriteFile_triple (lastRebootPath c) t 420 (nodes s1) (λ _, True) ltac:(done) flt s1 eq_refl)
      as [[Hok _] _]. unfold setStoredLastBootTime in Hw. rewrite Hw in Hok.
    destruct (Hok eq_refl) as [q Hq]. cbn in Hq. unfold file_content. by rewrite Hq.
Qed.

Lemma isNodeRebooted_same c zone now since s :
  file_content (nodes s) (lastRebootPath c) = Some (UnixDate zone (now - since)) →
  ∃ s', isNodeRebooted c zone now since no_faults s = (Ok false, s') ∧ nodes s' = nodes s.
Proof.
  unfold file_content. intros Hf. destruct (getStored_no_faults c s) as (s' & E & N).
  destruct (nodes s !! Clean (lastRebootPath c)) as [nd|]; [|done].
  destruct nd; try done. injection Hf as ->. exists s'. split; [|done]. unfold isNodeRebooted, mbind, io_bind. rewrite E. by rewrite decide_True.
Qed.

Section restart.
Context `{HnsApi}.

Lemma win_bind_Ok {A B} (m : win A) (f : A → win B) flt h b h' :
  (m ≫= f) flt h = (Ok b, h') ↔ ∃ a h1, m flt h = (Ok a, h1) ∧ f a flt h1 = (Ok b, h').
Proof.
  unfold mbind, win_bind. destruct (m flt h) as [[a|e] h1]; split; [naive_solver..|done|].
  by intros (? & ? & ? & ?).
Qed.

Lemma win_message_Ok {A} msg (m : win A) flt h a h' :
  win_message msg m flt h = (Ok a, h') ↔ m flt h = (Ok a, h').
Proof. unfold win_message. destruct (m flt h) as [[]]; simpl; split; intros; by simplify_eq. Qed.

Lemma files_fs {A} (m : io A) flt h r h' :
  files m flt h = (r, h') → m flt (h_fs h) = (r, h_fs h') ∧ h_hns h' = h_hns h.
Proof. unfold files. destruct (m flt (h_fs h)). by intros [= <- <-]. Qed.

Lemma network_fs {A} (f : hns → result A * hns) flt h : h_fs (network f flt h).2 = h_fs h.
Proof. unfold network. by destruct (f (h_hns h)). Qed.

(** After [generateCalicoNetworks] the boot time is on disk. *)
Lemma generate_stores sw c flt h h' :
  generateCalicoNetworks sw c flt h = (Ok (), h') →
  file_content (nodes (h_fs h')) (lastRebootPath c) = Some (UnixDate (sw_zone sw) (sw_now sw - sw_sinceBoot sw)).
Proof.
  intros (b & h1 & Hb & ([] & h2 & Hdel & (adapter & h3 & Had & (mgmt & h4 & Hnet & Hroute)%win_bind_Ok)
    %win_bind_Ok)%win_bind_Ok)%win_bind_Ok.
  apply win_message_Ok, files_fs in Hb as [Hb _]. apply isNodeRebooted_stores in Hb.
  assert (h_fs h2 = h_fs h1) as E2.
  { destruct b; [|by injection Hdel as <-]. apply win_message_Ok in Hdel.
    pose proof (network_fs (deleteAllNetworks (sw_interfaces sw) (sw_polls sw WaitInterfaces)) flt h1) as E.
    by rewrite Hdel in E. }
  assert (h_fs h3 = h_fs h2) as E3 by (unfold win_of in Had; by injection Had as _ <-).
  assert (h_fs h4 = h_fs h3) as E4.
  { pose proof (network_fs (createHnsNetwork (sw_env sw) (sw_polls sw WaitNetwork)
      (cn_OverlayEncap (ca_Common c)) adapter) flt h3) as E. by rewrite Hnet in E. }
  assert (h_fs h' = h_fs h4) as E5.
  { destruct (decide _); [unfold win_of in Hroute|]; by injection Hroute as ? <- || injection Hroute as <-. }
  by rewrite E5, E4, E3, E2.
Qed.

(** C19: A restart does not delete networks as long as the two clocks agree on the
    second of the boot.  Let a start of Calico have generated its networks,
    whatever failed on the way, and let a later start compute the same second for
    the boot (the wall clock minus the time since the boot) in the same zone.  If
    then no system call fails, the file with the boot time was left alone, the
    Calico network and the node's adapter are found, and, on the platforms that
    need it, the metadata route can be set, the later start succeeds and leaves
    the host network service as it is.  When the second differs the networks are
    deleted ([boot_second_differs]). *)
Theorem networks_survive_restart sw sw2 c flt h h' h2 n adapter :
  generateCalicoNetworks sw c flt h = (Ok (), h') →
  sw_zone sw2 = sw_zone sw →
  second_of (sw_now sw2 - sw_sinceBoot sw2) = second_of (sw_now sw - sw_sinceBoot sw) →
  nodes (h_fs h2) !! Clean (lastRebootPath c) = nodes (h_fs h') !! Clean (lastRebootPath c) →
  GetHNSNetworkByName CalicoHnsNetworkName (h_hns h2) = Ok n →
  network_adapter sw2 (ca_Common c) = Ok adapter →
  (ca_Platform c = "ec2" ∨ ca_Platform c = "gce" → metadata_route sw2 (hn_ManagementIP n) = Ok ()) →
  ∃ h3, generateCalicoNetworks sw2 c no_faults h2 = (Ok (), h3) ∧ h_hns h3 = h_hns h2 ∧
        nodes (h_fs h3) = nodes (h_fs h2).
Proof.
  intros Hgen Hzone Hsec Hsame Hn Had Hroute. apply generate_stores in Hgen.
  destruct (isNodeRebooted_same c (sw_zone sw2) (sw_now sw2) (sw_sinceBoot sw2) (h_fs h2)) as (s' & E & N).
  { unfold file_content in *. rewrite Hsame, Hgen. unfold UnixDate. by rewrite Hzone, Hsec. }
  exists (Host s' (h_hns h2) (h_processes h2)). split; [|done].
  unfold generateCalicoNetworks, mbind, win_bind, win_message, files, network, win_of. rewrite E.
  cbn [h_fs h_hns]. rewrite Had. unfold createHnsNetwork. cbn [h_fs h_hns mret win_ret]. rewrite Hn.
  destruct (decide _) as [Hp|Hp]; [by rewrite (Hroute Hp)|done].
Qed.

(** [Calico_Start] ends well only with the address of the endpoint that
    calico-node made, and changes nothing else in the configuration. *)
Lemma reserveCalicoVIP_Ok env polls k c h c' h' :
  reserveCalicoVIP env polls k c h = (Ok c', h') →
  ∃ address, GetHNSEndpointByName "Calico_ep" h' = Ok address ∧ c' = set_common (set_VIPAddress address) c.
Proof.
  revert k h. induction polls as [|polls IH]; intros k h; cbn [reserveCalicoVIP]; [done|].
  destruct (GetHNSEndpointByName "Calico_ep" (env k h)) as [a|e] eqn:E; [|apply IH].
  intros [= <- <-]. by exists a.
Qed.

Lemma Calico_Start_VIP sw c flt h c' h' :
  Calico_Start sw c flt h = (Ok c', h') →
  ∃ address, GetHNSEndpointByName "Calico_ep" (h_hns h') = Ok address ∧
             c' = set_common (set_VIPAddress address) c.
Proof.
  intros ([] & h1 & _ & ([] & h2 & _ & ([] & h3 & _ & ([] & h4 & _ & ([] & h5 & _ & Hvip)
    %win_bind_Ok)%win_bind_Ok)%win_bind_Ok)%win_bind_Ok)%win_bind_Ok.
  unfold network in Hvip. destruct (reserveCalicoVIP _ _ _ _ _) as [r n] eqn:E.
  injection Hvip as -> <-. by apply reserveCalicoVIP_Ok in E.
Qed.

(** Programs that start no process. *)
Definition quiet {A} (m : win A) : Prop := ∀ flt h, h_processes (m flt h).2 = h_processes h.

Lemma quiet_bind {A B} (m : win A) (f : A → win B) : quiet m → (∀ a, quiet (f a)) → quiet (m ≫= f).
Proof.
  intros Hm Hf flt h. unfold mbind, win_bind. specialize (Hm flt h).
  destruct (m flt h) as [[a|e] h1]; cbn in *; [by rewrite Hf|done].
Qed.
Lemma quiet_of {A} (r : result A) : quiet (win_of r).
Proof. done. Qed.
Lemma quiet_ret {A} (a : A) : quiet (mret a).
Proof. done. Qed.
Lemma quiet_files {A} (m : io A) : quiet (files m).
Proof. intros flt h. unfold files. by destruct (m flt (h_fs h)). Qed.
Lemma quiet_network {A} (f : hns → result A * hns) : quiet (network f).
Proof. intros flt h. unfold network. by destruct (f (h_hns h)). Qed.
Lemma quiet_message {A} msg (m : win A) : quiet m → quiet (win_message msg m).
Proof. intros Hm flt h. unfold win_message. specialize (Hm flt h). by destruct (m flt h) as [[]]. Qed.
Create HintDb quiet.
#[local] Hint Resolve quiet_bind quiet_of quiet_ret quiet_files quiet_network quiet_message : quiet.

Lemma generate_quiet sw c : quiet (generateCalicoNetworks sw c).
Proof.
  unfold generateCalicoNetworks.
  repeat first [apply quiet_bind; [solve [eauto with quiet]|intros ?] | case_match | eauto with quiet].
Qed.

Lemma await_calico_Ok sw c polls k :
  await_calico sw c polls k = Ok () →
  ∃ j, k ≤ j < k + polls ∧ sw_node sw j = Ok () ∧ sw_run sw j (startCalico (sw_environ sw) c) = Ok ().
Proof.
  revert k. induction polls as [|polls IH]; intros k; cbn [await_calico]; [done|].
  destruct (sw_node sw k) as [[]|] eqn:Hn; [destruct (sw_run sw k _) as [[]|] eqn:Hr|]; cbn; rewrite ?Hr.
  - intros _. exists k. split; [lia|done].
  - intros (j & Hj & ?)%IH. exists j. split; [lia|done].
  - intros (j & Hj & ?)%IH. exists j. split; [lia|done].
Qed.

(** Felix, and with BGP confd, run only once the networks are there, the node is
    registered and the start-up routine of Calico has succeeded; a start that
    fails before that starts nothing. *)
Lemma Calico_Start_processes sw c flt h r h' :
  Calico_Start sw c flt h = (r, h') →
  h_processes h' = h_processes h ∨
  h_processes h' = h_processes h ++ [runFelix (sw_environ sw) c] ++ option_list (runConfd (sw_PATH sw) c) ∧
  is_Ok (generateCalicoNetworks sw c flt h).1 = true ∧
  ∃ j, j < sw_polls sw WaitNode ∧ sw_node sw j = Ok () ∧ sw_run sw j (startCalico (sw_environ sw) c) = Ok ().
Proof.
  unfold Calico_Start. intros E. pose proof (generate_quiet sw c flt h) as Hg.
  unfold mbind, win_bind in E. destruct (generateCalicoNetworks sw c flt h) as [[[]|e] h1] eqn:E1; cbn in Hg.
  2:{ left. by injection E as _ <-. }
  unfold win_of in E. destruct (await_calico sw c (sw_polls sw WaitNode) 0) as [[]|e] eqn:Ea.
  2:{ left. by injection E as _ <-. }
  right. apply await_calico_Ok in Ea as (j & Hj & Hrun). split; [|split; [done|exists j; split; [lia|done]]].
  unfold spawn, network in E.
  destruct (runConfd (sw_PATH sw) c); cbn in E; destruct (reserveCalicoVIP _ _ _ _ _) as [r' n];
    injection E as _ <-; cbn; rewrite Hg; by rewrite <-?(assoc_L (++)).
Qed.

(** [Flannel_Start] ends well only with an address that host-local has reserved. *)
Lemma Flannel_Start_VIP hl PATH environ env node polls c flt h c' h' :
  Flannel_Start hl PATH environ env node polls c flt h = (Ok c', h') →
  ∃ a, c' = set_VIPAddress (address_part a) c ∧
    ((∃ rest, hl_reserved hl (cn_OverlayNetName c) = Ok (a :: rest)) ∨
     hl_reserved hl (cn_OverlayNetName c) = Ok [] ∧
     ∃ subnet answer gateway rest,
       hl_run hl (host_local_config (cn_OverlayNetName c) (AddressPrefix subnet)) (host_local_env environ c)
       = Ok answer ∧ sv_IPs answer = (a, gateway) :: rest).
Proof.
  intros ([] & h0 & _ & ([] & h1 & _ & (n & h2 & _ & (ips & h3 & Hips & Hrest)
    %win_bind_Ok)%win_bind_Ok)%win_bind_Ok)%win_bind_Ok.
  apply win_message_Ok in Hips. unfold win_of in Hips. injection Hips as Hips <-.
  destruct ips as [|ip ips]; [|injection Hrest as <- _; exists ip; eauto].
  destruct (hn_Subnets n) as [|sn sns]; [done|].
  apply win_bind_Ok in Hrest as (answer & h4 & Hrun & Hend).
  unfold win_of in Hrun. injection Hrun as Hrun _.
  destruct (sv_IPs answer) as [|[a gateway] rest] eqn:Hips'; [done|]. injection Hend as <- _.
  exists a. split; [done|]. right. split; [done|]. by exists sn, answer, gateway, rest.
Qed.
End restart.

(** ** A node *)

Module SimpleWin.
(** Values without overrides. *)
#[export] Instance yaml : CalicoYaml := {| parse_overrides _ := Ok (None, None) |}.

Definition world : CalicoWorld := {|
  cw_token := {| tk_Program := "rke2"; tk_NewForConfig := Ok (); tk_CreateToken _ _ _ := mret "token" |};
  cw_network _ := false;
  cw_get _ _ := inr (NetError true "i/o timeout"); cw_factory := Ok (); cw_values := mret None;
  cw_interfaces _ := Ok (plain_iface <$> two_ifaces); cw_compile _ := None;
  cw_dial _ := Ok None |}.

Definition node : WinNode := {|
  nd_NodeName := "win1"; nd_CNIConfDir := "c:\var\lib\rancher\rke2\agent\etc\cni";
  nd_CNIBinDir := "c:\var\lib\rancher\rke2\bin"; nd_ClusterCIDR := "10.42.0.0/16";
  nd_ServiceCIDR := "10.43.0.0/16"; nd_NodeIP := "10.0.0.10"; nd_ClusterDNS := "10.43.0.10";
  nd_ClusterDomain := "example.org" |}.

Definition disk : tree := {["/c:" := NDir]}.
Definition empty_host : fs := MkFS disk 0 [].

Definition config : result CalicoConfig * fs :=
  Calico_Setup world node "/var/lib/rancher/rke2" no_faults empty_host.

Definition conf_file : string := "/c:/var/lib/rancher/rke2/agent/etc/cni/10-calico.conf".

(** The disk is full when the plugin's configuration is written. *)
Definition disk_full : faults := λ n, if decide (n = 5) then Some (ErrIO "no space left on device", Some 20) else None.
End SimpleWin.

#[local] Existing Instance SimpleHns.api.
#[local] Existing Instance SimpleHns.laws.
#[local] Existing Instance SimpleWin.yaml.

(** The DNS search domain of the configuration is fixed, whatever the domain of
    the cluster: the field [DNSSearch] is computed and never used. *)
Example search_domain_fixed :
  ca_DNSSearch <$> SimpleWin.config.1 = Ok "svc.example.org" ∧
  (λ t, Contains t "svc.example.org") <$> file_content (nodes SimpleWin.config.2) SimpleWin.conf_file = Some false ∧
  (λ t, Contains t "svc.cluster.local") <$> file_content (nodes SimpleWin.config.2) SimpleWin.conf_file = Some true.
Proof. vm_compute. split_and!; reflexivity. Qed.

(** Setup reports success although the configuration was cut short, since the
    error of [Execute] is dropped. *)
Example Setup_cut_short :
  let '(r, s) := Calico_Setup SimpleWin.world SimpleWin.node "/var/lib/rancher/rke2" SimpleWin.disk_full
                   SimpleWin.empty_host in
  is_Ok r = true ∧
  option_map Len (file_content (nodes s) SimpleWin.conf_file) = Some 20.
Proof. vm_compute. split; reflexivity. Qed.

Lemma replace_roundtrip_witness :
  json_string (replaceSlashWin "c:\var\lib\calico_node_name" +:+ dquote +:+ ",") = Some ("c:\var\lib\calico_node_name", ",").
Proof. apply (replace_roundtrip "c:\var\lib\calico_node_name" ","). vm_compute. reflexivity. Defined.

Definition sample_calico : CalicoConfig :=
  match SimpleWin.config.1 with Ok c => c | Err _ =>
    update_calico "" empty_config {| ca_Common := empty_config; ca_KubeNetwork := ""; ca_DNSServers := "";
      ca_DNSSearch := ""; ca_DatastoreType := ""; ca_NodeNameFile := ""; ca_Platform := "";
      ca_IPAutoDetectionMethod := ""; ca_ETCDEndpoints := ""; ca_ETCDKeyFile := ""; ca_ETCDCertFile := "";
      ca_ETCDCaCertFile := "" |} end.

Definition sample_start : StartWorld := {|
  sw_zone _ := (0%Z, "UTC"); sw_now := 1704096300000000000; sw_sinceBoot := 300000000000; sw_VXLAN_ADAPTER := ""; sw_PATH := "c:\windows";
  sw_environ := ["FELIX_LOGSEVERITYSCREEN=info"];
  sw_interfaces _ := Ok (plain_iface <$> two_ifaces); sw_env _ h := h; sw_polls _ := 3;
  sw_Router := Ok (); sw_Route ip := Ok ip; sw_RouteWithSrc _ _ := Ok (); sw_node _ := Ok ();
  sw_run _ _ := Ok () |}.

(** HNS before the first start: the network of Docker and a stale one. *)
Definition stale_hns : hns :=
  [{| hn_Type := "NAT"; hn_Name := "nat"; hn_Adapter := ""; hn_Subnets := []; hn_ManagementIP := "" |};
   {| hn_Type := "Overlay"; hn_Name := "External"; hn_Adapter := "old"; hn_Subnets := [];
      hn_ManagementIP := "10.0.0.10" |}].

(** A minute later, with [drift] nanoseconds between the two clocks. *)
Definition restarted (drift : Z) : StartWorld := {|
  sw_zone _ := (0%Z, "UTC"); sw_now := 1704096360000000000 + drift; sw_sinceBoot := 360000000000; sw_VXLAN_ADAPTER := "";
  sw_PATH := "c:\windows"; sw_environ := ["FELIX_LOGSEVERITYSCREEN=info"];
  sw_interfaces _ := Ok (plain_iface <$> two_ifaces); sw_env _ h := h; sw_polls _ := 3;
  sw_Router := Ok (); sw_Route ip := Ok ip; sw_RouteWithSrc _ _ := Ok (); sw_node _ := Ok ();
  sw_run _ _ := Ok () |}.

Example sample_boot_time :
  UnixDate (sw_zone sample_start) (sw_now sample_start - sw_sinceBoot sample_start) = "Mon Jan  1 08:00:00 UTC 2024" ∧
  UnixDate (λ _, (7200%Z, "EET")) 951782399999999999 = "Tue Feb 29 01:59:59 EET 2000".
Proof. vm_compute. split; reflexivity. Qed.

(** The network of somebody else. *)
Definition foreign : HNSNetwork :=
  {| hn_Type := "Overlay"; hn_Name := "mine"; hn_Adapter := "Ethernet 2"; hn_Subnets := [];
     hn_ManagementIP := "10.0.0.10" |}.

(** A restart of the service on the same boot keeps the networks when the clocks
    have not drifted; when the wall clock has been set back by a nanosecond, which
    puts the boot into another second, it deletes them. *)
Example boot_second_differs :
  let h := (generateCalicoNetworks sample_start sample_calico no_faults (Host SimpleWin.config.2 stale_hns [])).2 in
  let h2 := Host (h_fs h) (foreign :: h_hns h) [] in
  "mine" ∈ hn_Name <$> h_hns (generateCalicoNetworks (restarted 0) sample_calico no_faults h2).2 ∧
  "mine" ∉ hn_Name <$> h_hns (generateCalicoNetworks (restarted (-1)) sample_calico no_faults h2).2.
Proof. split; apply (bool_decide_unpack _); vm_compute; reflexivity. Qed.

Lemma networks_survive_restart_witness :
  ∃ h' h3, generateCalicoNetworks sample_start sample_calico no_faults (Host SimpleWin.config.2 stale_hns []) = (Ok (), h') ∧
    hn_Adapter <$> h_hns h' = ["Ethernet"; ""] ∧
    generateCalicoNetworks (restarted 999999999) sample_calico no_faults h' = (Ok (), h3) ∧ h_hns h3 = h_hns h'.
Proof.
  assert (is_Ok (generateCalicoNetworks sample_start sample_calico no_faults
    (Host SimpleWin.config.2 stale_hns [])).1 = true) as Hok by (vm_compute; reflexivity).
  assert (hn_Adapter <$> h_hns (generateCalicoNetworks sample_start sample_calico no_faults
    (Host SimpleWin.config.2 stale_hns [])).2 = ["Ethernet"; ""]) as Had by (vm_compute; reflexivity).
  assert (is_Ok (GetHNSNetworkByName CalicoHnsNetworkName (h_hns (generateCalicoNetworks sample_start
    sample_calico no_faults (Host SimpleWin.config.2 stale_hns [])).2)) = true) as Hget by (vm_compute; reflexivity).
  destruct (generateCalicoNetworks sample_start sample_calico no_faults (Host SimpleWin.config.2 stale_hns []))
    as [[[]|e] h'] eqn:E; [|discriminate Hok].
  cbn [snd] in Had, Hget.
  destruct (GetHNSNetworkByName CalicoHnsNetworkName (h_hns h')) as [n|e] eqn:Hn; [|discriminate Hget].
  assert (ca_Platform sample_calico = "bare-metal") as Hplat by (vm_compute; reflexivity).
  destruct (networks_survive_restart sample_start (restarted 999999999) sample_calico no_faults _ h' h' n "Ethernet"
    E eq_refl ltac:(vm_compute; reflexivity) eq_refl Hn ltac:(vm_compute; reflexivity) ltac:(rewrite Hplat; intros [Hp|Hp]; discriminate Hp)) as (h3 & E3 & Hh & _).
  exists h', h3. split; [reflexivity|]. split; [exact Had|]. split; [exact E3|exact Hh].
Defined.
