(* ===== verification/PEBinary.v ===== *)
(** * PEBinary: the executor of Windows nodes (pkg/executor/pebinary/pebinary.go)

    The components run as processes.  [Bootstrap] picks the CNI plugin from the
    charts of the cluster; [Containerd] and its like wait for the staged data,
    [CNI] starts the plugin, and kube-proxy waits for it.  Each handler is the
    command it keeps running; the processes are arguments.  The executor's
    theorems are proved against the interface [CNIPlugin], whose laws the three
    plugins of [WinCni] discharge. *)

From S2P Require Import Prelude GoStrings GoPath GoFS GoTree GoWin WinNet WinCni Images StaticPod Cleanup.
From S2P Require Import FlagOpts Bootstrap Charts Shell Startup.

Definition CalicoChart := "rke2-calico".
Definition FlannelChart := "rke2-flannel".
Definition CNINone := "none".
Definition CNICalico := "calico".
Definition CNICilium := "cilium".
Definition CNICanal := "canal".
Definition CNIFlannel := "flannel".

(** ** The interface of the plugins *)

(** [CNIPlugin]; [P] is what the receiver points to. *)
Class CNIPlugin `{HnsApi} (P : Type) := {
  Setup : WinNode → string → P → io P;
  Start : P → win P;
  GetConfig : P → CNICommonConfig
}.

(** What the executor relies on: starting a plugin sets the address reserved for
    kube-proxy and nothing else of its configuration. *)
Class CNIPluginLaws `{HnsApi} (P : Type) `{!CNIPlugin P} := {
  start_config p flt h p' h' : Start p flt h = (Ok p', h') →
    ∃ vip, GetConfig p' = set_VIPAddress vip (GetConfig p)
}.

(** The three plugins. *)
Section plugins.
Context `{HnsApi, CalicoYaml}.

Definition Calico (w : CalicoWorld) (sw : StartWorld) : CNIPlugin CalicoConfig := {|
  Setup node dataDir _ := Calico_Setup w node dataDir;
  Start := Calico_Start sw;
  GetConfig := ca_Common
|}.

Definition Flannel (tokens : Tokens) (hl : HostLocal) (PATH : string) (environ : list string)
    (env : nat → hns → hns) (node : nat → result unit) (polls : nat) : CNIPlugin CNICommonConfig := {|
  Setup node dataDir _ := Flannel_Setup tokens node dataDir;
  Start := Flannel_Start hl PATH environ env node polls;
  GetConfig c := c
|}.

(** The stub for clusters without a packaged CNI. *)
Definition NonePlugin : CNIPlugin unit := {|
  Setup _ _ _ := mret ();
  Start _ := mret ();
  GetConfig _ := empty_config
|}.

Lemma Calico_laws w sw : @CNIPluginLaws _ CalicoConfig (Calico w sw).
Proof.
  split. intros c flt h c' h' (a & _ & ->)%Calico_Start_VIP. by exists a.
Qed.

Lemma Flannel_laws tokens hl PATH environ env node polls :
  @CNIPluginLaws _ CNICommonConfig (Flannel tokens hl PATH environ env node polls).
Proof. split. intros c flt h c' h' (a & -> & _)%Flannel_Start_VIP. by eexists. Qed.

Lemma NonePlugin_laws : @CNIPluginLaws _ unit NonePlugin.
Proof. split. intros [] flt h [] h' _. by exists "". Qed.
End plugins.

(** A value of the interface type. *)
Record any_plugin `{HnsApi} := AnyPlugin {
  ap_type : Type; ap_methods : CNIPlugin ap_type; ap_state : ap_type
}.

Definition any_Setup `{HnsApi} (node : WinNode) (dataDir : string) (a : any_plugin) : io any_plugin :=
  p ← @Setup _ (ap_type a) (ap_methods a) node dataDir (ap_state a);
  mret (@AnyPlugin _ (ap_type a) (ap_methods a) p).

Definition any_Start `{HnsApi} (a : any_plugin) : win any_plugin :=
  p ← @Start _ (ap_type a) (ap_methods a) (ap_state a);
  mret (@AnyPlugin _ (ap_type a) (ap_methods a) p).

Definition any_GetConfig `{HnsApi} (a : any_plugin) : CNICommonConfig :=
  @GetConfig _ (ap_type a) (ap_methods a) (ap_state a).

(** ** Arguments *)

(** [getArgs]; [order] is how the map is iterated. *)
Definition getArgs (order : gmap string string → list (string * string))
    (argsMap : gmap string string) : list string :=
  sort_Strings ((λ kv, "--" +:+ kv.1 +:+ "=" +:+ kv.2) <$> order argsMap).

Definition addFeatureGate (current new : string) : string :=
  if decide (current = "") then new else current +:+ "," +:+ new.

Definition getContainerdArgs (config : string) : list string := ["containerd"; "-c"; config].

(** The charts of the cluster, in the order the API lists them. *)
Definition cni_of_chart (name : string) : option string :=
  if decide (name = CalicoChart) then Some CNICalico
  else if decide (name = FlannelChart) then Some CNIFlannel
  else if decide (name = "rke2-cilium") then Some CNICilium
  else if decide (name = "rke2-canal") then Some CNICanal
  else None.

Fixpoint first_cni (items : list HelmChart) : string :=
  match items with
  | [] => CNINone
  | h :: hs => match cni_of_chart (hc_Name h) with Some c => c | None => first_cni hs end
  end.

Definition getCNIPluginName `{HelmApi} (ctx_err : option error) (kubeConfig : string) : io string :=
  hl ← ListHelmCharts ctx_err kubeConfig; mret (first_cni hl).

(** The three new plugins. *)
Record PluginSet `{HnsApi} := {
  new_Calico : any_plugin; new_Flannel : any_plugin; new_None : any_plugin
}.

Definition cni_plugin `{HnsApi} (ps : PluginSet) (CNIName : string) : result any_plugin :=
  if decide (CNIName = "" ∨ CNIName = CNICalico) then Ok (new_Calico ps)
  else if decide (CNIName = CNIFlannel) then Ok (new_Flannel ps)
  else if decide (CNIName = CNINone) then Ok (new_None ps)
  else Err (ErrMsg ("unsupported CNI " +:+ CNIName)).

Section executor.
Context `{ImageLib, HelmApi, HnsApi} (defaults : Defaults).
Context (order : gmap string string → list (string * string)).

(** The fields of [PEBinaryConfig] used here; the resolver, the registry and the
    kind of node are those of [Startup.Executor]. *)
Record PEBinaryConfig := {
  pe_Executor : Startup.Executor;
  pe_DataDir : string;
  pe_KubeConfigKubeProxy : string;
  pe_CNIName : string;
  pe_CNIPlugin : option any_plugin
}.

(** What [setWindowsAgentSpecificSettings] stores: the CNI's binaries and
    configuration. *)
Definition setWindowsAgentSpecificSettings (dataDir : string) : string * string :=
  (win_Join ["c:\"; dataDir; "bin"], win_Join ["c:\"; dataDir; "agent"; "etc"; "cni"]).

Record WinAgentState := {
  wa_AgentState : AgentState;
  wa_CNIBinDir : string;
  wa_CNIConfDir : string
}.

(** [Bootstrap]; [node_of] is the agent's configuration once the two directories
    are set in it.  The goroutine that stages the data is the step of
    [Startup.start_step]. *)
Definition Bootstrap (ps : PluginSet) (node_of : string * string → WinNode) (p : PEBinaryConfig)
    (dataDir registry path : string) (ctx_err : option error) (kubeConfigProxy
    kubeConfigController : string) : io (PEBinaryConfig * WinAgentState) :=
  '(s, registry) ← lift_result (set_default_registry defaults (pe_Executor p) registry);
  pauseImage ← lift_result (GetReference defaults (ex_Resolver s) Pause []);
  let '(cniBinDir, cniConfDir) := setWindowsAgentSpecificSettings (pe_DataDir p) in
  binDir ← lift_result (BinDir defaults (ex_Resolver s) dataDir);
  CNIName ← getCNIPluginName ctx_err kubeConfigController;
  pl ← lift_result (cni_plugin ps CNIName);
  BuildConfigFromFlags kubeConfigController;;
  pl ← any_Setup (node_of (cniBinDir, cniConfDir)) (pe_DataDir p) pl;
  mret ({| pe_Executor := s; pe_DataDir := pe_DataDir p; pe_KubeConfigKubeProxy := kubeConfigProxy;
           pe_CNIName := CNIName; pe_CNIPlugin := Some pl |},
        {| wa_AgentState := {| ag_SystemDefaultRegistry := registry; ag_PauseImage := Ref_Name pauseImage;
                               ag_PATH := binDir +:+ ";" +:+ path |};
           wa_CNIBinDir := cniBinDir; wa_CNIConfDir := cniConfDir |}).

(** ** Kubelet *)

Definition kubelet_flags (p : PEBinaryConfig) : gmap string string :=
  let base : gmap string string :=
    {["file-check-frequency" := "5s"; "sync-frequency" := "30s"; "cgroups-per-qos" := "false";
      "enforce-node-allocatable" := ""; "resolv-conf" := ""; "hairpin-mode" := "promiscuous-bridge"]} in
  match ex_CloudProvider (pe_Executor p) with
  | Some cp => <["cloud-provider" := cp_Name cp]> base
  | None => base
  end.

Definition is_eviction (arg : string) : bool :=
  Contains arg "eviction-hard" || Contains arg "eviction-minimum-reclaim".

Definition lockFile (p : PEBinaryConfig) : string := win_Join [pe_DataDir p; "bin"; "rke2-uninstall.lock"].

(** The lock of the uninstall script is removed; that it cannot be is logged. *)
Definition remove_lock (p : PEBinaryConfig) : io unit :=
  r ← attempt (os_Stat (win_path (lockFile p)));
  match r with
  | Ok _ => attempt (os_Remove (win_path (lockFile p)));; mret ()
  | Err _ => mret ()
  end.

Section logging.
Context (packageFlags : gmap string LogFlag) (defaultValues : gmap string string).
Context (normalize : string → string) (parse_uint64 : string → option Z).

Definition kubelet_command (p : PEBinaryConfig) (vs : gmap string string) (args : list string)
    : string * list string * writer :=
  let '(args, logOut, _) :=
    ExtractFromArgs packageFlags defaultValues normalize parse_uint64 vs
      (getArgs order (kubelet_flags p) ++ args) in
  (ex_KubeletPath (pe_Executor p), filter (λ arg, is_eviction arg = false) args, logOut).

(** The loop that keeps the kubelet running: [runs] is how many runs the context
    leaves time for, and [run] one of them (its error is only logged).  It ends
    with the context or when the lock file is there after a run. *)
Fixpoint kubelet_loop (p : PEBinaryConfig) (run : io unit) (runs : nat) : io unit :=
  match runs with
  | 0 => mret ()
  | S runs' =>
      attempt run;;
      r ← attempt (os_Stat (win_path (lockFile p)));
      match r with Ok _ => mret () | Err _ => kubelet_loop p run runs' end
  end.

Definition Kubelet (p : PEBinaryConfig) (run : string * list string * writer → io unit) (runs : nat)
    (vs : gmap string string) (args : list string) : io unit :=
  remove_lock p;;
  kubelet_loop p (run (kubelet_command p vs args)) runs.
End logging.

(** ** KubeProxy *)

Definition set_nonempty (k v : string) (m : gmap string string) : gmap string string :=
  if decide (v ≠ "") then <[k := v]> m else m.

Definition proxy_flags (config : CNICommonConfig) (DSRSupported : bool) : gmap string string :=
  let extraArgs := set_nonempty "source-vip" (cn_VIPAddress config)
    (set_nonempty "bind-address" (cn_NodeIP config)
      (set_nonempty "network-name" (cn_OverlayNetName config) ∅)) in
  if DSRSupported then
    <["enable-dsr" := "true"]>
      (<["feature-gates" := addFeatureGate (default "" (extraArgs !! "feature-gates")) "WinDSR=true"]> extraArgs)
  else extraArgs.

(** The program, its arguments and its log; before [Bootstrap] there is no
    plugin to ask. *)
Definition KubeProxy (p : PEBinaryConfig) (DSRSupported : bool) (args : list string)
    : result (string * list string * writer) :=
  match pe_CNIPlugin p with
  | None => Err (ErrPanic "invalid memory address or nil pointer dereference")
  | Some pl =>
      Ok (win_Join ["c:\"; pe_DataDir p; "bin"; "kube-proxy.exe"],
          getArgs order (proxy_flags (any_GetConfig pl) DSRSupported) ++ args,
          GetLogger (win_Join [pe_DataDir p; "agent"; "logs"; "kube-proxy.log"]) 50)
  end.

(** ** containerd *)

(** Where the output goes: the log file, the standard streams, or both. *)
Inductive output := ToStd | ToFile (file : string) | ToBoth (file : string).

Definition containerd_output (log : string) (debug : bool) : output :=
  if decide (log = "") then ToStd else if debug then ToBoth log else ToFile log.

(** The loop over the environment; [pair[1]] of an entry without "=" panics. *)
Definition environ_step (e : string) (acc : list string * list string * list string)
    : option (list string * list string * list string) :=
  let '(args, env, cenv) := acc in
  let pair := SplitN2 equals e in
  let key := hd "" pair in
  if decide (key = "NOTIFY_SOCKET") then Some (args, env, cenv)
  else if decide (key = "CONTAINERD_LOG_LEVEL") then
    v ← pair !! 1; Some (args ++ ["--log-level"; v], env, cenv)
  else if HasPrefix "CONTAINERD_" key then
    Some (args, env, cenv ++ [Join "=" (TrimPrefix "CONTAINERD_" key :: tl pair)])
  else Some (args, env ++ [Join "=" pair], cenv).

Fixpoint environ_loop (environ : list string) (acc : list string * list string * list string)
    : option (list string * list string * list string) :=
  match environ with
  | [] => Some acc
  | e :: es => acc ← environ_step e acc; environ_loop es acc
  end.

(** The command the goroutine of [containerd] keeps running. *)
Definition containerd_command (config : string) (environ : list string) : option command :=
  r ← environ_loop environ (getContainerdArgs config, [], []);
  let '(args, env, cenv) := r in
  Some {| cmd_Args := args; cmd_Env := env ++ cenv |}.

(** [containerd], once the command runs. *)
Definition containerd (WaitForService : string → io unit) (PreloadImages : io unit) (address : string)
    : io unit :=
  WaitForService address;; PreloadImages.

(** [CNI] *)
Definition CNI (p : PEBinaryConfig) : win PEBinaryConfig :=
  match pe_CNIPlugin p with
  | None => win_fail (ErrPanic "invalid memory address or nil pointer dereference")
  | Some pl =>
      pl ← any_Start pl;
      mret {| pe_Executor := pe_Executor p; pe_DataDir := pe_DataDir p;
              pe_KubeConfigKubeProxy := pe_KubeConfigKubeProxy p; pe_CNIName := pe_CNIName p;
              pe_CNIPlugin := Some pl |}
  end.

(** Staging the data, the wait for a given runtime and the ready channels are
    written as on Linux; the steps of [Startup] interleave them. *)
Definition stageData (registry_wait : result unit) (p : PEBinaryConfig) (cfg : StageConfig) : io unit :=
  Startup.stageData defaults registry_wait (pe_Executor p) cfg.
Definition CRI (WaitForService : string → io unit) (endpoint : string) : io unit :=
  Startup.CRI WaitForService endpoint.
Definition ready_chan {C : Type} (ch : option C) : result C := Startup.ready_chan ch.
Definition IsSelfHosted : bool := false.

(** What is not supported. *)
Definition unsupported {A} (component : string) : result A :=
  Err (ErrPanic (component +:+ " is unsupported on windows")).
Definition APIServer : result unit := unsupported "kube-api-server".
Definition Scheduler : result unit := unsupported "kube-scheduler".
Definition ControllerManager : result unit := unsupported "kube-controller-manager".
Definition CurrentETCDOptions : result unit := Err (ErrPanic "etcd options are unsupported on windows").
Definition CloudControllerManager : result unit :=
  Err (ErrPanic "cloud-controller-manager is unsupported on windows.").
Definition ETCD : result unit := unsupported "etcd".
Definition ETCDReadyChan : result unit := unsupported "etcd".
End executor.

(** ** kube-proxy after the CNI *)

Section proxy.
Context `{ImageLib, HelmApi, HnsApi}.
Context (order : gmap string string → list (string * string)).

(** The executor, its host, whether cniReady is closed, and the kube-proxies
    started: DSR support, the arguments given and those of the process. *)
Record pe_state := PE {
  s_config : PEBinaryConfig;
  s_host : host;
  s_cniReady : bool;
  s_proxies : list (bool * list string * list string)
}.

(** [CNI] is called once; [KubeProxy] goes on once cniReady is closed. *)
Inductive pe_step : pe_state → pe_state → Prop :=
  | cni_started flt x p h :
      s_cniReady x = false → CNI (s_config x) flt (s_host x) = (Ok p, h) →
      pe_step x (PE p h true (s_proxies x))
  | cni_failed flt x e h :
      s_cniReady x = false → CNI (s_config x) flt (s_host x) = (Err e, h) →
      pe_step x (PE (s_config x) h false (s_proxies x))
  | proxy_started dsr args x path cmd_args log :
      s_cniReady x = true → KubeProxy order (s_config x) dsr args = Ok (path, cmd_args, log) →
      pe_step x (PE (s_config x) (s_host x) true ((dsr, args, cmd_args) :: s_proxies x)).

Context (a0 : any_plugin) (Hlaws : @CNIPluginLaws _ (ap_type a0) (ap_methods a0)).

Abbreviation at_state st := (@AnyPlugin _ (ap_type a0) (ap_methods a0) st).

(** The arguments of a kube-proxy started with configuration [c]. *)
Definition proxied (c : CNICommonConfig) (e : bool * list string * list string) : Prop :=
  e.2 = getArgs order (proxy_flags c e.1.1) ++ e.1.2.

(** On the way from [x0] to [x] the plugin was started with success, from [x1] to
    [x2], before any kube-proxy was, and its configuration was kept. *)
Definition cni_before (x0 x1 x2 x : pe_state) : Prop :=
  rtc pe_step x0 x1 ∧ s_proxies x1 = [] ∧
  (∃ flt, CNI (s_config x1) flt (s_host x1) = (Ok (s_config x2), s_host x2)) ∧ s_proxies x2 = [] ∧
  rtc pe_step x2 x ∧ s_config x = s_config x2.

(** The plugin is as it was set up, and no kube-proxy runs; or it has started, and
    every kube-proxy was given its configuration. *)
Definition pe_inv (x0 x : pe_state) : Prop :=
  ∃ st, pe_CNIPlugin (s_config x) = Some (at_state st) ∧
    if s_cniReady x
    then (∃ vip, any_GetConfig (at_state st) = set_VIPAddress vip (any_GetConfig a0)) ∧
         Forall (proxied (any_GetConfig (at_state st))) (s_proxies x) ∧
         ∃ x1 x2, cni_before x0 x1 x2 x
    else st = ap_state a0 ∧ s_proxies x = [].

Lemma pe_step_inv x0 x x' : rtc pe_step x0 x → pe_step x x' → pe_inv x0 x → pe_inv x0 x'.
Proof.
  intros Hreach Hstep (st & Hpl & Hst).
  destruct Hstep as [flt x p h Hr Hc|flt x e h Hr Hc|dsr args x path c log Hr Hk]; rewrite Hr in Hst.
  - destruct Hst as [-> Hnil]. pose proof Hc as Hcni. unfold CNI in Hc. rewrite Hpl in Hc.
    apply win_bind_Ok in Hc as (a & h1 & (st & h2 & Hs & [= <- <-])%win_bind_Ok & [= <- <-]).
    exists st. split; [done|]. cbn. rewrite Hnil.
    split_and!; [by apply start_config in Hs|constructor|]. eexists x, (PE _ _ true []).
    split_and!; [exact Hreach|exact Hnil|by exists flt|done|apply rtc_refl|done].
  - by exists st.
  - destruct Hst as (Hvip & Hall & x1 & x2 & ? & ? & ? & ? & Hx2 & ?). exists st. split; [done|]. cbn.
    split_and!; [done| |exists x1, x2; split_and!; [done..| |done]].
    + unfold KubeProxy in Hk. rewrite Hpl in Hk. injection Hk as _ <- _. by constructor.
    + eapply rtc_r; [exact Hx2|by econstructor].
Qed.

Lemma pe_steps_inv x0 x : rtc pe_step x0 x → pe_inv x0 x0 → pe_inv x0 x.
Proof.
  intros Hs Hi. revert x Hs.
  apply (rtc_ind_r (λ x, pe_inv x0 x) x0); [done|eauto using pe_step_inv].
Qed.
End proxy.

(** Iteration orders: every entry once. *)
Definition fair_order (order : gmap string string → list (string * string)) : Prop :=
  ∀ m, order m ≡ₚ map_to_list m.

Lemma elem_of_getArgs order m k v :
  fair_order order → m !! k = Some v → "--" +:+ k +:+ "=" +:+ v ∈ getArgs order m.
Proof.
  intros Ho Hm. apply elem_of_sort_Strings, list_elem_of_fmap. exists (k, v). split; [done|].
  rewrite (Ho m). by apply elem_of_map_to_list.
Qed.

Lemma proxy_flags_lookup c dsr :
  (cn_OverlayNetName c ≠ "" → proxy_flags c dsr !! "network-name" = Some (cn_OverlayNetName c)) ∧
  (cn_NodeIP c ≠ "" → proxy_flags c dsr !! "bind-address" = Some (cn_NodeIP c)) ∧
  (cn_VIPAddress c ≠ "" → proxy_flags c dsr !! "source-vip" = Some (cn_VIPAddress c)).
Proof.
  unfold proxy_flags, set_nonempty.
  split_and!; intros Hv; rewrite (decide_True _ _ Hv);
    destruct dsr; rewrite ?(lookup_insert_ne _ "enable-dsr"), ?(lookup_insert_ne _ "feature-gates") by done;
    repeat case_decide; simplify_map_eq; done.
Qed.

Section proxy_theorems.
Context `{ImageLib, HelmApi, HnsApi}.

(** C17: kube-proxy runs with what the CNI has set up, for every plugin whose
    [Start] changes nothing but the reserved address in its configuration: in
    every order of starts and failures of the CNI and of kube-proxy, if a
    kube-proxy runs then [Start] of the plugin has returned without an error
    before ([x1] to [x2], with no kube-proxy until then), and that kube-proxy
    got as flags the plugin's overlay network, the node's address and the address
    reserved by that start, then the arguments it was given. *)
Theorem kube_proxy_after_cni order a0 p0 h0 x dsr args cmd_args :
  @CNIPluginLaws _ (ap_type a0) (ap_methods a0) → fair_order order → pe_CNIPlugin p0 = Some a0 →
  rtc (pe_step order) (PE p0 h0 false []) x → (dsr, args, cmd_args) ∈ s_proxies x →
  ∃ flt x1 x2 vip flags,
    rtc (pe_step order) (PE p0 h0 false []) x1 ∧ s_proxies x1 = [] ∧
    CNI (s_config x1) flt (s_host x1) = (Ok (s_config x2), s_host x2) ∧ s_proxies x2 = [] ∧
    rtc (pe_step order) x2 x ∧ s_config x = s_config x2 ∧ cmd_args = flags ++ args ∧
    (cn_OverlayNetName (any_GetConfig a0) ≠ "" →
       "--network-name=" +:+ cn_OverlayNetName (any_GetConfig a0) ∈ flags) ∧
    (cn_NodeIP (any_GetConfig a0) ≠ "" → "--bind-address=" +:+ cn_NodeIP (any_GetConfig a0) ∈ flags) ∧
    (vip ≠ "" → "--source-vip=" +:+ vip ∈ flags) ∧
    option_map (cn_VIPAddress ∘ any_GetConfig) (pe_CNIPlugin (s_config x2)) = Some vip.
Proof.
  intros Hlaws Ho Hp Hsteps Hin.
  assert (pe_inv order a0 (PE p0 h0 false []) x) as (st & Hpl & Hst).
  { eapply pe_steps_inv; [exact Hlaws|exact Hsteps|].
    exists (ap_state a0). cbn. rewrite Hp. split; [by destruct a0|done]. }
  destruct (s_cniReady x); [|destruct Hst as [_ Hnil]; rewrite Hnil in Hin; by apply elem_of_nil in Hin].
  destruct Hst as ([vip Hvip] & Hall & x1 & x2 & Hx1 & Hn1 & [flt Hcni] & Hn2 & Hx2 & Hsame).
  rewrite Forall_forall in Hall.
  specialize (Hall _ Hin). unfold proxied in Hall. cbn in Hall. rewrite Hvip in Hall.
  destruct (proxy_flags_lookup (set_VIPAddress vip (any_GetConfig a0)) dsr) as (H1' & H2' & H3').
  exists flt, x1, x2, vip. eexists. do 6 (split; [done|]). split; [exact Hall|].
  rewrite <-Hsame, Hpl. cbn. rewrite Hvip. split_and!; [| | |done]; intros Hne.
  - by apply (elem_of_getArgs order _ "network-name" _ Ho), H1'.
  - by apply (elem_of_getArgs order _ "bind-address" _ Ho), H2'.
  - by apply (elem_of_getArgs order _ "source-vip" _ Ho), H3'.
Qed.
End proxy_theorems.

(** ** The other arguments *)

(** The arguments do not depend on how the map is iterated. *)
Lemma getArgs_fair order1 order2 m : fair_order order1 → fair_order order2 → getArgs order1 m = getArgs order2 m.
Proof. intros E1 E2. apply sort_Strings_proper, fmap_Permutation. etrans; [apply E1|symmetry; apply E2]. Qed.

(** The kubelet is started with its defaults before the arguments it was given,
    without log flags and without anything about eviction thresholds. *)
Theorem kubelet_command_args `{ImageLib, HelmApi, HnsApi} order packageFlags defaultValues normalize parse_uint64
    p vs args :
  (kubelet_command order packageFlags defaultValues normalize parse_uint64 p vs args).1.2 =
  filter (λ a, is_eviction a = false ∧ is_log_flag packageFlags normalize a = false)
    (getArgs order (kubelet_flags p) ++ args).
Proof.
  unfold kubelet_command, ExtractFromArgs.
  pose proof (extract_loop_args packageFlags normalize (getArgs order (kubelet_flags p) ++ args)
    (reset packageFlags defaultValues normalize vs)) as E.
  destruct (extract_loop packageFlags normalize _ _) as [l vs']. cbn in *. rewrite E.
  by rewrite list_filter_filter.
Qed.

(** Once the uninstall script has left its lock, the kubelet is not run again: a
    loop allowed any number of runs makes only the one. *)
Lemma kubelet_stops `{ImageLib, HelmApi, HnsApi} p (run : io unit) runs s :
  is_Ok (stat_at (nodes (run no_faults s).2) (win_path (lockFile p))) = true →
  kubelet_loop p run (S runs) no_faults s = kubelet_loop p run 1 no_faults s.
Proof.
  intros Hrun. cbn [kubelet_loop]. unfold mbind, io_bind, attempt.
  destruct (run no_faults s) as [r s1]. cbn [snd] in Hrun.
  destruct (os_Stat_run (win_path (lockFile p)) s1) as (s2 & -> & _).
  by destruct (stat_at _ _).
Qed.

(** The environment of containerd is made as on Linux, but for PATH: the two loops
    agree on every environment without one. *)
Theorem environ_loop_linux dataDir environ acc :
  Forall (λ e, hd "" (SplitN2 equals e) ≠ "PATH") environ →
  environ_loop environ acc = Cleanup.environ_loop dataDir environ acc.
Proof.
  intros He. revert acc. induction He as [|e es Hne _ IH]; intros acc; [done|].
  cbn [environ_loop Cleanup.environ_loop].
  assert (environ_step e acc = Cleanup.environ_step dataDir e acc) as ->.
  { destruct acc as [[args env] cenv]. unfold environ_step, Cleanup.environ_step.
    repeat case_match; done. }
  destruct (Cleanup.environ_step dataDir e acc); cbn; [apply IH|done].
Qed.

(** ** A node with Calico *)

#[local] Existing Instance SimpleName.api.
#[local] Existing Instance SimpleImage.lib.
#[local] Existing Instance SimpleChart.api.
#[local] Existing Instance SimpleHns.api.
#[local] Existing Instance SimpleWin.yaml.

Definition sample_plugin : any_plugin :=
  @AnyPlugin _ CalicoConfig (Calico SimpleWin.world WinCni.sample_start) sample_calico.

Definition sample_pe : PEBinaryConfig := {|
  pe_Executor := Startup.sample_executor; pe_DataDir := "/var/lib/rancher/rke2";
  pe_KubeConfigKubeProxy := ""; pe_CNIName := CNICalico; pe_CNIPlugin := Some sample_plugin |}.

Definition sample_host : host := Host SimpleWin.config.2 stale_hns [].

Lemma map_to_list_fair : fair_order map_to_list.
Proof. by intros m. Qed.

Lemma kube_proxy_after_cni_witness :
  ∃ x flags, (true, ["--v=2"], flags ++ ["--v=2"]) ∈ s_proxies x ∧
    rtc (pe_step map_to_list) (PE sample_pe sample_host false []) x ∧
    "--network-name=Calico" ∈ flags ∧ "--bind-address=10.0.0.10" ∈ flags ∧ "--source-vip=192.168.255.2" ∈ flags.
Proof.
  assert (is_Ok (CNI sample_pe no_faults sample_host).1 = true) as Hok by (vm_compute; reflexivity).
  assert (match (CNI sample_pe no_faults sample_host).1 with
          | Ok p => option_map (cn_VIPAddress ∘ any_GetConfig) (pe_CNIPlugin p) = Some "192.168.255.2" ∧
                    is_Ok (KubeProxy map_to_list p true ["--v=2"]) = true
          | Err _ => False end) as Hp by (vm_compute; split; reflexivity).
  destruct (CNI sample_pe no_faults sample_host) as [[p|e] h] eqn:Ec; [|discriminate Hok].
  cbn [fst] in Hp. destruct Hp as [Hvip Hk].
  destruct (KubeProxy map_to_list p true ["--v=2"]) as [[[path cmd] log]|e] eqn:Ek; [|discriminate Hk].
  assert (rtc (pe_step map_to_list) (PE sample_pe sample_host false []) (PE p h true [(true, ["--v=2"], cmd)]))
    as Hsteps.
  { eapply rtc_l; [|apply rtc_once].
    - apply (cni_started map_to_list no_faults (PE sample_pe sample_host false []) p h eq_refl Ec).
    - apply (proxy_started map_to_list true ["--v=2"] (PE p h true []) path cmd log eq_refl Ek). }
  destruct (kube_proxy_after_cni map_to_list sample_plugin sample_pe sample_host
    (PE p h true [(true, ["--v=2"], cmd)]) true ["--v=2"] cmd (Calico_laws _ _) map_to_list_fair eq_refl Hsteps
    ltac:(left)) as (_ & _ & x2 & vip & flags & _ & _ & _ & _ & _ & Hsame & Hcmd & H1 & H2 & H3 & Hv).
  cbn [s_config] in Hsame. rewrite <-Hsame, Hvip in Hv. injection Hv as <-. subst cmd.
  exists (PE p h true [(true, ["--v=2"], flags ++ ["--v=2"])]), flags.
  split; [left|]. split; [exact Hsteps|].
  split; [apply H1; vm_compute; discriminate|].
  split; [apply H2; vm_compute; discriminate|apply H3; discriminate].
Defined.
