(* ===== verification/WinInit.v ===== *)
(** * WinInit: the start of a Windows node (rke2_windows.go, defaults_windows.go)

    [initExecutor] makes the executor of [PEBinary] from the command line, and the
    data directory gets restrictive permissions. *)

From S2P Require Import Prelude GoStrings GoPath GoFS GoTree GoWin WinNet WinCni Images StaticPod PodConfig.
From S2P Require Import InitExecutor Bootstrap Charts Startup PEBinary.

(** ** The data directory *)

(** The directory part of [filepath.Split]. *)
Definition win_parent (dataDir : string) : string :=
  let '(v, rest) := volume dataDir in v +:+ (split_last_slash (ToSlash rest)).1.

(** [acl_Mkdir] makes a directory that only the system and the administrators may
    open.  The error of [MkdirAll] is not passed on, and the message ends in the
    error of [Stat], which is that the directory does not exist. *)
Definition createDataDir (acl_Mkdir : string → io unit) (dataDir : string) : io unit :=
  let failed e := io_fail (ErrText ("failed to create data directory " +:+ dataDir) e) in
  r ← attempt (os_Stat (win_path dataDir));
  match r with
  | Ok _ => mret ()
  | Err err =>
      if errors_Is_ErrNotExist err then
        r ← attempt (os_MkdirAll (win_path (win_parent dataDir)));
        match r with
        | Err _ => io_fail (ErrText ("failed  to create data directory " +:+ dataDir) err)
        | Ok _ =>
            r ← attempt (acl_Mkdir (win_path dataDir));
            match r with Err e => failed e | Ok _ => mret () end
        end
      else failed err
  end.

Definition Set_defaults (acl_Mkdir : string → io unit) (dataDir : string) (k : K3sConfig) : io K3sConfig :=
  io_with_message ("failed to create directory " +:+ dataDir) (createDataDir acl_Mkdir dataDir);;
  let logsDir := win_Join [dataDir; "agent"; "logs"] in
  io_with_message ("failed to create directory " +:+ logsDir) (os_MkdirAll (win_path logsDir));;
  mret (set_defaults (win_Join [logsDir; "kubelet.log"]) k).

(** ** initExecutor *)

(** The fields of the executor that only Windows has. *)
Record WinExecutor `{NameApi, HnsApi} := {
  we_Config : PEBinaryConfig;
  we_ImagesDir : string;
  we_AuditPolicyFile : string;
  we_CISMode : bool;
  we_DisableETCD : bool
}.

(** [hostnameFQDN]: the buffer for the name is the pointer [domainName], which is
    nil; [GetComputerNameEx] says for a buffer and its length how long the name
    is.  The name is then read from that pointer. *)
Definition hostnameFQDN (GetComputerNameEx : option (list string) → Z → result Z) : result string :=
  let domainName : option (list string) := None in
  match GetComputerNameEx domainName 256%Z with
  | Err err => Err err
  | Ok _ =>
      match domainName with
      | None => Err (ErrPanic "invalid memory address or nil pointer dereference")
      | Some buffer => Ok (hd "" buffer)
      end
  end.

(** [initExecutor]; [hostname] is what the metadata service answers and [fqdn] the
    answer of [hostnameFQDN]. *)
Definition initExecutor `{NameApi, HnsApi} (defaults : Defaults) (acl_Mkdir : string → io unit)
    (hostname : string) (fqdn : result string) (cfg : NodeConfig) (isServer : bool) (clx : Flags)
    (k : K3sConfig) : io (WinExecutor * Flags * K3sConfig) :=
  let cfg := if decide (flag_IsSet clx "system-default-registry" = false ∧ flag_Bool clx "prime" = true)
             then set_registry (PrimeRegistry defaults) cfg
             else set_registry (flag_String clx "system-default-registry") cfg in
  resolver ← lift_result (NewResolver defaults (cli_Images (nc_Template cfg)));
  let dataDir := flag_String clx "data-dir" in
  k ← Set_defaults acl_Mkdir dataDir k;
  '(cpConfig, metadata) ← lift_result (cloud_provider cfg);
  clx ← lift_result (if (metadata : bool) then
                       if decide (hostname = "") then (n ← fqdn; Ok (flag_Set "node-name" n clx))
                       else Ok (flag_Set "node-name" hostname clx)
                     else Ok clx);
  mret ({| we_Config :=
             {| pe_Executor :=
                  {| Startup.ex_Resolver := resolver; Startup.ex_CloudProvider := cpConfig;
                     Startup.ex_ManifestsDir := win_Join [dataDir; "agent"; DefaultPodManifestPath];
                     Startup.ex_KubeletPath := if decide (nc_KubeletPath cfg = "") then "kubelet"
                                               else nc_KubeletPath cfg;
                     Startup.ex_IngressController := nc_IngressController cfg;
                     Startup.ex_IsServer := isServer; Startup.ex_Prime := flag_Bool clx "prime" |};
                pe_DataDir := dataDir; pe_KubeConfigKubeProxy := ""; pe_CNIName := ""; pe_CNIPlugin := None |};
           we_ImagesDir := win_Join [dataDir; "agent"; "images"];
           we_AuditPolicyFile := flag_String clx "audit-policy-file";
           we_CISMode := flag_isCISMode clx;
           we_DisableETCD := flag_Bool clx "disable-etcd" |}, clx, k).

(** ** Theorems *)

(** A directory that is there is left as it is. *)
Lemma createDataDir_existing acl_Mkdir dataDir n s :
  stat_at (nodes s) (win_path dataDir) = Ok n →
  ∃ s', createDataDir acl_Mkdir dataDir no_faults s = (Ok (), s') ∧ nodes s' = nodes s.
Proof.
  intros Hn. destruct (os_Stat_run (win_path dataDir) s) as (s' & E & N). exists s'. split; [|done].
  unfold createDataDir, attempt, mbind, io_bind. by rewrite E, Hn.
Qed.

(** No name of the computer is ever found: the call gets no buffer, and reading the
    name afterwards panics. *)
Lemma hostnameFQDN_fails GetComputerNameEx : is_Ok (hostnameFQDN GetComputerNameEx) = false.
Proof. unfold hostnameFQDN. by destruct (GetComputerNameEx None 256%Z). Qed.

(** A node that is to be named by the metadata service does not start when the
    service has no name for it. *)
Theorem initExecutor_needs_metadata `{NameApi, HnsApi} defaults acl_Mkdir GetComputerNameEx cfg isServer clx k flt s :
  nc_CloudProviderName cfg = "aws" ∨ nc_CloudProviderMetadataHostname cfg = true →
  is_Ok (initExecutor defaults acl_Mkdir "" (hostnameFQDN GetComputerNameEx) cfg isServer clx k flt s).1 = false.
Proof.
  intros Hcfg. unfold initExecutor.
  set (cfg1 := if decide _ then set_registry _ cfg else _).
  assert (cloud_provider cfg1 = cloud_provider cfg) as Hcp by (subst cfg1; by case_decide).
  apply not_true_iff_false. intros Hok.
  match type of Hok with is_Ok ?x.1 = true => destruct x as [[r|e] s'] eqn:E; [clear Hok|done] end.
  apply io_bind_Ok in E as (res & s1 & _ & E). apply io_bind_Ok in E as (k1 & s2 & _ & E).
  apply io_bind_Ok in E as ([cp md] & s3 & [Hmd _]%lift_result_Ok & E).
  apply io_bind_Ok in E as (clx1 & s4 & [Hn _]%lift_result_Ok & _).
  assert (md = true) as ->.
  { rewrite Hcp in Hmd. unfold cloud_provider in Hmd.
    destruct Hcfg as [Haws|Hm]; [rewrite Haws in Hmd|rewrite Hm in Hmd];
      repeat case_decide; naive_solver. }
  pose proof (hostnameFQDN_fails GetComputerNameEx) as Hf. rewrite decide_True in Hn by done.
  by destruct (hostnameFQDN GetComputerNameEx).
Qed.
