(* ===== verification/WinService.v ===== *)
(** * WinService: RKE2 as a Windows service (agent_service_windows.go, service_windows.go)

    The subcommand "service" adds the program to the service manager or takes it
    away; the process itself answers the manager's requests.  The manager is
    library code: a class, whose laws are what it documents. *)

From S2P Require Import Prelude GoStrings GoPath GoFS GoWin.

(** ** Answering the service manager *)

(** Control requests, with the current status where it is sent back. *)
Inductive request := ParamChange (current : string) | Interrogate (current : string) | StopRequest | ShutdownRequest | OtherRequest.
Inductive status := StartPending | Running | StopPending | Stopped | Current (s : string).

(** How [Execute] ends: it returns, the process exits, or it waits for requests. *)
Inductive outcome := Returned | Exited | Waiting.

(** The loop over the requests; [graceful] is what [RequestShutdown] answers. *)
Fixpoint execute_loop (graceful : bool) (requests : list request) : list status * outcome :=
  match requests with
  | [] => ([], Waiting)
  | c :: rest =>
      match c with
      | ParamChange s | Interrogate s =>
          let '(statuses, o) := execute_loop graceful rest in (Current s :: statuses, o)
      | StopRequest | ShutdownRequest =>
          if graceful then ([StopPending; StopPending; Stopped], Returned)
          else ([StopPending; Stopped], Exited)
      | OtherRequest => execute_loop graceful rest
      end
  end.

Definition Execute (graceful : bool) (requests : list request) : list status * outcome :=
  let '(statuses, o) := execute_loop graceful requests in (StartPending :: Running :: statuses, o).

(** What [StartService] changes in the process: the log hooks, whether stacks are
    dumped on request, and whether the goroutine that runs [Execute] is started. *)
Record service_process := { sp_Hooks : list string; sp_DumpStacks : bool; sp_Running : bool }.

(** [StartService]; [asked] is the answer of [IsWindowsService], and [etw] and [el] are
    the outcomes of making the two hooks. *)
Definition StartService (asked : bool * option error) (etw el : result unit) (p : service_process)
    : (bool * option error) * service_process :=
  let add_hook h p := {| sp_Hooks := sp_Hooks p ++ [h]; sp_DumpStacks := sp_DumpStacks p;
                         sp_Running := sp_Running p |} in
  if decide (asked.2 ≠ None ∨ asked.1 = false) then (asked, p) else
  match etw with
  | Err err => ((false, Some (ErrWithMessage "could not create ETW provider logrus hook" err)), p)
  | Ok _ =>
      let p := add_hook "etw" p in
      match el with
      | Err err => ((false, Some (ErrWithMessage "could not create eventlog logrus hook" err)), p)
      | Ok _ =>
          let p := add_hook "eventlog" p in
          ((true, None), {| sp_Hooks := sp_Hooks p; sp_DumpStacks := true; sp_Running := true |})
      end
  end.

(** ** The service manager *)

(** [mgr.Config], the fields that are set. *)
Record ServiceConfig := {
  ServiceType : Z; StartType : Z; ErrorControl : Z; DisplayName : string; Description : string
}.

(** SC_ACTION and SERVICE_FAILURE_ACTIONS; the pointers that are nil are left out. *)
Record scAction := { sc_Type : Z; sc_Delay : Z }.
Record serviceFailureActions := { fa_ResetPeriod : Z; fa_Actions : list scAction }.

Class ServiceManager := {
  manager : Type;
  service : Type;
  (** constants of the library *)
  SERVICE_WIN32_OWN_PROCESS : Z;
  StartAutomatic : Z;
  ErrorNormal : Z;
  mgr_Connect : manager → result unit * manager;
  mgr_Disconnect : manager → manager;
  (** name, program, configuration, arguments *)
  CreateService : string → string → ServiceConfig → list string → manager → result service * manager;
  OpenService : string → manager → result service * manager;
  service_Close : service → manager → manager;
  service_Delete : service → manager → result unit * manager;
  ChangeServiceConfig2 : service → Z → serviceFailureActions → manager → result unit * manager
}.

Definition scActionRestart : Z := 1.
Definition serviceConfigFailureActions : Z := 2.
Definition defaultServiceDescription :=
  "Rancher Kubernetes Engine v2 (agent) see docs https://github.com/rancher/rke2#readme".

(** [time.Second] and [time.Millisecond], in nanoseconds. *)
Definition Second : Z := 1000000000.
Definition Millisecond : Z := 1000000.
Definition uint32 (z : Z) : Z := (z mod 2 ^ 32)%Z.

(** Restart every thirty seconds after a failure. *)
Definition restart_actions : serviceFailureActions :=
  {| fa_ResetPeriod := uint32 30;
     fa_Actions := [{| sc_Type := scActionRestart; sc_Delay := uint32 (30 * Second `quot` Millisecond)%Z |}] |}.

Section subcommand.
Context `{ServiceManager}.
(** the name of the program, its arguments, and the search for it *)
Context (Program : string) (Args : list string) (LookPath Abs : string → result string).

Definition svc (A : Type) := manager → result A * manager.

#[export] Instance svc_ret : MRet svc := λ A a m, (Ok a, m).
#[export] Instance svc_bind : MBind svc := λ A B f x m,
  let '(r, m') := x m in match r with Ok a => f a m' | Err e => (Err e, m') end.

(** [defer]: [cleanup] runs however [body] ends. *)
Definition deferring {A} (cleanup : manager → manager) (body : svc A) : svc A := λ m,
  let '(r, m') := body m in (r, cleanup m').

Definition getServicePath : result string :=
  match Args with
  | [] => Err (ErrPanic "index out of range")
  | arg :: _ => p ← LookPath arg; Abs p
  end.

Definition own_config : ServiceConfig :=
  {| ServiceType := SERVICE_WIN32_OWN_PROCESS; StartType := StartAutomatic; ErrorControl := ErrorNormal;
     DisplayName := Program; Description := defaultServiceDescription |}.

Definition addWindowService (serviceName config : string) : svc unit :=
  p ← (λ m, (getServicePath, m));
  mgr_Connect;;
  deferring mgr_Disconnect (
    s ← CreateService serviceName p own_config ["agent"; "--config"; config];
    deferring (service_Close s) (ChangeServiceConfig2 s serviceConfigFailureActions restart_actions)).

Definition deleteWindowsService (serviceName : string) : svc unit :=
  mgr_Connect;;
  deferring mgr_Disconnect (
    s ← OpenService serviceName;
    deferring (service_Close s) (service_Delete s)).

(** [serviceAction]: exactly one of the two is asked for. *)
Definition serviceAction (add del : bool) (serviceName config : string) : svc unit :=
  if decide (add = del) then λ m, (Err (ErrMsg "service subcommand requires one of --add or --delete"), m)
  else if del then deleteWindowsService serviceName else addWindowService serviceName config.
End subcommand.

(** ** Theorems *)

(** Whatever is asked before, the first stop ends the service: its last status is
    [Stopped], what was asked before has been answered in order, and what is asked
    later is not looked at. *)
Theorem Execute_stops graceful before stop after :
  stop = StopRequest ∨ stop = ShutdownRequest → StopRequest ∉ before → ShutdownRequest ∉ before →
  ∃ pending, Execute graceful (before ++ stop :: after) =
    ([StartPending; Running] ++
     omap (λ r, match r with ParamChange s | Interrogate s => Some (Current s) | _ => None end) before ++
     pending ++ [Stopped], if graceful then Returned else Exited) ∧ Forall (eq StopPending) pending.
Proof.
  intros Hstop H1 H2. unfold Execute.
  exists (if graceful then [StopPending; StopPending] else [StopPending]).
  split; [|destruct graceful; by repeat constructor].
  assert (execute_loop graceful (before ++ stop :: after) =
    (omap (λ r, match r with ParamChange s | Interrogate s => Some (Current s) | _ => None end) before ++
     (if graceful then [StopPending; StopPending] else [StopPending]) ++ [Stopped],
     if graceful then Returned else Exited)) as ->; [|done].
  induction before as [|r before IH]; [by destruct Hstop as [-> | ->]; destruct graceful|].
  apply not_elem_of_cons in H1 as [Hr1 H1], H2 as [Hr2 H2].
  destruct r; cbn [app execute_loop]; rewrite ?IH; done.
Qed.

(** A service as the manager keeps it. *)
Record entry := {
  e_Path : string; e_Config : ServiceConfig; e_Args : list string; e_Actions : option serviceFailureActions
}.

(** What the manager documents: names are unique, a service can be opened exactly
    if it exists, connecting and closing change no service, and a call that fails
    changes nothing. *)
Class ServiceLaws `{ServiceManager} := {
  services : manager → gmap string entry;
  name_of : service → string;
  Connect_services m : services (mgr_Connect m).2 = services m;
  Disconnect_services m : services (mgr_Disconnect m) = services m;
  Close_services s m : services (service_Close s m) = services m;
  CreateService_law n p c args m : match CreateService n p c args m with
    | (Ok s, m') => name_of s = n ∧ services m !! n = None ∧
        services m' = <[n := {| e_Path := p; e_Config := c; e_Args := args; e_Actions := None |}]> (services m)
    | (Err _, m') => services m' = services m
    end;
  OpenService_law n m : match OpenService n m with
    | (Ok s, m') => name_of s = n ∧ is_Some (services m !! n) ∧ services m' = services m
    | (Err _, m') => services m' = services m
    end;
  Delete_law s m : match service_Delete s m with
    | (Ok _, m') => services m' = delete (name_of s) (services m)
    | (Err _, m') => services m' = services m
    end;
  Change_law s k a m : match ChangeServiceConfig2 s k a m with
    | (Ok _, m') => services m' =
        alter (λ e, {| e_Path := e_Path e; e_Config := e_Config e; e_Args := e_Args e; e_Actions := Some a |})
              (name_of s) (services m)
    | (Err _, m') => services m' = services m
    end
}.

Section laws.
Context `{ServiceLaws} (Program : string) (Args : list string) (LookPath Abs : string → result string).
Implicit Types (m : manager) (n config : string).

(** The entry of the service, with what the manager does when it fails. *)
Definition own_entry (path config : string) (actions : option serviceFailureActions) : entry :=
  {| e_Path := path; e_Config := own_config Program; e_Args := ["agent"; "--config"; config]; e_Actions := actions |}.

(** Adding the service: on success the name was free and now runs the agent, with
    a restart after thirty seconds (30000 ms fit the field); on failure nothing
    changed, or the service was created without the restart and stays. *)
Theorem addWindowService_spec n config m :
  match addWindowService Program Args LookPath Abs n config m with
  | (Ok _, m') => ∃ path, getServicePath Args LookPath Abs = Ok path ∧ services m !! n = None ∧
      services m' = <[n := own_entry path config (Some
        {| fa_ResetPeriod := 30; fa_Actions := [{| sc_Type := 1; sc_Delay := 30000 |}] |})]> (services m)
  | (Err _, m') => services m' = services m ∨
      ∃ path, services m !! n = None ∧ services m' = <[n := own_entry path config None]> (services m)
  end.
Proof.
  unfold addWindowService, mbind, svc_bind, deferring.
  destruct (getServicePath Args LookPath Abs) as [path|e]; [|by left].
  pose proof (Connect_services m) as Hc. destruct (mgr_Connect m) as [[[]|e] m1]; [|by left].
  cbn [snd] in Hc.
  pose proof (CreateService_law n path (own_config Program) ["agent"; "--config"; config] m1) as Hn.
  destruct (CreateService _ _ _ _ m1) as [[s|e] m2].
  2: { left. by rewrite Disconnect_services, Hn. }
  destruct Hn as (Hs & Hfree & Hm2). rewrite Hc in Hfree, Hm2.
  pose proof (Change_law s serviceConfigFailureActions restart_actions m2) as Ha.
  destruct (ChangeServiceConfig2 _ _ _ m2) as [[u|e] m3];
    rewrite Disconnect_services, Close_services, Ha, Hm2.
  - exists path. split_and!; [done|done|]. by rewrite Hs, alter_insert_eq.
  - right. by exists path.
Qed.

(** What was added can be taken away again, and then the manager is as before. *)
Theorem service_add_delete n config m m1 m2 :
  addWindowService Program Args LookPath Abs n config m = (Ok (), m1) →
  deleteWindowsService n m1 = (Ok (), m2) →
  services m2 = services m.
Proof.
  intros Hadd Hdel. pose proof (addWindowService_spec n config m) as Hspec. rewrite Hadd in Hspec.
  destruct Hspec as (path & _ & Hfree & Hm1). revert Hdel.
  unfold deleteWindowsService, mbind, svc_bind, deferring.
  pose proof (Connect_services m1) as Hc. destruct (mgr_Connect m1) as [[[]|e] m3]; [|done].
  cbn [snd] in Hc.
  pose proof (OpenService_law n m3) as Ho. destruct (OpenService n m3) as [[s|e] m4]; [|done].
  destruct Ho as (Hs & _ & Hm4). pose proof (Delete_law s m4) as Hd.
  destruct (service_Delete s m4) as [[u|e] m5]; [|done]. intros [= _ <-].
  rewrite Disconnect_services, Close_services, Hd, Hs, Hm4, Hc, Hm1. by apply delete_insert_id.
Qed.
End laws.

(** ** A concrete manager *)

Module SimpleManager.
(** The services, and whether the failure actions may be changed. *)
Record state := State { s_services : gmap string entry; s_allowed : bool }.

#[export] Instance manager : ServiceManager := {|
  manager := state;
  service := string;
  SERVICE_WIN32_OWN_PROCESS := 16;
  StartAutomatic := 2;
  ErrorNormal := 1;
  mgr_Connect m := (Ok (), m);
  mgr_Disconnect m := m;
  CreateService n p c args m :=
    match s_services m !! n with
    | Some _ => (Err (ErrMsg "The specified service already exists."), m)
    | None => (Ok n, State (<[n := {| e_Path := p; e_Config := c; e_Args := args; e_Actions := None |}]>
                              (s_services m)) (s_allowed m))
    end;
  OpenService n m :=
    match s_services m !! n with
    | Some _ => (Ok n, m)
    | None => (Err (ErrMsg "The specified service does not exist."), m)
    end;
  service_Close _ m := m;
  service_Delete n m := (Ok (), State (delete n (s_services m)) (s_allowed m));
  ChangeServiceConfig2 n _ a m :=
    if s_allowed m
    then (Ok (), State (alter (λ e, {| e_Path := e_Path e; e_Config := e_Config e; e_Args := e_Args e;
                                       e_Actions := Some a |}) n (s_services m)) (s_allowed m))
    else (Err (ErrMsg "Access is denied."), m)
|}.

#[export] Instance laws : ServiceLaws.
Proof.
  refine {| services (m : @WinService.manager manager) := s_services m;
            name_of (s : @service manager) := s |}; try done.
  - intros n p c args m. cbn. by destruct (s_services m !! n) eqn:E.
  - intros n m. cbn. by destruct (s_services m !! n) eqn:E.
  - intros s k a m. cbn. by destruct (s_allowed m).
Defined.
End SimpleManager.

#[local] Existing Instance SimpleManager.manager.
#[local] Existing Instance SimpleManager.laws.

Definition sample_manager (allowed : bool) : manager := SimpleManager.State ∅ allowed.

Definition sample_action (add : bool) (m : manager) : result unit * manager :=
  serviceAction "rke2" ["rke2.exe"] Ok (λ p, Ok ("C:\" +:+ p)) add (negb add) "rke2" "C:\config.yaml" m.

Lemma service_add_delete_witness :
  services (sample_action false (sample_action true (sample_manager true)).2).2 = services (sample_manager true).
Proof.
  refine (service_add_delete "rke2" ["rke2.exe"] Ok (λ p, Ok ("C:\" +:+ p)) "rke2" "C:\config.yaml"
    (sample_manager true) (sample_action true (sample_manager true)).2
    (sample_action false (sample_action true (sample_manager true)).2).2 _ _); vm_compute; reflexivity.
Defined.

(** Without the right to set the failure actions the command fails, but the
    service is there, starts with the machine, and cannot be added again. *)
Example failed_add_stays :
  let m := (sample_action true (sample_manager false)).2 in
  is_Ok (sample_action true (sample_manager false)).1 = false ∧
  (e_Actions <$> SimpleManager.s_services m !! "rke2") = Some None ∧
  is_Ok (sample_action true m).1 = false.
Proof. vm_compute. done. Qed.
